(* ===== verification/_CoqProject ===== *)
-Q . S2P
Prelude.v
RustStr.v
Utf8.v
Security.v
Json.v
Payload.v
LicenseModels.v
LicenseClient.v
LicenseDevice.v
LicenseRegistration.v
LicenseService.v
LicenseExamples.v
NetAddr.v
NetBind.v
RuntimeSettings.v
EnvFile.v
ServiceConfigs.v
RuntimeStore.v
AppLog.v
Accounts.v
AccessTables.v
Auth.v
Access.v
AccessRules.v
AccessSaves.v
Companies.v
CompanyRules.v
CompanyLookup.v
LookupRules.v
Support.v
WebAssets.v
WebhookRoutes.v
InternalRoutes.v
Licensing.v
LicensingRules.v
Tunnel.v
Quic.v
BridgeStreams.v
ServiceLifecycle.v
DatabaseConfig.v
Providers.v
Entities.v
EntityRules.v
Schemas.v
SchemaRules.v
Drivers.v
Integrations.v
Migrations.v
MigrationRules.v
MigrationStart.v
MigrationSettles.v
DbWorld.v
AppTables.v
AppCommands.v
AppDispatch.v
AppRules.v
AppTexts.v
CommandLine.v
OsServices.v
ApiServer.v
WebProxy.v
WebServer.v
WebSocketHub.v
EventServices.v
Console.v
AppInfo.v
RuntimeCommands.v
Startup.v
Desktop.v
ConsoleExamples.v
AccountExamples.v
AccessExamples.v
MigrationExamples.v
CompanyExamples.v
LicensingExamples.v
EntityExamples.v
AppExamples.v
ServerExamples.v
IntegrationExamples.v
TunnelExamples.v
