(* ===== verification/Prelude.v ===== *)
(** * Verification library of the Rust code of the Tunnara platform

    The repository holds a desktop console with its local services
    ([apps/console/src-tauri]), the licensing client it embeds
    ([generic-license-tauri]), and the Rust crates and services of the tunnel
    ([crates], [services]). This library models their logic as computable Rocq
    functions and step relations, and proves what makes them correct.

    ** Parts, and where they are modelled

    Paths without a root are those of [apps/console/src-tauri/src].

    Foundations.
    - [Prelude]: results with the [?] operator, state passing ([St W A] is
      [W -> A * W]), invariants and frames of a computation ([stable], [frames],
      the hints [frames] and the tactic [frame]), generic lemmas and tactics.
    - [RustStr], [Utf8], [Json], [NetAddr]: the parts of the Rust standard
      library and of serde_json's value type that the code uses: texts as UTF-8
      bytes, trimming, case, searching, integer parsing, paths, JSON values,
      [SocketAddr] parsing. These model the language, not the repository.
      [Payload]: the readers of command payloads.

    Licensing client ([generic-license-tauri/src]).
    - [LicenseModels]: models.rs and error.rs. [LicenseClient]: client.rs, the
      requests and the decoding of replies. [LicenseDevice]: device.rs.
      [LicenseRegistration]: registration.rs, the signed registration file.
      [LicenseService]: service.rs and cache.rs, the decision whether the
      application may run, online and offline, and the commands of commands.rs.

    Settings and listeners.
    - [RuntimeSettings]: the settings record of runtime_config.rs, its
      defaults, normalisation, port table and the keys of the ".env" file.
      [EnvFile]: reading that file back. [RuntimeStore]: load, save and resolve.
      [ServiceConfigs]: the three config.rs files. [NetBind]: net_bind.rs.

    The local database, by rows.
    - [Accounts]: the tables of migrations.rs that the account commands use,
      with one function for each SQL statement; [AccessTables]: the statements
      of commands/access.rs with the keys and cascades SQLite enforces.
      [Security]: security.rs. [AppLog]: db.rs. [Auth]: commands/auth.rs.
      [Support]: commands/support.rs. [Access]: commands/access.rs, with
      [AccessRules] and [AccessSaves]. [Companies] and [CompanyLookup]:
      commands/companies.rs, with [CompanyRules] and [LookupRules].
      [Licensing]: commands/licensing.rs, with [LicensingRules]. [Integrations]:
      commands/integrations.rs.
    - [Migrations]: migrations.rs, over those rows and a catalogue of tables,
      columns and indexes; [MigrationRules], [MigrationStart] and
      [MigrationSettles]: what it keeps, when it succeeds, what it repeats.

    The local database and its providers, by texts.
    - [DatabaseConfig]: core/database/config.rs and its siblings.
      [Providers]: core/database/provider and sqlite.rs, with the providers of
      mysql.rs and postgres.rs. [Schemas] and [Drivers]: the tables of the three
      databases, and the health checks and schema runs of the two drivers, with
      [SchemaRules]. [Entities]: commands/entities.rs, with [EntityRules].
    - [DbWorld]: both views together. [AppTables], [AppCommands] and
      [AppDispatch]: internal_api/app_commands.rs, with [AppRules] and
      [AppTexts]. [AppInfo]: commands/app.rs.

    Local services.
    - [WebhookRoutes]: native_webhook/routes.rs. [WebSocketHub]:
      native_websocket/hub.rs and the sockets of server.rs. [ServiceLifecycle]:
      start, stop, adoption and status, which native_webhook/server.rs and
      native_websocket/server.rs share line by line; the files differ only in
      the texts and accessors that the class [ManagedService] lists, and
      [EventServices] gives both instances.
    - [InternalRoutes]: internal_api/routes.rs, docs.rs and state.rs.
      [ApiServer]: internal_api/server.rs. [WebAssets]: internal_api/web_app.rs.
      [WebProxy] and [WebServer]: internal_api/web_server.rs, the requests and
      the life cycle.

    The process.
    - [Console]: app_state.rs and the state of the process, its four servers
      included. [RuntimeCommands]: commands/runtime.rs, webhook.rs and
      websocket.rs. [CommandLine]: cli/args.rs. [Startup]: main.rs,
      cli/runner.rs and the orchestrator of lib.rs. [Desktop]: the window, the
      tray and the menu of lib.rs, with the window commands of
      commands/runtime.rs. [OsServices]: service/, core/mod.rs, integrations/.

    Tunnel ([crates], [services]).
    - [Tunnel]: the crates tunnara-types, tunnara-protocol, tunnara-config,
      tunnara-agent-core and tunnara-sdk-c, the services coordinator, edge,
      relay and agent, and the loop of the bridge's client. [Quic]:
      tunnara-quic, and the set-up of quic-bridge. [BridgeStreams]: the bytes
      and the tasks of quic-bridge.

    Examples: [LicenseExamples], [ConsoleExamples], [AccountExamples],
    [AccessExamples], [MigrationExamples], [CompanyExamples],
    [LicensingExamples], [EntityExamples], [AppExamples], [ServerExamples],
    [IntegrationExamples] and [TunnelExamples] instantiate
    every interface with computable data and run the theorems there.

    How they interact: [RuntimeStore] resolves the stored settings into a
    configuration of [ServiceConfigs], [ServiceLifecycle], [ApiServer] and
    [WebServer] start a server from it through [NetBind], and the routes serve
    requests with the same configuration. The web server's proxy adds the token
    that the guard of [InternalRoutes] asks for, and runs commands through
    [AppDispatch], which calls the account commands of [Auth] and the generic
    records of [Entities]. [Console] holds the slot of each server;
    [RuntimeCommands], [Startup] and [Desktop] start and stop them there.
    [Support] and [Access] check sessions through [Auth], [Licensing] through
    both, and asks [LicenseService]; all write through [AppLog].

    ** Correspondence

    A definition keeps the name of the code where that is free, and the comment
    above it gives the file, the lines and the symbol it translates. State is
    explicit: a command or handler is a function from the state before it to its
    result and the state after it; errors are values of [result]. A record
    stands for a struct, an inductive type for an enum, [gmap string string] for
    the process environment, [Z] and [N] for integers with casts written out, a
    list of rows for a table. What happens at the same time is a list of actions:
    the requests of [WebhookRoutes], the copies and tasks of [BridgeStreams],
    the events of [Desktop].

    The database has two views. A statement whose text is fixed is a function on
    the rows of its tables; a statement whose text the code builds is that text
    with its parameters, and what SQLite answers to it is a parameter
    ([SqlDb], [SqlCombo], [SqlNames], [SqlCount]). [DbWorld] joins them: a text
    may change any table. [Migrations] adds the catalogue.

    Code outside the repository is a class parameter: sockets and sleeping
    ([NetWorld]), files and SQLite ([ConsoleOs], [LogOs], [Statements],
    [AssetFiles], [FileTree], [DatabaseDrivers], [ExternalDrivers]), threads
    ([Spawner], [ServerWorld], [ApiServerWorld], [WebServerWorld]), channels
    ([Channels], [SocketWorld]), requests and headers ([HttpRequests],
    [ApiWorld], [ProxyWorld], [RuntimeWorld], [HttpSend], [CnpjWorld]), windows
    and the tray ([WindowSystem]), quinn and rustls ([QuicStack]), cryptography ([Crypto]),
    clocks, identifiers and randomness ([Randomness], [AuthWorld], [SqlClock],
    [ChronoText], [TunnelWorld]), serializers ([Serde], [JsonText], [AppWorld]),
    Unicode's case ([UnicodeUpper]), the compiler's values ([BuildInfo]), and
    the licensing client's HTTP, files, clock and base 64. [NativeServices] is
    the interface by which [AppCommands] uses the servers. What is assumed of
    them is a class of its own ([CryptoLaws], [SocketWorldLaws], [SerdeLaws],
    [LicenseWorldLaws], [WindowLaws]) or a hypothesis of the theorem.

    ** What the theorems show

    - Licensing: a decision that allows rests on a license that is not blocked,
      not expired and lists the caller's device, not blocked, as far as the
      configuration asks for each; online decisions are cached under the
      document; offline decisions are marked and come from a file no older than
      configured; the check ends for a service that honours its own
      registrations; a registration file is accepted exactly when its signature
      verifies. The console shows the protected settings only under an unlock,
      starts one trial per company, and asks with one device key.
    - Settings: the ".env" file and the process environment it produces give
      the settings back; normalisation is idempotent and yields ports a service
      can run on; conflicting ports are refused before anything is written.
    - Listeners and services: a service never moves to another port; starting
      is idempotent for the configuration it serves; a service reported as
      running has a port; a service that is switched off is never started; the
      proxy's requests pass the guard.
    - Accounts: which tokens name a user, that a user has one session at most
      over any sequence of commands, that logging in, changing a password and
      unlocking need what they claim to need, over both front ends; the tables
      keep their type; the last active master stays but for one command; an
      unlock opens exactly the scope and time asked for.
    - Records: documents of companies are unique; the texts sent to a database
      come from the catalogue and the schema alone; the schemas fit the generic
      commands; values survive the trip through a driver; the limit of the
      look-ups holds in every window; a service is called the way it was saved,
      and its calls never name one that is gone.
    - Migration: it adds no account that can be used; when a start succeeds; the
      next start changes nothing.
    - The desktop: no window is hidden while there is no tray icon, and
      closing to the tray comes back; the data directory changes after its data.
    - Local services: the token guard, the containment of served files, the
      event ring as a window on the history, unique event numbers under any
      interleaving of requests, broadcasts to every live client and no other.
    - Tunnel: the coordinator answers each frame once and in order; the agent's
      table lists the tunnels applied last; a carried connection delivers what
      arrived, in order and to the end, in finitely many steps of its own; a
      server waits for every stream; no connection trusts an empty set of roots.

    ** Bounds and fuel

    [LicenseService.evaluate_legacy] recurses without a bound in the code and
    takes fuel here: one round is enough when auto-registration is off and three
    when the service honours a registration, and both are proved; running out of
    fuel is a third outcome, apart from results and errors. The check of
    [Licensing] hands that fuel on. Retry loops keep the code's
    own bound of ten binds. [RustStr.trim_end_str] counts down from the length
    of its text, which always suffices. A carried connection's own steps are
    bounded by the bytes that are left. Everything else is structural.

    ** Not modelled

    Poisoned mutexes and panicking threads; NUL bytes in environment values;
    wrapping of the 64-bit event counter after 2^64 requests; Windows paths; the
    interior of axum, tokio, reqwest, quinn, Tauri and SQLite. Commands on the
    tables run one at a time. The parsers clap derives for the tunnel's services,
    tracing, the derived serializers, the statics that hold the mutexes, and
    the trait of tunnara-transport, which nothing implements, have no
    definitions: there is no logic of the repository in them. *)

From stdpp Require Export base tactics list numbers strings pretty gmap.
From Stdlib Require Export Lia.

(** ** Results: Rust's [Result<A, E>] *)

Inductive result (E A : Type) : Type :=
| Ok (a : A)
| Err (e : E).
Arguments Ok {E A} a.
Arguments Err {E A} e.

#[export] Instance result_ret E : MRet (result E) := fun A a => Ok a.
#[export] Instance result_bind E : MBind (result E) := fun A B f r =>
  match r with
  | Ok a => f a
  | Err e => Err e
  end.
#[export] Instance result_fmap E : FMap (result E) := fun A B f r =>
  match r with
  | Ok a => Ok (f a)
  | Err e => Err e
  end.

Definition is_ok {E A} (r : result E A) : bool :=
  match r with Ok _ => true | Err _ => false end.

(** [Result::ok] *)
Definition ok {E A} (r : result E A) : option A :=
  match r with Ok a => Some a | Err _ => None end.

(** [Result::map_err] *)
Definition map_err {E F A} (f : E -> F) (r : result E A) : result F A :=
  match r with Ok a => Ok a | Err e => Err (f e) end.

(** [Option::ok_or] *)
Definition ok_or {E A} (e : E) (o : option A) : result E A :=
  match o with Some a => Ok a | None => Err e end.

(** [Option::unwrap_or] *)
Definition unwrap_or {A} (d : A) (o : option A) : A :=
  match o with Some a => a | None => d end.

(** [Option::or] / [Option::or_else] *)
Definition or_else {A} (o p : option A) : option A :=
  match o with Some a => Some a | None => p end.

(** [bool::then] *)
Definition bool_then {A} (b : bool) (a : A) : option A :=
  if b then Some a else None.

(** [Option::filter] *)
Definition opt_filter {A} (p : A -> bool) (o : option A) : option A :=
  match o with Some a => if p a then Some a else None | None => None end.

(** ** State passing

    Effectful code is a function from the world before a call to the result
    of the call and the world after it. *)

Definition St (W A : Type) : Type := W -> A * W.

#[export] Instance st_ret W : MRet (St W) := fun A a w => (a, w).
#[export] Instance st_bind W : MBind (St W) := fun A B f c w =>
  let '(a, w') := c w in f a w'.

Lemma st_bind_run {W A B} (c : St W A) (f : A -> St W B) w a w' :
  c w = (a, w') -> (c ≫= f) w = f a w'.
Proof. unfold mbind, st_bind. by intros ->. Qed.

Lemma st_bind_inv {W A B} (c : St W A) (f : A -> St W B) w b w'' :
  (c ≫= f) w = (b, w'') ->
  exists a w', c w = (a, w') /\ f a w' = (b, w'').
Proof. unfold mbind, st_bind. destruct (c w) as [a w'] eqn:E. eauto. Qed.

(** The [?] operator: go on with the value of a result, or return its error. *)
Definition try {W A B E} (c : St W (result E A)) (f : A -> St W (result E B)) :
    St W (result E B) :=
  r ← c; match r with Ok a => f a | Err e => mret (Err e) end.

Declare Scope tunnara_scope.
Delimit Scope tunnara_scope with tunnara.
Notation "x ←? c ; k" := (try c (fun x => k))
  (at level 20, c at level 100, k at level 200, right associativity) : tunnara_scope.

Lemma try_Ok {W A B E} (c : St W (result E A)) (f : A -> St W (result E B)) p b p' :
  try c f p = (Ok b, p') -> exists a p1, c p = (Ok a, p1) /\ f a p1 = (Ok b, p').
Proof.
  unfold try. intros H. apply st_bind_inv in H as (r & p1 & E1 & H). destruct r; [eauto|done].
Qed.

Lemma try_run {W A B E} (c : St W (result E A)) (f : A -> St W (result E B)) p a p1 :
  c p = (Ok a, p1) -> try c f p = f a p1.
Proof. intros H. unfold try. by erewrite st_bind_run by exact H. Qed.

Lemma try_err {W A B E} (c : St W (result E A)) (f : A -> St W (result E B)) p e p1 :
  c p = (Err e, p1) -> try c f p = (Err e, p1).
Proof. intros H. unfold try. by erewrite st_bind_run by exact H. Qed.

Lemma try_inv {W A B E} (c : St W (result E A)) (f : A -> St W (result E B)) p r p' :
  try c f p = (r, p') ->
  (exists a p1, c p = (Ok a, p1) /\ f a p1 = (r, p')) \/
  (exists e, c p = (Err e, p') /\ r = Err e).
Proof.
  unfold try. intros H. apply st_bind_inv in H as (x & p1 & E1 & H). destruct x as [a|e].
  - left. eauto.
  - right. injection H as <- <-. eauto.
Qed.

(** The process environment, as [env::var] and [env::set_var] see it. *)
Abbreviation Env := (gmap string string).

(** ** Tactics *)

(** Split a goal or hypothesis on the scrutinee of an innermost [match]. *)
Ltac break_match :=
  match goal with
  | |- context [match ?x with _ => _ end] =>
      lazymatch x with context [match _ with _ => _ end] => fail | _ => idtac end;
      destruct x eqn:?
  end.
Ltac break_match_in H :=
  match type of H with
  | context [match ?x with _ => _ end] =>
      lazymatch x with context [match _ with _ => _ end] => fail | _ => idtac end;
      destruct x eqn:?
  end.

(** Close an equivalence between option or boolean equations. *)
Ltac solve_iff :=
  split; intros; destruct_or?; destruct_and?; simplify_eq; repeat split; try (by auto); try congruence.

(** Run one state-monad bind found in a hypothesis. *)
Tactic Notation "run_bind" hyp(H) simple_intropattern(a) ident(w) "as" ident(E) :=
  apply st_bind_inv in H; destruct H as (a & w & E & H).
Tactic Notation "run_bind" hyp(H) simple_intropattern(a) ident(w) :=
  apply st_bind_inv in H; destruct H as (a & w & ? & H).

Create HintDb tunnara discriminated.
Create Rewrite HintDb tunnara.

(** ** What a stateful call keeps *)

(** [c] keeps a property of the state, whatever it answers. *)
Definition stable {S A} (I : S -> Prop) (c : St S A) : Prop :=
  forall s a s', I s -> c s = (a, s') -> I s'.

(** [c] leaves a part of the state alone. *)
Definition frames {S B A} (f : S -> B) (c : St S A) : Prop :=
  forall s a s', c s = (a, s') -> f s' = f s.

Section Stable.
Context {S : Type} (I : S -> Prop).

Lemma stable_ret {A} (a : A) : stable I (mret a : St S A).
Proof. intros s b s' HI [= _ <-]. done. Qed.
Lemma stable_bind {A B} (c : St S A) (f : A -> St S B) :
  stable I c -> (forall a, stable I (f a)) -> stable I (c ≫= f).
Proof. intros Hc Hf s b s' HI H. run_bind H a s1 as E. eapply Hf; [|exact H]. by eapply Hc. Qed.
Lemma stable_try {A B E} (c : St S (result E A)) (f : A -> St S (result E B)) :
  stable I c -> (forall a, stable I (f a)) -> stable I (try c f).
Proof. intros Hc Hf. apply stable_bind; [done|]. intros [a|e]; [done|apply stable_ret]. Qed.
(** The rest of a call may use what its first part answers. *)
Lemma stable_try_post {A B E} (P : A -> Prop) (c : St S (result E A)) (f : A -> St S (result E B)) :
  stable I c -> (forall s a s', c s = (Ok a, s') -> P a) -> (forall a, P a -> stable I (f a)) ->
  stable I (try c f).
Proof.
  intros Hc HP Hf s b s' HI [(a & s1 & E1 & H)|(e & E1 & ->)]%try_inv; [|by eapply Hc].
  eapply Hf; [by eapply HP|by eapply Hc|exact H].
Qed.
End Stable.

Lemma frames_stable {S B A} (f : S -> B) (c : St S A) :
  frames f c <-> forall b, stable (fun s => f s = b) c.
Proof.
  split.
  - intros H b s a s' <- E. by apply H in E.
  - intros H s a s' E. by eapply H.
Qed.

Section Frames.
Context {S T : Type} (f : S -> T).

Lemma frames_ret {A} (a : A) : frames f (mret a : St S A).
Proof. intros s b s' [= _ <-]. done. Qed.
Lemma frames_bind {A B} (c : St S A) (g : A -> St S B) :
  frames f c -> (forall a, frames f (g a)) -> frames f (c ≫= g).
Proof. intros Hc Hg s b s' H. run_bind H a s1 as E. rewrite (Hg a _ _ _ H). by eapply Hc. Qed.
Lemma frames_try {A B E} (c : St S (result E A)) (g : A -> St S (result E B)) :
  frames f c -> (forall a, frames f (g a)) -> frames f (try c g).
Proof. intros Hc Hg. apply frames_bind; [done|]. intros [a|e]; [apply Hg|apply frames_ret]. Qed.
End Frames.

(** A [for] loop over calls that may fail: [?] leaves it. *)
Fixpoint each {S A E} (f : A -> St S (result E unit)) (l : list A) : St S (result E unit) :=
  match l with
  | [] => mret (Ok ())
  | x :: r => try (f x) (fun _ => each f r)
  end.

Lemma stable_each {S A E} (I : S -> Prop) (f : A -> St S (result E unit)) l :
  (forall a, stable I (f a)) -> stable I (each f l).
Proof. intros Hf. induction l; cbn; [apply stable_ret|by apply stable_try]. Qed.

Create HintDb frames discriminated.
#[export] Hint Resolve stable_ret frames_ret : frames.

(** Walk through a call, down to the operations it is made of. *)
Ltac frame :=
  repeat first
    [ solve [eauto 3 with frames nocore]
    | apply stable_try; [|intros] | apply stable_bind; [|intros]
    | apply frames_try; [|intros] | apply frames_bind; [|intros]
    | match goal with
      | |- forall _, _ => intro
      | |- stable _ (if ?b then _ else _) => destruct b
      | |- stable _ (match ?x with _ => _ end) => destruct x
      | |- frames _ (if ?b then _ else _) => destruct b
      | |- frames _ (match ?x with _ => _ end) => destruct x
      end ].

(** ** Options *)

Lemma or_else_Some {A} (o p : option A) a :
  or_else o p = Some a <-> o = Some a \/ (o = None /\ p = Some a).
Proof. destruct o; simpl; solve_iff. Qed.

Lemma or_else_None {A} (o p : option A) :
  or_else o p = None <-> o = None /\ p = None.
Proof. destruct o; simpl; solve_iff. Qed.

Lemma opt_filter_Some {A} (p : A -> bool) o a :
  opt_filter p o = Some a <-> o = Some a /\ p a = true.
Proof. destruct o as [b|]; simpl; [destruct (p b) eqn:E|]; solve_iff. Qed.

Lemma map_err_Ok {E F A} (f : E -> F) (r : result E A) a :
  map_err f r = Ok a <-> r = Ok a.
Proof. destruct r; simpl; solve_iff. Qed.

(** ** Lists *)

(** [Iterator::find] *)
Fixpoint list_find {A} (p : A -> bool) (l : list A) : option A :=
  match l with
  | [] => None
  | x :: r => if p x then Some x else list_find p r
  end.

Lemma list_find_Some {A} (p : A -> bool) l x :
  list_find p l = Some x -> x ∈ l /\ p x = true.
Proof.
  induction l as [|y r IH]; simpl; [done|].
  destruct (p y) eqn:E; [intros [= ->]; split; [left|done]|].
  intros H. destruct (IH H). split; [by right|done].
Qed.

Lemma list_find_None {A} (p : A -> bool) l :
  list_find p l = None <-> Forall (fun x => p x = false) l.
Proof.
  induction l as [|y r IH]; simpl; [by split|].
  rewrite Forall_cons, <- IH. destruct (p y); solve_iff.
Qed.

Lemma list_find_exists {A} (p : A -> bool) l x :
  x ∈ l -> p x = true -> exists y, list_find p l = Some y.
Proof.
  intros Hin Hp. destruct (list_find p l) as [y|] eqn:E; [eauto|].
  rewrite list_find_None, Forall_forall in E. specialize (E x Hin). congruence.
Qed.

(** The last [n] elements of a list. *)
Definition last_n {A} (n : nat) (l : list A) : list A := drop (length l - n) l.

Lemma length_last_n {A} n (l : list A) : length (last_n n l) = n `min` length l.
Proof. unfold last_n. rewrite length_drop. lia. Qed.

Lemma last_n_all {A} n (l : list A) : length l <= n -> last_n n l = l.
Proof. intros H. unfold last_n. replace (length l - n) with 0 by lia. done. Qed.

Lemma last_n_snoc {A} n (l : list A) x :
  last_n n (last_n n l ++ [x]) = last_n n (l ++ [x]).
Proof.
  unfold last_n. rewrite <- (drop_app_le _ [x]) by lia.
  rewrite drop_drop, length_drop, !length_app. simpl. f_equal. lia.
Qed.
#[export] Hint Rewrite @length_last_n : tunnara.

(** Insertion sort: [sort], and [ORDER BY] of a query. *)
Section Sort.
Context {A : Type} (le : A -> A -> bool).

Fixpoint sort_insert (x : A) (l : list A) : list A :=
  match l with
  | [] => [x]
  | y :: r => if le x y then x :: l else y :: sort_insert x r
  end.

Fixpoint sort_by (l : list A) : list A :=
  match l with
  | [] => []
  | x :: r => sort_insert x (sort_by r)
  end.

Lemma sort_insert_perm x l : Permutation (sort_insert x l) (x :: l).
Proof.
  induction l as [|y r IH]; cbn; [done|]. destruct (le x y); [done|].
  rewrite IH. apply Permutation_swap.
Qed.

Lemma sort_by_perm l : Permutation (sort_by l) l.
Proof. induction l as [|x r IH]; cbn; [done|]. by rewrite sort_insert_perm, IH. Qed.
End Sort.

(** [Vec::dedup] *)
Fixpoint dedup {A} (eqb : A -> A -> bool) (l : list A) : list A :=
  match l with
  | [] => []
  | x :: r => match r with
              | y :: _ => if eqb x y then dedup eqb r else x :: dedup eqb r
              | [] => [x]
              end
  end.
