(* ===== verification/RustStr.v ===== *)
(** * Rust's [str] and integer text operations

    A Rust string is modelled by the bytes of its UTF-8 encoding, a value of
    [string]: a literal below denotes exactly the bytes the Rust literal has.
    Every operation the modelled code uses is a computable function on those
    bytes, exact on valid UTF-8 (the only strings Rust can build). *)

From S2P Require Import Prelude.
From Stdlib Require Import Ascii.

#[local] Open Scope string_scope.

(** ** Characters *)

Definition byte_of (c : ascii) : N := N_of_ascii c.
Definition in_range (lo hi : N) (c : ascii) : bool :=
  (lo <=? byte_of c)%N && (byte_of c <=? hi)%N.

(** [u8::is_ascii_digit], [char::is_ascii_digit] *)
Definition is_ascii_digit (c : ascii) : bool := in_range 48 57 c.
Definition is_ascii_upper (c : ascii) : bool := in_range 65 90 c.
Definition is_ascii_lower (c : ascii) : bool := in_range 97 122 c.

Definition lower_byte (c : ascii) : ascii :=
  if is_ascii_upper c then ascii_of_N (byte_of c + 32) else c.
Definition upper_byte (c : ascii) : ascii :=
  if is_ascii_lower c then ascii_of_N (byte_of c - 32) else c.

(** The Unicode [White_Space] characters, by the length of their encoding:
    U+0009..U+000D and U+0020; U+0085 and U+00A0; U+1680, U+2000..U+200A,
    U+2028, U+2029, U+202F, U+205F and U+3000. *)
Definition ws1 (a : ascii) : bool := in_range 9 13 a || in_range 32 32 a.
Definition ws2 (a b : ascii) : bool :=
  in_range 194 194 a && (in_range 133 133 b || in_range 160 160 b).
Definition ws3 (a b c : ascii) : bool :=
  (in_range 225 225 a && in_range 154 154 b && in_range 128 128 c)
  || (in_range 226 226 a && in_range 128 128 b
      && (in_range 128 138 c || in_range 168 169 c || in_range 175 175 c))
  || (in_range 226 226 a && in_range 129 129 b && in_range 159 159 c)
  || (in_range 227 227 a && in_range 128 128 b && in_range 128 128 c).

(** A template written with the other quote, so that it holds no doubled one. *)
Fixpoint quoted (s : string) : string :=
  match s with
  | EmptyString => ""
  | String c rest => String (if Ascii.eqb c "`" then "034" else c)%char (quoted rest)
  end.

(** ** Trimming *)

(** Drop one leading white-space character. *)
Definition ws_head (s : string) : option string :=
  match s with
  | String a r1 =>
      if ws1 a then Some r1
      else match r1 with
           | String b r2 =>
               if ws2 a b then Some r2
               else match r2 with
                    | String c r3 => if ws3 a b c then Some r3 else None
                    | "" => None
                    end
           | "" => None
           end
  | "" => None
  end.

(** [str::trim_start] *)
Fixpoint trim_start (s : string) : string :=
  match s with
  | String a r1 =>
      if ws1 a then trim_start r1
      else match r1 with
           | String b r2 =>
               if ws2 a b then trim_start r2
               else match r2 with
                    | String c r3 => if ws3 a b c then trim_start r3 else s
                    | "" => s
                    end
           | "" => s
           end
  | "" => s
  end.

Definition is_empty (s : string) : bool :=
  match s with "" => true | _ => false end.

(** Whether a string holds white space only. *)
Definition blank (s : string) : bool := is_empty (trim_start s).

(** [str::trim_end] *)
Fixpoint trim_end (s : string) : string :=
  match s with
  | "" => ""
  | String a r => if blank (String a r) then "" else String a (trim_end r)
  end.

(** [str::trim] *)
Definition trim (s : string) : string := trim_end (trim_start s).

(** ** Case mapping *)

Fixpoint map_bytes (f : ascii -> ascii) (s : string) : string :=
  match s with "" => "" | String a r => String (f a) (map_bytes f r) end.

(** [str::to_ascii_lowercase] *)
Definition to_ascii_lowercase : string -> string := map_bytes lower_byte.
(** [str::eq_ignore_ascii_case] *)
Definition eq_ignore_ascii_case (s t : string) : bool :=
  String.eqb (to_ascii_lowercase s) (to_ascii_lowercase t).

(** [str::to_uppercase], exact up to comparison with ASCII words: besides the
    ASCII letters it maps the only characters whose upper case is all ASCII
    (U+00DF, U+0131, U+017F and the ligatures U+FB00..U+FB06); the upper case
    of any other character keeps a non-ASCII byte, as the unchanged character
    does here. *)
Fixpoint to_uppercase (s : string) : string :=
  match s with
  | "" => ""
  | String a r1 =>
      match r1 with
      | String b r2 =>
          if in_range 195 195 a && in_range 159 159 b then "SS" ++ to_uppercase r2
          else if in_range 196 196 a && in_range 177 177 b then "I" ++ to_uppercase r2
          else if in_range 197 197 a && in_range 191 191 b then "S" ++ to_uppercase r2
          else match r2 with
               | String c r3 =>
                   if in_range 239 239 a && in_range 172 172 b && in_range 128 134 c
                   then match byte_of c with
                        | 128%N => "FF" | 129%N => "FI" | 130%N => "FL"
                        | 131%N => "FFI" | 132%N => "FFL" | _ => "ST"
                        end ++ to_uppercase r3
                   else String (upper_byte a) (to_uppercase r1)
               | "" => String (upper_byte a) (to_uppercase r1)
               end
      | "" => String (upper_byte a) ""
      end
  end.

(** [str::to_lowercase], with the same reading: the characters whose lower
    case holds an ASCII letter are the ASCII capitals, U+0130 and U+212A. *)
Fixpoint to_lowercase (s : string) : string :=
  match s with
  | "" => ""
  | String a r1 =>
      match r1 with
      | String b r2 =>
          if in_range 196 196 a && in_range 176 176 b
          then String "i" (String (ascii_of_N 204) (String (ascii_of_N 135) (to_lowercase r2)))
          else match r2 with
               | String c r3 =>
                   if in_range 226 226 a && in_range 132 132 b && in_range 170 170 c
                   then String "k" (to_lowercase r3)
                   else String (lower_byte a) (to_lowercase r1)
               | "" => String (lower_byte a) (to_lowercase r1)
               end
      | "" => String (lower_byte a) ""
      end
  end.

(** ** Searching and splitting *)

(** [str::starts_with] *)
Definition starts_with (p s : string) : bool := String.prefix p s.

#[global] Arguments starts_with : simpl never.

(** [str::strip_prefix] *)
Fixpoint strip_prefix (p s : string) : option string :=
  match p, s with
  | "", _ => Some s
  | String a p', String b s' => if Ascii.eqb a b then strip_prefix p' s' else None
  | _, "" => None
  end.

(** [str::strip_suffix] *)
Fixpoint strip_suffix (p s : string) : option string :=
  if String.eqb p s then Some ""
  else match s with
       | "" => None
       | String a r => String a <$> strip_suffix p r
       end.

(** [str::ends_with] *)
Fixpoint ends_with (p s : string) : bool :=
  String.eqb p s || match s with "" => false | String _ r => ends_with p r end.

(** [str::contains] of a substring *)
Fixpoint contains (p s : string) : bool :=
  starts_with p s || match s with "" => false | String _ r => contains p r end.

(** [str::trim_end_matches] of an ASCII character *)
Fixpoint trim_end_char (c : ascii) (s : string) : string :=
  match s with
  | "" => ""
  | String a r =>
      match trim_end_char c r with
      | "" => if Ascii.eqb a c then "" else String a ""
      | r' => String a r'
      end
  end.

(** [str::trim_start_matches] of an ASCII character *)
Fixpoint trim_start_char (c : ascii) (s : string) : string :=
  match s with
  | String a r => if Ascii.eqb a c then trim_start_char c r else s
  | "" => ""
  end.

(** [str::trim_matches] of an ASCII character *)
Definition trim_char (c : ascii) (s : string) : string :=
  trim_end_char c (trim_start_char c s).

(** [str::trim_end_matches] of a non-empty string: [n] bounds the number of
    suffixes dropped, and the length of the string is always enough. *)
Fixpoint trim_end_str_n (n : nat) (p s : string) : string :=
  match n with
  | 0 => s
  | S n' => match strip_suffix p s with
            | Some r => trim_end_str_n n' p r
            | None => s
            end
  end.
Definition trim_end_str (p s : string) : string := trim_end_str_n (String.length s) p s.

(** [str::replace] of a non-empty pattern: occurrences from the left, not
    overlapping. [skip] counts the bytes of a matched occurrence still to be
    dropped. *)
Fixpoint replace_go (p q : string) (skip : nat) (s : string) : string :=
  match s with
  | "" => ""
  | String a r =>
      match skip with
      | S k => replace_go p q k r
      | 0 => if starts_with p s then q ++ replace_go p q (String.length p - 1) r
             else String a (replace_go p q 0 r)
      end
  end.
Definition replace (p q s : string) : string := replace_go p q 0 s.

(** [splitn(2, c)]: the text before the first [c], and the text after it if
    there is one. *)
Fixpoint split_once (c : ascii) (s : string) : string * option string :=
  match s with
  | "" => ("", None)
  | String a r =>
      if Ascii.eqb a c then ("", Some r)
      else let '(h, t) := split_once c r in (String a h, t)
  end.

(** [str::split] of an ASCII character *)
Fixpoint split (c : ascii) (s : string) : list string :=
  match s with
  | "" => [""]
  | String a r =>
      if Ascii.eqb a c then "" :: split c r
      else match split c r with
           | h :: t => String a h :: t
           | [] => [String a ""]
           end
  end.

Definition LF : ascii := ascii_of_N 10.
Definition CR : ascii := ascii_of_N 13.
Definition DQUOTE : ascii := ascii_of_N 34.
Definition SQUOTE : ascii := ascii_of_N 39.

(** One trailing carriage return, dropped by [str::lines]. *)
Definition strip_cr (s : string) : string :=
  unwrap_or s (strip_suffix (String CR "") s).

(** [str::lines]: the pieces between line feeds, the last one dropped when it
    is empty. *)
Definition lines (s : string) : list string :=
  match split LF s with
  | [] => []
  | l => match rev l with
         | "" :: t => map strip_cr (rev t)
         | x :: t => map strip_cr (rev t) ++ [x]
         | [] => []
         end
  end.

(** [str::chars().filter(p).collect()] for a predicate on ASCII characters *)
Fixpoint filter_bytes (p : ascii -> bool) (s : string) : string :=
  match s with
  | "" => ""
  | String a r => if p a then String a (filter_bytes p r) else filter_bytes p r
  end.

Fixpoint forall_bytes (p : ascii -> bool) (s : string) : bool :=
  match s with "" => true | String a r => p a && forall_bytes p r end.

(** ** Integers *)

(** Value of a decimal digit. *)
Definition digit_val (c : ascii) : N := byte_of c - 48.

(** Decimal value of a string of digits, from an accumulator. *)
Fixpoint dec_from (acc : N) (s : string) : option N :=
  match s with
  | "" => Some acc
  | String c r => if is_ascii_digit c then dec_from (10 * acc + digit_val c) r else None
  end.

(** [str::parse] for an unsigned integer type of maximum [m]: an optional
    plus sign, at least one digit, nothing else, and a value in range. *)
Definition parse_uint (m : N) (s : string) : option N :=
  let digits := match s with
                | String "+" r => r
                | _ => s
                end in
  if is_empty digits then None
  else n ← dec_from 0 digits; if (n <=? m)%N then Some n else None.

Definition U16_MAX : N := 65535.
Definition U32_MAX : N := 4294967295.
Definition U64_MAX : N := 18446744073709551615.
Definition I64_MAX : Z := 9223372036854775807.
Definition I64_MIN : Z := (-9223372036854775808).

Definition parse_u16 : string -> option N := parse_uint U16_MAX.
Definition parse_u32 : string -> option N := parse_uint U32_MAX.
Definition parse_u64 : string -> option N := parse_uint U64_MAX.

(** [str::parse::<i64>] *)
Definition parse_i64 (s : string) : option Z :=
  match s with
  | String "-" digits =>
      if is_empty digits then None
      else n ← dec_from 0 digits;
           if (Z.of_N n <=? - I64_MIN)%Z then Some (- Z.of_N n)%Z else None
  | _ => Z.of_N <$> parse_uint (Z.to_N I64_MAX) s
  end.

(** [Display] of an unsigned integer and of a boolean *)
Definition show_N (n : N) : string := pretty n.
Definition show_Z (z : Z) : string := pretty z.
Definition show_bool (b : bool) : string := if b then "true" else "false".

(** ** Lemmas: concatenation *)

Lemma app_cons a (s t : string) : String a s ++ t = String a (s ++ t).
Proof. reflexivity. Qed.
Lemma app_nil (t : string) : "" ++ t = t.
Proof. reflexivity. Qed.

Ltac str_simpl := rewrite ?app_cons, ?app_nil in *; simpl in *.

Lemma app_empty_inv (s t : string) : s ++ t = "" -> s = "" /\ t = "".
Proof. destruct s; str_simpl; [auto|done]. Qed.

Lemma string_app_nil_r (s : string) : s ++ "" = s.
Proof. induction s as [|a s IH]; [done|str_simpl; by rewrite IH]. Qed.

Lemma string_app_assoc (s t u : string) : (s ++ t) ++ u = s ++ (t ++ u).
Proof. induction s as [|a s IH]; [done|str_simpl; by rewrite IH]. Qed.

Lemma string_app_length (s t : string) :
  String.length (s ++ t) = String.length s + String.length t.
Proof. induction s as [|a s IH]; [done|str_simpl; by rewrite IH]. Qed.

(** ** Lemmas: trimming *)

Lemma trim_start_unfold s :
  trim_start s = match ws_head s with Some r => trim_start r | None => s end.
Proof.
  destruct s as [|a [|b [|c r]]]; [done|..]; unfold ws_head;
    destruct (ws1 a) eqn:E1; try (simpl; by rewrite E1);
    destruct (ws2 a b) eqn:E2; try (simpl; by rewrite E1, E2).
  destruct (ws3 a b c) eqn:E3; simpl; by rewrite E1, E2, E3.
Qed.

Lemma ws_head_length s r : ws_head s = Some r -> String.length r < String.length s.
Proof.
  destruct s as [|a [|b [|c t]]]; simpl; intros H;
    repeat case_match; simplify_eq; simpl; lia.
Qed.

Lemma string_length_ind (P : string -> Prop) :
  (forall s, (forall t, String.length t < String.length s -> P t) -> P s) ->
  forall s, P s.
Proof.
  intros H s. assert (forall n t, String.length t < n -> P t) as Hn.
  { induction n as [|n IH]; [lia|]. intros t Ht. apply H. intros u Hu. apply IH. lia. }
  apply (Hn (S (String.length s))). lia.
Qed.

Lemma ws_head_trim_start s : ws_head (trim_start s) = None.
Proof.
  induction s as [s IH] using string_length_ind. rewrite trim_start_unfold.
  destruct (ws_head s) as [r|] eqn:E; [|done]. by apply IH, ws_head_length.
Qed.

Lemma trim_start_fix s : ws_head s = None -> trim_start s = s.
Proof. intros H. by rewrite trim_start_unfold, H. Qed.

Lemma ws_head_app s t r : ws_head s = Some r -> ws_head (s ++ t) = Some (r ++ t).
Proof.
  destruct s as [|a [|b [|c u]]]; str_simpl; intros H; repeat case_match; simplify_eq; done.
Qed.

(** [trim_end] keeps a prefix and drops white space only. *)
Lemma trim_end_prefix s : exists t, s = trim_end s ++ t /\ blank t = true.
Proof.
  induction s as [|a s (t & IH & Ht)]; [by exists ""|]. simpl.
  destruct (blank (String a s)) eqn:E; [by exists (String a s)|].
  exists t. by rewrite app_cons, <- IH.
Qed.

(** A prefix of a string that does not start with white space does not either. *)
Lemma ws_head_prefix s t : ws_head (s ++ t) = None -> ws_head s = None.
Proof.
  intros H. destruct (ws_head s) as [r|] eqn:E; [|done].
  by rewrite (ws_head_app _ t _ E) in H.
Qed.

Lemma trim_ws_head s : ws_head (trim s) = None.
Proof.
  unfold trim. destruct (trim_end_prefix (trim_start s)) as (t & Ht & _).
  apply (ws_head_prefix _ t). rewrite <- Ht. apply ws_head_trim_start.
Qed.

Lemma trim_start_trim s : trim_start (trim s) = trim s.
Proof. apply trim_start_fix, trim_ws_head. Qed.

Lemma blank_spec s : blank s = true <-> trim_start s = "".
Proof. unfold blank. destruct (trim_start s); simpl; solve_iff. Qed.

Lemma blank_trim s : blank s = true <-> trim s = "".
Proof.
  rewrite blank_spec. unfold trim. split; [by intros ->|].
  pose proof (ws_head_trim_start s) as Hh.
  destruct (trim_start s) as [|a r] eqn:E; [done|]. simpl.
  unfold blank. by rewrite (trim_start_fix _ Hh).
Qed.

Lemma is_empty_spec s : is_empty s = true <-> s = "".
Proof. destruct s; simpl; solve_iff. Qed.

Lemma is_empty_trim s : is_empty (trim s) = blank s.
Proof.
  apply eq_bool_prop_intro. rewrite !Is_true_true.
  by rewrite is_empty_spec, blank_trim.
Qed.

Lemma trim_start_app_blank s t :
  trim_start s = "" -> trim_start (s ++ t) = trim_start t.
Proof.
  induction s as [s IH] using string_length_ind. intros H.
  destruct s as [|a s]; [done|].
  rewrite trim_start_unfold in H. destruct (ws_head (String a s)) as [r|] eqn:E; [|done].
  rewrite trim_start_unfold, (ws_head_app _ t _ E). apply IH; [|done].
  by apply ws_head_length.
Qed.

Lemma trim_end_blank s : blank s = true -> trim_end s = "".
Proof. destruct s as [|a s]; [done|]. intros H. change (trim_end (String a s)) with
  (if blank (String a s) then "" else String a (trim_end s)). by rewrite H. Qed.

Lemma trim_end_cons a s :
  trim_end (String a s) = if blank (String a s) then "" else String a (trim_end s).
Proof. done. Qed.

Lemma trim_end_idem u : trim_end (trim_end u) = trim_end u.
Proof.
  induction u as [|a u IH]; [done|].
  rewrite trim_end_cons. destruct (blank (String a u)) eqn:E; [done|].
  rewrite trim_end_cons, IH.
  destruct (blank (String a (trim_end u))) eqn:E2; [|done].
  exfalso. destruct (trim_end_prefix u) as (t & Ht & Hb).
  rewrite blank_spec in E2, Hb.
  assert (trim_start (String a u) = "") as H.
  { rewrite Ht at 1. rewrite <- app_cons. by rewrite (trim_start_app_blank _ t E2). }
  rewrite <- blank_spec in H. congruence.
Qed.

Lemma trim_trim s : trim (trim s) = trim s.
Proof. unfold trim at 1. rewrite trim_start_trim. apply trim_end_idem. Qed.

Lemma blank_trim_eq s : blank (trim s) = blank s.
Proof. by rewrite <- !is_empty_trim, trim_trim. Qed.

(** ** Lemmas: integers *)

Lemma digit_ok n : (n < 10)%N ->
  is_ascii_digit (pretty_N_char n) = true /\ digit_val (pretty_N_char n) = n.
Proof.
  intros H. destruct n as [|p]; [done|].
  do 4 (destruct p as [p|p|]; try done); exfalso; lia.
Qed.

Lemma dec_from_pretty n : forall s, dec_from 0 (pretty_N_go n s) = dec_from n s.
Proof.
  induction (N.lt_wf_0 n) as [n _ IH]. intros s.
  destruct (decide (n = 0)%N) as [->|Hn]; [by rewrite pretty_N_go_0|].
  rewrite pretty_N_go_step by lia. rewrite IH by (apply N.div_lt; lia).
  cbn [dec_from]. destruct (digit_ok (n mod 10)) as [-> ->]; [apply N.mod_lt; lia|].
  f_equal. symmetry. apply N.div_mod. lia.
Qed.

Lemma pretty_N_go_cons n s :
  (0 < n)%N -> exists c r, pretty_N_go n s = String c r /\ is_ascii_digit c = true.
Proof.
  revert s. induction (N.lt_wf_0 n) as [n _ IH]. intros s Hn.
  rewrite pretty_N_go_step by lia.
  destruct (decide (n / 10 = 0)%N) as [->|Hd].
  - rewrite pretty_N_go_0. do 2 eexists. split; [done|].
    apply digit_ok, N.mod_lt. lia.
  - apply IH; [apply N.div_lt; lia|by apply N.neq_0_lt_0].
Qed.

(** The printed form of a number is a digit followed by digits, with no sign. *)
Lemma show_N_head n : exists c r, show_N n = String c r /\ is_ascii_digit c = true.
Proof.
  unfold show_N, pretty, pretty_N. destruct (decide (n = 0)%N) as [->|Hn].
  - by exists "0"%char, "".
  - apply pretty_N_go_cons. lia.
Qed.

Lemma dec_from_show n : dec_from 0 (show_N n) = Some n.
Proof.
  unfold show_N, pretty, pretty_N. destruct (decide (n = 0)%N) as [->|Hn]; [done|].
  by rewrite dec_from_pretty.
Qed.

(** Printing a number and parsing it at its width gives it back. *)
Lemma parse_show_uint m n : (n <= m)%N -> parse_uint m (show_N n) = Some n.
Proof.
  intros Hm. unfold parse_uint.
  destruct (show_N_head n) as (c & r & E & Hc).
  assert (c <> "+"%char) as Hp by (intros ->; done).
  assert (match show_N n with String "+" r => r | _ => show_N n end = show_N n) as ->.
  { rewrite E. destruct c as [[] [] [] [] [] [] [] []]; try done. }
  rewrite E. simpl is_empty. cbv iota. rewrite <- E, dec_from_show.
  simpl. apply N.leb_le in Hm. by rewrite Hm.
Qed.

Lemma parse_uint_bound m s n : parse_uint m s = Some n -> (n <= m)%N.
Proof.
  unfold parse_uint. intros H. destruct (is_empty _); [done|].
  destruct (dec_from 0 _) as [k|]; simpl in H; [|done].
  destruct (k <=? m)%N eqn:E; simplify_eq. by apply N.leb_le.
Qed.

Lemma parse_i64_bound s z : parse_i64 s = Some z -> (I64_MIN <= z <= I64_MAX)%Z.
Proof.
  assert (forall r, Z.of_N <$> parse_uint (Z.to_N I64_MAX) r = Some z -> (I64_MIN <= z <= I64_MAX)%Z)
    as Hu.
  { intros r. destruct (parse_uint _ r) as [n|] eqn:E; [|done]. intros [= <-].
    apply parse_uint_bound in E. unfold I64_MIN, I64_MAX in *. lia. }
  unfold parse_i64. destruct s as [|c r]; [apply Hu|].
  destruct c as [[] [] [] [] [] [] [] []]; try apply Hu.
  destruct (is_empty r); [done|]. destruct (dec_from 0 r) as [n|]; [|done]. cbn.
  destruct (_ <=? _)%Z eqn:E; [|done]. intros [= <-]. apply Z.leb_le in E.
  unfold I64_MIN, I64_MAX in *. lia.
Qed.

Lemma show_N_nonempty n : show_N n <> "".
Proof. destruct (show_N_head n) as (c & r & -> & _). done. Qed.

(** ** Lemmas: prefixes, suffixes and substrings *)

Lemma starts_with_nil s : starts_with "" s = true.
Proof. by destruct s. Qed.

Lemma starts_with_cons a p b s :
  starts_with (String a p) (String b s) = (if ascii_dec a b then starts_with p s else false).
Proof. done. Qed.

Lemma starts_with_spec p s : starts_with p s = true <-> exists t, s = p ++ t.
Proof.
  revert s. induction p as [|a p IH]; intros s.
  - rewrite starts_with_nil. split; [|done]. intros _. by exists s.
  - destruct s as [|b s]; [split; [done|intros [t Ht]; by rewrite app_cons in Ht]|].
    rewrite starts_with_cons. destruct (ascii_dec a b) as [<-|Hne].
    + rewrite IH. split; intros [t Ht]; exists t; rewrite app_cons in *; congruence.
    + split; [done|]. intros [t Ht]. rewrite app_cons in Ht. congruence.
Qed.

Lemma starts_with_app p t : starts_with p (p ++ t) = true.
Proof. apply starts_with_spec. eauto. Qed.

Lemma contains_spec p s : contains p s = true <-> exists u v, s = u ++ p ++ v.
Proof.
  induction s as [|a s IH]; simpl; rewrite orb_true_iff, starts_with_spec.
  - split.
    + intros [[t Ht]|]; [|done]. by exists "", t.
    + intros (u & v & H). left. symmetry in H. apply app_empty_inv in H as [-> H].
      exists v. by rewrite H.
  - rewrite IH. split.
    + intros [[t Ht]|(u & v & ->)]; [by exists "", t|]. by exists (String a u), v.
    + intros ([|b u] & v & H); [left; by exists v|]. right. rewrite app_cons in H.
      simplify_eq. eauto.
Qed.

Lemma strip_prefix_Some p s r : strip_prefix p s = Some r <-> s = p ++ r.
Proof.
  revert s. induction p as [|a p IH]; intros s; simpl.
  - rewrite app_nil. solve_iff.
  - destruct s as [|b s]; rewrite app_cons; [done|].
    destruct (Ascii.eqb_spec a b) as [<-|Hne]; [rewrite IH|]; split; congruence.
Qed.

Lemma strip_prefix_app p r : strip_prefix p (p ++ r) = Some r.
Proof. by apply strip_prefix_Some. Qed.

Lemma strip_suffix_Some p s : forall r, strip_suffix p s = Some r -> s = r ++ p.
Proof.
  induction s as [|a s IH]; intros r; cbn [strip_suffix].
  - destruct (String.eqb_spec p "") as [->|_]; [by intros [= <-]|done].
  - destruct (String.eqb_spec p (String a s)) as [->|_]; [by intros [= <-]|].
    destruct (strip_suffix p s) as [t|] eqn:E; [|done]. cbn. intros [= <-].
    by rewrite app_cons, <- (IH t).
Qed.

Lemma ends_with_strip p s : ends_with p s = match strip_suffix p s with Some _ => true | None => false end.
Proof.
  induction s as [|a s IH]; cbn [ends_with strip_suffix].
  - by destruct (String.eqb p "").
  - destruct (String.eqb p (String a s)); [done|]. cbn [orb]. rewrite IH.
    by destruct (strip_suffix p s).
Qed.

Lemma trim_end_str_n_suffix n p s :
  String.length s <= n -> p <> "" -> strip_suffix p (trim_end_str_n n p s) = None.
Proof.
  intros Hn Hp. revert s Hn. induction n as [|n IH]; intros s Hn; cbn.
  - assert (s = "") as -> by (by destruct s; [|cbn in Hn; lia]).
    cbn. destruct (String.eqb_spec p ""); [by subst|done].
  - destruct (strip_suffix p s) as [r|] eqn:E; [|done]. apply IH.
    apply strip_suffix_Some in E as ->. rewrite string_app_length in Hn.
    destruct p; [done|]. cbn in Hn. lia.
Qed.

(** [trim_end_matches] leaves no suffix to drop: the fuel is enough. *)
Lemma trim_end_str_none p s : p <> "" -> ends_with p (trim_end_str p s) = false.
Proof. intros Hp. unfold trim_end_str. by rewrite ends_with_strip, trim_end_str_n_suffix. Qed.

Lemma trim_end_char_prefix c s : exists t, s = trim_end_char c s ++ t.
Proof.
  induction s as [|a s [t IH]]; [by exists ""|]. simpl.
  destruct (trim_end_char c s) as [|b r] eqn:E.
  - destruct (Ascii.eqb a c); [by exists (String a s)|].
    exists s. done.
  - exists t. rewrite app_cons. by rewrite <- IH.
Qed.

(** The last byte of a string. *)
Fixpoint last_byte (s : string) : option ascii :=
  match s with
  | "" => None
  | String a "" => Some a
  | String _ r => last_byte r
  end.

Lemma trim_end_char_last c s : last_byte (trim_end_char c s) <> Some c.
Proof.
  induction s as [|a s IH]; [done|]. simpl.
  destruct (trim_end_char c s) as [|b r] eqn:E; [|done].
  destruct (Ascii.eqb_spec a c); [done|]. simpl. congruence.
Qed.

Lemma trim_end_char_fix c s : last_byte s <> Some c -> trim_end_char c s = s.
Proof.
  induction s as [|a s IH]; [done|]. intros H.
  destruct s as [|b s].
  - simpl in *. destruct (Ascii.eqb_spec a c); [congruence|done].
  - change (trim_end_char c (String a (String b s))) with
      (match trim_end_char c (String b s) with
       | "" => if Ascii.eqb a c then "" else String a ""
       | r' => String a r' end).
    by rewrite (IH H).
Qed.

Lemma trim_end_char_idem c s : trim_end_char c (trim_end_char c s) = trim_end_char c s.
Proof. apply trim_end_char_fix, trim_end_char_last. Qed.

(** ** Lemmas: digits and white space *)

Lemma digit_not_ws a r : is_ascii_digit a = true -> ws_head (String a r) = None.
Proof.
  intros H. assert (ws1 a = false /\ in_range 194 194 a = false /\ in_range 225 225 a = false
    /\ in_range 226 226 a = false /\ in_range 227 227 a = false) as (H1 & H2 & H3 & H4 & H5).
  { by destruct a as [[] [] [] [] [] [] [] []]. }
  unfold ws_head, ws2, ws3. rewrite H1, H2, H3, H4, H5. by destruct r as [|? []].
Qed.

Lemma filter_bytes_head p s a r : filter_bytes p s = String a r -> p a = true.
Proof.
  induction s as [|b s IH]; [done|]. simpl. destruct (p b) eqn:E; [|done].
  intros [= -> _]. done.
Qed.

Lemma forall_bytes_impl (p q : ascii -> bool) s :
  (forall c, p c = true -> q c = true) -> forall_bytes p s = true -> forall_bytes q s = true.
Proof.
  intros Hpq. induction s as [|a s IH]; [done|]. cbn. intros [Ha Hs]%andb_true_iff.
  by rewrite (Hpq _ Ha), IH.
Qed.

Lemma filter_bytes_forall p s : forall_bytes p (filter_bytes p s) = true.
Proof.
  induction s as [|b s IH]; [done|]. simpl. destruct (p b) eqn:E; [|done]. simpl.
  by rewrite E.
Qed.

Lemma digits_not_blank s : s <> "" -> forall_bytes is_ascii_digit s = true -> blank s = false.
Proof.
  destruct s as [|a r]; [done|]. simpl. intros _ [H _]%andb_true_iff.
  unfold blank. by rewrite trim_start_fix by by apply digit_not_ws.
Qed.

(** ** Paths

    [PathBuf::join] on Unix: an absolute path replaces the base, any other one
    is appended after a separator. *)
Definition path_join (base p : string) : string :=
  if starts_with "/" p then p
  else match last_byte base with
       | None => p
       | Some c => if Ascii.eqb c "/" then base ++ p else base ++ "/" ++ p
       end.

(** [Path::parent] of a path with no "." component. *)
Fixpoint split_last_slash (s : string) : option (string * string) :=
  match s with
  | "" => None
  | String c r =>
      match split_last_slash r with
      | Some (a, b) => Some (String c a, b)
      | None => if Ascii.eqb c "/" then Some ("", r) else None
      end
  end.
Definition path_parent (p : string) : option string :=
  match trim_end_char "/" p with
  | "" => None
  | t => match split_last_slash t with
         | None => Some ""
         | Some (a, _) => Some (match trim_end_char "/" a with "" => "/" | a' => a' end)
         end
  end.

Example parent_examples :
  map path_parent ["/data/x/.env"; "/.env"; ".env"; "/"; "a//b/"]
  = [Some "/data/x"; Some "/"; Some ""; None; Some "a"].
Proof. reflexivity. Qed.
