(* ===== verification/Utf8.v ===== *)
(** * Checked conversion of bytes to text

    [String::from_utf8]: the standard library's validation of a byte string,
    with the position and length of the first error, and its message. *)

From S2P Require Import Prelude RustStr.
From Stdlib Require Import Ascii.

#[local] Open Scope string_scope.

(** Where validation stopped: the length of the valid prefix, and the number
    of bytes of the bad sequence, or [None] when the text ends inside one. *)
Record Utf8Error : Type := { valid_up_to : N; error_len : option N }.

Definition cont (c : ascii) : bool := in_range 128 191 c.

(** The second byte a three- or four-byte sequence may have after its first. *)
Definition second3 (a b : ascii) : bool :=
  (in_range 224 224 a && in_range 160 191 b) || (in_range 225 236 a && cont b)
  || (in_range 237 237 a && in_range 128 159 b) || (in_range 238 239 a && cont b).
Definition second4 (a b : ascii) : bool :=
  (in_range 240 240 a && in_range 144 191 b) || (in_range 241 243 a && cont b)
  || (in_range 244 244 a && in_range 128 143 b).

Definition bad (at_ : N) (len : option N) : option Utf8Error :=
  Some {| valid_up_to := at_; error_len := len |}.

(** The first error of a byte string whose first byte has index [i]. *)
Fixpoint utf8_error (i : N) (s : string) : option Utf8Error :=
  match s with
  | "" => None
  | String a r1 =>
      if in_range 0 127 a then utf8_error (i + 1) r1
      else if in_range 194 223 a then
        match r1 with
        | "" => bad i None
        | String b r2 => if cont b then utf8_error (i + 2) r2 else bad i (Some 1%N)
        end
      else if in_range 224 239 a then
        match r1 with
        | "" => bad i None
        | String b r2 =>
            if second3 a b then
              match r2 with
              | "" => bad i None
              | String c r3 => if cont c then utf8_error (i + 3) r3 else bad i (Some 2%N)
              end
            else bad i (Some 1%N)
        end
      else if in_range 240 244 a then
        match r1 with
        | "" => bad i None
        | String b r2 =>
            if second4 a b then
              match r2 with
              | "" => bad i None
              | String c r3 =>
                  if cont c then
                    match r3 with
                    | "" => bad i None
                    | String d r4 => if cont d then utf8_error (i + 4) r4 else bad i (Some 3%N)
                    end
                  else bad i (Some 2%N)
              end
            else bad i (Some 1%N)
        end
      else bad i (Some 1%N)
  end.

Definition utf8_valid (s : string) : bool :=
  match utf8_error 0 s with None => true | Some _ => false end.

(** [Display] of [FromUtf8Error] *)
Definition show_utf8_error (e : Utf8Error) : string :=
  match error_len e with
  | Some n => "invalid utf-8 sequence of " ++ show_N n ++ " bytes from index "
              ++ show_N (valid_up_to e)
  | None => "incomplete utf-8 byte sequence from index " ++ show_N (valid_up_to e)
  end.

(** [String::from_utf8] *)
Definition from_utf8 (s : string) : result Utf8Error string :=
  match utf8_error 0 s with
  | None => Ok s
  | Some e => Err e
  end.

Lemma from_utf8_valid s : utf8_valid s = true -> from_utf8 s = Ok s.
Proof. unfold utf8_valid, from_utf8. by destruct (utf8_error 0 s). Qed.

Lemma from_utf8_Ok s t : from_utf8 s = Ok t <-> t = s /\ utf8_valid s = true.
Proof. unfold utf8_valid, from_utf8. destruct (utf8_error 0 s); solve_iff. Qed.

(** ASCII text is valid. *)
Lemma utf8_ascii i s : forall_bytes (in_range 0 127) s = true -> utf8_error i s = None.
Proof.
  revert i. induction s as [|a s IH]; intros i; [done|]. cbn [forall_bytes].
  intros [Ha Hs]%andb_true_iff. cbn [utf8_error]. rewrite Ha. by apply IH.
Qed.

(** ** [String::from_utf8_lossy] *)

(** U+FFFD *)
Definition replacement_char : string :=
  String (ascii_of_N 239) (String (ascii_of_N 191) (String (ascii_of_N 189) "")).

(** Each bad sequence becomes one replacement character, an incomplete end
    too. Every turn consumes a byte. *)
Fixpoint lossy_from (fuel : nat) (s : string) : string :=
  match fuel with
  | 0 => ""
  | S fuel =>
      match utf8_error 0 s with
      | None => s
      | Some e =>
          let valid := N.to_nat (valid_up_to e) in
          String.substring 0 valid s ++ replacement_char ++
          match error_len e with
          | None => ""
          | Some n => let skip := valid + N.to_nat n in
              lossy_from fuel (String.substring skip (String.length s - skip) s)
          end
      end
  end.
Definition from_utf8_lossy (s : string) : string := lossy_from (S (String.length s)) s.

Lemma from_utf8_lossy_valid s : utf8_valid s = true -> from_utf8_lossy s = s.
Proof. unfold utf8_valid, from_utf8_lossy. cbn [lossy_from]. by destruct (utf8_error 0 s). Qed.

Example lossy_example :
  from_utf8_lossy (String (ascii_of_N 97) (String (ascii_of_N 255) (String (ascii_of_N 98)
    (String (ascii_of_N 226) (String (ascii_of_N 130) ""))))) =
  "a" ++ replacement_char ++ "b" ++ replacement_char.
Proof. reflexivity. Qed.
