(* ===== verification/Security.v ===== *)
(** * Security primitives: security.rs

    Password hashing, the text obfuscation of stored secrets, the integrity
    hash, random secrets, and the time-based one-time codes. The cryptographic
    libraries (argon2, sha2, hmac, base64, data_encoding) and the random
    generator are the classes [Crypto] and [Randomness]; what the code relies on
    is the class [CryptoLaws]. *)

From S2P Require Import Prelude RustStr Utf8.
From Stdlib Require Import Ascii.

#[local] Open Scope string_scope.

(** Byte strings are values of [string]. *)
Class Crypto : Type := {
  sha256 : string -> string;
  (** HMAC-SHA1 of a message under a key, as bytes *)
  hmac_sha1 : string -> string -> result string (list N);
  base64_encode : string -> string;
  base64_decode : string -> result string string;
  base32_encode : string -> string;
  base32_decode : string -> result string string;
  (** hash of a password under a salt, in the PHC text format *)
  argon2_hash : string -> string -> result string string;
  (** a hash text parsed, and a password checked against it *)
  password_hash : Type;
  parse_password_hash : string -> result string password_hash;
  argon2_verify : string -> password_hash -> bool;
}.

(** What the libraries document: digest sizes, and decoders that invert the
    encoders. *)
Class CryptoLaws `{CR : Crypto} : Prop := {
  sha256_length s : String.length (sha256 s) = 32;
  hmac_sha1_bytes k m : exists bytes, hmac_sha1 k m = Ok bytes /\ length bytes = 20
    /\ Forall (fun b => (b < 256)%N) bytes;
  base64_decode_encode s : base64_decode (base64_encode s) = Ok s;
  base64_not_blank s : blank (base64_encode s) = true -> s = "";
  base32_ascii s : forall_bytes (in_range 0 127) (base32_encode s) = true;
  base32_decode_encode s : base32_decode (base32_encode s) = Ok s;
  argon2_hash_verifies p salt h : argon2_hash p salt = Ok h ->
    exists parsed, parse_password_hash h = Ok parsed /\ argon2_verify p parsed = true;
}.

(** The random generator and the clock. *)
Class Randomness (W : Type) : Type := {
  rng_salt : St W string;
  rng_alphanumeric : St W ascii;
  rng_bytes : nat -> St W string;
  utc_timestamp : St W Z;
}.

(** ** Bytes *)

(** [iter().enumerate().map(|(idx, byte)| byte ^ secret[idx % len])] from
    index [i]; the key has at least one byte, so the default is never used. *)
Fixpoint xor_from (secret : string) (i : nat) (s : string) : string :=
  match s with
  | "" => ""
  | String a r =>
      let k := unwrap_or zero (String.get (i mod String.length secret) secret) in
      String (ascii_of_N (N.lxor (byte_of a) (byte_of k))) (xor_from secret (S i) r)
  end.

(** [u64::to_be_bytes] *)
Definition be_bytes (n : N) : string :=
  foldr (fun i s => String (ascii_of_N (N.land (N.shiftr n (8 * i)) 255)) s) ""
    [7; 6; 5; 4; 3; 2; 1; 0]%N.

(** [as u64] of a signed integer *)
Definition as_u64_cast (z : Z) : N := Z.to_N (z mod 18446744073709551616).

Section Security.
Context `{CR : Crypto}.

(*| src-tauri/src/security.rs 20-27 verify_password *)
Definition verify_password (password hash : string) : result string bool :=
  match parse_password_hash hash with
  | Err err => Err ("Falha ao interpretar hash armazenado: " ++ err)
  | Ok parsed => Ok (argon2_verify password parsed)
  end.

(*| src-tauri/src/security.rs 29-37 machine_key *)
Definition machine_key (env : Env) : string :=
  unwrap_or "unknown-host" (or_else (env !! "COMPUTERNAME") (env !! "HOSTNAME")) ++ ":"
  ++ unwrap_or "unknown-user" (or_else (env !! "USERNAME") (env !! "USER")).

(*| src-tauri/src/security.rs 39-44 derive_secret *)
Definition derive_secret (seed : string) : string := sha256 ("TUNNARA-CONSOLE-LIC" ++ seed).

(*| src-tauri/src/security.rs 46-55 encrypt_text *)
Definition encrypt_text (seed plain : string) : string :=
  base64_encode (xor_from (derive_secret seed) 0 plain).

(*| src-tauri/src/security.rs 57-69 decrypt_text *)
Definition decrypt_text (seed cipher : string) : result string string :=
  match base64_decode cipher with
  | Err err => Err ("Falha ao decodificar conteúdo criptografado: " ++ err)
  | Ok bytes =>
      map_err (fun err => "Falha ao reconstruir texto criptografado: " ++ show_utf8_error err)
        (from_utf8 (xor_from (derive_secret seed) 0 bytes))
  end.

(** [format!("{:x}", digest)]: two lower-case digits for each byte. *)
Definition hex_digit (n : N) : ascii :=
  if (n <? 10)%N then ascii_of_N (48 + n) else ascii_of_N (87 + n).
Fixpoint hex_text (s : string) : string :=
  match s with
  | "" => ""
  | String a r => String (hex_digit (N.shiftr (byte_of a) 4))
                    (String (hex_digit (N.land (byte_of a) 15)) (hex_text r))
  end.

(*| src-tauri/src/security.rs 71-76 integrity_hash *)
Definition integrity_hash (seed payload : string) : string := hex_text (sha256 (seed ++ payload)).

(*| src-tauri/src/security.rs 104-111 build_otpauth_url *)
Definition build_otpauth_url (secret account_label issuer : string) : string :=
  let label := replace "@" "%40" (replace " " "%20" account_label) in
  let issuer_enc := replace " " "%20" issuer in
  "otpauth://totp/" ++ label ++ "?secret=" ++ secret ++ "&issuer=" ++ issuer_enc
  ++ "&algorithm=SHA1&digits=6&period=30".

(** [result[i]]: the code panics out of range, which a digest of twenty bytes
    and an offset of at most 15 never reach ([hotp_truncates]). *)
Definition byte_at (l : list N) (i : nat) : N := nth i l 0%N.

(*| src-tauri/src/security.rs 113-124 hotp *)
Definition hotp (secret : string) (counter : N) : result string N :=
  match hmac_sha1 secret (be_bytes counter) with
  | Err err => Err ("Falha ao inicializar HMAC do TOTP: " ++ err)
  | Ok digest =>
      let offset := N.to_nat (N.land (byte_at digest 19) 15) in
      let binary :=
        N.lor (N.lor (N.lor
          (N.shiftl (N.land (byte_at digest offset) 127) 24)
          (N.shiftl (byte_at digest (offset + 1)) 16))
          (N.shiftl (byte_at digest (offset + 2)) 8))
          (byte_at digest (offset + 3)) in
      Ok (binary mod 1000000)%N
  end.

(** The loop over [-1..=1]: the first window that matches, or the first error. *)
Fixpoint totp_windows (secret : string) (unix : Z) (expected : N) (deltas : list Z) :
    result string bool :=
  match deltas with
  | [] => Ok false
  | delta :: rest =>
      match hotp secret (as_u64_cast (unix + delta)) with
      | Err err => Err err
      | Ok code => if (code =? expected)%N then Ok true
                   else totp_windows secret unix expected rest
      end
  end.

(** [code.trim().replace(' ', "")] *)
Definition normalize_code (code : string) : string := replace " " "" (trim code).

(** [parse::<u32>] fails on no text of six digits, so its message is never
    built. *)
(*| src-tauri/src/security.rs 126-145 verify_totp_code *)
Definition verify_totp_code {W} `{RN : Randomness W} (secret_base32 code : string) :
    St W (result string bool) :=
  let normalized := normalize_code code in
  if negb (Nat.eqb (String.length normalized) 6) || negb (forall_bytes is_ascii_digit normalized)
  then mret (Ok false)
  else match parse_u32 normalized with
       | None => mret (Err "Falha ao interpretar código TOTP: invalid digit found in string")
       | Some expected =>
           match base32_decode (trim secret_base32) with
           | Err err => mret (Err ("Falha ao decodificar secret TOTP: " ++ err))
           | Ok secret =>
               now ← utc_timestamp;
               mret (totp_windows secret (now `div` 30) expected [-1; 0; 1]%Z)
           end
       end.

(** ** Random secrets *)

Section Random.
Context {W : Type} `{RN : Randomness W}.

(*| src-tauri/src/security.rs 12-18 hash_password *)
Definition hash_password (password : string) : St W (result string string) :=
  salt ← rng_salt;
  mret (map_err (fun err => "Falha ao gerar hash da senha: " ++ err) (argon2_hash password salt)).

(** [sample_iter(&Alphanumeric).take(n)] collected into a text *)
Fixpoint sample_text (n : nat) : St W string :=
  match n with
  | 0 => mret ""
  | S n => c ← rng_alphanumeric; rest ← sample_text n; mret (String c rest)
  end.

(*| src-tauri/src/security.rs 78-84 generate_support_secret *)
Definition generate_support_secret : St W string := sample_text 32.

Fixpoint sample_texts (k n : nat) : St W (list string) :=
  match k with
  | 0 => mret []
  | S k => t ← sample_text n; rest ← sample_texts k n; mret (t :: rest)
  end.

(*| src-tauri/src/security.rs 86-96 generate_recovery_codes *)
Definition generate_recovery_codes : St W (list string) := sample_texts 8 10.

(*| src-tauri/src/security.rs 98-102 generate_totp_secret *)
Definition generate_totp_secret : St W string :=
  bytes ← rng_bytes 20; mret (base32_encode bytes).

End Random.
End Security.

(** ** Lemmas: the key stream *)

Lemma byte_of_bound c : (byte_of c < 256)%N.
Proof. apply N_ascii_bounded. Qed.

Lemma lxor_byte a b : (a < 256 -> b < 256 -> N.lxor a b < 256)%N.
Proof.
  intros Ha Hb. destruct (N.eq_dec (N.lxor a b) 0%N) as [->|Hn]; [done|].
  apply N.log2_lt_pow2 with (b := 8%N); [lia|].
  eapply N.le_lt_trans; [apply N.log2_lxor|].
  assert (forall c, (c < 256)%N -> (N.log2 c < 8)%N) as H.
  { intros c Hc. destruct (N.eq_dec c 0%N) as [->|]; [done|]. apply N.log2_lt_pow2; lia. }
  apply N.max_lub_lt; auto.
Qed.

Lemma xor_from_involutive secret s : forall i,
  xor_from secret i (xor_from secret i s) = s.
Proof.
  induction s as [|a s IH]; intros i; cbn [xor_from]; [done|]. rewrite IH. f_equal.
  unfold byte_of at 1. rewrite N_ascii_embedding by (apply lxor_byte; apply byte_of_bound).
  rewrite N.lxor_assoc, N.lxor_nilpotent, N.lxor_0_r. apply ascii_N_embedding.
Qed.

Lemma xor_from_length secret s : forall i, String.length (xor_from secret i s) = String.length s.
Proof. induction s as [|a s IH]; intros i; cbn; [done|]. by rewrite IH. Qed.

Lemma decrypt_encrypt' `{CL : CryptoLaws} seed plain :
  utf8_valid plain = true -> decrypt_text seed (encrypt_text seed plain) = Ok plain.
Proof.
  intros H. unfold decrypt_text, encrypt_text.
  by rewrite base64_decode_encode, xor_from_involutive, from_utf8_valid.
Qed.

(** Decrypting what was encrypted under the same seed gives the text back. *)
Theorem decrypt_encrypt `{CL : CryptoLaws} seed plain :
  utf8_valid plain = true -> decrypt_text seed (encrypt_text seed plain) = Ok plain.
Proof. apply decrypt_encrypt'. Qed.

(** ** Lemmas: one-time codes *)

(** The value RFC 4226 defines: 31 bits of the digest, read as a big-endian
    integer at the offset its last byte gives, modulo 10^6. *)
Definition hotp_value (digest : list N) : N :=
  let at_ i := byte_at digest (N.to_nat (byte_at digest 19 mod 16) + i) in
  ((at_ 0%nat * 16777216 + at_ 1%nat * 65536 + at_ 2%nat * 256 + at_ 3%nat)
   mod 2147483648 mod 1000000)%N.

Lemma lor_shift a b n : (b < 2 ^ n)%N -> N.lor (N.shiftl a n) b = (a * 2 ^ n + b)%N.
Proof.
  intros Hb. rewrite N.shiftl_mul_pow2.
  assert (N.land (a * 2 ^ n) b = 0)%N as Hd.
  { rewrite <- N.shiftl_mul_pow2. apply N.bits_inj. intros i. rewrite N.land_spec, N.bits_0.
    destruct (N.lt_ge_cases i n) as [Hi|Hi].
    - by rewrite N.shiftl_spec_low.
    - rewrite andb_comm. destruct (N.eq_dec b 0%N) as [->|Hz]; [by rewrite N.bits_0|].
      rewrite (N.bits_above_log2 b i); [done|].
      apply N.lt_le_trans with n; [|done]. apply N.log2_lt_pow2; lia. }
  rewrite <- N.lxor_lor by done. by rewrite N.add_nocarry_lxor.
Qed.

Lemma truncation_arith b0 b1 b2 b3 : (b0 < 256 -> b1 < 256 -> b2 < 256 -> b3 < 256 ->
  N.lor (N.lor (N.lor (N.shiftl (N.land b0 127) 24) (N.shiftl b1 16)) (N.shiftl b2 8)) b3
  = (b0 * 16777216 + b1 * 65536 + b2 * 256 + b3) mod 2147483648)%N.
Proof.
  intros H0 H1 H2 H3. change 127%N with (N.ones 7). rewrite N.land_ones.
  change (2 ^ 7)%N with 128%N.
  assert (b0 mod 128 < 128)%N as Hm by (apply N.mod_lt; lia).
  rewrite <- !N.lor_assoc, (lor_shift b2 b3 8) by (cbn; lia). change (2 ^ 8)%N with 256%N.
  rewrite (lor_shift b1 _ 16) by (cbn; lia). change (2 ^ 16)%N with 65536%N.
  rewrite (lor_shift _ _ 24) by (cbn; lia). change (2 ^ 24)%N with 16777216%N.
  apply N.mod_unique with (q := (b0 / 128)%N).
  - lia.
  - pose proof (N.div_mod b0 128%N ltac:(lia)). lia.
Qed.

Lemma byte_at_bound l i : Forall (fun b => (b < 256)%N) l -> (byte_at l i < 256)%N.
Proof.
  intros H. unfold byte_at. revert i. induction H as [|x l Hx H IH]; intros [|i]; cbn; try lia.
  apply IH.
Qed.

(** A code is the dynamic truncation of RFC 4226: the digest has every byte the
    code reads, so the indexing never panics, and the code has at most six
    digits. *)
Theorem hotp_truncates `{CL : CryptoLaws} secret counter :
  exists digest, hmac_sha1 secret (be_bytes counter) = Ok digest /\
    hotp secret counter = Ok (hotp_value digest) /\ (hotp_value digest < 1000000)%N /\
    N.to_nat (N.land (byte_at digest 19) 15) + 3 < length digest.
Proof.
  destruct (hmac_sha1_bytes secret (be_bytes counter)) as (digest & E & Hlen & Hb).
  exists digest. split; [done|].
  assert (N.land (byte_at digest 19) 15 = byte_at digest 19 mod 16)%N as Ho
    by (change 15%N with (N.ones 4); by rewrite N.land_ones).
  split_and!.
  - unfold hotp, hotp_value. rewrite E, Ho. f_equal.
    rewrite truncation_arith by (by apply byte_at_bound). by rewrite Nat.add_0_r.
  - apply N.mod_lt. lia.
  - rewrite Ho, Hlen. assert (byte_at digest 19 mod 16 < 16)%N by (apply N.mod_lt; lia). lia.
Qed.

(** Six digits, the only shape of code that is compared. *)
Definition six_digits (s : string) : bool :=
  Nat.eqb (String.length s) 6 && forall_bytes is_ascii_digit s.

Lemma dec_from_digits s : forall acc, forall_bytes is_ascii_digit s = true ->
  exists n, dec_from acc s = Some n /\ (n < (acc + 1) * 10 ^ N.of_nat (String.length s))%N.
Proof.
  induction s as [|a s IH]; intros acc; cbn [forall_bytes].
  - intros _. exists acc. split; [done|]. cbn. lia.
  - intros [Ha Hs]%andb_true_iff. cbn [dec_from]. rewrite Ha.
    destruct (IH (10 * acc + digit_val a)%N Hs) as (n & E & Hn). exists n. split; [done|].
    assert (digit_val a < 10)%N as Hd.
    { unfold is_ascii_digit, in_range in Ha. apply andb_true_iff in Ha as [H1 H2].
      apply N.leb_le in H1, H2. unfold digit_val. lia. }
    eapply N.lt_le_trans; [exact Hn|]. cbn [String.length]. rewrite Nat2N.inj_succ, N.pow_succ_r'.
    rewrite N.mul_assoc. apply N.mul_le_mono_r. lia.
Qed.

Lemma six_digits_parse s : six_digits s = true -> exists n, parse_u32 s = Some n.
Proof.
  unfold six_digits. intros [Hl Hd]%andb_true_iff. apply Nat.eqb_eq in Hl.
  destruct (dec_from_digits s 0 Hd) as (n & E & Hn). rewrite Hl in Hn. exists n.
  unfold parse_u32, parse_uint. destruct s as [|a r]; [done|].
  assert (a <> "+"%char) as Ha by (intros ->; discriminate Hd).
  assert (match String a r with String "+" r0 => r0 | _ => String a r end = String a r) as ->.
  { destruct a as [[] [] [] [] [] [] [] []]; try reflexivity. by destruct Ha. }
  cbn [is_empty]. rewrite E. cbn [mbind option_bind].
  assert ((n <=? U32_MAX)%N = true) as -> by (apply N.leb_le; unfold U32_MAX; cbn in Hn; lia).
  done.
Qed.

(** The code of one window of thirty seconds. *)
Definition window_code `{CR : Crypto} (secret : string) (unix d : Z) (n : N) : bool :=
  match hotp secret (as_u64_cast (unix + d)) with Ok c => (c =? n)%N | Err _ => false end.

Lemma totp_windows_spec `{CL : CryptoLaws} secret unix n deltas :
  totp_windows secret unix n deltas =
    Ok (existsb (fun d => window_code secret unix d n) deltas).
Proof.
  induction deltas as [|d ds IH]; cbn [totp_windows existsb]; [done|]. unfold window_code at 1.
  destruct (hotp_truncates secret (as_u64_cast (unix + d))) as (dg & _ & -> & _). cbv iota beta.
  destruct (N.eqb_spec (hotp_value dg) n) as [_|_]; [done|exact IH].
Qed.

(** A code is accepted exactly when, spaces aside, it is six digits whose value
    is the code of the current window of thirty seconds or of one of its two
    neighbours; a code of another shape is refused without reading the secret
    or the clock, and the only failure is a secret that is not base 32. *)
Theorem verify_totp_code_spec {W} `{RN : Randomness W} `{CL : CryptoLaws}
    (secret_base32 code : string) (w : W) :
  let text := normalize_code code in
  verify_totp_code secret_base32 code w =
    if six_digits text then
      match base32_decode (trim secret_base32) with
      | Err e => (Err ("Falha ao decodificar secret TOTP: " ++ e), w)
      | Ok secret =>
          let '(now, w') := utc_timestamp w in
          (Ok (existsb (fun d => existsb (window_code secret (now `div` 30) d)
                 (option_list (parse_u32 text))) [-1; 0; 1]%Z), w')
      end
    else (Ok false, w).
Proof.
  cbv zeta. unfold verify_totp_code, six_digits.
  destruct (Nat.eqb (String.length _) 6 && forall_bytes _ _) eqn:E.
  - destruct (six_digits_parse _ E) as (n & Hn). apply andb_true_iff in E as [-> ->]. cbn [negb orb].
    rewrite Hn. destruct (base32_decode _) as [s|e]; [|done]. unfold mbind, st_bind.
    destruct (utc_timestamp w) as [now w']. rewrite totp_windows_spec. unfold mret, st_ret.
    cbn. by rewrite !orb_false_r.
  - apply andb_false_iff in E as [->| ->]; cbn [negb]; [done|by rewrite orb_true_r].
Qed.

(** ** Codes as an authenticator shows them *)

(** [format!("{:06}")]: six digits with leading zeros. *)
Definition show_digit (n : N) : ascii := ascii_of_N (48 + n mod 10).
Definition six_digit_text (n : N) : string :=
  String (show_digit (n / 100000)) (String (show_digit (n / 10000)) (String (show_digit (n / 1000))
    (String (show_digit (n / 100)) (String (show_digit (n / 10)) (String (show_digit n) ""))))).

Lemma show_digit_spec n :
  is_ascii_digit (show_digit n) = true /\ digit_val (show_digit n) = (n mod 10)%N.
Proof.
  unfold show_digit. assert (n mod 10 < 10)%N as H by (apply N.mod_lt; lia).
  generalize dependent (n mod 10)%N. intros m H.
  unfold is_ascii_digit, digit_val, in_range, byte_of. rewrite N_ascii_embedding by lia. split.
  - apply andb_true_iff. split; apply N.leb_le; lia.
  - lia.
Qed.

Lemma six_digit_text_digits n : forall_bytes is_ascii_digit (six_digit_text n) = true.
Proof. unfold six_digit_text. cbn [forall_bytes]. by rewrite !(proj1 (show_digit_spec _)). Qed.

Lemma six_digit_text_value n : (n < 1000000)%N -> dec_from 0 (six_digit_text n) = Some n.
Proof.
  intros H. unfold six_digit_text. cbn [dec_from].
  rewrite !(proj1 (show_digit_spec _)), !(proj2 (show_digit_spec _)). f_equal.
  assert (forall k k', k <> 0 -> k' = k * 10 -> n / k = 10 * (n / k') + (n / k) mod 10)%N as D.
  { intros k k' Hk ->. rewrite <- N.Div0.div_div. apply N.div_mod. lia. }
  pose proof (D 1 10 ltac:(lia) eq_refl)%N as D0.
  pose proof (D 10 100 ltac:(lia) eq_refl)%N as D1.
  pose proof (D 100 1000 ltac:(lia) eq_refl)%N as D2.
  pose proof (D 1000 10000 ltac:(lia) eq_refl)%N as D3.
  pose proof (D 10000 100000 ltac:(lia) eq_refl)%N as D4.
  pose proof (D 100000 1000000 ltac:(lia) eq_refl)%N as D5.
  assert (n / 1000000 = 0)%N as Hz by (apply N.div_small; lia).
  rewrite N.div_1_r in D0. rewrite Hz in D5. clear - D0 D1 D2 D3 D4 D5. lia.
Qed.

Lemma digits_trim s : forall_bytes is_ascii_digit s = true -> trim s = s.
Proof.
  intros H. unfold trim.
  assert (trim_start s = s) as ->.
  { destruct s as [|a r]; [done|]. apply trim_start_fix. cbn [forall_bytes] in H.
    apply andb_true_iff in H as [Ha _]. by apply digit_not_ws. }
  induction s as [|a r IH]; [done|]. rewrite trim_end_cons, digits_not_blank by done.
  cbn [forall_bytes] in H. apply andb_true_iff in H as [_ Hr]. by rewrite IH.
Qed.

Lemma digits_replace_space s : forall_bytes is_ascii_digit s = true -> replace " " "" s = s.
Proof.
  unfold replace. induction s as [|a r IH]; [done|]. cbn [forall_bytes replace_go].
  intros [Ha Hr]%andb_true_iff.
  assert (starts_with " " (String a r) = false) as ->.
  { rewrite starts_with_cons. destruct (ascii_dec " " a) as [<-|]; [discriminate Ha|done]. }
  by rewrite IH.
Qed.

Lemma six_digit_code n : (n < 1000000)%N ->
  normalize_code (six_digit_text n) = six_digit_text n /\
  six_digits (six_digit_text n) = true /\ parse_u32 (six_digit_text n) = Some n.
Proof.
  intros H. pose proof (six_digit_text_digits n) as Hd. unfold normalize_code.
  rewrite digits_trim, digits_replace_space by done. split; [done|].
  assert (six_digits (six_digit_text n) = true) as H6 by (unfold six_digits; by rewrite Hd).
  split; [done|]. destruct (six_digits_parse _ H6) as (m & Hm). rewrite Hm. f_equal.
  revert Hm. unfold parse_u32, parse_uint.
  assert (exists a r, six_digit_text n = String a r /\ is_ascii_digit a = true) as (a & r & E & Ha).
  { eexists _, _. split; [reflexivity|]. apply show_digit_spec. }
  assert (match six_digit_text n with String "+" r0 => r0 | _ => six_digit_text n end
          = six_digit_text n) as ->.
  { rewrite E. destruct a as [[] [] [] [] [] [] [] []]; try reflexivity. discriminate Ha. }
  rewrite E at 1. cbn [is_empty]. rewrite six_digit_text_value by done. cbn [mbind option_bind].
  case_match; congruence.
Qed.

(** The code of the current window, shown with six digits as an authenticator
    does, is accepted, whatever base-32 text of the secret was enrolled. *)
Theorem current_totp_accepted {W} `{RN : Randomness W} `{CL : CryptoLaws}
    (secret secret_base32 : string) (w w' : W) now code :
  base32_decode (trim secret_base32) = Ok secret ->
  utc_timestamp w = (now, w') ->
  hotp secret (as_u64_cast (now `div` 30)) = Ok code ->
  verify_totp_code secret_base32 (six_digit_text code) w = (Ok true, w').
Proof.
  intros Hs Hw Hc. destruct (hotp_truncates secret (as_u64_cast (now `div` 30))) as
    (dg & _ & Hv & Hb & _). rewrite Hv in Hc. injection Hc as <-.
  destruct (six_digit_code _ Hb) as (En & E6 & Ep).
  unfold verify_totp_code. rewrite En. unfold six_digits in E6.
  apply andb_true_iff in E6 as [-> ->]. cbn [negb orb]. rewrite Ep, Hs. unfold mbind, st_bind.
  rewrite Hw, totp_windows_spec. unfold mret, st_ret. do 2 f_equal. cbn [existsb].
  unfold window_code at 2. rewrite Z.add_0_r, Hv, N.eqb_refl. by rewrite orb_true_r.
Qed.
