(* ===== verification/Json.v ===== *)
(** * JSON values

    The value type the Rust code builds and inspects ([serde_json::Value]):
    its constructors, the accessors the code calls, and the object lookups
    with fall-back keys the decoders are written with. An object is the list
    of its members with distinct keys. Parsing and printing are not modelled
    here: a component that parses or prints takes the two as parameters. *)

From S2P Require Import Prelude RustStr.

#[local] Open Scope string_scope.

(** [serde_json::Number]: an unsigned or negative 64-bit integer, or a float
    known by its printed form. *)
Inductive number : Type :=
| PosInt (n : N)
| NegInt (z : Z)
| Float (text : string).

Inductive value : Type :=
| Null
| Bool (b : bool)
| Number (n : number)
| String_ (s : string)
| Array (items : list value)
| Object (members : list (string * value)).

Abbreviation members := (list (string * value)).

(** Induction through arrays and objects. *)
Section ValueInd.
Variable P : value -> Prop.
Hypothesis HNull : P Null.
Hypothesis HBool : forall b, P (Bool b).
Hypothesis HNumber : forall n, P (Number n).
Hypothesis HString : forall s, P (String_ s).
Hypothesis HArray : forall l, Forall P l -> P (Array l).
Hypothesis HObject : forall m, Forall (fun kv => P kv.2) m -> P (Object m).

Fixpoint value_nested_ind (v : value) : P v :=
  match v with
  | Null => HNull
  | Bool b => HBool b
  | Number n => HNumber n
  | String_ s => HString s
  | Array l => HArray l ((fix go (l : list value) : Forall P l :=
      match l with
      | [] => Forall_nil_2 _
      | x :: r => Forall_cons_2 _ x r (value_nested_ind x) (go r)
      end) l)
  | Object m => HObject m ((fix go (m : members) : Forall (fun kv => P kv.2) m :=
      match m with
      | [] => Forall_nil_2 _
      | (k, x) :: r => Forall_cons_2 (fun kv => P kv.2) (k, x) r (value_nested_ind x) (go r)
      end) m)
  end.
End ValueInd.

(** ** Accessors *)

(** [Map::get] *)
Fixpoint obj_get (k : string) (m : members) : option value :=
  match m with
  | [] => None
  | (k', v) :: r => if String.eqb k k' then Some v else obj_get k r
  end.

(** [Map::contains_key] *)
Definition contains_key (k : string) (m : members) : bool :=
  match obj_get k m with Some _ => true | None => false end.

(** [Map::insert] *)
Fixpoint obj_insert (k : string) (v : value) (m : members) : members :=
  match m with
  | [] => [(k, v)]
  | (k', v') :: r => if String.eqb k k' then (k', v) :: r else (k', v') :: obj_insert k v r
  end.

(** [Map::remove] *)
Fixpoint obj_remove (k : string) (m : members) : members :=
  match m with
  | [] => []
  | (k', v') :: r => if String.eqb k k' then obj_remove k r else (k', v') :: obj_remove k r
  end.

Definition as_str (v : value) : option string :=
  match v with String_ s => Some s | _ => None end.
Definition as_array (v : value) : option (list value) :=
  match v with Array l => Some l | _ => None end.
Definition as_object (v : value) : option members :=
  match v with Object m => Some m | _ => None end.

Definition number_as_i64 (n : number) : option Z :=
  match n with
  | PosInt n => if (Z.of_N n <=? I64_MAX)%Z then Some (Z.of_N n) else None
  | NegInt z => Some z
  | Float _ => None
  end.
Definition number_as_u64 (n : number) : option N :=
  match n with PosInt n => Some n | _ => None end.
Definition show_number (n : number) : string :=
  match n with PosInt n => show_N n | NegInt z => show_Z z | Float t => t end.

Definition as_i64 (v : value) : option Z :=
  match v with Number n => number_as_i64 n | _ => None end.
Definition as_u64 (v : value) : option N :=
  match v with Number n => number_as_u64 n | _ => None end.

(** [Value::get] with a string index *)
Definition value_get (k : string) (v : value) : option value :=
  m ← as_object v; obj_get k m.

(** The integers a [Number] can hold. *)
Definition number_ok (n : number) : bool :=
  match n with
  | PosInt n => (n <=? U64_MAX)%N
  | NegInt z => (I64_MIN <=? z)%Z && (z <? 0)%Z
  | Float _ => true
  end.

(** [json!] of optional values *)
Definition json_opt_str (o : option string) : value :=
  match o with Some s => String_ s | None => Null end.
Definition json_opt_u32 (o : option N) : value :=
  match o with Some n => Number (PosInt n) | None => Null end.

(** [Value::from] of a signed integer *)
Definition json_i64 (z : Z) : value :=
  Number (if (z <? 0)%Z then NegInt z else PosInt (Z.to_N z)).

(** ** Lookups with fall-back keys

    [first_of m [k1; ...; kn]] is the chain
    [obj.get(k1).or_else(|| obj.get(k2))...]: the member of the first key that
    is present, whatever its value. *)
Fixpoint first_of (m : members) (keys : list string) : option value :=
  match keys with
  | [] => None
  | k :: r => or_else (obj_get k m) (first_of m r)
  end.

(** [.and_then(|v| v.as_str()).map(|v| v.to_string())] *)
Definition str_of (o : option value) : option string := v ← o; as_str v.

(** [.and_then(|v| v.as_u64()).map(|v| v as u32)]: the cast keeps the low 32
    bits. *)
Definition as_u32_cast (n : N) : N := (n mod 4294967296)%N.
Definition u32_of (o : option value) : option N := v ← o; n ← as_u64 v; Some (as_u32_cast n).

(** [v as i32] of a 64-bit integer: the low 32 bits, in two's complement. *)
Definition as_i32_cast (z : Z) : Z :=
  let r := (z mod 4294967296)%Z in if (2147483648 <=? r)%Z then (r - 4294967296)%Z else r.

(** ** Lemmas *)

Lemma obj_get_insert_eq k v m : obj_get k (obj_insert k v m) = Some v.
Proof.
  induction m as [|[k' v'] r IH]; simpl; [by rewrite String.eqb_refl|].
  destruct (String.eqb k k') eqn:E; simpl; by rewrite E.
Qed.

Lemma obj_get_insert_ne k k' v m :
  k <> k' -> obj_get k' (obj_insert k v m) = obj_get k' m.
Proof.
  intros Hne. induction m as [|[k2 v2] r IH]; simpl.
  - apply String.eqb_neq in Hne. by rewrite String.eqb_sym, Hne.
  - destruct (String.eqb_spec k k2) as [<-|H2]; simpl.
    + apply String.eqb_neq in Hne. by rewrite String.eqb_sym, Hne.
    + by rewrite IH.
Qed.

Lemma obj_get_remove_eq k m : obj_get k (obj_remove k m) = None.
Proof.
  induction m as [|[k' v'] r IH]; simpl; [done|].
  destruct (String.eqb k k') eqn:E; [done|]. simpl. by rewrite E.
Qed.

Lemma obj_get_remove_ne k k' m : k <> k' -> obj_get k' (obj_remove k m) = obj_get k' m.
Proof.
  intros Hne. induction m as [|[k2 v2] r IH]; simpl; [done|].
  destruct (String.eqb_spec k k2) as [<-|H2]; simpl.
  - apply String.eqb_neq in Hne. by rewrite String.eqb_sym, Hne.
  - by rewrite IH.
Qed.

(** [first_of] answers with the first key present. *)
Lemma first_of_present m k keys v :
  obj_get k m = Some v -> first_of m (k :: keys) = Some v.
Proof. simpl. by intros ->. Qed.

Lemma first_of_absent m k keys :
  obj_get k m = None -> first_of m (k :: keys) = first_of m keys.
Proof. simpl. by intros ->. Qed.

Lemma first_of_None m keys :
  first_of m keys = None <-> Forall (fun k => obj_get k m = None) keys.
Proof.
  induction keys as [|k r IH]; simpl; [by split|].
  by rewrite or_else_None, IH, Forall_cons.
Qed.

Lemma as_u32_cast_bound n : (as_u32_cast n <= U32_MAX)%N.
Proof. unfold as_u32_cast, U32_MAX. pose proof (N.mod_lt n 4294967296). lia. Qed.

Lemma as_u32_cast_small n : (n <= U32_MAX)%N -> as_u32_cast n = n.
Proof. unfold as_u32_cast, U32_MAX. intros. apply N.mod_small. lia. Qed.

Lemma as_i32_cast_bound z : (-2147483648 <= as_i32_cast z <= 2147483647)%Z.
Proof.
  unfold as_i32_cast. pose proof (Z.mod_pos_bound z 4294967296).
  destruct (2147483648 <=? z mod 4294967296)%Z eqn:E;
    [apply Z.leb_le in E|apply Z.leb_gt in E]; lia.
Qed.

#[export] Hint Rewrite obj_get_insert_eq : tunnara.
