(* ===== verification/Payload.v ===== *)
(** * Command payloads: the readers of [commands/access.rs]

    The commands that save records take a JSON object and read its members
    leniently: a text, a number or a boolean may stand for one another. The
    same readers are repeated, word for word or nearly, in
    [commands/companies.rs] and [commands/licensing.rs]; those files' variants
    are given there. *)

From Stdlib Require Import Ascii.
From S2P Require Import Prelude RustStr Json.

#[local] Open Scope string_scope.

(** [1] and [0] for the flags of a table. *)
Definition flag (b : bool) : Z := if b then 1 else 0.

(** ** Readers *)

(*| src-tauri/src/commands/access.rs 19-33 get_string *)
Definition get_string (payload : members) (key : string) : option string :=
  opt_filter (fun value => negb (is_empty value))
    (value ← obj_get key payload;
     match value with
     | String_ text => Some (trim text)
     | Number number => Some (show_number number)
     | Bool flag => Some (if flag then "1" else "0")
     | _ => None
     end).

(** The flag of a payload, from the texts that mean true. *)
Definition get_flag (truthy : string -> bool) (payload : members) (key : string) (default : bool) : Z :=
  match obj_get key payload with
  | Some (Bool b) => flag b
  | Some (Number number) => flag (negb (unwrap_or 0 (number_as_i64 number) =? 0)%Z)
  | Some (String_ text) => flag (truthy (trim text))
  | _ => flag default
  end.

(** [str::to_lowercase] of a text compared with ASCII words: no other
    character's lower case is one of their letters, except the Kelvin sign's,
    and none of the words has a k. *)
(*| src-tauri/src/commands/access.rs 35-69 get_bool *)
Definition get_bool : members -> string -> bool -> Z :=
  get_flag (fun text => existsb (String.eqb (to_lowercase text)) ["1"; "true"; "sim"; "yes"]).

(** A value read as an integer. *)
Definition value_i64 (v : value) : option Z :=
  match v with
  | Number number => number_as_i64 number
  | String_ text => parse_i64 (trim text)
  | _ => None
  end.

(*| src-tauri/src/commands/access.rs 71-77 get_i64 *)
Definition get_i64 (payload : members) (key : string) : option Z :=
  value ← obj_get key payload; value_i64 value.

(*| src-tauri/src/commands/access.rs 79-81 get_id *)
Definition get_id (payload : members) : option Z := get_i64 payload "id".

(*| src-tauri/src/commands/access.rs 83-101 get_string_array *)
Definition get_string_array (payload : members) (key : string) : list string :=
  match obj_get key payload with
  | Some (Array items) =>
      List.filter (fun value => negb (is_empty value)) (omap (fun item =>
        match item with
        | String_ text => Some (trim text)
        | Number number => Some (show_number number)
        | _ => None
        end) items)
  | Some (String_ text) =>
      if is_empty (trim text) then []
      else List.filter (fun item => negb (is_empty item)) (map trim (split ","%char text))
  | _ => []
  end.

(*| src-tauri/src/commands/access.rs 103-119 get_i64_array *)
Definition get_i64_array (payload : members) (key : string) : list Z :=
  match obj_get key payload with
  | Some (Array items) => omap value_i64 items
  | Some (String_ text) =>
      if is_empty (trim text) then [] else omap (fun item => parse_i64 (trim item)) (split ","%char text)
  | _ => []
  end.

(** ** Lemmas *)

Lemma get_flag_range truthy payload key default :
  get_flag truthy payload key default = 0%Z \/ get_flag truthy payload key default = 1%Z.
Proof.
  assert (forall b, flag b = 0%Z \/ flag b = 1%Z) as H by (intros []; auto).
  unfold get_flag. destruct (obj_get key payload) as [[]|]; apply H.
Qed.

Lemma flag_one b : flag b = 1%Z <-> b = true.
Proof. by destruct b. Qed.

(** What is read is never empty. *)
Lemma get_string_nonempty payload key s : get_string payload key = Some s -> s <> "".
Proof.
  intros (_ & H)%opt_filter_Some ->. done.
Qed.

Lemma get_string_array_nonempty payload key : "" ∉ get_string_array payload key.
Proof.
  unfold get_string_array. destruct (obj_get key payload) as [[]|]; try apply not_elem_of_nil.
  - destruct (is_empty (trim s)); [apply not_elem_of_nil|].
    rewrite list_elem_of_In, filter_In. by intros [_ H].
  - rewrite list_elem_of_In, filter_In. by intros [_ H].
Qed.
