(* ===== verification/LicenseModels.v ===== *)
(** * Licensing data

    The records of [generic-license-tauri/src/models.rs] and the error type of
    [error.rs]. Date-times are chrono's: the type and the few operations the
    code calls are the fields of the class [Chrono]. *)

From S2P Require Import Prelude RustStr Json.

#[local] Open Scope string_scope.

(** chrono's [DateTime<FixedOffset>] as the licensing code uses it:
    [dt_lt a b] is the comparison [a < b] of instants and [days_since a b] is
    [a.signed_duration_since(b).num_days()]. *)
Class Chrono : Type := {
  datetime : Type;
  dt_lt : datetime -> datetime -> bool;
  days_since : datetime -> datetime -> Z;
}.

Section Models.
Context `{CH : Chrono}.

(*| generic-license-tauri/src/models.rs 51-77 DeviceRecord *)
Record DeviceRecord : Type := {
  dev_id : option string;
  dev_device_key : option string;
  dev_device_name : option string;
  dev_station_name : option string;
  dev_hostname : option string;
  dev_computer_name : option string;
  dev_serial_number : option string;
  dev_machine_guid : option string;
  dev_bios_serial : option string;
  dev_motherboard_serial : option string;
  dev_logged_user : option string;
  dev_os_name : option string;
  dev_os_version : option string;
  dev_os_arch : option string;
  dev_domain_name : option string;
  dev_mac_addresses : list string;
  dev_install_mode : option string;
  dev_blocked : bool;
  dev_reused_existing : bool;
  dev_bound : bool;
}.

(** [DeviceRecord::default()] *)
Definition device_default : DeviceRecord := {|
  dev_id := None; dev_device_key := None; dev_device_name := None;
  dev_station_name := None; dev_hostname := None; dev_computer_name := None;
  dev_serial_number := None; dev_machine_guid := None; dev_bios_serial := None;
  dev_motherboard_serial := None; dev_logged_user := None; dev_os_name := None;
  dev_os_version := None; dev_os_arch := None; dev_domain_name := None;
  dev_mac_addresses := []; dev_install_mode := None;
  dev_blocked := false; dev_reused_existing := false; dev_bound := false |}.

(*| generic-license-tauri/src/models.rs 13-29 LicenseRecord *)
Record LicenseRecord : Type := {
  lic_document : option string;
  lic_company_name : option string;
  lic_company_email : option string;
  lic_blocked : bool;
  lic_active : bool;
  lic_expires_at : option datetime;
  lic_max_devices : option N;
  lic_devices_in_use : option N;
  lic_devices_available : option N;
  lic_application_slug : option string;
  lic_devices : list DeviceRecord;
}.

(** [LicenseRecord::default()] *)
Definition license_default : LicenseRecord := {|
  lic_document := None; lic_company_name := None; lic_company_email := None;
  lic_blocked := false; lic_active := false; lic_expires_at := None;
  lic_max_devices := None; lic_devices_in_use := None; lic_devices_available := None;
  lic_application_slug := None; lic_devices := [] |}.

(*| generic-license-tauri/src/models.rs 5-11 LicenseApiResponse *)
Record LicenseApiResponse : Type := {
  resp_status : Z;
  resp_message : option string;
  resp_license : LicenseRecord;
}.

(*| generic-license-tauri/src/models.rs 31-39 CompanyRecord *)
Record CompanyRecord : Type := {
  com_id : option string;
  com_document : option string;
  com_legal_name : option string;
  com_email : option string;
  com_reused_existing : bool;
}.
Definition company_default : CompanyRecord := {|
  com_id := None; com_document := None; com_legal_name := None; com_email := None;
  com_reused_existing := false |}.

(*| generic-license-tauri/src/models.rs 41-49 ApplicationLicenseRecord *)
Record ApplicationLicenseRecord : Type := {
  app_application_slug : option string;
  app_status : option string;
  app_max_devices : option N;
  app_devices_in_use : option N;
  app_devices_available : option N;
  app_expires_at : option datetime;
}.
Definition application_default : ApplicationLicenseRecord := {|
  app_application_slug := None; app_status := None; app_max_devices := None;
  app_devices_in_use := None; app_devices_available := None; app_expires_at := None |}.

(*| generic-license-tauri/src/models.rs 79-82 OfflineDecision *)
Record OfflineDecision : Type := { cache_allowed_until : option datetime }.
Definition offline_default : OfflineDecision := {| cache_allowed_until := None |}.

(*| generic-license-tauri/src/models.rs 84-89 DiagnosticItem *)
Record DiagnosticItem : Type := {
  diag_step : string;
  diag_code : string;
  diag_message : string;
}.

(*| generic-license-tauri/src/models.rs 173-190 LicenseDecision *)
Record LicenseDecision : Type := {
  d_allowed : bool;
  d_decision : string;
  d_reason_code : option string;
  d_step : option string;
  d_message : string;
  d_used_offline_cache : bool;
  d_warning : option string;
  d_license : option LicenseRecord;
  d_application_license : option ApplicationLicenseRecord;
  d_company : option CompanyRecord;
  d_device : option DeviceRecord;
  d_offline : option OfflineDecision;
  d_diagnostics : list DiagnosticItem;
  d_source : string;
}.

(*| generic-license-tauri/src/models.rs 192-215 LicenseDecision::deny *)
Definition decision_deny (message reason_code step : string) : LicenseDecision := {|
  d_allowed := false;
  d_decision := "denied";
  d_reason_code := Some reason_code;
  d_step := Some step;
  d_message := message;
  d_used_offline_cache := false;
  d_warning := None;
  d_license := None;
  d_application_license := None;
  d_company := None;
  d_device := None;
  d_offline := None;
  d_diagnostics := [];
  d_source := "online" |}.

(*| generic-license-tauri/src/models.rs 91-98 CachedLicenseFile *)
Record CachedLicenseFile : Type := {
  cached_at : datetime;
  cached_decision : option LicenseDecision;
  cached_payload : option LicenseApiResponse;
}.

End Models.

(*| generic-license-tauri/src/models.rs 100-171 LicenseCheckInput *)
Record LicenseCheckInput : Type := {
  in_company_document : string;
  in_company_name : option string;
  in_company_email : option string;
  in_company_legal_name : option string;
  in_app_id : string;
  in_app_name : string;
  in_app_version : string;
  in_app_slug : option string;
  in_device_key : option string;
  in_device_name : option string;
  in_station_name : option string;
  in_hostname : option string;
  in_computer_name : option string;
  in_serial_number : option string;
  in_machine_guid : option string;
  in_bios_serial : option string;
  in_motherboard_serial : option string;
  in_logged_user : option string;
  in_os_name : option string;
  in_os_version : option string;
  in_os_arch : option string;
  in_domain_name : option string;
  in_mac_addresses : list string;
  in_install_mode : option string;
  in_registration_file_content_b64 : option string;
  in_registration_file_path : option string;
  in_registration_file_verified : option bool;
  in_allow_company_auto_create : option bool;
  in_allow_device_auto_create : option bool;
  in_allow_device_auto_update : option bool;
  in_requested_licenses : option N;
  in_device_identifier : option string;
  in_validation_mode : option string;
  in_interface_mode : option string;
  in_local_license_mode : option string;
  in_metadata : list (string * string);
  in_login_context : bool;
}.

(** The input with the given document and every other field empty: the value
    [try_offline_cache_or_fail] builds. *)
(*| generic-license-tauri/src/service.rs 125-163 try_offline_cache_or_fail *)
Definition bare_input (document : string) : LicenseCheckInput := {|
  in_company_document := document; in_company_name := None; in_company_email := None;
  in_company_legal_name := None; in_app_id := ""; in_app_name := ""; in_app_version := "";
  in_app_slug := None; in_device_key := None; in_device_name := None;
  in_station_name := None; in_hostname := None; in_computer_name := None;
  in_serial_number := None; in_machine_guid := None; in_bios_serial := None;
  in_motherboard_serial := None; in_logged_user := None; in_os_name := None;
  in_os_version := None; in_os_arch := None; in_domain_name := None;
  in_mac_addresses := []; in_install_mode := None;
  in_registration_file_content_b64 := None; in_registration_file_path := None;
  in_registration_file_verified := None; in_allow_company_auto_create := None;
  in_allow_device_auto_create := None; in_allow_device_auto_update := None;
  in_requested_licenses := None; in_device_identifier := None;
  in_validation_mode := None; in_interface_mode := None; in_local_license_mode := None;
  in_metadata := []; in_login_context := false |}.

(** [input.company_document = doc] *)
Definition with_document (doc : string) (i : LicenseCheckInput) : LicenseCheckInput := {|
  in_company_document := doc; in_company_name := in_company_name i;
  in_company_email := in_company_email i; in_company_legal_name := in_company_legal_name i;
  in_app_id := in_app_id i; in_app_name := in_app_name i; in_app_version := in_app_version i;
  in_app_slug := in_app_slug i; in_device_key := in_device_key i;
  in_device_name := in_device_name i; in_station_name := in_station_name i;
  in_hostname := in_hostname i; in_computer_name := in_computer_name i;
  in_serial_number := in_serial_number i; in_machine_guid := in_machine_guid i;
  in_bios_serial := in_bios_serial i; in_motherboard_serial := in_motherboard_serial i;
  in_logged_user := in_logged_user i; in_os_name := in_os_name i;
  in_os_version := in_os_version i; in_os_arch := in_os_arch i;
  in_domain_name := in_domain_name i; in_mac_addresses := in_mac_addresses i;
  in_install_mode := in_install_mode i;
  in_registration_file_content_b64 := in_registration_file_content_b64 i;
  in_registration_file_path := in_registration_file_path i;
  in_registration_file_verified := in_registration_file_verified i;
  in_allow_company_auto_create := in_allow_company_auto_create i;
  in_allow_device_auto_create := in_allow_device_auto_create i;
  in_allow_device_auto_update := in_allow_device_auto_update i;
  in_requested_licenses := in_requested_licenses i;
  in_device_identifier := in_device_identifier i; in_validation_mode := in_validation_mode i;
  in_interface_mode := in_interface_mode i; in_local_license_mode := in_local_license_mode i;
  in_metadata := in_metadata i; in_login_context := in_login_context i |}.

(*| generic-license-tauri/src/models.rs 217-242 LicenseConfig *)
Record LicenseConfig : Type := {
  cfg_base_url : string;
  cfg_api_token : option string;
  cfg_resolve_activation_endpoint : string;
  cfg_status_endpoint : string;
  cfg_register_company_endpoint : string;
  cfg_register_device_endpoint : string;
  cfg_update_device_endpoint : string;
  cfg_offline_max_age_days : Z;
  cfg_warn_before_expiration_in_days : Z;
  cfg_auto_register_company_on_missing : bool;
  cfg_auto_register_device_on_missing : bool;
  cfg_auto_update_device_name : bool;
  cfg_block_on_company_blocked : bool;
  cfg_block_on_device_blocked : bool;
  cfg_block_on_device_missing : bool;
  cfg_block_on_expired : bool;
  cfg_cache_namespace : string;
  cfg_prefer_resolve_activation : bool;
  cfg_allow_legacy_fallback : bool;
  cfg_enable_registration_file_lookup : bool;
  cfg_registration_file_names : list string;
  cfg_registration_file_extra_paths : list string;
  cfg_registration_public_key_base64 : option string;
}.

(*| generic-license-tauri/src/models.rs 244-272 LicenseConfig::default *)
Definition config_default : LicenseConfig := {|
  cfg_base_url := "https://api.rest.wwsoftwares.com.br/api/v1";
  cfg_api_token := None;
  cfg_resolve_activation_endpoint := "/licensing/activation/resolve";
  cfg_status_endpoint := "81b3767f-7bc5-4275-9453-a6a921010a17/86d7b2bee439957e040b72be6fea5fc2/cliente/{document}";
  cfg_register_company_endpoint := "81b3767f-7bc5-4275-9453-a6a921010a17/86d7b2bee439957e040b72be6fea5fc2/clientes";
  cfg_register_device_endpoint := "81b3767f-7bc5-4275-9453-a6a921010a17/86d7b2bee439957e040b72be6fea5fc2/maquinas";
  cfg_update_device_endpoint := "81b3767f-7bc5-4275-9453-a6a921010a17/86d7b2bee439957e040b72be6fea5fc2/maquinas/IDMAQUINA/{id}";
  cfg_offline_max_age_days := 15;
  cfg_warn_before_expiration_in_days := 5;
  cfg_auto_register_company_on_missing := false;
  cfg_auto_register_device_on_missing := false;
  cfg_auto_update_device_name := true;
  cfg_block_on_company_blocked := true;
  cfg_block_on_device_blocked := true;
  cfg_block_on_device_missing := true;
  cfg_block_on_expired := true;
  cfg_cache_namespace := "default";
  cfg_prefer_resolve_activation := true;
  cfg_allow_legacy_fallback := true;
  cfg_enable_registration_file_lookup := true;
  cfg_registration_file_names := ["wwreg.json"; "wwreg.lic"];
  cfg_registration_file_extra_paths := [];
  cfg_registration_public_key_base64 := None |}.

(** ** Errors *)

(*| generic-license-tauri/src/error.rs 4-33 LicenseError *)
Inductive LicenseError : Type :=
| Config (m : string)
| Http (m : string)
| Invalid (m : string)
| Serde (m : string)
| Io (m : string)
| EndpointUnavailable (m : string)
| RegistrationFile (m : string)
| Structured (step reason_code message : string).

(** [Display], from the [#[error(...)]] attributes of the variants. *)
Definition show_error (e : LicenseError) : string :=
  match e with
  | Config m => "configuração inválida: " ++ m
  | Http m => "erro HTTP: " ++ m
  | Invalid m => "licença inválida: " ++ m
  | Serde m => "erro de serialização: " ++ m
  | Io m => "erro de IO: " ++ m
  | EndpointUnavailable m => "endpoint indisponível: " ++ m
  | RegistrationFile m => "erro no arquivo de registro: " ++ m
  | Structured step reason_code message =>
      "falha na etapa " ++ step ++ " (" ++ reason_code ++ "): " ++ message
  end.

(*| generic-license-tauri/src/error.rs 36-47 LicenseError::step *)
Definition error_step (e : LicenseError) : string :=
  match e with
  | Structured step _ _ => step
  | RegistrationFile _ => "registration_file"
  | EndpointUnavailable _ => "resolve_activation"
  | Config _ => "config"
  | Http _ => "http"
  | Invalid _ => "validation"
  | Serde _ => "serialization"
  | Io _ => "io"
  end.

(*| generic-license-tauri/src/error.rs 49-60 LicenseError::reason_code *)
Definition error_reason_code (e : LicenseError) : string :=
  match e with
  | Structured _ reason_code _ => reason_code
  | RegistrationFile _ => "REGISTRATION_FILE_ERROR"
  | EndpointUnavailable _ => "ENDPOINT_UNAVAILABLE"
  | Config _ => "INVALID_CONFIG"
  | Http _ => "HTTP_ERROR"
  | Invalid _ => "INVALID_LICENSE"
  | Serde _ => "SERDE_ERROR"
  | Io _ => "IO_ERROR"
  end.

(*| generic-license-tauri/src/error.rs 63-68 SerializableLicenseError *)
Record SerializableLicenseError : Type := {
  ser_step : string;
  ser_reason_code : string;
  ser_message : string;
}.

(*| generic-license-tauri/src/error.rs 70-78 SerializableLicenseError::from *)
Definition serializable_error (e : LicenseError) : SerializableLicenseError := {|
  ser_step := error_step e;
  ser_reason_code := error_reason_code e;
  ser_message := show_error e |}.
