(* ===== verification/LicenseClient.v ===== *)
(** * The licensing API client: [generic-license-tauri/src/client.rs]

    Requests are built and replies decoded here; sending one is reqwest's and
    is the parameter [http_send] of the class [HttpClient], over the state [W]
    of the outside world. chrono's text parsers are the class [ChronoParse]. *)

From Stdlib Require Import Ascii.
From S2P Require Import Prelude RustStr Json LicenseModels.

#[local] Open Scope string_scope.

(** ** Outside interfaces *)

Inductive http_method : Type := GET | POST | PUT.

Record http_request : Type := {
  rq_method : http_method;
  rq_url : string;
  rq_bearer : option string;
  rq_headers : list (string * string);
  rq_body : option value;
}.

(** A reply: its status code and what reading its body as JSON gives. *)
Record http_response : Type := {
  rs_status : N;
  rs_json : result string value;
}.

(** reqwest, and the wall clock text of [Local::now().format(..)]. *)
Class HttpClient (W : Type) : Type := {
  http_send : http_request -> St W (result string http_response);
  local_now_text : St W string;
  status_text : N -> string;
}.

(** chrono's parsers: [parse_from_rfc3339], [DateTime::parse_from_str],
    [NaiveDateTime::parse_from_str] followed by [Local.from_local_datetime(..)
    .single()] and [fixed_offset()]. *)
Class ChronoParse `{CH : Chrono} : Type := {
  parse_from_rfc3339 : string -> option datetime;
  parse_from_str : string -> string -> option datetime;
  naive_datetime : Type;
  naive_parse_from_str : string -> string -> option naive_datetime;
  from_local_single : naive_datetime -> option datetime;
}.

(** [StatusCode::is_success] *)
Definition is_success (status : N) : bool := (200 <=? status)%N && (status <=? 299)%N.

(** ** Decoding replies *)

Section Decode.
Context `{CP : ChronoParse}.

(*| generic-license-tauri/src/client.rs 654-664 parse_bool *)
Definition parse_bool (v : value) : bool :=
  match v with
  | Bool b => b
  | Number n => negb (unwrap_or 0%Z (number_as_i64 n) =? 0)%Z
  | String_ s =>
      existsb (String.eqb (to_uppercase (trim s)))
        ["1"; "TRUE"; "T"; "Y"; "YES"; "S"; "SIM"; "ALLOWED"]
  | _ => false
  end.

(** The [for fmt in [...]] loop of [parse_datetime]. *)
Fixpoint parse_naive_formats (raw : string) (fmts : list string) : option datetime :=
  match fmts with
  | [] => None
  | fmt :: r =>
      match naive_parse_from_str raw fmt with
      | Some naive => match from_local_single naive with
                      | Some dt => Some dt
                      | None => parse_naive_formats raw r
                      end
      | None => parse_naive_formats raw r
      end
  end.

Definition naive_formats : list string :=
  ["%Y-%m-%d %H:%M:%S"; "%d/%m/%Y %H:%M:%S"; "%Y-%m-%d"].

(*| generic-license-tauri/src/client.rs 666-686 parse_datetime *)
Definition parse_datetime (v : value) : option datetime :=
  raw ← as_str v;
  match parse_from_rfc3339 raw with
  | Some dt => Some dt
  | None =>
      match parse_from_str raw "%Y-%m-%d %H:%M:%S%:z" with
      | Some dt => Some dt
      | None => parse_naive_formats raw naive_formats
      end
  end.

(*| generic-license-tauri/src/client.rs 688-701 stringify_value *)
Definition stringify_value (v : value) : string :=
  match v with
  | String_ s => s
  | Number n => show_number n
  | Bool b => if b then "true" else "false"
  | _ => ""
  end.

(** [obj.get(k).map(parse_bool)] *)
Definition bool_at (k : string) (m : members) : option bool := parse_bool <$> obj_get k m.

(*| generic-license-tauri/src/client.rs 554-652 normalize_device *)
Definition normalize_device (v : value) : DeviceRecord :=
  match as_object v with
  | None => device_default
  | Some obj => {|
      dev_id := stringify_value <$> first_of obj ["id"; "IDMAQ"; "IDMAQUINA"; "idmaquina"];
      dev_device_key :=
        str_of (first_of obj ["device_key"; "fingerprint"; "key"; "chave"; "CHAVE"]);
      dev_device_name := str_of (first_of obj ["device_name"; "NOME"; "NOMEMAQ"; "nome_compu"]);
      dev_station_name := str_of (obj_get "station_name" obj);
      dev_hostname := str_of (obj_get "hostname" obj);
      dev_computer_name := str_of (obj_get "computer_name" obj);
      dev_serial_number := str_of (obj_get "serial_number" obj);
      dev_machine_guid := str_of (obj_get "machine_guid" obj);
      dev_bios_serial := str_of (obj_get "bios_serial" obj);
      dev_motherboard_serial := str_of (obj_get "motherboard_serial" obj);
      dev_logged_user := str_of (obj_get "logged_user" obj);
      dev_os_name := str_of (obj_get "os_name" obj);
      dev_os_version := str_of (obj_get "os_version" obj);
      dev_os_arch := str_of (obj_get "os_arch" obj);
      dev_domain_name := str_of (obj_get "domain_name" obj);
      dev_mac_addresses :=
        match (v ← obj_get "mac_addresses" obj; as_array v) with
        | Some items => omap as_str items
        | None => []
        end;
      dev_install_mode := str_of (obj_get "install_mode" obj);
      dev_blocked := unwrap_or false (or_else (bool_at "blocked" obj) (bool_at "BLOQUEADO" obj));
      dev_reused_existing := unwrap_or false (bool_at "reused_existing" obj);
      dev_bound := unwrap_or false (bool_at "bound" obj) |}
  end.

(*| generic-license-tauri/src/client.rs 398-481 normalize_license *)
Definition normalize_license (v : value) : LicenseRecord :=
  match as_object v with
  | None => license_default
  | Some obj =>
      let devices :=
        match (v ← first_of obj ["devices"; "computers"; "COMPUTADORES"; "maquinas"; "MAQUINAS"];
               as_array v) with
        | Some items => map normalize_device items
        | None => []
        end in
      let max_devices :=
        or_else (u32_of (obj_get "max_devices" obj))
          (or_else (u32_of (obj_get "QTD_MAQ" obj)) (u32_of (obj_get "n_maquinas" obj))) in
      let devices_in_use :=
        or_else (u32_of (obj_get "devices_in_use" obj))
          (Some (as_u32_cast (N.of_nat (length devices)))) in
      let devices_available :=
        match max_devices, devices_in_use with
        | Some max, Some used => if (used <=? max)%N then Some (max - used)%N else None
        | _, _ => None
        end in
      {| lic_document := str_of (first_of obj ["document"; "CNPJ"]);
         lic_company_name := str_of (first_of obj ["company_name"; "RAZAO"; "RAZAOSOCIAL"]);
         lic_company_email := str_of (first_of obj ["company_email"; "EMP_EMAIL"]);
         lic_blocked :=
           unwrap_or false (or_else (bool_at "blocked" obj) (bool_at "BLOQUEADO" obj));
         lic_active := unwrap_or true (or_else (bool_at "active" obj) (bool_at "ATIVO" obj));
         lic_expires_at := v ← first_of obj ["expires_at"; "DATA_VAL_LIC"]; parse_datetime v;
         lic_max_devices := max_devices;
         lic_devices_in_use := devices_in_use;
         lic_devices_available := devices_available;
         lic_application_slug := str_of (first_of obj ["application_slug"; "app_slug"]);
         lic_devices := devices |}
  end.

(*| generic-license-tauri/src/client.rs 483-509 normalize_company *)
Definition normalize_company (v : value) : CompanyRecord :=
  match as_object v with
  | None => company_default
  | Some obj => {|
      com_id := stringify_value <$> obj_get "id" obj;
      com_document := str_of (first_of obj ["document"; "CNPJ"]);
      com_legal_name := str_of (first_of obj ["legal_name"; "RAZAOSOCIAL"; "RAZAO"]);
      com_email := str_of (first_of obj ["email"; "EMP_EMAIL"]);
      com_reused_existing := unwrap_or false (bool_at "reused_existing" obj) |}
  end.

(*| generic-license-tauri/src/client.rs 511-541 normalize_application_license *)
Definition normalize_application_license (v : value) : ApplicationLicenseRecord :=
  match as_object v with
  | None => application_default
  | Some obj => {|
      app_application_slug := str_of (first_of obj ["application_slug"; "slug"]);
      app_status := str_of (obj_get "status" obj);
      app_max_devices := u32_of (obj_get "max_devices" obj);
      app_devices_in_use := u32_of (obj_get "devices_in_use" obj);
      app_devices_available := u32_of (obj_get "devices_available" obj);
      app_expires_at := v ← obj_get "expires_at" obj; parse_datetime v |}
  end.

(*| generic-license-tauri/src/client.rs 543-552 normalize_offline *)
Definition normalize_offline (v : value) : OfflineDecision :=
  match as_object v with
  | None => offline_default
  | Some obj => {| cache_allowed_until := v ← obj_get "cache_allowed_until" obj; parse_datetime v |}
  end.

(** [obj.get(k).and_then(|v| v.as_i64()).unwrap_or(0) as i32] *)
Definition status_at (k : string) (m : members) : Z :=
  as_i32_cast (unwrap_or 0%Z (v ← obj_get k m; as_i64 v)).

(*| generic-license-tauri/src/client.rs 362-396 normalize_response *)
Definition normalize_response (v : value) : result LicenseError LicenseApiResponse :=
  match as_object v with
  | None => Err (Serde "resposta inválida da API de licença")
  | Some obj =>
      if contains_key "license" obj || contains_key "status" obj then
        Ok {| resp_status := status_at "status" obj;
              resp_message := str_of (obj_get "message" obj);
              resp_license := match obj_get "license" obj with
                              | Some l => normalize_license l
                              | None => normalize_license v
                              end |}
      else
        Ok {| resp_status := status_at "STATUS" obj;
              resp_message := str_of (obj_get "MESSAGE" obj);
              resp_license := normalize_license v |}
  end.

(*| generic-license-tauri/src/client.rs 311-360 normalize_activation_decision *)
Definition normalize_activation_decision (v : value) : result LicenseError LicenseDecision :=
  match as_object v with
  | None => Err (Serde "resposta inválida da API de ativação")
  | Some obj =>
      let allowed := unwrap_or false (bool_at "allowed" obj) in
      Ok {| d_allowed := unwrap_or allowed (bool_at "success" obj);
            d_decision :=
              unwrap_or (if allowed then "allowed" else "denied") (str_of (obj_get "decision" obj));
            d_reason_code := str_of (obj_get "reason_code" obj);
            d_step := str_of (obj_get "step" obj);
            d_message :=
              unwrap_or "resposta recebida da API de ativação" (str_of (obj_get "message" obj));
            d_used_offline_cache := false;
            d_warning := str_of (obj_get "warning" obj);
            d_license := normalize_license <$> obj_get "license" obj;
            d_application_license :=
              normalize_application_license <$> obj_get "application_license" obj;
            d_company := normalize_company <$> obj_get "company" obj;
            d_device := normalize_device <$> obj_get "device" obj;
            d_offline := normalize_offline <$> obj_get "offline" obj;
            d_diagnostics := [];
            d_source := "online" |}
  end.

End Decode.

(** ** Requests *)

(** [Option::unwrap_or_default] on strings *)
Definition str_or_default (o : option string) : string := unwrap_or "" o.

Section Requests.
Context (cfg : LicenseConfig).

(*| generic-license-tauri/src/client.rs 300-308 LicenseApiClient::guard *)
Definition guard : result LicenseError unit :=
  if blank (cfg_base_url cfg) then Err (Config "base_url da licença não informada") else Ok ().

(*| generic-license-tauri/src/client.rs 292-298 LicenseApiClient::url *)
Definition url (endpoint : string) : string :=
  trim_end_char "/"%char (cfg_base_url cfg) ++ "/" ++ trim_start_char "/"%char endpoint.

(*| generic-license-tauri/src/client.rs 280-290 LicenseApiClient::with_auth *)
Definition with_auth : option string :=
  match cfg_api_token cfg with
  | Some token => if blank token then None else Some token
  | None => None
  end.

Definition json_headers : list (string * string) :=
  [("Accept", "application/json"); ("Content-Type", "application/json")].

(*| generic-license-tauri/src/client.rs 223-278 LicenseApiClient::resolve_payload *)
Definition resolve_payload (input : LicenseCheckInput) : value :=
  Object [
    ("app", Object [
      ("slug", String_ (unwrap_or (in_app_id input) (in_app_slug input)));
      ("app_id", String_ (in_app_id input));
      ("name", String_ (in_app_name input));
      ("version", String_ (in_app_version input))]);
    ("company", Object [
      ("document", String_ (in_company_document input));
      ("email", json_opt_str (in_company_email input));
      ("legal_name", json_opt_str (or_else (in_company_legal_name input) (in_company_name input)));
      ("trade_name", json_opt_str (in_company_name input))]);
    ("device", Object [
      ("fingerprint", json_opt_str (in_device_key input));
      ("station_name", json_opt_str (or_else (in_station_name input) (in_device_name input)));
      ("hostname", json_opt_str (in_hostname input));
      ("computer_name", json_opt_str (in_computer_name input));
      ("serial_number", json_opt_str (in_serial_number input));
      ("machine_guid", json_opt_str (in_machine_guid input));
      ("bios_serial", json_opt_str (in_bios_serial input));
      ("motherboard_serial", json_opt_str (in_motherboard_serial input));
      ("logged_user", json_opt_str (in_logged_user input));
      ("os_name", json_opt_str (in_os_name input));
      ("os_version", json_opt_str (in_os_version input));
      ("os_arch", json_opt_str (in_os_arch input));
      ("domain_name", json_opt_str (in_domain_name input));
      ("mac_addresses", Array (map String_ (in_mac_addresses input)));
      ("install_mode", json_opt_str (in_install_mode input))]);
    ("registration_file", Object [
      ("present", Bool (match in_registration_file_content_b64 input with
                        | Some _ => true | None => false end));
      ("file_path", json_opt_str (in_registration_file_path input));
      ("content_b64", json_opt_str (in_registration_file_content_b64 input));
      ("verified", match in_registration_file_verified input with
                   | Some b => Bool b | None => Null end)]);
    ("options", Object [
      ("allow_company_auto_create",
        Bool (unwrap_or (cfg_auto_register_company_on_missing cfg)
                (in_allow_company_auto_create input)));
      ("allow_device_auto_create",
        Bool (unwrap_or (cfg_auto_register_device_on_missing cfg)
                (in_allow_device_auto_create input)));
      ("allow_device_auto_update",
        Bool (unwrap_or (cfg_auto_update_device_name cfg) (in_allow_device_auto_update input)));
      ("requested_licenses", json_opt_u32 (in_requested_licenses input));
      ("validation_mode", json_opt_str (in_validation_mode input));
      ("interface_mode", json_opt_str (in_interface_mode input));
      ("local_license_mode", json_opt_str (in_local_license_mode input));
      ("device_identifier", json_opt_str (in_device_identifier input))]);
    ("metadata", Object (map (fun kv => (kv.1, String_ kv.2)) (in_metadata input)))].

(** The payload of [register_company], with the registration time as text. *)
Definition company_payload (now : string) (input : LicenseCheckInput) : value :=
  Object [
    ("DATACAD", String_ now);
    ("CNPJ", String_ (in_company_document input));
    ("EMP_EMAIL", String_ (str_or_default (in_company_email input)));
    ("RAZAOSOCIAL",
      String_ (str_or_default (or_else (in_company_legal_name input) (in_company_name input))));
    ("EMP_NOMEFANTASIA", String_ (str_or_default (in_company_name input)));
    ("ATIVO", String_ "S");
    ("BLOQUEADO", String_ "N");
    ("QTD_MAQ", Number (PosInt (unwrap_or 0%N (in_requested_licenses input))));
    ("N_MAQUINAS", Number (PosInt (unwrap_or 0%N (in_requested_licenses input))));
    ("APP_INSTANCE", String_ (unwrap_or (in_app_id input) (in_app_slug input)));
    ("MODO_VALIDACAO", String_ (str_or_default (in_validation_mode input)))].

(** [input.station_name.or(input.device_name).unwrap_or_default()] *)
Definition station_or_device (input : LicenseCheckInput) : string :=
  str_or_default (or_else (in_station_name input) (in_device_name input)).

(** The payload of [register_device]. *)
Definition device_payload (input : LicenseCheckInput) : value :=
  Object [
    ("CNPJ", String_ (in_company_document input));
    ("CHAVE", String_ (str_or_default (in_device_key input)));
    ("NOME", String_ (station_or_device input));
    ("NOMEMAQ", String_ (station_or_device input));
    ("nome_compu",
      String_ (str_or_default (or_else (in_computer_name input) (in_hostname input))));
    ("BLOQUEADO", String_ "N");
    ("versaoexe", String_ (in_app_version input));
    ("observacao", String_ (in_app_name input));
    ("sistema_operacional",
      String_ (str_or_default (or_else (in_os_version input) (in_os_name input))));
    ("tipo", String_ (str_or_default (in_install_mode input)));
    ("Cod_ace_Remoto", String_ (str_or_default (in_domain_name input)));
    ("Prog_acesso", String_ (str_or_default (in_logged_user input)));
    ("tecnico_instalacao", String_ (str_or_default (in_logged_user input)));
    ("serial_number", String_ (str_or_default (in_serial_number input)));
    ("machine_guid", String_ (str_or_default (in_machine_guid input)));
    ("bios_serial", String_ (str_or_default (in_bios_serial input)));
    ("motherboard_serial", String_ (str_or_default (in_motherboard_serial input)));
    ("hostname", String_ (str_or_default (in_hostname input)));
    ("station_name", String_ (str_or_default (in_station_name input)));
    ("device_identifier", String_ (str_or_default (in_device_identifier input)));
    ("full_device_name", String_ (str_or_default (in_device_name input)));
    ("app_slug", String_ (str_or_default (in_app_slug input)));
    ("validation_mode", String_ (str_or_default (in_validation_mode input)))].

(** The payload of [update_device_name]. *)
Definition device_update_payload (input : LicenseCheckInput) : value :=
  Object [
    ("NOME", String_ (station_or_device input));
    ("NOMEMAQ", String_ (station_or_device input));
    ("nome_compu",
      String_ (str_or_default (or_else (in_computer_name input) (in_hostname input))));
    ("versaoexe", String_ (in_app_version input));
    ("sistema_operacional",
      String_ (str_or_default (or_else (in_os_version input) (in_os_name input))));
    ("serial_number", String_ (str_or_default (in_serial_number input)));
    ("hostname", String_ (str_or_default (in_hostname input)));
    ("machine_guid", String_ (str_or_default (in_machine_guid input)));
    ("bios_serial", String_ (str_or_default (in_bios_serial input)));
    ("motherboard_serial", String_ (str_or_default (in_motherboard_serial input)))].

End Requests.

(** ** Calls *)

Section Calls.
Context {W : Type} `{HC : HttpClient W} `{CP : ChronoParse}.
Context (cfg : LicenseConfig).

(** A request whose reply is checked for success only. *)
Definition send_checked (method : http_method) (endpoint : string) (payload : value) :
    St W (result LicenseError unit) :=
  reply ← http_send {| rq_method := method; rq_url := url cfg endpoint;
                       rq_bearer := with_auth cfg; rq_headers := json_headers;
                       rq_body := Some payload |};
  mret (match reply with
        | Err e => Err (Http e)
        | Ok response =>
            if is_success (rs_status response) then Ok ()
            else Err (Http ("HTTP " ++ status_text (rs_status response)))
        end).

(*| generic-license-tauri/src/client.rs 206-221 LicenseApiClient::post_legacy *)
Definition post_legacy (endpoint : string) (payload : value) : St W (result LicenseError unit) :=
  send_checked POST endpoint payload.

(*| generic-license-tauri/src/client.rs 107-130 LicenseApiClient::register_company *)
Definition register_company (input : LicenseCheckInput) : St W (result LicenseError unit) :=
  match guard cfg with
  | Err e => mret (Err e)
  | Ok _ =>
      now ← local_now_text;
      post_legacy (cfg_register_company_endpoint cfg) (company_payload now input)
  end.

(*| generic-license-tauri/src/client.rs 132-163 LicenseApiClient::register_device *)
Definition register_device (input : LicenseCheckInput) : St W (result LicenseError unit) :=
  match guard cfg with
  | Err e => mret (Err e)
  | Ok _ => post_legacy (cfg_register_device_endpoint cfg) (device_payload input)
  end.

(*| generic-license-tauri/src/client.rs 165-204 LicenseApiClient::update_device_name *)
Definition update_device_name (device_id : string) (input : LicenseCheckInput) :
    St W (result LicenseError unit) :=
  match guard cfg with
  | Err e => mret (Err e)
  | Ok _ =>
      send_checked PUT (replace "{id}" device_id (cfg_update_device_endpoint cfg))
        (device_update_payload input)
  end.

(*| generic-license-tauri/src/client.rs 83-105 LicenseApiClient::company_status *)
Definition company_status (document : string) : St W (result LicenseError LicenseApiResponse) :=
  match guard cfg with
  | Err e => mret (Err e)
  | Ok _ =>
      let endpoint := replace "{document}" document (cfg_status_endpoint cfg) in
      reply ← http_send {| rq_method := GET; rq_url := url cfg endpoint;
                           rq_bearer := with_auth cfg;
                           rq_headers := [("Accept", "application/json")];
                           rq_body := None |};
      mret (match reply with
            | Err e => Err (Http e)
            | Ok response =>
                if is_success (rs_status response) then
                  match rs_json response with
                  | Err e => Err (Serde e)
                  | Ok v => normalize_response v
                  end
                else Err (Http ("HTTP " ++ status_text (rs_status response)))
            end)
  end.

(** [value.get(k).and_then(|v| v.as_str()).unwrap_or(d)] *)
Definition text_at (k d : string) (v : value) : string := unwrap_or d (str_of (value_get k v)).

(*| generic-license-tauri/src/client.rs 24-81 LicenseApiClient::resolve_activation *)
Definition resolve_activation (input : LicenseCheckInput) :
    St W (result LicenseError LicenseDecision) :=
  match guard cfg with
  | Err e => mret (Err e)
  | Ok _ =>
      reply ← http_send {| rq_method := POST;
                           rq_url := url cfg (cfg_resolve_activation_endpoint cfg);
                           rq_bearer := with_auth cfg; rq_headers := json_headers;
                           rq_body := Some (resolve_payload cfg input) |};
      mret (match reply with
            | Err e => Err (Http e)
            | Ok response =>
                let status := rs_status response in
                if (status =? 404)%N || (status =? 405)%N then
                  Err (EndpointUnavailable
                         ("endpoint " ++ cfg_resolve_activation_endpoint cfg ++ " não disponível"))
                else
                  match rs_json response with
                  | Err e => Err (Serde e)
                  | Ok v =>
                      if is_success status then normalize_activation_decision v
                      else
                        let message :=
                          unwrap_or "falha ao resolver ativação"
                            (str_of (or_else (value_get "message" v) (value_get "error" v))) in
                        Err (Structured (text_at "step" "resolve_activation" v)
                               (text_at "reason_code" "ACTIVATION_RESOLVE_FAILED" v)
                               ("HTTP " ++ status_text status ++ " - " ++ message))
                  end
            end)
  end.

End Calls.

(** ** Lemmas *)

Lemma u32_of_bound o n : u32_of o = Some n -> (n <= U32_MAX)%N.
Proof.
  unfold u32_of. destruct o as [v|]; simpl; [|done]. destruct (as_u64 v); simpl; [|done].
  intros [= <-]. apply as_u32_cast_bound.
Qed.

Lemma trim_start_char_head c s a r : trim_start_char c s = String a r -> a <> c.
Proof.
  induction s as [|b s IH]; [done|]. simpl. destruct (Ascii.eqb_spec b c); [done|].
  by intros [= -> _].
Qed.

(** ** Properties *)

Section DecodeProperties.
Context `{CP : ChronoParse}.

(** The seat counts decoded from any reply fit in 32 bits, and the number of
    available seats, when there is one, is exactly the limit less the seats in
    use: the subtraction never wraps. *)
Theorem normalize_license_seats v :
  let l := normalize_license v in
  (forall n, lic_max_devices l = Some n -> (n <= U32_MAX)%N) /\
  (forall n, lic_devices_in_use l = Some n -> (n <= U32_MAX)%N) /\
  (forall a, lic_devices_available l = Some a ->
     exists max used, lic_max_devices l = Some max /\ lic_devices_in_use l = Some used /\
       (used + a = max)%N).
Proof.
  unfold normalize_license. destruct (as_object v) as [obj|]; [|done]. cbn.
  set (dv := match (v0 ← _; as_array v0) with Some _ => _ | None => _ end).
  set (m := or_else (u32_of (obj_get "max_devices" obj)) _).
  set (u := or_else (u32_of (obj_get "devices_in_use" obj)) _).
  split_and!.
  - intros n H. subst m. rewrite !or_else_Some in H.
    destruct H as [H|[_ [H|[_ H]]]]; by eapply u32_of_bound.
  - intros n H. subst u. rewrite or_else_Some in H.
    destruct H as [H|[_ [= <-]]]; [by eapply u32_of_bound|apply as_u32_cast_bound].
  - intros a H. destruct m as [max|]; [|done]. destruct u as [used|]; [|done].
    destruct (used <=? max)%N eqn:E; [|done]. apply N.leb_le in E. injection H as <-.
    exists max, used. split_and!; [done..|]. lia.
Qed.

(** chrono refuses to build a date-time from a format without a time of day. *)
Definition date_only_format_fails : Prop :=
  forall raw, naive_parse_from_str raw "%Y-%m-%d" = None.

(** Date-only expiry dates are lost. The "%Y-%m-%d" entry of [parse_datetime]
    can never succeed, so an expiry that only that format describes leaves the
    license without an expiry date. *)
Theorem date_only_expiry_ignored obj raw :
  date_only_format_fails ->
  first_of obj ["expires_at"; "DATA_VAL_LIC"] = Some (String_ raw) ->
  parse_from_rfc3339 raw = None ->
  parse_from_str raw "%Y-%m-%d %H:%M:%S%:z" = None ->
  naive_parse_from_str raw "%Y-%m-%d %H:%M:%S" = None ->
  naive_parse_from_str raw "%d/%m/%Y %H:%M:%S" = None ->
  lic_expires_at (normalize_license (Object obj)) = None.
Proof.
  intros Hd Hf H1 H2 H3 H4. unfold normalize_license. cbn [as_object lic_expires_at].
  rewrite Hf. cbn. rewrite H1, H2, H3, H4. by rewrite Hd.
Qed.

(** The two verdicts of an activation reply can disagree: "success" decides
    [allowed] while the missing "decision" text is derived from the absent
    "allowed" member, so a successful reply is allowed and labelled denied. *)
Theorem activation_success_labelled_denied obj d :
  bool_at "success" obj = Some true ->
  obj_get "allowed" obj = None -> obj_get "decision" obj = None ->
  normalize_activation_decision (Object obj) = Ok d ->
  d_allowed d = true /\ d_decision d = "denied".
Proof.
  intros Hs Ha Hd. unfold normalize_activation_decision. cbn [as_object].
  rewrite Hs. unfold bool_at. rewrite Ha, Hd. intros [= <-]. done.
Qed.

End DecodeProperties.

(** Endpoint joining: whatever slashes the base URL ends with and the
    endpoint starts with, exactly one separates them in the request. *)
Theorem url_single_slash cfg endpoint :
  exists base path,
    url cfg endpoint = base ++ "/" ++ path /\
    last_byte base <> Some "/"%char /\
    (forall r, path <> String "/" r) /\
    (exists b, cfg_base_url cfg = base ++ b) /\ (exists e, endpoint = e ++ path).
Proof.
  exists (trim_end_char "/"%char (cfg_base_url cfg)), (trim_start_char "/"%char endpoint).
  split_and!; [done|apply trim_end_char_last| |apply trim_end_char_prefix|].
  - intros r Hr. by apply trim_start_char_head in Hr.
  - induction endpoint as [|a s [e IH]]; [by exists ""|]. simpl.
    destruct (Ascii.eqb a "/"); [|by exists ""]. exists (String a e).
    by rewrite app_cons, <- IH.
Qed.

Section CallProperties.
Context {W : Type} `{HC : HttpClient W} `{CP : ChronoParse}.
Context (cfg : LicenseConfig).

(** Without a base URL no call of the client reaches the network: all five
    fail with the configuration error and leave the world unchanged. *)
Theorem blank_base_url_sends_nothing input document id w :
  blank (cfg_base_url cfg) = true ->
  let e := Config "base_url da licença não informada" in
  resolve_activation cfg input w = (Err e, w) /\
  company_status cfg document w = (Err e, w) /\
  register_company cfg input w = (Err e, w) /\
  register_device cfg input w = (Err e, w) /\
  update_device_name cfg id input w = (Err e, w).
Proof.
  intros H. unfold resolve_activation, company_status, register_company, register_device,
    update_device_name, guard. by rewrite H.
Qed.

(** [resolve_activation] on every reply: transport failures, an endpoint the
    server does not have, an unreadable body, a refusal with its step and
    reason, and a decoded decision. *)
Theorem resolve_activation_cases input w reply w' :
  blank (cfg_base_url cfg) = false ->
  http_send {| rq_method := POST; rq_url := url cfg (cfg_resolve_activation_endpoint cfg);
               rq_bearer := with_auth cfg; rq_headers := json_headers;
               rq_body := Some (resolve_payload cfg input) |} w = (reply, w') ->
  exists r, resolve_activation cfg input w = (r, w') /\
  match reply with
  | Err e => r = Err (Http e)
  | Ok response =>
      if (rs_status response =? 404)%N || (rs_status response =? 405)%N
      then error_reason_code <$> (match r with Err e => Some e | Ok _ => None end)
             = Some "ENDPOINT_UNAVAILABLE"
      else match rs_json response with
           | Err e => r = Err (Serde e)
           | Ok v =>
               if is_success (rs_status response) then r = normalize_activation_decision v
               else exists message,
                 r = Err (Structured (text_at "step" "resolve_activation" v)
                            (text_at "reason_code" "ACTIVATION_RESOLVE_FAILED" v) message)
           end
  end.
Proof.
  intros Hb Hs. unfold resolve_activation, guard. rewrite Hb.
  erewrite st_bind_run by exact Hs. eexists. split; [done|].
  destruct reply as [response|e]; [|done].
  destruct (_ || _); [done|]. destruct (rs_json response); [|done].
  destruct (is_success _); [done|]. eauto.
Qed.

End CallProperties.
