(* ===== verification/LicenseDevice.v ===== *)
(** * Device identification: [generic-license-tauri/src/device.rs]

    What the code reads from the host (environment variables, files, the
    executable path, the compile-time target) is the record [HostInfo]; the
    hash function is the field [sha256_hex] of the class [Hashing]. *)

From S2P Require Import Prelude RustStr LicenseModels.

#[local] Open Scope string_scope.

(** sha2 and hex: the lower-case hexadecimal SHA-256 digest of some bytes. *)
Class Hashing : Type := { sha256_hex : string -> string }.

(** The [cfg(target_os)] the code distinguishes. *)
Inductive TargetOs : Type := Windows | Linux | MacOs | OtherOs.

(** Readings of the host. [None] is a failed reading; [host_net_entries] are
    the paths listed in /sys/class/net. *)
Record HostInfo : Type := {
  host_target : TargetOs;
  host_hostname : option string;
  host_env : string -> option string;
  host_read_file : string -> option string;
  host_consts_os : string;
  host_consts_arch : string;
  host_current_exe : option string;
  host_net_entries : option (list string);
}.

(*| generic-license-tauri/src/device.rs 8-24 DeviceCollectedInfo *)
Record DeviceCollectedInfo : Type := {
  info_station_name : string;
  info_hostname : string;
  info_computer_name : string;
  info_serial_number : string;
  info_machine_guid : string;
  info_bios_serial : string;
  info_motherboard_serial : string;
  info_logged_user : string;
  info_os_name : string;
  info_os_version : string;
  info_os_arch : string;
  info_domain_name : string;
  info_mac_addresses : list string;
  info_install_mode : string;
}.

Section Host.
Context (host : HostInfo).

(*| generic-license-tauri/src/device.rs 80-84 hostname_or_unknown *)
Definition hostname_or_unknown : string := unwrap_or "unknown-host" (host_hostname host).

(*| generic-license-tauri/src/device.rs 86-90 current_user_or_unknown *)
Definition current_user_or_unknown : string :=
  unwrap_or "unknown-user" (or_else (host_env host "USERNAME") (host_env host "USER")).

(*| generic-license-tauri/src/device.rs 149-166 detect_install_mode *)
Definition detect_install_mode : string :=
  let exe_str := unwrap_or "." (host_current_exe host) in
  if contains "RDP" (to_uppercase (unwrap_or "" (host_env host "SESSIONNAME")))
  then "terminal-session"
  else if starts_with "\\" exe_str || starts_with "//" exe_str then "shared-server"
  else "workstation".

(*| generic-license-tauri/src/device.rs 168-190 os_version *)
Definition os_version : string :=
  match host_target host with
  | Windows => unwrap_or "" (host_env host "OS")
  | Linux =>
      let release := unwrap_or "" (host_read_file host "/etc/os-release") in
      match list_find (starts_with "PRETTY_NAME=") (lines release) with
      | Some l => trim_char DQUOTE (replace "PRETTY_NAME=" "" l)
      | None => ""
      end
  | MacOs | OtherOs => ""
  end.

(** The first trimmed, non-empty content among candidate files. *)
Fixpoint first_file_content (paths : list string) : string :=
  match paths with
  | [] => ""
  | path :: r =>
      let content := trim (unwrap_or "" (host_read_file host path)) in
      if negb (is_empty content) then content else first_file_content r
  end.

(*| generic-license-tauri/src/device.rs 192-219 machine_guid *)
Definition machine_guid : string :=
  match host_target host with
  | Linux => first_file_content ["/etc/machine-id"; "/var/lib/dbus/machine-id"]
  | _ => ""
  end.

(** A file of /sys/class/dmi/id, trimmed, on Linux only. *)
Definition dmi_value (path : string) : string :=
  match host_target host with
  | Linux => let val := trim (unwrap_or "" (host_read_file host path)) in
             if is_empty val then "" else val
  | _ => ""
  end.

(*| generic-license-tauri/src/device.rs 221-244 bios_serial *)
Definition bios_serial : string := dmi_value "/sys/class/dmi/id/bios_version".
(*| generic-license-tauri/src/device.rs 246-269 motherboard_serial *)
Definition motherboard_serial : string := dmi_value "/sys/class/dmi/id/board_serial".
(*| generic-license-tauri/src/device.rs 271-294 system_serial_number *)
Definition system_serial_number : string := dmi_value "/sys/class/dmi/id/product_uuid".

(*| generic-license-tauri/src/device.rs 296-300 domain_name *)
Definition domain_name : string :=
  unwrap_or "" (or_else (host_env host "USERDOMAIN") (host_env host "DOMAINNAME")).

(*| generic-license-tauri/src/device.rs 302-330 mac_addresses *)
Definition mac_addresses : list string :=
  match host_target host with
  | Linux =>
      omap (fun entry =>
              let mac := trim (unwrap_or "" (host_read_file host (entry ++ "/address"))) in
              if negb (is_empty mac) && negb (String.eqb mac "00:00:00:00:00:00")
              then Some mac else None)
        (unwrap_or [] (host_net_entries host))
  | _ => []
  end.

(*| generic-license-tauri/src/device.rs 332-337 first_non_empty *)
Definition first_non_empty (values : list string) : string :=
  unwrap_or "" (list_find (fun v => negb (blank v)) values).

(*| generic-license-tauri/src/device.rs 339-345 non_empty_or_none *)
Definition non_empty_or_none (v : string) : option string :=
  if blank v then None else Some v.

(*| generic-license-tauri/src/device.rs 115-147 collect_device_metadata *)
Definition collect_device_metadata : DeviceCollectedInfo :=
  let hostname := hostname_or_unknown in
  {| info_station_name := hostname;
     info_hostname := hostname;
     info_computer_name := unwrap_or hostname (host_env host "COMPUTERNAME");
     info_serial_number := first_non_empty [system_serial_number; bios_serial];
     info_machine_guid := machine_guid;
     info_bios_serial := bios_serial;
     info_motherboard_serial := motherboard_serial;
     info_logged_user := current_user_or_unknown;
     info_os_name := host_consts_os host;
     info_os_version := os_version;
     info_os_arch := host_consts_arch host;
     info_domain_name := domain_name;
     info_mac_addresses := mac_addresses;
     info_install_mode := detect_install_mode |}.

(*| generic-license-tauri/src/device.rs 92-95 default_device_name *)
Definition default_device_name : string := info_station_name collect_device_metadata.

End Host.

(** [parts.join("|")] *)
Fixpoint join_bar (parts : list string) : string :=
  match parts with
  | [] => ""
  | [x] => x
  | x :: r => x ++ "|" ++ join_bar r
  end.

(** The identifying fields hashed into the device key, in order. *)
Definition device_key_parts (input : LicenseCheckInput) : list string :=
  [in_app_id input;
   unwrap_or "" (in_app_slug input);
   unwrap_or "" (in_machine_guid input);
   unwrap_or "" (in_bios_serial input);
   unwrap_or "" (in_motherboard_serial input);
   unwrap_or "" (head (in_mac_addresses input));
   unwrap_or "" (in_hostname input);
   unwrap_or "" (in_os_name input);
   unwrap_or "" (in_os_arch input)].

Section Enrich.
Context `{HA : Hashing} (host : HostInfo).

(*| generic-license-tauri/src/device.rs 97-113 generate_device_key *)
Definition generate_device_key (input : LicenseCheckInput) : string :=
  sha256_hex (join_bar (device_key_parts input)).

(** [o.as_deref().unwrap_or("").is_empty()] *)
Definition missing (o : option string) : bool := is_empty (unwrap_or "" o).

(** Keep a field the caller filled in, take the collected one otherwise. *)
Definition fill (o : option string) (collected : option string) : option string :=
  if missing o then collected else o.

(** The fields [enrich_input] fills in before it computes the device key. *)
Definition enrich_fields (info : DeviceCollectedInfo) (i : LicenseCheckInput) :
    LicenseCheckInput := {|
  in_company_document := in_company_document i; in_company_name := in_company_name i;
  in_company_email := in_company_email i; in_company_legal_name := in_company_legal_name i;
  in_app_id := in_app_id i; in_app_name := in_app_name i; in_app_version := in_app_version i;
  in_app_slug := in_app_slug i; in_device_key := in_device_key i;
  in_device_name := fill (in_device_name i) (Some (info_station_name info));
  in_station_name := fill (in_station_name i) (Some (info_station_name info));
  in_hostname := fill (in_hostname i) (Some (info_hostname info));
  in_computer_name := fill (in_computer_name i) (Some (info_computer_name info));
  in_serial_number := fill (in_serial_number i) (non_empty_or_none (info_serial_number info));
  in_machine_guid := fill (in_machine_guid i) (non_empty_or_none (info_machine_guid info));
  in_bios_serial := fill (in_bios_serial i) (non_empty_or_none (info_bios_serial info));
  in_motherboard_serial :=
    fill (in_motherboard_serial i) (non_empty_or_none (info_motherboard_serial info));
  in_logged_user := fill (in_logged_user i) (non_empty_or_none (info_logged_user info));
  in_os_name := fill (in_os_name i) (non_empty_or_none (info_os_name info));
  in_os_version := fill (in_os_version i) (non_empty_or_none (info_os_version info));
  in_os_arch := fill (in_os_arch i) (non_empty_or_none (info_os_arch info));
  in_domain_name := fill (in_domain_name i) (non_empty_or_none (info_domain_name info));
  in_mac_addresses :=
    match in_mac_addresses i with [] => info_mac_addresses info | l => l end;
  in_install_mode := fill (in_install_mode i) (non_empty_or_none (info_install_mode info));
  in_registration_file_content_b64 := in_registration_file_content_b64 i;
  in_registration_file_path := in_registration_file_path i;
  in_registration_file_verified := in_registration_file_verified i;
  in_allow_company_auto_create := in_allow_company_auto_create i;
  in_allow_device_auto_create := in_allow_device_auto_create i;
  in_allow_device_auto_update := in_allow_device_auto_update i;
  in_requested_licenses := in_requested_licenses i;
  in_device_identifier := in_device_identifier i; in_validation_mode := in_validation_mode i;
  in_interface_mode := in_interface_mode i; in_local_license_mode := in_local_license_mode i;
  in_metadata := in_metadata i; in_login_context := in_login_context i |}.

(** [input.device_key = Some(key)] *)
Definition with_device_key (key : option string) (i : LicenseCheckInput) :
    LicenseCheckInput := {|
  in_company_document := in_company_document i; in_company_name := in_company_name i;
  in_company_email := in_company_email i; in_company_legal_name := in_company_legal_name i;
  in_app_id := in_app_id i; in_app_name := in_app_name i; in_app_version := in_app_version i;
  in_app_slug := in_app_slug i; in_device_key := key;
  in_device_name := in_device_name i;
  in_station_name := in_station_name i;
  in_hostname := in_hostname i; in_computer_name := in_computer_name i;
  in_serial_number := in_serial_number i; in_machine_guid := in_machine_guid i;
  in_bios_serial := in_bios_serial i; in_motherboard_serial := in_motherboard_serial i;
  in_logged_user := in_logged_user i; in_os_name := in_os_name i;
  in_os_version := in_os_version i; in_os_arch := in_os_arch i;
  in_domain_name := in_domain_name i; in_mac_addresses := in_mac_addresses i;
  in_install_mode := in_install_mode i;
  in_registration_file_content_b64 := in_registration_file_content_b64 i;
  in_registration_file_path := in_registration_file_path i;
  in_registration_file_verified := in_registration_file_verified i;
  in_allow_company_auto_create := in_allow_company_auto_create i;
  in_allow_device_auto_create := in_allow_device_auto_create i;
  in_allow_device_auto_update := in_allow_device_auto_update i;
  in_requested_licenses := in_requested_licenses i;
  in_device_identifier := in_device_identifier i; in_validation_mode := in_validation_mode i;
  in_interface_mode := in_interface_mode i; in_local_license_mode := in_local_license_mode i;
  in_metadata := in_metadata i; in_login_context := in_login_context i |}.

(*| generic-license-tauri/src/device.rs 26-78 enrich_input *)
Definition enrich_input (input : LicenseCheckInput) : LicenseCheckInput :=
  let filled := enrich_fields (collect_device_metadata host) input in
  with_device_key (fill (in_device_key filled) (Some (generate_device_key filled))) filled.

(** ** Lemmas *)

Lemma fill_present o c : missing o = false -> fill o c = o.
Proof. unfold fill. by intros ->. Qed.

Lemma fill_fill o c : fill (fill o c) c = fill o c.
Proof. unfold fill. destruct (missing o) eqn:E; [|by rewrite E]. by destruct (missing c). Qed.

Lemma enrich_fields_idem info i : enrich_fields info (enrich_fields info i) = enrich_fields info i.
Proof.
  unfold enrich_fields. cbn. rewrite !fill_fill. f_equal.
  by destruct (in_mac_addresses i); [destruct (info_mac_addresses info)|].
Qed.

Lemma enrich_fields_with_key info k i :
  enrich_fields info (with_device_key k i) = with_device_key k (enrich_fields info i).
Proof. done. Qed.

Lemma device_key_parts_with_key k i : device_key_parts (with_device_key k i) = device_key_parts i.
Proof. done. Qed.

Lemma with_device_key_twice k k' i :
  with_device_key k (with_device_key k' i) = with_device_key k i.
Proof. done. Qed.

(** ** Properties *)

(** Collecting twice changes nothing: [enrich_input] is idempotent, the
    generated device key included. *)
Theorem enrich_input_idempotent input :
  enrich_input (enrich_input input) = enrich_input input.
Proof.
  unfold enrich_input. cbv zeta. set (info := collect_device_metadata host).
  rewrite enrich_fields_with_key, enrich_fields_idem.
  set (f := enrich_fields info input).
  transitivity (with_device_key
    (fill (fill (in_device_key f) (Some (generate_device_key f)))
       (Some (generate_device_key f))) f); [done|by rewrite fill_fill].
Qed.

(** What the caller fills in is kept, and with a hash that is never empty the
    device key is never empty, whatever the host answers. *)
Theorem enrich_input_preserves_caller input :
  (missing (in_device_key input) = false ->
     in_device_key (enrich_input input) = in_device_key input) /\
  (missing (in_hostname input) = false ->
     in_hostname (enrich_input input) = in_hostname input) /\
  (in_mac_addresses input <> [] ->
     in_mac_addresses (enrich_input input) = in_mac_addresses input) /\
  in_company_document (enrich_input input) = in_company_document input.
Proof.
  repeat split; intros H; cbn; [by apply fill_present..|].
  by destruct (in_mac_addresses input).
Qed.

Lemma enrich_input_device_key input :
  (forall s, sha256_hex s <> "") ->
  missing (in_device_key (enrich_input input)) = false.
Proof.
  intros Hsha. unfold enrich_input. cbn. unfold fill at 1.
  destruct (missing (in_device_key input)) eqn:E; [|done].
  unfold missing. cbn. unfold generate_device_key. destruct (sha256_hex _) eqn:E2; [|done].
  by apply Hsha in E2.
Qed.

End Enrich.
