(* ===== verification/LicenseRegistration.v ===== *)
(** * Registration files: [generic-license-tauri/src/registration.rs]

    The search for a registration file among the candidate paths, its
    signature check and what it fills in. The directories the operating system
    names, the file system, serde_json, base64 and ed25519-dalek are the fields
    of [RegistrationHost] and of the class [RegistrationCrypto]. *)

From S2P Require Import Prelude RustStr Json LicenseModels.

#[local] Open Scope string_scope.

(** base64, serde_json and ed25519-dalek. [ed25519_key] is
    [VerifyingKey::from_bytes] of 32 bytes, and [ed25519_verify] tells whether
    a 64-byte signature of a message verifies. *)
Class RegistrationCrypto : Type := {
  base64_encode : string -> string;
  base64_decode : string -> result string string;
  json_from_slice : string -> option value;
  json_to_vec : value -> result string string;
  verifying_key : Type;
  ed25519_key : string -> result string verifying_key;
  ed25519_verify : verifying_key -> string -> string -> bool;
}.

(** Directories and files as the host answers. *)
Record RegistrationHost : Type := {
  rh_exe_parent : option string;
  rh_current_dir : option string;
  rh_base_dirs : option (string * string);
  rh_project_dirs : option (string * string);
  rh_program_data : option string;
  rh_exists : string -> bool;
  rh_read : string -> result string string;
}.

(*| generic-license-tauri/src/registration.rs 14-22 RegistrationFileDiscovery *)
Record RegistrationFileDiscovery : Type := {
  disc_searched_paths : list string;
  disc_file_path : option string;
  disc_content_b64 : option string;
  disc_verified : option bool;
  disc_payload : option value;
  disc_message : option string;
}.

Section Registration.
Context `{RC : RegistrationCrypto} (host : RegistrationHost) (cfg : LicenseConfig).

Definition opt_list {A} (o : option A) : list A := match o with Some a => [a] | None => [] end.
Definition pair_list {A} (o : option (A * A)) : list A :=
  match o with Some (a, b) => [a; b] | None => [] end.

(** The directories searched, in order. *)
Definition candidate_roots : list string :=
  opt_list (rh_exe_parent host) ++ opt_list (rh_current_dir host)
  ++ pair_list (rh_base_dirs host) ++ pair_list (rh_project_dirs host)
  ++ opt_list ((fun d => path_join (path_join d "WWSoftwares") "IntegraDesktop")
                 <$> rh_program_data host)
  ++ List.filter (fun p => negb (blank p)) (cfg_registration_file_extra_paths cfg).

(*| generic-license-tauri/src/registration.rs 127-172 candidate_paths *)
Definition candidate_paths : list string :=
  flat_map (fun root => map (path_join root) (cfg_registration_file_names cfg)) candidate_roots.

Definition registration_error {A} (m : string) : result LicenseError A :=
  Err (RegistrationFile m).

(*| generic-license-tauri/src/registration.rs 174-214 verify_signature *)
Definition verify_signature (payload : value) (public_key_b64 : string) :
    result LicenseError bool :=
  obj ← ok_or (RegistrationFile "payload do arquivo de registro inválido") (as_object payload);
  signature_value ←
    ok_or (RegistrationFile "assinatura não encontrada no arquivo de registro")
      (v ← obj_get "signature" obj; s ← value_get "value" v; as_str s);
  let unsigned := Object (obj_remove "signature" obj) in
  message ← map_err Serde (json_to_vec unsigned);
  public_key_bytes ←
    map_err (fun e => RegistrationFile ("chave pública inválida: " ++ e))
      (base64_decode public_key_b64);
  signature_bytes ←
    map_err (fun e => RegistrationFile ("assinatura inválida: " ++ e))
      (base64_decode signature_value);
  if negb (Nat.eqb (String.length public_key_bytes) 32) then
    registration_error "a chave pública Ed25519 deve conter 32 bytes"
  else if negb (Nat.eqb (String.length signature_bytes) 64) then
    registration_error "a assinatura Ed25519 deve conter 64 bytes"
  else
    key ← map_err RegistrationFile (ed25519_key public_key_bytes);
    Ok (ed25519_verify key message signature_bytes).

(** The [verified] field of a file found: present when the file is JSON and a
    public key is configured. *)
Definition verify_candidate (payload : option value) : result LicenseError (option bool) :=
  match payload, cfg_registration_public_key_base64 cfg with
  | Some payload, Some pub_key =>
      if blank pub_key then Ok None else Some <$> verify_signature payload pub_key
  | _, _ => Ok None
  end.

(** The loop of [discover_registration_file] from the paths already searched. *)
Fixpoint discover_from (searched : list string) (candidates : list string) :
    result LicenseError RegistrationFileDiscovery :=
  match candidates with
  | [] => Ok {| disc_searched_paths := searched; disc_file_path := None;
                disc_content_b64 := None; disc_verified := None; disc_payload := None;
                disc_message := Some "nenhum arquivo de registro foi localizado" |}
  | candidate :: r =>
      let searched := app searched [candidate] in
      if negb (rh_exists host candidate) then discover_from searched r
      else
        bytes ← map_err RegistrationFile (rh_read host candidate);
        let content_b64 := base64_encode bytes in
        let payload := json_from_slice bytes in
        verified ← verify_candidate payload;
        Ok {| disc_searched_paths := searched; disc_file_path := Some candidate;
              disc_content_b64 := Some content_b64; disc_verified := verified;
              disc_payload := payload;
              disc_message := Some "arquivo de registro localizado automaticamente" |}
  end.

(*| generic-license-tauri/src/registration.rs 85-125 discover_registration_file *)
Definition discover_registration_file : result LicenseError RegistrationFileDiscovery :=
  discover_from [] candidate_paths.

(** [payload.get(k1).and_then(|v| v.get(k2)).and_then(|v| v.as_str())] *)
Definition payload_text (payload : option value) (k1 k2 : string) : option string :=
  p ← payload; v ← value_get k1 p; s ← value_get k2 v; as_str s.

(** [None] replaced by a value found in the file. *)
Definition if_none (o : option string) (found : option string) : option string :=
  match o with None => found | Some _ => o end.

(** What a registration file found fills in. *)
Definition apply_discovery (d : RegistrationFileDiscovery) (content_b64 : string)
    (i : LicenseCheckInput) : LicenseCheckInput := {|
  in_company_document :=
    if blank (in_company_document i)
    then unwrap_or (in_company_document i) (payload_text (disc_payload d) "company" "document")
    else in_company_document i;
  in_company_name := in_company_name i;
  in_company_email :=
    if_none (in_company_email i) (payload_text (disc_payload d) "company" "email");
  in_company_legal_name :=
    if_none (in_company_legal_name i) (payload_text (disc_payload d) "company" "legal_name");
  in_app_id := in_app_id i; in_app_name := in_app_name i; in_app_version := in_app_version i;
  in_app_slug := if_none (in_app_slug i) (payload_text (disc_payload d) "application" "slug");
  in_device_key := in_device_key i;
  in_device_name := in_device_name i; in_station_name := in_station_name i;
  in_hostname := in_hostname i; in_computer_name := in_computer_name i;
  in_serial_number := in_serial_number i; in_machine_guid := in_machine_guid i;
  in_bios_serial := in_bios_serial i; in_motherboard_serial := in_motherboard_serial i;
  in_logged_user := in_logged_user i; in_os_name := in_os_name i;
  in_os_version := in_os_version i; in_os_arch := in_os_arch i;
  in_domain_name := in_domain_name i; in_mac_addresses := in_mac_addresses i;
  in_install_mode := in_install_mode i;
  in_registration_file_content_b64 := Some content_b64;
  in_registration_file_path := disc_file_path d;
  in_registration_file_verified := disc_verified d;
  in_allow_company_auto_create := in_allow_company_auto_create i;
  in_allow_device_auto_create := in_allow_device_auto_create i;
  in_allow_device_auto_update := in_allow_device_auto_update i;
  in_requested_licenses := in_requested_licenses i;
  in_device_identifier := in_device_identifier i; in_validation_mode := in_validation_mode i;
  in_interface_mode := in_interface_mode i; in_local_license_mode := in_local_license_mode i;
  in_metadata := in_metadata i; in_login_context := in_login_context i |}.

(** The [&mut input] is returned with the result. *)
(*| generic-license-tauri/src/registration.rs 24-83 enrich_input_from_registration_file *)
Definition enrich_input_from_registration_file (input : LicenseCheckInput) :
    result LicenseError (option RegistrationFileDiscovery * LicenseCheckInput) :=
  match in_registration_file_content_b64 input with
  | Some _ => Ok (None, input)
  | None =>
      if negb (cfg_enable_registration_file_lookup cfg) then Ok (None, input)
      else
        discovered ← discover_registration_file;
        match disc_content_b64 discovered with
        | Some content_b64 => Ok (Some discovered, apply_discovery discovered content_b64 input)
        | None => Ok (Some discovered, input)
        end
  end.

(** ** Lemmas *)

Lemma discover_from_spec searched candidates d :
  discover_from searched candidates = Ok d ->
  (disc_file_path d = None /\ disc_content_b64 d = None /\ disc_verified d = None /\
   disc_searched_paths d = app searched candidates /\
   Forall (fun c => rh_exists host c = false) candidates) \/
  (exists before c after bytes,
     candidates = app before (c :: after) /\
     Forall (fun c => rh_exists host c = false) before /\
     rh_exists host c = true /\ rh_read host c = Ok bytes /\
     disc_file_path d = Some c /\ disc_content_b64 d = Some (base64_encode bytes) /\
     disc_payload d = json_from_slice bytes /\
     verify_candidate (json_from_slice bytes) = Ok (disc_verified d) /\
     disc_searched_paths d = app searched (app before [c])).
Proof.
  revert searched. induction candidates as [|c r IH]; intros searched H.
  { left. simpl in H. injection H as <-. simpl. by rewrite app_nil_r. }
  cbn [discover_from] in H. destruct (rh_exists host c) eqn:Ec; cbn [negb] in H.
  - right. destruct (rh_read host c) as [bytes|] eqn:Er; cbn in H; [|done].
    destruct (verify_candidate (json_from_slice bytes)) as [v|] eqn:Ev; cbn in H; [|done].
    injection H as <-. exists [], c, r, bytes. cbn. repeat split; auto.
  - destruct (IH _ H) as [(H1 & H2 & H3 & H4 & H5)|
      (before & c' & after & bytes & -> & Hb & He & Hrd & Hfp & Hc & Hp & Hv & Hs)].
    + left. repeat split; auto. by rewrite H4, <- (assoc_L app).
    + right. exists (c :: before), c', after, bytes. repeat split; auto.
      by rewrite Hs, <- !(assoc_L app).
Qed.

Lemma registration_keeps_caller input d input' :
  enrich_input_from_registration_file input = Ok (d, input') ->
  (blank (in_company_document input) = false ->
     in_company_document input' = in_company_document input) /\
  (forall e, in_company_email input = Some e -> in_company_email input' = Some e) /\
  (forall n, in_company_legal_name input = Some n -> in_company_legal_name input' = Some n) /\
  (forall s, in_app_slug input = Some s -> in_app_slug input' = Some s) /\
  (in_registration_file_content_b64 input <> None -> input' = input) /\
  in_device_key input' = in_device_key input /\ in_app_id input' = in_app_id input.
Proof.
  unfold enrich_input_from_registration_file. intros H.
  destruct (in_registration_file_content_b64 input) eqn:Ec; [by simplify_eq|].
  destruct (cfg_enable_registration_file_lookup cfg); cbn in H; [|by simplify_eq].
  destruct discover_registration_file as [disc|]; cbn in H; [|done].
  destruct (disc_content_b64 disc); simplify_eq; [|by repeat split].
  cbn. repeat split; try done; first [by intros ->|by intros ? ->].
Qed.

(** ** Properties *)

(** Signature check soundness: [verify_signature] answers [Ok true] exactly when the
    payload is an object carrying a base64 signature of 64 bytes, the key
    decodes to 32 bytes that form an Ed25519 key, and that key verifies the
    signature over the payload without its "signature" member. *)
Theorem verify_signature_sound payload pk :
  verify_signature payload pk = Ok true <->
  exists obj sig msg pkb sigb key,
    payload = Object obj /\
    (v ← obj_get "signature" obj; s ← value_get "value" v; as_str s) = Some sig /\
    json_to_vec (Object (obj_remove "signature" obj)) = Ok msg /\
    base64_decode pk = Ok pkb /\ base64_decode sig = Ok sigb /\
    String.length pkb = 32 /\ String.length sigb = 64 /\
    ed25519_key pkb = Ok key /\ ed25519_verify key msg sigb = true.
Proof.
  unfold verify_signature. split.
  - intros H. destruct payload as [| | | | |obj]; try done. cbn [as_object ok_or] in H.
    cbn [mbind result_bind] in H.
    destruct (v ← obj_get "signature" obj; s ← value_get "value" v; as_str s) as [sig|] eqn:Es;
      cbn in H; [|done].
    destruct (json_to_vec _) as [msg|] eqn:Em; cbn in H; [|done].
    destruct (base64_decode pk) as [pkb|] eqn:Ep; cbn in H; [|done].
    destruct (base64_decode sig) as [sigb|] eqn:Eg; cbn in H; [|done].
    destruct (Nat.eqb_spec (String.length pkb) 32) as [L1|]; cbn in H; [|done].
    destruct (Nat.eqb_spec (String.length sigb) 64) as [L2|]; cbn in H; [|done].
    destruct (ed25519_key pkb) as [key|] eqn:Ek; cbn in H; [|done].
    injection H as H. exists obj, sig, msg, pkb, sigb, key. repeat split; done.
  - intros (obj & sig & msg & pkb & sigb & key & -> & Es & Em & Ep & Eg & L1 & L2 & Ek & Ev).
    cbn [as_object ok_or mbind result_bind]. rewrite Es. cbn. rewrite Em. cbn.
    rewrite Ep. cbn. rewrite Eg. cbn. rewrite L1, L2. cbn. rewrite Ek. cbn. by rewrite Ev.
Qed.

(** Whatever file is found, the caller's own data wins: a company document
    that is not blank, an e-mail, a legal name and an application slug that
    are present are kept, and nothing outside the registration fields
    changes. *)
Theorem registration_keeps_caller_data input d input' :
  enrich_input_from_registration_file input = Ok (d, input') ->
  (blank (in_company_document input) = false ->
     in_company_document input' = in_company_document input) /\
  (forall e, in_company_email input = Some e -> in_company_email input' = Some e) /\
  (forall n, in_company_legal_name input = Some n -> in_company_legal_name input' = Some n) /\
  (forall s, in_app_slug input = Some s -> in_app_slug input' = Some s) /\
  (in_registration_file_content_b64 input <> None -> input' = input) /\
  in_device_key input' = in_device_key input /\ in_app_id input' = in_app_id input.
Proof.
  apply registration_keeps_caller.
Qed.

(** The registration file found is the first existing candidate, it is
    read once, and its signature flag is only [Some true] when a public key is
    configured and the file's own signature verifies under it. *)
Theorem discovery_first_existing d :
  discover_registration_file = Ok d ->
  match disc_file_path d with
  | None => Forall (fun c => rh_exists host c = false) candidate_paths /\ disc_verified d = None
  | Some c =>
      exists before after bytes,
        candidate_paths = app before (c :: after) /\
        Forall (fun c => rh_exists host c = false) before /\
        rh_read host c = Ok bytes /\
        disc_content_b64 d = Some (base64_encode bytes) /\
        (disc_verified d = Some true ->
           exists payload pk, json_from_slice bytes = Some payload /\
             cfg_registration_public_key_base64 cfg = Some pk /\ blank pk = false /\
             verify_signature payload pk = Ok true)
  end.
Proof.
  intros H. destruct (discover_from_spec _ _ _ H) as
    [(-> & Hc & Hv & _ & Hf)|(b & c & a & by_ & Hc & Hb & He & Hr & -> & Hb64 & _ & Hv & _)];
    [done|].
  exists b, a, by_. repeat split; auto. intros Hver. unfold verify_candidate in Hv.
  destruct (json_from_slice by_) as [p|]; [|congruence].
  destruct (cfg_registration_public_key_base64 cfg) as [pk|]; [|congruence].
  destruct (blank pk) eqn:Eb; [congruence|].
  destruct (verify_signature p pk) as [v|] eqn:Es; cbn in Hv; [|done].
  exists p, pk. repeat split; auto. congruence.
Qed.

End Registration.
