(* ===== verification/LicenseService.v ===== *)
(** * License validation: [generic-license-tauri/src/cache.rs] and [service.rs]

    The offline cache and the validation service. The clock, the file system
    and serde_json's text form of a cache file are the class [LicenseWorld]
    over the state [W] of the outside world; the HTTP client, the device
    readings and the registration file are those of the other licensing files.

    [evaluate_legacy] calls itself after each successful registration, with no
    bound in the code: it takes fuel here, and [None] is a call that has not
    returned yet. *)

From S2P Require Import Prelude RustStr Json LicenseModels LicenseClient LicenseDevice.
From S2P Require Import LicenseRegistration.

#[local] Open Scope string_scope.

(** ** Outside interface *)

Class LicenseWorld (W : Type) `{CH : Chrono} : Type := {
  utc_now : St W datetime;
  data_local_dir : option string;
  fs_create_dir_all : string -> St W (result string unit);
  fs_write : string -> string -> St W (result string unit);
  (** [None]: the path does not exist *)
  fs_read : string -> W -> option (result string string);
  cached_to_json : CachedLicenseFile -> result string string;
  cached_of_json : string -> result string CachedLicenseFile;
}.

(** What the cache relies on: a file written successfully reads back as
    written, and serde reads back the cache files it prints. *)
Class LicenseWorldLaws (W : Type) `{LW : LicenseWorld W} : Prop := {
  fs_write_read p c w w' : fs_write p c w = (Ok (), w') -> fs_read p w' = Some (Ok c);
  cached_json_roundtrip f s : cached_to_json f = Ok s -> cached_of_json s = Ok f;
}.

(** ** The offline cache *)

Section Cache.
Context {W : Type} `{LW : LicenseWorld W} `{HA : Hashing}.
Context (namespace : string).

(*| generic-license-tauri/src/cache.rs 101-106 sha_file_name *)
Definition sha_file_name (document : string) : string := sha256_hex document.

(*| generic-license-tauri/src/cache.rs 93-95 OfflineCache::file_path *)
Definition cache_dir (data : string) : string := path_join (path_join data "offline") namespace.

(*| generic-license-tauri/src/cache.rs 88-98 OfflineCache::file_path *)
Definition file_path (document : string) : result LicenseError (string * string) :=
  match data_local_dir with
  | None => Err (Io "não foi possível resolver o diretório de dados do app")
  | Some data =>
      let dir := cache_dir data in
      Ok (dir, path_join dir (sha_file_name document ++ ".json"))
  end.

(*| generic-license-tauri/src/cache.rs 70-86 OfflineCache::write *)
Definition cache_write (document : string) (cached : CachedLicenseFile) :
    St W (result LicenseError unit) :=
  match file_path document with
  | Err e => mret (Err e)
  | Ok (parent, path) =>
      created ← fs_create_dir_all parent;
      match created with
      | Err e => mret (Err (Io e))
      | Ok _ =>
          match cached_to_json cached with
          | Err e => mret (Err (Serde e))
          | Ok json => written ← fs_write path json; mret (map_err Io written)
          end
      end
  end.

(*| generic-license-tauri/src/cache.rs 21-35 OfflineCache::put_payload *)
Definition put_payload (document : string) (payload : LicenseApiResponse) :
    St W (result LicenseError unit) :=
  now ← utc_now;
  cache_write document
    {| cached_at := now; cached_decision := None; cached_payload := Some payload |}.

(*| generic-license-tauri/src/cache.rs 37-51 OfflineCache::put_decision *)
Definition put_decision (document : string) (decision : LicenseDecision) :
    St W (result LicenseError unit) :=
  now ← utc_now;
  cache_write document
    {| cached_at := now; cached_decision := Some decision; cached_payload := None |}.

(*| generic-license-tauri/src/cache.rs 53-68 OfflineCache::get *)
Definition cache_get (document : string) (w : W) :
    result LicenseError (option CachedLicenseFile) :=
  match file_path document with
  | Err e => Err e
  | Ok (_, path) =>
      match fs_read path w with
      | None => Ok None
      | Some (Err e) => Err (Io e)
      | Some (Ok contents) =>
          match cached_of_json contents with
          | Err e => Err (Serde e)
          | Ok decoded => Ok (Some decoded)
          end
      end
  end.

End Cache.

(** ** Decisions *)

Section Decisions.
Context `{CH : Chrono}.

(*| generic-license-tauri/src/service.rs 404-422 application_from_legacy *)
Definition application_from_legacy (license : LicenseRecord) : ApplicationLicenseRecord := {|
  app_application_slug := lic_application_slug license;
  app_status := Some (if lic_blocked license then "blocked"
                      else if lic_active license then "active" else "inactive");
  app_max_devices := lic_max_devices license;
  app_devices_in_use := lic_devices_in_use license;
  app_devices_available := lic_devices_available license;
  app_expires_at := lic_expires_at license |}.

(*| generic-license-tauri/src/service.rs 424-432 company_from_legacy *)
Definition company_from_legacy (license : LicenseRecord) : CompanyRecord := {|
  com_id := None;
  com_document := lic_document license;
  com_legal_name := lic_company_name license;
  com_email := lic_company_email license;
  com_reused_existing := false |}.

(*| generic-license-tauri/src/service.rs 434-440 source_label *)
Definition source_label (used_offline_cache : bool) : string :=
  if used_offline_cache then "offline" else "online".

(*| generic-license-tauri/src/service.rs 442-448 find_device *)
Definition find_device (license : LicenseRecord) (device_key : string) : option DeviceRecord :=
  list_find (fun d => String.eqb (unwrap_or "" (dev_device_key d)) device_key)
    (lic_devices license).

(*| generic-license-tauri/src/service.rs 450-452 only_digits *)
Definition only_digits (v : string) : string := filter_bytes is_ascii_digit v.

(*| generic-license-tauri/src/service.rs 454-460 diag *)
Definition diag (step code message : string) : DiagnosticItem :=
  {| diag_step := step; diag_code := code; diag_message := message |}.

(*| generic-license-tauri/src/service.rs 377-402 deny *)
Definition deny (message reason_code step : string) (used_offline_cache : bool)
    (license : LicenseRecord) (device : option DeviceRecord) (diagnostics : list DiagnosticItem) :
    LicenseDecision := {|
  d_allowed := false;
  d_decision := "denied";
  d_reason_code := Some reason_code;
  d_step := Some step;
  d_message := message;
  d_used_offline_cache := used_offline_cache;
  d_warning := None;
  d_license := Some license;
  d_application_license := Some (application_from_legacy license);
  d_company := Some (company_from_legacy license);
  d_device := device;
  d_offline := Some offline_default;
  d_diagnostics := diagnostics;
  d_source := source_label used_offline_cache |}.

(** The decision for a company the service does not know. *)
(*| generic-license-tauri/src/service.rs 210-227 evaluate_legacy *)
Definition company_not_found (payload : LicenseApiResponse) (used_offline_cache : bool)
    (diagnostics : list DiagnosticItem) : LicenseDecision :=
  deny (unwrap_or "empresa não cadastrada no serviço de licenciamento" (resp_message payload))
    "COMPANY_NOT_FOUND" "resolve_company" used_offline_cache (resp_license payload) None diagnostics.

(** The decision at the end of a validation that found nothing against it. *)
(*| generic-license-tauri/src/service.rs 350-373 evaluate_legacy *)
Definition allow (warning : option string) (used_offline_cache : bool)
    (license : LicenseRecord) (device : option DeviceRecord) (diagnostics : list DiagnosticItem) :
    LicenseDecision := {|
  d_allowed := true;
  d_decision := "allowed";
  d_reason_code := Some (if used_offline_cache then "ONLINE_VALIDATION_FAILED_USING_CACHE"
                         else "LICENSE_VALID");
  d_step := Some "validate_license";
  d_message := if used_offline_cache then "licença validada com cache offline"
               else "licença validada com sucesso";
  d_used_offline_cache := used_offline_cache;
  d_warning := warning;
  d_license := Some license;
  d_application_license := Some (application_from_legacy license);
  d_company := Some (company_from_legacy license);
  d_device := device;
  d_offline := Some offline_default;
  d_diagnostics := diagnostics;
  d_source := source_label used_offline_cache |}.

(** A cached decision as it is replayed offline. *)
(*| generic-license-tauri/src/service.rs 112-119 try_offline_cache_or_fail *)
Definition replay_offline (d : LicenseDecision) : LicenseDecision := {|
  d_allowed := d_allowed d;
  d_decision := d_decision d;
  d_reason_code := Some (unwrap_or "ONLINE_VALIDATION_FAILED_USING_CACHE" (d_reason_code d));
  d_step := d_step d;
  d_message := d_message d;
  d_used_offline_cache := true;
  d_warning := d_warning d;
  d_license := d_license d;
  d_application_license := d_application_license d;
  d_company := d_company d;
  d_device := d_device d;
  d_offline := d_offline d;
  d_diagnostics := d_diagnostics d;
  d_source := "offline" |}.

(** [decision.reason_code = Some(..); decision.source = "offline"] *)
(*| generic-license-tauri/src/service.rs 167-168 try_offline_cache_or_fail *)
Definition mark_offline (d : LicenseDecision) : LicenseDecision := {|
  d_allowed := d_allowed d;
  d_decision := d_decision d;
  d_reason_code := Some "ONLINE_VALIDATION_FAILED_USING_CACHE";
  d_step := d_step d;
  d_message := d_message d;
  d_used_offline_cache := d_used_offline_cache d;
  d_warning := d_warning d;
  d_license := d_license d;
  d_application_license := d_application_license d;
  d_company := d_company d;
  d_device := d_device d;
  d_offline := d_offline d;
  d_diagnostics := d_diagnostics d;
  d_source := "offline" |}.

End Decisions.

(** ** The service *)

Section Service.
Context {W : Type} `{LW : LicenseWorld W} `{HA : Hashing} `{HC : !HttpClient W}
  `{CP : !ChronoParse} `{RC : RegistrationCrypto}.
Context (host : HostInfo) (rhost : RegistrationHost) (cfg : LicenseConfig).

Definition ns : string := cfg_cache_namespace cfg.

(** The outcome of a registration attempt: go on with the diagnostics
    collected, or start over with the new payload. *)
Definition attempt : Type := list DiagnosticItem + LicenseApiResponse.

(** Fetch the payload again after a successful registration, and cache it. *)
(*| generic-license-tauri/src/service.rs 277-290 evaluate_legacy *)
Definition refetch (document : string) : St W attempt :=
  reply ← company_status cfg document;
  match reply with
  | Ok registered => _ ← put_payload ns document registered; mret (inr registered)
  | Err _ => mret (inl [])
  end.

(*| generic-license-tauri/src/service.rs 184-208 register_company branch *)
Definition try_register_company (input : LicenseCheckInput) : St W attempt :=
  if unwrap_or (cfg_auto_register_company_on_missing cfg) (in_allow_company_auto_create input) then
    registered ← register_company cfg input;
    match registered with
    | Err err => mret (inl [diag "register_company" "COMPANY_AUTO_CREATE_FAILED" (show_error err)])
    | Ok _ => refetch (in_company_document input)
    end
  else mret (inl []).

(*| generic-license-tauri/src/service.rs 267-291 register_device branch *)
Definition try_register_device (input : LicenseCheckInput) : St W attempt :=
  if unwrap_or (cfg_auto_register_device_on_missing cfg) (in_allow_device_auto_create input) then
    registered ← register_device cfg input;
    match registered with
    | Err err => mret (inl [diag "register_device" "DEVICE_AUTO_CREATE_FAILED" (show_error err)])
    | Ok _ => refetch (in_company_document input)
    end
  else mret (inl []).

(** [input.station_name.or(input.device_name).unwrap_or_default()] *)
(*| generic-license-tauri/src/service.rs 259-263 evaluate_legacy *)
Definition wanted_device_name (input : LicenseCheckInput) : string :=
  unwrap_or "" (or_else (in_station_name input) (in_device_name input)).

(*| generic-license-tauri/src/service.rs 319-334 update_device branch *)
Definition try_update_device (input : LicenseCheckInput) (current : DeviceRecord) :
    St W (list DiagnosticItem) :=
  if unwrap_or (cfg_auto_update_device_name cfg) (in_allow_device_auto_update input) then
    match dev_id current, dev_device_name current with
    | Some id, Some name =>
        if negb (String.eqb name (wanted_device_name input)) then
          updated ← update_device_name cfg id input;
          mret (match updated with
                | Err err => [diag "update_device" "DEVICE_AUTO_UPDATE_FAILED" (show_error err)]
                | Ok _ => []
                end)
        else mret []
    | _, _ => mret []
    end
  else mret [].

(** Whether the license is refused for its date: the clock is read when the
    license has an expiry date. *)
(*| generic-license-tauri/src/service.rs 244-256 evaluate_legacy *)
Definition check_expired (license : LicenseRecord) : St W bool :=
  match lic_expires_at license with
  | Some expires_at => now ← utc_now; mret (dt_lt expires_at now && cfg_block_on_expired cfg)
  | None => mret false
  end.

(*| generic-license-tauri/src/service.rs 337-348 expiry warning *)
Definition expiry_warning (license : LicenseRecord) : St W (option string) :=
  match lic_expires_at license with
  | Some expires_at =>
      now ← utc_now;
      let days_left := days_since expires_at now in
      mret (if (0 <=? days_left)%Z && (days_left <=? cfg_warn_before_expiration_in_days cfg)%Z
            then Some ("A licença vence em " ++ show_Z days_left ++ " dia(s).")
            else None)
  | None => mret None
  end.

(** The last part of a validation: a device that is known or not required. *)
(*| generic-license-tauri/src/service.rs 306-373 evaluate_legacy *)
Definition validate_device (payload : LicenseApiResponse) (input : LicenseCheckInput)
    (off : bool) (device : option DeviceRecord) (diagnostics : list DiagnosticItem) :
    St W LicenseDecision :=
  let license := resp_license payload in
  match device with
  | Some current =>
      if dev_blocked current && cfg_block_on_device_blocked cfg then
        mret (deny "dispositivo bloqueado para esta licença" "DEVICE_BLOCKED" "validate_device"
                off license (Some current) diagnostics)
      else
        more ← try_update_device input current;
        warning ← expiry_warning license;
        mret (allow warning off license device (app diagnostics more))
  | None =>
      warning ← expiry_warning license;
      mret (allow warning off license device diagnostics)
  end.

(*| generic-license-tauri/src/service.rs 175-374 evaluate_legacy *)
Fixpoint evaluate_legacy (fuel : nat) (payload : LicenseApiResponse) (input : LicenseCheckInput)
    (off : bool) : St W (option LicenseDecision) :=
  match fuel with
  | 0 => mret None
  | S fuel' =>
      let license := resp_license payload in
      if (resp_status payload =? 0)%Z then
        outcome ← try_register_company input;
        match outcome with
        | inr registered => evaluate_legacy fuel' registered input off
        | inl diagnostics => mret (Some (company_not_found payload off diagnostics))
        end
      else if lic_blocked license && cfg_block_on_company_blocked cfg then
        mret (Some (deny "empresa bloqueada no serviço de licenciamento" "COMPANY_BLOCKED"
                      "validate_company" off license None []))
      else
        expired ← check_expired license;
        if (expired : bool) then
          mret (Some (deny "licença expirada" "LICENSE_EXPIRED" "validate_license"
                        off license None []))
        else
          let device := find_device license (unwrap_or "" (in_device_key input)) in
          match device with
          | Some _ => d ← validate_device payload input off device []; mret (Some d)
          | None =>
              outcome ← try_register_device input;
              match outcome with
              | inr registered => evaluate_legacy fuel' registered input off
              | inl diagnostics =>
                  if cfg_block_on_device_missing cfg then
                    mret (Some (deny "dispositivo não autorizado para esta licença"
                                  "DEVICE_NOT_FOUND" "resolve_device" off license None diagnostics))
                  else d ← validate_device payload input off None diagnostics; mret (Some d)
              end
          end
  end.

(*| generic-license-tauri/src/service.rs 80-173 try_offline_cache_or_fail *)
Definition try_offline_cache_or_fail (fuel : nat) (document : string) (err : LicenseError) :
    St W (option (result LicenseError LicenseDecision)) := fun w =>
  match cache_get ns document w with
  | Err e => (Some (Err e), w)
  | Ok None =>
      (Some (Err (Structured "offline_cache" "ONLINE_VALIDATION_FAILED_NO_CACHE"
         ("falha online (" ++ show_error err
          ++ ") e não existe cache offline para esta licença"))), w)
  | Ok (Some cached) =>
      let '(now, w) := utc_now w in
      if (cfg_offline_max_age_days cfg <? days_since now (cached_at cached))%Z then
        (Some (Err (Structured "offline_cache" "OFFLINE_CACHE_EXPIRED"
           "falha online e o cache offline expirou")), w)
      else
        match cached_decision cached, cached_payload cached with
        | Some decision, _ => (Some (Ok (replay_offline decision)), w)
        | None, Some payload =>
            let '(d, w) := evaluate_legacy fuel payload (bare_input document) true w in
            ((fun d => Ok (mark_offline d)) <$> d, w)
        | None, None => (Some (Err err), w)
        end
  end.

(** The legacy half of [check]. *)
(*| generic-license-tauri/src/service.rs 59-77 check *)
Definition check_legacy (fuel : nat) (input : LicenseCheckInput) :
    St W (option (result LicenseError LicenseDecision)) :=
  let document := in_company_document input in
  reply ← company_status cfg document;
  match reply with
  | Ok payload =>
      _ ← put_payload ns document payload;
      decision ← evaluate_legacy fuel payload input false;
      match decision with
      | None => mret None
      | Some d => _ ← put_decision ns document d; mret (Some (Ok d))
      end
  | Err err => try_offline_cache_or_fail fuel document err
  end.

(** The input after the preparation [check] does before any request. *)
(*| generic-license-tauri/src/service.rs 31-33 check *)
Definition prepare_input (input : LicenseCheckInput) : result LicenseError LicenseCheckInput :=
  let input := with_document (only_digits (in_company_document input)) input in
  let input := enrich_input host input in
  snd <$> enrich_input_from_registration_file rhost cfg input.

(*| generic-license-tauri/src/service.rs 27-78 check *)
Definition check (fuel : nat) (input : LicenseCheckInput) :
    St W (option (result LicenseError LicenseDecision)) :=
  match prepare_input input with
  | Err e => mret (Some (Err e))
  | Ok input =>
      let document := in_company_document input in
      if is_empty document then
        mret (Some (Err (Invalid "documento da empresa não informado")))
      else if cfg_prefer_resolve_activation cfg then
        resolved ← resolve_activation cfg input;
        match resolved with
        | Ok decision => _ ← put_decision ns document decision; mret (Some (Ok decision))
        | Err err =>
            if negb (cfg_allow_legacy_fallback cfg)
            then try_offline_cache_or_fail fuel document err
            else check_legacy fuel input
        end
      else check_legacy fuel input
  end.

(** ** The crate's own commands *)

(** A check with its error in the form [f] gives it. *)
Definition checked {E} (f : LicenseError -> E) (fuel : nat) (input : LicenseCheckInput) :
    St W (option (result E LicenseDecision)) :=
  reply ← check fuel input;
  mret (map_err f <$> reply).

(*| generic-license-tauri/src/commands.rs 19-24 license_check *)
Definition license_check : nat -> LicenseCheckInput -> St W (option (result string LicenseDecision)) :=
  checked show_error.

(*| generic-license-tauri/src/commands.rs 28-33 license_check_structured *)
Definition license_check_structured :
    nat -> LicenseCheckInput -> St W (option (result SerializableLicenseError LicenseDecision)) :=
  checked serializable_error.

(** ** Lemmas *)

Lemma find_device_Some license key dev :
  find_device license key = Some dev ->
  dev ∈ lic_devices license /\ unwrap_or "" (dev_device_key dev) = key.
Proof. intros H. apply list_find_Some in H as [? ?%String.eqb_eq]. done. Qed.

Lemma find_device_None license key :
  find_device license key = None <->
  Forall (fun d => unwrap_or "" (dev_device_key d) <> key) (lic_devices license).
Proof.
  unfold find_device. rewrite list_find_None. apply Forall_iff. intros d.
  by rewrite String.eqb_neq.
Qed.

(** What a decision of [evaluate_legacy] always says of itself. *)
Definition labelled (off : bool) (d : LicenseDecision) : Prop :=
  d_used_offline_cache d = off /\ d_source d = source_label off /\
  is_Some (d_reason_code d) /\ is_Some (d_license d) /\
  (d_decision d = if d_allowed d then "allowed" else "denied").

Lemma labelled_deny m r s off l dev ds : labelled off (deny m r s off l dev ds).
Proof. by repeat split. Qed.
Lemma labelled_allow wrn off l dev ds : labelled off (allow wrn off l dev ds).
Proof. by repeat split. Qed.

(** A validation that reached its device part either refuses a blocked device
    or allows, and an allowed device is not a blocked one. *)
Lemma validate_device_spec payload input off dev ds w d w' :
  validate_device payload input off dev ds w = (d, w') ->
  (exists cur, dev = Some cur /\ dev_blocked cur = true /\ cfg_block_on_device_blocked cfg = true /\
     d = deny "dispositivo bloqueado para esta licença" "DEVICE_BLOCKED" "validate_device"
           off (resp_license payload) (Some cur) ds) \/
  (exists wrn ds', d = allow wrn off (resp_license payload) dev ds' /\
     (forall cur, dev = Some cur -> cfg_block_on_device_blocked cfg = true ->
        dev_blocked cur = false)).
Proof.
  unfold validate_device. intros H. destruct dev as [cur|].
  - destruct (dev_blocked cur && cfg_block_on_device_blocked cfg) eqn:E.
    + injection H as <- _. left. exists cur. apply andb_true_iff in E as [-> ->]. done.
    + run_bind H more w1. run_bind H wrn w2. injection H as <- _. right.
      do 2 eexists. split; [done|]. intros c [= <-] Hb. rewrite Hb, andb_true_r in E. done.
  - run_bind H wrn w1. injection H as <- _. right. do 2 eexists. split; done.
Qed.

(** The license of [d] passed every check the configuration asks for. *)
Definition granted (input : LicenseCheckInput) (d : LicenseDecision) : Prop :=
  exists license,
    d_license d = Some license /\
    (cfg_block_on_company_blocked cfg = true -> lic_blocked license = false) /\
    (forall e, lic_expires_at license = Some e -> cfg_block_on_expired cfg = true ->
       exists w1 w2 t, utc_now w1 = (t, w2) /\ dt_lt e t = false) /\
    (cfg_block_on_device_missing cfg = true -> is_Some (d_device d)) /\
    (forall dev, d_device d = Some dev ->
       dev ∈ lic_devices license /\
       unwrap_or "" (dev_device_key dev) = unwrap_or "" (in_device_key input) /\
       (cfg_block_on_device_blocked cfg = true -> dev_blocked dev = false)).

Lemma check_expired_false license w w' :
  check_expired license w = (false, w') ->
  forall e, lic_expires_at license = Some e -> cfg_block_on_expired cfg = true ->
  exists w1 w2 t, utc_now w1 = (t, w2) /\ dt_lt e t = false.
Proof.
  unfold check_expired. intros H e He Hb. rewrite He in H. run_bind H t w1.
  injection H as H _. rewrite Hb, andb_true_r in H. eauto.
Qed.

Lemma granted_allow payload input wrn off dev ds w w' :
  lic_blocked (resp_license payload) && cfg_block_on_company_blocked cfg = false ->
  check_expired (resp_license payload) w = (false, w') ->
  find_device (resp_license payload) (unwrap_or "" (in_device_key input)) = dev ->
  (dev = None -> cfg_block_on_device_missing cfg = false) ->
  (forall cur, dev = Some cur -> cfg_block_on_device_blocked cfg = true ->
     dev_blocked cur = false) ->
  granted input (allow wrn off (resp_license payload) dev ds).
Proof.
  intros Hb He Hf Hm Hk. exists (resp_license payload).
  split; [done|]. split; [intros E; by rewrite E, andb_true_r in Hb|].
  split; [by apply (check_expired_false _ _ _ He)|].
  split.
  - intros E. destruct dev as [x|]; [by exists x|]. by rewrite Hm in E.
  - intros x Hx. cbn in Hx. subst dev. destruct (find_device_Some _ _ _ Hx) as [? ?].
    split_and!; [done..|]. by apply Hk.
Qed.

(** One round of [evaluate_legacy]: it stops with a labelled decision that is
    granted when it allows, or starts over after a successful registration. *)
Inductive round (payload : LicenseApiResponse) (input : LicenseCheckInput) (off : bool) :
    W -> LicenseApiResponse + LicenseDecision -> W -> Prop :=
| round_again w registered w' :
    ((resp_status payload = 0%Z /\ try_register_company input w = (inr registered, w')) \/
     (resp_status payload <> 0%Z /\
      find_device (resp_license payload) (unwrap_or "" (in_device_key input)) = None /\
      exists w0, try_register_device input w0 = (inr registered, w'))) ->
    round payload input off w (inl registered) w'
| round_done w d w' :
    labelled off d -> (d_allowed d = true -> granted input d) ->
    round payload input off w (inr d) w'.

Lemma evaluate_round fuel payload input off w r w' :
  evaluate_legacy (S fuel) payload input off w = (r, w') ->
  (exists registered w1, round payload input off w (inl registered) w1 /\
     evaluate_legacy fuel registered input off w1 = (r, w')) \/
  (exists d, r = Some d /\ round payload input off w (inr d) w').
Proof.
  cbn [evaluate_legacy]. intros H.
  destruct (Z.eqb_spec (resp_status payload) 0) as [Es|Es].
  { run_bind H o w1. destruct o as [ds|p].
    - injection H as <- <-. right. eexists. split; [done|]. by apply round_done.
    - left. exists p, w1. split; [|done]. apply round_again. by left. }
  destruct (lic_blocked _ && _) eqn:Eb.
  { injection H as <- <-. right. eexists. split; [done|]. by apply round_done. }
  run_bind H expired w1. destruct expired.
  { injection H as <- <-. right. eexists. split; [done|]. by apply round_done. }
  destruct (find_device _ _) as [cur|] eqn:Ef.
  { run_bind H d w2. injection H as <- <-. right. eexists. split; [done|].
    apply validate_device_spec in H1 as [(c & ? & ? & ? & ->)|(m & ds & -> & Hk)];
      apply round_done; try done. intros _. by eapply granted_allow. }
  run_bind H o w2. destruct o as [ds|p].
  - destruct (cfg_block_on_device_missing cfg) eqn:Em.
    + injection H as <- <-. right. eexists. split; [done|]. by apply round_done.
    + run_bind H d w3. injection H as <- <-. right. eexists. split; [done|].
      apply validate_device_spec in H2 as [(c & ? & ? & ? & ->)|(m & ds' & -> & Hk)];
        apply round_done; try done. intros _. by eapply granted_allow.
  - left. exists p, w2. split; [|done]. apply round_again. right. split_and!; [done..|].
    by exists w1.
Qed.

Lemma evaluate_labelled_granted fuel : forall payload input off w d w',
  evaluate_legacy fuel payload input off w = (Some d, w') ->
  labelled off d /\ (d_allowed d = true -> granted input d).
Proof.
  induction fuel as [|fuel IH]; intros payload input off w d w' H; [done|].
  apply evaluate_round in H as [(p & w1 & _ & H)|(d' & [= <-] & H)]; [by eapply IH|].
  by inversion H.
Qed.

(** The bound of the code's recursion when no registration is attempted. *)
Lemma evaluate_no_registration payload input off w :
  unwrap_or (cfg_auto_register_company_on_missing cfg) (in_allow_company_auto_create input)
    = false ->
  unwrap_or (cfg_auto_register_device_on_missing cfg) (in_allow_device_auto_create input)
    = false ->
  exists d w', evaluate_legacy 1 payload input off w = (Some d, w').
Proof.
  intros Hc Hd.
  destruct (evaluate_legacy 1 payload input off w) as [[d|] w'] eqn:E; [eauto|].
  apply evaluate_round in E as [(p & w1 & Hr & _)|(d & ? & _)]; [|done].
  inversion Hr as [? ? ? Ht|]; subst.
  destruct Ht as [[_ Ht]|(_ & _ & w0 & Ht)].
  - unfold try_register_company in Ht. by rewrite Hc in Ht.
  - unfold try_register_device in Ht. by rewrite Hd in Ht.
Qed.

(** ** Properties *)

(** C1. Authorisation soundness of the legacy path: however many registrations
    the validation goes through, a decision that allows is labelled "allowed",
    carries the license it was taken on, and that license is not blocked, not
    expired at an instant the clock gave, and (as the configuration asks) has
    the caller's device, not blocked. *)
Theorem evaluate_legacy_sound fuel payload input off w d w' :
  evaluate_legacy fuel payload input off w = (Some d, w') ->
  d_allowed d = true ->
  d_decision d = "allowed" /\ granted input d.
Proof.
  intros H Ha. apply evaluate_labelled_granted in H as [(_ & _ & _ & _ & Hd) Hg].
  rewrite Ha in Hd. auto.
Qed.

(** A company the service knows to be blocked is never allowed, whatever
    device asks, when the configuration blocks on it. *)
Theorem blocked_company_denied fuel payload input off w d w' :
  evaluate_legacy (S fuel) payload input off w = (Some d, w') ->
  resp_status payload <> 0%Z ->
  lic_blocked (resp_license payload) = true ->
  cfg_block_on_company_blocked cfg = true ->
  d_allowed d = false /\ d_reason_code d = Some "COMPANY_BLOCKED" /\ w' = w.
Proof.
  intros H Hs Hb Hc. cbn [evaluate_legacy] in H.
  apply Z.eqb_neq in Hs. rewrite Hs, Hb, Hc in H. by injection H as <- <-.
Qed.

(** Termination without automatic registration: when neither the input nor
    the configuration asks for it, one round of [evaluate_legacy] always
    returns a decision. *)
Theorem evaluate_legacy_terminates payload input off w :
  unwrap_or (cfg_auto_register_company_on_missing cfg) (in_allow_company_auto_create input)
    = false ->
  unwrap_or (cfg_auto_register_device_on_missing cfg) (in_allow_device_auto_create input)
    = false ->
  exists d w', evaluate_legacy 1 payload input off w = (Some d, w') /\ labelled off d.
Proof.
  intros Hc Hd. destruct (evaluate_no_registration payload input off w Hc Hd) as (d & w' & H).
  exists d, w'. split; [done|]. by apply evaluate_labelled_granted in H as [? _].
Qed.

(** The registration loop has no bound of its own: if the service accepts
    the registration of the company but keeps answering status 0, no amount of
    fuel makes [evaluate_legacy] return. *)
Theorem evaluate_legacy_diverges (fuel : nat) payload input off w :
  unwrap_or (cfg_auto_register_company_on_missing cfg) (in_allow_company_auto_create input)
    = true ->
  (forall w, exists w', register_company cfg input w = (Ok (), w')) ->
  (forall w, exists p w', company_status cfg (in_company_document input) w = (Ok p, w') /\
     resp_status p = 0%Z) ->
  resp_status payload = 0%Z ->
  fst (evaluate_legacy fuel payload input off w) = None.
Proof.
  intros Hauto Hreg Hstat. revert payload w.
  induction fuel as [|fuel IH]; intros payload w Hs; [done|].
  cbn [evaluate_legacy]. rewrite Hs. cbn [Z.eqb].
  destruct (Hreg w) as (w1 & Hr). destruct (Hstat w1) as (p & w2 & Hp & Hp0).
  unfold try_register_company. rewrite Hauto.
  unfold mbind, st_bind. rewrite Hr. unfold refetch, mbind, st_bind. rewrite Hp.
  destruct (put_payload ns (in_company_document input) p w2) as [? w3]. cbn.
  by apply IH.
Qed.

Lemma refetch_inr document w p w' :
  refetch document w = (inr p, w') ->
  exists w1, company_status cfg document w = (Ok p, w1).
Proof.
  unfold refetch. intros H. run_bind H reply w1. destruct reply as [q|]; [|done].
  run_bind H u w2. injection H as -> _. eauto.
Qed.

Lemma try_register_company_inr input w p w' :
  try_register_company input w = (inr p, w') ->
  exists w1 w2, register_company cfg input w = (Ok (), w1) /\
    company_status cfg (in_company_document input) w1 = (Ok p, w2).
Proof.
  unfold try_register_company. intros H. destruct (unwrap_or _ _); [|done].
  run_bind H reg w1. destruct reg as [[]|]; [|done].
  apply refetch_inr in H as [w2 H]. eauto.
Qed.

Lemma try_register_device_inr input w p w' :
  try_register_device input w = (inr p, w') ->
  exists w1 w2, register_device cfg input w = (Ok (), w1) /\
    company_status cfg (in_company_document input) w1 = (Ok p, w2).
Proof.
  unfold try_register_device. intros H. destruct (unwrap_or _ _); [|done].
  run_bind H reg w1. destruct reg as [[]|]; [|done].
  apply refetch_inr in H as [w2 H]. eauto.
Qed.

(** The service honours a registration when the status it answers right after
    one knows the company (after a company) and lists the device (after a
    device). *)
Definition honours_registration (input : LicenseCheckInput) : Prop :=
  (forall w w1 w2 p,
     register_company cfg input w = (Ok (), w1) ->
     company_status cfg (in_company_document input) w1 = (Ok p, w2) ->
     resp_status p <> 0%Z) /\
  (forall w w1 w2 p,
     register_device cfg input w = (Ok (), w1) ->
     company_status cfg (in_company_document input) w1 = (Ok p, w2) ->
     resp_status p <> 0%Z /\
     is_Some (find_device (resp_license p) (unwrap_or "" (in_device_key input)))).

(** C31. Termination with a service that honours registrations: three rounds
    are enough, one for the company, one for the device and the last
    decision. *)
Theorem evaluate_legacy_terminates_honoured payload input off w :
  honours_registration input ->
  exists d w', evaluate_legacy 3 payload input off w = (Some d, w') /\ labelled off d.
Proof.
  intros [Hcomp Hdev].
  assert (forall n p w, resp_status p <> 0%Z ->
    is_Some (find_device (resp_license p) (unwrap_or "" (in_device_key input))) ->
    is_Some (fst (evaluate_legacy (S n) p input off w))) as Last.
  { intros n p w1 Hs [x Hx]. destruct (evaluate_legacy (S n) p input off w1) as [r w'] eqn:E.
    apply evaluate_round in E as [(q & w2 & Hr & _)|(d & -> & _)]; [|by eexists].
    inversion Hr as [? ? ? [[? _]|(_ & ? & _)]|]; subst; congruence. }
  assert (forall n p w, resp_status p <> 0%Z ->
    is_Some (fst (evaluate_legacy (S (S n)) p input off w))) as Second.
  { intros n p w1 Hs. destruct (evaluate_legacy (S (S n)) p input off w1) as [r w'] eqn:E.
    apply evaluate_round in E as [(q & w2 & Hr & E)|(d & -> & _)]; [|by eexists].
    inversion Hr as [? ? ? [[? _]|(_ & _ & w0 & Ht)]|]; subst; [congruence|].
    apply try_register_device_inr in Ht as (w3 & w4 & Hr1 & Hr2).
    destruct (Hdev _ _ _ _ Hr1 Hr2) as [Hq Hf].
    pose proof (Last n q w2 Hq Hf) as L. by rewrite E in L. }
  destruct (evaluate_legacy 3 payload input off w) as [r w'] eqn:E.
  assert (is_Some r) as [d ->].
  { apply evaluate_round in E as [(q & w2 & Hr & E)|(d & -> & _)]; [|by eexists].
    inversion Hr as [? ? ? [[_ Ht]|(_ & _ & w0 & Ht)]|]; subst.
    - apply try_register_company_inr in Ht as (w3 & w4 & Hr1 & Hr2).
      pose proof (Second 0 q w2 (Hcomp _ _ _ _ Hr1 Hr2)) as L. by rewrite E in L.
    - apply try_register_device_inr in Ht as (w3 & w4 & Hr1 & Hr2).
      destruct (Hdev _ _ _ _ Hr1 Hr2) as [Hq _].
      pose proof (Second 0 q w2 Hq) as L. by rewrite E in L. }
  exists d, w'. split; [done|]. by apply evaluate_labelled_granted in E as [? _].
Qed.

Lemma offline_cases fuel document err w d w' :
  try_offline_cache_or_fail fuel document err w = (Some (Ok d), w') ->
  exists cached now w1,
    cache_get ns document w = Ok (Some cached) /\ utc_now w = (now, w1) /\
    (days_since now (cached_at cached) <= cfg_offline_max_age_days cfg)%Z /\
    ((exists dec, cached_decision cached = Some dec /\ d = replay_offline dec) \/
     (exists payload d0, cached_decision cached = None /\ cached_payload cached = Some payload /\
        evaluate_legacy fuel payload (bare_input document) true w1 = (Some d0, w') /\
        d = mark_offline d0)).
Proof.
  unfold try_offline_cache_or_fail. intros H.
  destruct (cache_get ns document w) as [[cached|]|e] eqn:Ec; [|done|done].
  destruct (utc_now w) as [now w1] eqn:En.
  destruct (_ <? _)%Z eqn:El; [done|]. apply Z.ltb_ge in El.
  exists cached, now, w1. split_and!; [done..|].
  destruct (cached_decision cached) as [dec|]; [left; exists dec; by simplify_eq|].
  destruct (cached_payload cached) as [payload|]; [|done].
  destruct (evaluate_legacy _ _ _ _ _) as [[d0|] w2] eqn:Ee; [|done].
  right. exists payload, d0. cbn in H. injection H as <- <-. by split_and!.
Qed.

(** Every decision taken offline is marked as such, carries a reason, comes
    from a cache file no older than the configured age, and when that file
    holds a decision allows exactly what the online decision allowed. *)
Theorem offline_decision_flagged fuel document err w d w' :
  try_offline_cache_or_fail fuel document err w = (Some (Ok d), w') ->
  d_used_offline_cache d = true /\ d_source d = "offline" /\ is_Some (d_reason_code d) /\
  exists cached now w1,
    cache_get ns document w = Ok (Some cached) /\ utc_now w = (now, w1) /\
    (days_since now (cached_at cached) <= cfg_offline_max_age_days cfg)%Z /\
    (forall dec, cached_decision cached = Some dec ->
       d_allowed d = d_allowed dec /\ d_license d = d_license dec /\ w' = w1).
Proof.
  intros H. pose proof H as H0.
  apply offline_cases in H as (cached & now & w1 & Hc & Hn & Ha & Hd).
  unfold try_offline_cache_or_fail in H0. rewrite Hc, Hn in H0.
  apply Z.ltb_ge in Ha as Hb. rewrite Hb in H0.
  destruct Hd as [(dec & Hdec & ->)|(payload & d0 & Hdec & Hp & He & ->)].
  - rewrite Hdec in H0. split_and!; [done..|by eexists|].
    exists cached, now, w1. split_and!; [done..|]. intros dec' Hdec'. by simplify_eq.
  - apply evaluate_labelled_granted in He as [(Hu & _) _].
    split_and!; [done..|by eexists|]. exists cached, now, w1. split_and!; [done..|].
    congruence.
Qed.

(** A cached payload alone never lets an offline caller in: the offline
    evaluation runs with no device key, so when every cached device has one,
    missing devices are refused and automatic registration is off, the
    decision denies. *)
Theorem offline_payload_denied fuel document err w d w' cached payload :
  cache_get ns document w = Ok (Some cached) ->
  cached_decision cached = None ->
  cached_payload cached = Some payload ->
  Forall (fun dev => missing (dev_device_key dev) = false) (lic_devices (resp_license payload)) ->
  cfg_block_on_device_missing cfg = true ->
  cfg_auto_register_company_on_missing cfg = false ->
  cfg_auto_register_device_on_missing cfg = false ->
  try_offline_cache_or_fail fuel document err w = (Some (Ok d), w') ->
  d_allowed d = false.
Proof.
  intros Hc Hd Hp Hdev Hm Hac Had H.
  apply offline_cases in H as (c & now & w1 & Hc' & _ & _ & [(dec & ? & _)|
    (p & d0 & _ & Hp' & He & ->)]); [congruence|].
  assert (p = payload) as -> by congruence. cbn.
  assert (find_device (resp_license payload) "" = None) as Hf.
  { apply find_device_None. eapply Forall_impl; [done|]. intros x Hx E.
    unfold missing in Hx. by rewrite E in Hx. }
  destruct fuel as [|fuel]; [done|]. cbn [evaluate_legacy] in He.
  unfold try_register_company, try_register_device in He. cbn in He. rewrite Hac, Had, Hm in He.
  destruct (resp_status payload =? 0)%Z.
  { run_bind He o w2 as Eo. injection Eo as <- <-. by injection He as <- _. }
  destruct (lic_blocked _ && _); [by injection He as <- _|].
  run_bind He expired w2. destruct expired; [by injection He as <- _|].
  rewrite Hf in He. run_bind He o w3 as Eo. injection Eo as <- <-. by injection He as <- _.
Qed.

Section CacheLaws.
Context `{LL : !LicenseWorldLaws W}.

Lemma cache_write_get document f w w' :
  cache_write ns document f w = (Ok (), w') -> cache_get ns document w' = Ok (Some f).
Proof.
  unfold cache_write, cache_get. destruct (file_path ns document) as [[dir path]|]; [|done].
  intros H. run_bind H created w1. destruct created; [|done].
  destruct (cached_to_json f) as [json|] eqn:Ej; [|done].
  run_bind H written w2. destruct written as [[]|]; [|done]. injection H as <-.
  rewrite (fs_write_read _ _ _ _ H1). by rewrite (cached_json_roundtrip _ _ Ej).
Qed.

(** What the cache stores it gives back: after a successful [put_decision]
    the cache answers with that decision, stamped with the instant of the
    clock, whatever was stored before. *)
Theorem put_decision_get document d w w' :
  put_decision ns document d w = (Ok (), w') ->
  exists now w1, utc_now w = (now, w1) /\
    cache_get ns document w' =
      Ok (Some {| cached_at := now; cached_decision := Some d; cached_payload := None |}).
Proof.
  unfold put_decision. intros H. run_bind H now w1. apply cache_write_get in H. eauto.
Qed.

(** Writing [d] to the cache under [document] succeeds. *)
Definition storable (document : string) (d : LicenseDecision) : Prop :=
  forall w, exists w', put_decision ns document d w = (Ok (), w').

Lemma put_decision_cached document d w r w' :
  storable document d -> put_decision ns document d w = (r, w') ->
  exists f, cache_get ns document w' = Ok (Some f) /\ cached_decision f = Some d.
Proof.
  intros Hw H. destruct (Hw w) as (w2 & H2). rewrite H2 in H. injection H as <- <-.
  unfold put_decision in H2. run_bind H2 now w1. apply cache_write_get in H2. eauto.
Qed.

Lemma check_legacy_online fuel input w d w' :
  storable (in_company_document input) d ->
  check_legacy fuel input w = (Some (Ok d), w') -> d_used_offline_cache d = false ->
  exists f, cache_get ns (in_company_document input) w' = Ok (Some f) /\
    cached_decision f = Some d.
Proof.
  intros Hw. unfold check_legacy. intros H Hu. run_bind H reply w1. destruct reply as [p|e].
  - run_bind H u w2. run_bind H o w3. destruct o as [d0|]; [|done].
    run_bind H r w4. injection H as <- <-. by eapply put_decision_cached.
  - apply offline_cases in H as (c & now & w2 & _ & _ & _ & [(dec & _ & ->)|
      (p & d0 & _ & _ & He & ->)]); [done|].
    apply evaluate_labelled_granted in He as [(Hu' & _) _]. cbn in Hu. congruence.
Qed.

(** Every online decision of [check] whose write to disk succeeds ends up in
    the offline cache, under the document it was taken for, so that the next
    offline validation replays it. *)
Theorem check_online_cached fuel input i w d w' :
  prepare_input input = Ok i ->
  storable (in_company_document i) d ->
  check fuel input w = (Some (Ok d), w') ->
  d_used_offline_cache d = false ->
  exists f, cache_get ns (in_company_document i) w' = Ok (Some f) /\ cached_decision f = Some d.
Proof.
  intros Hi Hw H Hu. unfold check in H. rewrite Hi in H.
  destruct (is_empty _); [done|].
  destruct (cfg_prefer_resolve_activation cfg); [|by eapply check_legacy_online].
  run_bind H r w1. destruct r as [dec|e].
  - run_bind H u w2. injection H as <- <-. by eapply put_decision_cached.
  - destruct (cfg_allow_legacy_fallback cfg); cbn in H; [by eapply check_legacy_online|].
    apply offline_cases in H as (c & now & w2 & _ & _ & _ & [(dec & _ & ->)|
      (p & d0 & _ & _ & He & ->)]); [done|].
    apply evaluate_labelled_granted in He as [(Hu' & _) _]. cbn in Hu. congruence.
Qed.

End CacheLaws.

Lemma prepare_input_document input i :
  prepare_input input = Ok i ->
  exists d, enrich_input_from_registration_file rhost cfg
      (enrich_input host (with_document (only_digits (in_company_document input)) input))
    = Ok (d, i).
Proof.
  unfold prepare_input. destruct (enrich_input_from_registration_file _ _ _) as [[d j]|];
    cbn; intros H; simplify_eq. eauto.
Qed.

(** Which document is validated: the digits of the caller's document when it
    has any. Otherwise it is the document of the registration file, taken as
    the file spells it, punctuation included. *)
Theorem check_document input i :
  prepare_input input = Ok i ->
  (only_digits (in_company_document input) <> "" ->
     in_company_document i = only_digits (in_company_document input)) /\
  (only_digits (in_company_document input) = "" ->
   in_registration_file_content_b64 input = None ->
   cfg_enable_registration_file_lookup cfg = true ->
   forall disc b64 doc,
     discover_registration_file rhost cfg = Ok disc ->
     disc_content_b64 disc = Some b64 ->
     payload_text (disc_payload disc) "company" "document" = Some doc ->
     in_company_document i = doc).
Proof.
  intros H. apply prepare_input_document in H as [d H]. split.
  - intros Hne.
    destruct (registration_keeps_caller rhost cfg _ _ _ H) as (Hdoc & _). apply Hdoc.
    apply digits_not_blank; [done|]. apply filter_bytes_forall.
  - intros He Hc Hl disc b64 doc Hd Hb Hp. unfold enrich_input_from_registration_file in H.
    cbn in H. rewrite Hc, Hl in H. cbn in H. rewrite Hd in H. cbn in H. rewrite Hb in H.
    injection H as _ <-. cbn. rewrite He, Hp. done.
Qed.

(** No document, no request: when neither the caller nor a registration file
    gives a company document, [check] fails and the outside world is
    untouched. *)
Theorem check_without_document fuel input i w :
  prepare_input input = Ok i -> in_company_document i = "" ->
  check fuel input w =
    (Some (Err (Invalid "documento da empresa não informado")), w).
Proof. intros Hi Hd. unfold check. by rewrite Hi, Hd. Qed.

(** The two commands of the crate decide alike, and the text of one is the message
    of the other. *)
Lemma license_commands_agree fuel input w :
  fst (license_check fuel input w)
  = (map_err ser_message <$> fst (license_check_structured fuel input w)) /\
  snd (license_check fuel input w) = snd (license_check_structured fuel input w).
Proof.
  unfold license_check, license_check_structured, checked, mbind, st_bind.
  destruct (check fuel input w) as [[[d|e]|] w']; done.
Qed.

End Service.
