(* ===== verification/LicenseExamples.v ===== *)
(** * Licensing: a concrete outside world

    Instances of the licensing interfaces on computable data (a clock fixed in
    the world, a server that is a function of the request, a file map), and the
    theorems of the licensing files applied there. *)

From S2P Require Import Prelude RustStr Json LicenseModels LicenseClient LicenseDevice.
From S2P Require Import LicenseRegistration LicenseService.

#[local] Open Scope string_scope.

(** ** Decidable equality of the licensing records *)

#[export] Instance DeviceRecord_eq_dec : EqDecision DeviceRecord.
Proof. solve_decision. Defined.
#[export] Instance CompanyRecord_eq_dec : EqDecision CompanyRecord.
Proof. solve_decision. Defined.
#[export] Instance DiagnosticItem_eq_dec : EqDecision DiagnosticItem.
Proof. solve_decision. Defined.
#[export] Instance LicenseError_eq_dec : EqDecision LicenseError.
Proof. solve_decision. Defined.

(** ** The instances *)

(** Instants are seconds; a day has 86400 of them. *)
#[export] Instance demo_chrono : Chrono := {|
  datetime := Z; dt_lt := Z.ltb; days_since := fun a b => Z.quot (a - b) 86400 |}.

#[export] Instance demo_datetime_eq_dec : EqDecision (@datetime demo_chrono) := Z.eq_dec.

Section Eq.
#[local] Instance LicenseRecord_eq_dec : EqDecision (@LicenseRecord demo_chrono).
Proof. solve_decision. Defined.
#[local] Instance ApplicationLicenseRecord_eq_dec :
  EqDecision (@ApplicationLicenseRecord demo_chrono).
Proof. solve_decision. Defined.
#[local] Instance OfflineDecision_eq_dec : EqDecision (@OfflineDecision demo_chrono).
Proof. solve_decision. Defined.
#[local] Instance LicenseApiResponse_eq_dec : EqDecision (@LicenseApiResponse demo_chrono).
Proof. solve_decision. Defined.
#[local] Instance LicenseDecision_eq_dec : EqDecision (@LicenseDecision demo_chrono).
Proof. solve_decision. Defined.
#[export] Instance CachedLicenseFile_eq_dec : EqDecision (@CachedLicenseFile demo_chrono).
Proof. solve_decision. Defined.
End Eq.

#[export] Instance demo_hashing : Hashing := {| sha256_hex := fun s => "h" ++ s |}.

(** Only decimal seconds parse, as RFC 3339 text. *)
#[export] Instance demo_parse : ChronoParse := {|
  parse_from_rfc3339 := fun raw => Z.of_N <$> parse_u64 raw;
  parse_from_str := fun _ _ => None;
  naive_datetime := Z;
  naive_parse_from_str := fun _ _ => None;
  from_local_single := Some |}.

(** The clock always answers 0. *)
Record demo_world : Type := {
  dw_files : gmap string string;
}.

(** A client of a server that answers by the request only. *)
Definition http_of (server : http_request -> result string http_response) :
    HttpClient demo_world := {|
  http_send := fun rq w => (server rq, w);
  local_now_text := fun w => ("2024-01-01 00:00:00", w);
  status_text := show_N |}.

Definition demo_device : DeviceRecord :=
  normalize_device (Object [("id", String_ "7"); ("device_key", String_ "K1");
                            ("device_name", String_ "pc")]).
Definition demo_license : LicenseRecord :=
  normalize_license (Object [("document", String_ "123"); ("expires_at", String_ "864000");
    ("max_devices", Number (PosInt 5));
    ("devices", Array [Object [("id", String_ "7"); ("device_key", String_ "K1");
                               ("device_name", String_ "pc")]])]).
Definition demo_payload : LicenseApiResponse :=
  {| resp_status := 1; resp_message := None; resp_license := demo_license |}.
Definition demo_allowed : LicenseDecision :=
  allow None false demo_license (Some demo_device) [].

(** The one cache file the demonstration stores as a decision, and one that
    holds a payload. *)
Definition demo_file : CachedLicenseFile :=
  {| cached_at := 0%Z; cached_decision := Some demo_allowed; cached_payload := None |}.
Definition demo_payload_file : CachedLicenseFile :=
  {| cached_at := 0%Z; cached_decision := None; cached_payload := Some demo_payload |}.

#[export] Instance demo_licensing : LicenseWorld demo_world := {|
  utc_now := fun w => (0%Z, w);
  data_local_dir := Some "/data";
  fs_create_dir_all := fun _ w => (Ok (), w);
  fs_write := fun p c w =>
    (Ok (), {| dw_files := <[p := c]> (dw_files w) |});
  fs_read := fun p w => Ok <$> dw_files w !! p;
  cached_to_json := fun f =>
    if decide (f = demo_file) then Ok "decision"
    else if decide (f = demo_payload_file) then Ok "payload" else Err "not printable";
  cached_of_json := fun s =>
    if String.eqb s "decision" then Ok demo_file
    else if String.eqb s "payload" then Ok demo_payload_file else Err "not readable" |}.

#[export] Instance demo_laws : LicenseWorldLaws demo_world.
Proof.
  split.
  - intros p c w w'. cbn. intros [= <-]. cbn. by rewrite lookup_insert_eq.
  - intros f s. cbn. repeat case_decide; intros; simplify_eq; done.
Qed.

#[export] Instance demo_crypto : RegistrationCrypto := {|
  base64_encode := fun s => s;
  base64_decode := fun s => Ok s;
  json_from_slice := fun s =>
    if String.eqb s "reg" then Some (Object [("company", Object [("document", String_ "12.3/4")]);
                                             ("signature", Object [("value", String_ "sig")])])
    else None;
  json_to_vec := fun _ => Ok "msg";
  verifying_key := string;
  ed25519_key := fun k => Ok k;
  ed25519_verify := fun k m s => String.eqb k k |}.

Definition demo_host : HostInfo := {|
  host_target := Linux; host_hostname := Some "pc"; host_env := fun _ => None;
  host_read_file := fun _ => None; host_consts_os := "linux"; host_consts_arch := "x86_64";
  host_current_exe := Some "/usr/bin/app"; host_net_entries := None |}.

Definition demo_rhost : RegistrationHost := {|
  rh_exe_parent := Some "/opt"; rh_current_dir := Some "/home";
  rh_base_dirs := None; rh_project_dirs := None; rh_program_data := None;
  rh_exists := String.eqb "/home/wwreg.json"; rh_read := fun _ => Ok "reg" |}.

(** A server that knows company 123 and answers its status. *)
Definition demo_status_json : value :=
  Object [("status", Number (PosInt 1));
    ("license", Object [("document", String_ "123"); ("expires_at", String_ "864000");
       ("max_devices", Number (PosInt 5));
       ("devices", Array [Object [("id", String_ "7"); ("device_key", String_ "K1");
                                  ("device_name", String_ "pc")]])])].
Definition demo_server (rq : http_request) : result string http_response :=
  match rq_method rq with
  | GET => Ok {| rs_status := 200; rs_json := Ok demo_status_json |}
  | _ => Ok {| rs_status := 404; rs_json := Err "no body" |}
  end.

(** A server that accepts every registration and never knows the company. *)
Definition amnesic_server (rq : http_request) : result string http_response :=
  match rq_method rq with
  | GET => Ok {| rs_status := 200; rs_json := Ok (Object [("status", Number (PosInt 0))]) |}
  | _ => Ok {| rs_status := 200; rs_json := Ok (Object []) |}
  end.

#[export] Instance demo_http : HttpClient demo_world := http_of demo_server.

Definition demo_world0 : demo_world := {| dw_files := ∅ |}.

(** The caller's input: its device key is known to the license. *)
Definition demo_input : LicenseCheckInput := with_device_key (Some "K1") (bare_input "123").

(** A configuration of the legacy endpoints: whether companies and devices are
    registered, and whether the activation endpoint comes first. *)
Definition config_with (base : string) (auto prefer lookup : bool) : LicenseConfig := {|
  cfg_base_url := base; cfg_api_token := None;
  cfg_resolve_activation_endpoint := "/r"; cfg_status_endpoint := "c/{document}";
  cfg_register_company_endpoint := "c"; cfg_register_device_endpoint := "m";
  cfg_update_device_endpoint := "m/{id}"; cfg_offline_max_age_days := 15;
  cfg_warn_before_expiration_in_days := 5;
  cfg_auto_register_company_on_missing := auto;
  cfg_auto_register_device_on_missing := auto;
  cfg_auto_update_device_name := false; cfg_block_on_company_blocked := true;
  cfg_block_on_device_blocked := true; cfg_block_on_device_missing := true;
  cfg_block_on_expired := true; cfg_cache_namespace := "default";
  cfg_prefer_resolve_activation := prefer; cfg_allow_legacy_fallback := true;
  cfg_enable_registration_file_lookup := lookup;
  cfg_registration_file_names := ["wwreg.json"; "wwreg.lic"];
  cfg_registration_file_extra_paths := []; cfg_registration_public_key_base64 := None |}.
Definition demo_config : LicenseConfig := config_with "https://api/" false false false.
Definition auto_config : LicenseConfig := config_with "https://api/" true false false.
Definition lookup_config : LicenseConfig := config_with "https://api/" false false true.

Example demo_evaluates :
  fst (evaluate_legacy demo_config 1 demo_payload demo_input false demo_world0)
  = Some demo_allowed.
Proof. vm_compute. reflexivity. Qed.

(** ** Requests and replies *)

Lemma date_only_expiry_ignored_witness :
  date_only_format_fails /\
  lic_expires_at (normalize_license (Object [("expires_at", String_ "2031-05-01")])) = None.
Proof.
  split; [done|]. apply (date_only_expiry_ignored [("expires_at", String_ "2031-05-01")] "2031-05-01");
    vm_compute; reflexivity.
Defined.

Lemma activation_success_labelled_denied_witness :
  exists d, normalize_activation_decision (Object [("success", Bool true)]) = Ok d /\
    d_allowed d = true /\ d_decision d = "denied".
Proof.
  eexists. split; [vm_compute; reflexivity|].
  apply (activation_success_labelled_denied [("success", Bool true)]); vm_compute; reflexivity.
Defined.

Definition no_base_config : LicenseConfig := config_with " " true true false.

Lemma blank_base_url_sends_nothing_witness :
  register_device no_base_config demo_input demo_world0
  = (Err (Config "base_url da licença não informada"), demo_world0).
Proof.
  apply (blank_base_url_sends_nothing no_base_config demo_input "123" "7" demo_world0).
  vm_compute. reflexivity.
Defined.

(** An activation server that refuses, with its step and reason. *)
Definition refusal : result string http_response :=
  Ok {| rs_status := 403; rs_json := Ok (Object [("step", String_ "plan"); ("message", String_ "no")]) |}.
Definition refusing_server (rq : http_request) : result string http_response := refusal.

Lemma resolve_activation_cases_witness :
  exists r, resolve_activation (HC := http_of refusing_server) demo_config demo_input demo_world0
    = (r, demo_world0) /\ is_ok r = false.
Proof.
  pose proof (resolve_activation_cases (HC := http_of refusing_server) demo_config demo_input
    demo_world0 refusal demo_world0) as H.
  destruct (H eq_refl eq_refl) as (r & Hr & Hc).
  exists r. split; [exact Hr|]. destruct Hc as [m Hm]. by rewrite Hm.
Defined.

(** ** The registration file *)


Lemma registration_keeps_caller_data_witness :
  exists d i, enrich_input_from_registration_file demo_rhost lookup_config (bare_input "123")
    = Ok (d, i) /\ in_company_document i = "123".
Proof.
  eexists _, _. split; [vm_compute; reflexivity|].
  refine (proj1 (registration_keeps_caller_data demo_rhost lookup_config (bare_input "123")
    _ _ _) _); vm_compute; reflexivity.
Defined.

Lemma discovery_first_existing_witness :
  exists d, discover_registration_file demo_rhost lookup_config = Ok d /\
    disc_file_path d = Some "/home/wwreg.json" /\
    exists before after, candidate_paths demo_rhost lookup_config
      = app before ("/home/wwreg.json" :: after).
Proof.
  eexists. split; [vm_compute; reflexivity|]. split; [vm_compute; reflexivity|].
  epose proof (discovery_first_existing demo_rhost lookup_config _) as H.
  destruct (H ltac:(vm_compute; reflexivity)) as (b & a & bs & Hc & _). by exists b, a.
Defined.

(** ** The validation service *)

Lemma evaluate_legacy_sound_witness :
  fst (evaluate_legacy demo_config 1 demo_payload demo_input false demo_world0) = Some demo_allowed
  /\ granted (W := demo_world) demo_config demo_input demo_allowed.
Proof.
  split; [vm_compute; reflexivity|].
  refine (proj2 (evaluate_legacy_sound demo_config 1 demo_payload demo_input false demo_world0
    demo_allowed demo_world0 _ _)); vm_compute; reflexivity.
Defined.

Definition blocked_payload : LicenseApiResponse :=
  {| resp_status := 1; resp_message := None;
     resp_license := normalize_license (Object [("document", String_ "123"); ("blocked", Bool true)]) |}.

Lemma blocked_company_denied_witness :
  exists d w, evaluate_legacy demo_config 1 blocked_payload demo_input false demo_world0 = (Some d, w)
    /\ d_allowed d = false.
Proof.
  eexists _, _. split; [vm_compute; reflexivity|].
  refine (proj1 (blocked_company_denied demo_config 0 blocked_payload demo_input false demo_world0
    _ _ _ _ _ _)); [vm_compute; reflexivity|done|vm_compute; reflexivity|reflexivity].
Defined.

Lemma evaluate_legacy_terminates_witness :
  exists d w', evaluate_legacy demo_config 1 blocked_payload demo_input false demo_world0 = (Some d, w').
Proof.
  destruct (evaluate_legacy_terminates demo_config blocked_payload demo_input false demo_world0
    eq_refl eq_refl) as (d & w' & H & _). exists d, w'. exact H.
Defined.

Definition unknown_payload : LicenseApiResponse :=
  {| resp_status := 0; resp_message := None; resp_license := demo_license |}.

Lemma evaluate_legacy_diverges_witness :
  fst (evaluate_legacy (HC := http_of amnesic_server) auto_config 1000 unknown_payload demo_input
         false demo_world0) = None.
Proof.
  refine (evaluate_legacy_diverges (HC := http_of amnesic_server) auto_config 1000
    unknown_payload demo_input false demo_world0 _ _ _ _); [done| | |done].
  - intros w. exists w. reflexivity.
  - intros w. eexists _, w. split; vm_compute; reflexivity.
Defined.

(** A server that accepts registrations and lists what it registered. *)
Definition honouring_server (rq : http_request) : result string http_response :=
  match rq_method rq with
  | GET => Ok {| rs_status := 200; rs_json := Ok demo_status_json |}
  | _ => Ok {| rs_status := 200; rs_json := Ok (Object []) |}
  end.

Lemma evaluate_legacy_terminates_honoured_witness :
  exists d w', evaluate_legacy (HC := http_of honouring_server) auto_config 3 unknown_payload
    demo_input false demo_world0 = (Some d, w').
Proof.
  pose proof (evaluate_legacy_terminates_honoured (HC := http_of honouring_server) auto_config
    unknown_payload demo_input false demo_world0) as H.
  destruct H as (d & w' & H & _); [|by exists d, w'].
  split.
  - intros w w1 w2 p _ Hp. vm_compute in Hp. injection Hp as <- _. done.
  - intros w w1 w2 p _ Hp. vm_compute in Hp. injection Hp as <- _. split; [done|].
    eexists. vm_compute. reflexivity.
Defined.

(** ** The offline cache *)

Definition offline_world (contents : string) : demo_world :=
  {| dw_files := <["/data/offline/default/h123.json" := contents]> ∅ |}.

Lemma offline_decision_flagged_witness :
  try_offline_cache_or_fail demo_config 1 "123" (Http "down") (offline_world "decision")
    = (Some (Ok (replay_offline demo_allowed)), offline_world "decision") /\
  d_source (replay_offline demo_allowed) = "offline".
Proof.
  split; [vm_compute; reflexivity|].
  refine (proj1 (proj2 (offline_decision_flagged demo_config 1 "123" (Http "down")
    (offline_world "decision") _ (offline_world "decision") _))).
  vm_compute. reflexivity.
Defined.

Lemma offline_payload_denied_witness :
  exists d w, try_offline_cache_or_fail demo_config 1 "123" (Http "down") (offline_world "payload")
    = (Some (Ok d), w) /\ d_allowed d = false.
Proof.
  eexists _, _. split; [vm_compute; reflexivity|].
  refine (offline_payload_denied demo_config 1 "123" (Http "down") (offline_world "payload")
    _ _ demo_payload_file demo_payload _ _ _ _ _ _ _ _);
    try (vm_compute; reflexivity).
  vm_compute. repeat constructor.
Defined.

Lemma put_decision_get_witness :
  exists w', put_decision "default" "123" demo_allowed demo_world0 = (Ok (), w') /\
    exists f, cache_get "default" "123" w' = Ok (Some f).
Proof.
  eexists. split; [vm_compute; reflexivity|].
  epose proof (put_decision_get demo_config "123" demo_allowed demo_world0 _) as H.
  destruct (H ltac:(vm_compute; reflexivity)) as (now & w1 & _ & Hc). eexists. exact Hc.
Defined.

Lemma check_online_cached_witness :
  exists w' f,
    check demo_host demo_rhost demo_config 1 demo_input demo_world0
      = (Some (Ok demo_allowed), w') /\
    cache_get "default" "123" w' = Ok (Some f) /\ cached_decision f = Some demo_allowed.
Proof.
  epose proof (check_online_cached demo_host demo_rhost demo_config 1 demo_input _ demo_world0
    demo_allowed _) as H.
  destruct H as (f & Hg & Hf); [vm_compute; reflexivity| |vm_compute; reflexivity|reflexivity|].
  - intros w. eexists. unfold put_decision. vm_compute. reflexivity.
  - eexists _, f. split; [|split; [exact Hg|exact Hf]]. vm_compute. reflexivity.
Defined.

(** ** Which document is validated *)

Definition anonymous_input : LicenseCheckInput := bare_input "".

Lemma check_document_witness :
  exists i, prepare_input demo_host demo_rhost lookup_config anonymous_input = Ok i /\
    in_company_document i = "12.3/4".
Proof.
  eexists. split; [vm_compute; reflexivity|].
  epose proof (check_document demo_host demo_rhost lookup_config anonymous_input _) as H.
  destruct (H ltac:(vm_compute; reflexivity)) as [_ H2].
  eapply H2; vm_compute; reflexivity.
Defined.

Lemma check_without_document_witness :
  check demo_host demo_rhost demo_config 1 anonymous_input demo_world0
  = (Some (Err (Invalid "documento da empresa não informado")), demo_world0).
Proof.
  eapply (check_without_document demo_host demo_rhost demo_config 1 anonymous_input);
    vm_compute; reflexivity.
Defined.
