(* ===== verification/NetAddr.v ===== *)
(** * Socket addresses: [std::net]'s text parser

    [str::parse::<SocketAddr>], the check every server of the console makes of
    its bind address, as a function on strings. A reader takes the text and
    gives what it read with the rest, or [None] and nothing consumed. *)

From Stdlib Require Import Ascii.
From S2P Require Import Prelude RustStr.

#[local] Open Scope string_scope.

Inductive SocketAddr : Type :=
| SocketAddrV4 (octets : list N) (port : N)
| SocketAddrV6 (groups : list N) (scope_id port : N).

#[export] Instance SocketAddr_eq_dec : EqDecision SocketAddr.
Proof. solve_decision. Defined.

Definition sa_port (a : SocketAddr) : N :=
  match a with SocketAddrV4 _ p | SocketAddrV6 _ _ p => p end.

(** ** Readers *)

Definition reader (A : Type) : Type := string -> option (A * string).

Definition read_given_char (c : ascii) : reader unit := fun s =>
  match s with
  | String a r => if Ascii.eqb a c then Some ((), r) else None
  | "" => None
  end.

(** [char::to_digit] *)
Definition to_digit (radix : N) (c : ascii) : option N :=
  let d := if is_ascii_digit c then Some (byte_of c - 48)%N
           else if in_range 97 122 c then Some (byte_of c - 87)%N
           else if in_range 65 90 c then Some (byte_of c - 55)%N
           else None in
  opt_filter (fun d => d <? radix)%N d.

(** The longest run of digits: its value, its length and the rest. *)
Fixpoint read_digits (radix acc : N) (n : nat) (s : string) : N * nat * string :=
  match s with
  | String c r =>
      match to_digit radix c with
      | Some d => read_digits radix (acc * radix + d) (S n) r
      | None => (acc, n, s)
      end
  | "" => (acc, n, s)
  end.

(** [Parser::read_number] for a type of maximum [max]. The code stops with
    [None] as soon as the running value or the digit count is out of range;
    both only grow, so the test at the end of the run is the same. *)
Definition read_number (radix : N) (max_digits : option nat) (allow_zero_prefix : bool)
    (max : N) : reader N := fun s =>
  let '(v, n, r) := read_digits radix 0 0 s in
  let leading_zero := match s with String c _ => Ascii.eqb c "0" | "" => false end in
  let too_long := match max_digits with Some m => Nat.ltb m n | None => false end in
  if too_long || Nat.eqb n 0 || (negb allow_zero_prefix && leading_zero && Nat.ltb 1 n)
  then None
  else if (v <=? max)%N then Some (v, r) else None.

(** [Parser::read_separator]: the separator comes before every item but the
    first. *)
Definition read_separator {A} (sep : ascii) (index : nat) (inner : reader A) : reader A := fun s =>
  match index with
  | 0 => inner s
  | _ => '(_, r) ← read_given_char sep s; inner r
  end.

Definition read_octet (index : nat) : reader N :=
  read_separator "." index (read_number 10 (Some 3) false 255).

(** [Parser::read_ipv4_addr] *)
Definition read_ipv4_addr : reader (list N) := fun s =>
  '(a, s) ← read_octet 0 s;
  '(b, s) ← read_octet 1 s;
  '(c, s) ← read_octet 2 s;
  '(d, s) ← read_octet 3 s;
  Some ([a; b; c; d], s).

(** [read_groups] of [Parser::read_ipv6_addr]: at most [left] groups, [index]
    of them read before; the flag says that the last two came from an IPv4
    address. *)
Fixpoint read_groups (left index : nat) (s : string) : list N * bool * string :=
  match left with
  | 0 => ([], false, s)
  | S left' =>
      let ipv4 := match left' with
                  | 0 => None
                  | _ => read_separator ":" index read_ipv4_addr s
                  end in
      match ipv4 with
      | Some ([a; b; c; d], r) => ([a * 256 + b; c * 256 + d]%N, true, r)
      | _ =>
          match read_separator ":" index (read_number 16 (Some 4) true U16_MAX) s with
          | Some (g, r) => let '(gs, v4, r) := read_groups left' (S index) r in (g :: gs, v4, r)
          | None => ([], false, s)
          end
      end
  end.

(** [Parser::read_ipv6_addr] *)
Definition read_ipv6_addr : reader (list N) := fun s =>
  let '(head, head_v4, s) := read_groups 8 0 s in
  if Nat.eqb (length head) 8 then Some (head, s)
  else if (head_v4 : bool) then None
  else
    '(_, s) ← read_given_char ":" s;
    '(_, s) ← read_given_char ":" s;
    let '(tail, _, s) := read_groups (8 - (length head + 1)) 0 s in
    Some (app head (app (replicate (8 - length head - length tail) 0%N) tail), s).

Definition read_port : reader N := fun s =>
  '(_, s) ← read_given_char ":" s;
  read_number 10 None true U16_MAX s.

Definition read_scope_id : reader N := fun s =>
  '(_, s) ← read_given_char "%" s;
  read_number 10 None true U32_MAX s.

Definition read_socket_addr_v4 : reader SocketAddr := fun s =>
  '(ip, s) ← read_ipv4_addr s;
  '(port, s) ← read_port s;
  Some (SocketAddrV4 ip port, s).

Definition read_socket_addr_v6 : reader SocketAddr := fun s =>
  '(_, s) ← read_given_char "[" s;
  '(ip, s) ← read_ipv6_addr s;
  let '(scope_id, s) := unwrap_or (0%N, s) (read_scope_id s) in
  '(_, s) ← read_given_char "]" s;
  '(port, s) ← read_port s;
  Some (SocketAddrV6 ip scope_id port, s).

(** [str::parse::<SocketAddr>]: the whole text must be read. *)
Definition parse_socket_addr (s : string) : option SocketAddr :=
  '(addr, rest) ← or_else (read_socket_addr_v4 s) (read_socket_addr_v6 s);
  if is_empty rest then Some addr else None.

(** [Display] of an IPv4 address *)
Definition show_ipv4 (octets : list N) : string :=
  match octets with
  | [a; b; c; d] => show_N a ++ "." ++ show_N b ++ "." ++ show_N c ++ "." ++ show_N d
  | _ => ""
  end.

Example parse_v4 : parse_socket_addr "0.0.0.0:61003" = Some (SocketAddrV4 [0; 0; 0; 0]%N 61003).
Proof. reflexivity. Qed.
Example parse_v6_loopback :
  parse_socket_addr "[::1]:80" = Some (SocketAddrV6 [0; 0; 0; 0; 0; 0; 0; 1]%N 0 80).
Proof. reflexivity. Qed.
Example parse_v6_mapped :
  parse_socket_addr "[fe80::ffff:10.0.0.1%3]:1"
  = Some (SocketAddrV6 [65152; 0; 0; 0; 0; 65535; 2560; 1]%N 3 1).
Proof. reflexivity. Qed.
Example parse_refused :
  Forall (fun s => parse_socket_addr s = None)
    ["localhost:80"; "127.0.0.1"; "127.0.0.01:80"; "1.2.3.4:65536"; "::1:80"; "[::1:80";
     "256.1.1.1:1"; " 127.0.0.1:80"; "[1:2:3:4:5:6:7:8::]:1"; "1.2.3.4:+1"].
Proof. repeat constructor. Qed.

(** ** Lemmas *)

Lemma to_digit_decimal c : to_digit 10 c = if is_ascii_digit c then Some (digit_val c) else None.
Proof. by destruct c as [[] [] [] [] [] [] [] []]. Qed.

(** What follows a number is not one more digit of it. *)
Definition no_digit_head (r : string) : bool :=
  match r with String c _ => negb (is_ascii_digit c) | "" => true end.

Lemma read_digits_app d : forall acc k v r,
  dec_from acc d = Some v ->
  read_digits 10 acc k (d ++ r) = read_digits 10 v (k + String.length d) r.
Proof.
  induction d as [|c d IH]; intros acc k v r H; cbn [dec_from] in H.
  - injection H as ->. by rewrite Nat.add_0_r.
  - destruct (is_ascii_digit c) eqn:E; [|done]. rewrite app_cons. cbn [read_digits].
    rewrite to_digit_decimal, E, N.mul_comm, (IH _ _ _ _ H). f_equal. cbn. lia.
Qed.

Lemma read_digits_stop acc k r :
  no_digit_head r = true -> read_digits 10 acc k r = (acc, k, r).
Proof.
  destruct r as [|c r]; [done|]. cbn [no_digit_head read_digits]. rewrite to_digit_decimal.
  by destruct (is_ascii_digit c).
Qed.

Lemma read_digits_show n r :
  no_digit_head r = true -> read_digits 10 0 0 (show_N n ++ r) = (n, String.length (show_N n), r).
Proof.
  intros Hr. rewrite (read_digits_app _ _ _ n) by apply dec_from_show. by apply read_digits_stop.
Qed.

Lemma show_N_length_pos n : Nat.eqb (String.length (show_N n)) 0 = false.
Proof. destruct (show_N_head n) as (c & r & -> & _). done. Qed.

(** Reading a printed number stops exactly where it ends. *)
Lemma read_number_show max n r :
  (n <= max)%N -> no_digit_head r = true ->
  read_number 10 None true max (show_N n ++ r) = Some (n, r).
Proof.
  intros Hn Hr. unfold read_number. rewrite (read_digits_show _ _ Hr), show_N_length_pos. cbn.
  apply N.leb_le in Hn. by rewrite Hn.
Qed.

(** Octets print with at most three digits and no leading zero. *)
Lemma show_octet n :
  (n <= 255)%N ->
  Nat.ltb 3 (String.length (show_N n)) = false /\
  (Nat.ltb 1 (String.length (show_N n)) = true ->
   match show_N n with String c _ => Ascii.eqb c "0" | "" => false end = false).
Proof.
  intros Hn.
  assert (forallb (fun k => let s := show_N (N.of_nat k) in
    negb (Nat.ltb 3 (String.length s)) &&
    (negb (Nat.ltb 1 (String.length s)) ||
     negb (match s with String c _ => Ascii.eqb c "0" | "" => false end))) (seq 0 256) = true)
    as H by (vm_compute; reflexivity).
  rewrite forallb_forall in H. specialize (H (N.to_nat n)). rewrite N2Nat.id in H.
  specialize (H ltac:(apply in_seq; lia)). cbv zeta in H.
  apply andb_true_iff in H as [H1%negb_true_iff H2]. split; [done|]. intros H3. rewrite H3 in H2.
  by apply negb_true_iff in H2.
Qed.

Lemma read_octet_show n r :
  (n <= 255)%N -> no_digit_head r = true ->
  read_number 10 (Some 3) false 255 (show_N n ++ r) = Some (n, r).
Proof.
  intros Hn Hr. unfold read_number. rewrite (read_digits_show _ _ Hr), show_N_length_pos.
  destruct (show_octet n Hn) as [H1 H2]. rewrite H1.
  assert (match show_N n ++ r with String c _ => Ascii.eqb c "0" | "" => false end
          = match show_N n with String c _ => Ascii.eqb c "0" | "" => false end) as ->.
  { by destruct (show_N_head n) as (c & t & -> & _). }
  destruct (Nat.ltb 1 _) eqn:E; [rewrite H2 by done|rewrite andb_false_r]; cbn;
    apply N.leb_le in Hn; by rewrite Hn.
Qed.

Lemma read_given_char_cons c r : read_given_char c (String c r) = Some ((), r).
Proof. cbn. by rewrite Ascii.eqb_refl. Qed.

Lemma read_ipv4_show a b c d r :
  (a <= 255)%N -> (b <= 255)%N -> (c <= 255)%N -> (d <= 255)%N -> no_digit_head r = true ->
  read_ipv4_addr (show_ipv4 [a; b; c; d] ++ r) = Some ([a; b; c; d], r).
Proof.
  intros Ha Hb Hc Hd Hr. unfold read_ipv4_addr, read_octet, read_separator, show_ipv4.
  rewrite !string_app_assoc, !app_cons, !app_nil.
  rewrite read_octet_show by done. cbn [mbind option_bind]. rewrite read_given_char_cons.
  cbn [mbind option_bind]. rewrite read_octet_show by done. cbn [mbind option_bind].
  rewrite read_given_char_cons. cbn [mbind option_bind]. rewrite read_octet_show by done.
  cbn [mbind option_bind]. rewrite read_given_char_cons. cbn [mbind option_bind].
  by rewrite read_octet_show.
Qed.

(** An IPv4 address and a port print to text that parses back. *)
Lemma parse_show_v4 a b c d port :
  (a <= 255)%N -> (b <= 255)%N -> (c <= 255)%N -> (d <= 255)%N -> (port <= U16_MAX)%N ->
  parse_socket_addr (show_ipv4 [a; b; c; d] ++ ":" ++ show_N port)
  = Some (SocketAddrV4 [a; b; c; d] port).
Proof.
  intros Ha Hb Hc Hd Hp. unfold parse_socket_addr, read_socket_addr_v4.
  rewrite app_cons, app_nil, read_ipv4_show by done. cbn [mbind option_bind].
  unfold read_port. rewrite read_given_char_cons. cbn [mbind option_bind].
  pose proof (read_number_show U16_MAX port "" Hp eq_refl) as H.
  rewrite string_app_nil_r in H. by rewrite H.
Qed.

(** An unbracketed IPv6 host never makes an address. *)
Lemma parse_colon_head s : parse_socket_addr (String ":" s) = None.
Proof. done. Qed.

(** Every port that parses fits in 16 bits. *)
Lemma read_number_bound radix m z max s n r :
  read_number radix m z max s = Some (n, r) -> (n <= max)%N.
Proof.
  unfold read_number. destruct (read_digits _ _ _ _) as [[v k] t].
  destruct (_ || _); [done|]. destruct (v <=? max)%N eqn:E; [|done].
  intros [= <- _]. by apply N.leb_le.
Qed.

Lemma parse_port_bound s a : parse_socket_addr s = Some a -> (sa_port a <= U16_MAX)%N.
Proof.
  unfold parse_socket_addr. intros H.
  destruct (or_else _ _) as [[b r]|] eqn:E; [|done]. cbn in H.
  destruct (is_empty r); [|done]. injection H as ->.
  apply or_else_Some in E as [E|[_ E]].
  - unfold read_socket_addr_v4, read_port in E.
    destruct (read_ipv4_addr s) as [[ip t]|]; [|done]. cbn [mbind option_bind] in E.
    destruct (read_given_char ":" t) as [[[] t2]|]; [|done]. cbn [mbind option_bind] in E.
    destruct (read_number 10 None true U16_MAX t2) as [[p t3]|] eqn:E2; [|done].
    apply read_number_bound in E2. cbn in E. simplify_eq. exact E2.
  - unfold read_socket_addr_v6, read_port in E.
    destruct (read_given_char "[" s) as [[[] t]|]; [|done]. cbn [mbind option_bind] in E.
    destruct (read_ipv6_addr t) as [[ip t1]|]; [|done]. cbn [mbind option_bind] in E.
    destruct (unwrap_or _ _) as [sc t2]. cbn [mbind option_bind] in E.
    destruct (read_given_char "]" t2) as [[[] t3]|]; [|done]. cbn [mbind option_bind] in E.
    destruct (read_given_char ":" t3) as [[[] t4]|]; [|done]. cbn [mbind option_bind] in E.
    destruct (read_number 10 None true U16_MAX t4) as [[p t5]|] eqn:E2; [|done].
    apply read_number_bound in E2. cbn in E. simplify_eq. exact E2.
Qed.

(** ** Readers consume a prefix *)

Definition consumes {A} (p : reader A) : Prop :=
  forall s a t, p s = Some (a, t) -> exists u, s = u ++ t.

Lemma consumes_bind {A B} (p : reader A) (f : A -> reader B) :
  consumes p -> (forall a, consumes (f a)) ->
  consumes (fun s => '(a, t) ← p s; f a t).
Proof.
  intros Hp Hf s b t H. destruct (p s) as [[a t1]|] eqn:E; [|done].
  apply Hp in E as [u ->]. cbn in H. apply Hf in H as [v ->]. exists (u ++ v).
  by rewrite string_app_assoc.
Qed.

Lemma consumes_ret {A} (a : A) : consumes (fun s => Some (a, s)).
Proof. intros s b t [= _ <-]. by exists "". Qed.

Lemma consumes_char c : consumes (read_given_char c).
Proof.
  intros [|a s] [] t; cbn; [done|]. destruct (Ascii.eqb a c); [|done].
  intros [= <-]. by exists (String a "").
Qed.

Lemma read_digits_consumes radix s : forall acc k v n t,
  read_digits radix acc k s = (v, n, t) -> exists u, s = u ++ t.
Proof.
  induction s as [|c s IH]; intros acc k v n t; cbn [read_digits]; [intros [= _ _ <-]; by exists ""|].
  destruct (to_digit radix c); [|intros [= _ _ <-]; by exists ""].
  intros H. apply IH in H as [u ->]. by exists (String c u).
Qed.

Lemma consumes_number radix m z max : consumes (read_number radix m z max).
Proof.
  intros s v t. unfold read_number. destruct (read_digits _ _ _ _) as [[w n] r] eqn:E.
  destruct (_ || _); [done|]. destruct (_ <=? _)%N; [|done]. intros [= _ <-].
  by eapply read_digits_consumes.
Qed.

#[local] Hint Resolve consumes_bind consumes_ret consumes_char consumes_number : tunnara.

Lemma consumes_separator {A} c i (p : reader A) : consumes p -> consumes (read_separator c i p).
Proof. intros Hp. destruct i; [done|]. cbn. apply consumes_bind; auto with tunnara. Qed.

Lemma consumes_ipv4 : consumes read_ipv4_addr.
Proof.
  unfold read_ipv4_addr, read_octet.
  repeat (apply consumes_bind; [apply consumes_separator; auto with tunnara|intros ?]).
  auto with tunnara.
Qed.

Lemma read_groups_consumes left : forall i s gs v t,
  read_groups left i s = (gs, v, t) -> exists u, s = u ++ t.
Proof.
  induction left as [|left IH]; intros i s gs v t; cbn [read_groups];
    [intros [= _ _ <-]; by exists ""|].
  assert (forall g (r : string), read_separator ":" i (read_number 16 (Some 4) true U16_MAX) s
    = Some (g, r) -> (let '(gs, v4, r) := read_groups left (S i) r in (g :: gs, v4, r)) = (gs, v, t)
    -> exists u, s = u ++ t) as Hgroup.
  { intros g r E. destruct (read_groups left (S i) r) as [[gs2 v2] r2] eqn:E2.
    intros [= _ _ <-]. apply consumes_separator in E as [u ->]; [|auto with tunnara].
    apply IH in E2 as [u2 ->]. exists (u ++ u2). by rewrite string_app_assoc. }
  destruct (match left with 0 => _ | S _ => _ end) as [[l r]|] eqn:E4.
  - destruct left as [|left]; [done|].
    apply consumes_separator in E4 as Hu; [|apply consumes_ipv4].
    destruct l as [|a [|b [|c [|d [|]]]]];
      try (intros [= _ _ <-]; exact Hu);
      (destruct (read_separator ":" i (read_number 16 _ _ _) s) as [[g r2]|] eqn:E;
        [by eapply Hgroup|intros [= _ _ <-]; by exists ""]).
  - destruct (read_separator ":" i (read_number 16 _ _ _) s) as [[g r2]|] eqn:E;
      [by eapply Hgroup|intros [= _ _ <-]; by exists ""].
Qed.

Lemma consumes_ipv6 : consumes read_ipv6_addr.
Proof.
  intros s g t. unfold read_ipv6_addr.
  destruct (read_groups 8 0 s) as [[head v4] s1] eqn:E. apply read_groups_consumes in E as [u ->].
  destruct (Nat.eqb _ _); [intros [= _ <-]; by exists u|]. destruct v4; [done|].
  destruct (read_given_char ":" s1) as [[[] s2]|] eqn:E1; [|done].
  apply consumes_char in E1 as [u1 ->]. cbn [mbind option_bind].
  destruct (read_given_char ":" s2) as [[[] s3]|] eqn:E2; [|done].
  apply consumes_char in E2 as [u2 ->]. cbn [mbind option_bind].
  destruct (read_groups _ 0 s3) as [[tail v] s4] eqn:E3. apply read_groups_consumes in E3 as [u3 ->].
  intros [= _ <-]. exists (u ++ u1 ++ u2 ++ u3). by rewrite !string_app_assoc.
Qed.

(** ** The port of an address is the number after its last colon *)

Lemma read_digits_decimal s : forall acc k v n t,
  read_digits 10 acc k s = (v, n, t) ->
  exists d, s = d ++ t /\ forall_bytes is_ascii_digit d = true /\ dec_from acc d = Some v.
Proof.
  induction s as [|c s IH]; intros acc k v n t; cbn [read_digits].
  { intros [= <- _ <-]. by exists "". }
  rewrite to_digit_decimal. destruct (is_ascii_digit c) eqn:Ec.
  - intros H. apply IH in H as (d & -> & Hd & Hv). exists (String c d).
    split; [done|]. cbn. rewrite Ec. split; [done|]. by rewrite N.mul_comm.
  - intros [= <- _ <-]. by exists "".
Qed.

Lemma digits_after_colon u v d e :
  forall_bytes is_ascii_digit d = true -> forall_bytes is_ascii_digit e = true ->
  u ++ String ":" d = v ++ String ":" e -> d = e.
Proof.
  intros Hd He. revert v. induction u as [|a u IH]; intros [|b v]; rewrite ?app_cons, ?app_nil;
    intros H; injection H; clear H; intros; subst; [done| | |by apply (IH v)].
  - exfalso. clear -Hd. induction v as [|c v IH]; cbn in Hd; [done|].
    apply andb_true_iff in Hd as [_ Hd]. by apply IH.
  - exfalso. clear -He. induction u as [|c u IH]; cbn in He; [done|].
    apply andb_true_iff in He as [_ He]. by apply IH.
Qed.

Lemma read_port_end t p :
  read_port t = Some (p, "") ->
  exists d, t = String ":" d /\ forall_bytes is_ascii_digit d = true /\ dec_from 0 d = Some p.
Proof.
  unfold read_port. destruct t as [|c t]; cbn; [done|].
  destruct (Ascii.eqb_spec c ":"); [|done]. subst. cbn. unfold read_number.
  destruct (read_digits 10 0 0 t) as [[v n] r] eqn:E. destruct (_ || _); [done|].
  destruct (_ <=? _)%N; [|done]. intros [= <- ->].
  apply read_digits_decimal in E as (d & -> & Hd & Hv). exists d. by rewrite string_app_nil_r.
Qed.

Lemma show_N_digits n : forall_bytes is_ascii_digit (show_N n) = true.
Proof.
  unfold show_N, pretty, pretty_N. destruct (decide (n = 0)%N) as [_|_]; [done|].
  assert (forall s, forall_bytes is_ascii_digit s = true ->
    forall_bytes is_ascii_digit (pretty_N_go n s) = true) as H; [|by apply H].
  induction (N.lt_wf_0 n) as [n _ IH]. intros s Hs.
  destruct (decide (n = 0)%N) as [->|Hn]; [by rewrite pretty_N_go_0|].
  rewrite pretty_N_go_step by lia. apply IH; [apply N.div_lt; lia|]. cbn.
  destruct (digit_ok (n mod 10)) as [-> _]; [apply N.mod_lt; lia|done].
Qed.

(** Whatever the host text, an address parsed from "host:port" has that
    port. *)
Lemma parse_host_port_port host port a :
  parse_socket_addr (host ++ ":" ++ show_N port) = Some a -> sa_port a = port.
Proof.
  unfold parse_socket_addr. set (s := host ++ ":" ++ show_N port). intros H.
  destruct (or_else _ _) as [[b r]|] eqn:E; [|done]. cbn in H.
  destruct r; [|done]. injection H as ->.
  assert (exists u t, s = u ++ t /\ read_port t = Some (sa_port a, "")) as (u & t & Hs & Ht).
  { apply or_else_Some in E as [E|[_ E]].
    - unfold read_socket_addr_v4 in E.
      destruct (read_ipv4_addr s) as [[ip t]|] eqn:E1; [|done]. cbn [mbind option_bind] in E.
      destruct (read_port t) as [[p t2]|] eqn:E2; [|done]. cbn in E. simplify_eq.
      apply consumes_ipv4 in E1 as [u ->]. by exists u, t.
    - unfold read_socket_addr_v6 in E.
      destruct (read_given_char "[" s) as [[[] t]|] eqn:E1; [|done]. cbn [mbind option_bind] in E.
      destruct (read_ipv6_addr t) as [[ip t1]|] eqn:E2; [|done]. cbn [mbind option_bind] in E.
      destruct (unwrap_or (0%N, t1) (read_scope_id t1)) as [sc t2] eqn:E3.
      destruct (read_given_char "]" t2) as [[[] t3]|] eqn:E4; [|done].
      cbn [mbind option_bind] in E.
      destruct (read_port t3) as [[p t4]|] eqn:E5; [|done]. cbn in E. simplify_eq.
      apply consumes_char in E1 as [u ->]. apply consumes_ipv6 in E2 as [u1 ->].
      assert (exists v, t1 = v ++ t2) as [v ->].
      { unfold read_scope_id in E3. destruct (read_given_char "%" t1) as [[[] t5]|] eqn:E6;
          cbn in E3; [|injection E3 as _ <-; by exists ""].
        destruct (read_number _ _ _ _ t5) as [[n t6]|] eqn:E7; cbn in E3;
          injection E3 as _ <-; [|by exists ""].
        apply consumes_char in E6 as [v ->]. apply consumes_number in E7 as [v2 ->].
        exists (v ++ v2). by rewrite string_app_assoc. }
      apply consumes_char in E4 as [v2 ->]. exists (u ++ u1 ++ v ++ v2), t3.
      by rewrite !string_app_assoc. }
  apply read_port_end in Ht as (d & -> & Hd & Hp).
  apply (digits_after_colon host u (show_N port) d) in Hs; [|apply show_N_digits|done].
  subst d. rewrite dec_from_show in Hp. congruence.
Qed.
