(* ===== verification/NetBind.v ===== *)
(** * Listeners on fixed ports: [console/src-tauri/src/net_bind.rs]

    The operating system's part (binding a TCP listener, the address a UDP
    socket routed to the Internet would leave from, sleeping) is the class
    [NetWorld] over the state [W] of the outside world. *)

From Stdlib Require Import Ascii.
From S2P Require Import Prelude RustStr NetAddr.

#[local] Open Scope string_scope.

(** ** Outside interface *)

(** [io::ErrorKind], by the kinds the code names. *)
Inductive ErrorKind : Type := AddrInUse | InvalidInput | OtherKind (code : N).
#[export] Instance ErrorKind_eq_dec : EqDecision ErrorKind.
Proof. solve_decision. Defined.

Record io_error : Type := { io_kind : ErrorKind; io_message : string }.

(** The address [UdpSocket::local_addr] gives. *)
Inductive IpAddr : Type := IpV4 (octets : list N) | IpV6 (groups : list N).

Class NetWorld (W : Type) : Type := {
  listener : Type;
  tcp_bind : SocketAddr -> St W (result io_error listener);
  drop_listener : listener -> St W unit;
  thread_sleep_ms : N -> St W unit;
  (** bind an UDP socket to 0.0.0.0:0, connect it to 8.8.8.8:80 whatever that
      answers, and read its local address *)
  udp_route_addr : St W (option IpAddr);
}.

Section NetBind.
Context {W : Type} `{NW : NetWorld W}.

(*| src-tauri/src/net_bind.rs 5-12 PreparedListener *)
Record PreparedListener : Type := {
  pl_listener : listener;
  pl_bind_host : string;
  pl_public_host : string;
  pl_port : N;
  pl_note : option string;
}.

(*| src-tauri/src/net_bind.rs 67-74 normalize_bind_host *)
Definition normalize_bind_host (host : string) : string :=
  let value := trim host in
  if is_empty value || eq_ignore_ascii_case value "localhost" then "127.0.0.1" else value.

(*| src-tauri/src/net_bind.rs 76-82 public_host_for_bind *)
Definition public_host_for_bind (host : string) : string :=
  let value := trim host in
  if decide (value ∈ ["0.0.0.0"; "::"; "[::]"; ""]) then "127.0.0.1"
  else if String.eqb value "localhost" then "127.0.0.1"
  else value.

(*| src-tauri/src/net_bind.rs 84-86 is_wildcard_host *)
Definition is_wildcard_host (host : string) : bool :=
  bool_decide (trim host ∈ ["0.0.0.0"; "::"; "[::]"]).

Definition is_loopback_v4 (octets : list N) : bool :=
  match octets with a :: _ => (a =? 127)%N | [] => false end.
Definition is_unspecified_v4 (octets : list N) : bool := forallb (N.eqb 0) octets.

(*| src-tauri/src/net_bind.rs 88-97 detect_primary_lan_ipv4 *)
Definition detect_primary_lan_ipv4 : St W (option string) :=
  local ← udp_route_addr;
  mret (match local with
        | Some (IpV4 ip) =>
            if negb (is_loopback_v4 ip) && negb (is_unspecified_v4 ip)
            then Some (show_ipv4 ip) else None
        | _ => None
        end).

(** The text of [AddrParseError] *)
Definition addr_parse_error : string := "invalid socket address syntax".

(*| src-tauri/src/net_bind.rs 99-106 parse_addr *)
Definition parse_addr (host : string) (port : N) : result io_error SocketAddr :=
  match parse_socket_addr (host ++ ":" ++ show_N port) with
  | Some addr => Ok addr
  | None => Err {| io_kind := InvalidInput;
                   io_message := "Endereço inválido " ++ host ++ ":" ++ show_N port ++ ": "
                                 ++ addr_parse_error |}
  end.

(** The loop of [bind_with_retry]: [left] attempts remain, [attempt] is the
    number of the next one. *)
Fixpoint bind_attempts (left : nat) (attempt : N) (last_error : option io_error)
    (addr : SocketAddr) : St W (result io_error listener) :=
  match left with
  | 0 => mret (Err (unwrap_or {| io_kind := AddrInUse; io_message := "porta ocupada" |} last_error))
  | S left' =>
      bound ← tcp_bind addr;
      match bound with
      | Ok l => mret (Ok l)
      | Err err =>
          if decide (io_kind err = AddrInUse) then
            _ ← thread_sleep_ms (180 + attempt * 70);
            bind_attempts left' (attempt + 1) (Some err) addr
          else mret (Err err)
      end
  end.

(*| src-tauri/src/net_bind.rs 108-121 bind_with_retry *)
Definition bind_with_retry (addr : SocketAddr) : St W (result io_error listener) :=
  bind_attempts 10 0 None addr.

(** The alternative on the LAN interface, after [primary_err] on a wildcard
    host. *)
(*| src-tauri/src/net_bind.rs 38-58 bind_fixed_service_listener *)
Definition bind_lan_fallback (normalized_host : string) (port : N) (primary_err : io_error) :
    St W (result io_error PreparedListener) :=
  lan ← detect_primary_lan_ipv4;
  match lan with
  | Some lan_host =>
      if eq_ignore_ascii_case lan_host "127.0.0.1" then mret (Err primary_err)
      else
        match parse_addr lan_host port with
        | Err e => mret (Err e)
        | Ok lan_addr =>
            bound ← bind_with_retry lan_addr;
            mret (match bound with
                  | Ok l => Ok {| pl_listener := l; pl_bind_host := lan_host;
                      pl_public_host := lan_host; pl_port := port;
                      pl_note := Some ("Bind em " ++ normalized_host ++ ":" ++ show_N port
                        ++ " estava indisponível; publicado na mesma porta pela interface de rede "
                        ++ lan_host ++ ":" ++ show_N port ++ ".") |}
                  | Err lan_err => Err {| io_kind := io_kind lan_err;
                      io_message := io_message primary_err
                        ++ "; tentativa alternativa na interface LAN " ++ lan_host ++ ":"
                        ++ show_N port ++ " também falhou: " ++ io_message lan_err |}
                  end)
        end
  | None => mret (Err primary_err)
  end.

(*| src-tauri/src/net_bind.rs 23-63 bind_fixed_service_listener *)
Definition bind_fixed_service_listener (host : string) (port : N) :
    St W (result io_error PreparedListener) :=
  let normalized_host := normalize_bind_host host in
  match parse_addr normalized_host port with
  | Err e => mret (Err e)
  | Ok primary_addr =>
      bound ← bind_with_retry primary_addr;
      match bound with
      | Ok l => mret (Ok {| pl_listener := l; pl_bind_host := normalized_host;
                            pl_public_host := public_host_for_bind normalized_host;
                            pl_port := port; pl_note := None |})
      | Err primary_err =>
          if bool_decide (io_kind primary_err = AddrInUse) && is_wildcard_host normalized_host
          then bind_lan_fallback normalized_host port primary_err
          else mret (Err primary_err)
      end
  end.

(** ** The retry loop *)

(** What a run of [bind_attempts] did: it failed with "address in use" some
    number of times, sleeping a little longer after each, and then bound the
    address, met another error or used up its attempts. *)
Inductive retries (addr : SocketAddr) : nat -> N -> option io_error -> W ->
    result io_error listener -> W -> Prop :=
| retries_out a e w :
    retries addr 0 a e w
      (Err (unwrap_or {| io_kind := AddrInUse; io_message := "porta ocupada" |} e)) w
| retries_bound n a e w l w' :
    tcp_bind addr w = (Ok l, w') -> retries addr (S n) a e w (Ok l) w'
| retries_other n a e w err w' :
    tcp_bind addr w = (Err err, w') -> io_kind err <> AddrInUse ->
    retries addr (S n) a e w (Err err) w'
| retries_again n a e w err w1 w2 r w' :
    tcp_bind addr w = (Err err, w1) -> io_kind err = AddrInUse ->
    thread_sleep_ms (180 + a * 70) w1 = ((), w2) ->
    retries addr n (a + 1) (Some err) w2 r w' ->
    retries addr (S n) a e w r w'.

Lemma bind_attempts_retries n a e addr w r w' :
  bind_attempts n a e addr w = (r, w') <-> retries addr n a e w r w'.
Proof.
  split.
  - revert a e w. induction n as [|n IH]; intros a e w; cbn [bind_attempts].
    { intros [= <- <-]. constructor. }
    intros H. run_bind H b w1 as Eb. destruct b as [l|err].
    { injection H as <- <-. by apply retries_bound. }
    destruct (decide _) as [Ek|Ek]; [|injection H as <- <-; by apply retries_other].
    run_bind H u w2 as Es. destruct u. eapply retries_again; [done..|]. by apply IH.
  - induction 1 as [a e w|n a e w l w' Hb|n a e w err w' Hb Hk|
      n a e w err w1 w2 r w' Hb Hk Hs Hr IH]; cbn [bind_attempts];
      [done|unfold mbind, st_bind; rewrite Hb..]; [done| |].
    + by rewrite decide_False.
    + rewrite decide_True by done. by rewrite Hs.
Qed.

(** A listener always comes from a bind of the very address asked for, and an
    error other than "address in use" from the last bind. *)
Lemma retries_result addr n a e w r w' :
  (forall err, e = Some err -> io_kind err = AddrInUse) ->
  retries addr n a e w r w' ->
  match r with
  | Ok l => exists w1, tcp_bind addr w1 = (Ok l, w')
  | Err err => io_kind err <> AddrInUse -> exists w1, tcp_bind addr w1 = (Err err, w')
  end.
Proof.
  intros He H. revert He. induction H as [a e w|n a e w l w' Hb|n a e w err w' Hb Hk|
    n a e w err w1 w2 r w' Hb Hk Hs Hr IH]; intros He.
  - destruct e as [err|]; cbn; intros Hn; [exfalso; by apply Hn, He|done].
  - by exists w.
  - intros _. by exists w.
  - apply IH. congruence.
Qed.

Lemma retry_bound addr w l w' :
  bind_with_retry addr w = (Ok l, w') -> exists w1, tcp_bind addr w1 = (Ok l, w').
Proof. intros H%bind_attempts_retries%retries_result; [exact H|done]. Qed.

Lemma parse_addr_Ok host port a :
  parse_addr host port = Ok a -> parse_socket_addr (host ++ ":" ++ show_N port) = Some a.
Proof. unfold parse_addr. destruct (parse_socket_addr _); [by intros [= ->]|done]. Qed.

(** Where a prepared listener listens. *)
Lemma prepared_listener host port w p w' :
  bind_fixed_service_listener host port w = (Ok p, w') ->
  pl_port p = port /\
  exists addr w1, tcp_bind addr w1 = (Ok (pl_listener p), w') /\ sa_port addr = port /\
    parse_socket_addr (pl_bind_host p ++ ":" ++ show_N port) = Some addr /\
    ((pl_note p = None /\ pl_bind_host p = normalize_bind_host host) \/
     (is_Some (pl_note p) /\ is_wildcard_host (normalize_bind_host host) = true /\
      exists w2 ip w3, udp_route_addr w2 = (Some (IpV4 ip), w3) /\
        is_loopback_v4 ip = false /\ is_unspecified_v4 ip = false /\
        pl_bind_host p = show_ipv4 ip /\ pl_public_host p = show_ipv4 ip)).
Proof.
  unfold bind_fixed_service_listener. intros H.
  destruct (parse_addr _ _) as [addr|e] eqn:Ea; [|done]. apply parse_addr_Ok in Ea.
  run_bind H b w1 as Eb. destruct b as [l|err].
  { injection H as <- <-. cbn. split; [done|]. apply retry_bound in Eb as [w2 Hb].
    exists addr, w2. split_and!; [done|by eapply parse_host_port_port|done|by left]. }
  destruct (_ && _) eqn:Ew; [|done]. apply andb_true_iff in Ew as [_ Ew].
  unfold bind_lan_fallback, detect_primary_lan_ipv4 in H. run_bind H lan w2 as El.
  run_bind El r w3 as Er. injection El as <- <-.
  destruct r as [[ip|]|]; [|done..]. destruct (negb _ && _) eqn:Eip; [|done].
  apply andb_true_iff in Eip as [Hl%negb_true_iff Hu%negb_true_iff].
  destruct (eq_ignore_ascii_case _ _); [done|].
  destruct (parse_addr _ _) as [a2|e] eqn:Ea2; [|done]. apply parse_addr_Ok in Ea2.
  run_bind H b w4 as Eb2. destruct b as [l|]; [|done]. injection H as <- <-. cbn.
  split; [done|]. apply retry_bound in Eb2 as [w5 Hb].
  exists a2, w5. split_and!; [done|by eapply parse_host_port_port|done|].
  right. split_and!; [by eexists|done|]. by exists w1, ip, w3.
Qed.

Lemma normalize_bind_host_idem host :
  normalize_bind_host (normalize_bind_host host) = normalize_bind_host host.
Proof.
  unfold normalize_bind_host at 2 3. destruct (_ || _) eqn:E; [done|].
  unfold normalize_bind_host. by rewrite trim_trim, E.
Qed.

(** ** Properties *)

(** The port is fixed: a listener prepared for a port was bound by the
    operating system on exactly that port, whatever happened on the way. It is
    on the requested host, or, only when that host is a wildcard, on the
    machine's own non-loopback IPv4 address, and then the note says so. *)
Theorem bind_keeps_port host port w p w' :
  bind_fixed_service_listener host port w = (Ok p, w') ->
  pl_port p = port /\
  exists addr w1, tcp_bind addr w1 = (Ok (pl_listener p), w') /\ sa_port addr = port /\
    parse_socket_addr (pl_bind_host p ++ ":" ++ show_N port) = Some addr /\
    ((pl_note p = None /\ pl_bind_host p = normalize_bind_host host) \/
     (is_Some (pl_note p) /\ is_wildcard_host (normalize_bind_host host) = true /\
      exists w2 ip w3, udp_route_addr w2 = (Some (IpV4 ip), w3) /\
        is_loopback_v4 ip = false /\ is_unspecified_v4 ip = false /\
        pl_bind_host p = show_ipv4 ip /\ pl_public_host p = show_ipv4 ip)).
Proof. apply prepared_listener. Qed.

(** A busy port is tried ten times, with sleeps growing from 180 ms to 810
    ms, and the last error is returned: the loop neither spins for ever nor
    gives up early. *)
Theorem busy_port_ten_attempts addr err w (after_bind : W -> W) (after_sleep : N -> W -> W) :
  io_kind err = AddrInUse ->
  (forall w, tcp_bind addr w = (Err err, after_bind w)) ->
  (forall ms w, thread_sleep_ms ms w = ((), after_sleep ms w)) ->
  bind_with_retry addr w =
    (Err err, foldl (fun w ms => after_sleep ms (after_bind w)) w
                [180; 250; 320; 390; 460; 530; 600; 670; 740; 810]%N).
Proof.
  intros Hk Hb Hs.
  assert (forall n a e w, bind_attempts (S n) a e addr w =
    bind_attempts n (a + 1) (Some err) addr (after_sleep (180 + a * 70)%N (after_bind w))) as Hstep.
  { intros n a e v. cbn [bind_attempts]. unfold mbind, st_bind. rewrite Hb, decide_True by done.
    by rewrite Hs. }
  unfold bind_with_retry. by rewrite !Hstep.
Qed.

(** The wildcard host "::" never listens: "::" and a port are not the text
    of an address, so although the code counts it as a wildcard host and gives
    it a public host, preparing a listener on it always fails before any bind.
    The bracketed form parses at every port. *)
Theorem ipv6_wildcard_unbracketed_fails port w :
  is_wildcard_host "::" = true /\
  (exists m, bind_fixed_service_listener "::" port w
             = (Err {| io_kind := InvalidInput; io_message := m |}, w)) /\
  ((port <= U16_MAX)%N ->
   parse_addr (normalize_bind_host "[::]") port = Ok (SocketAddrV6 (replicate 8 0%N) 0 port)).
Proof.
  split; [vm_compute; reflexivity|]. split.
  - unfold bind_fixed_service_listener. change (normalize_bind_host "::") with "::".
    unfold parse_addr. rewrite !app_cons, parse_colon_head. by eexists.
  - intros Hp. change (normalize_bind_host "[::]") with "[::]".
    unfold parse_addr, parse_socket_addr. rewrite !app_cons, !app_nil.
    assert (forall r, read_socket_addr_v6 (String "[" (String ":" (String ":" (String "]"
      (String ":" r))))) = '(p, t) ← read_number 10 None true U16_MAX r;
        Some (SocketAddrV6 (replicate 8 0%N) 0 p, t)) as Hv6.
    { intros r. unfold read_socket_addr_v6, read_port. rewrite read_given_char_cons.
      cbn [mbind option_bind].
      assert (read_ipv6_addr (String ":" (String ":" (String "]" (String ":" r))))
        = Some (replicate 8 0%N, String "]" (String ":" r))) as -> by reflexivity.
      cbn [mbind option_bind read_scope_id].
      assert (read_scope_id (String "]" (String ":" r)) = None) as -> by reflexivity.
      cbn [unwrap_or]. rewrite !read_given_char_cons. cbn [mbind option_bind].
      rewrite read_given_char_cons. cbn [mbind option_bind].
      by destruct (read_number _ _ _ _ r) as [[p t]|]. }
    assert (forall r, read_socket_addr_v4 (String "[" r) = None) as Hv4 by done.
    rewrite Hv4. cbn [or_else]. rewrite Hv6.
    pose proof (read_number_show U16_MAX port "" Hp eq_refl) as H.
    rewrite string_app_nil_r in H. by rewrite H.
Qed.

(** An empty host or "localhost", in any letter case and with any white
    space around, listens on the IPv4 loopback; normalising a host twice is
    normalising it once; and the host shown to clients is never a wildcard. *)
Theorem bind_hosts_normalized host port :
  (blank host = true \/ eq_ignore_ascii_case (trim host) "localhost" = true ->
   (port <= U16_MAX)%N ->
   parse_addr (normalize_bind_host host) port = Ok (SocketAddrV4 [127; 0; 0; 1]%N port)) /\
  normalize_bind_host (normalize_bind_host host) = normalize_bind_host host /\
  is_wildcard_host (public_host_for_bind host) = false.
Proof.
  split_and!.
  - intros Hh Hp. assert (normalize_bind_host host = "127.0.0.1") as ->.
    { unfold normalize_bind_host. rewrite is_empty_trim.
      destruct Hh as [-> | ->]; [done|]. by rewrite orb_true_r. }
    pose proof (parse_show_v4 127 0 0 1 port ltac:(done) ltac:(done) ltac:(done) ltac:(done) Hp) as H.
    change (show_ipv4 [127; 0; 0; 1]%N) with "127.0.0.1" in H.
    unfold parse_addr. by rewrite H.
  - apply normalize_bind_host_idem.
  - unfold public_host_for_bind. destruct (decide _) as [H|H]; [done|].
    destruct (String.eqb _ _); [done|]. unfold is_wildcard_host. apply bool_decide_eq_false.
    rewrite trim_trim. intros Hin. apply H. set_solver.
Qed.

End NetBind.
