(* ===== verification/RuntimeSettings.v ===== *)
(** * Runtime settings of the console: [console/src-tauri/src/runtime_config.rs]

    The settings record, its defaults from the process environment, its
    normalisation, the ".env" file it is written to and read from, and the
    port table of the four services. The process environment is a finite map;
    a ".env" file is its text. *)

From Stdlib Require Import Ascii.
From S2P Require Import Prelude RustStr NetAddr NetBind.

#[local] Open Scope string_scope.

(** ** The environment *)

(*| src-tauri/src/runtime_config.rs 694-699 env_string *)
Definition env_string (env : Env) (key default : string) : string :=
  unwrap_or default (opt_filter (fun v => negb (blank v)) (env !! key)).

(*| src-tauri/src/runtime_config.rs 813-819 env_u16 *)
Definition env_u16 (env : Env) (key : string) (default : N) : N :=
  unwrap_or default (opt_filter (fun port => 0 <? port)%N (env !! key ≫= parse_u16)).

(*| src-tauri/src/runtime_config.rs 821-827 env_u64 *)
Definition env_u64 (env : Env) (key : string) (default : N) : N :=
  unwrap_or default (opt_filter (fun v => 0 <? v)%N (env !! key ≫= parse_u64)).

(*| src-tauri/src/runtime_config.rs 829-839 env_bool *)
Definition env_bool (env : Env) (key : string) (default : bool) : bool :=
  match env !! key with
  | Some v => bool_decide (to_ascii_lowercase (trim v) ∈ ["1"; "true"; "yes"; "on"])
  | None => default
  end.

(** ** Settings *)

(*| src-tauri/src/runtime_config.rs 18-18 INTERNAL_API_DEFAULT_PORT *)
Definition INTERNAL_API_DEFAULT_PORT : N := 61001.
(*| src-tauri/src/runtime_config.rs 19-19 LOCAL_WEB_DEFAULT_PORT *)
Definition LOCAL_WEB_DEFAULT_PORT : N := 61002.
(*| src-tauri/src/runtime_config.rs 20-20 AUXILIARY_DEFAULT_PORT *)
Definition AUXILIARY_DEFAULT_PORT : N := 61003.
(*| src-tauri/src/runtime_config.rs 21-21 BRIDGE_CORE_DEFAULT_PORT *)
Definition BRIDGE_CORE_DEFAULT_PORT : N := 61004.

(*| src-tauri/src/runtime_config.rs 68-124 RuntimeSettings *)
Record RuntimeSettings : Type := {
  internal_api_host : string;
  internal_api_port : N;
  internal_api_base_url : string;
  internal_api_docs_url : string;
  internal_api_auto_start : bool;
  internal_api_restart_on_config_change : bool;
  internal_api_require_token : bool;
  internal_api_allow_public_network : bool;
  internal_api_cors_enabled : bool;
  internal_api_token_header : string;
  internal_api_token : string;
  internal_api_docs_public_local : bool;
  internal_api_open_scalar_after_start : bool;
  internal_api_timeout_ms : N;
  internal_api_log_mode : string;
  internal_api_docs_enabled : bool;
  internal_api_docs_path : string;
  local_web_enabled : bool;
  local_web_auto_start : bool;
  local_web_host : string;
  local_web_port : N;
  auxiliary_host : string;
  auxiliary_port : N;
  bridge_core_host : string;
  bridge_core_port : N;
  webhook_enabled : bool;
  webhook_auto_start : bool;
  webhook_host : string;
  webhook_port : N;
  webhook_base_path : string;
  webhook_token_required : bool;
  webhook_token_header : string;
  webhook_token : string;
  webhook_allow_lan : bool;
  webhook_allow_external : bool;
  websocket_enabled : bool;
  websocket_auto_start : bool;
  websocket_host : string;
  websocket_port : N;
  websocket_path : string;
  websocket_token_required : bool;
  websocket_token_query : string;
  websocket_token_header : string;
  websocket_token : string;
  websocket_allow_lan : bool;
  websocket_allow_external : bool;
  websocket_heartbeat_seconds : N;
  tray_enabled : bool;
  minimize_to_tray : bool;
  close_to_tray : bool;
  start_with_windows : bool;
  services_auto_start : bool;
  app_service_name : string;
}.

(*| src-tauri/src/runtime_config.rs 149-219 RuntimeSettings::default *)
Definition settings_default (env : Env) : RuntimeSettings := {|
  internal_api_host := env_string env "TUNNARA_CONSOLE_API_HOST" "127.0.0.1";
  internal_api_port := env_u16 env "TUNNARA_CONSOLE_API_PORT" INTERNAL_API_DEFAULT_PORT;
  internal_api_base_url := env_string env "TUNNARA_CONSOLE_API_BASE_URL" "http://127.0.0.1:61001";
  internal_api_docs_url := env_string env "TUNNARA_CONSOLE_API_SCALAR_URL" "http://127.0.0.1:61001/docs";
  internal_api_auto_start := env_bool env "TUNNARA_CONSOLE_API_AUTO_START" true;
  internal_api_restart_on_config_change := env_bool env "TUNNARA_CONSOLE_API_RESTART_ON_CONFIG_CHANGE" true;
  internal_api_require_token := env_bool env "TUNNARA_CONSOLE_API_REQUIRE_TOKEN" false;
  internal_api_allow_public_network := env_bool env "TUNNARA_CONSOLE_API_ALLOW_PUBLIC_NETWORK" false;
  internal_api_cors_enabled := env_bool env "TUNNARA_CONSOLE_API_CORS" false;
  internal_api_token_header := env_string env "TUNNARA_CONSOLE_API_TOKEN_HEADER" "X-App-Token";
  internal_api_token := env_string env "TUNNARA_CONSOLE_API_TOKEN" "";
  internal_api_docs_public_local := env_bool env "TUNNARA_CONSOLE_API_DOCS_PUBLIC_LOCAL" true;
  internal_api_open_scalar_after_start := env_bool env "TUNNARA_CONSOLE_API_OPEN_SCALAR_AFTER_START" false;
  internal_api_timeout_ms := env_u64 env "TUNNARA_CONSOLE_API_TIMEOUT_MS" 8000;
  internal_api_log_mode := env_string env "TUNNARA_CONSOLE_API_LOG_MODE" "normal";
  internal_api_docs_enabled := env_bool env "TUNNARA_CONSOLE_API_SCALAR_ENABLED" true;
  internal_api_docs_path := env_string env "TUNNARA_CONSOLE_API_DOCS_PATH" "/docs";
  local_web_enabled := env_bool env "TUNNARA_CONSOLE_WEB_ENABLED" (negb (env_bool env "TUNNARA_CONSOLE_WEB_DISABLED" false));
  local_web_auto_start := env_bool env "TUNNARA_CONSOLE_WEB_AUTO_START" true;
  local_web_host := env_string env "TUNNARA_CONSOLE_WEB_HOST" "127.0.0.1";
  local_web_port := env_u16 env "TUNNARA_CONSOLE_WEB_PORT" LOCAL_WEB_DEFAULT_PORT;
  auxiliary_host := env_string env "TUNNARA_CONSOLE_WEBHOOK_HOST" "127.0.0.1";
  auxiliary_port := env_u16 env "TUNNARA_CONSOLE_WEBHOOK_PORT" AUXILIARY_DEFAULT_PORT;
  bridge_core_host := env_string env "TUNNARA_CONSOLE_WEBSOCKET_HOST" "127.0.0.1";
  bridge_core_port := env_u16 env "TUNNARA_CONSOLE_WEBSOCKET_PORT" BRIDGE_CORE_DEFAULT_PORT;
  webhook_enabled := env_bool env "TUNNARA_CONSOLE_WEBHOOK_ENABLED" false;
  webhook_auto_start := env_bool env "TUNNARA_CONSOLE_WEBHOOK_AUTO_START" false;
  webhook_host := env_string env "TUNNARA_CONSOLE_WEBHOOK_HOST" "127.0.0.1";
  webhook_port := env_u16 env "TUNNARA_CONSOLE_WEBHOOK_PORT" AUXILIARY_DEFAULT_PORT;
  webhook_base_path := env_string env "TUNNARA_CONSOLE_WEBHOOK_BASE_PATH" "/webhooks";
  webhook_token_required := env_bool env "TUNNARA_CONSOLE_WEBHOOK_TOKEN_REQUIRED" true;
  webhook_token_header := env_string env "TUNNARA_CONSOLE_WEBHOOK_TOKEN_HEADER" "X-Webhook-Token";
  webhook_token := env_string env "TUNNARA_CONSOLE_WEBHOOK_TOKEN" "";
  webhook_allow_lan := env_bool env "TUNNARA_CONSOLE_WEBHOOK_ALLOW_LAN" false;
  webhook_allow_external := env_bool env "TUNNARA_CONSOLE_WEBHOOK_ALLOW_EXTERNAL" false;
  websocket_enabled := env_bool env "TUNNARA_CONSOLE_WEBSOCKET_ENABLED" false;
  websocket_auto_start := env_bool env "TUNNARA_CONSOLE_WEBSOCKET_AUTO_START" false;
  websocket_host := env_string env "TUNNARA_CONSOLE_WEBSOCKET_HOST" "127.0.0.1";
  websocket_port := env_u16 env "TUNNARA_CONSOLE_WEBSOCKET_PORT" BRIDGE_CORE_DEFAULT_PORT;
  websocket_path := env_string env "TUNNARA_CONSOLE_WEBSOCKET_PATH" "/ws";
  websocket_token_required := env_bool env "TUNNARA_CONSOLE_WEBSOCKET_TOKEN_REQUIRED" true;
  websocket_token_query := env_string env "TUNNARA_CONSOLE_WEBSOCKET_TOKEN_QUERY" "token";
  websocket_token_header := env_string env "TUNNARA_CONSOLE_WEBSOCKET_TOKEN_HEADER" "X-WebSocket-Token";
  websocket_token := env_string env "TUNNARA_CONSOLE_WEBSOCKET_TOKEN" "";
  websocket_allow_lan := env_bool env "TUNNARA_CONSOLE_WEBSOCKET_ALLOW_LAN" false;
  websocket_allow_external := env_bool env "TUNNARA_CONSOLE_WEBSOCKET_ALLOW_EXTERNAL" false;
  websocket_heartbeat_seconds := env_u64 env "TUNNARA_CONSOLE_WEBSOCKET_HEARTBEAT_SECONDS" 30;
  tray_enabled := env_bool env "TUNNARA_CONSOLE_TRAY_ENABLED" true;
  minimize_to_tray := env_bool env "TUNNARA_CONSOLE_TRAY_MINIMIZE_TO_TRAY" true;
  close_to_tray := env_bool env "TUNNARA_CONSOLE_TRAY_CLOSE_TO_TRAY" false;
  start_with_windows := env_bool env "TUNNARA_CONSOLE_START_WITH_WINDOWS" false;
  services_auto_start := env_bool env "TUNNARA_CONSOLE_SERVICES_AUTO_START" false;
  app_service_name := env_string env "TUNNARA_CONSOLE_SERVICE_NAME" "TunnaraConsoleServer" |}.

(** ** Normalisation *)

(*| src-tauri/src/runtime_config.rs 702-704 is_public_bind_host *)
Definition is_public_bind_host (host : string) : bool :=
  bool_decide (trim host ∈ ["0.0.0.0"; "::"; "[::]"]).

(*| src-tauri/src/internal_api/config.rs 162-168 public_url_host *)
Definition public_url_host (host : string) : string :=
  let value := trim host in
  if decide (value ∈ ["0.0.0.0"; "::"; "[::]"]) then "127.0.0.1"
  else if is_empty value then "127.0.0.1"
  else value.

(** [if field.trim().is_empty() { field = d }] *)
Definition if_blank (v d : string) : string := if blank v then d else v.
(** [if field == 0 { field = d }] *)
Definition if_zero (v d : N) : N := if (v =? 0)%N then d else v.

(** A path field: the default when blank, then a leading slash. *)
Definition slash_path (p d : string) : string :=
  let p := if_blank p d in
  if starts_with "/" p then p else "/" ++ trim p.

(** The URLs that are derived again from the host and port. *)
Definition stale_url (u : string) : bool :=
  blank u || contains "127.0.0.1:61001" u || contains "0.0.0.0" u || contains "[::]" u.

(*| src-tauri/src/runtime_config.rs 717-718 normalize_runtime_settings *)
Definition normalized_base_url (s : RuntimeSettings) : string :=
  "http://" ++ public_url_host (trim (if_blank (internal_api_host s) "127.0.0.1")) ++ ":"
    ++ show_N (if_zero (internal_api_port s) INTERNAL_API_DEFAULT_PORT).

(** Every assignment of the code, in its order, read off field by field. *)
(*| src-tauri/src/runtime_config.rs 706-811 normalize_runtime_settings *)
Definition normalize_runtime_settings (s : RuntimeSettings) : RuntimeSettings := {|
  internal_api_host := if_blank (internal_api_host s) "127.0.0.1";
  internal_api_port := if_zero (internal_api_port s) INTERNAL_API_DEFAULT_PORT;
  internal_api_base_url := if stale_url (internal_api_base_url s) then normalized_base_url s else internal_api_base_url s;
  internal_api_docs_url := if stale_url (internal_api_docs_url s)
    then normalized_base_url s ++ slash_path (internal_api_docs_path s) "/docs"
    else internal_api_docs_url s;
  internal_api_auto_start := internal_api_auto_start s;
  internal_api_restart_on_config_change := internal_api_restart_on_config_change s;
  internal_api_require_token := internal_api_require_token s;
  internal_api_allow_public_network := is_public_bind_host (if_blank (internal_api_host s) "127.0.0.1")
    || internal_api_allow_public_network s;
  internal_api_cors_enabled := is_public_bind_host (if_blank (internal_api_host s) "127.0.0.1")
    || internal_api_cors_enabled s;
  internal_api_token_header := if_blank (internal_api_token_header s) "X-App-Token";
  internal_api_token := internal_api_token s;
  internal_api_docs_public_local := internal_api_docs_public_local s;
  internal_api_open_scalar_after_start := internal_api_open_scalar_after_start s;
  internal_api_timeout_ms := N.max 1000 (internal_api_timeout_ms s);
  internal_api_log_mode := if_blank (internal_api_log_mode s) "normal";
  internal_api_docs_enabled := internal_api_docs_enabled s;
  internal_api_docs_path := slash_path (internal_api_docs_path s) "/docs";
  local_web_enabled := local_web_enabled s;
  local_web_auto_start := local_web_auto_start s;
  local_web_host := if_blank (local_web_host s) "127.0.0.1";
  local_web_port := if_zero (local_web_port s) LOCAL_WEB_DEFAULT_PORT;
  auxiliary_host := if_blank (webhook_host s) "127.0.0.1";
  auxiliary_port := if_zero (webhook_port s) AUXILIARY_DEFAULT_PORT;
  bridge_core_host := if_blank (websocket_host s) "127.0.0.1";
  bridge_core_port := if_zero (websocket_port s) BRIDGE_CORE_DEFAULT_PORT;
  webhook_enabled := webhook_enabled s;
  webhook_auto_start := webhook_auto_start s;
  webhook_host := if_blank (webhook_host s) "127.0.0.1";
  webhook_port := if_zero (webhook_port s) AUXILIARY_DEFAULT_PORT;
  webhook_base_path := slash_path (webhook_base_path s) "/webhooks";
  webhook_token_required := webhook_token_required s;
  webhook_token_header := if_blank (webhook_token_header s) "X-Webhook-Token";
  webhook_token := webhook_token s;
  webhook_allow_lan := is_public_bind_host (if_blank (webhook_host s) "127.0.0.1") || webhook_allow_lan s;
  webhook_allow_external := webhook_allow_external s;
  websocket_enabled := websocket_enabled s;
  websocket_auto_start := websocket_auto_start s;
  websocket_host := if_blank (websocket_host s) "127.0.0.1";
  websocket_port := if_zero (websocket_port s) BRIDGE_CORE_DEFAULT_PORT;
  websocket_path := slash_path (websocket_path s) "/ws";
  websocket_token_required := websocket_token_required s;
  websocket_token_query := if_blank (websocket_token_query s) "token";
  websocket_token_header := if_blank (websocket_token_header s) "X-WebSocket-Token";
  websocket_token := websocket_token s;
  websocket_allow_lan := is_public_bind_host (if_blank (websocket_host s) "127.0.0.1") || websocket_allow_lan s;
  websocket_allow_external := websocket_allow_external s;
  websocket_heartbeat_seconds := if_zero (websocket_heartbeat_seconds s) 30;
  tray_enabled := tray_enabled s;
  minimize_to_tray := minimize_to_tray s;
  close_to_tray := close_to_tray s;
  start_with_windows := start_with_windows s;
  services_auto_start := services_auto_start s;
  app_service_name := if_blank (app_service_name s) "TunnaraConsoleServer" |}.

(** ** The ".env" file *)

(** The variables [write_env_file] prints, in order. *)
(*| src-tauri/src/runtime_config.rs 422-533 write_env_file *)
Definition env_pairs (s : RuntimeSettings) : list (string * string) :=
  [
 ("TUNNARA_CONSOLE_API_HOST", internal_api_host s);
   ("TUNNARA_CONSOLE_API_PORT", show_N (internal_api_port s));
   ("TUNNARA_CONSOLE_API_BASE_URL", internal_api_base_url s);
   ("TUNNARA_CONSOLE_API_AUTO_START", show_bool (internal_api_auto_start s));
   ("TUNNARA_CONSOLE_API_RESTART_ON_CONFIG_CHANGE", show_bool (internal_api_restart_on_config_change s));
   ("TUNNARA_CONSOLE_API_REQUIRE_TOKEN", show_bool (internal_api_require_token s));
   ("TUNNARA_CONSOLE_API_ALLOW_PUBLIC_NETWORK", show_bool (internal_api_allow_public_network s));
   ("TUNNARA_CONSOLE_API_CORS", show_bool (internal_api_cors_enabled s));
   ("TUNNARA_CONSOLE_API_TOKEN_HEADER", internal_api_token_header s);
   ("TUNNARA_CONSOLE_API_TOKEN", internal_api_token s);
   ("TUNNARA_CONSOLE_API_DOCS_PUBLIC_LOCAL", show_bool (internal_api_docs_public_local s));
   ("TUNNARA_CONSOLE_API_OPEN_SCALAR_AFTER_START", show_bool (internal_api_open_scalar_after_start s));
   ("TUNNARA_CONSOLE_API_TIMEOUT_MS", show_N (internal_api_timeout_ms s));
   ("TUNNARA_CONSOLE_API_LOG_MODE", internal_api_log_mode s);
   ("TUNNARA_CONSOLE_API_SCALAR_ENABLED", show_bool (internal_api_docs_enabled s));
   ("TUNNARA_CONSOLE_API_SCALAR_URL", internal_api_docs_url s);
   ("TUNNARA_CONSOLE_API_DOCS_PATH", internal_api_docs_path s);
   ("TUNNARA_CONSOLE_WEB_ENABLED", show_bool (local_web_enabled s));
   ("TUNNARA_CONSOLE_WEB_HOST", local_web_host s);
   ("TUNNARA_CONSOLE_WEB_PORT", show_N (local_web_port s));
   ("TUNNARA_CONSOLE_WEB_AUTO_START", show_bool (local_web_auto_start s));
   ("TUNNARA_CONSOLE_WEB_BIND_LAN", show_bool (is_public_bind_host (local_web_host s)));
   ("TUNNARA_CONSOLE_AUX_HOST", auxiliary_host s);
   ("TUNNARA_CONSOLE_AUX_PORT", show_N (auxiliary_port s));
   ("TUNNARA_CONSOLE_BRIDGE_HOST", bridge_core_host s);
   ("TUNNARA_CONSOLE_BRIDGE_PORT", show_N (bridge_core_port s));
   ("TUNNARA_CONSOLE_WEBHOOK_ENABLED", show_bool (webhook_enabled s));
   ("TUNNARA_CONSOLE_WEBHOOK_AUTO_START", show_bool (webhook_auto_start s));
   ("TUNNARA_CONSOLE_WEBHOOK_HOST", webhook_host s);
   ("TUNNARA_CONSOLE_WEBHOOK_PORT", show_N (webhook_port s));
   ("TUNNARA_CONSOLE_WEBHOOK_BASE_PATH", webhook_base_path s);
   ("TUNNARA_CONSOLE_WEBHOOK_TOKEN_REQUIRED", show_bool (webhook_token_required s));
   ("TUNNARA_CONSOLE_WEBHOOK_TOKEN_HEADER", webhook_token_header s);
   ("TUNNARA_CONSOLE_WEBHOOK_TOKEN", webhook_token s);
   ("TUNNARA_CONSOLE_WEBHOOK_ALLOW_LAN", show_bool (webhook_allow_lan s));
   ("TUNNARA_CONSOLE_WEBHOOK_ALLOW_EXTERNAL", show_bool (webhook_allow_external s));
   ("TUNNARA_CONSOLE_WEBSOCKET_ENABLED", show_bool (websocket_enabled s));
   ("TUNNARA_CONSOLE_WEBSOCKET_AUTO_START", show_bool (websocket_auto_start s));
   ("TUNNARA_CONSOLE_WEBSOCKET_HOST", websocket_host s);
   ("TUNNARA_CONSOLE_WEBSOCKET_PORT", show_N (websocket_port s));
   ("TUNNARA_CONSOLE_WEBSOCKET_PATH", websocket_path s);
   ("TUNNARA_CONSOLE_WEBSOCKET_TOKEN_REQUIRED", show_bool (websocket_token_required s));
   ("TUNNARA_CONSOLE_WEBSOCKET_TOKEN_QUERY", websocket_token_query s);
   ("TUNNARA_CONSOLE_WEBSOCKET_TOKEN_HEADER", websocket_token_header s);
   ("TUNNARA_CONSOLE_WEBSOCKET_TOKEN", websocket_token s);
   ("TUNNARA_CONSOLE_WEBSOCKET_ALLOW_LAN", show_bool (websocket_allow_lan s));
   ("TUNNARA_CONSOLE_WEBSOCKET_ALLOW_EXTERNAL", show_bool (websocket_allow_external s));
   ("TUNNARA_CONSOLE_WEBSOCKET_HEARTBEAT_SECONDS", show_N (websocket_heartbeat_seconds s));
   ("TUNNARA_CONSOLE_TRAY_ENABLED", show_bool (tray_enabled s));
   ("TUNNARA_CONSOLE_TRAY_MINIMIZE_TO_TRAY", show_bool (minimize_to_tray s));
   ("TUNNARA_CONSOLE_TRAY_CLOSE_TO_TRAY", show_bool (close_to_tray s));
   ("TUNNARA_CONSOLE_START_WITH_WINDOWS", show_bool (start_with_windows s));
   ("TUNNARA_CONSOLE_SERVICES_AUTO_START", show_bool (services_auto_start s));
   ("TUNNARA_CONSOLE_SERVICE_NAME", app_service_name s)
  ].

Definition newline : string := String LF "".
Definition env_line (kv : string * string) : string := fst kv ++ "=" ++ snd kv.

(*| src-tauri/src/runtime_config.rs 423-479 write_env_file *)
Definition env_content (s : RuntimeSettings) : string :=
  "# Tunnara Console - gerado pela tela Sistema e parâmetros" ++ newline
  ++ String.concat "" (map (fun kv => env_line kv ++ newline) (env_pairs s))
  ++ "# Informe TUNNARA_CONSOLE_API_TOKEN via secret/env real em produção; não commite tokens."
  ++ newline.

(*| src-tauri/src/runtime_config.rs 397-420 apply_env_from_settings *)
Definition applied_pairs (s : RuntimeSettings) : list (string * string) :=
  [
 ("TUNNARA_CONSOLE_API_HOST", internal_api_host s);
   ("TUNNARA_CONSOLE_API_PORT", show_N (internal_api_port s));
   ("TUNNARA_CONSOLE_API_BASE_URL", internal_api_base_url s);
   ("TUNNARA_CONSOLE_API_SCALAR_URL", internal_api_docs_url s);
   ("TUNNARA_CONSOLE_API_AUTO_START", show_bool (internal_api_auto_start s));
   ("TUNNARA_CONSOLE_API_ALLOW_PUBLIC_NETWORK", show_bool (internal_api_allow_public_network s));
   ("TUNNARA_CONSOLE_API_CORS", show_bool (internal_api_cors_enabled s));
   ("TUNNARA_CONSOLE_WEB_ENABLED", show_bool (local_web_enabled s));
   ("TUNNARA_CONSOLE_WEB_HOST", local_web_host s);
   ("TUNNARA_CONSOLE_WEB_PORT", show_N (local_web_port s));
   ("TUNNARA_CONSOLE_WEB_AUTO_START", show_bool (local_web_auto_start s));
   ("TUNNARA_CONSOLE_WEB_BIND_LAN", show_bool (String.eqb (local_web_host s) "0.0.0.0"));
   ("TUNNARA_CONSOLE_WEBHOOK_ENABLED", show_bool (webhook_enabled s));
   ("TUNNARA_CONSOLE_WEBHOOK_AUTO_START", show_bool (webhook_auto_start s));
   ("TUNNARA_CONSOLE_WEBHOOK_HOST", webhook_host s);
   ("TUNNARA_CONSOLE_WEBHOOK_PORT", show_N (webhook_port s));
   ("TUNNARA_CONSOLE_WEBHOOK_ALLOW_LAN", show_bool (webhook_allow_lan s));
   ("TUNNARA_CONSOLE_WEBSOCKET_ENABLED", show_bool (websocket_enabled s));
   ("TUNNARA_CONSOLE_WEBSOCKET_AUTO_START", show_bool (websocket_auto_start s));
   ("TUNNARA_CONSOLE_WEBSOCKET_HOST", websocket_host s);
   ("TUNNARA_CONSOLE_WEBSOCKET_PORT", show_N (websocket_port s));
   ("TUNNARA_CONSOLE_WEBSOCKET_ALLOW_LAN", show_bool (websocket_allow_lan s))
  ].
(*| src-tauri/src/runtime_config.rs 397-420 apply_env_from_settings *)
Definition apply_env_from_settings (s : RuntimeSettings) (env : Env) : Env :=
  foldl (fun env '(k, v) => <[k := v]> env) env (applied_pairs s).

(*| src-tauri/src/runtime_config.rs 338-394 default_env_template *)
Definition default_env_template : string :=
"# Tunnara Console - configuração local
# A porta padrão do Tauri (devUrl 1420) não é alterada por este arquivo.
TUNNARA_CONSOLE_API_HOST=127.0.0.1
TUNNARA_CONSOLE_API_PORT=61001
TUNNARA_CONSOLE_API_AUTO_START=true
TUNNARA_CONSOLE_API_BASE_URL=http://127.0.0.1:61001
TUNNARA_CONSOLE_API_SCALAR_ENABLED=true
TUNNARA_CONSOLE_API_SCALAR_URL=http://127.0.0.1:61001/docs
TUNNARA_CONSOLE_API_DOCS_PATH=/docs
TUNNARA_CONSOLE_API_DOCS_PUBLIC_LOCAL=true
TUNNARA_CONSOLE_API_RESTART_ON_CONFIG_CHANGE=true
TUNNARA_CONSOLE_API_OPEN_SCALAR_AFTER_START=false
TUNNARA_CONSOLE_API_TIMEOUT_MS=8000
TUNNARA_CONSOLE_API_LOG_MODE=normal
TUNNARA_CONSOLE_WEB_ENABLED=true
TUNNARA_CONSOLE_WEB_HOST=127.0.0.1
TUNNARA_CONSOLE_WEB_PORT=61002
TUNNARA_CONSOLE_WEB_AUTO_START=true
TUNNARA_CONSOLE_WEB_BIND_LAN=false
TUNNARA_CONSOLE_WEBHOOK_AUTO_START=false
TUNNARA_CONSOLE_WEBHOOK_ENABLED=false
TUNNARA_CONSOLE_WEBHOOK_HOST=127.0.0.1
TUNNARA_CONSOLE_WEBHOOK_PORT=61003
TUNNARA_CONSOLE_WEBHOOK_BASE_PATH=/webhooks
TUNNARA_CONSOLE_WEBHOOK_TOKEN_REQUIRED=true
TUNNARA_CONSOLE_WEBHOOK_TOKEN_HEADER=X-Webhook-Token
TUNNARA_CONSOLE_WEBHOOK_TOKEN=
TUNNARA_CONSOLE_WEBHOOK_ALLOW_LAN=false
TUNNARA_CONSOLE_WEBHOOK_ALLOW_EXTERNAL=false
TUNNARA_CONSOLE_WEBSOCKET_ENABLED=false
TUNNARA_CONSOLE_WEBSOCKET_AUTO_START=false
TUNNARA_CONSOLE_WEBSOCKET_HOST=127.0.0.1
TUNNARA_CONSOLE_WEBSOCKET_PORT=61004
TUNNARA_CONSOLE_WEBSOCKET_PATH=/ws
TUNNARA_CONSOLE_WEBSOCKET_TOKEN_REQUIRED=true
TUNNARA_CONSOLE_WEBSOCKET_TOKEN_QUERY=token
TUNNARA_CONSOLE_WEBSOCKET_TOKEN_HEADER=X-WebSocket-Token
TUNNARA_CONSOLE_WEBSOCKET_TOKEN=
TUNNARA_CONSOLE_WEBSOCKET_ALLOW_LAN=false
TUNNARA_CONSOLE_WEBSOCKET_ALLOW_EXTERNAL=false
TUNNARA_CONSOLE_WEBSOCKET_HEARTBEAT_SECONDS=30
TUNNARA_CONSOLE_TRAY_ENABLED=true
TUNNARA_CONSOLE_TRAY_MINIMIZE_TO_TRAY=true
TUNNARA_CONSOLE_TRAY_CLOSE_TO_TRAY=false
TUNNARA_CONSOLE_START_WITH_WINDOWS=false
TUNNARA_CONSOLE_SERVICES_AUTO_START=false
TUNNARA_CONSOLE_SERVICE_NAME=TunnaraConsoleServer
TUNNARA_CONSOLE_API_REQUIRE_TOKEN=false
TUNNARA_CONSOLE_API_ALLOW_PUBLIC_NETWORK=false
TUNNARA_CONSOLE_API_CORS=false
TUNNARA_CONSOLE_API_TOKEN=
TUNNARA_CONSOLE_API_TOKEN_HEADER=X-App-Token
# Informe TUNNARA_CONSOLE_API_TOKEN via secret/env real em produção; não commite tokens.
".

(** One line of the file: the variable it defines. *)
(*| src-tauri/src/runtime_config.rs 240-252 load_env_file *)
Definition parse_env_line (line : string) : option (string * string) :=
  let trimmed := trim line in
  if is_empty trimmed || starts_with "#" trimmed || negb (contains "=" trimmed) then None
  else
    let '(k, v) := split_once "=" trimmed in
    let key := trim k in
    let value := trim_char SQUOTE (trim_char DQUOTE (trim (unwrap_or "" v))) in
    if is_empty key then None else Some (key, value).

(** A variable that is set already keeps its value. *)
(*| src-tauri/src/runtime_config.rs 253-255 load_env_file *)
Definition set_if_unset (env : Env) (kv : string * string) : Env :=
  match env !! fst kv with Some _ => env | None => <[fst kv := snd kv]> env end.

(*| src-tauri/src/runtime_config.rs 239-257 load_env_file *)
Definition load_env_text (raw : string) (env : Env) : Env :=
  foldl set_if_unset env (omap parse_env_line (lines raw)).

Example load_env_small :
  load_env_text ("A=1" ++ newline ++ "# B=2" ++ newline ++ " B = 'x y' " ++ newline ++ "A=3") ∅
  = <["B" := "x y"]> (<["A" := "1"]> ∅).
Proof. vm_compute. reflexivity. Qed.

(** ** The port table *)

(*| src-tauri/src/runtime_config.rs 23-30 RuntimePortDefinition *)
Record RuntimePortDefinition : Type := {
  def_key : string;
  def_label : string;
  def_env_host_key : string;
  def_env_port_key : string;
  def_default_port : N;
  def_description : string;
}.

(*| src-tauri/src/runtime_config.rs 32-39 INTERNAL_API_PORT_DEFINITION *)
Definition INTERNAL_API_PORT_DEFINITION : RuntimePortDefinition := {|
  def_key := "internal_api";
  def_label := "API interna";
  def_env_host_key := "TUNNARA_CONSOLE_API_HOST";
  def_env_port_key := "TUNNARA_CONSOLE_API_PORT";
  def_default_port := INTERNAL_API_DEFAULT_PORT;
  def_description := "API local Axum usada pelo template em modo desktop/headless." |}.

(*| src-tauri/src/runtime_config.rs 41-48 LOCAL_WEB_PORT_DEFINITION *)
Definition LOCAL_WEB_PORT_DEFINITION : RuntimePortDefinition := {|
  def_key := "local_web";
  def_label := "Servidor web local";
  def_env_host_key := "TUNNARA_CONSOLE_WEB_HOST";
  def_env_port_key := "TUNNARA_CONSOLE_WEB_PORT";
  def_default_port := LOCAL_WEB_DEFAULT_PORT;
  def_description :=
    "Servidor web/preview usado em desenvolvimento ou distribuição web local." |}.

(*| src-tauri/src/runtime_config.rs 50-57 AUXILIARY_PORT_DEFINITION *)
Definition AUXILIARY_PORT_DEFINITION : RuntimePortDefinition := {|
  def_key := "auxiliary";
  def_label := "Webhook Service";
  def_env_host_key := "TUNNARA_CONSOLE_WEBHOOK_HOST";
  def_env_port_key := "TUNNARA_CONSOLE_WEBHOOK_PORT";
  def_default_port := AUXILIARY_DEFAULT_PORT;
  def_description :=
    "Serviço nativo genérico para receber webhooks HTTP por módulo/provedor." |}.

(*| src-tauri/src/runtime_config.rs 59-66 BRIDGE_CORE_PORT_DEFINITION *)
Definition BRIDGE_CORE_PORT_DEFINITION : RuntimePortDefinition := {|
  def_key := "bridge_core";
  def_label := "WebSocket Service";
  def_env_host_key := "TUNNARA_CONSOLE_WEBSOCKET_HOST";
  def_env_port_key := "TUNNARA_CONSOLE_WEBSOCKET_PORT";
  def_default_port := BRIDGE_CORE_DEFAULT_PORT;
  def_description := "Serviço nativo genérico de WebSocket/eventos em tempo real." |}.

(*| src-tauri/src/runtime_config.rs 126-139 RuntimeServicePort *)
Record RuntimeServicePort : Type := {
  port_key : string;
  port_label : string;
  port_env_host_key : string;
  port_env_port_key : string;
  port_default_port : N;
  port_host : string;
  configured_port : N;
  effective_port : N;
  available : bool;
  fallback_applied : bool;
  port_description : string;
}.

(*| src-tauri/src/runtime_config.rs 599-617 port_item *)
Definition port_item (definition : RuntimePortDefinition) (host : string) (port : N) :
    RuntimeServicePort := {|
  port_key := def_key definition;
  port_label := def_label definition;
  port_env_host_key := def_env_host_key definition;
  port_env_port_key := def_env_port_key definition;
  port_default_port := def_default_port definition;
  port_host := host;
  configured_port := port;
  effective_port := port;
  available := true;
  fallback_applied := false;
  port_description := def_description definition |}.

(*| src-tauri/src/runtime_config.rs 550-571 build_ports *)
Definition port_items (s : RuntimeSettings) : list RuntimeServicePort :=
  [ port_item INTERNAL_API_PORT_DEFINITION (internal_api_host s) (internal_api_port s);
    port_item LOCAL_WEB_PORT_DEFINITION (local_web_host s) (local_web_port s);
    port_item AUXILIARY_PORT_DEFINITION (webhook_host s) (webhook_port s);
    port_item BRIDGE_CORE_PORT_DEFINITION (websocket_host s) (websocket_port s) ].

(*| src-tauri/src/runtime_config.rs 577-582 build_ports *)
Definition service_enabled (s : RuntimeSettings) (key : string) : bool :=
  if String.eqb key "local_web" then local_web_enabled s
  else if String.eqb key "auxiliary" then webhook_enabled s
  else if String.eqb key "bridge_core" then websocket_enabled s
  else true.

(** The body of the loop on one item: the effective port is reset, and the
    port is marked unavailable. *)
Definition with_availability (ok : bool) (item : RuntimeServicePort) : RuntimeServicePort := {|
  port_key := port_key item;
  port_label := port_label item;
  port_env_host_key := port_env_host_key item;
  port_env_port_key := port_env_port_key item;
  port_default_port := port_default_port item;
  port_host := port_host item;
  configured_port := configured_port item;
  effective_port := configured_port item;
  available := available item && ok;
  fallback_applied := false;
  port_description := port_description item |}.

Definition duplicate_warning (port : N) : string :=
  "Porta " ++ show_N port ++ " está configurada em mais de um serviço ativo. Ajuste as portas para evitar conflito entre API/Web/Webhook/WebSocket.".

Section Ports.
Context {W : Type} `{NW : NetWorld W}.

(*| src-tauri/src/runtime_config.rs 684-691 is_port_available *)
Definition is_port_available (host : string) (port : N) : St W bool :=
  let bind_host := if blank host then "127.0.0.1" else trim host in
  match parse_socket_addr (bind_host ++ ":" ++ show_N port) with
  | None => mret false
  | Some addr =>
      bound ← tcp_bind addr;
      match bound with
      | Ok l => _ ← drop_listener l; mret true
      | Err _ => mret false
      end
  end.

(** The loop of [build_ports] over the items still to look at; [seen] are the
    ports inserted so far. *)
(*| src-tauri/src/runtime_config.rs 572-596 build_ports *)
Fixpoint probe_ports (s : RuntimeSettings) (seen : list N) (items : list RuntimeServicePort) :
    St W (list RuntimeServicePort * list string) :=
  match items with
  | [] => mret ([], [])
  | item :: rest =>
      let port := configured_port item in
      let enabled := service_enabled s (port_key item) in
      let dup := enabled && bool_decide (port ∈ seen) in
      let seen := if enabled then port :: seen else seen in
      free ← (if enabled then is_port_available (port_host item) port else mret true);
      others ← probe_ports s seen rest;
      mret (with_availability (negb dup && free) item :: fst others,
            app (if dup then [duplicate_warning port] else []) (snd others))
  end.

(*| src-tauri/src/runtime_config.rs 549-597 build_ports *)
Definition build_ports (s : RuntimeSettings) : St W (list RuntimeServicePort * list string) :=
  probe_ports s [] (port_items s).

End Ports.

(** [any(|item| !seen.insert(item))]: some port occurs twice. *)
(*| src-tauri/src/runtime_config.rs 675-681 has_duplicate_configured_ports *)
Fixpoint any_duplicate (seen : list N) (ports : list N) : bool :=
  match ports with
  | [] => false
  | p :: rest => bool_decide (p ∈ seen) || any_duplicate (p :: seen) rest
  end.

(** The ports of the services that are active. *)
Definition active_ports (s : RuntimeSettings) (ports : list RuntimeServicePort) : list N :=
  map configured_port (List.filter (fun item => service_enabled s (port_key item)) ports).

(*| src-tauri/src/runtime_config.rs 674-682 has_duplicate_configured_ports *)
Definition has_duplicate_configured_ports (s : RuntimeSettings) (ports : list RuntimeServicePort) :
    bool :=
  any_duplicate [] (active_ports s ports).

(** The labels come in the order of a [BTreeMap]. *)
(*| src-tauri/src/runtime_config.rs 659-672 validate_port_range *)
Definition validate_port_range (s : RuntimeSettings) : result string unit :=
  match list_find (fun lp => snd lp =? 0)%N
          [("API interna", internal_api_port s); ("Servidor web local", local_web_port s);
           ("WebSocket Service", websocket_port s); ("Webhook Service", webhook_port s)] with
  | Some (label, _) => Err (label ++ ": porta deve estar entre 1 e 65535.")
  | None => Ok ()
  end.

(** ** Lemmas: normalisation *)

Lemma if_blank_idem v d : if_blank (if_blank v d) d = if_blank v d.
Proof. unfold if_blank. destruct (blank v) eqn:E; [by destruct (blank d)|by rewrite E]. Qed.

Lemma if_zero_idem v d : if_zero (if_zero v d) d = if_zero v d.
Proof.
  unfold if_zero. destruct (v =? 0)%N eqn:E; [by destruct (d =? 0)%N|by rewrite E].
Qed.

Lemma if_zero_pos v d : (0 < d)%N -> (0 < if_zero v d)%N.
Proof. unfold if_zero. destruct (N.eqb_spec v 0); lia. Qed.

Lemma if_zero_bound v d m : (v <= m)%N -> (d <= m)%N -> (if_zero v d <= m)%N.
Proof. unfold if_zero. destruct (v =? 0)%N; lia. Qed.

Lemma if_blank_not_blank v d : blank d = false -> blank (if_blank v d) = false.
Proof. unfold if_blank. by destruct (blank v) eqn:E. Qed.

Lemma slash_not_blank p : starts_with "/" p = true -> blank p = false.
Proof.
  intros [t ->]%starts_with_spec. rewrite app_cons, app_nil.
  unfold blank. rewrite trim_start_fix; [done|]. by destruct t as [|? []].
Qed.

Lemma slash_path_slash p d : starts_with "/" (slash_path p d) = true.
Proof.
  unfold slash_path. destruct (starts_with "/" (if_blank p d)) eqn:E; [done|].
  apply starts_with_app.
Qed.

Lemma slash_path_idem p d : slash_path (slash_path p d) d = slash_path p d.
Proof.
  pose proof (slash_path_slash p d) as H. unfold slash_path at 1, if_blank.
  by rewrite (slash_not_blank _ H), H.
Qed.

Lemma stale_idem (u base : string) :
  (if stale_url (if stale_url u then base else u) then base
   else if stale_url u then base else u) = (if stale_url u then base else u).
Proof. destruct (stale_url u) eqn:E; [by destruct (stale_url base)|by rewrite E]. Qed.

Lemma orb_idem a b : a || (a || b) = a || b.
Proof. by destruct a. Qed.

#[export] Hint Rewrite if_blank_idem if_zero_idem slash_path_idem stale_idem orb_idem : tunnara.

(** ** Lemmas: ports *)

Lemma any_duplicate_spec l : forall seen,
  any_duplicate seen l = false <-> NoDup l /\ Forall (fun p => p ∉ seen) l.
Proof.
  induction l as [|p l IH]; intros seen; cbn; [split; [by repeat constructor|done]|].
  rewrite orb_false_iff, bool_decide_eq_false, IH, NoDup_cons, Forall_cons.
  split.
  - intros (Hp & Hn & Hf). rewrite Forall_forall in Hf. split; [split; [|done]|split; [done|]].
    + intros Hin. apply (Hf p Hin), list_elem_of_here.
    + apply Forall_forall. intros q Hq Hs. by apply (Hf q Hq), list_elem_of_further.
  - intros ((Hp & Hn) & Hs & Hf). rewrite Forall_forall in Hf. split_and!; [done..|].
    apply Forall_forall. intros q Hq. rewrite not_elem_of_cons. split; [by intros ->|].
    by apply Hf.
Qed.

(** The number of warnings is the number of repeated active ports. *)
Fixpoint duplicates (seen : list N) (ports : list N) : list N :=
  match ports with
  | [] => []
  | p :: rest => app (if bool_decide (p ∈ seen) then [p] else []) (duplicates (p :: seen) rest)
  end.

Lemma duplicates_nil l : forall seen, duplicates seen l = [] <-> any_duplicate seen l = false.
Proof.
  induction l as [|p l IH]; intros seen; cbn; [done|].
  destruct (bool_decide (p ∈ seen)); cbn; [done|]. apply IH.
Qed.

Section PortLemmas.
Context {W : Type} `{NW : NetWorld W}.

Lemma probe_ports_spec s items : forall seen w ports warnings w',
  probe_ports s seen items w = ((ports, warnings), w') ->
  warnings = map duplicate_warning (duplicates seen (active_ports s items)) /\
  Forall2 (fun before after => exists ok, after = with_availability ok before) items ports.
Proof.
  induction items as [|item items IH]; intros seen w ports warnings w' H; cbn [probe_ports] in H.
  { by injection H as <- <- _. }
  run_bind H free w1 as Ef. run_bind H r w2 as Er. destruct r as [others warns].
  injection H as <- <- _. apply IH in Er as [-> Hf]. split; [|constructor; eauto].
  unfold active_ports. cbn. destruct (service_enabled s (port_key item)); cbn; [|done].
  by destruct (bool_decide _).
Qed.

Lemma active_ports_probed s items ports :
  Forall2 (fun before after => exists ok, after = with_availability ok before) items ports ->
  active_ports s ports = active_ports s items.
Proof.
  unfold active_ports. induction 1 as [|x y l k [ok ->] H IH]; [done|]. cbn.
  destruct (service_enabled s (port_key x)); cbn; by rewrite IH.
Qed.

End PortLemmas.

(** ** Properties: normalisation *)

(** Normalising settings twice is normalising them once, for all 53
    fields: saved settings load back unchanged. *)
Theorem normalize_runtime_settings_idempotent s :
  normalize_runtime_settings (normalize_runtime_settings s) = normalize_runtime_settings s.
Proof.
  unfold normalize_runtime_settings, normalized_base_url.
  cbn -[if_blank if_zero slash_path stale_url is_public_bind_host public_url_host show_N N.max].
  autorewrite with tunnara. f_equal.
  lia.
Qed.

(** A setting the services can run with: no port is 0 and all are 16-bit, no
    host, header or name is blank, the paths start with a slash, the timeout
    and the heartbeat are positive, the two legacy pairs mirror the Webhook
    and WebSocket ones, and a public host implies the flags that go with it. *)
Record runnable (s : RuntimeSettings) : Prop := {
  run_ports : Forall (fun p => 0 < p <= U16_MAX)%N
    [internal_api_port s; local_web_port s; webhook_port s; websocket_port s];
  run_texts : Forall (fun t => blank t = false)
    [internal_api_host s; local_web_host s; webhook_host s; websocket_host s;
     internal_api_base_url s; internal_api_docs_url s; internal_api_log_mode s; internal_api_token_header s;
     webhook_token_header s; websocket_token_query s; websocket_token_header s;
     app_service_name s];
  run_paths : Forall (fun p => starts_with "/" p = true)
    [internal_api_docs_path s; webhook_base_path s; websocket_path s];
  run_timeout : (1000 <= internal_api_timeout_ms s)%N;
  run_heartbeat : (0 < websocket_heartbeat_seconds s)%N;
  run_auxiliary : auxiliary_host s = webhook_host s /\ auxiliary_port s = webhook_port s;
  run_bridge : bridge_core_host s = websocket_host s /\ bridge_core_port s = websocket_port s;
  run_public : is_public_bind_host (internal_api_host s) = true ->
    internal_api_allow_public_network s = true /\ internal_api_cors_enabled s = true;
}.

(** The four port fields of a settings value are 16-bit numbers. *)
Definition ports_u16 (s : RuntimeSettings) : Prop :=
  Forall (fun p => p <= U16_MAX)%N
    [internal_api_port s; local_web_port s; webhook_port s; websocket_port s].

Lemma base_url_not_blank s : blank (normalized_base_url s) = false.
Proof. done. Qed.

Lemma normalize_base_url_not_blank u base :
  blank base = false -> blank (if stale_url u then base else u) = false.
Proof.
  intros Hb. destruct (stale_url u) eqn:E; [done|]. unfold stale_url in E.
  by destruct (blank u).
Qed.

Lemma validate_port_range_ok s :
  (0 < internal_api_port s)%N -> (0 < local_web_port s)%N ->
  (0 < webhook_port s)%N -> (0 < websocket_port s)%N ->
  validate_port_range s = Ok ().
Proof.
  intros H1 H2 H3 H4. unfold validate_port_range. cbn [list_find snd].
  by rewrite !(proj2 (N.eqb_neq _ _)) by lia.
Qed.

Lemma normalize_ports_pos s :
  (0 < internal_api_port (normalize_runtime_settings s))%N /\
  (0 < local_web_port (normalize_runtime_settings s))%N /\
  (0 < webhook_port (normalize_runtime_settings s))%N /\
  (0 < websocket_port (normalize_runtime_settings s))%N.
Proof. split_and!; by apply if_zero_pos. Qed.

Lemma normalize_public s :
  is_public_bind_host (internal_api_host (normalize_runtime_settings s)) = true ->
  internal_api_allow_public_network (normalize_runtime_settings s) = true /\
  internal_api_cors_enabled (normalize_runtime_settings s) = true.
Proof. cbn -[is_public_bind_host]. intros H. by rewrite H. Qed.

Lemma docs_url_not_blank s p : blank (normalized_base_url s ++ p) = false.
Proof. done. Qed.

Lemma normalize_runnable s : ports_u16 s -> runnable (normalize_runtime_settings s).
Proof.
  intros Hp. unfold ports_u16 in Hp. rewrite !Forall_cons in Hp.
  destruct Hp as (P1 & P2 & P3 & P4 & _).
  destruct (normalize_ports_pos s) as (Q1 & Q2 & Q3 & Q4).
  split.
  - rewrite !Forall_cons. split_and!; try done; by apply if_zero_bound.
  - rewrite !Forall_cons. split_and!; try done; try (by apply if_blank_not_blank);
      by apply normalize_base_url_not_blank.
  - rewrite !Forall_cons. split_and!; try done; apply slash_path_slash.
  - apply N.le_max_l.
  - by apply if_zero_pos.
  - done.
  - done.
  - apply normalize_public.
Qed.

(** Whatever settings come from the database, the environment or a caller,
    normalisation makes them runnable, and the port-range check that follows
    it in [save_settings] always passes. *)
Theorem normalize_runtime_settings_runnable s :
  ports_u16 s ->
  runnable (normalize_runtime_settings s) /\
  validate_port_range (normalize_runtime_settings s) = Ok ().
Proof.
  intros Hp. split; [by apply normalize_runnable|].
  destruct (normalize_ports_pos s) as (Q1 & Q2 & Q3 & Q4). by apply validate_port_range_ok.
Qed.

(** The port table reports a conflict exactly when two active services are
    configured on one port: there is a warning for each repetition, the check
    that makes [save_settings] refuse agrees with them, and no port is ever
    moved, whatever the operating system answers to the probes. *)
Theorem build_ports_conflicts {W : Type} `{NW : NetWorld W} s (w w' : W) ports warnings :
  build_ports s w = ((ports, warnings), w') ->
  (warnings = [] <-> NoDup (active_ports s (port_items s))) /\
  (has_duplicate_configured_ports s ports = false <-> warnings = []) /\
  map configured_port ports
    = [internal_api_port s; local_web_port s; webhook_port s; websocket_port s] /\
  Forall (fun p => effective_port p = configured_port p /\ fallback_applied p = false) ports.
Proof.
  intros H. unfold build_ports in H. apply probe_ports_spec in H as [-> Hf].
  assert (forall l, map duplicate_warning l = [] <-> l = []) as Hmap by (by intros []).
  rewrite Hmap, duplicates_nil, any_duplicate_spec. split; [|split; [|split]].
  - split; [by intros [? _]|]. intros Hn. split; [done|]. apply Forall_forall.
    intros p _. apply not_elem_of_nil.
  - unfold has_duplicate_configured_ports. rewrite (active_ports_probed s _ _ Hf).
    by rewrite any_duplicate_spec.
  - cbn in Hf. repeat (apply Forall2_cons_inv_l in Hf as (? & ? & [? ->] & Hf & ->)).
    by apply Forall2_nil_inv_l in Hf as ->.
  - clear Hmap. induction Hf as [|x y l k [ok ->] _ IH]; by constructor.
Qed.
