(* ===== verification/EnvFile.v ===== *)
(** * The ".env" file of the console: what is written is read back

    Lemmas and theorems on [write_env_file], [load_env_file] and the default
    template of [runtime_config.rs]; their definitions are in
    [RuntimeSettings]. *)

From Stdlib Require Import Ascii.
From S2P Require Import Prelude RustStr NetAddr NetBind RuntimeSettings.

#[local] Open Scope string_scope.

(** ** Text lemmas *)

(** The bytes a white-space character can have. *)
Definition ws_byte (c : ascii) : bool := ws1 c || (128 <=? byte_of c)%N.

Lemma in_range_low c lo hi : ws_byte c = false -> (128 <= lo)%N -> in_range lo hi c = false.
Proof.
  unfold ws_byte, in_range. intros [_ H%N.leb_gt]%orb_false_iff Hlo.
  apply andb_false_iff. left. apply N.leb_gt. lia.
Qed.

Lemma ws1_low c : ws_byte c = false -> ws1 c = false.
Proof. by intros [H _]%orb_false_iff. Qed.

Lemma ws2_low c : ws_byte c = false -> (forall a, ws2 a c = false) /\ (forall a, ws2 c a = false).
Proof.
  intros Hc. split; intros a; unfold ws2; rewrite !(in_range_low c) by done; [|done].
  by rewrite andb_false_r.
Qed.

Lemma ws3_low c : ws_byte c = false ->
  (forall a b, ws3 a b c = false) /\ (forall a b, ws3 a c b = false) /\
  (forall a b, ws3 c a b = false).
Proof.
  intros Hc. split_and!; intros a b; unfold ws3; rewrite !(in_range_low c) by done;
    by rewrite ?andb_false_r.
Qed.

(** White space at the head of a text stops before any other byte. *)
Lemma ws_head_stop u c v r :
  ws_byte c = false -> ws_head (u ++ String c v) = Some r ->
  exists u', r = u' ++ String c v /\ String.length u' < String.length u.
Proof.
  intros Hc H. pose proof (ws1_low _ Hc) as H1.
  destruct (ws2_low c Hc) as [W1 W2]. destruct (ws3_low c Hc) as (W3 & W4 & W5).
  destruct u as [|a [|b [|d u]]]; rewrite ?app_cons, ?app_nil in H; unfold ws_head in H;
  rewrite ?H1, ?W1, ?W2, ?W3 in H.
  - destruct v as [|? []]; rewrite ?W2, ?W5 in H; done.
  - destruct (ws1 a); [|destruct v; rewrite ?W4 in H; done]. injection H as <-. exists "". split; [done|cbn; lia].
  - destruct (ws1 a).
    + injection H as <-. exists (String b ""). split; [done|cbn; lia].
    + destruct (ws2 a b); [|done]. injection H as <-. exists "". split; [done|cbn;lia].
  - repeat case_match; simplify_eq.
    + exists (String b (String d u)). split; [done|cbn; lia].
    + exists (String d u). split; [done|cbn; lia].
    + exists u. split; [done|cbn; lia].
Qed.

Lemma blank_stop u c v : ws_byte c = false -> blank (u ++ String c v) = false.
Proof.
  intros Hc. unfold blank. induction u as [u IH] using string_length_ind.
  rewrite trim_start_unfold. destruct (ws_head (u ++ String c v)) as [r|] eqn:E.
  - apply ws_head_stop in E as (u' & -> & Hl); [|done]. by apply IH.
  - by destruct u.
Qed.

Lemma blank_plain c v : ws_byte c = false -> blank (String c v) = false.
Proof. apply (blank_stop ""). Qed.

Lemma trim_end_stop u c v :
  ws_byte c = false -> trim_end (u ++ String c v) = u ++ String c (trim_end v).
Proof.
  intros Hc. induction u as [|a u IH]; rewrite ?app_cons, ?app_nil, trim_end_cons.
  - by rewrite blank_plain.
  - by rewrite <- app_cons, (blank_stop (String a u) c v Hc), IH.
Qed.

Lemma trim_end_plain k :
  forall_bytes (fun c => negb (ws_byte c)) k = true -> trim_end k = k.
Proof.
  induction k as [|c k IH]; [done|]. cbn [forall_bytes].
  intros [Hc%negb_true_iff Hk]%andb_true_iff.
  by rewrite trim_end_cons, blank_plain, IH.
Qed.

Lemma trim_start_plain c r : ws_byte c = false -> trim_start (String c r) = String c r.
Proof.
  intros H. apply trim_start_fix. pose proof (ws1_low _ H) as H1.
  unfold ws_head, ws2, ws3. rewrite H1, ?(in_range_low c) by done. by destruct r as [|? []].
Qed.

Lemma split_once_plain c k v :
  forall_bytes (fun a => negb (Ascii.eqb a c)) k = true ->
  split_once c (k ++ String c v) = (k, Some v).
Proof.
  induction k as [|a k IH]; rewrite ?app_nil, ?app_cons; cbn [split_once forall_bytes].
  - by rewrite Ascii.eqb_refl.
  - intros [Ha%negb_true_iff Hk]%andb_true_iff. by rewrite Ha, IH.
Qed.

(** A trimmed text does not end with a carriage return. *)
Lemma strip_cr_trimmed s : trim_end s = s -> strip_cr s = s.
Proof.
  unfold strip_cr. intros H. destruct (strip_suffix _ s) as [r|] eqn:E; [|done].
  apply strip_suffix_Some in E. subst s. exfalso. revert H.
  induction r as [|a r IH]; [done|]. rewrite app_cons, trim_end_cons.
  destruct (blank _); [done|]. intros H. apply IH. congruence.
Qed.

(** Lines, each with its line feed. *)
Definition unlines (ls : list string) : string :=
  String.concat "" (map (fun l => l ++ newline) ls).

Lemma concat_empty_cons x l : String.concat "" (x :: l) = x ++ String.concat "" l.
Proof. destruct l; [by rewrite string_app_nil_r|done]. Qed.

Lemma split_line l rest :
  forall_bytes (fun a => negb (Ascii.eqb a LF)) l = true ->
  split LF (l ++ String LF rest) = l :: split LF rest.
Proof.
  induction l as [|a l IH]; rewrite ?app_nil, ?app_cons; cbn [split forall_bytes]; [done|].
  intros [Ha%negb_true_iff Hl]%andb_true_iff. by rewrite Ha, IH.
Qed.

Lemma lines_unlines ls :
  Forall (fun l => forall_bytes (fun a => negb (Ascii.eqb a LF)) l = true /\ strip_cr l = l) ls ->
  lines (unlines ls) = ls.
Proof.
  intros H. assert (split LF (unlines ls) = app ls [""]) as Hs.
  { induction H as [|l ls [Hl _] _ IH]; [done|]. unfold unlines in *. cbn [map].
    rewrite concat_empty_cons. unfold newline at 1. rewrite string_app_assoc, app_cons, app_nil.
    by rewrite (split_line _ _ Hl), IH. }
  unfold lines. rewrite Hs. destruct (app ls [""]) eqn:E; [by destruct ls|].
  rewrite <- E, rev_app_distr. cbn [rev app]. rewrite rev_involutive.
  clear -H. induction H as [|l ls [_ Hl] _ IH]; [done|]. cbn [map]. by rewrite Hl, IH.
Qed.

(** ** One line *)

(** The keys are ASCII words, the values printable on one line with nothing
    that the reader trims. *)
Definition good_key (k : string) : bool :=
  negb (is_empty k) && negb (starts_with "#" k) &&
  forall_bytes (fun c => negb (ws_byte c) && negb (Ascii.eqb c "=") && negb (Ascii.eqb c LF)) k.

Definition clean_value (v : string) : bool :=
  forall_bytes (fun c => negb (Ascii.eqb c LF)) v && String.eqb (trim v) v &&
  String.eqb (trim_char DQUOTE v) v && String.eqb (trim_char SQUOTE v) v.

Lemma forall_bytes_app p s t : forall_bytes p (s ++ t) = forall_bytes p s && forall_bytes p t.
Proof.
  induction s as [|a s IH]; rewrite ?app_nil, ?app_cons; cbn [forall_bytes]; [done|].
  by rewrite IH, andb_assoc.
Qed.

Lemma clean_value_inv v :
  clean_value v = true ->
  forall_bytes (fun c => negb (Ascii.eqb c LF)) v = true /\ trim v = v /\ trim_end v = v /\
  trim_char DQUOTE v = v /\ trim_char SQUOTE v = v.
Proof.
  unfold clean_value. rewrite !andb_true_iff, !String.eqb_eq. intros (((H1 & H2) & H3) & H4).
  split_and!; try done. rewrite <- H2. unfold trim. by rewrite trim_end_idem.
Qed.

Section Line.
Context (k v : string) (Hk : good_key k = true) (Hv : clean_value v = true).

Lemma good_key_inv : exists c r, k = String c r /\ ws_byte c = false /\ Ascii.eqb c "#" = false /\
  forall_bytes (fun c => negb (ws_byte c)) k = true /\
  forall_bytes (fun c => negb (Ascii.eqb c "=")) k = true /\
  forall_bytes (fun c => negb (Ascii.eqb c LF)) k = true.
Proof.
  pose proof Hk as H. unfold good_key in H. rewrite !andb_true_iff in H. destruct H as [[H1 H2] H3].
  destruct k as [|c r] eqn:E; [done|]. exists c, r. split; [done|]. rewrite <- E in *.
  assert (ws_byte c = false) as Hc.
  { rewrite E in H3. cbn in H3. rewrite !andb_true_iff in H3. destruct H3 as [[[H3 _] _] _].
    by apply negb_true_iff in H3. }
  split_and!; [done| |eapply forall_bytes_impl, H3..].
  - rewrite E in H2. rewrite starts_with_cons in H2. destruct (Ascii.eqb_spec c "#"); [|done].
    subst. destruct (ascii_dec _ _); [|done]. by rewrite starts_with_nil in H2.
  - intros a. cbn. rewrite !andb_true_iff. by intros [[? ?] ?].
  - intros a. cbn. rewrite !andb_true_iff. by intros [[? ?] ?].
  - intros a. cbn. rewrite !andb_true_iff. by intros [[? ?] ?].
Qed.

Lemma env_line_trim_end : trim_end (env_line (k, v)) = env_line (k, v).
Proof.
  unfold env_line. cbn [fst snd]. rewrite app_cons, app_nil, trim_end_stop by done.
  destruct (clean_value_inv v Hv) as (_ & _ & H & _). by rewrite H.
Qed.

Lemma parse_env_line_ok : parse_env_line (env_line (k, v)) = Some (k, v).
Proof.
  destruct good_key_inv as (c & r & Ek & Hc & Hh & Hw & He & _).
  destruct (clean_value_inv v Hv) as (_ & Ht & _ & Hd & Hq).
  assert (env_line (k, v) = k ++ String "=" v) as El by done.
  assert (trim (env_line (k, v)) = env_line (k, v)) as Htr.
  { unfold trim. rewrite El, Ek, app_cons, trim_start_plain by done.
    rewrite <- app_cons, <- Ek, <- El. apply env_line_trim_end. }
  assert (contains "=" (env_line (k, v)) = true) as Hcon.
  { apply contains_spec. exists k, v. by rewrite El. }
  assert (trim k = k) as Hkt.
  { unfold trim. rewrite Ek, trim_start_plain by done. rewrite <- Ek. by apply trim_end_plain. }
  unfold parse_env_line. rewrite Htr, Hcon.
  assert (is_empty (env_line (k, v)) = false) as -> by (by rewrite El, Ek).
  assert (starts_with "#" (env_line (k, v)) = false) as ->.
  { rewrite El, Ek, app_cons, starts_with_cons. destruct (ascii_dec "#" c); [|done].
    subst. by rewrite Ascii.eqb_refl in Hh. }
  cbn [orb negb]. rewrite El, split_once_plain by done. cbn [unwrap_or].
  rewrite Hkt, Ht, Hd, Hq. by rewrite Ek.
Qed.

Lemma env_line_one_line :
  forall_bytes (fun a => negb (Ascii.eqb a LF)) (env_line (k, v)) = true /\
  strip_cr (env_line (k, v)) = env_line (k, v).
Proof.
  split; [|apply strip_cr_trimmed, env_line_trim_end].
  destruct good_key_inv as (_ & _ & _ & _ & _ & _ & _ & Hl).
  destruct (clean_value_inv v Hv) as (Hvl & _).
  unfold env_line. cbn [fst snd]. rewrite !forall_bytes_app, Hl, Hvl. done.
Qed.

End Line.

(** ** The whole file *)

Definition env_header : string := "# Tunnara Console - gerado pela tela Sistema e parâmetros".
Definition env_trailer : string :=
  "# Informe TUNNARA_CONSOLE_API_TOKEN via secret/env real em produção; não commite tokens.".

Lemma concat_map_app {A} (f : A -> string) (l : list A) (t : string) :
  String.concat "" (map f l) ++ t = String.concat "" (app (map f l) [t]).
Proof.
  induction l as [|x l IH]; [done|]. cbn [map app]. rewrite !concat_empty_cons.
  by rewrite string_app_assoc, IH.
Qed.

Lemma env_content_unlines s :
  env_content s = unlines (env_header :: app (map env_line (env_pairs s)) [env_trailer]).
Proof.
  unfold env_content, unlines. cbn [map]. rewrite concat_empty_cons, map_app, map_map. cbn [map].
  rewrite <- concat_map_app. rewrite !string_app_assoc. reflexivity.
Qed.

Lemma env_keys_good s : Forall (fun kv => good_key (fst kv) = true) (env_pairs s).
Proof. repeat constructor. Qed.

Lemma env_keys_distinct s : NoDup (map fst (env_pairs s)).
Proof.
  assert (map fst (env_pairs s) = map fst (env_pairs (settings_default ∅))) as -> by reflexivity.
  apply (bool_decide_unpack _). vm_compute. done.
Qed.

Definition clean_settings (s : RuntimeSettings) : bool :=
  forallb (fun kv => clean_value (snd kv)) (env_pairs s).

Lemma omap_env_lines kvs :
  Forall (fun kv => good_key (fst kv) = true /\ clean_value (snd kv) = true) kvs ->
  omap parse_env_line (map env_line kvs) = kvs.
Proof.
  induction 1 as [|[k v] kvs [Hk Hv] _ IH]; [done|]. cbn [map omap list_omap].
  by rewrite (parse_env_line_ok k v Hk Hv), IH.
Qed.

Lemma clean_pairs s :
  clean_settings s = true ->
  Forall (fun kv => good_key (fst kv) = true /\ clean_value (snd kv) = true) (env_pairs s).
Proof.
  intros Hc. pose proof (env_keys_good s) as Hk. rewrite Forall_forall in *.
  intros kv Hin. split; [by apply Hk|].
  unfold clean_settings in Hc. rewrite forallb_forall in Hc. apply Hc.
  by apply list_elem_of_In.
Qed.

Lemma omap_app {A B} (f : A -> option B) (l k : list A) :
  omap f (app l k) = app (omap f l) (omap f k).
Proof. induction l as [|x l IH]; [done|]. cbn. destruct (f x); cbn; by rewrite IH. Qed.

Lemma load_env_content s env :
  clean_settings s = true ->
  load_env_text (env_content s) env = foldl set_if_unset env (env_pairs s).
Proof.
  intros Hc. unfold load_env_text. f_equal. rewrite env_content_unlines, lines_unlines.
  - change (env_header :: app (map env_line (env_pairs s)) [env_trailer])
      with (app [env_header] (app (map env_line (env_pairs s)) [env_trailer])).
    rewrite !omap_app, omap_env_lines by by apply clean_pairs.
    assert (omap parse_env_line [env_header] = []) as -> by (vm_compute; reflexivity).
    assert (omap parse_env_line [env_trailer] = []) as -> by (vm_compute; reflexivity).
    by rewrite app_nil_r.
  - constructor; [by vm_compute|]. apply Forall_app. split; [|constructor; [by vm_compute|done]].
    apply Forall_map. eapply Forall_impl; [by apply clean_pairs|]. intros [k v] [Hk Hv].
    by apply env_line_one_line.
Qed.

Lemma lookup_set_if_unset env k v i :
  set_if_unset env (k, v) !! i = if decide (i = k) then Some (unwrap_or v (env !! k)) else env !! i.
Proof.
  unfold set_if_unset. cbn [fst snd]. destruct (env !! k) as [u|] eqn:E; cbn.
  - by destruct (decide (i = k)) as [->|].
  - destruct (decide (i = k)) as [->|Hne]; [by rewrite lookup_insert_eq|].
    by rewrite lookup_insert_ne.
Qed.

Lemma foldl_set_other kvs : forall env i,
  i ∉ map fst kvs -> foldl set_if_unset env kvs !! i = env !! i.
Proof.
  induction kvs as [|[k v] kvs IH]; intros env i Hi; [done|]. cbn [foldl map fst] in *.
  rewrite not_elem_of_cons in Hi. destruct Hi as [Hne Hi].
  rewrite IH by done. rewrite lookup_set_if_unset. by rewrite decide_False.
Qed.

Lemma foldl_set_if_unset kvs : forall env k v,
  NoDup (map fst kvs) -> (k, v) ∈ kvs ->
  foldl set_if_unset env kvs !! k = Some (unwrap_or v (env !! k)).
Proof.
  induction kvs as [|[k0 v0] kvs IH]; intros env k v Hn Hin; [by apply elem_of_nil in Hin|].
  cbn [map fst] in Hn. apply NoDup_cons in Hn as [Hni Hn]. cbn [foldl].
  apply elem_of_cons in Hin as [[= -> ->]|Hin].
  - rewrite foldl_set_other by done. rewrite lookup_set_if_unset. by rewrite decide_True.
  - rewrite (IH _ k v Hn Hin), lookup_set_if_unset. rewrite decide_False; [done|].
    intros ->. apply Hni. apply (list_elem_of_fmap_2 fst) in Hin. done.
Qed.

(** ** Settings from the variables of a file *)

Lemma settings_eta s : s = {|
  internal_api_host := internal_api_host s;
  internal_api_port := internal_api_port s;
  internal_api_base_url := internal_api_base_url s;
  internal_api_docs_url := internal_api_docs_url s;
  internal_api_auto_start := internal_api_auto_start s;
  internal_api_restart_on_config_change := internal_api_restart_on_config_change s;
  internal_api_require_token := internal_api_require_token s;
  internal_api_allow_public_network := internal_api_allow_public_network s;
  internal_api_cors_enabled := internal_api_cors_enabled s;
  internal_api_token_header := internal_api_token_header s;
  internal_api_token := internal_api_token s;
  internal_api_docs_public_local := internal_api_docs_public_local s;
  internal_api_open_scalar_after_start := internal_api_open_scalar_after_start s;
  internal_api_timeout_ms := internal_api_timeout_ms s;
  internal_api_log_mode := internal_api_log_mode s;
  internal_api_docs_enabled := internal_api_docs_enabled s;
  internal_api_docs_path := internal_api_docs_path s;
  local_web_enabled := local_web_enabled s;
  local_web_auto_start := local_web_auto_start s;
  local_web_host := local_web_host s;
  local_web_port := local_web_port s;
  auxiliary_host := auxiliary_host s;
  auxiliary_port := auxiliary_port s;
  bridge_core_host := bridge_core_host s;
  bridge_core_port := bridge_core_port s;
  webhook_enabled := webhook_enabled s;
  webhook_auto_start := webhook_auto_start s;
  webhook_host := webhook_host s;
  webhook_port := webhook_port s;
  webhook_base_path := webhook_base_path s;
  webhook_token_required := webhook_token_required s;
  webhook_token_header := webhook_token_header s;
  webhook_token := webhook_token s;
  webhook_allow_lan := webhook_allow_lan s;
  webhook_allow_external := webhook_allow_external s;
  websocket_enabled := websocket_enabled s;
  websocket_auto_start := websocket_auto_start s;
  websocket_host := websocket_host s;
  websocket_port := websocket_port s;
  websocket_path := websocket_path s;
  websocket_token_required := websocket_token_required s;
  websocket_token_query := websocket_token_query s;
  websocket_token_header := websocket_token_header s;
  websocket_token := websocket_token s;
  websocket_allow_lan := websocket_allow_lan s;
  websocket_allow_external := websocket_allow_external s;
  websocket_heartbeat_seconds := websocket_heartbeat_seconds s;
  tray_enabled := tray_enabled s;
  minimize_to_tray := minimize_to_tray s;
  close_to_tray := close_to_tray s;
  start_with_windows := start_with_windows s;
  services_auto_start := services_auto_start s;
  app_service_name := app_service_name s |}.
Proof. by destruct s. Qed.


(** The value a list of variables gives to a key. *)
Fixpoint assoc (k : string) (kvs : list (string * string)) : option string :=
  match kvs with
  | [] => None
  | (k', v) :: rest => if String.eqb k' k then Some v else assoc k rest
  end.

Lemma assoc_elem k kvs v : assoc k kvs = Some v -> (k, v) ∈ kvs.
Proof.
  induction kvs as [|[k' v'] kvs IH]; [done|]. cbn.
  destruct (String.eqb_spec k' k) as [->|_]; [intros [= ->]; by left|].
  intros H. right. by apply IH.
Qed.

Lemma env_string_at env k v d :
  env !! k = Some v -> blank v = false \/ v = d -> trim v = v -> env_string env k d = v.
Proof.
  intros H Hv Ht. unfold env_string. rewrite H. cbn.
  destruct (blank v) eqn:E; [|done]. by destruct Hv as [| ->].
Qed.

Lemma env_u16_at env k n d :
  env !! k = Some (show_N n) -> (0 < n <= U16_MAX)%N -> env_u16 env k d = n.
Proof.
  intros H [Hp Hn]. unfold env_u16. rewrite H. cbn. unfold parse_u16.
  rewrite (parse_show_uint _ _ Hn). cbn. apply N.ltb_lt in Hp. by rewrite Hp.
Qed.

Lemma env_u64_at env k n d :
  env !! k = Some (show_N n) -> (0 < n <= U64_MAX)%N -> env_u64 env k d = n.
Proof.
  intros H [Hp Hn]. unfold env_u64. rewrite H. cbn. unfold parse_u64.
  rewrite (parse_show_uint _ _ Hn). cbn. apply N.ltb_lt in Hp. by rewrite Hp.
Qed.

Lemma env_bool_at env k b d : env !! k = Some (show_bool b) -> env_bool env k d = b.
Proof. intros H. unfold env_bool. rewrite H. by destruct b. Qed.

Lemma load_env_assoc s k v :
  clean_settings s = true -> assoc k (env_pairs s) = Some v ->
  load_env_text (env_content s) ∅ !! k = Some v.
Proof.
  intros Hc Ha%assoc_elem. rewrite (load_env_content s ∅ Hc).
  rewrite (foldl_set_if_unset _ _ _ _ (env_keys_distinct s) Ha). by rewrite lookup_empty.
Qed.

(** ** Properties *)

(** The ".env" file the console writes reads back: when the values fit on
    one line and carry nothing the reader trims, loading the file gives every
    variable exactly the value written, except those the process already has,
    which it keeps; and it defines no other variable. *)
Theorem env_file_roundtrip s env :
  clean_settings s = true ->
  (forall k v, (k, v) ∈ env_pairs s ->
     load_env_text (env_content s) env !! k = Some (unwrap_or v (env !! k))) /\
  (forall k, k ∉ map fst (env_pairs s) -> load_env_text (env_content s) env !! k = env !! k).
Proof.
  intros Hc. rewrite (load_env_content s env Hc). split.
  - intros k v Hin. apply foldl_set_if_unset; [apply env_keys_distinct|done].
  - intros k Hk. by apply foldl_set_other.
Qed.

Lemma clean_assoc s k v :
  clean_settings s = true -> assoc k (env_pairs s) = Some v -> trim v = v.
Proof.
  intros Hc Ha%assoc_elem. pose proof (clean_pairs s Hc) as H. rewrite Forall_forall in H.
  destruct (H _ Ha) as [_ Hv]. by apply clean_value_inv in Hv as (_ & ? & _).
Qed.

Lemma trimmed_blank v : trim v = v -> blank v = false \/ v = "".
Proof.
  intros H. destruct (blank v) eqn:E; [|by left]. right. apply blank_trim in E. congruence.
Qed.

(** C4. A restart recovers the settings: for settings the console has normalised,
    with values fit for the file and the two 64-bit numbers in range, a fresh
    process whose environment comes from the written ".env" file alone starts
    with exactly those settings, all 53 fields. *)
Theorem env_file_restores_settings s :
  normalize_runtime_settings s = s ->
  clean_settings s = true ->
  ports_u16 s ->
  (internal_api_timeout_ms s <= U64_MAX)%N -> (websocket_heartbeat_seconds s <= U64_MAX)%N ->
  settings_default (load_env_text (env_content s) ∅) = s.
Proof.
  intros Hs Hc Hp Ht Hh.
  assert (forall k v, assoc k (env_pairs s) = Some v ->
    load_env_text (env_content s) ∅ !! k = Some v) as Hl by (intros k v; by apply load_env_assoc).
  pose proof (fun k v => clean_assoc s k v Hc) as Hclean.
  generalize dependent (load_env_text (env_content s) ∅). intros env Hl.
  pose proof (normalize_runnable s Hp) as [Rp Rt Rd Rm Rh [Ra1 Ra2] [Rb1 Rb2] _].
  rewrite Hs in *. rewrite !Forall_cons in Rp. rewrite !Forall_cons in Rt.
  rewrite !Forall_cons in Rd. destruct_and!.
  rewrite (settings_eta s) at 1. unfold settings_default. rewrite Ra1, Ra2, Rb1, Rb2.
  f_equal; match goal with
  | |- env_bool _ _ _ = _ => eapply env_bool_at, Hl; reflexivity
  | |- env_u16 _ _ _ = _ => eapply env_u16_at; [apply Hl; reflexivity|lia]
  | |- env_u64 _ _ _ = _ => eapply env_u64_at; [apply Hl; reflexivity|lia]
  | |- env_string _ ?k _ = _ =>
      eapply env_string_at; [apply Hl; reflexivity| |apply (Hclean k); reflexivity];
      auto using slash_not_blank; apply trimmed_blank, (Hclean k); reflexivity
  end.
Qed.

(** The template a first start writes agrees with the built-in defaults: a
    process that loads it into an empty environment gets the settings of a
    process with no environment at all. *)
Theorem default_template_is_default :
  settings_default (load_env_text default_env_template ∅) = settings_default ∅.
Proof. vm_compute. reflexivity. Qed.
