(* ===== verification/ServiceConfigs.v ===== *)
(** * Configurations of the console's servers

    [internal_api/config.rs], [native_webhook/config.rs] and
    [native_websocket/config.rs]: what each server reads from the runtime
    settings, the checks before a bind and the URLs shown to clients. *)

From Stdlib Require Import Ascii.
From S2P Require Import Prelude RustStr NetAddr NetBind RuntimeSettings.

#[local] Open Scope string_scope.

(** ** The internal API *)

(*| src-tauri/src/internal_api/config.rs 5-15 InternalApiSecurityConfig *)
Record InternalApiSecurityConfig : Type := {
  sec_bind_host : string;
  sec_allow_public_network : bool;
  sec_require_token : bool;
  sec_token_header : string;
  sec_token : option string;
  sec_cors_enabled : bool;
  sec_docs_public : bool;
  sec_docs_public_local : bool;
}.

(*| src-tauri/src/internal_api/config.rs 17-22 InternalApiDocsConfig *)
Record InternalApiDocsConfig : Type := {
  docs_enabled : bool;
  docs_path : string;
  docs_public_url : option string;
}.

(*| src-tauri/src/internal_api/config.rs 24-38 InternalApiConfig *)
Record InternalApiConfig : Type := {
  ia_enabled : bool;
  ia_auto_start : bool;
  ia_host : string;
  ia_port : N;
  ia_base_url : string;
  ia_timeout_ms : N;
  ia_log_mode : string;
  ia_open_scalar_after_start : bool;
  ia_restart_on_config_change : bool;
  ia_expose_docs : bool;
  ia_docs : InternalApiDocsConfig;
  ia_security : InternalApiSecurityConfig;
}.

(*| src-tauri/src/internal_api/config.rs 182-192 normalize_docs_path *)
Definition normalize_docs_path (path : string) : string :=
  let trimmed := trim path in
  if is_empty trimmed then "/docs"
  else if starts_with "/" trimmed then trimmed
  else "/" ++ trimmed.

(*| src-tauri/src/internal_api/config.rs 170-176 derived_docs_url *)
Definition derived_docs_url (base_url docs_path : string) : string :=
  trim_end_char "/" base_url ++ normalize_docs_path docs_path.

(*| src-tauri/src/internal_api/config.rs 178-180 normalize_url *)
Definition normalize_url (url : string) : string := trim_end_char "/" (trim url).

(*| src-tauri/src/internal_api/config.rs 194-196 is_local_access_host *)
Definition is_local_access_host (host : string) : bool :=
  bool_decide (trim host ∈ ["127.0.0.1"; "localhost"; "::1"; "[::1]"; "0.0.0.0"; "::"; "[::]"]).

(** [env::var(key).unwrap_or_else(..)]: an empty value counts. *)
Definition env_or (env : Env) (key default : string) : string := unwrap_or default (env !! key).
(** [env::var(key).ok().filter(|v| !v.trim().is_empty())] *)
Definition env_filled (env : Env) (key : string) : option string :=
  opt_filter (fun v => negb (blank v)) (env !! key).

(*| src-tauri/src/internal_api/config.rs 40-101 InternalApiConfig::default *)
Definition internal_api_default (env : Env) : InternalApiConfig :=
  let host := env_or env "TUNNARA_CONSOLE_API_HOST" "127.0.0.1" in
  let port := unwrap_or 61001%N (env !! "TUNNARA_CONSOLE_API_PORT" ≫= parse_u16) in
  let path := normalize_docs_path (env_or env "TUNNARA_CONSOLE_API_DOCS_PATH" "/docs") in
  let expose_docs := env_bool env "TUNNARA_CONSOLE_API_SCALAR_ENABLED" true
                     && env_bool env "TUNNARA_CONSOLE_API_EXPOSE_DOCS" true in
  let base_url := unwrap_or ("http://" ++ host ++ ":" ++ show_N port)
                    (env_filled env "TUNNARA_CONSOLE_API_BASE_URL") in
  let docs_url := opt_filter (fun v => negb (contains "127.0.0.1:61001" v))
                    (env_filled env "TUNNARA_CONSOLE_API_SCALAR_URL") in
  {| ia_enabled := true;
     ia_auto_start := env_bool env "TUNNARA_CONSOLE_API_AUTO_START" false;
     ia_host := host;
     ia_port := port;
     ia_base_url := base_url;
     ia_timeout_ms := env_u64 env "TUNNARA_CONSOLE_API_TIMEOUT_MS" 8000;
     ia_log_mode := env_or env "TUNNARA_CONSOLE_API_LOG_MODE" "normal";
     ia_open_scalar_after_start :=
       env_bool env "TUNNARA_CONSOLE_API_OPEN_SCALAR_AFTER_START" false;
     ia_restart_on_config_change :=
       env_bool env "TUNNARA_CONSOLE_API_RESTART_ON_CONFIG_CHANGE" true;
     ia_expose_docs := expose_docs;
     ia_docs := {|
       docs_enabled := expose_docs;
       docs_path := path;
       docs_public_url := opt_filter
         (fun url => negb (String.eqb (normalize_url url) (derived_docs_url base_url path)))
         docs_url |};
     ia_security := {|
       sec_bind_host := host;
       sec_allow_public_network :=
         env_bool env "TUNNARA_CONSOLE_API_ALLOW_PUBLIC_NETWORK" false;
       sec_require_token := env_bool env "TUNNARA_CONSOLE_API_REQUIRE_TOKEN" false;
       sec_token_header := env_or env "TUNNARA_CONSOLE_API_TOKEN_HEADER" "X-App-Token";
       sec_token := env_filled env "TUNNARA_CONSOLE_API_TOKEN";
       sec_cors_enabled := env_bool env "TUNNARA_CONSOLE_API_CORS" false;
       sec_docs_public := env_bool env "TUNNARA_CONSOLE_API_DOCS_PUBLIC" false;
       sec_docs_public_local := env_bool env "TUNNARA_CONSOLE_API_DOCS_PUBLIC_LOCAL" true |} |}.

(*| src-tauri/src/internal_api/config.rs 132-139 InternalApiConfig::with_host_port *)
Definition ia_with_host_port (config : InternalApiConfig) (host : string) (port : N) :
    InternalApiConfig := {|
  ia_enabled := ia_enabled config;
  ia_auto_start := ia_auto_start config;
  ia_host := host;
  ia_port := port;
  ia_base_url := "http://" ++ public_url_host host ++ ":" ++ show_N port;
  ia_timeout_ms := ia_timeout_ms config;
  ia_log_mode := ia_log_mode config;
  ia_open_scalar_after_start := ia_open_scalar_after_start config;
  ia_restart_on_config_change := ia_restart_on_config_change config;
  ia_expose_docs := ia_expose_docs config;
  ia_docs := ia_docs config;
  ia_security := {|
    sec_bind_host := host;
    sec_allow_public_network := sec_allow_public_network (ia_security config);
    sec_require_token := sec_require_token (ia_security config);
    sec_token_header := sec_token_header (ia_security config);
    sec_token := sec_token (ia_security config);
    sec_cors_enabled := sec_cors_enabled (ia_security config);
    sec_docs_public := sec_docs_public (ia_security config);
    sec_docs_public_local := sec_docs_public_local (ia_security config) |} |}.

(** The fields [from_runtime_settings] assigns after [default] and
    [with_host_port]; [enabled] and [docs_public] stay from the environment. *)
(*| src-tauri/src/internal_api/config.rs 104-130 InternalApiConfig::from_runtime_settings *)
Definition ia_from_runtime_settings (env : Env) (s : RuntimeSettings) : InternalApiConfig :=
  let config := ia_with_host_port (internal_api_default env)
                  (internal_api_host s) (internal_api_port s) in
  let path := normalize_docs_path (internal_api_docs_path s) in
  {| ia_enabled := ia_enabled config;
     ia_auto_start := internal_api_auto_start s;
     ia_host := ia_host config;
     ia_port := ia_port config;
     ia_base_url := internal_api_base_url s;
     ia_timeout_ms := internal_api_timeout_ms s;
     ia_log_mode := internal_api_log_mode s;
     ia_open_scalar_after_start := internal_api_open_scalar_after_start s;
     ia_restart_on_config_change := internal_api_restart_on_config_change s;
     ia_expose_docs := internal_api_docs_enabled s;
     ia_docs := {|
       docs_enabled := internal_api_docs_enabled s;
       docs_path := path;
       docs_public_url := bool_then
         (negb (blank (internal_api_docs_url s)) &&
          negb (String.eqb (normalize_url (internal_api_docs_url s))
                  (derived_docs_url (internal_api_base_url s) path)))
         (trim (internal_api_docs_url s)) |};
     ia_security := {|
       sec_bind_host := sec_bind_host (ia_security config);
       sec_allow_public_network := internal_api_allow_public_network s;
       sec_require_token := internal_api_require_token s;
       sec_token_header := internal_api_token_header s;
       sec_token := bool_then (negb (blank (internal_api_token s))) (internal_api_token s);
       sec_cors_enabled := internal_api_cors_enabled s;
       sec_docs_public := sec_docs_public (ia_security config);
       sec_docs_public_local := internal_api_docs_public_local s |} |}.

(*| src-tauri/src/internal_api/config.rs 141-146 InternalApiConfig::docs_url *)
Definition ia_docs_url (config : InternalApiConfig) : string :=
  unwrap_or (derived_docs_url (ia_base_url config) (docs_path (ia_docs config)))
    (docs_public_url (ia_docs config)).

(*| src-tauri/src/internal_api/config.rs 148-150 InternalApiConfig::docs_are_public_for_current_bind *)
Definition docs_are_public_for_current_bind (config : InternalApiConfig) : bool :=
  sec_docs_public (ia_security config)
  || (sec_docs_public_local (ia_security config) && is_local_access_host (ia_host config)).

(*| src-tauri/src/internal_api/config.rs 152-159 InternalApiConfig::validate_bind *)
Definition ia_validate_bind (config : InternalApiConfig) : result string unit :=
  let is_public := bool_decide (trim (ia_host config) ∈ ["0.0.0.0"; "::"; "[::]"]) in
  if is_public && negb (sec_allow_public_network (ia_security config))
  then Err "API interna bloqueada: bind público exige TUNNARA_CONSOLE_API_ALLOW_PUBLIC_NETWORK=true."
  else Ok ().

(** ** Paths and hosts of the two event services *)

(** [native_webhook::config::normalize_path] and
    [native_websocket::config::normalize_path], which differ in the default. *)
Definition normalize_service_path (default path : string) : string :=
  let trimmed := trim path in
  if is_empty trimmed then default
  else if starts_with "/" trimmed then trim_end_char "/" trimmed
  else "/" ++ trim_end_char "/" trimmed.

(*| src-tauri/src/native_webhook/config.rs 83-93 normalize_path *)
Definition webhook_normalize_path : string -> string := normalize_service_path "/webhooks".
(*| src-tauri/src/native_websocket/config.rs 89-99 normalize_path *)
Definition websocket_normalize_path : string -> string := normalize_service_path "/ws".

Definition service_public_host (host : string) : string :=
  if decide (host ∈ ["0.0.0.0"; "::"; "[::]"]) then "127.0.0.1" else host.

Definition service_validate_bind (service host : string) (port : N) : result string unit :=
  let trimmed := trim host in
  if is_empty trimmed then Err ("Host do " ++ service ++ " não pode ficar vazio.")
  else if (port =? 0)%N then Err ("Porta do " ++ service ++ " deve estar entre 1 e 65535.")
  else match parse_socket_addr (trimmed ++ ":" ++ show_N port) with
       | Some _ => Ok ()
       | None => Err ("Endereço do " ++ service ++ " inválido: " ++ addr_parse_error)
       end.

(** ** The webhook service *)

(*| src-tauri/src/native_webhook/config.rs 7-18 WebhookConfig *)
Record WebhookConfig : Type := {
  wh_enabled : bool;
  wh_host : string;
  wh_port : N;
  wh_base_path : string;
  wh_token_required : bool;
  wh_token_header : string;
  wh_token : string;
  wh_allow_lan : bool;
  wh_allow_external : bool;
}.
#[export] Instance WebhookConfig_eq_dec : EqDecision WebhookConfig.
Proof. solve_decision. Defined.

(*| src-tauri/src/native_webhook/config.rs 20-34 WebhookConfig::default *)
Definition webhook_default : WebhookConfig := {|
  wh_enabled := false; wh_host := "0.0.0.0"; wh_port := 61003; wh_base_path := "/webhooks";
  wh_token_required := true; wh_token_header := "X-Webhook-Token"; wh_token := "";
  wh_allow_lan := true; wh_allow_external := false |}.

(*| src-tauri/src/native_webhook/config.rs 37-49 WebhookConfig::from_runtime_settings *)
Definition wh_from_runtime_settings (s : RuntimeSettings) : WebhookConfig := {|
  wh_enabled := webhook_enabled s;
  wh_host := webhook_host s;
  wh_port := webhook_port s;
  wh_base_path := webhook_normalize_path (webhook_base_path s);
  wh_token_required := webhook_token_required s;
  wh_token_header := webhook_token_header s;
  wh_token := webhook_token s;
  wh_allow_lan := webhook_allow_lan s;
  wh_allow_external := webhook_allow_external s |}.

(*| src-tauri/src/native_webhook/config.rs 51-55 WebhookConfig::with_host_port *)
Definition wh_with_host_port (c : WebhookConfig) (host : string) (port : N) : WebhookConfig := {|
  wh_enabled := wh_enabled c; wh_host := host; wh_port := port;
  wh_base_path := wh_base_path c; wh_token_required := wh_token_required c;
  wh_token_header := wh_token_header c; wh_token := wh_token c;
  wh_allow_lan := wh_allow_lan c; wh_allow_external := wh_allow_external c |}.

(*| src-tauri/src/native_webhook/config.rs 57-69 WebhookConfig::validate_bind *)
Definition wh_validate_bind (c : WebhookConfig) : result string unit :=
  service_validate_bind "Webhook Service" (wh_host c) (wh_port c).

(*| src-tauri/src/native_webhook/config.rs 71-76 WebhookConfig::public_host *)
Definition wh_public_host (c : WebhookConfig) : string := service_public_host (wh_host c).

(*| src-tauri/src/native_webhook/config.rs 78-80 WebhookConfig::url *)
Definition wh_url (c : WebhookConfig) : string :=
  "http://" ++ wh_public_host c ++ ":" ++ show_N (wh_port c).

(** ** The WebSocket service *)

(*| src-tauri/src/native_websocket/config.rs 7-20 WebSocketConfig *)
Record WebSocketConfig : Type := {
  ws_enabled : bool;
  ws_host : string;
  ws_port : N;
  ws_path : string;
  ws_token_required : bool;
  ws_token_query : string;
  ws_token_header : string;
  ws_token : string;
  ws_allow_lan : bool;
  ws_allow_external : bool;
  ws_heartbeat_seconds : N;
}.
#[export] Instance WebSocketConfig_eq_dec : EqDecision WebSocketConfig.
Proof. solve_decision. Defined.

(*| src-tauri/src/native_websocket/config.rs 22-38 WebSocketConfig::default *)
Definition websocket_default : WebSocketConfig := {|
  ws_enabled := false; ws_host := "0.0.0.0"; ws_port := 61004; ws_path := "/ws";
  ws_token_required := true; ws_token_query := "token"; ws_token_header := "X-WebSocket-Token";
  ws_token := ""; ws_allow_lan := true; ws_allow_external := false; ws_heartbeat_seconds := 30 |}.

(*| src-tauri/src/native_websocket/config.rs 41-55 WebSocketConfig::from_runtime_settings *)
Definition ws_from_runtime_settings (s : RuntimeSettings) : WebSocketConfig := {|
  ws_enabled := websocket_enabled s;
  ws_host := websocket_host s;
  ws_port := websocket_port s;
  ws_path := websocket_normalize_path (websocket_path s);
  ws_token_required := websocket_token_required s;
  ws_token_query := websocket_token_query s;
  ws_token_header := websocket_token_header s;
  ws_token := websocket_token s;
  ws_allow_lan := websocket_allow_lan s;
  ws_allow_external := websocket_allow_external s;
  ws_heartbeat_seconds := websocket_heartbeat_seconds s |}.

(*| src-tauri/src/native_websocket/config.rs 57-61 WebSocketConfig::with_host_port *)
Definition ws_with_host_port (c : WebSocketConfig) (host : string) (port : N) :
    WebSocketConfig := {|
  ws_enabled := ws_enabled c; ws_host := host; ws_port := port; ws_path := ws_path c;
  ws_token_required := ws_token_required c; ws_token_query := ws_token_query c;
  ws_token_header := ws_token_header c; ws_token := ws_token c;
  ws_allow_lan := ws_allow_lan c; ws_allow_external := ws_allow_external c;
  ws_heartbeat_seconds := ws_heartbeat_seconds c |}.

(*| src-tauri/src/native_websocket/config.rs 63-75 WebSocketConfig::validate_bind *)
Definition ws_validate_bind (c : WebSocketConfig) : result string unit :=
  service_validate_bind "WebSocket Service" (ws_host c) (ws_port c).

(*| src-tauri/src/native_websocket/config.rs 77-82 WebSocketConfig::public_host *)
Definition ws_public_host (c : WebSocketConfig) : string := service_public_host (ws_host c).

(*| src-tauri/src/native_websocket/config.rs 84-86 WebSocketConfig::url *)
Definition ws_url (c : WebSocketConfig) : string :=
  "ws://" ++ ws_public_host c ++ ":" ++ show_N (ws_port c) ++ ws_path c.

(** ** Properties *)

Lemma trim_end_char_all c s : trim_end_char c s = "" <-> forall_bytes (fun a => Ascii.eqb a c) s = true.
Proof.
  induction s as [|a s IH]; [done|]. cbn.
  destruct (trim_end_char c s) as [|b r] eqn:E.
  - destruct (Ascii.eqb a c); cbn; [|done]. by rewrite <- IH.
  - split; [done|]. intros [_ H]%andb_true_iff. apply IH in H. done.
Qed.

Lemma trim_end_char_head c s a r : trim_end_char c s = String a r -> exists t, s = String a t.
Proof. intros H. destruct (trim_end_char_prefix c s) as [t Ht]. rewrite H in Ht. eauto. Qed.

Lemma last_byte_cons a s : s <> "" -> last_byte (String a s) = last_byte s.
Proof. by destruct s. Qed.

(** The path a service is mounted on never ends with a slash, and it starts
    with one unless it is empty; it is empty exactly when the configured path
    is made of slashes only, so "/" does not mean the root of the service. *)
Theorem service_path_shape default path :
  starts_with "/" default = true -> last_byte default <> Some "/"%char ->
  let p := normalize_service_path default path in
  (p = "" <-> trim path <> "" /\ forall_bytes (fun a => Ascii.eqb a "/") (trim path) = true) /\
  (p = "" \/ starts_with "/" p = true) /\
  last_byte p <> Some "/"%char.
Proof.
  intros Hd Hl. cbv zeta. unfold normalize_service_path. set (t := trim path).
  destruct (is_empty t) eqn:Ee.
  { apply is_empty_spec in Ee. rewrite Ee. split_and!; [|by right|done].
    split; [intros ->; done|by intros [? _]]. }
  assert (t <> "") as Hne by (by intros E; rewrite E in Ee).
  destruct (starts_with "/" t) eqn:Es.
  - split_and!; [|destruct (trim_end_char "/" t) as [|a r] eqn:E; [by left|right]
      |apply trim_end_char_last].
    + rewrite trim_end_char_all. split; [done|by intros [_ ?]].
    + apply trim_end_char_head in E as [u Hu]. rewrite Hu in Es. rewrite starts_with_cons in *.
      destruct (ascii_dec "/" a); [apply starts_with_nil|done].
  - assert (trim_end_char "/" t <> "") as Hn.
    { rewrite trim_end_char_all. destruct t as [|a r]; [done|]. cbn.
      rewrite starts_with_cons in Es. destruct (ascii_dec "/" a) as [|Hna];
        [by rewrite starts_with_nil in Es|]. destruct (Ascii.eqb_spec a "/"); [congruence|done]. }
    rewrite app_cons, app_nil. split_and!.
    + split; [done|]. intros [_ H]. by apply trim_end_char_all in H.
    + right. rewrite starts_with_cons. destruct (ascii_dec "/" "/"); [apply starts_with_nil|done].
    + rewrite last_byte_cons by done. apply trim_end_char_last.
Qed.

(** The public-bind guard of the internal API never refuses a configuration
    that comes from the runtime settings: normalisation has already switched
    on the permission the guard asks the operator for, whatever the settings
    and the environment said. *)
Theorem public_bind_guard_vacuous env s port :
  let n := normalize_runtime_settings s in
  ia_validate_bind (ia_with_host_port (ia_from_runtime_settings env n) (internal_api_host n) port)
  = Ok ().
Proof.
  cbv zeta. set (n := normalize_runtime_settings s). unfold ia_validate_bind.
  cbn [ia_with_host_port ia_host ia_security sec_allow_public_network ia_from_runtime_settings].
  destruct (bool_decide _) eqn:E; [|done]. cbn [andb].
  destruct (normalize_public s) as [H _]; [exact E|]. fold n in H. by rewrite H.
Qed.

(** The check before a bind: it accepts a host that is not blank with a port
    other than 0 when the two make an address. "localhost" does not, at any
    port, although the listener code it protects would take it for the
    loopback address. *)
Theorem service_validate_bind_spec service host port :
  (service_validate_bind service host port = Ok () <->
     blank host = false /\ port <> 0%N /\
     is_Some (parse_socket_addr (trim host ++ ":" ++ show_N port))) /\
  is_ok (service_validate_bind service "localhost" port) = false /\
  ((port <= U16_MAX)%N ->
   parse_addr (normalize_bind_host "localhost") port = Ok (SocketAddrV4 [127; 0; 0; 1]%N port)).
Proof.
  split_and!.
  - unfold service_validate_bind. rewrite is_empty_trim.
    destruct (blank host); [split; [done|by intros [? _]]|].
    destruct (N.eqb_spec port 0) as [->|Hp]; [split; [done|by intros (_ & ? & _)]|].
    destruct (parse_socket_addr _) as [a|] eqn:E.
    + split; [intros _|done]. split; [done|]. split; [done|]. by eexists.
    + split; [discriminate|]. intros (_ & _ & [x Hx]). discriminate.
  - unfold service_validate_bind. change (trim "localhost") with "localhost". cbn [is_empty].
    destruct (port =? 0)%N; [done|]. by rewrite !app_cons.
  - intros Hp. pose proof (parse_show_v4 127 0 0 1 port ltac:(done) ltac:(done) ltac:(done)
      ltac:(done) Hp) as H.
    change (show_ipv4 [127; 0; 0; 1]%N) with "127.0.0.1" in H.
    change (normalize_bind_host "localhost") with "127.0.0.1". unfold parse_addr. by rewrite H.
Qed.
