(* ===== verification/RuntimeStore.v ===== *)
(** * Loading and saving the runtime settings

    The effectful half of [runtime_config.rs]: where the ".env" file is, its
    creation on a first start, the settings row of the local database, and the
    configurations the servers get. The state is the process environment and
    the outside world [W]; files, SQLite, the clock and serde_json's text of a
    settings value are the class [ConsoleOs]. *)

From Stdlib Require Import Ascii.
From S2P Require Import Prelude RustStr NetAddr NetBind RuntimeSettings ServiceConfigs.

#[local] Open Scope string_scope.

(** ** Outside interface *)

(*| src-tauri/src/app_state.rs 10-14 AppContext *)
Record AppContext : Type := { ctx_data_dir : string; ctx_db_path : string }.
(** The content of the lock of [SharedState]. *)
(*| src-tauri/src/app_state.rs 21-24 SharedState *)
Definition SharedState : Type := option AppContext.

Class ConsoleOs (W : Type) : Type := {
  os_exists : string -> St W bool;
  os_create_dir_all : string -> St W (result string unit);
  os_write : string -> string -> St W (result string unit);
  os_read_to_string : string -> St W (result string string);
  (** open for writing, created and truncated *)
  os_file : Type;
  os_open_truncate : string -> St W (result string os_file);
  os_write_all : os_file -> string -> St W (result string unit);
  dirs_config_local_dir : W -> option string;
  os_current_dir : W -> option string;
  (** SQLite: [open_connection], then the SELECT and the INSERT OR REPLACE of
      the row 'runtime.settings' *)
  db_conn : Type;
  db_open : string -> St W (result string db_conn);
  db_select_settings : db_conn -> St W (result string (option string));
  db_replace_settings : db_conn -> string -> string -> St W (result string unit);
  utc_now_rfc3339 : St W string;
  settings_to_json : RuntimeSettings -> result string string;
  (** missing members come from [RuntimeSettings::default], hence the
      environment *)
  settings_of_json : Env -> string -> result string RuntimeSettings;
}.

Section Store.
Context {W : Type} `{OS : ConsoleOs W} `{NW : NetWorld W}.

(** The process: its environment and the world outside. *)
Definition proc : Type := Env * W.
Definition os {A} (c : St W A) : St proc A := fun p =>
  let '(a, w) := c (snd p) in (a, (fst p, w)).
Definition with_env (f : Env -> Env) : St proc unit := fun p => ((), (f (fst p), snd p)).
Definition get_env : St proc Env := fun p => (fst p, p).

Definition ENV_FILE_NAME : string := ".env".

(*| src-tauri/src/runtime_config.rs 260-276 env_file_path *)
Definition env_file_path (state : option SharedState) (p : proc) : result string string :=
  let from_env := opt_filter (fun v => negb (blank v)) (fst p !! "TUNNARA_CONSOLE_ENV_FILE") in
  match from_env with
  | Some path => Ok (trim path)
  | None =>
      match state with
      | Some (Some ctx) => Ok (path_join (ctx_data_dir ctx) ENV_FILE_NAME)
      | _ =>
          match or_else (dirs_config_local_dir (snd p)) (os_current_dir (snd p)) with
          | Some config_dir => Ok (path_join (path_join config_dir "tunnara_console") ENV_FILE_NAME)
          | None => Err "Não foi possível resolver diretório para .env."
          end
      end
  end.

(*| src-tauri/src/runtime_config.rs 235-258 load_env_file *)
Definition load_env_file (path : string) : St proc (result string unit) :=
  present ← os (os_exists path);
  if (present : bool) then
    raw ← os (os_read_to_string path);
    match raw with
    | Err err => mret (Err ("Falha ao ler .env: " ++ err))
    | Ok text => _ ← with_env (load_env_text text); mret (Ok ())
    end
  else mret (Ok ()).

(** Create the parent directory, when the path has one. *)
Definition create_parent (path : string) : St proc (result string unit) :=
  match path_parent path with
  | Some parent =>
      r ← os (os_create_dir_all parent);
      mret (map_err (fun err => "Falha ao criar diretório do .env: " ++ err) r)
  | None => mret (Ok ())
  end.

(*| src-tauri/src/runtime_config.rs 221-233 init_env_file *)
Definition init_env_file (state : option SharedState) : St proc (result string string) := fun p =>
  match env_file_path state p with
  | Err e => (Err e, p)
  | Ok path =>
      try (present ← os (os_exists path);
           if (present : bool) then mret (Ok ())
           else try (create_parent path) (fun _ =>
             r ← os (os_write path default_env_template);
             mret (map_err (fun err => "Falha ao criar .env padrão em " ++ path ++ ": " ++ err) r)))
        (fun _ => try (load_env_file path) (fun _ => mret (Ok path))) p
  end.

(*| src-tauri/src/runtime_config.rs 422-547 write_env_file *)
Definition write_env_file (path : string) (s : RuntimeSettings) : St proc (result string unit) :=
  try (create_parent path) (fun _ =>
  opened ← os (os_open_truncate path);
  match opened with
  | Err err => mret (Err ("Falha ao abrir .env para escrita: " ++ err))
  | Ok file =>
      r ← os (os_write_all file (env_content s));
      mret (map_err (fun err => "Falha ao escrever .env: " ++ err) r)
  end).

(*| src-tauri/src/runtime_config.rs 141-147 RuntimeSettingsPayload *)
Record RuntimeSettingsPayload : Type := {
  payload_env_path : string;
  payload_settings : RuntimeSettings;
  payload_ports : list RuntimeServicePort;
  payload_warnings : list string;
}.

(** [SharedState::db_path] *)
(*| src-tauri/src/app_state.rs 70-80 SharedState::db_path *)
Definition state_db_path (state : SharedState) : result string string :=
  match state with
  | Some ctx => Ok (ctx_db_path ctx)
  | None => Err "Aplicação ainda não inicializada."
  end.

(** The database path and a connection to it. *)
Definition open_state_db (state : SharedState) : St proc (result string db_conn) :=
  match state_db_path state with
  | Err e => mret (Err e)
  | Ok db_path => os (db_open db_path)
  end.

(** The settings a row of the database holds: the defaults when there is no
    row or it is blank. *)
(*| src-tauri/src/runtime_config.rs 280-296 load_settings *)
Definition settings_of_row (env : Env) (row : option string) : result string RuntimeSettings :=
  match row with
  | Some raw =>
      if blank raw then Ok (settings_default env)
      else map_err (fun err => "Configuração runtime inválida no banco: " ++ err)
             (settings_of_json env raw)
  | None => Ok (settings_default env)
  end.

(** [RuntimeSettings::default] is evaluated before the database is read; no
    step in between changes the environment. *)
(*| src-tauri/src/runtime_config.rs 278-305 load_settings *)
Definition load_settings (state : SharedState) : St proc (result string RuntimeSettingsPayload) :=
  try (init_env_file (Some state)) (fun env_path =>
  env ← get_env;
  try (open_state_db state) (fun conn =>
  row ← os (db_select_settings conn);
  match row with
  | Err err => mret (Err ("Falha ao ler configurações runtime: " ++ err))
  | Ok row =>
      match settings_of_row env row with
      | Err e => mret (Err e)
      | Ok s =>
          let s := normalize_runtime_settings s in
          built ← os (build_ports s);
          mret (Ok {| payload_env_path := env_path; payload_settings := s;
                      payload_ports := fst built; payload_warnings := snd built |})
      end
  end)).

Definition port_conflict : string :=
  "Há portas configuradas em conflito entre serviços ativos. Ajuste antes de salvar.".

(** The writes of [save_settings], once the settings are accepted. *)
(*| src-tauri/src/runtime_config.rs 318-335 save_settings *)
Definition persist_settings (state : SharedState) (env_path : string) (s : RuntimeSettings)
    (built : list RuntimeServicePort * list string) : St proc (result string RuntimeSettingsPayload) :=
  now ← os utc_now_rfc3339;
  try (open_state_db state) (fun conn =>
  match settings_to_json s with
  | Err e => mret (Err e)
  | Ok serialized =>
      stored ← os (db_replace_settings conn serialized now);
      match stored with
      | Err err => mret (Err ("Falha ao persistir configurações runtime: " ++ err))
      | Ok _ =>
          try (write_env_file env_path s) (fun _ =>
          _ ← with_env (apply_env_from_settings s);
          mret (Ok {| payload_env_path := env_path;
                      payload_settings := normalize_runtime_settings s;
                      payload_ports := fst built; payload_warnings := snd built |}))
      end
  end).

(*| src-tauri/src/runtime_config.rs 307-336 save_settings *)
Definition save_settings (state : SharedState) (settings : RuntimeSettings) :
    St proc (result string RuntimeSettingsPayload) :=
  let s := normalize_runtime_settings settings in
  match validate_port_range s with
  | Err e => mret (Err e)
  | Ok _ =>
      try (init_env_file (Some state)) (fun env_path =>
      built ← os (build_ports s);
      if has_duplicate_configured_ports s (fst built) then mret (Err port_conflict)
      else persist_settings state env_path s built)
  end.

(** The effective port of a service in a payload. *)
Definition effective_port_of (key : string) (default : N) (ports : list RuntimeServicePort) : N :=
  unwrap_or default (effective_port <$> list_find (fun p => String.eqb (port_key p) key) ports).

(*| src-tauri/src/runtime_config.rs 619-633 resolve_internal_api_config *)
Definition resolve_internal_api_config (state : SharedState) :
    St proc (result string InternalApiConfig) :=
  try (load_settings state) (fun payload =>
  env ← get_env;
  let s := payload_settings payload in
  let port := effective_port_of "internal_api" (internal_api_port s) (payload_ports payload) in
  mret (Ok (ia_with_host_port (ia_from_runtime_settings env s) (internal_api_host s) port))).

(*| src-tauri/src/runtime_config.rs 635-645 resolve_webhook_config *)
Definition resolve_webhook_config (state : SharedState) : St proc (result string WebhookConfig) :=
  try (load_settings state) (fun payload =>
  let s := payload_settings payload in
  let port := effective_port_of "auxiliary" (webhook_port s) (payload_ports payload) in
  mret (Ok (wh_with_host_port (wh_from_runtime_settings s) (webhook_host s) port))).

(*| src-tauri/src/runtime_config.rs 647-657 resolve_websocket_config *)
Definition resolve_websocket_config (state : SharedState) :
    St proc (result string WebSocketConfig) :=
  try (load_settings state) (fun payload =>
  let s := payload_settings payload in
  let port := effective_port_of "bridge_core" (websocket_port s) (payload_ports payload) in
  mret (Ok (ws_with_host_port (ws_from_runtime_settings s) (websocket_host s) port))).

(** ** Lemmas *)

Lemma os_run {A} (c : St W A) p a p1 : os c p = (a, p1) -> c (snd p) = (a, snd p1) /\ fst p1 = fst p.
Proof. unfold os. destruct (c (snd p)) as [b w]. by intros [= <- <-]. Qed.

Lemma build_ports_effective s (w w' : W) ports warnings :
  build_ports s w = ((ports, warnings), w') ->
  (forall d, effective_port_of "internal_api" d ports = internal_api_port s) /\
  (forall d, effective_port_of "auxiliary" d ports = webhook_port s) /\
  (forall d, effective_port_of "bridge_core" d ports = websocket_port s) /\
  active_ports s ports = active_ports s (port_items s).
Proof.
  intros H. apply probe_ports_spec in H as [_ Hf].
  pose proof (active_ports_probed s _ _ Hf) as Ha. cbn in Hf.
  repeat (apply Forall2_cons_inv_l in Hf as (? & ? & [? ->] & Hf & ->)).
  apply Forall2_nil_inv_l in Hf as ->. done.
Qed.

Lemma load_settings_inv state p payload p' :
  load_settings state p = (Ok payload, p') ->
  exists s w w', payload_settings payload = normalize_runtime_settings s /\
    build_ports (payload_settings payload) w
      = ((payload_ports payload, payload_warnings payload), w').
Proof.
  unfold load_settings. intros H.
  apply try_Ok in H as (path & p1 & _ & H). run_bind H env p2.
  apply try_Ok in H as (conn & p3 & _ & H). run_bind H row p4.
  destruct row as [row|]; [|done]. destruct (settings_of_row env row) as [s|]; [|done].
  run_bind H built p5 as Eb. injection H as <- <-. apply os_run in Eb as [Eb _].
  destruct built as [ports warns]. exists s, (snd p4), (snd p5). done.
Qed.

Lemma foldl_insert_other (kvs : list (string * string)) : forall (env : Env) i,
  i ∉ map fst kvs -> foldl (fun env '(k, v) => <[k := v]> env) env kvs !! i = env !! i.
Proof.
  induction kvs as [|[k v] kvs IH]; intros env i Hi; [done|]. cbn [foldl map fst] in *.
  rewrite not_elem_of_cons in Hi. destruct Hi as [Hne Hi].
  rewrite IH by done. by rewrite lookup_insert_ne.
Qed.

Lemma foldl_insert_in (kvs : list (string * string)) : forall (env : Env) k v,
  NoDup (map fst kvs) -> (k, v) ∈ kvs ->
  foldl (fun env '(k, v) => <[k := v]> env) env kvs !! k = Some v.
Proof.
  induction kvs as [|[k0 v0] kvs IH]; intros env k v Hn Hin; [by apply elem_of_nil in Hin|].
  cbn [map fst] in Hn. apply NoDup_cons in Hn as [Hni Hn]. cbn [foldl].
  apply elem_of_cons in Hin as [[= -> ->]|Hin]; [|by apply IH].
  rewrite foldl_insert_other by done. by rewrite lookup_insert_eq.
Qed.

Lemma applied_keys_distinct s : NoDup (map fst (applied_pairs s)).
Proof.
  assert (map fst (applied_pairs s) = map fst (applied_pairs (settings_default ∅))) as ->
    by reflexivity.
  apply (bool_decide_unpack _). vm_compute. done.
Qed.

Lemma persist_settings_inv state path s built p payload p' :
  persist_settings state path s built p = (Ok payload, p') ->
  payload_settings payload = normalize_runtime_settings s /\
  (exists json conn now w w', settings_to_json s = Ok json /\
     db_replace_settings conn json now w = (Ok (), w')) /\
  (exists env, fst p' = apply_env_from_settings s env).
Proof.
  unfold persist_settings. intros H. run_bind H now p1.
  apply try_Ok in H as (conn & p2 & _ & H).
  destruct (settings_to_json s) as [json|]; [|done]. run_bind H stored p3 as Es.
  destruct stored as [[]|]; [|done]. apply try_Ok in H as ([] & p4 & _ & H).
  run_bind H u p5 as Ee. injection H as <- <-. injection Ee as _ <-.
  apply os_run in Es as [Es _]. split; [done|]. split; [|by eexists].
  by exists json, conn, now, (snd p2), (snd p3).
Qed.

(** ** Properties *)

(** The base URL the operator configures never reaches the internal API:
    [resolve_internal_api_config] always ends with the URL made of the
    configured host and port, whatever base URL the stored settings have. *)
Theorem configured_base_url_discarded state p c p' :
  resolve_internal_api_config state p = (Ok c, p') ->
  exists payload p1, load_settings state p = (Ok payload, p1) /\
    ia_host c = internal_api_host (payload_settings payload) /\
    ia_port c = internal_api_port (payload_settings payload) /\
    ia_base_url c = "http://" ++ public_url_host (ia_host c) ++ ":" ++ show_N (ia_port c).
Proof.
  unfold resolve_internal_api_config. intros H.
  apply try_Ok in H as (payload & p1 & Hl & H). run_bind H env p2. injection H as <- _.
  exists payload, p1. apply load_settings_inv in Hl as Hb. destruct Hb as (s & w & w' & _ & Hb).
  apply build_ports_effective in Hb as (He & _ & _ & _). cbn. by rewrite He.
Qed.

(** Saving settings that put two active services on one port fails with the
    conflict message: once the ".env" file is there, only the probes of the
    ports touch the outside world, so nothing is stored and the environment
    keeps its values. *)
Theorem save_conflict_refused state settings p path p1 :
  let s := normalize_runtime_settings settings in
  ~ NoDup (active_ports s (port_items s)) ->
  init_env_file (Some state) p = (Ok path, p1) ->
  exists built p2, os (build_ports s) p1 = (built, p2) /\ fst p2 = fst p1 /\
    save_settings state settings p = (Err port_conflict, p2).
Proof.
  intros s Hd Hi. unfold save_settings. fold s.
  destruct (normalize_ports_pos settings) as (Q1 & Q2 & Q3 & Q4). fold s in Q1, Q2, Q3, Q4.
  rewrite (validate_port_range_ok s) by done. rewrite (try_run _ _ _ _ _ Hi).
  destruct (os (build_ports s) p1) as [[ports warns] p2] eqn:Eb.
  exists (ports, warns), p2. split; [done|]. apply os_run in Eb as Eb'. destruct Eb' as [Eb' Hf].
  split; [done|]. erewrite st_bind_run by exact Eb. cbn [fst].
  apply build_ports_effective in Eb' as (_ & _ & _ & Ha).
  unfold has_duplicate_configured_ports. rewrite Ha.
  destruct (any_duplicate [] _) eqn:Ed; [done|]. exfalso. apply Hd.
  by apply any_duplicate_spec in Ed as [? _].
Qed.

(** A save that succeeds stored what it says: the active services are on
    distinct ports, the row of the database was replaced by the text of the
    normalised settings, the caller gets these settings back, and every
    variable the running services read has their value in the process. *)
Theorem save_settings_ok state settings p payload p' :
  let s := normalize_runtime_settings settings in
  save_settings state settings p = (Ok payload, p') ->
  NoDup (active_ports s (port_items s)) /\
  payload_settings payload = normalize_runtime_settings s /\
  (exists json conn now w w', settings_to_json s = Ok json /\
     db_replace_settings conn json now w = (Ok (), w')) /\
  (forall k v, (k, v) ∈ applied_pairs s -> fst p' !! k = Some v).
Proof.
  intros s. unfold save_settings. fold s. intros H.
  destruct (validate_port_range s); [|done].
  apply try_Ok in H as (path & p1 & _ & H). run_bind H built p2 as Eb.
  destruct (has_duplicate_configured_ports s (fst built)) eqn:Ed; [done|].
  apply persist_settings_inv in H as (Hs & Hj & env & He).
  destruct built as [ports warns]. apply os_run in Eb as [Eb _].
  apply build_ports_effective in Eb as (_ & _ & _ & Ha). cbn [fst] in Ed.
  unfold has_duplicate_configured_ports in Ed. rewrite Ha in Ed.
  split; [by apply any_duplicate_spec in Ed as [? _]|]. split; [done|]. split; [done|].
  intros k v Hin. rewrite He. apply foldl_insert_in; [apply applied_keys_distinct|done].
Qed.

End Store.
