(* ===== verification/AppLog.v ===== *)
(** * Application log and audit rows: [console/src-tauri/src/db.rs]

    What the console writes to its log table, its log file, the audit table
    and the synchronisation queue, with the masking of sensitive members.
    SQLite's [execute], the file handles and serde_json's text of a value are
    the class [LogOs]. *)

From Stdlib Require Import Ascii.
From S2P Require Import Prelude RustStr Json NetAddr NetBind RuntimeSettings.
From S2P Require Import ServiceConfigs RuntimeStore.

#[local] Open Scope string_scope.

(** A parameter of an SQL statement; a real is the double nearest to a JSON
    number. *)
Inductive sql_value : Type :=
| SqlNull
| SqlInt (z : Z)
| SqlReal (n : number)
| SqlText (s : string).

Definition sql_opt_text (o : option string) : sql_value :=
  match o with Some s => SqlText s | None => SqlNull end.
Definition sql_opt_int (o : option Z) : sql_value :=
  match o with Some z => SqlInt z | None => SqlNull end.

Class LogOs (W : Type) `{OS : ConsoleOs W} : Type := {
  db_execute : db_conn -> string -> list sql_value -> St W (result string unit);
  (** open for appending, created when missing *)
  os_open_append : string -> St W (result string os_file);
  json_to_string : value -> string;
}.

(** [serde_json::from_str] of a text. *)
Class JsonText : Type := { json_of_text : string -> option value }.

(** ** Masking *)

(*| src-tauri/src/db.rs 93-108 is_sensitive_key *)
Definition is_sensitive_key (key : string) : bool :=
  let normalized := to_lowercase (trim key) in
  existsb (fun item => contains item normalized)
    ["senha"; "password"; "confirm_password"; "password_confirmation"; "token"; "secret";
     "api_key"; "apikey"; "authorization"].

#[global] Arguments is_sensitive_key : simpl never.

(*| src-tauri/src/db.rs 110-126 sanitize_log_value *)
Fixpoint sanitize_log_value (v : value) : value :=
  match v with
  | Object m =>
      Object (map (fun '(k, v) =>
        if is_sensitive_key k then (k, String_ "***") else (k, sanitize_log_value v)) m)
  | Array items => Array (map sanitize_log_value items)
  | _ => v
  end.

(** ** Rows and lines *)

(*| src-tauri/src/db.rs 84-91 AppLogInput *)
Record AppLogInput : Type := {
  log_level : string;
  log_category : string;
  log_message : string;
  log_source : option string;
  log_route : option string;
  log_details : option value;
}.

Definition opt_json (o : option string) : value :=
  match o with Some s => String_ s | None => Null end.

(** The line of the log file. *)
(*| src-tauri/src/db.rs 158-167 write_app_log *)
Definition log_line (now : string) (input : AppLogInput) : value :=
  Object [("created_at", String_ now); ("level", String_ (log_level input));
    ("category", String_ (log_category input)); ("message", String_ (log_message input));
    ("source", opt_json (log_source input)); ("route", opt_json (log_route input));
    ("details", unwrap_or Null (sanitize_log_value <$> log_details input))].

Section AppLog.
Context {W : Type} `{LO : LogOs W}.

(*| src-tauri/src/db.rs 80-82 app_log_file_path *)
Definition app_log_file_path (data_dir : string) : string := path_join data_dir "app.log".

Definition insert_log_sql : string :=
  "INSERT INTO app_logs (level, category, message, source, route, details_json, created_at)
         VALUES (?1, ?2, ?3, ?4, ?5, ?6, ?7)".

(** The two writes of a line: its text, then the line feed. *)
Definition append_line (file : os_file) (line : string) : St W (result string unit) :=
  r ← os_write_all file line;
  match r with
  | Ok _ => os_write_all file newline
  | Err e => mret (Err e)
  end.

(*| src-tauri/src/db.rs 128-178 write_app_log *)
Definition write_app_log (conn : db_conn) (data_dir : string) (input : AppLogInput) :
    St W (result string unit) :=
  now ← utc_now_rfc3339;
  let details_json := (fun v => json_to_string (sanitize_log_value v)) <$> log_details input in
  stored ← db_execute conn insert_log_sql
    [SqlText (log_level input); SqlText (log_category input); SqlText (log_message input);
     sql_opt_text (log_source input); sql_opt_text (log_route input);
     sql_opt_text details_json; SqlText now];
  match stored with
  | Err err => mret (Err ("Falha ao gravar log da aplicação: " ++ err))
  | Ok _ =>
      created ← os_create_dir_all data_dir;
      match created with
      | Err err => mret (Err ("Falha ao preparar diretório de logs: " ++ err))
      | Ok _ =>
          opened ← os_open_append (app_log_file_path data_dir);
          match opened with
          | Err err => mret (Err ("Falha ao abrir arquivo de log: " ++ err))
          | Ok file =>
              r ← append_line file (json_to_string (log_line now input));
              mret (map_err (fun err => "Falha ao escrever arquivo de log: " ++ err) r)
          end
      end
  end.

(*| src-tauri/src/db.rs 47-62 enqueue_sync *)
Definition enqueue_sync (conn : db_conn) (entity_name action_name : string)
    (record_id : option Z) (payload : value) : St W (result string unit) :=
  r ← db_execute conn
    "INSERT INTO sync_queue (entity_name, action_name, record_id, payload_json, status, created_at, updated_at)
         VALUES (?1, ?2, ?3, ?4, 'pending', datetime('now'), datetime('now'))"
    [SqlText entity_name; SqlText action_name; sql_opt_int record_id;
     SqlText (json_to_string payload)];
  mret (map_err (fun err => "Falha ao enfileirar sincronização: " ++ err) r).

(*| src-tauri/src/db.rs 64-78 write_audit *)
Definition write_audit (conn : db_conn) (entity_name action_name : string)
    (record_id : option Z) (payload : value) : St W (result string unit) :=
  r ← db_execute conn
    "INSERT INTO audit_logs (entity_name, action_name, record_id, payload_json, created_at)
         VALUES (?1, ?2, ?3, ?4, datetime('now'))"
    [SqlText entity_name; SqlText action_name; sql_opt_int record_id;
     SqlText (json_to_string payload)];
  mret (map_err (fun err => "Falha ao gravar auditoria: " ++ err) r).

(** The log call the servers make: nothing happens before the application has
    a database and a data directory, and its result is ignored. *)
Definition log_event (state : SharedState) (input : AppLogInput) : St W unit :=
  match state with
  | Some ctx =>
      conn ← db_open (ctx_db_path ctx);
      match conn with
      | Ok conn => _ ← write_app_log conn (ctx_data_dir ctx) input; mret ()
      | Err _ => mret ()
      end
  | None => mret ()
  end.

End AppLog.

(** ** Properties *)

(** No member of an object at any depth has a sensitive key and a value other
    than the mask. *)
Fixpoint masked (v : value) : bool :=
  match v with
  | Object m =>
      forallb (fun '(k, v) =>
        if is_sensitive_key k then match v with String_ s => String.eqb s "***" | _ => false end
        else masked v) m
  | Array items => forallb masked items
  | _ => true
  end.

Lemma sanitize_masked v : masked (sanitize_log_value v) = true.
Proof.
  induction v as [| | | |l IH|m IH] using value_nested_ind; try done; cbn.
  - induction IH as [|x l Hx _ IH]; [done|]. cbn. by rewrite Hx.
  - induction IH as [|[k x] m Hx _ IH]; [done|]. cbn.
    destruct (is_sensitive_key k) eqn:E; cbn; rewrite E; [done|]. cbn in Hx. by rewrite Hx.
Qed.

Lemma sanitize_fixed v : masked v = true -> sanitize_log_value v = v.
Proof.
  induction v as [| | | |l IH|m IH] using value_nested_ind; try done; cbn; intros H; f_equal.
  - induction IH as [|x l Hx _ IH]; [done|]. cbn in *. apply andb_true_iff in H as [H1 H2].
    by rewrite (Hx H1), (IH H2).
  - induction IH as [|[k x] m Hx _ IH]; [done|]. cbn in *. apply andb_true_iff in H as [H1 H2].
    rewrite (IH H2). destruct (is_sensitive_key k); [|by rewrite (Hx H1)].
    destruct x; try done. apply String.eqb_eq in H1. by subst.
Qed.

(** C32. Masking of log details: after [sanitize_log_value] no member with a
    sensitive key survives at any depth of the value, a value with nothing to
    mask is left as it is (so masking twice is masking once), and objects keep
    their keys in order. *)
Theorem sanitize_log_value_masks v :
  masked (sanitize_log_value v) = true /\
  (masked v = true -> sanitize_log_value v = v) /\
  sanitize_log_value (sanitize_log_value v) = sanitize_log_value v /\
  (forall m, v = Object m -> exists m', sanitize_log_value v = Object m' /\ map fst m' = map fst m).
Proof.
  split; [apply sanitize_masked|]. split; [apply sanitize_fixed|].
  split; [apply sanitize_fixed, sanitize_masked|].
  intros m ->. cbn. eexists. split; [done|]. rewrite map_map. apply map_ext.
  intros [k x]. by destruct (is_sensitive_key k).
Qed.
