(* ===== verification/Accounts.v ===== *)
(** * The account tables

    The tables of migrations.rs that the session and administration commands
    read and write: a table is the list of its rows in the order of their
    rowids, and each SQL statement of [commands/auth.rs] and
    [commands/support.rs] is a function on the tables. Columns no statement
    reads or writes are left out. A statement may also fail in the database
    engine: [Statements] says when. *)

From S2P Require Import Prelude RustStr Json NetAddr NetBind RuntimeSettings.
From S2P Require Import ServiceConfigs RuntimeStore AppLog.

#[local] Open Scope string_scope.
#[local] Open Scope tunnara_scope.

(** ** Rows *)

(*| src-tauri/src/migrations.rs 40-57 usuarios *)
Record Usuario : Type := {
  u_id : Z;
  u_nome : string;
  u_login : string;
  u_email : option string;
  u_telefone : option string;
  u_cargo : option string;
  u_observacoes : option string;
  u_photo_url : option string;
  u_senha_hash : string;
  u_administrador : Z;
  u_master_user : Z;
  u_senha_provisoria : Z;
  u_ativo : Z;
  u_ultimo_login_em : option string;
  u_created_at : string;
  u_updated_at : string;
}.

(*| src-tauri/src/migrations.rs 95-103 user_sessions *)
Record UserSession : Type := {
  us_usuario_id : Z;
  us_session_token : string;
  us_created_at : string;
  us_expires_at : string;
  us_last_activity_at : string;
}.

(** The only row the table can hold: its id is 1. *)
(*| src-tauri/src/migrations.rs 210-221 admin_guard *)
Record AdminGuard : Type := {
  ag_support_secret_hash : option string;
  ag_totp_secret_encrypted : option string;
  ag_totp_enabled : Z;
  ag_recovery_codes_encrypted : option string;
  ag_licensing_protected : Z;
  ag_white_label_protected : Z;
  ag_created_at : string;
  ag_updated_at : string;
  ag_last_rotated_at : option string;
}.

(*| src-tauri/src/migrations.rs 223-232 admin_unlock_sessions *)
Record UnlockSession : Type := {
  ul_usuario_id : Z;
  ul_scope : string;
  ul_unlock_token : string;
  ul_expires_at : string;
  ul_created_at : string;
  ul_last_used_at : option string;
}.

(*| src-tauri/src/migrations.rs 59-67 perfis_acesso *)
Record Perfil : Type := {
  p_id : Z;
  p_nome : string;
  p_descricao : option string;
  p_perfil_master : Z;
  p_ativo : Z;
  p_created_at : string;
  p_updated_at : string;
}.

(*| src-tauri/src/migrations.rs 16-38 empresas *)
Record Empresa : Type := {
  e_id : Z;
  e_nome : string;
  e_nome_fantasia : option string;
  e_documento : option string;
  e_inscricao_estadual : option string;
  e_inscricao_municipal : option string;
  e_telefone : option string;
  e_email : option string;
  e_responsavel_nome : option string;
  e_responsavel_telefone : option string;
  e_cep : option string;
  e_endereco : option string;
  e_numero : option string;
  e_complemento : option string;
  e_bairro : option string;
  e_cidade : option string;
  e_estado : option string;
  e_observacoes : option string;
  e_ativo : Z;
  e_created_at : string;
  e_updated_at : string;
}.

(*| src-tauri/src/migrations.rs 192-197 app_settings *)
Record AppSetting : Type := {
  st_chave : string;
  st_valor : option string;
  st_created_at : string;
  st_updated_at : string;
}.

(*| src-tauri/src/migrations.rs 234-248 local_licenses *)
Record LocalLicense : Type := {
  ll_id : Z;
  ll_empresa_id : Z;
  ll_cnpj : string;
  ll_license_kind : string;
  ll_status : string;
  ll_issued_at : string;
  ll_expires_at : string;
  ll_fingerprint : option string;
  ll_payload_encrypted : option string;
  ll_integrity_hash : option string;
  ll_created_at : string;
  ll_updated_at : string;
}.

(*| src-tauri/src/migrations.rs 302-306 configuracoes *)
Record Configuracao : Type := { cf_nome : string; cf_valor : option string; cf_updated_at : string }.

(** The largest ids AUTOINCREMENT ever gave. *)
Record Sequences : Type := {
  sq_users : Z; sq_profiles : Z; sq_companies : Z; sq_licenses : Z }.

Record Accounts : Type := {
  acc_users : list Usuario;
  acc_sessions : list UserSession;
  acc_guard : option AdminGuard;
  acc_unlocks : list UnlockSession;
  acc_profiles : list Perfil;
  (** perfis_permissoes: perfil_id, permissao_chave *)
  acc_profile_perms : list (Z * string);
  (** usuarios_perfis: usuario_id, perfil_id *)
  acc_user_profiles : list (Z * Z);
  acc_companies : list Empresa;
  (** usuarios_empresas: usuario_id, empresa_id *)
  acc_user_companies : list (Z * Z);
  acc_settings : list AppSetting;
  acc_licenses : list LocalLicense;
  acc_config : list Configuracao;
  acc_seq : Sequences;
}.

Definition with_users (f : list Usuario -> list Usuario) (t : Accounts) : Accounts := {|
  acc_users := f (acc_users t); acc_sessions := acc_sessions t; acc_guard := acc_guard t;
  acc_unlocks := acc_unlocks t; acc_profiles := acc_profiles t;
  acc_profile_perms := acc_profile_perms t; acc_user_profiles := acc_user_profiles t;
  acc_companies := acc_companies t; acc_user_companies := acc_user_companies t;
  acc_settings := acc_settings t; acc_licenses := acc_licenses t; acc_config := acc_config t; acc_seq := acc_seq t |}.
Definition with_sessions (f : list UserSession -> list UserSession) (t : Accounts) : Accounts := {|
  acc_users := acc_users t; acc_sessions := f (acc_sessions t); acc_guard := acc_guard t;
  acc_unlocks := acc_unlocks t; acc_profiles := acc_profiles t;
  acc_profile_perms := acc_profile_perms t; acc_user_profiles := acc_user_profiles t;
  acc_companies := acc_companies t; acc_user_companies := acc_user_companies t;
  acc_settings := acc_settings t; acc_licenses := acc_licenses t; acc_config := acc_config t; acc_seq := acc_seq t |}.
Definition with_guard (f : option AdminGuard -> option AdminGuard) (t : Accounts) : Accounts := {|
  acc_users := acc_users t; acc_sessions := acc_sessions t; acc_guard := f (acc_guard t);
  acc_unlocks := acc_unlocks t; acc_profiles := acc_profiles t;
  acc_profile_perms := acc_profile_perms t; acc_user_profiles := acc_user_profiles t;
  acc_companies := acc_companies t; acc_user_companies := acc_user_companies t;
  acc_settings := acc_settings t; acc_licenses := acc_licenses t; acc_config := acc_config t; acc_seq := acc_seq t |}.
Definition with_unlocks (f : list UnlockSession -> list UnlockSession) (t : Accounts) : Accounts := {|
  acc_users := acc_users t; acc_sessions := acc_sessions t; acc_guard := acc_guard t;
  acc_unlocks := f (acc_unlocks t); acc_profiles := acc_profiles t;
  acc_profile_perms := acc_profile_perms t; acc_user_profiles := acc_user_profiles t;
  acc_companies := acc_companies t; acc_user_companies := acc_user_companies t;
  acc_settings := acc_settings t; acc_licenses := acc_licenses t; acc_config := acc_config t; acc_seq := acc_seq t |}.
Definition with_profiles (f : list Perfil -> list Perfil) (t : Accounts) : Accounts := {|
  acc_users := acc_users t; acc_sessions := acc_sessions t; acc_guard := acc_guard t;
  acc_unlocks := acc_unlocks t; acc_profiles := f (acc_profiles t);
  acc_profile_perms := acc_profile_perms t; acc_user_profiles := acc_user_profiles t;
  acc_companies := acc_companies t; acc_user_companies := acc_user_companies t;
  acc_settings := acc_settings t; acc_licenses := acc_licenses t; acc_config := acc_config t; acc_seq := acc_seq t |}.
Definition with_profile_perms (f : list (Z * string) -> list (Z * string)) (t : Accounts) : Accounts := {|
  acc_users := acc_users t; acc_sessions := acc_sessions t; acc_guard := acc_guard t;
  acc_unlocks := acc_unlocks t; acc_profiles := acc_profiles t;
  acc_profile_perms := f (acc_profile_perms t); acc_user_profiles := acc_user_profiles t;
  acc_companies := acc_companies t; acc_user_companies := acc_user_companies t;
  acc_settings := acc_settings t; acc_licenses := acc_licenses t; acc_config := acc_config t; acc_seq := acc_seq t |}.
Definition with_user_profiles (f : list (Z * Z) -> list (Z * Z)) (t : Accounts) : Accounts := {|
  acc_users := acc_users t; acc_sessions := acc_sessions t; acc_guard := acc_guard t;
  acc_unlocks := acc_unlocks t; acc_profiles := acc_profiles t;
  acc_profile_perms := acc_profile_perms t; acc_user_profiles := f (acc_user_profiles t);
  acc_companies := acc_companies t; acc_user_companies := acc_user_companies t;
  acc_settings := acc_settings t; acc_licenses := acc_licenses t; acc_config := acc_config t; acc_seq := acc_seq t |}.
Definition with_companies (f : list Empresa -> list Empresa) (t : Accounts) : Accounts := {|
  acc_users := acc_users t; acc_sessions := acc_sessions t; acc_guard := acc_guard t;
  acc_unlocks := acc_unlocks t; acc_profiles := acc_profiles t;
  acc_profile_perms := acc_profile_perms t; acc_user_profiles := acc_user_profiles t;
  acc_companies := f (acc_companies t); acc_user_companies := acc_user_companies t;
  acc_settings := acc_settings t; acc_licenses := acc_licenses t; acc_config := acc_config t; acc_seq := acc_seq t |}.
Definition with_user_companies (f : list (Z * Z) -> list (Z * Z)) (t : Accounts) : Accounts := {|
  acc_users := acc_users t; acc_sessions := acc_sessions t; acc_guard := acc_guard t;
  acc_unlocks := acc_unlocks t; acc_profiles := acc_profiles t;
  acc_profile_perms := acc_profile_perms t; acc_user_profiles := acc_user_profiles t;
  acc_companies := acc_companies t; acc_user_companies := f (acc_user_companies t);
  acc_settings := acc_settings t; acc_licenses := acc_licenses t; acc_config := acc_config t; acc_seq := acc_seq t |}.
Definition with_settings (f : list AppSetting -> list AppSetting) (t : Accounts) : Accounts := {|
  acc_users := acc_users t; acc_sessions := acc_sessions t; acc_guard := acc_guard t;
  acc_unlocks := acc_unlocks t; acc_profiles := acc_profiles t;
  acc_profile_perms := acc_profile_perms t; acc_user_profiles := acc_user_profiles t;
  acc_companies := acc_companies t; acc_user_companies := acc_user_companies t;
  acc_settings := f (acc_settings t); acc_licenses := acc_licenses t; acc_config := acc_config t; acc_seq := acc_seq t |}.
Definition with_licenses (f : list LocalLicense -> list LocalLicense) (t : Accounts) : Accounts := {|
  acc_users := acc_users t; acc_sessions := acc_sessions t; acc_guard := acc_guard t;
  acc_unlocks := acc_unlocks t; acc_profiles := acc_profiles t;
  acc_profile_perms := acc_profile_perms t; acc_user_profiles := acc_user_profiles t;
  acc_companies := acc_companies t; acc_user_companies := acc_user_companies t;
  acc_settings := acc_settings t; acc_licenses := f (acc_licenses t); acc_config := acc_config t; acc_seq := acc_seq t |}.
Definition with_config (f : list Configuracao -> list Configuracao) (t : Accounts) : Accounts := {|
  acc_users := acc_users t; acc_sessions := acc_sessions t; acc_guard := acc_guard t;
  acc_unlocks := acc_unlocks t; acc_profiles := acc_profiles t;
  acc_profile_perms := acc_profile_perms t; acc_user_profiles := acc_user_profiles t;
  acc_companies := acc_companies t; acc_user_companies := acc_user_companies t;
  acc_settings := acc_settings t; acc_licenses := acc_licenses t; acc_config := f (acc_config t); acc_seq := acc_seq t |}.
Definition with_seq (q : Sequences) (t : Accounts) : Accounts := {|
  acc_users := acc_users t; acc_sessions := acc_sessions t; acc_guard := acc_guard t;
  acc_unlocks := acc_unlocks t; acc_profiles := acc_profiles t;
  acc_profile_perms := acc_profile_perms t; acc_user_profiles := acc_user_profiles t;
  acc_companies := acc_companies t; acc_user_companies := acc_user_companies t;
  acc_settings := acc_settings t; acc_licenses := acc_licenses t; acc_config := acc_config t; acc_seq := q |}.

(** The BINARY collation: the order of the bytes. *)
Definition text_le (s t : string) : bool := String.leb s t.
Definition text_lt (s t : string) : bool := String.ltb s t.

(** [UPDATE ... WHERE p]: rows keep their places. *)
Definition update_where {A} (p : A -> bool) (f : A -> A) (l : list A) : list A :=
  map (fun x => if p x then f x else x) l.

(** ** Queries and updates of users *)

(** SQLite's [LOWER] maps the ASCII letters only. *)
(*| src-tauri/src/commands/auth.rs 217-223 auth_login *)
Definition user_by_login (login : string) (t : Accounts) : option Usuario :=
  list_find (fun u => String.eqb (to_ascii_lowercase (u_login u)) login) (acc_users t).

(*| src-tauri/src/commands/auth.rs 48-54 build_auth_user *)
Definition user_by_id (id : Z) (t : Accounts) : option Usuario :=
  list_find (fun u => (u_id u =? id)%Z) (acc_users t).

Definition touch_login (now : string) (u : Usuario) : Usuario := {|
  u_id := u_id u; u_nome := u_nome u; u_login := u_login u; u_email := u_email u;
  u_telefone := u_telefone u; u_cargo := u_cargo u;
  u_observacoes := u_observacoes u; u_photo_url := u_photo_url u;
  u_senha_hash := u_senha_hash u; u_administrador := u_administrador u;
  u_master_user := u_master_user u; u_senha_provisoria := u_senha_provisoria u;
  u_ativo := u_ativo u; u_ultimo_login_em := Some now;
  u_created_at := u_created_at u; u_updated_at := u_updated_at u |}.

Definition set_password (hash now : string) (u : Usuario) : Usuario := {|
  u_id := u_id u; u_nome := u_nome u; u_login := u_login u; u_email := u_email u;
  u_telefone := u_telefone u; u_cargo := u_cargo u;
  u_observacoes := u_observacoes u; u_photo_url := u_photo_url u;
  u_senha_hash := hash; u_administrador := u_administrador u;
  u_master_user := u_master_user u; u_senha_provisoria := 0;
  u_ativo := u_ativo u; u_ultimo_login_em := u_ultimo_login_em u;
  u_created_at := u_created_at u; u_updated_at := now |}.

(*| src-tauri/src/commands/auth.rs 284-288 auth_login *)
Definition update_last_login (now : string) (id : Z) : Accounts -> Accounts :=
  with_users (update_where (fun u => (u_id u =? id)%Z) (touch_login now)).

(*| src-tauri/src/commands/auth.rs 423-427 auth_change_password *)
Definition update_password (hash now : string) (id : Z) : Accounts -> Accounts :=
  with_users (update_where (fun u => (u_id u =? id)%Z) (set_password hash now)).

(** ** Sessions *)

(*| src-tauri/src/commands/auth.rs 175-176 require_session_by_token *)
Definition live_session (token now : string) (s : UserSession) : bool :=
  String.eqb (us_session_token s) token && text_lt now (us_expires_at s).

(** The join of sessions and users, cut by [LIMIT 1]. *)
(*| src-tauri/src/commands/auth.rs 170-187 require_session_by_token *)
Definition session_of_token (token now : string) (t : Accounts) : option (UserSession * Usuario) :=
  head (flat_map (fun s =>
    if live_session token now s
    then map (pair s) (List.filter (fun u => (u_id u =? us_usuario_id s)%Z) (acc_users t))
    else []) (acc_sessions t)).

Definition touch_session (now : string) (s : UserSession) : UserSession := {|
  us_usuario_id := us_usuario_id s; us_session_token := us_session_token s;
  us_created_at := us_created_at s; us_expires_at := us_expires_at s;
  us_last_activity_at := now |}.

(*| src-tauri/src/commands/auth.rs 194-198 require_session_by_token *)
Definition update_session_activity (now token : string) : Accounts -> Accounts :=
  with_sessions (update_where (fun s => String.eqb (us_session_token s) token) (touch_session now)).

(*| src-tauri/src/commands/auth.rs 271-275 auth_login *)
Definition delete_old_sessions (id : Z) (now : string) : Accounts -> Accounts :=
  with_sessions (List.filter (fun s =>
    negb ((us_usuario_id s =? id)%Z || text_le (us_expires_at s) now))).

(** The token is unique. *)
(*| src-tauri/src/commands/auth.rs 277-282 auth_login *)
Definition insert_session (s : UserSession) (t : Accounts) : result string Accounts :=
  if existsb (fun s' => String.eqb (us_session_token s') (us_session_token s)) (acc_sessions t)
  then Err "UNIQUE constraint failed: user_sessions.session_token"
  else Ok (with_sessions (fun l => l ++ [s])%list t).

(*| src-tauri/src/commands/auth.rs 374-378 auth_logout *)
Definition delete_session (token : string) : Accounts -> Accounts :=
  with_sessions (List.filter (fun s => negb (String.eqb (us_session_token s) token))).

(** ** Profiles, permissions and companies of a user *)

(*| src-tauri/src/commands/auth.rs 79-93 build_auth_user *)
Definition profile_names_of (id : Z) (t : Accounts) : list string :=
  sort_by text_le (flat_map (fun up =>
    if (fst up =? id)%Z
    then map p_nome (List.filter (fun p => (p_id p =? snd up)%Z) (acc_profiles t))
    else []) (acc_user_profiles t)).

(*| src-tauri/src/commands/auth.rs 95-111 build_auth_user *)
Definition companies_of (id : Z) (t : Accounts) : list (Z * string) :=
  sort_by (fun a b => text_le (snd a) (snd b)) (flat_map (fun ue =>
    if (fst ue =? id)%Z
    then map (fun e => (e_id e, e_nome e))
           (List.filter (fun e => (e_id e =? snd ue)%Z) (acc_companies t))
    else []) (acc_user_companies t)).

(** [SELECT DISTINCT ... ORDER BY]: neither the state nor the master mark of a
    profile is looked at. *)
(*| src-tauri/src/commands/auth.rs 122-138 build_auth_user *)
Definition permissions_of (id : Z) (t : Accounts) : list string :=
  dedup String.eqb (sort_by text_le (flat_map (fun up =>
    if (fst up =? id)%Z
    then map snd (List.filter (fun pp => (fst pp =? snd up)%Z) (acc_profile_perms t))
    else []) (acc_user_profiles t))).

(** ** The administration guard *)

(*| src-tauri/src/commands/support.rs 138-152 support_guard_provision *)
Definition upsert_guard (hash totp recovery now : string) : Accounts -> Accounts :=
  with_guard (fun g =>
    match g with
    | None => Some {|
        ag_support_secret_hash := Some hash; ag_totp_secret_encrypted := Some totp;
        ag_totp_enabled := 0; ag_recovery_codes_encrypted := Some recovery;
        ag_licensing_protected := 1; ag_white_label_protected := 1;
        ag_created_at := now; ag_updated_at := now; ag_last_rotated_at := Some now |}
    | Some g => Some {|
        ag_support_secret_hash := Some hash; ag_totp_secret_encrypted := Some totp;
        ag_totp_enabled := 0; ag_recovery_codes_encrypted := Some recovery;
        ag_licensing_protected := ag_licensing_protected g;
        ag_white_label_protected := ag_white_label_protected g;
        ag_created_at := ag_created_at g; ag_updated_at := now; ag_last_rotated_at := Some now |}
    end).

(*| src-tauri/src/commands/support.rs 227-231 support_guard_enable_totp *)
Definition enable_guard_totp (now : string) : Accounts -> Accounts :=
  with_guard (fun g => match g with None => None | Some g => Some {|
    ag_support_secret_hash := ag_support_secret_hash g;
    ag_totp_secret_encrypted := ag_totp_secret_encrypted g; ag_totp_enabled := 1;
    ag_recovery_codes_encrypted := ag_recovery_codes_encrypted g;
    ag_licensing_protected := ag_licensing_protected g;
    ag_white_label_protected := ag_white_label_protected g;
    ag_created_at := ag_created_at g; ag_updated_at := now;
    ag_last_rotated_at := ag_last_rotated_at g |} end).

(*| src-tauri/src/commands/support.rs 58-63 require_admin_unlock *)
Definition live_unlock (id : Z) (token scope now : string) (u : UnlockSession) : bool :=
  (ul_usuario_id u =? id)%Z && String.eqb (ul_unlock_token u) token
  && (String.eqb (ul_scope u) scope || String.eqb (ul_scope u) "global")
  && text_lt now (ul_expires_at u).

Definition touch_unlock (now : string) (u : UnlockSession) : UnlockSession := {|
  ul_usuario_id := ul_usuario_id u; ul_scope := ul_scope u; ul_unlock_token := ul_unlock_token u;
  ul_expires_at := ul_expires_at u; ul_created_at := ul_created_at u;
  ul_last_used_at := Some now |}.

(*| src-tauri/src/commands/support.rs 71-75 require_admin_unlock *)
Definition update_unlock_use (now token : string) : Accounts -> Accounts :=
  with_unlocks (update_where (fun u => String.eqb (ul_unlock_token u) token) (touch_unlock now)).

(*| src-tauri/src/commands/support.rs 89-96 support_guard_status *)
Definition count_unlocks (id : Z) (now : string) (t : Accounts) : nat :=
  length (List.filter (fun u => (ul_usuario_id u =? id)%Z && text_lt now (ul_expires_at u))
    (acc_unlocks t)).

(*| src-tauri/src/commands/support.rs 295-300 support_guard_unlock *)
Definition insert_unlock (u : UnlockSession) (t : Accounts) : result string Accounts :=
  if existsb (fun u' => String.eqb (ul_unlock_token u') (ul_unlock_token u)) (acc_unlocks t)
  then Err "UNIQUE constraint failed: admin_unlock_sessions.unlock_token"
  else Ok (with_unlocks (fun l => l ++ [u])%list t).

(** ** Running statements *)

(** When a statement fails in the engine, and how (disk, locking). *)
Class Statements (W : Type) : Type := { sql_fault : St W (option string) }.

Section Run.
Context {W : Type} `{ST : Statements W}.

Definition db : Type := Accounts * W.

Definition lift {A} (c : St W A) : St db A := fun s =>
  let '(a, w) := c (snd s) in (a, (fst s, w)).

(** One statement, whose error is reported after a text. *)
Definition statement {A} (what : string) (f : Accounts -> result string (A * Accounts)) :
    St db (result string A) := fun s =>
  let '(fault, w) := sql_fault (snd s) in
  match fault with
  | Some err => (Err (what ++ ": " ++ err), (fst s, w))
  | None => match f (fst s) with
            | Ok (a, t) => (Ok a, (t, w))
            | Err err => (Err (what ++ ": " ++ err), (fst s, w))
            end
  end.

Definition select {A} (what : string) (f : Accounts -> A) : St db (result string A) :=
  statement what (fun t => Ok (f t, t)).
Definition execute (what : string) (f : Accounts -> Accounts) : St db (result string unit) :=
  statement what (fun t => Ok ((), f t)).
Definition insert (what : string) (f : Accounts -> result string Accounts) :
    St db (result string unit) :=
  statement what (fun t => t' ← f t; Ok ((), t')).

Lemma select_inv {A} what (f : Accounts -> A) s a s' :
  select what f s = (Ok a, s') -> a = f (fst s) /\ fst s' = fst s.
Proof.
  unfold select, statement. destruct (sql_fault _) as [[e|] w]; [done|]. by intros [= <- <-].
Qed.

Lemma select_tables {A} what (f : Accounts -> A) s r s' :
  select what f s = (r, s') -> fst s' = fst s.
Proof.
  unfold select, statement. destruct (sql_fault _) as [[e|] w]; by intros [= <- <-].
Qed.

Lemma execute_tables what f s r s' :
  execute what f s = (r, s') -> fst s' = (if is_ok r then f (fst s) else fst s).
Proof.
  unfold execute, statement. destruct (sql_fault _) as [[e|] w]; by intros [= <- <-].
Qed.

Lemma insert_tables what f s r s' :
  insert what f s = (r, s') ->
  (is_ok r = true /\ f (fst s) = Ok (fst s')) \/ (is_ok r = false /\ fst s' = fst s).
Proof.
  unfold insert, statement. destruct (sql_fault _) as [[e|] w]; [intros [= <- <-]; by right|].
  unfold mbind, result_bind. destruct (f (fst s)) as [t|e] eqn:E; intros [= <- <-].
  - by left.
  - by right.
Qed.

Lemma lift_tables {A} (c : St W A) s a s' : lift c s = (a, s') -> fst s' = fst s.
Proof. unfold lift. destruct (c (snd s)) as [b w]. by intros [= <- <-]. Qed.

(** *** Invariants of the tables *)

(** [c] keeps a property of the tables, whatever it answers. *)
Definition preserves {A} (I : Accounts -> Prop) (c : St db A) : Prop :=
  stable (fun s => I (fst s)) c.

Lemma preserves_ret {A} I (a : A) : preserves I (mret a).
Proof. apply stable_ret. Qed.

Lemma preserves_bind {A B} I (c : St db A) (f : A -> St db B) :
  preserves I c -> (forall a, preserves I (f a)) -> preserves I (c ≫= f).
Proof. apply stable_bind. Qed.

Lemma preserves_try {A B E} I (c : St db (result E A)) (f : A -> St db (result E B)) :
  preserves I c -> (forall a, preserves I (f a)) -> preserves I (try c f).
Proof. apply stable_try. Qed.

Lemma preserves_lift {A} I (c : St W A) : preserves I (lift c).
Proof. intros s a s' HI H. apply lift_tables in H. by rewrite H. Qed.

Lemma preserves_select {A} I what (f : Accounts -> A) : preserves I (select what f).
Proof. intros s a s' HI H. apply select_tables in H. by rewrite H. Qed.

Lemma preserves_execute (I : Accounts -> Prop) what f :
  (forall t, I t -> I (f t)) -> preserves I (execute what f).
Proof. intros Hf s a s' HI H. apply execute_tables in H as ->. case_match; auto. Qed.

Lemma preserves_insert (I : Accounts -> Prop) what f :
  (forall t t', I t -> f t = Ok t' -> I t') -> preserves I (insert what f).
Proof.
  intros Hf s a s' HI H. apply insert_tables in H as [(_ & E)|(_ & ->)]; [by eapply Hf|done].
Qed.

End Run.

(** Commands, and updates of the tables, that keep a property. *)
Create HintDb accounts discriminated.

(** Walk through a command whose statements keep a property; what is left are
    the statements that write. *)
Ltac keep :=
  repeat first
    [ solve [eauto 3 with accounts nocore]
    | apply preserves_try; [|intros]
    | apply preserves_bind; [|intros]
    | apply preserves_ret | apply preserves_lift | apply preserves_select
    | match goal with
      | |- preserves _ (if ?b then _ else _) => destruct b
      | |- preserves _ (match ?x with _ => _ end) => destruct x
      end ].

(** ** Lemmas on tables *)

Lemma map_update_where {A B} (g : A -> B) p f (l : list A) :
  (forall x, g (f x) = g x) -> map g (update_where p f l) = map g l.
Proof.
  intros H. unfold update_where. rewrite map_map. apply map_ext. intros x. by destruct (p x).
Qed.

Lemma elem_filter {A} (p : A -> bool) l x : x ∈ List.filter p l <-> x ∈ l /\ p x = true.
Proof. by rewrite !list_elem_of_In, filter_In. Qed.

Lemma NoDup_map_filter {A B} (g : A -> B) p (l : list A) :
  NoDup (map g l) -> NoDup (map g (List.filter p l)).
Proof.
  induction l as [|x l IH]; cbn; [done|]. intros [Hx Hl]%NoDup_cons.
  destruct (p x); cbn; [|by apply IH]. constructor; [|by apply IH].
  rewrite !list_elem_of_In, in_map_iff in *. intros (y & Hg & Hy). apply Hx.
  exists y. split; [done|]. by apply filter_In in Hy as [Hy _].
Qed.

Lemma NoDup_map_snoc {A B} (g : A -> B) (l : list A) x :
  NoDup (map g l) -> g x ∉ map g l -> NoDup (map g (l ++ [x])%list).
Proof.
  intros Hl Hx. rewrite map_app. apply NoDup_app. split_and!; [done| |apply NoDup_singleton].
  intros y Hy Hin%list_elem_of_singleton. by subst y.
Qed.

Lemma NoDup_map_inj {A B} (g : A -> B) (l : list A) x y :
  NoDup (map g l) -> x ∈ l -> y ∈ l -> g x = g y -> x = y.
Proof.
  induction l as [|z l IH]; cbn; [by intros _ Hx%not_elem_of_nil|].
  rewrite NoDup_cons, !elem_of_cons, list_elem_of_In, in_map_iff. intros [Hz Hl] Hx Hy Hg.
  destruct Hx as [->|Hx], Hy as [->|Hy]; [done| | |by apply IH].
  - destruct Hz. exists y. by rewrite <- list_elem_of_In.
  - destruct Hz. exists x. by rewrite <- list_elem_of_In.
Qed.

Lemma existsb_false_elem {A} (p : A -> bool) l x : existsb p l = false -> x ∈ l -> p x = false.
Proof.
  intros H Hx. destruct (p x) eqn:E; [|done]. rewrite <- H. symmetry. apply existsb_exists.
  exists x. by rewrite <- list_elem_of_In.
Qed.

Lemma not_in_map_existsb {A} (g : A -> string) l x :
  existsb (fun y => String.eqb (g y) (g x)) l = false -> g x ∉ map g l.
Proof.
  rewrite list_elem_of_In, in_map_iff. intros H (y & Hg & Hy%list_elem_of_In).
  pose proof (existsb_false_elem _ _ _ H Hy) as Hf. cbn in Hf. by rewrite Hg, String.eqb_refl in Hf.
Qed.

Lemma session_of_token_Some token now t s u :
  session_of_token token now t = Some (s, u) ->
  s ∈ acc_sessions t /\ u ∈ acc_users t /\ us_session_token s = token /\
  text_lt now (us_expires_at s) = true /\ u_id u = us_usuario_id s.
Proof.
  unfold session_of_token. set (l := flat_map _ _). intros H.
  assert ((s, u) ∈ l) as Hin by (destruct l; [done|injection H as ->; left]).
  subst l. apply list_elem_of_In, in_flat_map in Hin as (s0 & Hs0 & Hin).
  unfold live_session in Hin. destruct (_ && _) eqn:E in Hin; [|done].
  apply in_map_iff in Hin as (u0 & [= -> ->] & Hu). apply filter_In in Hu as [Hu Hid].
  apply andb_true_iff in E as [Ht He]. apply String.eqb_eq in Ht. apply Z.eqb_eq in Hid.
  by rewrite !list_elem_of_In.
Qed.

(** Every live session of the token belongs to the user the join finds. *)
Lemma session_of_token_exists token now t s u :
  s ∈ acc_sessions t -> u ∈ acc_users t -> live_session token now s = true ->
  u_id u = us_usuario_id s -> exists s' u', session_of_token token now t = Some (s', u').
Proof.
  intros Hs Hu Hl Hid. unfold session_of_token. set (l := flat_map _ _).
  assert (In (s, u) l) as Hin.
  { apply in_flat_map. exists s. rewrite Hl. split; [by apply list_elem_of_In|].
    apply in_map, filter_In. split; [by apply list_elem_of_In|by apply Z.eqb_eq]. }
  destruct l as [|[s' u'] l]; [done|]. by exists s', u'.
Qed.
