(* ===== verification/AccessTables.v ===== *)
(** * The statements of commands/access.rs

    Queries and updates of the user, profile and settings tables of
    [Accounts], with what SQLite enforces on them: the unique indexes, the
    foreign keys and their cascades ([open_connection] turns foreign keys on),
    and the ids AUTOINCREMENT gives. *)

From Stdlib Require Import Ascii.
From S2P Require Import Prelude RustStr Json NetAddr NetBind RuntimeSettings.
From S2P Require Import ServiceConfigs RuntimeStore AppLog Accounts.

#[local] Open Scope string_scope.

Definition fk_failed : string := "FOREIGN KEY constraint failed".

(** The id of a new row: above every id the table has or had. *)
Definition next_rowid (seq : Z) (ids : list Z) : result string Z :=
  let m := foldr Z.max seq ids in
  if (m <? I64_MAX)%Z then Ok (m + 1)%Z else Err "database or disk is full".

(** [LIKE]: [%] stands for any text, [_] for one character, and the other
    characters for themselves, ASCII letters in either case. *)
Fixpoint skip_continuation (s : string) : string :=
  match s with
  | String a r => if in_range 128 191 a then skip_continuation r else s
  | "" => ""
  end.

Fixpoint sql_like (p s : string) : bool :=
  match p with
  | "" => is_empty s
  | String c r =>
      if Ascii.eqb c "%" then
        (fix any (s : string) : bool :=
           sql_like r s || match s with String _ s' => any s' | "" => false end) s
      else match s with
           | "" => false
           | String d s' =>
               if Ascii.eqb c "_" then sql_like r (skip_continuation s')
               else Ascii.eqb (lower_byte c) (lower_byte d) && sql_like r s'
           end
  end.

(** A column that may be NULL, under [LIKE] in a [WHERE]. *)
Definition opt_like (p : string) (o : option string) : bool :=
  match o with Some s => sql_like p s | None => false end.

(** ** Settings *)

(** A text column of a row that may be missing; NULL is not a text. *)
Definition text_column (column : string) (o : option (option string)) : result string (option string) :=
  match o with
  | None => Ok None
  | Some (Some s) => Ok (Some s)
  | Some None => Err ("Invalid column type Null at index: 0, name: " ++ column)
  end.

Definition setting_of (key : string) (t : Accounts) : option (option string) :=
  st_valor <$> list_find (fun s => String.eqb (st_chave s) key) (acc_settings t).

(*| src-tauri/src/commands/access.rs 199-205 user_policy_save *)
Definition upsert_setting (key value now : string) : Accounts -> Accounts :=
  with_settings (fun l =>
    if existsb (fun s => String.eqb (st_chave s) key) l
    then update_where (fun s => String.eqb (st_chave s) key) (fun s => {|
           st_chave := st_chave s; st_valor := Some value; st_created_at := st_created_at s;
           st_updated_at := now |}) l
    else (l ++ [{| st_chave := key; st_valor := Some value; st_created_at := now;
                   st_updated_at := now |}])%list).

(** ** Profiles *)

(** The columns a save writes. *)
Record ProfileForm : Type := {
  pf_nome : string; pf_descricao : option string; pf_perfil_master : Z; pf_ativo : Z }.

Definition profile_by_id (id : Z) (t : Accounts) : option Perfil :=
  list_find (fun p => (p_id p =? id)%Z) (acc_profiles t).

Definition other_id (id : option Z) (row : Z) : bool :=
  match id with None => true | Some id => negb (row =? id)%Z end.

(*| src-tauri/src/commands/access.rs 384-391 profile_save *)
Definition profile_name_taken (nome : string) (id : option Z) (t : Accounts) : bool :=
  existsb (fun p => eq_ignore_ascii_case (p_nome p) nome && other_id id (p_id p)) (acc_profiles t).

Definition written_profile (f : ProfileForm) (now : string) (p : Perfil) : Perfil := {|
  p_id := p_id p; p_nome := pf_nome f; p_descricao := pf_descricao f;
  p_perfil_master := pf_perfil_master f; p_ativo := pf_ativo f;
  p_created_at := p_created_at p; p_updated_at := now |}.

(*| src-tauri/src/commands/access.rs 398-404 profile_save *)
Definition update_profile (f : ProfileForm) (now : string) (id : Z) (t : Accounts) :
    result string Accounts :=
  if existsb (fun p => (p_id p =? id)%Z) (acc_profiles t)
     && existsb (fun p => String.eqb (p_nome p) (pf_nome f) && negb (p_id p =? id)%Z) (acc_profiles t)
  then Err "UNIQUE constraint failed: perfis_acesso.nome"
  else Ok (with_profiles (update_where (fun p => (p_id p =? id)%Z) (written_profile f now)) t).

(*| src-tauri/src/commands/access.rs 407-413 profile_save *)
Definition insert_profile (f : ProfileForm) (now : string) (t : Accounts) :
    result string (Z * Accounts) :=
  if existsb (fun p => String.eqb (p_nome p) (pf_nome f)) (acc_profiles t)
  then Err "UNIQUE constraint failed: perfis_acesso.nome"
  else id ← next_rowid (sq_profiles (acc_seq t)) (map p_id (acc_profiles t));
       Ok (id, with_seq {| sq_users := sq_users (acc_seq t); sq_profiles := id;
                           sq_companies := sq_companies (acc_seq t);
                           sq_licenses := sq_licenses (acc_seq t) |}
         (with_profiles (fun l => l ++ [{|
            p_id := id; p_nome := pf_nome f; p_descricao := pf_descricao f;
            p_perfil_master := pf_perfil_master f; p_ativo := pf_ativo f;
            p_created_at := now; p_updated_at := now |}])%list t)).

(*| src-tauri/src/commands/access.rs 416-420 profile_save *)
Definition delete_profile_perms (id : Z) : Accounts -> Accounts :=
  with_profile_perms (List.filter (fun r => negb (fst r =? id)%Z)).

(*| src-tauri/src/commands/access.rs 428-432 profile_save *)
Definition insert_profile_perm (id : Z) (key : string) (t : Accounts) : result string Accounts :=
  if existsb (fun r => (fst r =? id)%Z && String.eqb (snd r) key) (acc_profile_perms t)
  then Err "UNIQUE constraint failed: perfis_permissoes.perfil_id, perfis_permissoes.permissao_chave"
  else if existsb (fun p => (p_id p =? id)%Z) (acc_profiles t)
  then Ok (with_profile_perms (fun l => l ++ [(id, key)])%list t)
  else Err fk_failed.

(*| src-tauri/src/commands/access.rs 473-479 profile_delete *)
Definition count_profile_users (id : Z) (t : Accounts) : Z :=
  Z.of_nat (length (List.filter (fun r => (snd r =? id)%Z) (acc_user_profiles t))).

(** The rows that refer to the profile go with it. *)
(*| src-tauri/src/commands/access.rs 489-491 profile_delete *)
Definition delete_profile (id : Z) (t : Accounts) : Z * Accounts :=
  (Z.of_nat (length (List.filter (fun p => (p_id p =? id)%Z) (acc_profiles t))),
   with_user_profiles (List.filter (fun r => negb (snd r =? id)%Z))
     (delete_profile_perms id
        (with_profiles (List.filter (fun p => negb (p_id p =? id)%Z)) t))).

(** ** Users *)

(** The columns a save writes, but the password's. *)
Record UserForm : Type := {
  uf_nome : string;
  uf_login : string;
  uf_email : option string;
  uf_telefone : option string;
  uf_cargo : option string;
  uf_observacoes : option string;
  uf_photo_url : option string;
  uf_master_user : Z;
  uf_administrador : Z;
  uf_senha_provisoria : Z;
  uf_ativo : Z;
}.

(*| src-tauri/src/commands/access.rs 681-688 user_save *)
Definition login_taken (login : string) (id : option Z) (t : Accounts) : bool :=
  existsb (fun u => eq_ignore_ascii_case (u_login u) login && other_id id (u_id u)) (acc_users t).

(** The row of an update; a save without a password keeps the hash. *)
Definition written_user (f : UserForm) (hash : option string) (now : string) (u : Usuario) : Usuario := {|
  u_id := u_id u; u_nome := uf_nome f; u_login := uf_login f; u_email := uf_email f;
  u_telefone := uf_telefone f; u_cargo := uf_cargo f; u_observacoes := uf_observacoes f;
  u_photo_url := uf_photo_url f; u_senha_hash := unwrap_or (u_senha_hash u) hash;
  u_administrador := uf_administrador f; u_master_user := uf_master_user f;
  u_senha_provisoria := uf_senha_provisoria f; u_ativo := uf_ativo f;
  u_ultimo_login_em := u_ultimo_login_em u; u_created_at := u_created_at u; u_updated_at := now |}.

(** The two updates, with and without the hash. *)
(*| src-tauri/src/commands/access.rs 737-784 user_save *)
Definition update_user (f : UserForm) (hash : option string) (now : string) (id : Z) (t : Accounts) :
    result string Accounts :=
  if existsb (fun u => (u_id u =? id)%Z) (acc_users t)
     && existsb (fun u => String.eqb (u_login u) (uf_login f) && negb (u_id u =? id)%Z) (acc_users t)
  then Err "UNIQUE constraint failed: usuarios.login"
  else Ok (with_users (update_where (fun u => (u_id u =? id)%Z) (written_user f hash now)) t).

Definition new_user (f : UserForm) (hash now : string) (id : Z) : Usuario := {|
  u_id := id; u_nome := uf_nome f; u_login := uf_login f; u_email := uf_email f;
  u_telefone := uf_telefone f; u_cargo := uf_cargo f; u_observacoes := uf_observacoes f;
  u_photo_url := uf_photo_url f; u_senha_hash := hash; u_administrador := uf_administrador f;
  u_master_user := uf_master_user f; u_senha_provisoria := uf_senha_provisoria f;
  u_ativo := uf_ativo f; u_ultimo_login_em := None; u_created_at := now; u_updated_at := now |}.

(*| src-tauri/src/commands/access.rs 794-816 user_save *)
Definition insert_user (f : UserForm) (hash now : string) (t : Accounts) :
    result string (Z * Accounts) :=
  if existsb (fun u => String.eqb (u_login u) (uf_login f)) (acc_users t)
  then Err "UNIQUE constraint failed: usuarios.login"
  else id ← next_rowid (sq_users (acc_seq t)) (map u_id (acc_users t));
       Ok (id, with_seq {| sq_users := id; sq_profiles := sq_profiles (acc_seq t);
                           sq_companies := sq_companies (acc_seq t);
                           sq_licenses := sq_licenses (acc_seq t) |}
         (with_users (fun l => l ++ [new_user f hash now id])%list t)).

(*| src-tauri/src/commands/access.rs 819-823 user_save *)
Definition delete_user_profiles (id : Z) : Accounts -> Accounts :=
  with_user_profiles (List.filter (fun r => negb (fst r =? id)%Z)).
(*| src-tauri/src/commands/access.rs 824-828 user_save *)
Definition delete_user_companies (id : Z) : Accounts -> Accounts :=
  with_user_companies (List.filter (fun r => negb (fst r =? id)%Z)).

Definition pair_in (a b : Z) (l : list (Z * Z)) : bool :=
  existsb (fun r => (fst r =? a)%Z && (snd r =? b)%Z) l.

(*| src-tauri/src/commands/access.rs 831-835 user_save *)
Definition insert_user_profile (id perfil_id : Z) (t : Accounts) : result string Accounts :=
  if pair_in id perfil_id (acc_user_profiles t)
  then Err "UNIQUE constraint failed: usuarios_perfis.usuario_id, usuarios_perfis.perfil_id"
  else if existsb (fun u => (u_id u =? id)%Z) (acc_users t)
          && existsb (fun p => (p_id p =? perfil_id)%Z) (acc_profiles t)
  then Ok (with_user_profiles (fun l => l ++ [(id, perfil_id)])%list t)
  else Err fk_failed.

(*| src-tauri/src/commands/access.rs 839-843 user_save *)
Definition insert_user_company (id empresa_id : Z) (t : Accounts) : result string Accounts :=
  if pair_in id empresa_id (acc_user_companies t)
  then Err "UNIQUE constraint failed: usuarios_empresas.usuario_id, usuarios_empresas.empresa_id"
  else if existsb (fun u => (u_id u =? id)%Z) (acc_users t)
          && existsb (fun e => (e_id e =? empresa_id)%Z) (acc_companies t)
  then Ok (with_user_companies (fun l => l ++ [(id, empresa_id)])%list t)
  else Err fk_failed.

(*| src-tauri/src/commands/access.rs 600-608 user_get *)
Definition profile_ids_of (id : Z) (t : Accounts) : list Z :=
  sort_by Z.leb (map snd (List.filter (fun r => (fst r =? id)%Z) (acc_user_profiles t))).
(*| src-tauri/src/commands/access.rs 610-616 user_get *)
Definition company_ids_of (id : Z) (t : Accounts) : list Z :=
  sort_by Z.leb (map snd (List.filter (fun r => (fst r =? id)%Z) (acc_user_companies t))).

(*| src-tauri/src/commands/access.rs 890-896 user_delete *)
Definition count_masters (t : Accounts) : Z :=
  Z.of_nat (length (List.filter (fun u => (u_master_user u =? 1)%Z && (u_ativo u =? 1)%Z)
    (acc_users t))).

(*| src-tauri/src/commands/access.rs 911-912 user_delete *)
Definition delete_user_sessions (id : Z) : Accounts -> Accounts :=
  with_sessions (List.filter (fun s => negb (us_usuario_id s =? id)%Z)).

(** The links, sessions and unlocks of the user go with the row. *)
(*| src-tauri/src/commands/access.rs 913-915 user_delete *)
Definition delete_user (id : Z) (t : Accounts) : Z * Accounts :=
  (Z.of_nat (length (List.filter (fun u => (u_id u =? id)%Z) (acc_users t))),
   with_unlocks (List.filter (fun u => negb (ul_usuario_id u =? id)%Z))
     (delete_user_sessions id (delete_user_companies id (delete_user_profiles id
        (with_users (List.filter (fun u => negb (u_id u =? id)%Z)) t))))).
