(* ===== verification/Auth.v ===== *)
(** * Sessions: commands/auth.rs

    Login, session check, logout and password change, statement by statement
    over the tables of [Accounts]. The clock's instants and their text, the
    random identifiers and Unicode's lower case are the class [AuthWorld].
    Commands run one at a time: each is a function from the tables and the
    outside world before it to those after it. *)

From S2P Require Import Prelude RustStr Json Security NetAddr NetBind RuntimeSettings.
From S2P Require Import ServiceConfigs RuntimeStore AppLog Accounts.

#[local] Open Scope string_scope.
#[local] Open Scope tunnara_scope.

Class AuthWorld (W : Type) : Type := {
  instant : Type;
  utc_now : St W instant;
  plus_days : instant -> N -> instant;
  plus_minutes : instant -> N -> instant;
  to_rfc3339 : instant -> string;
  uuid_v4 : St W string;
  unicode_lowercase : string -> string;
}.

(*| src-tauri/src/models.rs 31-35 SessionIdentity *)
Record SessionIdentity : Type := { si_user_id : Z; si_master_user : bool }.

(*| src-tauri/src/models.rs 12-29 AuthUser *)
Record AuthUser : Type := {
  au_id : Z;
  au_nome : string;
  au_login : string;
  au_email : option string;
  au_telefone : option string;
  au_cargo : option string;
  au_photo_url : option string;
  au_administrador : bool;
  au_master_user : bool;
  au_senha_provisoria : bool;
  au_permission_keys : list string;
  au_profile_names : list string;
  au_company_ids : list Z;
  au_company_names : list string;
}.

(*| src-tauri/src/models.rs 4-10 LoginResponse *)
Record LoginResponse : Type := {
  lr_success : bool;
  lr_message : string;
  lr_session_token : option string;
  lr_user : option AuthUser;
}.

(*| src-tauri/src/commands/auth.rs 13-31 PERMISSION_CATALOG *)
Definition PERMISSION_CATALOG : list (string * string) :=
  [("dashboard:view", "Visualizar dashboard");
   ("empresas:view", "Visualizar empresas");
   ("empresas:manage", "Gerenciar empresas");
   ("cadastros:view", "Visualizar cadastros genéricos");
   ("cadastros:manage", "Gerenciar cadastros genéricos");
   ("usuarios:view", "Visualizar usuários");
   ("usuarios:manage", "Gerenciar usuários");
   ("perfis:view", "Visualizar perfis de acesso");
   ("perfis:manage", "Gerenciar perfis de acesso");
   ("config:view", "Visualizar configurações");
   ("config:manage", "Gerenciar configurações");
   ("licenciamento:view", "Visualizar licenciamento");
   ("licenciamento:manage", "Gerenciar licenciamento");
   ("logs:view", "Visualizar logs");
   ("logs:manage", "Gerenciar logs");
   ("sync:view", "Visualizar fila de sincronização");
   ("relatorios:export", "Exportar relatórios")].

(*| src-tauri/src/commands/auth.rs 33-42 all_permission_keys *)
Definition all_permission_keys : list string :=
  dedup String.eqb (sort_by text_le (map fst PERMISSION_CATALOG)).

Definition failed_login (message : string) : LoginResponse :=
  {| lr_success := false; lr_message := message; lr_session_token := None; lr_user := None |}.

Section Auth.
Context {W : Type} `{LO : LogOs W} `{ST : !Statements W} `{CR : Crypto} `{RN : !Randomness W}
  `{AW : !AuthWorld W}.
Context (state : SharedState).

(** The data directory and a connection to the database of the application. *)
Definition open_app : St db (result string (db_conn * string)) :=
  match state with
  | None => mret (Err "Aplicação ainda não inicializada.")
  | Some ctx => conn ←? lift (db_open (ctx_db_path ctx)); mret (Ok (conn, ctx_data_dir ctx))
  end.

(** [let _ = write_app_log(...)] *)
Definition log_command (app : db_conn * string) (level category message : string)
    (details : option value) : St db (result string unit) :=
  _ ← lift (write_app_log (fst app) (snd app) {|
    log_level := level; log_category := category; log_message := message;
    log_source := Some "backend"; log_route := None; log_details := details |});
  mret (Ok ()).

Definition now_text : St db (result string string) :=
  now ← lift utc_now; mret (Ok (to_rfc3339 now)).

(*| src-tauri/src/commands/auth.rs 44-157 build_auth_user *)
Definition build_auth_user (user_id : Z) : St db (result string AuthUser) :=
  base ←? select "Falha ao carregar usuário autenticado" (user_by_id user_id);
  match base with
  | None => mret (Err "Usuário da sessão não encontrado.")
  | Some base =>
      if (u_ativo base =? 0)%Z then mret (Err "Usuário inativo.") else
      profile_names ←? select "Falha ao consultar perfis do usuário" (profile_names_of user_id);
      company_rows ←? select "Falha ao consultar empresas do usuário" (companies_of user_id);
      permission_keys ←?
        (if (u_master_user base =? 1)%Z then mret (Ok all_permission_keys)
         else select "Falha ao consultar permissões do usuário" (permissions_of user_id));
      mret (Ok {|
        au_id := u_id base; au_nome := u_nome base; au_login := u_login base;
        au_email := u_email base; au_telefone := u_telefone base; au_cargo := u_cargo base;
        au_photo_url := u_photo_url base;
        au_administrador := (u_administrador base =? 1)%Z;
        au_master_user := (u_master_user base =? 1)%Z;
        au_senha_provisoria := (u_senha_provisoria base =? 1)%Z;
        au_permission_keys := permission_keys; au_profile_names := profile_names;
        au_company_ids := map fst company_rows; au_company_names := map snd company_rows |})
  end.

(*| src-tauri/src/commands/auth.rs 159-204 require_session_by_token *)
Definition require_session_by_token (session_token : string) :
    St db (result string SessionIdentity) :=
  let token := trim session_token in
  if is_empty token then mret (Err "Sessão inválida ou expirada.") else
  now ←? now_text;
  session ←? select "Falha ao validar sessão" (session_of_token token now);
  match session with
  | None => mret (Err "Sessão inválida ou expirada.")
  | Some (s, u) =>
      if (u_ativo u =? 0)%Z then mret (Err "Usuário inativo.") else
      _ ←? execute "Falha ao atualizar atividade da sessão" (update_session_activity now token);
      mret (Ok {| si_user_id := us_usuario_id s; si_master_user := (u_master_user u =? 1)%Z |})
  end.

(** The statements of a login whose password was right. *)
(*| src-tauri/src/commands/auth.rs 265-314 auth_login *)
Definition create_session (app : db_conn * string) (row : Usuario) :
    St db (result string LoginResponse) :=
  now ← lift utc_now;
  session_token ← lift uuid_v4;
  let expires_at := to_rfc3339 (plus_days now 7) in
  let now_str := to_rfc3339 now in
  _ ←? execute "Falha ao limpar sessões antigas" (delete_old_sessions (u_id row) now_str);
  _ ←? insert "Falha ao criar sessão" (insert_session {|
    us_usuario_id := u_id row; us_session_token := session_token; us_created_at := now_str;
    us_expires_at := expires_at; us_last_activity_at := now_str |});
  login_at ←? now_text;
  _ ←? execute "Falha ao atualizar último login" (update_last_login login_at (u_id row));
  user ←? build_auth_user (u_id row);
  _ ←? log_command app "info" "auth" "Login efetuado com sucesso."
    (Some (Object [("usuario_id", json_i64 (u_id row)); ("login", String_ (u_login row))]));
  mret (Ok {|
    lr_success := true;
    lr_message := if au_senha_provisoria user
                  then "Login efetuado com sucesso. Este usuário está com senha provisória."
                  else "Login efetuado com sucesso.";
    lr_session_token := Some session_token;
    lr_user := Some user |}).

(*| src-tauri/src/commands/auth.rs 206-314 auth_login *)
Definition auth_login (login senha : string) : St db (result string LoginResponse) :=
  app ←? open_app;
  let normalized_login := unicode_lowercase (trim login) in
  row ←? select "Falha ao consultar usuário" (user_by_login normalized_login);
  match row with
  | None => mret (Ok (failed_login "Usuário não encontrado."))
  | Some row =>
      if (u_ativo row =? 0)%Z then mret (Ok (failed_login "Usuário inativo.")) else
      match verify_password senha (u_senha_hash row) with
      | Err e => mret (Err e)
      | Ok false => mret (Ok (failed_login "Senha inválida."))
      | Ok true => create_session app row
      end
  end.

(*| src-tauri/src/commands/auth.rs 316-367 auth_restore *)
Definition auth_restore (session_token : string) : St db (result string LoginResponse) :=
  app ←? open_app;
  identity ← require_session_by_token session_token;
  match identity with
  | Err _ =>
      _ ←? log_command app "warning" "session"
        "Falha ao restaurar sessão expirada ou inválida." None;
      mret (Ok (failed_login "Sessão inválida ou expirada."))
  | Ok identity =>
      user ←? build_auth_user (si_user_id identity);
      _ ←? log_command app "info" "session" "Sessão restaurada com sucesso."
        (Some (Object [("usuario_id", json_i64 (si_user_id identity))]));
      mret (Ok {| lr_success := true; lr_message := "Sessão restaurada com sucesso.";
                  lr_session_token := Some session_token; lr_user := Some user |})
  end.

(** The token is compared as it came. *)
(*| src-tauri/src/commands/auth.rs 369-392 auth_logout *)
Definition auth_logout (session_token : string) : St db (result string bool) :=
  app ←? open_app;
  _ ←? execute "Falha ao encerrar sessão" (delete_session session_token);
  _ ←? log_command app "info" "session" "Sessão encerrada." None;
  mret (Ok true).

(** A user's password hash, which [query_row] requires to exist. *)
(*| src-tauri/src/commands/auth.rs 410-416 auth_change_password *)
Definition stored_password (what : string) (user_id : Z) : St db (result string string) :=
  statement what (fun t =>
    match user_by_id user_id t with
    | Some u => Ok (u_senha_hash u, t)
    | None => Err "Query returned no rows"
    end).

(*| src-tauri/src/commands/auth.rs 394-442 auth_change_password *)
Definition auth_change_password (session_token current_password new_password : string) :
    St db (result string bool) :=
  app ←? open_app;
  identity ←? require_session_by_token session_token;
  if (String.length (trim new_password) <? 6)%nat
  then mret (Err "A nova senha deve conter ao menos 6 caracteres.") else
  current_hash ←? stored_password "Falha ao consultar senha atual" (si_user_id identity);
  match verify_password (trim current_password) current_hash with
  | Err e => mret (Err e)
  | Ok false => mret (Err "A senha atual informada está incorreta.")
  | Ok true =>
      new_hash ←? lift (hash_password (trim new_password));
      now ←? now_text;
      _ ←? execute "Falha ao atualizar senha" (update_password new_hash now (si_user_id identity));
      _ ←? log_command app "info" "auth" "Senha alterada com sucesso."
        (Some (Object [("usuario_id", json_i64 (si_user_id identity))]));
      mret (Ok true)
  end.

End Auth.

(** ** Lemmas *)

Section Properties.
Context {W : Type} `{LO : LogOs W} `{ST : !Statements W} `{CR : Crypto} `{RN : !Randomness W}
  `{AW : !AuthWorld W}.
Implicit Types s : db (W := W).

Lemma now_text_run s r s1 :
  now_text s = (r, s1) -> r = Ok (to_rfc3339 (fst (utc_now (snd s)))) /\ fst s1 = fst s.
Proof.
  unfold now_text, lift, mbind, st_bind, mret, st_ret. destruct (utc_now (snd s)) as [n w].
  by intros [= <- <-].
Qed.

Lemma log_command_run app level category message details s r s1 :
  log_command app level category message details s = (r, s1) -> r = Ok () /\ fst s1 = fst s.
Proof.
  unfold log_command. intros H. run_bind H x s2 as E. apply lift_tables in E.
  by injection H as <- <-.
Qed.

Lemma open_app_tables state s r s1 : open_app state s = (r, s1) -> fst s1 = fst s.
Proof.
  unfold open_app. destruct state as [ctx|]; [|by intros [= <- <-]].
  intros [(c & p & E & H)|(e & E & _)]%try_inv; apply lift_tables in E; [|done].
  by injection H as <- <-.
Qed.

Lemma build_auth_user_tables id s r s1 : build_auth_user id s = (r, s1) -> fst s1 = fst s.
Proof.
  assert (preserves (fun t => t = fst s) (build_auth_user id)) as H; [|intros E; by apply H in E].
  unfold build_auth_user. keep.
Qed.

(** An answer that names a user comes from a live session of that user, and
    writes nothing but the time of last use of that session; a check that fails
    writes nothing. *)
Lemma require_session_inv token s r s' :
  require_session_by_token token s = (r, s') ->
  let now := to_rfc3339 (fst (utc_now (snd s))) in
  match r with
  | Err _ => fst s' = fst s
  | Ok id => exists ses u, ses ∈ acc_sessions (fst s) /\ u ∈ acc_users (fst s) /\
      us_session_token ses = trim token /\ trim token <> "" /\
      text_lt now (us_expires_at ses) = true /\
      u_id u = us_usuario_id ses /\ u_ativo u <> 0%Z /\
      id = {| si_user_id := u_id u; si_master_user := (u_master_user u =? 1)%Z |} /\
      fst s' = update_session_activity now (trim token) (fst s)
  end.
Proof.
  cbv zeta. unfold require_session_by_token.
  destruct (is_empty (trim token)) eqn:Et; [by intros [= <- <-]|].
  intros [(now & s1 & E & H)|(e & E & ->)]%try_inv; [|by apply now_text_run in E as [? ?]].
  apply now_text_run in E as [[= ->] E1].
  apply try_inv in H as [(o & s2 & E2 & H)|(e & E2 & ->)];
    [|apply select_tables in E2; congruence].
  apply select_inv in E2 as [-> E2]. rewrite E1 in *.
  destruct (session_of_token _ _ _) as [[ses u]|] eqn:Eq; [|injection H as <- <-; congruence].
  apply session_of_token_Some in Eq as (Hs & Hu & Htok & Hexp & Hid).
  destruct (Z.eqb_spec (u_ativo u) 0); [injection H as <- <-; congruence|].
  apply try_inv in H as [([] & s3 & E3 & H)|(e & E3 & ->)]; apply execute_tables in E3;
    cbn [is_ok] in E3; [|congruence]. injection H as <- <-.
  exists ses, u. rewrite Hid. split_and!; try done; [|congruence].
  intros Hn. by rewrite Hn in Et.
Qed.

(** A session found for a token is accepted, when the engine runs the
    statements. *)
Lemma require_session_complete token s ses u :
  ses ∈ acc_sessions (fst s) -> u ∈ acc_users (fst s) ->
  NoDup (map us_session_token (acc_sessions (fst s))) -> NoDup (map u_id (acc_users (fst s))) ->
  trim token <> "" -> us_session_token ses = trim token ->
  text_lt (to_rfc3339 (fst (utc_now (snd s)))) (us_expires_at ses) = true ->
  u_id u = us_usuario_id ses -> u_ativo u <> 0%Z ->
  (forall w, fst (sql_fault w) = None) ->
  fst (require_session_by_token token s)
  = Ok {| si_user_id := u_id u; si_master_user := (u_master_user u =? 1)%Z |}.
Proof.
  intros Hs Hu Nt Nu Hne Htok Hexp Hid Hact Hfault.
  unfold require_session_by_token. destruct (is_empty (trim token)) eqn:Et;
    [by apply is_empty_spec in Et|].
  destruct (now_text s) as [r s1] eqn:E1. pose proof (now_text_run _ _ _ E1) as [-> Ht].
  rewrite (try_run _ _ _ _ _ E1). unfold select, execute, statement, try, mbind, st_bind.
  pose proof (Hfault (snd s1)) as F1. destruct (sql_fault (snd s1)) as [f w2]. cbn in F1. subst f.
  cbn [fst snd]. rewrite Ht.
  destruct (session_of_token_exists (trim token) (to_rfc3339 (fst (utc_now (snd s)))) (fst s) ses u)
    as (ses' & u' & E); [done|done| |done|].
  { unfold live_session. by rewrite Htok, String.eqb_refl. }
  rewrite E. apply session_of_token_Some in E as (Hs' & Hu' & Htok' & _ & Hid').
  assert (ses' = ses) as -> by (eapply NoDup_map_inj; eauto; congruence).
  assert (u' = u) as -> by (eapply NoDup_map_inj; eauto; congruence).
  destruct (Z.eqb_spec (u_ativo u) 0); [done|]. cbn [fst snd].
  pose proof (Hfault w2) as F2. destruct (sql_fault w2) as [f w3]. cbn in F2. subst f.
  cbn. by rewrite Hid.
Qed.
(** C2. A token names a user exactly when, trimmed, it is the token of a session
    row that ends after the clock's reading and whose user exists and is active:
    nothing else about the request matters. *)
Theorem session_accepted_iff token s id :
  NoDup (map us_session_token (acc_sessions (fst s))) -> NoDup (map u_id (acc_users (fst s))) ->
  (forall w : W, fst (sql_fault w) = None) ->
  fst (require_session_by_token token s) = Ok id <->
  trim token <> "" /\ exists ses u, ses ∈ acc_sessions (fst s) /\ u ∈ acc_users (fst s) /\
    us_session_token ses = trim token /\
    text_lt (to_rfc3339 (fst (utc_now (snd s)))) (us_expires_at ses) = true /\
    u_id u = us_usuario_id ses /\ u_ativo u <> 0%Z /\
    id = {| si_user_id := u_id u; si_master_user := (u_master_user u =? 1)%Z |}.
Proof.
  intros Nt Nu Hf. split.
  - destruct (require_session_by_token token s) as [r s'] eqn:E. cbn. intros ->.
    apply require_session_inv in E as (ses & u & E). naive_solver.
  - intros (Hne & ses & u & Hs & Hu & Ht & He & Hi & Ha & ->).
    by eapply require_session_complete.
Qed.

(** What a session created at login is, in the tables after the login. *)
Definition logged_in (u : Usuario) (resp : LoginResponse) (t : Accounts) : Prop :=
  lr_success resp = true /\
  exists ses, ses ∈ acc_sessions t /\ lr_session_token resp = Some (us_session_token ses) /\
    us_usuario_id ses = u_id u /\
    (forall ses', ses' ∈ acc_sessions t -> us_usuario_id ses' = u_id u -> ses' = ses).

Lemma insert_session_Ok ses t t' : insert_session ses t = Ok t' ->
  t' = with_sessions (fun l => l ++ [ses])%list t /\
  us_session_token ses ∉ map us_session_token (acc_sessions t).
Proof.
  unfold insert_session. destruct (existsb _ _) eqn:E; [done|]. intros [= <-].
  split; [done|]. by apply not_in_map_existsb in E.
Qed.

Lemma deleted_sessions id now t ses :
  ses ∈ acc_sessions (delete_old_sessions id now t) -> us_usuario_id ses <> id.
Proof.
  cbn. rewrite elem_filter, negb_true_iff, orb_false_iff. intros (_ & H & _).
  by apply Z.eqb_neq.
Qed.

Lemma create_session_spec app u s resp s' :
  create_session app u s = (Ok resp, s') -> logged_in u resp (fst s').
Proof.
  unfold create_session. intros H. run_bind H now s1 as E1. run_bind H tok s2 as E2.
  apply try_Ok in H as ([] & s3 & E3 & H). apply execute_tables in E3. cbn [is_ok] in E3.
  apply try_Ok in H as ([] & s4 & E4 & H).
  apply insert_tables in E4 as [(_ & E4)|(? & _)]; [|done].
  apply insert_session_Ok in E4 as [E4 _]. set (ses := {| us_usuario_id := _ |}) in E4.
  apply try_Ok in H as (at_ & s5 & E5 & H). apply now_text_run in E5 as [_ E5].
  apply try_Ok in H as ([] & s6 & E6 & H). apply execute_tables in E6. cbn [is_ok] in E6.
  apply try_Ok in H as (au & s7 & E7 & H). apply build_auth_user_tables in E7.
  apply try_Ok in H as ([] & s8 & E8 & H). apply log_command_run in E8 as [_ E8].
  injection H as <- <-. split; [done|].
  assert (acc_sessions (fst s8) = acc_sessions (delete_old_sessions (u_id u) (to_rfc3339 now) (fst s2)) ++ [ses])%list
    as Hs by (rewrite E8, E7, E6, E5, E4, E3; done).
  exists ses. rewrite Hs. split_and!; [apply elem_of_app; right; by left|done|done|].
  intros ses' [Hin|Hin%list_elem_of_singleton]%elem_of_app Hid; [|done].
  by apply deleted_sessions in Hin.
Qed.

(** C9. A login changes the tables, or succeeds, only for an active user whose
    stored hash the password verifies, and a successful one leaves that user
    with exactly one session, the one whose token it returns. Every other
    answer leaves the tables as they were. *)
Theorem auth_login_sound state login senha s r s' :
  auth_login state login senha s = (r, s') ->
  (fst s' = fst s /\ forall resp, r = Ok resp ->
      lr_success resp = false /\ lr_session_token resp = None /\ lr_user resp = None) \/
  (exists u, user_by_login (unicode_lowercase (trim login)) (fst s) = Some u /\
      u_ativo u <> 0%Z /\ verify_password senha (u_senha_hash u) = Ok true /\
      forall resp, r = Ok resp -> logged_in u resp (fst s')).
Proof.
  unfold auth_login. intros [(app & s1 & E1 & H)|(e & E1 & ->)]%try_inv;
    apply open_app_tables in E1; [|by left].
  apply try_inv in H as [(row & s2 & E2 & H)|(e & E2 & ->)];
    [|left; apply select_tables in E2; split; [congruence|done]].
  apply select_inv in E2 as [-> E2]. rewrite E1 in *.
  assert (forall m, (Ok (E := string) (failed_login m), s2) = (r, s') ->
    fst s' = fst s /\ forall resp, r = Ok resp ->
      lr_success resp = false /\ lr_session_token resp = None /\ lr_user resp = None) as Hf.
  { intros m [= <- <-]. split; [done|]. by intros resp [= <-]. }
  destruct (user_by_login _ _) as [u|] eqn:Eu; [|left; by eapply Hf].
  destruct (Z.eqb_spec (u_ativo u) 0); [left; by eapply Hf|].
  destruct (verify_password _ _) as [[]|e] eqn:Ep.
  - right. exists u. split_and!; [done..|]. intros resp ->. by eapply create_session_spec.
  - left. by eapply Hf.
  - left. injection H as <- <-. done.
Qed.

(** Logging out ends the session of a token that has no white space around it:
    whatever the clock says, the token is refused afterwards. *)
Theorem logout_ends_session state token s s' s2 :
  auth_logout state token s = (Ok true, s') -> fst s2 = fst s' -> trim token = token ->
  is_ok (fst (require_session_by_token token s2)) = false.
Proof.
  unfold auth_logout. intros H Ht Htrim. apply try_Ok in H as (app & s1 & E1 & H).
  apply try_Ok in H as ([] & s3 & E3 & H). apply execute_tables in E3. cbn [is_ok] in E3.
  apply try_Ok in H as ([] & s4 & E4 & H). apply log_command_run in E4 as [_ E4].
  injection H as <-. destruct (require_session_by_token token s2) as [[id|e] s5] eqn:E; [|done].
  apply require_session_inv in E. destruct E as (ses & u & Hin & _ & Htok & _).
  rewrite Ht, E4, E3 in Hin. cbn in Hin. apply elem_filter in Hin as [_ Hne].
  by rewrite Htok, Htrim, String.eqb_refl in Hne.
Qed.

(** The two checks of a token differ: logging out with white space around the
    token removes nothing, while the session check accepts that spelling. *)
Theorem logout_untrimmed_keeps_session state token s s' :
  auth_logout state token s = (Ok true, s') -> trim token <> token ->
  (forall ses, ses ∈ acc_sessions (fst s) -> trim (us_session_token ses) = us_session_token ses) ->
  acc_sessions (fst s') = acc_sessions (fst s).
Proof.
  unfold auth_logout. intros H Hne Hclean. apply try_Ok in H as (app & s1 & E1 & H).
  apply open_app_tables in E1.
  apply try_Ok in H as ([] & s3 & E3 & H). apply execute_tables in E3. cbn [is_ok] in E3.
  apply try_Ok in H as ([] & s4 & E4 & H). apply log_command_run in E4 as [_ E4].
  injection H as <-. rewrite E4, E3, E1. cbn. clear -Hne Hclean.
  induction (acc_sessions (fst s)) as [|x l IH]; [done|]. cbn.
  destruct (String.eqb_spec (us_session_token x) token) as [He|He]; cbn.
  - destruct Hne. rewrite <- He. apply Hclean. by left.
  - f_equal. apply IH. intros y Hy. apply Hclean. by right.
Qed.

Lemma stored_password_inv what id s h s' :
  stored_password what id s = (Ok h, s') ->
  exists u, user_by_id id (fst s) = Some u /\ h = u_senha_hash u /\ fst s' = fst s.
Proof.
  unfold stored_password, statement. destruct (sql_fault _) as [[e|] w]; [done|].
  destruct (user_by_id id (fst s)) as [u|]; [|done]. intros [= <- <-]. eauto.
Qed.

Lemma hash_password_inv p s h s' :
  lift (hash_password p) s = (Ok h, s') -> (exists salt, argon2_hash p salt = Ok h) /\ fst s' = fst s.
Proof.
  intros H. split; [|by apply lift_tables in H]. revert H.
  unfold lift, hash_password, mbind, st_bind, mret, st_ret. destruct (rng_salt (snd s)) as [salt w].
  intros [= E <-]. exists salt. by apply map_err_Ok in E.
Qed.

Lemma elem_update_where {A} (p : A -> bool) f l y :
  y ∈ update_where p f l -> exists x, x ∈ l /\ y = if p x then f x else x.
Proof.
  unfold update_where. rewrite list_elem_of_In, in_map_iff. intros (x & <- & Hx).
  exists x. by rewrite list_elem_of_In.
Qed.

Lemma change_password_inv state token current new s s' :
  auth_change_password state token current new s = (Ok true, s') ->
  exists ses u hash salt now, ses ∈ acc_sessions (fst s) /\ us_session_token ses = trim token /\
    user_by_id (us_usuario_id ses) (fst s) = Some u /\
    verify_password (trim current) (u_senha_hash u) = Ok true /\
    6 <= String.length (trim new) /\ argon2_hash (trim new) salt = Ok hash /\
    acc_users (fst s') = acc_users (update_password hash now (us_usuario_id ses) (fst s)).
Proof.
  unfold auth_change_password. intros H. apply try_Ok in H as (app & s1 & E1 & H).
  apply open_app_tables in E1. apply try_Ok in H as (id & s2 & E2 & H).
  apply require_session_inv in E2 as (ses & u0 & Hs & _ & Htok & _ & _ & Hid & _ & -> & E2).
  cbn [si_user_id] in H. rewrite Hid, E1 in *.
  destruct (Nat.ltb_spec (String.length (trim new)) 6) as [|Hlen]; [done|].
  apply try_Ok in H as (h & s3 & E3 & H). apply stored_password_inv in E3 as (u & Eu & -> & E3).
  rewrite E2 in Eu. destruct (verify_password _ _) as [[]|] eqn:Ev; try done.
  apply try_Ok in H as (hash & s4 & E4 & H). apply hash_password_inv in E4 as [(salt & Eh) E4].
  apply try_Ok in H as (now & s5 & E5 & H). apply now_text_run in E5 as [_ E5].
  apply try_Ok in H as ([] & s6 & E6 & H). apply execute_tables in E6. cbn [is_ok] in E6.
  apply try_Ok in H as ([] & s7 & E7 & H). apply log_command_run in E7 as [_ E7].
  injection H as <-. exists ses, u, hash, salt, now. split_and!; try done.
  rewrite E7, E6, E5, E4, E3, E2. done.
Qed.

(** A password change needs a live session and the current password, and
    stores a hash of the trimmed new password for that user alone. The user can
    then log in with the trimmed text; the text as typed is refused if it has
    white space around it, although the change reported success. *)
Theorem change_password_effect `{CL : !CryptoLaws} state token current new s s' :
  auth_change_password state token current new s = (Ok true, s') ->
  (trim new <> new -> forall salt h parsed, argon2_hash (trim new) salt = Ok h ->
     parse_password_hash h = Ok parsed -> argon2_verify new parsed = false) ->
  exists ses u, ses ∈ acc_sessions (fst s) /\ us_session_token ses = trim token /\
    user_by_id (us_usuario_id ses) (fst s) = Some u /\
    verify_password (trim current) (u_senha_hash u) = Ok true /\
    (forall u', u' ∈ acc_users (fst s') -> u_id u' <> us_usuario_id ses ->
       u' ∈ acc_users (fst s)) /\
    (forall u', u' ∈ acc_users (fst s') -> u_id u' = us_usuario_id ses ->
       verify_password (trim new) (u_senha_hash u') = Ok true /\
       (trim new <> new -> verify_password new (u_senha_hash u') = Ok false)).
Proof.
  intros H Hother. apply change_password_inv in H
    as (ses & u & hash & salt & now & Hs & Htok & Hu & Hv & _ & Hh & Husers).
  exists ses, u. split_and!; try done; intros u' Hin Hid; rewrite Husers in Hin; cbn in Hin;
    apply elem_update_where in Hin as (x & Hx & ->); destruct (Z.eqb_spec (u_id x) (us_usuario_id ses));
    try done. cbn [u_senha_hash set_password]. unfold verify_password.
  destruct (argon2_hash_verifies _ _ _ Hh) as (ph & Ep & Eok). rewrite Ep. split; [by rewrite Eok|].
  intros Hne. by rewrite (Hother Hne _ _ _ Hh Ep).
Qed.

End Properties.
