(* ===== verification/Access.v ===== *)
(** * Users, profiles and the login policy: commands/access.rs

    Every command opens the database and checks the session; those that write
    want a master user, and write statement by statement, without a
    transaction: an error leaves what was written before it. *)

From Stdlib Require Import Ascii.
From S2P Require Import Prelude RustStr Json Payload Security NetAddr NetBind RuntimeSettings.
From S2P Require Import ServiceConfigs RuntimeStore AppLog Accounts AccessTables Auth.

#[local] Open Scope string_scope.
#[local] Open Scope tunnara_scope.

(*| src-tauri/src/commands/access.rs 14-14 USER_LOGIN_MIN_LENGTH_KEY *)
Definition USER_LOGIN_MIN_LENGTH_KEY : string := "user_login_min_length".
(*| src-tauri/src/commands/access.rs 15-15 USER_LOGIN_MIN_LENGTH_DEFAULT *)
Definition USER_LOGIN_MIN_LENGTH_DEFAULT : Z := 2.
(*| src-tauri/src/commands/access.rs 16-16 USER_LOGIN_MIN_LENGTH_MIN *)
Definition USER_LOGIN_MIN_LENGTH_MIN : Z := 1.
(*| src-tauri/src/commands/access.rs 17-17 USER_LOGIN_MIN_LENGTH_MAX *)
Definition USER_LOGIN_MIN_LENGTH_MAX : Z := 64.

(*| src-tauri/src/commands/access.rs 129-132 validate_email *)
Definition validate_email (v : string) : bool :=
  let email := trim v in negb (is_empty email) && contains "@" email && contains "." email.

(*| src-tauri/src/commands/access.rs 138-140 clamp_login_min_length *)
Definition clamp_login_min_length (v : Z) : Z :=
  Z.min (Z.max v USER_LOGIN_MIN_LENGTH_MIN) USER_LOGIN_MIN_LENGTH_MAX.

(** ** Rows as JSON: [row_to_json_map] of the queries *)

Definition profile_row (p : Perfil) : members :=
  [("id", json_i64 (p_id p)); ("nome", String_ (p_nome p));
   ("descricao", opt_json (p_descricao p)); ("perfil_master", json_i64 (p_perfil_master p));
   ("ativo", json_i64 (p_ativo p)); ("created_at", String_ (p_created_at p));
   ("updated_at", String_ (p_updated_at p))].

Definition user_row (u : Usuario) : members :=
  [("id", json_i64 (u_id u)); ("nome", String_ (u_nome u)); ("login", String_ (u_login u));
   ("email", opt_json (u_email u)); ("telefone", opt_json (u_telefone u));
   ("cargo", opt_json (u_cargo u)); ("observacoes", opt_json (u_observacoes u));
   ("photo_url", opt_json (u_photo_url u)); ("master_user", json_i64 (u_master_user u));
   ("administrador", json_i64 (u_administrador u));
   ("senha_provisoria", json_i64 (u_senha_provisoria u)); ("ativo", json_i64 (u_ativo u));
   ("ultimo_login_em", opt_json (u_ultimo_login_em u)); ("created_at", String_ (u_created_at u));
   ("updated_at", String_ (u_updated_at u))].

Section Access.
Context {W : Type} `{LO : LogOs W} `{ST : !Statements W} `{CR : Crypto} `{RN : !Randomness W}
  `{AW : !AuthWorld W}.
Context (state : SharedState).

(** [state.db_path()?] and [open_connection]. *)
Definition open_db : St db (result string db_conn) :=
  app ←? open_app state; mret (Ok (fst app)).

(** A check that ends the command with a message. *)
Definition guard_ (b : bool) (message : string) : St (db (W := W)) (result string unit) :=
  mret (if b then Ok () else Err message).
Definition require {A} (o : option A) (message : string) : St (db (W := W)) (result string A) :=
  mret (ok_or message o).

Definition audit (conn : db_conn) (entity action : string) (id : option Z) (payload : value) :
    St db (result string unit) := lift (write_audit conn entity action id payload).
Definition sync (conn : db_conn) (entity action : string) (id : option Z) (payload : value) :
    St db (result string unit) := lift (enqueue_sync conn entity action id payload).

(*| src-tauri/src/commands/access.rs 121-127 ensure_master *)
Definition ensure_master (session_token : string) : St db (result string Z) :=
  identity ←? require_session_by_token session_token;
  _ ←? guard_ (si_master_user identity) "Apenas usuário master pode executar esta operação.";
  mret (Ok (si_user_id identity)).

(*| src-tauri/src/commands/access.rs 134-136 normalize_login *)
Definition normalize_login (v : string) : string := unicode_lowercase (trim v).

(** ** The login policy *)

Definition parsed_min_length (raw : option string) : Z :=
  clamp_login_min_length
    (unwrap_or USER_LOGIN_MIN_LENGTH_DEFAULT (v ← raw; parse_i64 (trim v))).

(*| src-tauri/src/commands/access.rs 142-157 load_login_min_length *)
Definition load_login_min_length : St db (result string Z) :=
  raw ←? statement "Falha ao consultar política de login" (fun t =>
    raw ← text_column "valor" (setting_of USER_LOGIN_MIN_LENGTH_KEY t); Ok (raw, t));
  mret (Ok (parsed_min_length raw)).

Definition policy_json (login_min_length : Z) : members :=
  [("login_min_length", json_i64 login_min_length);
   ("login_min_allowed", json_i64 USER_LOGIN_MIN_LENGTH_MIN);
   ("login_max_allowed", json_i64 USER_LOGIN_MIN_LENGTH_MAX)].

(*| src-tauri/src/commands/access.rs 160-176 user_policy_get *)
Definition user_policy_get (session_token : string) : St db (result string members) :=
  _ ←? open_db;
  _ ←? ensure_master session_token;
  login_min_length ←? load_login_min_length;
  mret (Ok (policy_json login_min_length)).

(*| src-tauri/src/commands/access.rs 179-218 user_policy_save *)
Definition user_policy_save (session_token : string) (payload : members) :
    St db (result string members) :=
  conn ←? open_db;
  actor_id ←? ensure_master session_token;
  now ←? now_text;
  v ←? require (get_i64 payload "login_min_length")
    "Informe a quantidade mínima de caracteres para login.";
  let login_min_length := clamp_login_min_length v in
  _ ←? guard_ (login_min_length =? v)%Z
    ("A política de login deve ficar entre " ++ show_Z USER_LOGIN_MIN_LENGTH_MIN ++ " e "
     ++ show_Z USER_LOGIN_MIN_LENGTH_MAX ++ " caracteres.");
  _ ←? execute "Falha ao salvar política de login"
    (upsert_setting USER_LOGIN_MIN_LENGTH_KEY (show_Z login_min_length) now);
  _ ←? audit conn "user_policy" "update" (Some actor_id)
    (Object [("login_min_length", json_i64 login_min_length)]);
  mret (Ok (policy_json login_min_length)).

(** ** Permissions *)

(** The labels the command knows; the others are made of the key. *)
Definition permission_label (key : string) : string :=
  match list_find (fun l => String.eqb (fst l) key)
    [("usuarios:view", "Visualizar usuários"); ("usuarios:manage", "Gerenciar usuários");
     ("perfis:view", "Visualizar perfis"); ("perfis:manage", "Gerenciar perfis");
     ("config:view", "Visualizar configurações"); ("config:manage", "Gerenciar configurações");
     ("relatorios:export", "Exportar relatórios")] with
  | Some (_, label) => label
  | None =>
      let parts := split ":"%char key in
      replace "_" " " (unwrap_or "geral" (parts !! 0)) ++ " - "
      ++ replace "_" " " (unwrap_or "view" (parts !! 1))
  end.

(*| src-tauri/src/commands/access.rs 221-258 permission_catalog *)
Definition permission_catalog (session_token : string) : St db (result string (list members)) :=
  _ ←? open_db;
  _ ←? require_session_by_token session_token;
  mret (Ok (map (fun key =>
    [("key", String_ key); ("group", String_ (unwrap_or "geral" (split ":"%char key !! 0)));
     ("label", String_ (permission_label key))]) all_permission_keys)).

(** ** Profiles *)

(** The row of a list: the profile, the users and the permissions it has. *)
Definition profile_list_row (t : Accounts) (p : Perfil) : members :=
  (profile_row p ++
   [("total_usuarios", json_i64 (Z.of_nat (size (list_to_set (C := gset Z) (map fst
       (List.filter (fun r => (snd r =? p_id p)%Z) (acc_user_profiles t)))))));
    ("total_permissoes", json_i64 (Z.of_nat (size (list_to_set (C := gset string) (map snd
       (List.filter (fun r => (fst r =? p_id p)%Z) (acc_profile_perms t)))))))])%list.

(*| src-tauri/src/commands/access.rs 261-313 profile_list *)
Definition profile_list (session_token : string) (filters : members) :
    St db (result string (list members)) :=
  _ ←? open_db;
  _ ←? require_session_by_token session_token;
  let search := unwrap_or "" (get_string filters "search") in
  let only_active := (get_bool filters "onlyActive" false =? 1)%Z in
  let wildcard := "%" ++ trim search ++ "%" in
  select "Falha ao executar listagem de perfis" (fun t =>
    map (profile_list_row t) (sort_by (fun a b => text_le (p_nome a) (p_nome b))
      (List.filter (fun p =>
         (is_empty search || sql_like wildcard (p_nome p) || opt_like wildcard (p_descricao p))
         && (negb only_active || (p_ativo p =? 1)%Z)) (acc_profiles t)))).

(*| src-tauri/src/commands/access.rs 316-351 profile_get *)
Definition profile_get (session_token : string) (id : Z) : St db (result string members) :=
  _ ←? open_db;
  _ ←? require_session_by_token session_token;
  row ←? select "Falha ao consultar perfil" (profile_by_id id);
  p ←? require row "Perfil não encontrado.";
  permission_keys ←? select "Falha ao consultar permissões do perfil" (fun t =>
    sort_by text_le (map snd (List.filter (fun r => (fst r =? id)%Z) (acc_profile_perms t))));
  mret (Ok (obj_insert "permission_keys" (Array (map String_ permission_keys)) (profile_row p))).

(** The statements of a save, on a checked form. *)
(*| src-tauri/src/commands/access.rs 397-433 profile_save *)
Definition write_profile (id : option Z) (form : ProfileForm) (permission_keys : list string)
    (now : string) : St db (result string Z) :=
  record_id ←?
    match id with
    | Some existing_id =>
        _ ←? insert "Falha ao atualizar perfil" (update_profile form now existing_id);
        mret (Ok existing_id)
    | None => statement "Falha ao inserir perfil" (insert_profile form now)
    end;
  _ ←? execute "Falha ao limpar permissões do perfil" (delete_profile_perms record_id);
  let permission_rows :=
    if (pf_perfil_master form =? 1)%Z then all_permission_keys else permission_keys in
  _ ←? each (fun key => insert "Falha ao gravar permissão do perfil"
                          (insert_profile_perm record_id key)) permission_rows;
  mret (Ok record_id).

Definition save_action (id : option Z) : string := match id with Some _ => "update" | None => "insert" end.

(** [actor_id] and the payload, as an audit row holds them. *)
Definition audited (actor_id : Z) (payload : value) : value :=
  Object [("actor_id", json_i64 actor_id); ("payload", payload)].

(** [sort], then [dedup]. *)
Definition sorted_keys (keys : list string) : list string :=
  dedup String.eqb (sort_by text_le keys).

Definition first_invalid_key (keys : list string) : option string :=
  list_find (fun key => negb (existsb (String.eqb key) all_permission_keys)) keys.

(*| src-tauri/src/commands/access.rs 354-461 profile_save *)
Definition profile_save (session_token : string) (payload : members) : St db (result string members) :=
  conn ←? open_db;
  actor_id ←? ensure_master session_token;
  let id := get_id payload in
  now ←? now_text;
  nome ←? require (get_string payload "nome") "Informe o nome do perfil.";
  let form := {| pf_nome := nome; pf_descricao := get_string payload "descricao";
                 pf_perfil_master := get_bool payload "perfil_master" false;
                 pf_ativo := get_bool payload "ativo" true |} in
  let permission_keys := sorted_keys (get_string_array payload "permission_keys") in
  _ ←? guard_ (negb (bool_decide (permission_keys = []) && (pf_perfil_master form =? 0)%Z))
    "Selecione pelo menos uma permissão para o perfil.";
  _ ←? mret (match first_invalid_key permission_keys with
             | Some key => Err ("Permissão inválida: " ++ key)
             | None => Ok ()
             end);
  taken ←? select "Falha ao validar nome do perfil" (profile_name_taken nome id);
  _ ←? guard_ (negb taken) "Já existe perfil com este nome.";
  record_id ←? write_profile id form permission_keys now;
  let payload_json := Object
    [("id", json_i64 record_id); ("nome", String_ nome); ("descricao", opt_json (pf_descricao form));
     ("perfil_master", json_i64 (pf_perfil_master form)); ("ativo", json_i64 (pf_ativo form))] in
  _ ←? sync conn "perfis_acesso" (save_action id) (Some record_id) payload_json;
  _ ←? audit conn "perfis_acesso" (save_action id) (Some record_id) (audited actor_id payload_json);
  profile_get session_token record_id.

(*| src-tauri/src/commands/access.rs 464-505 profile_delete *)
Definition profile_delete (session_token : string) (id : Z) : St db (result string bool) :=
  conn ←? open_db;
  actor_id ←? ensure_master session_token;
  linked_users ←? select "Falha ao validar vínculo do perfil" (count_profile_users id);
  _ ←? guard_ (linked_users <=? 0)%Z
    "Não é possível excluir o perfil porque existem usuários vinculados a ele.";
  _ ←? execute "Falha ao excluir permissões do perfil" (delete_profile_perms id);
  affected ←? statement "Falha ao excluir perfil" (fun t => Ok (delete_profile id t));
  _ ←? guard_ (negb (affected =? 0)%Z) "Perfil não encontrado.";
  _ ←? audit conn "perfis_acesso" "delete" (Some id) (Object [("actor_id", json_i64 actor_id)]);
  mret (Ok true).

(** ** Users *)

(** The names GROUP_CONCAT joins, in the order SQLite visits them, which it
    does not fix. *)
Section UserList.
Context (group_concat_distinct : list string -> option string).

Definition user_list_row (t : Accounts) (u : Usuario) : members :=
  ([("id", json_i64 (u_id u)); ("nome", String_ (u_nome u)); ("login", String_ (u_login u));
    ("email", opt_json (u_email u)); ("telefone", opt_json (u_telefone u));
    ("cargo", opt_json (u_cargo u)); ("photo_url", opt_json (u_photo_url u));
    ("master_user", json_i64 (u_master_user u)); ("administrador", json_i64 (u_administrador u));
    ("senha_provisoria", json_i64 (u_senha_provisoria u)); ("ativo", json_i64 (u_ativo u));
    ("ultimo_login_em", opt_json (u_ultimo_login_em u)); ("created_at", String_ (u_created_at u));
    ("updated_at", String_ (u_updated_at u));
    ("perfis", opt_json (group_concat_distinct (profile_names_of (u_id u) t)));
    ("empresas", opt_json (group_concat_distinct (map snd (companies_of (u_id u) t))))])%list.

(*| src-tauri/src/commands/access.rs 508-575 user_list *)
Definition user_list (session_token : string) (filters : members) :
    St db (result string (list members)) :=
  _ ←? open_db;
  _ ←? require_session_by_token session_token;
  let search := unwrap_or "" (get_string filters "search") in
  let only_active := (get_bool filters "onlyActive" false =? 1)%Z in
  let wildcard := "%" ++ trim search ++ "%" in
  select "Falha ao executar listagem de usuários" (fun t =>
    map (user_list_row t) (sort_by (fun a b => text_le (u_nome a) (u_nome b))
      (List.filter (fun u =>
         (is_empty search || sql_like wildcard (u_nome u) || sql_like wildcard (u_login u)
          || opt_like wildcard (u_email u))
         && (negb only_active || (u_ativo u =? 1)%Z)
         && match get_i64 filters "empresaId" with
            | Some company_id => pair_in (u_id u) company_id (acc_user_companies t)
            | None => true
            end) (acc_users t)))).
End UserList.

(*| src-tauri/src/commands/access.rs 578-627 user_get *)
Definition user_get (session_token : string) (id : Z) : St db (result string members) :=
  _ ←? open_db;
  _ ←? require_session_by_token session_token;
  row ←? select "Falha ao consultar usuário" (user_by_id id);
  u ←? require row "Usuário não encontrado.";
  profile_ids ←? select "Falha ao consultar perfis do usuário" (profile_ids_of id);
  empresa_ids ←? select "Falha ao consultar empresas do usuário" (company_ids_of id);
  mret (Ok (obj_insert "empresa_ids" (Array (map json_i64 empresa_ids))
    (obj_insert "profile_ids" (Array (map json_i64 profile_ids)) (user_row u)))).

(** The form of a save, once the name and the login are there. *)
(*| src-tauri/src/commands/access.rs 642-657 user_save *)
Definition read_user_form (payload : members) (nome login : string) : UserForm := {|
  uf_nome := nome; uf_login := normalize_login login; uf_email := get_string payload "email";
  uf_telefone := get_string payload "telefone"; uf_cargo := get_string payload "cargo";
  uf_observacoes := get_string payload "observacoes"; uf_photo_url := get_string payload "photo_url";
  uf_master_user := get_bool payload "master_user" false;
  uf_administrador := get_bool payload "administrador" false;
  uf_senha_provisoria := get_bool payload "senha_provisoria" false;
  uf_ativo := get_bool payload "ativo" true |}.

(** What is checked before the first write. *)
(*| src-tauri/src/commands/access.rs 658-729 user_save *)
Definition check_user (actor_id : Z) (id : option Z) (form : UserForm)
    (profile_ids empresa_ids : list Z) : St db (result string unit) :=
  login_min_length ←? load_login_min_length;
  _ ←? guard_ (Z.to_nat login_min_length <=? String.length (uf_login form))%nat
    ("O login deve conter ao menos " ++ show_Z login_min_length ++ " caracteres.");
  _ ←? guard_ (match uf_email form with Some email => validate_email email | None => true end)
    "O e-mail do usuário é inválido.";
  _ ←? guard_ (negb (bool_decide (id = Some actor_id) && (uf_ativo form =? 0)%Z))
    "O usuário master logado não pode ser inativado nesta operação.";
  taken ←? select "Falha ao validar login do usuário" (login_taken (uf_login form) id);
  _ ←? guard_ (negb taken) "Já existe usuário com este login.";
  _ ←? guard_ ((uf_master_user form =? 1)%Z || negb (bool_decide (profile_ids = [])))
    "Selecione ao menos um perfil de acesso para o usuário.";
  _ ←? guard_ ((uf_master_user form =? 1)%Z || negb (bool_decide (empresa_ids = [])))
    "Selecione ao menos uma empresa para o usuário.";
  _ ←? each (fun perfil_id =>
    exists_ ←? select "Falha ao validar perfil do usuário" (fun t =>
      existsb (fun p => (p_id p =? perfil_id)%Z) (acc_profiles t));
    guard_ exists_ ("Perfil inválido informado: " ++ show_Z perfil_id ++ ".")) profile_ids;
  each (fun empresa_id =>
    exists_ ←? select "Falha ao validar empresa do usuário" (fun t =>
      existsb (fun e => (e_id e =? empresa_id)%Z) (acc_companies t));
    guard_ exists_ ("Empresa inválida informada: " ++ show_Z empresa_id ++ ".")) empresa_ids.

(** The length is counted in bytes. *)
Definition checked_hash (raw_password : string) : St db (result string string) :=
  _ ←? guard_ (6 <=? String.length (trim raw_password))%nat
    "A senha deve conter ao menos 6 caracteres.";
  lift (hash_password (trim raw_password)).

(*| src-tauri/src/commands/access.rs 731-817 user_save *)
Definition write_user (id : option Z) (form : UserForm) (password : option string) (now : string) :
    St db (result string Z) :=
  match id with
  | Some existing_id =>
      hash ←? match password with
              | Some raw_password => hash ←? checked_hash raw_password; mret (Ok (Some hash))
              | None => mret (Ok None)
              end;
      _ ←? insert "Falha ao atualizar usuário" (update_user form hash now existing_id);
      mret (Ok existing_id)
  | None =>
      raw_password ←? require password "Informe a senha do novo usuário.";
      hash ←? checked_hash raw_password;
      statement "Falha ao inserir usuário" (insert_user form hash now)
  end.

(*| src-tauri/src/commands/access.rs 819-844 user_save *)
Definition link_user (record_id : Z) (profile_ids empresa_ids : list Z) : St db (result string unit) :=
  _ ←? execute "Falha ao limpar perfis do usuário" (delete_user_profiles record_id);
  _ ←? execute "Falha ao limpar empresas do usuário" (delete_user_companies record_id);
  _ ←? each (fun perfil_id => insert "Falha ao vincular perfil ao usuário"
                                (insert_user_profile record_id perfil_id)) profile_ids;
  each (fun empresa_id => insert "Falha ao vincular empresa ao usuário"
                            (insert_user_company record_id empresa_id)) empresa_ids.

(** What the queue and the audit say of a saved user: no password. *)
(*| src-tauri/src/commands/access.rs 846-854 user_save *)
Definition saved_user (nome : string) (record_id : Z) (form : UserForm) : value := Object
  [("id", json_i64 record_id); ("nome", String_ nome); ("login", String_ (uf_login form));
   ("photo_url", opt_json (uf_photo_url form)); ("master_user", json_i64 (uf_master_user form));
   ("administrador", json_i64 (uf_administrador form)); ("ativo", json_i64 (uf_ativo form))].

(*| src-tauri/src/commands/access.rs 630-874 user_save *)
Definition user_save (session_token : string) (payload : members) : St db (result string members) :=
  conn ←? open_db;
  actor_id ←? ensure_master session_token;
  let id := get_id payload in
  now ←? now_text;
  nome ←? require (get_string payload "nome") "Informe o nome do usuário.";
  login ←? require (get_string payload "login") "Informe o login do usuário.";
  let form := read_user_form payload nome login in
  let profile_ids := get_i64_array payload "profile_ids" in
  let empresa_ids := get_i64_array payload "empresa_ids" in
  _ ←? check_user actor_id id form profile_ids empresa_ids;
  record_id ←? write_user id form (get_string payload "senha") now;
  _ ←? link_user record_id profile_ids empresa_ids;
  let payload_json := saved_user nome record_id form in
  _ ←? sync conn "usuarios" (save_action id) (Some record_id) payload_json;
  _ ←? audit conn "usuarios" (save_action id) (Some record_id) (audited actor_id payload_json);
  user_get session_token record_id.

(*| src-tauri/src/commands/access.rs 877-929 user_delete *)
Definition user_delete (session_token : string) (id : Z) : St db (result string bool) :=
  conn ←? open_db;
  actor_id ←? ensure_master session_token;
  _ ←? guard_ (negb (actor_id =? id)%Z)
    "O usuário master logado não pode excluir a própria conta.";
  master_count ←? select "Falha ao validar usuários master" count_masters;
  target ←? select "Falha ao validar usuário alvo" (user_by_id id);
  let target_is_master := unwrap_or 0%Z (u_master_user <$> target) in
  _ ←? guard_ (negb ((target_is_master =? 1)%Z && (master_count <=? 1)%Z))
    "Não é possível excluir o último usuário master ativo.";
  _ ←? execute "Falha ao limpar sessões do usuário" (delete_user_sessions id);
  affected ←? statement "Falha ao excluir usuário" (fun t => Ok (delete_user id t));
  _ ←? guard_ (negb (affected =? 0)%Z) "Usuário não encontrado.";
  _ ←? audit conn "usuarios" "delete" (Some id) (Object [("actor_id", json_i64 actor_id)]);
  mret (Ok true).

End Access.
