(* ===== verification/AccessRules.v ===== *)
(** * What the access commands keep

    The type of the user tables (flags, unique keys, references), which every
    command keeps even when it stops half-way; the active master that a run of
    them never loses but by one command; and what a save stores. *)

From S2P Require Import Prelude RustStr Json Payload Security NetAddr NetBind RuntimeSettings.
From S2P Require Import ServiceConfigs RuntimeStore AppLog Accounts AccessTables Auth Access.

#[local] Open Scope string_scope.
#[local] Open Scope tunnara_scope.

(** ** The type of the tables *)

Definition is_flag (z : Z) : Prop := z = 0%Z \/ z = 1%Z.

Definition user_typed (u : Usuario) : Prop :=
  is_flag (u_master_user u) /\ is_flag (u_administrador u) /\ is_flag (u_senha_provisoria u) /\
  is_flag (u_ativo u).

Definition profile_typed (p : Perfil) : Prop := is_flag (p_perfil_master p) /\ is_flag (p_ativo p).

(** A link table: no pair twice, and both ends exist. *)
Definition links {A B} (l : list (A * B)) (left : list A) (right : list B) : Prop :=
  NoDup l /\ Forall (fun r => fst r ∈ left /\ snd r ∈ right) l.

Record typed (t : Accounts) : Prop := {
  ty_users : Forall user_typed (acc_users t);
  ty_user_ids : NoDup (map u_id (acc_users t));
  ty_logins : NoDup (map u_login (acc_users t));
  ty_profiles : Forall profile_typed (acc_profiles t);
  ty_profile_ids : NoDup (map p_id (acc_profiles t));
  ty_profile_names : NoDup (map p_nome (acc_profiles t));
  ty_perms : links (acc_profile_perms t) (map p_id (acc_profiles t)) all_permission_keys;
  ty_user_profiles : links (acc_user_profiles t) (map u_id (acc_users t)) (map p_id (acc_profiles t));
  ty_user_companies : links (acc_user_companies t) (map u_id (acc_users t)) (map e_id (acc_companies t));
}.

(** *** Lists with unique keys *)

Lemma next_rowid_above seq ids id : next_rowid seq ids = Ok id -> Forall (fun i => (i < id)%Z) ids.
Proof.
  unfold next_rowid. destruct (_ <? _)%Z; [|done]. intros [= <-].
  induction ids as [|i l IH]; cbn; [done|]. constructor; [lia|].
  eapply Forall_impl; [exact IH|]. cbn. intros. lia.
Qed.

Lemma next_rowid_fresh seq ids id : next_rowid seq ids = Ok id -> id ∉ ids.
Proof.
  intros H%next_rowid_above Hin. rewrite Forall_forall in H. specialize (H _ Hin). lia.
Qed.

Lemma existsb_elem {A} (p : A -> bool) l : existsb p l = true <-> exists x, x ∈ l /\ p x = true.
Proof.
  rewrite existsb_exists. split; intros (x & H); exists x; by rewrite list_elem_of_In in *.
Qed.

Lemma existsb_id {A} (g : A -> Z) l id :
  existsb (fun x => (g x =? id)%Z) l = true <-> id ∈ map g l.
Proof.
  rewrite existsb_elem, list_elem_of_In, in_map_iff.
  split; intros (x & H1 & H2); exists x; rewrite Z.eqb_eq, list_elem_of_In in *; auto.
Qed.

(** An update of one row that gives it a key of its own keeps the keys apart. *)
Lemma NoDup_update_key {A B} (g : A -> B) (p : A -> bool) f (l : list A) k :
  NoDup (map g l) -> (forall x, x ∈ l -> p x = true -> g (f x) = k) ->
  (forall x, x ∈ l -> p x = false -> g x <> k) ->
  (forall x y, x ∈ l -> y ∈ l -> p x = true -> p y = true -> g x = g y) ->
  NoDup (map g (update_where p f l)).
Proof.
  intros Hn Hf Hk Hp. induction l as [|x l IH]; [constructor|]. cbn in *.
  apply NoDup_cons in Hn as [Hx Hn]. rewrite list_elem_of_In, in_map_iff in Hx.
  assert (IH' : NoDup (map g (update_where p f l))).
  { apply IH; [done|intros y Hy..]; [apply Hf|apply Hk|intros z Hz; apply Hp]; by right. }
  constructor; [|exact IH']. rewrite list_elem_of_In, in_map_iff.
  intros (z & Hz & Hin). unfold update_where in Hin. apply in_map_iff in Hin as (y & <- & Hy).
  assert (y ∈ x :: l) as Hyl by (right; by apply list_elem_of_In).
  assert (x ∈ x :: l) as Hxl by left.
  destruct (p x) eqn:Ex, (p y) eqn:Ey.
  - apply Hx. exists y. split; [by apply Hp|done].
  - rewrite (Hf x Hxl Ex) in Hz. by apply (Hk y Hyl Ey).
  - rewrite (Hf y Hyl Ey) in Hz. symmetry in Hz. by apply (Hk x Hxl Ex).
  - apply Hx. by exists y.
Qed.

Lemma Forall_update_where {A} (P : A -> Prop) p f (l : list A) :
  Forall P l -> (forall x, P x -> P (f x)) -> Forall P (update_where p f l).
Proof. intros Hl Hf. induction Hl; cbn; [done|]. constructor; [case_match; auto|done]. Qed.

Lemma map_filter_ids {A} (g : A -> Z) (l : list A) id i :
  i ∈ map g (List.filter (fun x => negb (g x =? id)%Z) l) <-> i ∈ map g l /\ i <> id.
Proof.
  rewrite !list_elem_of_In, !in_map_iff. split.
  - intros (x & <- & H). apply filter_In in H as [Hx H]. apply negb_true_iff, Z.eqb_neq in H. eauto.
  - intros ((x & <- & Hx) & H). exists x. split; [done|]. apply filter_In.
    split; [done|]. by apply negb_true_iff, Z.eqb_neq.
Qed.

Lemma links_filter {A B} p (l : list (A * B)) left right :
  links l left right -> links (List.filter p l) left right.
Proof.
  intros [Hn Hf]. split.
  - apply NoDup_ListNoDup, List.NoDup_filter. by apply NoDup_ListNoDup.
  - apply Forall_forall. intros r [Hr _]%elem_filter. rewrite Forall_forall in Hf. by apply Hf.
Qed.

Lemma links_mono {A B} (l : list (A * B)) left left' right right' :
  links l left right -> left ⊆ left' -> right ⊆ right' -> links l left' right'.
Proof.
  intros [Hn Hf] Hl Hr. split; [done|]. eapply Forall_impl; [exact Hf|]. intros r [H1 H2]. auto.
Qed.

Lemma links_snoc {A B} (l : list (A * B)) a b left right :
  links l left right -> (a, b) ∉ l -> a ∈ left -> b ∈ right -> links (l ++ [(a, b)]) left right.
Proof.
  intros [Hn Hf] Hin Ha Hb. split.
  - apply NoDup_app. split_and!; [done| |apply NoDup_singleton].
    intros x Hx ->%list_elem_of_singleton. by apply Hin.
  - apply Forall_app. split; [done|]. by repeat constructor.
Qed.

(** Links whose ends keep away from a removed id. *)
Lemma links_drop_left {B} (l : list (Z * B)) left left' right id :
  links l left right -> (forall i, i ∈ left -> i <> id -> i ∈ left') ->
  links (List.filter (fun r => negb (fst r =? id)%Z) l) left' right.
Proof.
  intros H Hl. pose proof (links_filter (fun r => negb (fst r =? id)%Z) _ _ _ H) as [Hn Hf].
  split; [done|]. rewrite Forall_forall in *. intros r Hr. specialize (Hf r Hr) as [H1 H2].
  split; [|done]. apply Hl; [done|]. apply elem_filter in Hr as [_ Hr].
  by apply negb_true_iff, Z.eqb_neq in Hr.
Qed.

Lemma links_drop_right {A} (l : list (A * Z)) left right right' id :
  links l left right -> (forall i, i ∈ right -> i <> id -> i ∈ right') ->
  links (List.filter (fun r => negb (snd r =? id)%Z) l) left right'.
Proof.
  intros H Hl. pose proof (links_filter (fun r => negb (snd r =? id)%Z) _ _ _ H) as [Hn Hf].
  split; [done|]. rewrite Forall_forall in *. intros r Hr. specialize (Hf r Hr) as [H1 H2].
  split; [done|]. apply Hl; [done|]. apply elem_filter in Hr as [_ Hr].
  by apply negb_true_iff, Z.eqb_neq in Hr.
Qed.

Lemma pair_not_in a b (l : list (Z * Z)) : pair_in a b l = false -> (a, b) ∉ l.
Proof.
  intros H Hin. pose proof (existsb_false_elem _ _ _ H Hin) as E. cbn in E.
  by rewrite !Z.eqb_refl in E.
Qed.

(** *** Every statement keeps the type *)

Ltac typed_fields H :=
  destruct H as [H1 H2 H3 H4 H5 H6 H7 H8 H9]; constructor; cbn; try assumption.

Lemma typed_touch now token t : typed t -> typed (update_session_activity now token t).
Proof. intros H. by typed_fields H. Qed.
Lemma typed_setting key v now t : typed t -> typed (upsert_setting key v now t).
Proof. intros H. by typed_fields H. Qed.
Lemma typed_sessions id t : typed t -> typed (delete_user_sessions id t).
Proof. intros H. by typed_fields H. Qed.
Lemma typed_no_perms id t : typed t -> typed (delete_profile_perms id t).
Proof. intros H. typed_fields H. by apply links_filter. Qed.
Lemma typed_no_profiles id t : typed t -> typed (delete_user_profiles id t).
Proof. intros H. typed_fields H. by apply links_filter. Qed.
Lemma typed_no_companies id t : typed t -> typed (delete_user_companies id t).
Proof. intros H. typed_fields H. by apply links_filter. Qed.

Lemma update_where_none {A} p f (l : list A) : existsb p l = false -> update_where p f l = l.
Proof.
  unfold update_where. induction l as [|x l IH]; cbn; [done|].
  intros [Hx Hl]%orb_false_iff. by rewrite Hx, IH.
Qed.

(** The check of a unique text column by an update of the row [id]. *)
Lemma unique_update {A} (gid : A -> Z) (g : A -> string) (f : A -> A) (l : list A) id k :
  NoDup (map gid l) -> NoDup (map g l) -> (forall x, g (f x) = k) ->
  existsb (fun x => (gid x =? id)%Z) l
    && existsb (fun x => String.eqb (g x) k && negb (gid x =? id)%Z) l = false ->
  NoDup (map g (update_where (fun x => (gid x =? id)%Z) f l)).
Proof.
  intros Hid Hg Hf [H|H]%andb_false_iff; [by rewrite update_where_none|].
  apply (NoDup_update_key g _ f l k); [done|auto|..].
  - intros x Hx Hp E. pose proof (existsb_false_elem _ _ _ H Hx) as Hb. cbn in Hb.
    by rewrite E, String.eqb_refl, Hp in Hb.
  - intros x y Hx Hy Ex%Z.eqb_eq Ey%Z.eqb_eq.
    by rewrite (NoDup_map_inj gid l x y Hid Hx Hy (eq_trans Ex (eq_sym Ey))).
Qed.

Definition form_typed (f : UserForm) : Prop :=
  is_flag (uf_master_user f) /\ is_flag (uf_administrador f) /\ is_flag (uf_senha_provisoria f) /\
  is_flag (uf_ativo f).

Lemma typed_update_profile f now id t t' :
  is_flag (pf_perfil_master f) /\ is_flag (pf_ativo f) -> typed t ->
  update_profile f now id t = Ok t' -> typed t'.
Proof.
  unfold update_profile. intros Hf H. destruct (_ && _) eqn:E; [done|]. intros [= <-].
  set (upd := written_profile f now).
  assert (map p_id (update_where (fun p => (p_id p =? id)%Z) upd (acc_profiles t))
          = map p_id (acc_profiles t)) as Hid by by apply map_update_where.
  typed_fields H; rewrite ?Hid; try assumption.
  - by apply Forall_update_where.
  - eapply unique_update; [done..| |exact E]; done.
Qed.

Lemma typed_insert_profile f now t id t' :
  is_flag (pf_perfil_master f) /\ is_flag (pf_ativo f) -> typed t ->
  insert_profile f now t = Ok (id, t') -> typed t'.
Proof.
  unfold insert_profile. intros Hf H. destruct (existsb _ _) eqn:E; [done|].
  unfold mbind, result_bind. destruct (next_rowid _ _) as [i|] eqn:Ei; [|done]. intros [= -> <-].
  apply next_rowid_fresh in Ei.
  apply (not_in_map_existsb p_nome _ (Build_Perfil id (pf_nome f) None 0 0 "" "")) in E.
  typed_fields H.
  - apply Forall_app. split; [done|]. by constructor.
  - by apply NoDup_map_snoc.
  - by apply NoDup_map_snoc.
  - eapply links_mono; [exact H7|rewrite map_app; set_solver|done].
  - eapply links_mono; [exact H8|done|rewrite map_app; set_solver].
Qed.

Lemma typed_insert_perm id key t t' :
  key ∈ all_permission_keys -> typed t -> insert_profile_perm id key t = Ok t' -> typed t'.
Proof.
  unfold insert_profile_perm. intros Hk H. destruct (existsb _ (acc_profile_perms t)) eqn:E; [done|].
  destruct (existsb _ (acc_profiles t)) eqn:Ep; [|done]. intros [= <-].
  apply existsb_id in Ep. typed_fields H. apply links_snoc; try done.
  intros Hin. pose proof (existsb_false_elem _ _ _ E Hin) as Hb. cbn in Hb.
  by rewrite Z.eqb_refl, String.eqb_refl in Hb.
Qed.

Lemma typed_delete_profile id t : typed t -> typed (snd (delete_profile id t)).
Proof.
  intros H. typed_fields H.
  - apply Forall_forall. intros p [Hp _]%elem_filter. rewrite Forall_forall in H4. by apply H4.
  - by apply NoDup_map_filter.
  - by apply NoDup_map_filter.
  - eapply links_drop_left; [exact H7|]. intros i Hi Hne. by apply map_filter_ids.
  - eapply links_drop_right; [exact H8|]. intros i Hi Hne. by apply map_filter_ids.
Qed.

Lemma typed_update_user f hash now id t t' :
  form_typed f -> typed t -> update_user f hash now id t = Ok t' -> typed t'.
Proof.
  unfold update_user. intros Hf H. destruct (_ && _) eqn:E; [done|]. intros [= <-].
  set (upd := written_user f hash now).
  assert (map u_id (update_where (fun u => (u_id u =? id)%Z) upd (acc_users t))
          = map u_id (acc_users t)) as Hid by by apply map_update_where.
  typed_fields H; rewrite ?Hid; try assumption.
  - by apply Forall_update_where.
  - eapply unique_update; [done..| |exact E]; done.
Qed.

Lemma typed_insert_user f hash now t id t' :
  form_typed f -> typed t -> insert_user f hash now t = Ok (id, t') -> typed t'.
Proof.
  unfold insert_user. intros Hf H. destruct (existsb _ _) eqn:E; [done|].
  unfold mbind, result_bind. destruct (next_rowid _ _) as [i|] eqn:Ei; [|done]. intros [= -> <-].
  apply next_rowid_fresh in Ei. apply (not_in_map_existsb u_login _ (new_user f hash now id)) in E.
  typed_fields H.
  - apply Forall_app. split; [done|]. by constructor.
  - by apply NoDup_map_snoc.
  - by apply NoDup_map_snoc.
  - eapply links_mono; [exact H8|rewrite map_app; set_solver|done].
  - eapply links_mono; [exact H9|rewrite map_app; set_solver|done].
Qed.

Lemma typed_insert_user_profile id pid t t' :
  typed t -> insert_user_profile id pid t = Ok t' -> typed t'.
Proof.
  unfold insert_user_profile. intros H. destruct (pair_in _ _ _) eqn:E; [done|].
  destruct (_ && _) eqn:Ep; [|done]. intros [= <-]. apply andb_true_iff in Ep as [Eu Ep].
  apply existsb_id in Eu, Ep. typed_fields H. apply links_snoc; auto using pair_not_in.
Qed.

Lemma typed_insert_user_company id eid t t' :
  typed t -> insert_user_company id eid t = Ok t' -> typed t'.
Proof.
  unfold insert_user_company. intros H. destruct (pair_in _ _ _) eqn:E; [done|].
  destruct (_ && _) eqn:Ep; [|done]. intros [= <-]. apply andb_true_iff in Ep as [Eu Ep].
  apply existsb_id in Eu, Ep. typed_fields H. apply links_snoc; auto using pair_not_in.
Qed.

Lemma typed_delete_user id t : typed t -> typed (snd (delete_user id t)).
Proof.
  intros H. typed_fields H.
  - apply Forall_forall. intros p [Hp _]%elem_filter. rewrite Forall_forall in H1. by apply H1.
  - by apply NoDup_map_filter.
  - by apply NoDup_map_filter.
  - eapply links_drop_left; [exact H8|]. intros i Hi Hne. by apply map_filter_ids.
  - eapply links_drop_left; [exact H9|]. intros i Hi Hne. by apply map_filter_ids.
Qed.

#[export] Hint Resolve typed_touch typed_setting typed_sessions typed_no_perms typed_no_profiles
  typed_no_companies typed_update_profile typed_insert_profile typed_insert_perm
  typed_update_user typed_insert_user typed_insert_user_profile typed_insert_user_company : accounts.

(** ** Commands *)

Inductive access_command : Type :=
| PolicyGet (token : string)
| PolicySave (token : string) (payload : members)
| ProfileGet (token : string) (id : Z)
| ProfileSave (token : string) (payload : members)
| ProfileDelete (token : string) (id : Z)
| UserGet (token : string) (id : Z)
| UserSave (token : string) (payload : members)
| UserDelete (token : string) (id : Z).

Section Keeps.
Context {W : Type} `{LO : LogOs W} `{ST : !Statements W} `{CR : Crypto} `{RN : !Randomness W}
  `{AW : !AuthWorld W}.
Context (state : SharedState).
Implicit Types s : db (W := W).

Definition run_access (cmd : access_command) (s : db (W := W)) : db :=
  match cmd with
  | PolicyGet token => snd (user_policy_get state token s)
  | PolicySave token payload => snd (user_policy_save state token payload s)
  | ProfileGet token id => snd (profile_get state token id s)
  | ProfileSave token payload => snd (profile_save state token payload s)
  | ProfileDelete token id => snd (profile_delete state token id s)
  | UserGet token id => snd (user_get state token id s)
  | UserSave token payload => snd (user_save state token payload s)
  | UserDelete token id => snd (user_delete state token id s)
  end.

Lemma preserves_statement {A} (I : Accounts -> Prop) what (f : Accounts -> result string (A * Accounts)) :
  (forall t a t', I t -> f t = Ok (a, t') -> I t') -> preserves I (statement what f).
Proof.
  intros Hf s r s' HI. unfold statement. destruct (sql_fault _) as [[e|] w]; [by intros [= _ <-]|].
  destruct (f (fst s)) as [[a t]|e] eqn:E; intros [= _ <-]; [by eapply Hf|done].
Qed.

Lemma preserves_each {A} I (f : A -> St (db (W := W)) (result string unit)) l :
  (forall a, a ∈ l -> preserves I (f a)) -> preserves I (each f l).
Proof.
  induction l as [|a l IH]; intros H; cbn [each]; [apply preserves_ret|].
  apply preserves_try; [apply H; left|]. intros _. apply IH. intros b Hb. apply H. by right.
Qed.

Section Any.
Context (I : Accounts -> Prop).
Lemma preserves_open_app : preserves I (open_app state).
Proof. unfold open_app. keep. Qed.
Lemma preserves_open_db : preserves I (open_db state).
Proof. unfold open_db. apply preserves_try; [apply preserves_open_app|]. intros. apply preserves_ret. Qed.
Lemma preserves_now_text : preserves I now_text.
Proof. unfold now_text. keep. Qed.
Lemma preserves_guard b m : preserves I (guard_ (W := W) b m).
Proof. apply preserves_ret. Qed.
Lemma preserves_require {A} (o : option A) m : preserves I (require (W := W) o m).
Proof. apply preserves_ret. Qed.
Lemma preserves_audit conn entity action id payload : preserves I (audit conn entity action id payload).
Proof. apply preserves_lift. Qed.
Lemma preserves_sync conn entity action id payload : preserves I (sync conn entity action id payload).
Proof. apply preserves_lift. Qed.
Lemma preserves_min_length : preserves I load_login_min_length.
Proof.
  unfold load_login_min_length. apply preserves_try; [|intros; apply preserves_ret].
  apply preserves_statement. intros t a t' HI. unfold mbind, result_bind.
  destruct (text_column _ _); [|done]. by intros [= _ <-].
Qed.
Lemma preserves_refused {A B} (e : string) (f : A -> St (db (W := W)) (result string B)) :
  preserves I (try (mret (Err e)) f).
Proof. intros s r s' HI [= _ <-]. done. Qed.
End Any.
#[local] Hint Resolve preserves_refused preserves_open_db preserves_now_text preserves_guard preserves_require
  preserves_audit preserves_sync preserves_min_length : accounts.

Section Touched.
Context (I : Accounts -> Prop).
Hypothesis Htouch : forall now token t, I t -> I (update_session_activity now token t).

Lemma preserves_session_of token : preserves I (require_session_by_token token).
Proof. unfold require_session_by_token. keep. apply preserves_execute. auto. Qed.
Lemma preserves_master_of token : preserves I (ensure_master token).
Proof.
  unfold ensure_master. apply preserves_try; [apply preserves_session_of|]. intros. keep.
Qed.
Lemma preserves_profile_get token id : preserves I (profile_get state token id).
Proof.
  unfold profile_get. apply preserves_try; [apply preserves_open_db|]. intros.
  apply preserves_try; [apply preserves_session_of|]. intros. keep.
Qed.
Lemma preserves_user_get token id : preserves I (user_get state token id).
Proof.
  unfold user_get. apply preserves_try; [apply preserves_open_db|]. intros.
  apply preserves_try; [apply preserves_session_of|]. intros. keep.
Qed.
Lemma preserves_check_user a id f pids eids : preserves I (check_user a id f pids eids).
Proof. unfold check_user. keep; apply preserves_each; intros; keep. Qed.
End Touched.
#[local] Hint Resolve preserves_session_of preserves_master_of preserves_profile_get
  preserves_user_get preserves_check_user : accounts.

Lemma preserves_hash I pw : preserves I (checked_hash pw).
Proof. unfold checked_hash. keep. Qed.
#[local] Hint Resolve preserves_hash : accounts.

(** What a save writes keeps a property its statements keep. *)
Lemma preserves_write_user I id f pw now :
  (forall hash i t t', id = Some i -> I t -> update_user f hash now i t = Ok t' -> I t') ->
  (forall hash t i t', I t -> insert_user f hash now t = Ok (i, t') -> I t') ->
  preserves I (write_user id f pw now).
Proof.
  intros Hu Hi. unfold write_user. destruct id as [i|]; keep.
  - apply preserves_insert. eauto.
  - apply preserves_statement. eauto.
Qed.

Lemma preserves_link_user I id pids eids :
  (forall t, I t -> I (delete_user_profiles id t)) -> (forall t, I t -> I (delete_user_companies id t)) ->
  (forall p t t', I t -> insert_user_profile id p t = Ok t' -> I t') ->
  (forall e t t', I t -> insert_user_company id e t = Ok t' -> I t') ->
  preserves I (link_user id pids eids).
Proof.
  intros Hp Hc Hip Hic. unfold link_user. keep.
  - by apply preserves_execute.
  - by apply preserves_execute.
  - apply preserves_each. intros. apply preserves_insert. eauto.
  - apply preserves_each. intros. apply preserves_insert. eauto.
Qed.

Lemma preserves_write_profile I id f keys now :
  (forall i t t', I t -> update_profile f now i t = Ok t' -> I t') ->
  (forall i t t', I t -> insert_profile f now t = Ok (i, t') -> I t') ->
  (forall i t, I t -> I (delete_profile_perms i t)) ->
  (forall i key t t', key ∈ keys \/ key ∈ all_permission_keys -> I t ->
     insert_profile_perm i key t = Ok t' -> I t') ->
  preserves I (write_profile id f keys now).
Proof.
  intros Hu Hi Hd Hk. unfold write_profile. keep.
  - apply preserves_insert. eauto.
  - apply preserves_statement. eauto.
  - apply preserves_execute. eauto.
  - apply preserves_each. intros key Hkey. apply preserves_insert. intros t t'. apply Hk.
    destruct (_ =? 1)%Z; auto.
Qed.

Lemma valid_keys keys : first_invalid_key keys = None -> Forall (fun k => k ∈ all_permission_keys) keys.
Proof.
  unfold first_invalid_key. rewrite list_find_None. intros H. eapply Forall_impl; [exact H|].
  intros k Hk%negb_false_iff. apply existsb_elem in Hk as (x & Hx & ->%String.eqb_eq). done.
Qed.

(** A save of a profile, from its rules. *)
Lemma preserves_profile_save I token payload :
  (forall now token t, I t -> I (update_session_activity now token t)) ->
  (forall f now i t t', is_flag (pf_perfil_master f) /\ is_flag (pf_ativo f) -> I t ->
     update_profile f now i t = Ok t' -> I t') ->
  (forall f now i t t', is_flag (pf_perfil_master f) /\ is_flag (pf_ativo f) -> I t ->
     insert_profile f now t = Ok (i, t') -> I t') ->
  (forall i t, I t -> I (delete_profile_perms i t)) ->
  (forall i key t t', key ∈ all_permission_keys -> I t -> insert_profile_perm i key t = Ok t' -> I t') ->
  preserves I (profile_save state token payload).
Proof.
  intros Ht Hu Hi Hd Hk. unfold profile_save.
  set (keys := sorted_keys _). destruct (first_invalid_key keys) eqn:Ek; [keep|].
  apply valid_keys in Ek. rewrite Forall_forall in Ek.
  assert (forall id nome descricao now, preserves I (write_profile id {|
    pf_nome := nome; pf_descricao := descricao;
    pf_perfil_master := get_bool payload "perfil_master" false;
    pf_ativo := get_bool payload "ativo" true |} keys now)) as Hw.
  { intros id nome desc now. assert (forall f, is_flag (pf_perfil_master f) /\ is_flag (pf_ativo f) ->
      preserves I (write_profile id f keys now)) as H; [|apply H; split; apply get_flag_range].
    intros f Hf. apply preserves_write_profile; eauto. intros i key t t' [Hin|Hin]; eauto. }
  keep.
Qed.

Lemma form_of_typed payload nome login : form_typed (read_user_form payload nome login).
Proof. unfold form_typed. cbn. split_and!; apply get_flag_range. Qed.

(** A save of a user, from its rules. *)
Lemma preserves_user_save I token payload :
  (forall now token t, I t -> I (update_session_activity now token t)) ->
  (forall f hash now i t t', form_typed f -> I t -> update_user f hash now i t = Ok t' -> I t') ->
  (forall f hash now t i t', form_typed f -> I t -> insert_user f hash now t = Ok (i, t') -> I t') ->
  (forall i t, I t -> I (delete_user_profiles i t)) ->
  (forall i t, I t -> I (delete_user_companies i t)) ->
  (forall i p t t', I t -> insert_user_profile i p t = Ok t' -> I t') ->
  (forall i e t t', I t -> insert_user_company i e t = Ok t' -> I t') ->
  preserves I (user_save state token payload).
Proof.
  intros Ht Hu Hi Hp Hc Hip Hic. unfold user_save.
  assert (forall id nome login pw now,
    preserves I (write_user id (read_user_form payload nome login) pw now)) as Hw.
  { intros. pose proof (form_of_typed payload nome login).
    apply preserves_write_user; [intros ???? _|]; eauto. }
  assert (forall id pids eids, preserves I (link_user id pids eids)) as Hl
    by (intros; apply preserves_link_user; eauto).
  keep.
Qed.

(** C6. The type of the user tables. Whatever access commands run in whatever
    order, with whatever the clock, the engine's failures and the random
    generator do, and although no command runs in a transaction: every flag
    stays 0 or 1, ids, logins and profile names stay unique, a profile only
    has permissions of the catalogue, none twice, and every link of a user
    names an existing user and an existing profile or company, none twice. *)
Theorem access_tables_typed cmds s :
  typed (fst s) -> typed (fst (foldl (fun s cmd => run_access cmd s) s cmds)).
Proof.
  revert s. induction cmds as [|cmd cmds IH]; intros s H; [done|]. cbn [foldl]. apply IH. clear IH.
  assert (forall A (c : St db A), preserves typed c -> typed (fst (snd (c s)))) as Hp.
  { intros A c Hc. destruct (c s) as [a s'] eqn:E. by eapply Hc. }
  assert (forall now token t, typed t -> typed (update_session_activity now token t)) as Htouch
    by eauto with accounts.
  destruct cmd; cbn [run_access]; apply Hp; clear Hp H s.
  - unfold user_policy_get. keep.
  - unfold user_policy_save. keep. apply preserves_execute. eauto with accounts.
  - eauto with accounts.
  - apply preserves_profile_save; eauto with accounts.
  - unfold profile_delete. keep.
    + apply preserves_execute. eauto with accounts.
    + apply preserves_statement. intros t n t' Ht [= _ <-]. by apply typed_delete_profile.
  - eauto with accounts.
  - apply preserves_user_save; eauto with accounts.
  - unfold user_delete. keep.
    + apply preserves_execute. eauto with accounts.
    + apply preserves_statement. intros t n t' Ht [= _ <-]. by apply typed_delete_user.
Qed.

(** ** The last master *)

Definition active_master (u : Usuario) : Prop := u_master_user u = 1%Z /\ u_ativo u = 1%Z.

Definition master_alive (a : Z) (t : Accounts) : Prop :=
  exists u, u ∈ acc_users t /\ u_id u = a /\ active_master u.

(** [a] is the master whose live session [token] names. *)
Definition session_master (token : string) (t : Accounts) (a : Z) : Prop :=
  exists ses u, ses ∈ acc_sessions t /\ u ∈ acc_users t /\ us_session_token ses = trim token /\
    us_usuario_id ses = a /\ u_id u = a /\ u_ativo u <> 0%Z /\ u_master_user u = 1%Z.

Lemma open_db_tables s r s1 : open_db state s = (r, s1) -> fst s1 = fst s.
Proof.
  unfold open_db. intros [(app & s2 & E & [= _ <-])|(e & E & _)]%try_inv; by apply open_app_tables in E.
Qed.

Lemma access_master_inv token s r s1 :
  ensure_master token s = (r, s1) ->
  (exists now, fst s1 = fst s \/ fst s1 = update_session_activity now (trim token) (fst s)) /\
  (forall a, r = Ok a -> session_master token (fst s) a).
Proof.
  unfold ensure_master. intros [(id & s2 & E & H)|(e & E & ->)]%try_inv;
    apply require_session_inv in E; cbn in E.
  - destruct E as (ses & u & Hs & Hu & Ht & _ & _ & Hid & Ha & -> & Hs2). cbn in H.
    destruct (Z.eqb_spec (u_master_user u) 1) as [Hm|Hm]; injection H as <- <-.
    + split; [eauto|]. intros a [= <-]. exists ses, u. by rewrite Hid.
    + split; [eauto|done].
  - split; [exists ""; auto|done].
Qed.

(** A command that wants a master either writes no row but its session's, or
    goes on with the session's master and the users as they were. *)
Lemma as_master {A} token (k : db_conn -> Z -> St db (result string A)) s r s' :
  (conn ←? open_db state; a ←? ensure_master token; k conn a) s = (r, s') ->
  acc_users (fst s') = acc_users (fst s) \/
  exists conn a s1, session_master token (fst s) a /\ acc_users (fst s1) = acc_users (fst s) /\
    k conn a s1 = (r, s').
Proof.
  assert (forall now t, acc_users (update_session_activity now (trim token) t) = acc_users t) as Hu
    by done.
  intros [(conn & s0 & E0 & H)|(e & E0 & _)]%try_inv; apply open_db_tables in E0; [|left; congruence].
  apply try_inv in H as [(a & s1 & E1 & H)|(e & E1 & _)];
    apply access_master_inv in E1 as ((now & E1) & Hm); rewrite E0 in *.
  - right. exists conn, a, s1. split; [by apply Hm|]. split; [|done].
    destruct E1 as [->| ->]; [done|apply Hu].
  - left. destruct E1 as [->| ->]; [done|apply Hu].
Qed.

Lemma preserves_try_Ok {A B} I (c : St (db (W := W)) (result string A)) (f : A -> St db (result string B)) :
  preserves I c -> (forall s a s', c s = (Ok a, s') -> preserves I (f a)) -> preserves I (try c f).
Proof.
  intros Hc Hf s r s' HI [(a & s1 & E & H)|(e & E & _)]%try_inv; [|by eapply Hc].
  eapply (Hf _ _ _ E); [by eapply Hc|exact H].
Qed.

(** The check refuses to deactivate the account of the session. *)
Lemma check_user_self a f pids eids s s' :
  check_user a (Some a) f pids eids s = (Ok (), s') -> uf_ativo f <> 0%Z.
Proof.
  unfold check_user. intros (m & s1 & _ & H)%try_Ok.
  apply try_Ok in H as ([] & s2 & _ & H). apply try_Ok in H as ([] & s3 & _ & H).
  apply try_Ok in H as ([] & s4 & E & _). unfold guard_ in E. rewrite bool_decide_eq_true_2 in E by done.
  intros Hz. rewrite Hz in E. done.
Qed.

Lemma master_alive_users a t t' : acc_users t' = acc_users t -> master_alive a t -> master_alive a t'.
Proof. intros E (u & Hu & H). exists u. by rewrite E. Qed.

Lemma master_alive_update a f hash now i t t' :
  (i = a -> uf_master_user f = 1%Z /\ uf_ativo f = 1%Z) -> master_alive a t ->
  update_user f hash now i t = Ok t' -> master_alive a t'.
Proof.
  unfold update_user. intros Hf (u & Hu & Hid & Hm). destruct (_ && _); [done|]. intros [= <-].
  exists (if (u_id u =? i)%Z then written_user f hash now u else u). split_and!.
  - cbn. unfold update_where. rewrite list_elem_of_In. apply list_elem_of_In in Hu.
    by apply (in_map (fun x => if (u_id x =? i)%Z then written_user f hash now x else x)).
  - by destruct (u_id u =? i)%Z.
  - destruct (Z.eqb_spec (u_id u) i) as [E|E]; [|done]. destruct Hf as [H1 H2]; [congruence|].
    by split.
Qed.

Lemma master_alive_insert a f hash now i t t' :
  master_alive a t -> insert_user f hash now t = Ok (i, t') -> master_alive a t'.
Proof.
  unfold insert_user. intros (u & Hu & H). destruct (existsb _ _); [done|].
  unfold mbind, result_bind. destruct (next_rowid _ _); [|done]. intros [= _ <-].
  exists u. split; [|done]. cbn. apply elem_of_app. by left.
Qed.

Lemma master_alive_delete a i t : a <> i -> master_alive a t -> master_alive a (snd (delete_user i t)).
Proof.
  intros Hne (u & Hu & Hid & Hm). exists u. split; [|done]. cbn. apply elem_filter. split; [done|].
  apply negb_true_iff, Z.eqb_neq. congruence.
Qed.

(** The rest of a save, once the actor is known, keeps the actor a master
    unless the save takes the mark away. *)
Lemma user_save_keeps_master token payload s r s' :
  user_save state token payload s = (r, s') ->
  (acc_users (fst s') = acc_users (fst s)) \/
  exists a, session_master token (fst s) a /\
    (get_id payload = Some a -> get_bool payload "master_user" false = 1%Z ->
     master_alive a (fst s) -> master_alive a (fst s')) /\
    (get_id payload <> Some a -> master_alive a (fst s) -> master_alive a (fst s')).
Proof.
  intros H. apply as_master in H as [H|(conn & a & s1 & Ha & E & H)]; [by left|]. right.
  exists a. split; [done|].
  assert ((get_id payload = Some a -> get_bool payload "master_user" false = 1%Z) ->
          master_alive a (fst s1) -> master_alive a (fst s')) as K.
  { intros Hok Hm. revert Hm H. match goal with |- _ -> ?c s1 = _ -> _ =>
      assert (preserves (master_alive a) c) as Hp; [|intros Hm H; by eapply Hp] end.
    assert (forall i pids eids, preserves (master_alive a) (link_user i pids eids)) as Hl.
    { intros. apply preserves_link_user; try (intros; by eapply master_alive_users; [|eassumption]).
      - intros p t t' Hm. unfold insert_user_profile. destruct (pair_in _ _ _); [done|].
        destruct (_ && _); [|done]. by intros [= <-].
      - intros p t t' Hm. unfold insert_user_company. destruct (pair_in _ _ _); [done|].
        destruct (_ && _); [|done]. by intros [= <-]. }
    assert (forall now token t, master_alive a t -> master_alive a (update_session_activity now token t))
      as Ht by (intros; by eapply master_alive_users; [|eassumption]).
    apply preserves_try; [apply preserves_now_text|]. intros now.
    apply preserves_try; [apply preserves_require|]. intros nome.
    apply preserves_try; [apply preserves_require|]. intros login.
    apply preserves_try_Ok; [apply preserves_check_user|]. intros s2 [] s3 Hc.
    assert (forall i, get_id payload = Some i -> i = a ->
      uf_master_user (read_user_form payload nome login) = 1%Z /\
      uf_ativo (read_user_form payload nome login) = 1%Z) as Hf.
    { intros i Hi ->. rewrite Hi in *. split; [by apply Hok|]. apply check_user_self in Hc.
      destruct (form_of_typed payload nome login) as (_ & _ & _ & [H0|H1]); [done|exact H1]. }
    assert (forall pw, preserves (master_alive a)
      (write_user (get_id payload) (read_user_form payload nome login) pw now)) as Hw.
    { intros. apply preserves_write_user; eauto using master_alive_insert.
      intros hash i t t' Hi. apply master_alive_update. by apply Hf. }
    keep. }
  split; intros H1.
  - intros H2 Hm. apply K; [auto|]. eapply master_alive_users; [exact E|exact Hm].
  - intros Hm. apply K; [done|]. eapply master_alive_users; [exact E|exact Hm].
Qed.

Lemma session_master_alive token t a :
  typed t -> session_master token t a -> master_alive a t.
Proof.
  intros [Hu] (ses & u & _ & Hin & _ & _ & Hid & Hact & Hm). exists u. split_and!; try done.
  rewrite Forall_forall in Hu. destruct (Hu u Hin) as (_ & _ & _ & [H|H]); [done|by split].
Qed.

(** C5. The last master. No access command leaves the tables without an active
    master, whatever fails half-way, except one: a master who saves its own
    account without the master mark. Deleting can never do it (a master cannot
    delete itself, so the deleter is left), nor can deactivating oneself, which
    is refused. *)
Theorem master_survives cmd s :
  typed (fst s) -> (exists a, master_alive a (fst s)) ->
  (exists a, master_alive a (fst (run_access cmd s))) \/
  (exists token payload a, cmd = UserSave token payload /\ session_master token (fst s) a /\
     get_id payload = Some a /\ get_bool payload "master_user" false = 0%Z).
Proof.
  intros Ht [b Hb].
  assert (forall t t', acc_users t' = acc_users t -> (exists a, master_alive a t) ->
    exists a, master_alive a t') as Hsame
    by (intros t t' E [a Ha]; exists a; by eapply master_alive_users).
  assert (forall A (c : St db A), preserves (fun t => acc_users t = acc_users (fst s)) c ->
    exists a, master_alive a (fst (snd (c s)))) as Hp.
  { intros A c Hc. destruct (c s) as [x s'] eqn:E. eapply Hsame; [by eapply Hc|eauto]. }
  destruct cmd as [token|token payload|token id|token payload|token id|token id|token payload|token id];
    cbn [run_access].
  - left. apply Hp. unfold user_policy_get. keep.
  - left. apply Hp. unfold user_policy_save. keep. by apply preserves_execute.
  - left. apply Hp. by apply preserves_profile_get.
  - left. apply Hp. apply preserves_profile_save; try done.
    + intros f now i t t' _ E. unfold update_profile. destruct (_ && _); [done|]. by intros [= <-].
    + intros f now i t t' _ E. unfold insert_profile. destruct (existsb _ _); [done|].
      unfold mbind, result_bind. destruct (next_rowid _ _); [|done]. by intros [= _ <-].
    + intros i key t t' _ E. unfold insert_profile_perm. destruct (existsb _ _); [done|].
      destruct (existsb _ _); [|done]. by intros [= <-].
  - left. apply Hp. unfold profile_delete. keep.
    + by apply preserves_execute.
    + apply preserves_statement. by intros t n t' E [= _ <-].
  - left. apply Hp. by apply preserves_user_get.
  - destruct (user_save state token payload s) as [r s'] eqn:E. cbn [snd].
    apply user_save_keeps_master in E as [E|(a & Ha & H1 & H2)]; [left; eauto|].
    pose proof (session_master_alive _ _ _ Ht Ha) as Hal.
    destruct (decide (get_id payload = Some a)) as [Hi|Hi]; [|left; eauto].
    destruct (get_flag_range (fun text => existsb (String.eqb (to_lowercase text))
      ["1"; "true"; "sim"; "yes"]) payload "master_user" false) as [H0|H0]; [right|left; eauto].
    by exists token, payload, a.
  - left. destruct (user_delete state token id s) as [r s'] eqn:E. cbn [snd].
    apply as_master in E as [E|(conn & a & s1 & Ha & E1 & E)]; [eauto|].
    exists a. pose proof (session_master_alive _ _ _ Ht Ha) as Hal.
    assert (master_alive a (fst s1)) as Hal1 by by eapply master_alive_users.
    apply try_inv in E as [([] & s2 & Eg & E)|(e & Eg & _)];
      [|unfold guard_ in Eg; injection Eg as _ <-; done].
    unfold guard_ in Eg. destruct (Z.eqb_spec a id) as [|Hne]; [done|]. injection Eg as <-.
    revert Hal1 E. match goal with |- _ -> ?c s1 = _ -> _ =>
      assert (preserves (master_alive a) c) as Hp'; [|intros Hal1 E; by eapply Hp'] end.
    keep.
    + by apply preserves_execute.
    + apply preserves_statement. intros t n t' Hm [= _ <-]. by apply master_alive_delete.
Qed.
End Keeps.
