(* ===== verification/AccessSaves.v ===== *)
(** * What the access commands store

    The effect of a successful save: the row of a user, its password and its
    links; the permissions of a profile; the login policy and the bounds it
    keeps whatever the table holds. *)

From S2P Require Import Prelude RustStr Json Payload Security NetAddr NetBind RuntimeSettings.
From S2P Require Import ServiceConfigs RuntimeStore AppLog Accounts AccessTables Auth Access AccessRules.

#[local] Open Scope string_scope.
#[local] Open Scope tunnara_scope.

(** ** Loops of inserts *)

(** The tables after a loop of inserts that all succeed. *)
Fixpoint insert_all {A} (f : A -> Accounts -> result string Accounts) (l : list A) (t : Accounts) :
    result string Accounts :=
  match l with
  | [] => Ok t
  | x :: r => t' ← f x t; insert_all f r t'
  end.

Section Saves.
Context {W : Type} `{LO : LogOs W} `{ST : !Statements W} `{CR : Crypto} `{RN : !Randomness W}
  `{AW : !AuthWorld W}.
Context (state : SharedState).
Implicit Types s : db (W := W).

Lemma each_insert {A} what (f : A -> Accounts -> result string Accounts) l s s' :
  each (fun x => insert (W := W) what (f x)) l s = (Ok (), s') -> insert_all f l (fst s) = Ok (fst s').
Proof.
  revert s. induction l as [|x l IH]; intros s; cbn [each insert_all]; [by intros [= ->]|].
  intros ([] & s1 & E & H)%try_Ok. apply insert_tables in E as [(_ & E)|(E & _)]; [|done].
  unfold mbind, result_bind. rewrite E. by apply IH.
Qed.

Lemma insert_profiles id l t t' :
  insert_all (insert_user_profile id) l t = Ok t' ->
  t' = with_user_profiles (fun r => r ++ map (pair id) l)%list t.
Proof.
  revert t. induction l as [|p l IH]; intros t; cbn [insert_all map].
  - intros [= <-]. destruct t. unfold with_user_profiles. cbn. by rewrite app_nil_r.
  - unfold mbind, result_bind, insert_user_profile at 1. destruct (pair_in _ _ _); [done|].
    destruct (_ && _); [|done]. intros ->%IH. unfold with_user_profiles. cbn. f_equal.
    by rewrite <- app_assoc.
Qed.

Lemma insert_companies id l t t' :
  insert_all (insert_user_company id) l t = Ok t' ->
  t' = with_user_companies (fun r => r ++ map (pair id) l)%list t.
Proof.
  revert t. induction l as [|p l IH]; intros t; cbn [insert_all map].
  - intros [= <-]. destruct t. unfold with_user_companies. cbn. by rewrite app_nil_r.
  - unfold mbind, result_bind, insert_user_company at 1. destruct (pair_in _ _ _); [done|].
    destruct (_ && _); [|done]. intros ->%IH. unfold with_user_companies. cbn. f_equal.
    by rewrite <- app_assoc.
Qed.

Lemma insert_perms id l t t' :
  insert_all (insert_profile_perm id) l t = Ok t' ->
  t' = with_profile_perms (fun r => r ++ map (pair id) l)%list t.
Proof.
  revert t. induction l as [|p l IH]; intros t; cbn [insert_all map].
  - intros [= <-]. destruct t. unfold with_profile_perms. cbn. by rewrite app_nil_r.
  - unfold mbind, result_bind, insert_profile_perm at 1.
    destruct (existsb _ (acc_profile_perms t)); [done|].
    destruct (existsb _ (acc_profiles t)); [|done]. intros ->%IH. unfold with_profile_perms. cbn.
    f_equal. by rewrite <- app_assoc.
Qed.

(** The rows of an id, after its rows were dropped and new ones appended. *)
Lemma rows_of_id {B} (id : Z) (l : list B) (old : list (Z * B)) :
  map snd (List.filter (fun r => (fst r =? id)%Z)
    (List.filter (fun r => negb (fst r =? id)%Z) old ++ map (pair id) l)) = l.
Proof.
  rewrite List.filter_app, map_app.
  assert (List.filter (fun r => (fst r =? id)%Z)
            (List.filter (fun r : Z * B => negb (fst r =? id)%Z) old) = []) as ->.
  { induction old as [|r old IH]; cbn; [done|]. destruct (fst r =? id)%Z eqn:E; cbn; [done|].
    by rewrite E. }
  cbn. induction l as [|x l IH]; cbn; [done|]. by rewrite Z.eqb_refl; cbn; rewrite IH.
Qed.

(** ** Users *)

(** The row holds the columns of the form. *)
Definition holds_form (f : UserForm) (u : Usuario) : Prop :=
  u_nome u = uf_nome f /\ u_login u = uf_login f /\ u_email u = uf_email f /\
  u_telefone u = uf_telefone f /\ u_cargo u = uf_cargo f /\ u_observacoes u = uf_observacoes f /\
  u_photo_url u = uf_photo_url f /\ u_master_user u = uf_master_user f /\
  u_administrador u = uf_administrador f /\ u_senha_provisoria u = uf_senha_provisoria f /\
  u_ativo u = uf_ativo f.

(** [h] is a hash made of a password of at least six bytes. *)
Definition hashed (pw h : string) : Prop :=
  6 <= String.length (trim pw) /\ exists w w' : W, hash_password (trim pw) w = (Ok h, w').

Lemma checked_hash_inv pw s h s' :
  checked_hash pw s = (Ok h, s') -> hashed pw h /\ fst s' = fst s.
Proof.
  unfold checked_hash. intros ([] & s1 & E & H)%try_Ok. unfold guard_ in E.
  destruct (Nat.leb_spec 6 (String.length (trim pw))); [|done]. injection E as <-.
  pose proof (lift_tables _ _ _ _ H) as Ht. split; [|done]. split; [done|].
  unfold lift in H. destruct (hash_password (trim pw) (snd s)) as [r w] eqn:Eh.
  injection H as -> _. eauto.
Qed.

Lemma write_user_inv id f pw now s i s' :
  write_user id f pw now s = (Ok i, s') ->
  (id = Some i /\ exists hash,
     update_user f hash now i (fst s) = Ok (fst s') /\
     match pw with Some p => exists h, hash = Some h /\ hashed p h | None => hash = None end) \/
  (id = None /\ exists p h, pw = Some p /\ hashed p h /\
     insert_user f h now (fst s) = Ok (i, fst s')).
Proof.
  unfold write_user. destruct id as [e|].
  - intros (hash & s1 & E & H)%try_Ok. left.
    assert (fst s1 = fst s /\ match pw with
      Some p => exists h, hash = Some h /\ hashed p h | None => hash = None end) as [Et Eh].
    { destruct pw as [p|]; [|by injection E as <- <-].
      apply try_Ok in E as (h & s2 & Eh & [= <- <-]). apply checked_hash_inv in Eh as [Hh Ht]. eauto. }
    apply try_Ok in H as ([] & s2 & E2 & [= <- <-]).
    apply insert_tables in E2 as [(_ & E2)|(E2 & _)]; [|done]. rewrite Et in E2. eauto.
  - intros (p & s1 & E & H)%try_Ok. right. destruct pw as [p'|]; [|done].
    injection E as <- <-. apply try_Ok in H as (h & s2 & Eh & H).
    apply checked_hash_inv in Eh as [Hh Ht]. split; [done|]. exists p', h. split_and!; [done..|].
    revert H. unfold statement. destruct (sql_fault _) as [[e|] w]; [done|]. rewrite Ht.
    destruct (insert_user _ _ _ _) as [[j t]|]; [|done]. by intros [= <- <-].
Qed.

Lemma link_user_inv i pids eids s s' :
  link_user i pids eids s = (Ok (), s') ->
  acc_users (fst s') = acc_users (fst s) /\ acc_sessions (fst s') = acc_sessions (fst s) /\
  map snd (List.filter (fun r => (fst r =? i)%Z) (acc_user_profiles (fst s'))) = pids /\
  map snd (List.filter (fun r => (fst r =? i)%Z) (acc_user_companies (fst s'))) = eids.
Proof.
  unfold link_user. intros ([] & s1 & E1 & H)%try_Ok. apply execute_tables in E1. cbn [is_ok] in E1.
  apply try_Ok in H as ([] & s2 & E2 & H). apply execute_tables in E2. cbn [is_ok] in E2.
  apply try_Ok in H as ([] & s3 & E3 & H).
  apply each_insert, insert_profiles in E3. apply each_insert, insert_companies in H.
  rewrite H, E3, E2, E1. cbn. split_and!; [done..| |]; apply rows_of_id.
Qed.

Lemma user_get_inv token i s m s' :
  user_get state token i s = (Ok m, s') ->
  exists u, user_by_id i (fst s') = Some u /\ acc_users (fst s') = acc_users (fst s) /\
    acc_user_profiles (fst s') = acc_user_profiles (fst s) /\
    acc_user_companies (fst s') = acc_user_companies (fst s).
Proof.
  intros H. pose proof H as H'. unfold user_get in H.
  assert (forall {B} (g : Accounts -> B), (forall now tk t, g (update_session_activity now tk t) = g t) ->
    g (fst s') = g (fst s)) as Hg.
  { intros B g Hg. eapply (preserves_user_get state (fun t => g t = g (fst s))); [|done|exact H'].
    intros now tk t Et. by rewrite Hg. }
  apply try_Ok in H as (conn & s1 & E1 & H). apply try_Ok in H as (sid & s2 & E2 & H).
  apply try_Ok in H as (row & s3 & E3 & H). apply select_inv in E3 as [-> E3].
  apply try_Ok in H as (u & s4 & E4 & H).
  destruct (user_by_id i (fst s2)) as [u'|] eqn:Eu; [|done]. injection E4 as <- <-.
  apply try_Ok in H as (pids & s5 & E5 & H). apply select_inv in E5 as [_ E5].
  apply try_Ok in H as (eids & s6 & E6 & H). apply select_inv in E6 as [_ E6].
  injection H as _ <-. exists u'. split; [congruence|]. split_and!; by apply Hg.
Qed.

Lemma check_user_inv a id f pids eids s s' :
  check_user a id f pids eids s = (Ok (), s') ->
  fst s' = fst s /\
  exists raw, text_column "valor" (setting_of USER_LOGIN_MIN_LENGTH_KEY (fst s)) = Ok raw /\
    Z.to_nat (parsed_min_length raw) <= String.length (uf_login f) /\
    (uf_master_user f <> 1%Z -> pids <> [] /\ eids <> []).
Proof.
  intros H. split; [by apply (preserves_check_user (fun t => t = fst s) a id f pids eids s (Ok ()) s')|].
  revert H. unfold check_user, load_login_min_length.
  intros (m & s1 & (raw & s0 & E0 & [= <- <-])%try_Ok & H)%try_Ok.
  assert (text_column "valor" (setting_of USER_LOGIN_MIN_LENGTH_KEY (fst s)) = Ok raw) as Eraw.
  { revert E0. unfold statement. destruct (sql_fault _) as [[e|] w]; [done|].
    unfold mbind, result_bind. destruct (text_column _ _); [|done]. by intros [= -> _]. }
  exists raw. split; [done|].
  apply try_Ok in H as ([] & s2 & E2 & H). unfold guard_ in E2.
  destruct (Nat.leb_spec (Z.to_nat (parsed_min_length raw)) (String.length (uf_login f))); [|done].
  split; [done|]. intros Hm.
  apply try_Ok in H as ([] & s3 & _ & H). apply try_Ok in H as ([] & s4 & _ & H).
  apply try_Ok in H as (tk & s5 & _ & H). apply try_Ok in H as ([] & s6 & _ & H).
  apply Z.eqb_neq in Hm. rewrite Hm in H.
  apply try_Ok in H as ([] & s7 & E7 & H). apply try_Ok in H as ([] & s8 & E8 & _).
  unfold guard_ in E7, E8. cbn in E7, E8. split; intros ->; [done|done].
Qed.

Lemma user_by_id_update f hash now i t t' u :
  update_user f hash now i t = Ok t' -> user_by_id i t' = Some u ->
  exists u0, user_by_id i t = Some u0 /\ u = written_user f hash now u0.
Proof.
  unfold update_user. destruct (_ && _); [done|]. intros [= <-]. unfold user_by_id. cbn.
  induction (acc_users t) as [|x l IH]; cbn; [done|].
  destruct (u_id x =? i)%Z eqn:E; cbn; rewrite E; [|exact IH]. intros [= <-]. by exists x.
Qed.

Lemma user_by_id_insert f h now i t t' u :
  insert_user f h now t = Ok (i, t') -> user_by_id i t' = Some u ->
  user_by_id i t = None /\ u = new_user f h now i.
Proof.
  unfold insert_user. destruct (existsb _ _); [done|].
  unfold mbind, result_bind. destruct (next_rowid _ _) as [j|] eqn:Ej; [|done]. intros [= -> <-].
  apply next_rowid_fresh in Ej. unfold user_by_id. cbn. induction (acc_users t) as [|x l IH]; cbn.
  - rewrite Z.eqb_refl. by intros [= <-].
  - cbn in Ej. apply not_elem_of_cons in Ej as [Hx Hl].
    destruct (Z.eqb_spec (u_id x) i); [congruence|]. by apply IH.
Qed.


(** ** Profiles *)

Lemma write_profile_inv id f keys now s i s' :
  write_profile id f keys now s = (Ok i, s') ->
  (forall j, id = Some j -> j = i) /\
  map snd (List.filter (fun r => (fst r =? i)%Z) (acc_profile_perms (fst s')))
  = (if (pf_perfil_master f =? 1)%Z then all_permission_keys else keys).
Proof.
  unfold write_profile. intros (j & s1 & E & H)%try_Ok. split.
  { intros k ->. apply try_Ok in E as ([] & s2 & _ & [= <- <-]).
    apply try_Ok in H as ([] & s3 & _ & H). by apply try_Ok in H as ([] & s4 & _ & [= <- _]). }
  apply try_Ok in H as ([] & s2 & E2 & H). apply execute_tables in E2. cbn [is_ok] in E2.
  apply try_Ok in H as ([] & s3 & E3 & [= <- <-]).
  apply each_insert, insert_perms in E3. rewrite E3, E2. cbn. apply rows_of_id.
Qed.

(** What a successful save of a profile stores: exactly the permissions of
    the payload, sorted and without repetitions, all of them of the catalogue,
    or the whole catalogue when the profile has the master mark; and a profile
    without the mark has at least one. *)
Theorem profile_save_permissions token payload s m s' :
  profile_save state token payload s = (Ok m, s') ->
  exists a i, session_master token (fst s) a /\ (forall j, get_id payload = Some j -> j = i) /\
    let keys := sorted_keys (get_string_array payload "permission_keys") in
    Forall (fun k => k ∈ all_permission_keys) keys /\
    (get_bool payload "perfil_master" false = 0%Z -> keys <> []) /\
    map snd (List.filter (fun r => (fst r =? i)%Z) (acc_profile_perms (fst s')))
    = (if (get_bool payload "perfil_master" false =? 1)%Z then all_permission_keys else keys).
Proof.
  unfold profile_save. set (keys := sorted_keys _).
  intros (conn & s0 & E0 & H)%try_Ok. apply open_db_tables in E0.
  apply try_Ok in H as (a & s1 & E1 & H). apply access_master_inv in E1 as (_ & Ha).
  apply try_Ok in H as (now & s2 & _ & H). apply try_Ok in H as (nome & s3 & _ & H).
  apply try_Ok in H as ([] & s4 & E4 & H). apply try_Ok in H as ([] & s5 & E5 & H).
  apply try_Ok in H as (tk & s6 & _ & H). apply try_Ok in H as ([] & s7 & _ & H).
  apply try_Ok in H as (i & s8 & E8 & H). apply write_profile_inv in E8 as [Hi Hp].
  apply try_Ok in H as ([] & s9 & E9 & H). apply lift_tables in E9.
  apply try_Ok in H as ([] & s10 & E10 & H). apply lift_tables in E10.
  exists a, i. split; [rewrite E0 in *; by apply Ha|]. split; [done|].
  assert (first_invalid_key keys = None) as Hk by by destruct (first_invalid_key keys).
  split; [by apply valid_keys|]. split.
  - intros Hz Hn. unfold guard_ in E4. rewrite Hn in E4. cbn [pf_perfil_master] in E4.
    by rewrite Hz in E4.
  - cbn [pf_perfil_master] in Hp. rewrite <- Hp. f_equal.
    assert (acc_profile_perms (fst s') = acc_profile_perms (fst s8)) as ->; [|done].
    rewrite <- E9, <- E10.
    eapply (preserves_profile_get state
      (fun t => acc_profile_perms t = acc_profile_perms (fst s10))); [|done|exact H].
    by intros now' tk' t Et.
Qed.

(** ** The login policy *)

Lemma clamp_bounds v : (1 <= clamp_login_min_length v <= 64)%Z.
Proof. unfold clamp_login_min_length, USER_LOGIN_MIN_LENGTH_MIN, USER_LOGIN_MIN_LENGTH_MAX. lia. Qed.

Lemma parsed_shown v : (1 <= v <= 64)%Z -> parsed_min_length (Some (show_Z v)) = v.
Proof.
  intros Hv. assert (forallb (fun n => (parsed_min_length (Some (show_Z (Z.of_nat n))) =? Z.of_nat n)%Z)
    (seq 1 64) = true) as H by (vm_compute; reflexivity).
  rewrite forallb_forall in H. specialize (H (Z.to_nat v)).
  rewrite Z2Nat.id in H by lia. apply Z.eqb_eq, H, in_seq. lia.
Qed.

Lemma setting_of_upsert key v now t : setting_of key (upsert_setting key v now t) = Some (Some v).
Proof.
  unfold setting_of, upsert_setting. cbn. destruct (existsb _ _) eqn:E.
  - induction (acc_settings t) as [|x l IH]; [done|]. cbn in *.
    destruct (String.eqb (st_chave x) key) eqn:Ex; cbn; rewrite Ex; [done|]. by apply IH.
  - induction (acc_settings t) as [|x l IH]; cbn in *; [by rewrite String.eqb_refl|].
    apply orb_false_iff in E as [Ex El]. rewrite Ex. by apply IH.
Qed.

(** The bounds of the login policy. Whatever text the settings table holds
    (none, no number, a number out of range or beyond 64 bits), the length the
    checks use is between 1 and 64. A save is accepted only for a number in
    these bounds, and the next read gives it back; a number out of them is
    refused, not clamped. *)
Theorem login_policy_bounds :
  (forall raw, (1 <= parsed_min_length raw <= 64)%Z) /\
  (forall token payload s m s', user_policy_save state token payload s = (Ok m, s') ->
     exists a v, session_master token (fst s) a /\ get_i64 payload "login_min_length" = Some v /\
       (1 <= v <= 64)%Z /\ m = policy_json v /\
       (forall w, sql_fault w = (None, w) -> load_login_min_length (fst s', w) = (Ok v, (fst s', w)))).
Proof.
  split; [intros raw; apply clamp_bounds|].
  unfold user_policy_save. intros token payload s m s' (conn & s0 & E0 & H)%try_Ok.
  apply open_db_tables in E0.
  apply try_Ok in H as (a & s1 & E1 & H). apply access_master_inv in E1 as (_ & Ha).
  apply try_Ok in H as (now & s2 & _ & H). apply try_Ok in H as (v & s3 & E3 & H).
  destruct (get_i64 payload "login_min_length") as [v'|]; [|done]. injection E3 as <- <-.
  apply try_Ok in H as ([] & s4 & E4 & H). unfold guard_ in E4.
  destruct (Z.eqb_spec (clamp_login_min_length v') v') as [Hv|]; [|done]. injection E4 as <-.
  pose proof (clamp_bounds v') as Hb. rewrite Hv in *.
  apply try_Ok in H as ([] & s5 & E5 & H). apply execute_tables in E5. cbn [is_ok] in E5.
  apply try_Ok in H as ([] & s6 & E6 & [= <- <-]). apply lift_tables in E6.
  exists a, v'. split; [rewrite E0 in *; by apply Ha|]. split_and!; [done|lia|lia|done|].
  intros w Hw. unfold load_login_min_length, statement, try, mbind, st_bind. cbn [fst snd].
  rewrite Hw. unfold result_bind. rewrite E6, E5, setting_of_upsert. cbn [text_column].
  by rewrite parsed_shown.
Qed.
End Saves.
