(* ===== verification/Companies.v ===== *)
(** * Companies: commands/companies.rs

    The checks of documents, registrations and states, and the commands that
    list, read, save and delete companies. None of these commands looks at a
    session. The look-up of a CNPJ in public services is [CompanyLookup]. *)

From Stdlib Require Import Ascii.
From S2P Require Import Prelude RustStr Json Payload NetAddr NetBind RuntimeSettings.
From S2P Require Import ServiceConfigs RuntimeStore AppLog Accounts AccessTables Security Auth Access.

#[local] Open Scope string_scope.
#[local] Open Scope tunnara_scope.

(** [str::to_uppercase], of every character. *)
Class UnicodeUpper : Type := { unicode_uppercase : string -> string }.

(** ** Readers *)

(*| src-tauri/src/commands/companies.rs 31-62 get_bool *)
Definition company_get_bool : members -> string -> bool -> Z :=
  get_flag (fun text => existsb (String.eqb text) ["1"; "true"; "TRUE"; "sim"; "SIM"]).

(*| src-tauri/src/commands/companies.rs 72-74 only_digits *)
Definition only_digits (v : string) : string := filter_bytes is_ascii_digit v.

Definition is_ascii_alphanumeric (c : ascii) : bool :=
  is_ascii_digit c || is_ascii_upper c || is_ascii_lower c.

(*| src-tauri/src/commands/companies.rs 76-82 normalize_document_key *)
Definition normalize_document_key (v : string) : string :=
  map_bytes upper_byte (filter_bytes is_ascii_alphanumeric v).

(** ** Check digits *)

Definition nums (digits : string) : list N := map digit_val (String.list_ascii_of_string digits).

Definition weighted_sum (ns ws : list N) : N := foldr N.add 0%N (zip_with N.mul ns ws).

Definition check_digit (sum : N) : N :=
  let rem := (sum mod 11)%N in if (rem <? 2)%N then 0%N else (11 - rem)%N.

Definition all_same (digits : string) : bool :=
  match digits with
  | "" => true
  | String c r => forall_bytes (Ascii.eqb c) r
  end.

(** The [i]-th digit is the check digit of those before it. *)
Definition checks_at (ns ws : list N) : bool :=
  bool_decide (ns !! length ws = Some (check_digit (weighted_sum ns ws))).

Definition cpf_weights1 : list N := [10; 9; 8; 7; 6; 5; 4; 3; 2]%N.
Definition cpf_weights2 : list N := [11; 10; 9; 8; 7; 6; 5; 4; 3; 2]%N.

(*| src-tauri/src/commands/companies.rs 116-150 is_valid_cpf *)
Definition is_valid_cpf (v : string) : bool :=
  let digits := only_digits v in
  (String.length digits =? 11)%nat && negb (all_same digits)
  && checks_at (nums digits) cpf_weights1 && checks_at (nums digits) cpf_weights2.

Definition cnpj_weights1 : list N := [5; 4; 3; 2; 9; 8; 7; 6; 5; 4; 3; 2]%N.
Definition cnpj_weights2 : list N := [6; 5; 4; 3; 2; 9; 8; 7; 6; 5; 4; 3; 2]%N.

(*| src-tauri/src/commands/companies.rs 152-188 is_valid_cnpj *)
Definition is_valid_cnpj (v : string) : bool :=
  let digits := only_digits v in
  (String.length digits =? 14)%nat && negb (all_same digits)
  && checks_at (nums digits) cnpj_weights1 && checks_at (nums digits) cnpj_weights2.

Definition three_to_twenty (n : nat) : bool := (3 <=? n)%nat && (n <=? 20)%nat.

(*| src-tauri/src/commands/companies.rs 190-204 validate_company_document *)
Definition validate_company_document (document : string) : bool :=
  let normalized := normalize_document_key document in
  let n := String.length normalized in
  if (n <? 3)%nat then false else
  let digits := only_digits normalized in
  let d := String.length digits in
  if (d =? 11)%nat && (d =? n)%nat then is_valid_cpf digits
  else if (d =? 14)%nat && (d =? n)%nat then is_valid_cnpj digits
  else if (d =? 0)%nat then three_to_twenty n
  else if (d =? n)%nat then three_to_twenty d
  else three_to_twenty n.

Section Registration.
Context `{UP : UnicodeUpper}.

(** The test after [digits] is not empty compares a count with itself. *)
(*| src-tauri/src/commands/companies.rs 84-103 normalize_optional_registration *)
Definition normalize_optional_registration (v : option string) : option string :=
  (fun text =>
     let upper := unicode_uppercase text in
     if String.eqb upper "ISENTO" then upper
     else let digits := only_digits upper in
          if negb (is_empty digits)
             && (String.length digits =? String.length (filter_bytes is_ascii_digit upper))%nat
          then digits else upper)
  <$> opt_filter (fun text => negb (is_empty text)) (trim <$> v).

(*| src-tauri/src/commands/companies.rs 105-109 normalize_upper_uf *)
Definition normalize_upper_uf (v : option string) : option string :=
  opt_filter (fun text => negb (is_empty text)) (unicode_uppercase <$> v).
End Registration.

(** ** Statements *)

(** The columns a save writes. *)
Record CompanyForm : Type := {
  co_nome : string;
  co_nome_fantasia : option string;
  co_documento : string;
  co_inscricao_estadual : option string;
  co_inscricao_municipal : option string;
  co_telefone : option string;
  co_email : option string;
  co_responsavel_nome : option string;
  co_responsavel_telefone : option string;
  co_cep : option string;
  co_endereco : option string;
  co_numero : option string;
  co_complemento : option string;
  co_bairro : option string;
  co_cidade : option string;
  co_estado : option string;
  co_observacoes : option string;
  co_ativo : Z;
}.

Definition company_of_form (f : CompanyForm) (id : Z) (created updated : string) : Empresa := {|
  e_id := id; e_nome := co_nome f; e_nome_fantasia := co_nome_fantasia f;
  e_documento := Some (co_documento f); e_inscricao_estadual := co_inscricao_estadual f;
  e_inscricao_municipal := co_inscricao_municipal f; e_telefone := co_telefone f;
  e_email := co_email f; e_responsavel_nome := co_responsavel_nome f;
  e_responsavel_telefone := co_responsavel_telefone f; e_cep := co_cep f;
  e_endereco := co_endereco f; e_numero := co_numero f; e_complemento := co_complemento f;
  e_bairro := co_bairro f; e_cidade := co_cidade f; e_estado := co_estado f;
  e_observacoes := co_observacoes f; e_ativo := co_ativo f; e_created_at := created;
  e_updated_at := updated |}.

Definition company_by_id (id : Z) (t : Accounts) : option Empresa :=
  list_find (fun e => (e_id e =? id)%Z) (acc_companies t).

(** [UPPER(REPLACE(REPLACE(REPLACE(COALESCE(documento, ''), '.', ''), '-', ''), '/', ''))] *)
Definition document_key (e : Empresa) : string :=
  map_bytes upper_byte
    (replace "/" "" (replace "-" "" (replace "." "" (unwrap_or "" (e_documento e))))).

(*| src-tauri/src/commands/companies.rs 308-315 company_save *)
Definition document_taken (documento : string) (id : option Z) (t : Accounts) : bool :=
  existsb (fun e => String.eqb (document_key e) documento && other_id id (e_id e)) (acc_companies t).

(*| src-tauri/src/commands/companies.rs 340-386 company_save *)
Definition update_company (f : CompanyForm) (now : string) (id : Z) : Accounts -> Accounts :=
  with_companies (update_where (fun e => (e_id e =? id)%Z)
    (fun e => company_of_form f (e_id e) (e_created_at e) now)).

(*| src-tauri/src/commands/companies.rs 388-417 company_save *)
Definition insert_company (f : CompanyForm) (now : string) (t : Accounts) :
    result string (Z * Accounts) :=
  id ← next_rowid (sq_companies (acc_seq t)) (map e_id (acc_companies t));
  Ok (id, with_seq {| sq_users := sq_users (acc_seq t); sq_profiles := sq_profiles (acc_seq t);
                      sq_companies := id; sq_licenses := sq_licenses (acc_seq t) |}
    (with_companies (fun l => l ++ [company_of_form f id now now])%list t)).

(** The links of users go with the row; a local license keeps it. *)
(*| src-tauri/src/commands/companies.rs 454-456 company_delete *)
Definition delete_company (id : Z) (t : Accounts) : result string (Z * Accounts) :=
  let affected := length (List.filter (fun e => (e_id e =? id)%Z) (acc_companies t)) in
  if negb (affected =? 0)%nat && existsb (fun l => (ll_empresa_id l =? id)%Z) (acc_licenses t)
  then Err fk_failed
  else Ok (Z.of_nat affected,
    with_user_companies (List.filter (fun r => negb (snd r =? id)%Z))
      (with_companies (List.filter (fun e => negb (e_id e =? id)%Z)) t)).

(** The columns of [company_select_sql]. *)
(*| src-tauri/src/commands/companies.rs 206-211 company_select_sql *)
Definition company_row (e : Empresa) : members :=
  [("id", json_i64 (e_id e)); ("nome", String_ (e_nome e));
   ("nome_fantasia", opt_json (e_nome_fantasia e)); ("documento", opt_json (e_documento e));
   ("inscricao_estadual", opt_json (e_inscricao_estadual e));
   ("inscricao_municipal", opt_json (e_inscricao_municipal e));
   ("telefone", opt_json (e_telefone e)); ("email", opt_json (e_email e));
   ("responsavel_nome", opt_json (e_responsavel_nome e));
   ("responsavel_telefone", opt_json (e_responsavel_telefone e)); ("cep", opt_json (e_cep e));
   ("endereco", opt_json (e_endereco e)); ("numero", opt_json (e_numero e));
   ("complemento", opt_json (e_complemento e)); ("bairro", opt_json (e_bairro e));
   ("cidade", opt_json (e_cidade e)); ("estado", opt_json (e_estado e));
   ("observacoes", opt_json (e_observacoes e)); ("ativo", json_i64 (e_ativo e));
   ("created_at", String_ (e_created_at e)); ("updated_at", String_ (e_updated_at e))].

(** ** Commands *)

Section Companies.
Context {W : Type} `{LO : LogOs W} `{ST : !Statements W} `{AW : !AuthWorld W} `{UP : UnicodeUpper}.
Context (state : SharedState).

(*| src-tauri/src/commands/companies.rs 214-260 company_list *)
Definition company_list (filters : members) : St db (result string (list members)) :=
  _ ←? open_db state;
  let search := unwrap_or "" (get_string filters "search") in
  let only_active := (company_get_bool filters "onlyActive" false =? 1)%Z in
  let wildcard := "%" ++ search ++ "%" in
  let digits := only_digits search in
  let doc_wildcard := if is_empty digits then wildcard else "%" ++ digits ++ "%" in
  select "Falha ao executar listagem de empresas" (fun t =>
    map company_row (sort_by (fun a b => text_le (e_nome a) (e_nome b))
      (List.filter (fun e =>
         (is_empty search || sql_like wildcard (e_nome e) || opt_like wildcard (e_nome_fantasia e)
          || opt_like doc_wildcard (e_documento e) || opt_like wildcard (e_cidade e))
         && (negb only_active || (e_ativo e =? 1)%Z)) (acc_companies t)))).

(*| src-tauri/src/commands/companies.rs 263-272 company_get *)
Definition company_get (id : Z) : St db (result string members) :=
  _ ←? open_db state;
  row ←? select "Falha ao consultar empresa" (company_by_id id);
  e ←? require row "Empresa não encontrada.";
  mret (Ok (company_row e)).

(** The columns of a save whose name, document, e-mail and state passed. *)
(*| src-tauri/src/commands/companies.rs 321-337 company_save *)
Definition read_company_form (payload : members) (nome documento : string)
    (email estado : option string) : CompanyForm := {|
  co_nome := nome; co_nome_fantasia := get_string payload "nome_fantasia";
  co_documento := documento;
  co_inscricao_estadual := normalize_optional_registration (get_string payload "inscricao_estadual");
  co_inscricao_municipal := normalize_optional_registration (get_string payload "inscricao_municipal");
  co_telefone := only_digits <$> get_string payload "telefone"; co_email := email;
  co_responsavel_nome := get_string payload "responsavel_nome";
  co_responsavel_telefone := only_digits <$> get_string payload "responsavel_telefone";
  co_cep := only_digits <$> get_string payload "cep"; co_endereco := get_string payload "endereco";
  co_numero := get_string payload "numero"; co_complemento := get_string payload "complemento";
  co_bairro := get_string payload "bairro"; co_cidade := get_string payload "cidade";
  co_estado := estado; co_observacoes := get_string payload "observacoes";
  co_ativo := company_get_bool payload "ativo" true |}.

Definition company_action (id : option Z) : string :=
  match id with Some _ => "update" | None => "create" end.

(** The update or the insert. *)
Definition write_company (id : option Z) (form : CompanyForm) (now : string) :
    St db (result string Z) :=
  match id with
  | Some existing_id =>
      _ ←? execute "Falha ao atualizar empresa" (update_company form now existing_id);
      mret (Ok existing_id)
  | None => statement "Falha ao inserir empresa" (insert_company form now)
  end.

(*| src-tauri/src/commands/companies.rs 275-447 company_save *)
Definition company_save (payload : members) : St db (result string members) :=
  conn ←? open_db state;
  let id := get_id payload in
  now ←? now_text;
  nome ←? require (get_string payload "nome") "Informe a razão social da empresa.";
  documento_raw ←? require (get_string payload "documento")
    "Informe o documento da empresa usuária.";
  let documento := normalize_document_key documento_raw in
  _ ←? guard_ (validate_company_document documento)
    "Documento inválido para empresa usuária. Informe CPF/CNPJ válido ou identificador interno compatível com o cadastro local.";
  let email := get_string payload "email" in
  _ ←? guard_ (match email with Some v => validate_email v | None => true end)
    "E-mail da empresa é inválido.";
  let estado := normalize_upper_uf (get_string payload "estado") in
  _ ←? guard_ (match estado with Some uf => (String.length uf =? 2)%nat | None => true end)
    "UF da empresa deve conter 2 caracteres.";
  taken ←? select "Falha ao validar documento da empresa" (document_taken documento id);
  _ ←? guard_ (negb taken) "Já existe uma empresa usuária com este documento.";
  let form := read_company_form payload nome documento email estado in
  record_id ←? write_company id form now;
  saved ←? select "Falha ao reler empresa salva" (company_by_id record_id);
  e ←? require saved "Empresa salva não encontrada.";
  let payload_value := Object (company_row e) in
  _ ←? audit conn "empresas" (company_action id) (Some record_id) payload_value;
  _ ←? sync conn "empresas" (company_action id) (Some record_id) payload_value;
  mret (Ok (company_row e)).

(*| src-tauri/src/commands/companies.rs 450-465 company_delete *)
Definition company_delete (id : Z) : St db (result string bool) :=
  conn ←? open_db state;
  affected ←? statement "Falha ao excluir empresa" (delete_company id);
  let payload := Object [("id", json_i64 id); ("entity", String_ "empresas")] in
  _ ←? (if (0 <? affected)%Z then
          _ ←? audit conn "empresas" "delete" (Some id) payload;
          sync conn "empresas" "delete" (Some id) payload
        else mret (Ok ()));
  mret (Ok (0 <? affected)%Z).

End Companies.
