(* ===== verification/CompanyRules.v ===== *)
(** * What the company commands keep

    The check digits of a document determine it, and no two companies have the
    same document, whatever is saved and deleted. *)

From Stdlib Require Import Ascii.
From S2P Require Import Prelude RustStr Json Payload NetAddr NetBind RuntimeSettings.
From S2P Require Import ServiceConfigs RuntimeStore AppLog Accounts AccessTables Security Auth Access.
From S2P Require Import AccessRules Companies.

#[local] Open Scope string_scope.
#[local] Open Scope tunnara_scope.

(** ** Documents *)

Lemma replace_absent c q s :
  forall_bytes (fun a => negb (Ascii.eqb c a)) s = true -> replace (String c "") q s = s.
Proof.
  unfold replace. induction s as [|a s IH]; cbn [forall_bytes replace_go]; [done|].
  intros [Ha Hs]%andb_true_iff. rewrite starts_with_cons.
  apply negb_true_iff, Ascii.eqb_neq in Ha. destruct (ascii_dec c a) as [E|_]; [done|].
  by rewrite IH.
Qed.

(** A property of bytes, checked on all of them. *)
Lemma every_byte (P : ascii -> bool) :
  forallb (fun n => P (ascii_of_N (N.of_nat n))) (seq 0 256) = true -> forall a, P a = true.
Proof.
  intros H a. rewrite forallb_forall in H. rewrite <- (ascii_N_embedding a).
  rewrite <- (N2Nat.id (N_of_ascii a)). apply (H (N.to_nat (N_of_ascii a))), in_seq.
  pose proof (N_ascii_bounded a). lia.
Qed.

Definition key_byte (a : ascii) : bool := is_ascii_digit a || is_ascii_upper a.

Lemma normalized_bytes v : forall_bytes key_byte (normalize_document_key v) = true.
Proof.
  unfold normalize_document_key. induction v as [|a v IH]; cbn; [done|].
  destruct (is_ascii_alphanumeric a) eqn:E; [|exact IH]. cbn. rewrite IH, andb_true_r.
  revert a E. assert (forall a, implb (is_ascii_alphanumeric a) (key_byte (upper_byte a)) = true) as H
    by (apply every_byte; vm_compute; reflexivity).
  intros a E. specialize (H a). by rewrite E in H.
Qed.

Lemma normalize_idem v : normalize_document_key (normalize_document_key v) = normalize_document_key v.
Proof.
  pose proof (normalized_bytes v) as Hb. revert Hb. generalize (normalize_document_key v) as d.
  assert (forall a, implb (key_byte a) (is_ascii_alphanumeric a && Ascii.eqb (upper_byte a) a) = true)
    as Hall by (apply every_byte; vm_compute; reflexivity).
  unfold normalize_document_key. induction d as [|a d IH]; cbn [forall_bytes filter_bytes]; [done|].
  intros [Ha Hd]%andb_true_iff. specialize (Hall a). rewrite Ha in Hall.
  apply andb_true_iff in Hall as [-> Hu%Ascii.eqb_eq]. cbn. by rewrite Hu, IH.
Qed.

(** The key SQLite computes of a saved document is the document. *)
Lemma document_key_normalized e v :
  e_documento e = Some (normalize_document_key v) -> document_key e = normalize_document_key v.
Proof.
  intros He. unfold document_key. rewrite He. cbn [unwrap_or].
  pose proof (normalized_bytes v) as Hb. set (d := normalize_document_key v) in *.
  assert (forall a, implb (key_byte a) (negb (Ascii.eqb "." a) && negb (Ascii.eqb "-" a)
    && negb (Ascii.eqb "/" a) && Ascii.eqb (upper_byte a) a) = true) as Hall
    by (apply every_byte; vm_compute; reflexivity).
  assert (forall a, key_byte a = true -> negb (Ascii.eqb "." a) = true /\ negb (Ascii.eqb "-" a) = true
    /\ negb (Ascii.eqb "/" a) = true /\ upper_byte a = a) as Hk.
  { intros a Ha. specialize (Hall a). rewrite Ha in Hall. cbn in Hall.
    rewrite !andb_true_iff in Hall. destruct Hall as [[[H1 H2] H3] H4].
    apply Ascii.eqb_eq in H4. auto. }
  assert (forall P : ascii -> bool, (forall a, key_byte a = true -> P a = true) ->
    forall_bytes P d = true) as Hd by (intros P HP; by eapply forall_bytes_impl).
  rewrite (replace_absent "."%char) by (apply Hd; intros a Ha; by destruct (Hk a Ha)).
  rewrite (replace_absent "-"%char) by (apply Hd; intros a Ha; by destruct (Hk a Ha) as (_ & ? & _)).
  rewrite (replace_absent "/"%char) by (apply Hd; intros a Ha; by destruct (Hk a Ha) as (_ & _ & ? & _)).
  clear Hd.
  clear He. induction d as [|a d IH]; [done|]. cbn in *. apply andb_true_iff in Hb as [Ha Hd].
  f_equal; [by apply Hk|by apply IH].
Qed.

(** *** Check digits *)

Lemma nums_inj s t :
  forall_bytes is_ascii_digit s = true -> forall_bytes is_ascii_digit t = true ->
  nums s = nums t -> s = t.
Proof.
  unfold nums. revert t. induction s as [|a s IH]; intros [|b t]; cbn; try done.
  intros [Ha Hs]%andb_true_iff [Hb Ht]%andb_true_iff [= E1 E2]. f_equal; [|by apply IH].
  unfold is_ascii_digit, in_range, digit_val, byte_of in *.
  apply andb_true_iff in Ha as [Ha _]. apply andb_true_iff in Hb as [Hb _].
  apply N.leb_le in Ha, Hb. rewrite <- (ascii_N_embedding a), <- (ascii_N_embedding b). f_equal. lia.
Qed.

Lemma length_nums s : length (nums s) = String.length s.
Proof. unfold nums. rewrite length_map. induction s; cbn; [done|]. by f_equal. Qed.

Lemma zip_with_take {A B C} (f : A -> B -> C) l m :
  zip_with f l m = zip_with f (take (length m) l) m.
Proof. revert l. induction m as [|y m IH]; intros [|x l]; cbn; [done..|]. by rewrite IH. Qed.

(** Two texts that agree before the position of a check digit agree at it. *)
Lemma checks_agree ns ms ws :
  checks_at ns ws = true -> checks_at ms ws = true ->
  take (length ws) ns = take (length ws) ms -> ns !! length ws = ms !! length ws.
Proof.
  unfold checks_at, weighted_sum. rewrite !bool_decide_eq_true. intros -> -> E.
  by rewrite (zip_with_take _ ns), (zip_with_take _ ms), E.
Qed.

Lemma take_S_eq {A} n (l m : list A) :
  take n l = take n m -> l !! n = m !! n -> take (S n) l = take (S n) m.
Proof.
  intros H Hn. destruct (l !! n) as [x|] eqn:El; symmetry in Hn.
  - by rewrite (take_S_r _ _ _ El), (take_S_r _ _ _ Hn), H.
  - apply lookup_ge_None in El, Hn. rewrite !take_ge in * by lia. done.
Qed.

Lemma only_digits_bytes v : forall_bytes is_ascii_digit (only_digits v) = true.
Proof. apply filter_bytes_forall. Qed.

(** Check digits. Two accepted CPFs with the same first nine digits have
    the same eleven, and two accepted CNPJs with the same first twelve have the
    same fourteen: one pair of check digits at most completes a number. *)
Theorem check_digits_unique v w :
  (is_valid_cpf v = true -> is_valid_cpf w = true ->
   take 9 (nums (only_digits v)) = take 9 (nums (only_digits w)) -> only_digits v = only_digits w) /\
  (is_valid_cnpj v = true -> is_valid_cnpj w = true ->
   take 12 (nums (only_digits v)) = take 12 (nums (only_digits w)) -> only_digits v = only_digits w).
Proof.
  assert (forall n ws1 ws2 s t, length ws2 = S (length ws1) -> n = S (length ws2) ->
    (String.length s =? n)%nat && negb (all_same s) && checks_at (nums s) ws1
      && checks_at (nums s) ws2 = true ->
    (String.length t =? n)%nat && negb (all_same t) && checks_at (nums t) ws1
      && checks_at (nums t) ws2 = true ->
    forall_bytes is_ascii_digit s = true -> forall_bytes is_ascii_digit t = true ->
    take (length ws1) (nums s) = take (length ws1) (nums t) -> s = t) as H.
  { intros n ws1 ws2 s t Hl Hn Hs Ht Ds Dt E. rewrite !andb_true_iff, !Nat.eqb_eq in Hs, Ht.
    destruct Hs as [[[Ls _] Hs1] Hs2], Ht as [[[Lt _] Ht1] Ht2].
    pose proof (take_S_eq _ _ _ E (checks_agree _ _ _ Hs1 Ht1 E)) as E1. rewrite <- Hl in E1.
    pose proof (take_S_eq _ _ _ E1 (checks_agree _ _ _ Hs2 Ht2 E1)) as E2.
    rewrite !take_ge in E2 by (rewrite length_nums; lia). by apply nums_inj. }
  split; intros Hv Hw E;
    [eapply (H 11 cpf_weights1 cpf_weights2)|eapply (H 14 cnpj_weights1 cnpj_weights2)];
    try exact E; try done; apply only_digits_bytes.
Qed.

(** ** What the commands keep *)

(** Unique ids, and no document twice, as SQLite compares them. *)
Definition companies_ok (t : Accounts) : Prop :=
  NoDup (map e_id (acc_companies t)) /\ NoDup (map document_key (acc_companies t)).

Inductive company_command : Type :=
| CompanySave (payload : members)
| CompanyDelete (id : Z).

Section Keeps.
Context {W : Type} `{LO : LogOs W} `{ST : !Statements W} `{AW : !AuthWorld W} `{UP : UnicodeUpper}.
Context (state : SharedState).
Implicit Types s : db (W := W).

Definition run_company (cmd : company_command) (s : db (W := W)) : db :=
  match cmd with
  | CompanySave payload => snd (company_save state payload s)
  | CompanyDelete id => snd (company_delete state id s)
  end.

(** A save either writes nothing or writes one row, whose document is
    normalised, accepted and taken by no other row. *)
Lemma company_save_inv payload s r s' :
  company_save state payload s = (r, s') ->
  fst s' = fst s \/
  exists raw form now i s1 s2, co_documento form = normalize_document_key raw /\
    validate_company_document (co_documento form) = true /\
    document_taken (co_documento form) (get_id payload) (fst s) = false /\
    write_company (get_id payload) form now s1 = (Ok i, s2) /\ fst s1 = fst s /\ fst s' = fst s2.
Proof.
  unfold company_save. intros [(conn & s0 & E0 & H)|(e & E0 & _)]%try_inv; apply open_db_tables in E0;
    [|by left].
  apply try_inv in H as [(now & s1 & E1 & H)|(e & E1 & _)]; apply now_text_run in E1 as [_ E1];
    [|left; congruence].
  apply try_inv in H as [(nome & s2 & E2 & H)|(e & E2 & _)]; injection E2 as _ <-; [|left; congruence].
  apply try_inv in H as [(raw & s3 & E3 & H)|(e & E3 & _)]; injection E3 as _ <-; [|left; congruence].
  apply try_inv in H as [([] & s4 & E4 & H)|(e & E4 & _)]; [|injection E4 as _ <-; left; congruence].
  unfold guard_ in E4. destruct (validate_company_document _) eqn:Ev; [|done]. injection E4 as <-.
  apply try_inv in H as [([] & s5 & E5 & H)|(e & E5 & _)]; injection E5 as _ <-; [|left; congruence].
  apply try_inv in H as [([] & s6 & E6 & H)|(e & E6 & _)]; injection E6 as _ <-; [|left; congruence].
  apply try_inv in H as [(taken & s7 & E7 & H)|(e & E7 & _)];
    [|apply select_tables in E7; left; congruence].
  apply select_inv in E7 as [-> E7].
  apply try_inv in H as [([] & s8 & E8 & H)|(e & E8 & _)]; [|injection E8 as _ <-; left; congruence].
  unfold guard_ in E8. destruct (document_taken _ _ _) eqn:Et; [done|]. injection E8 as <-.
  apply try_inv in H as [(i & s9 & E9 & H)|(e & E9 & _)].
  - right. eexists raw, _, now, i, s7, s9. split; [|split; [|split; [|split; [exact E9|]]]]; try done.
    + rewrite <- Et. cbn [co_documento read_company_form]. f_equal. congruence.
    + split; [congruence|].
      revert H. match goal with |- ?c s9 = _ -> _ =>
        assert (preserves (fun t => t = fst s9) c) as Hp; [|intros H; by eapply Hp] end. keep.
  - left. destruct (get_id payload); cbn [write_company] in E9.
    + apply try_inv in E9 as [(x & s10 & _ & [=])|(e' & E9 & _)].
      apply execute_tables in E9. cbn [is_ok] in E9. congruence.
    + unfold statement in E9. destruct (sql_fault _) as [[err|] w]; [injection E9 as _ <-; cbn; congruence|].
      destruct (insert_company _ _ _) as [[j t]|]; [done|]. injection E9 as _ <-. cbn. congruence.
Qed.

Lemma companies_ok_update f raw now id t :
  co_documento f = normalize_document_key raw -> document_taken (co_documento f) (Some id) t = false ->
  companies_ok t -> companies_ok (update_company f now id t).
Proof.
  intros Hf Ht [Hi Hk]. unfold companies_ok, update_company. cbn.
  rewrite (map_update_where e_id) by done. split; [done|].
  apply (NoDup_update_key document_key _ _ _ (co_documento f)); [done|..].
  - intros e _ _. rewrite Hf. apply document_key_normalized. cbn. by rewrite Hf.
  - intros e He Hp E. pose proof (existsb_false_elem _ _ _ Ht He) as Hb. cbn in Hb.
    by rewrite E, String.eqb_refl, Hp in Hb.
  - intros x y Hx Hy Ex%Z.eqb_eq Ey%Z.eqb_eq.
    by rewrite (NoDup_map_inj e_id _ x y Hi Hx Hy (eq_trans Ex (eq_sym Ey))).
Qed.

Lemma companies_ok_insert f raw now t i t' :
  co_documento f = normalize_document_key raw -> document_taken (co_documento f) None t = false ->
  companies_ok t -> insert_company f now t = Ok (i, t') -> companies_ok t'.
Proof.
  intros Hf Ht [Hi Hk]. unfold insert_company, mbind, result_bind.
  destruct (next_rowid _ _) as [j|] eqn:Ej; [|done]. intros [= -> <-].
  apply next_rowid_fresh in Ej. split; cbn; apply NoDup_map_snoc; try done.
  rewrite (document_key_normalized _ raw) by (cbn; by rewrite Hf). rewrite <- Hf.
  rewrite list_elem_of_In, in_map_iff. intros (e & E & He%list_elem_of_In).
  pose proof (existsb_false_elem _ _ _ Ht He) as Hb. cbn in Hb. by rewrite E, String.eqb_refl in Hb.
Qed.

Lemma write_company_inv id f now s i s' :
  write_company id f now s = (Ok i, s') ->
  match id with
  | Some e => e = i /\ fst s' = update_company f now i (fst s)
  | None => insert_company f now (fst s) = Ok (i, fst s')
  end.
Proof.
  destruct id as [e|]; cbn [write_company].
  - intros ([] & s1 & E & [= <- <-])%try_Ok. by apply execute_tables in E.
  - unfold statement. destruct (sql_fault _) as [[e|] w]; [done|].
    destruct (insert_company _ _ _) as [[j t]|]; [|done]. by intros [= <- <-].
Qed.

(** The row a save reads back is the one it wrote. *)
Lemma written_document id f now s i s' e :
  write_company id f now s = (Ok i, s') -> company_by_id i (fst s') = Some e ->
  e_documento e = Some (co_documento f).
Proof.
  intros H%write_company_inv. destruct id as [j|].
  - destruct H as [-> ->]. unfold company_by_id, update_company. cbn.
    induction (acc_companies (fst s)) as [|x l IH]; cbn; [done|].
    destruct (e_id x =? i)%Z eqn:E; cbn; rewrite E; [by intros [= <-]|exact IH].
  - revert H. unfold insert_company, mbind, result_bind.
    destruct (next_rowid _ _) as [k|] eqn:Ek; [|done]. intros [= -> <-].
    apply next_rowid_fresh in Ek. unfold company_by_id. cbn.
    induction (acc_companies (fst s)) as [|x l IH]; cbn; [rewrite Z.eqb_refl; by intros [= <-]|].
    cbn in Ek. apply not_elem_of_cons in Ek as [Hx Hl].
    destruct (Z.eqb_spec (e_id x) i); [congruence|]. by apply IH.
Qed.

(** C22. No two companies have the same document. Whatever saves and deletes run,
    in whatever order and with whatever failures, ids stay unique and so do the
    documents, compared as the check compares them (without points, dashes and
    slashes, in capitals): the index on the column is not unique, so the check
    before the write is all there is. And what a save stores is a document that
    was accepted. *)
Theorem company_documents_unique cmds s :
  companies_ok (fst s) ->
  companies_ok (fst (foldl (fun s cmd => run_company cmd s) s cmds)) /\
  (forall payload s1 m s2, company_save state payload s1 = (Ok m, s2) ->
     exists d, get_string payload "documento" <> None /\ d = normalize_document_key d /\
       validate_company_document d = true /\ obj_get "documento" m = Some (String_ d)).
Proof.
  intros H. split.
  - revert s H. induction cmds as [|cmd cmds IH]; intros s H; [done|]. cbn [foldl]. apply IH. clear IH.
    destruct cmd as [payload|id]; cbn [run_company].
    + destruct (company_save state payload s) as [r s'] eqn:E. cbn [snd].
      apply company_save_inv in E as [->|(raw & f & now & i & s1 & s2 & Hf & _ & Ht & E & E1 & ->)];
        [done|]. apply write_company_inv in E. rewrite E1 in E.
      destruct (get_id payload) as [e|].
      * destruct E as [<- ->]. by eapply companies_ok_update.
      * by eapply companies_ok_insert.
    + destruct (company_delete state id s) as [r s'] eqn:E. cbn [snd]. revert E.
      assert (preserves companies_ok (company_delete state id)) as Hp; [|intros E; by eapply Hp].
      unfold company_delete. apply preserves_try; [apply preserves_open_db|]. intros conn.
      apply preserves_try; [|intros; keep; apply preserves_lift].
      apply preserves_statement. intros t n t' [Hi Hk]. unfold delete_company.
      destruct (_ && _); [done|]. intros [= _ <-]. split; cbn; by apply NoDup_map_filter.
  - clear s H. intros payload s1 m s2 H. unfold company_save in H.
    apply try_Ok in H as (conn & s3 & _ & H). apply try_Ok in H as (now & s4 & _ & H).
    apply try_Ok in H as (nome & s5 & _ & H). apply try_Ok in H as (raw & s6 & E6 & H).
    destruct (get_string payload "documento") as [raw'|]; [|done]. injection E6 as <- <-.
    apply try_Ok in H as ([] & s7 & E7 & H). unfold guard_ in E7.
    destruct (validate_company_document _) eqn:Ev; [|done].
    apply try_Ok in H as ([] & s8 & _ & H). apply try_Ok in H as ([] & s9 & _ & H).
    apply try_Ok in H as (tk & s10 & _ & H). apply try_Ok in H as ([] & s11 & _ & H).
    apply try_Ok in H as (i & s12 & E12 & H).
    apply try_Ok in H as (sv & s13 & E13 & H). apply select_inv in E13 as [-> _].
    apply try_Ok in H as (e & s14 & E14 & H).
    destruct (company_by_id i (fst s12)) as [e'|] eqn:Ee; [|done]. injection E14 as <- <-.
    apply try_Ok in H as ([] & s15 & _ & H). apply try_Ok in H as ([] & s16 & _ & H).
    injection H as <- _. exists (normalize_document_key raw'). split; [done|].
    split; [by rewrite normalize_idem|]. split; [done|].
    cbn. by rewrite (written_document _ _ _ _ _ _ _ E12 Ee).
Qed.
End Keeps.
