(* ===== verification/CompanyLookup.v ===== *)
(** * The look-up of a CNPJ: commands/companies.rs

    Two public services are asked in turn; a limiter in the process counts the
    requests to each, and a cache keeps the last answer for a document. The
    request itself and serde_json's parser are the class [CnpjWorld]. The
    limiter and the cache are one state behind a mutex, which every step of
    the command takes for itself. *)

From Stdlib Require Import Ascii.
From stdpp Require Import gmap.
From S2P Require Import Prelude RustStr Json Payload NetAddr NetBind RuntimeSettings.
From S2P Require Import ServiceConfigs RuntimeStore AppLog Accounts AccessTables Security Auth Access.
From S2P Require Import Companies.

#[local] Open Scope string_scope.
#[local] Open Scope tunnara_scope.

(** What reqwest makes of a request: no reply, or a status and a body whose
    reading may fail. *)
Inductive fetched : Type :=
| SendFailed (err : string)
| Replied (status : N) (body : result string string).

Class CnpjWorld (W : Type) : Type := {
  http_get : string -> St W fetched;
  json_from_str : string -> result string value;
}.

(** ** Reading the answers *)

(*| src-tauri/src/commands/companies.rs 487-493 optional_json_string *)
Definition optional_json_string (v : option value) : option string :=
  item ← v;
  match item with
  | String_ text => opt_filter (fun text => negb (is_empty text)) (Some (trim text))
  | Number number => Some (show_number number)
  | _ => None
  end.

(*| src-tauri/src/commands/companies.rs 495-505 optional_json_bool *)
Definition optional_json_bool (v : option value) : option bool :=
  item ← v;
  match item with
  | Bool flag => Some flag
  | Number number => Some (negb (unwrap_or 0 (number_as_i64 number) =? 0)%Z)
  | String_ text =>
      Some (existsb (String.eqb (trim text)) ["1"; "true"; "TRUE"; "sim"; "SIM"; "ativo"; "ATIVO"])
  | _ => None
  end.

(** The text of a member, or the empty text. *)
Definition text_of (m : members) (key : string) : string :=
  unwrap_or "" (optional_json_string (obj_get key m)).

Section Answers.
Context {W : Type} `{CW : !CnpjWorld W} `{UP : UnicodeUpper}.

(** [item.get("estado")...get("sigla")] in capitals, or the empty text. *)
Definition item_state (item : value) : string :=
  unwrap_or "" (unicode_uppercase <$>
    (v ← value_get "estado" item; s ← value_get "sigla" v; as_str s)).

(** The state registration: of the first active one of the state asked for,
    else the first one there is, of any state. *)
(*| src-tauri/src/commands/companies.rs 536-562 parse_publica_ws_response *)
Definition choose_registration (current_uf : option string) (registrations : option (list value)) :
    option string :=
  list ← registrations;
  let of_state :=
    target_uf ← current_uf;
    item ← list_find (fun item => String.eqb (item_state item) target_uf
             && unwrap_or true (optional_json_bool (value_get "ativo" item))) list;
    optional_json_string (value_get "inscricao_estadual" item) in
  or_else of_state
    (head (omap (fun item => optional_json_string (value_get "inscricao_estadual" item)) list)).

(*| src-tauri/src/commands/companies.rs 507-645 parse_publica_ws_response *)
Definition parse_publica_ws_response (body : string) (uf_hint : option string) :
    result string members :=
  parsed ← map_err (fun err => "Falha ao interpretar resposta do CNPJ.ws: " ++ err)
             (json_from_str (W := W) body);
  root ← ok_or "Resposta inválida do CNPJ.ws." (as_object parsed);
  estabelecimento ← ok_or "Resposta do CNPJ.ws sem estabelecimento."
    (v ← obj_get "estabelecimento" root; as_object v);
  let estado_obj := v ← obj_get "estado" estabelecimento; as_object v in
  let cidade_obj := v ← obj_get "cidade" estabelecimento; as_object v in
  let current_uf :=
    or_else
      (opt_filter (fun v => negb (is_empty v)) ((fun v => unicode_uppercase (trim v)) <$> uf_hint))
      (unicode_uppercase <$> optional_json_string (o ← estado_obj; obj_get "sigla" o)) in
  let inscricao_estadual := choose_registration current_uf
    (v ← obj_get "inscricoes_estaduais" estabelecimento; as_array v) in
  let est := text_of estabelecimento in
  Ok [("nome", String_ (text_of root "razao_social"));
      ("nome_fantasia", String_ (est "nome_fantasia"));
      ("documento", String_ (text_of root "cnpj_raiz" ++ text_of root "cnpj_ordem"
         ++ text_of root "cnpj_digito_verificador"));
      ("inscricao_estadual", String_ (unwrap_or "ISENTO" inscricao_estadual));
      ("telefone", String_ (trim (est "ddd1" ++ est "telefone1")));
      ("email", String_ (est "email")); ("cep", String_ (est "cep"));
      ("endereco", String_ (est "logradouro")); ("numero", String_ (est "numero"));
      ("complemento", String_ (est "complemento")); ("bairro", String_ (est "bairro"));
      ("cidade", String_ (unwrap_or "" (optional_json_string (o ← cidade_obj; obj_get "nome" o))));
      ("estado", String_ (unwrap_or "" current_uf));
      ("inscricao_municipal", String_ (est "inscricao_municipal"));
      ("source", String_ "publica_cnpj_ws")].

(*| src-tauri/src/commands/companies.rs 647-724 parse_receita_ws_response *)
Definition parse_receita_ws_response (body : string) : result string members :=
  parsed ← map_err (fun err => "Falha ao interpretar resposta do ReceitaWS: " ++ err)
             (json_from_str (W := W) body);
  root ← ok_or "Resposta inválida do ReceitaWS." (as_object parsed);
  let r := text_of root in
  if match optional_json_string (obj_get "status" root) with
     | Some status => eq_ignore_ascii_case status "ERROR"
     | None => false
     end
  then Err (unwrap_or "ReceitaWS retornou erro." (optional_json_string (obj_get "message" root)))
  else Ok [("nome", String_ (r "nome")); ("nome_fantasia", String_ (r "fantasia"));
      ("documento", String_ (r "cnpj"));
      ("inscricao_estadual", String_ (unwrap_or "ISENTO" (optional_json_string (obj_get "ie" root))));
      ("telefone", String_ (r "telefone")); ("email", String_ (r "email")); ("cep", String_ (r "cep"));
      ("endereco", String_ (r "logradouro")); ("numero", String_ (r "numero"));
      ("complemento", String_ (r "complemento")); ("bairro", String_ (r "bairro"));
      ("cidade", String_ (r "municipio")); ("estado", String_ (unicode_uppercase (r "uf")));
      ("source", String_ "receita_ws")].
End Answers.

(** ** The limiter and the cache *)

(*| src-tauri/src/commands/companies.rs 727-731 ProviderRateState *)
Record ProviderRateState : Type := {
  minute_window_start : Z;
  recent_requests : list Z;
  cooldown_until : Z;
}.

(*| src-tauri/src/commands/companies.rs 734-737 LookupCacheEntry *)
Record LookupCacheEntry : Type := { lc_expires_at : Z; lc_payload : members }.

(*| src-tauri/src/commands/companies.rs 740-743 LookupRuntime *)
Record LookupRuntime : Type := {
  lr_providers : gmap string ProviderRateState;
  lr_cache : gmap string LookupCacheEntry;
}.

Definition with_providers (f : gmap string ProviderRateState -> gmap string ProviderRateState)
    (rt : LookupRuntime) : LookupRuntime := {|
  lr_providers := f (lr_providers rt); lr_cache := lr_cache rt |}.
Definition with_cache (f : gmap string LookupCacheEntry -> gmap string LookupCacheEntry)
    (rt : LookupRuntime) : LookupRuntime := {|
  lr_providers := lr_providers rt; lr_cache := f (lr_cache rt) |}.

(*| src-tauri/src/commands/companies.rs 786-795 purge_old_requests *)
Fixpoint purge_old_requests (now_ts : Z) (requests : list Z) : list Z :=
  match requests with
  | [] => []
  | ts :: r => if (60 <=? now_ts - ts)%Z then purge_old_requests now_ts r else requests
  end.

(*| src-tauri/src/commands/companies.rs 797-799 sanitize_lookup_cache *)
Definition sanitize_lookup_cache (now_ts : Z) : LookupRuntime -> LookupRuntime :=
  with_cache (filter (fun kv => (now_ts < lc_expires_at kv.2)%Z)).

Definition fresh_rate (now_ts : Z) : ProviderRateState :=
  {| minute_window_start := now_ts; recent_requests := []; cooldown_until := 0 |}.

(** The state of a provider as a request finds it: a new window once a minute
    has passed, and no request older than that. *)
Definition rate_at (now_ts : Z) (st : ProviderRateState) : ProviderRateState :=
  let st :=
    if (minute_window_start st + 60 <=? now_ts)%Z
    then {| minute_window_start := now_ts; recent_requests := []; cooldown_until := cooldown_until st |}
    else st in
  {| minute_window_start := minute_window_start st;
     recent_requests := purge_old_requests now_ts (recent_requests st);
     cooldown_until := cooldown_until st |}.

(*| src-tauri/src/commands/companies.rs 801-834 provider_can_run *)
Definition provider_can_run (provider_key : string) (now_ts : Z) (limit_per_minute : nat)
    (rt : LookupRuntime) : result string unit * LookupRuntime :=
  let st := rate_at now_ts (unwrap_or (fresh_rate now_ts) (lr_providers rt !! provider_key)) in
  let keep st := with_providers <[provider_key := st]> rt in
  if (now_ts <? cooldown_until st)%Z
  then (Err ("Provedor em cooldown por " ++ show_Z (cooldown_until st - now_ts) ++ " segundo(s)."), keep st)
  else if (limit_per_minute <=? length (recent_requests st))%nat
  then (Err ("Limite por minuto atingido (" ++ show_N (N.of_nat limit_per_minute) ++ " req/min)."), keep st)
  else (Ok (), keep {| minute_window_start := minute_window_start st;
                       recent_requests := recent_requests st ++ [now_ts];
                       cooldown_until := cooldown_until st |}).

(*| src-tauri/src/commands/companies.rs 836-851 provider_mark_cooldown *)
Definition provider_mark_cooldown (provider_key : string) (now_ts cooldown : Z) :
    LookupRuntime -> LookupRuntime :=
  with_providers (fun ps =>
    let st := unwrap_or (fresh_rate now_ts) (ps !! provider_key) in
    <[provider_key := {| minute_window_start := minute_window_start st;
                         recent_requests := recent_requests st;
                         cooldown_until := now_ts + cooldown |}]> ps).

(** ** The command *)

(*| src-tauri/src/commands/companies.rs 752-756 ProviderConfig *)
Record ProviderConfig : Type := { pr_key : string; pr_label : string; pr_base_url : string }.

(*| src-tauri/src/commands/companies.rs 759-762 FetchError *)
Record FetchError : Type := { fe_status : option N; fe_message : string }.

Section Lookup.
Context {W : Type} `{LO : LogOs W} `{ST : !Statements W} `{RN : !Randomness W} `{AW : !AuthWorld W}
  `{CW : !CnpjWorld W} `{UP : UnicodeUpper}.
Context (state : SharedState).

Definition lookup : Type := db (W := W) * LookupRuntime.
Definition on_db {A} (c : St (db (W := W)) A) : St lookup A := fun s =>
  let '(a, d) := c (fst s) in (a, (d, snd s)).
Definition locked {A} (f : LookupRuntime -> A * LookupRuntime) : St lookup A := fun s =>
  let '(a, rt) := f (snd s) in (a, (fst s, rt)).
Definition update_runtime (f : LookupRuntime -> LookupRuntime) : St lookup unit :=
  locked (fun rt => ((), f rt)).

(** The two readers of a setting. *)
Definition setting_text (key : string) : St (db (W := W)) (result string (option string)) :=
  statement ("Falha ao consultar configuração " ++ key) (fun t =>
    raw ← text_column "valor" (setting_of key t); Ok (raw, t)).

(*| src-tauri/src/commands/companies.rs 467-485 get_setting_url *)
Definition get_setting_url (key default_value : string) : St db (result string string) :=
  raw ←? setting_text key;
  mret (Ok (unwrap_or default_value
    (opt_filter (fun v => negb (is_empty v)) (trim <$> raw)))).

Definition clamped_setting (default_value min max : Z) (raw : option string) : Z :=
  Z.min (Z.max (unwrap_or default_value (v ← raw; parse_i64 (trim v))) min) max.

(*| src-tauri/src/commands/companies.rs 764-784 get_setting_i64 *)
Definition get_setting_i64 (key : string) (default_value min max : Z) : St db (result string Z) :=
  raw ←? setting_text key; mret (Ok (clamped_setting default_value min max raw)).

(*| src-tauri/src/commands/companies.rs 876-896 fetch_json_text *)
Definition fetch_json_text (url : string) : St db (result FetchError string) :=
  r ← lift (http_get url);
  mret (match r with
        | SendFailed err => Err {| fe_status := None;
            fe_message := "Falha ao consultar serviço público: " ++ err |}
        | Replied status body =>
            if (200 <=? status)%N && (status <? 300)%N
            then map_err (fun err => {| fe_status := Some status;
                   fe_message := "Falha ao ler resposta do serviço público: " ++ err |}) body
            else Err {| fe_status := Some status;
                   fe_message := "Serviço público retornou erro HTTP " ++ show_N status ++ "." |}
        end).

(*| src-tauri/src/commands/companies.rs 853-874 provider_log *)
Definition provider_log (app : db_conn * string) (message : string) (details : value) : St db unit :=
  _ ← lift (write_app_log (fst app) (snd app) {|
    log_level := "warning"; log_category := "company_lookup"; log_message := message;
    log_source := Some "backend"; log_route := Some "#/empresas"; log_details := Some details |});
  mret ().

(** How the turn of a provider ends. *)
Inductive attempt : Type :=
| Skipped (reason : string)
| Failed (reason : string)
| Found (payload : members).

Definition parse_response (p : ProviderConfig) (body : string) (uf_hint : option string) :
    result string members :=
  if String.eqb (pr_key p) "publica_cnpj_ws" then parse_publica_ws_response (W := W) body uf_hint
  else parse_receita_ws_response (W := W) body.

(** A parsed answer as the command gives it. *)
Definition answered (payload : members) : members :=
  let payload := obj_insert "cache_hit" (Bool false) payload in
  match v ← obj_get "source" payload; as_str v with
  | Some source => obj_insert "message" (String_ ("Consulta concluída via " ++ source ++ ".")) payload
  | None => payload
  end.

(*| src-tauri/src/commands/companies.rs 961-1046 company_lookup_cnpj *)
Definition ask_provider (app : db_conn * string) (digits : string) (uf_hint : option string)
    (now_ts cooldown_seconds cache_ttl_seconds : Z) (limit_per_minute : nat) (p : ProviderConfig) :
    St lookup attempt :=
  allowed ← locked (provider_can_run (pr_key p) now_ts limit_per_minute);
  match allowed with
  | Err reason => mret (Skipped (pr_label p ++ " indisponível agora: " ++ reason))
  | Ok _ =>
      fetched ← on_db (fetch_json_text (trim_end_char "/" (pr_base_url p) ++ "/" ++ digits));
      match fetched with
      | Err err =>
          if bool_decide (fe_status err = Some 429%N) then
            _ ← update_runtime (provider_mark_cooldown (pr_key p) now_ts cooldown_seconds);
            _ ← on_db (provider_log app "Provedor público em cooldown por rate limit."
                  (Object [("provider", String_ (pr_key p)); ("documento", String_ digits);
                           ("cooldown_seconds", json_i64 cooldown_seconds);
                           ("http_status", Number (PosInt 429))]));
            mret (Failed (pr_label p ++ " indisponível por limite de requisições (429)."))
          else mret (Failed (pr_label p ++ ": " ++ fe_message err))
      | Ok body =>
          match parse_response p body uf_hint with
          | Ok payload =>
              let payload := answered payload in
              _ ← update_runtime (with_cache <[digits :=
                    {| lc_expires_at := now_ts + cache_ttl_seconds; lc_payload := payload |}]>);
              mret (Found payload)
          | Err err => mret (Failed (pr_label p ++ ": " ++ err))
          end
      end
  end.

(** The loop, with the failures and the providers passed over. *)
Fixpoint ask_providers (ask : ProviderConfig -> St lookup attempt) (ps : list ProviderConfig)
    (attempt_errors skipped : list string) : St lookup (members + (list string * list string)) :=
  match ps with
  | [] => mret (inr (attempt_errors, skipped))
  | p :: r =>
      a ← ask p;
      match a with
      | Found payload => mret (inl payload)
      | Failed reason => ask_providers ask r (attempt_errors ++ [reason]) skipped
      | Skipped reason => ask_providers ask r attempt_errors (skipped ++ [reason])
      end
  end.

(** A cached answer as the command gives it. *)
Definition from_cache (payload : members) : members :=
  obj_insert "message" (String_ "Consulta retornada do cache local.")
    (obj_insert "cache_hit" (Bool true) payload).

Definition all_failed_message (attempt_errors skipped : list string) : string :=
  "Não foi possível consultar o CNPJ agora. " ++ String.concat " | " attempt_errors
  ++ (if bool_decide (skipped = []) then ""
      else " Provedores em cooldown/limite: " ++ String.concat " | " skipped ++ ".").

(** The look-up when the cache has no answer. *)
(*| src-tauri/src/commands/companies.rs 933-1070 company_lookup_cnpj *)
Definition lookup_fresh (app : db_conn * string) (digits : string) (uf : option string)
    (now_ts limit_per_minute cooldown_seconds cache_ttl_seconds : Z) :
    St lookup (result string members) :=
  publica ←? on_db (get_setting_url "company_lookup_publica_url" "https://publica.cnpj.ws/cnpj/");
  receita ←? on_db (get_setting_url "company_lookup_receita_url"
                      "https://www.receitaws.com.br/v1/cnpj/");
  let providers :=
    [{| pr_key := "publica_cnpj_ws"; pr_label := "Publica CNPJ WS"; pr_base_url := publica |};
     {| pr_key := "receita_ws"; pr_label := "ReceitaWS"; pr_base_url := receita |}] in
  let uf_hint := opt_filter (fun v => negb (is_empty v)) ((fun v => unicode_uppercase (trim v)) <$> uf) in
  found ← ask_providers (ask_provider app digits uf_hint now_ts cooldown_seconds cache_ttl_seconds
                           (Z.to_nat limit_per_minute)) providers [] [];
  match found with
  | inl payload => mret (Ok payload)
  | inr (attempt_errors, skipped) =>
      _ ← on_db (provider_log app "Falha de consulta CNPJ em todos os provedores disponíveis."
            (Object [("documento", String_ digits);
                     ("erros", Array (map String_ attempt_errors));
                     ("indisponiveis", Array (map String_ skipped))]));
      mret (Err (all_failed_message attempt_errors skipped))
  end.

(*| src-tauri/src/commands/companies.rs 899-1071 company_lookup_cnpj *)
Definition company_lookup_cnpj (documento : string) (uf : option string) :
    St lookup (result string members) :=
  app ←? on_db (open_app state);
  let digits := only_digits documento in
  if negb (String.length digits =? 14)%nat
  then mret (Err "Informe um CNPJ válido com 14 dígitos para consulta.") else
  now_ts ← on_db (lift utc_timestamp);
  limit_per_minute ←? on_db (get_setting_i64 "company_lookup_rate_limit_per_minute" 3 1 30);
  cooldown_seconds ←? on_db (get_setting_i64 "company_lookup_cooldown_seconds" 90 15 900);
  cache_ttl_seconds ←? on_db (get_setting_i64 "company_lookup_cache_ttl_seconds" 120 10 1800);
  hit ← locked (fun rt =>
    let rt := sanitize_lookup_cache now_ts rt in (lr_cache rt !! digits, rt));
  match hit with
  | Some hit => mret (Ok (from_cache (lc_payload hit)))
  | None => lookup_fresh app digits uf now_ts limit_per_minute cooldown_seconds cache_ttl_seconds
  end.

(*| src-tauri/src/commands/companies.rs 1074-1101 company_lookup_ie *)
Definition company_lookup_ie (documento : string) (uf : option string) :
    St lookup (result string members) :=
  if negb (String.length (only_digits documento) =? 14)%nat
  then mret (Err "Consulta de inscrição estadual é feita via CNPJ. Informe um CNPJ válido com 14 dígitos.")
  else
  payload ←? company_lookup_cnpj documento uf;
  let payload :=
    if is_empty (unwrap_or "" (optional_json_string (obj_get "inscricao_estadual" payload)))
    then obj_insert "inscricao_estadual" (String_ "ISENTO") payload else payload in
  mret (Ok (match opt_filter (fun v => negb (is_empty (trim v))) uf with
            | Some v => obj_insert "estado" (String_ (unicode_uppercase (trim v))) payload
            | None => payload
            end)).

End Lookup.
