(* ===== verification/LookupRules.v ===== *)
(** * The limits of the CNPJ look-up

    How many requests the limiter lets through in a minute, and what a look-up
    answers and leaves in the cache. *)

From stdpp Require Import gmap.
From S2P Require Import Prelude RustStr Json Payload NetAddr NetBind RuntimeSettings.
From S2P Require Import ServiceConfigs RuntimeStore AppLog Accounts AccessTables Security Auth Access.
From S2P Require Import Companies CompanyLookup.

#[local] Open Scope string_scope.
#[local] Open Scope tunnara_scope.

(** ** The limiter *)

(** What happens to the limiter: a provider's turn, or the cooldown after a
    reply 429. *)
Inductive rate_event : Type :=
| Turn (key : string) (now_ts : Z) (limit : nat)
| Cooldown (key : string) (now_ts seconds : Z).

Definition event_time (ev : rate_event) : Z :=
  match ev with Turn _ t _ | Cooldown _ t _ => t end.

(** The turns of [key] that went on to a request, with their instants. *)
Fixpoint requests_of (key : string) (evs : list rate_event) (rt : LookupRuntime) : list Z :=
  match evs with
  | [] => []
  | Turn k now limit :: r =>
      let '(res, rt) := provider_can_run k now limit rt in
      (if String.eqb k key && is_ok res then [now] else []) ++ requests_of key r rt
  | Cooldown k now seconds :: r => requests_of key r (provider_mark_cooldown k now seconds rt)
  end.

Definition in_window (a b : Z) (l : list Z) : nat :=
  length (List.filter (fun h => (a <=? h)%Z && (h <? b)%Z) l).

Lemma in_window_app a b l m : in_window a b (l ++ m) = in_window a b l + in_window a b m.
Proof. unfold in_window. by rewrite List.filter_app, length_app. Qed.

Lemma in_window_none a b l : (forall h, h ∈ l -> (h < a \/ b <= h)%Z) -> in_window a b l = 0.
Proof.
  unfold in_window. induction l as [|h l IH]; intros H; cbn; [done|].
  assert ((a <=? h)%Z && (h <? b)%Z = false) as ->.
  { assert (h < a \/ b <= h)%Z as Hh by (apply H; left).
    destruct (Z.leb_spec a h), (Z.ltb_spec h b); try done; lia. }
  apply IH. intros g Hg. apply H. by right.
Qed.

Lemma in_window_split a b c l : (a <= b <= c)%Z -> in_window a c l = in_window a b l + in_window b c l.
Proof.
  intros Hb. unfold in_window. induction l as [|h l IH]; cbn; [done|].
  destruct (Z.leb_spec a h), (Z.ltb_spec h c), (Z.ltb_spec h b), (Z.leb_spec b h); cbn; lia.
Qed.

Lemma in_window_mono a a' b b' l : (a' <= a)%Z -> (b <= b')%Z -> in_window a b l <= in_window a' b' l.
Proof.
  intros Ha Hb. unfold in_window. induction l as [|h l IH]; cbn; [lia|].
  destruct (Z.leb_spec a h), (Z.ltb_spec h b), (Z.leb_spec a' h), (Z.ltb_spec h b'); cbn; lia.
Qed.

Lemma purge_recent now l : (forall h, h ∈ l -> (now - h < 60)%Z) -> purge_old_requests now l = l.
Proof.
  destruct l as [|h l]; [done|]. intros H. cbn. specialize (H h (list_elem_of_here h l)).
  destruct (Z.leb_spec 60 (now - h)); [lia|done].
Qed.

(** The requests [h] so far of a provider, against its state: those of the
    window are the recent ones, at most [limit]; no window of a minute has more
    than twice as many; and the last minute before the window has at most
    [limit]. *)
Record rate_inv (limit : nat) (last : Z) (h : list Z) (st : ProviderRateState) : Prop := {
  ri_window : (minute_window_start st <= last)%Z;
  ri_times : forall t, t ∈ h -> (t <= last /\ t < minute_window_start st + 60)%Z;
  ri_recent : recent_requests st = List.filter (fun t => minute_window_start st <=? t)%Z h;
  ri_limit : length (recent_requests st) <= limit;
  ri_minute : forall a, in_window a (a + 60) h <= 2 * limit;
  ri_before : forall a, (minute_window_start st - 60 < a)%Z ->
                in_window a (minute_window_start st) h <= limit;
}.

(** Those of the window, counted to any later instant. *)
Lemma recent_count limit last h st b :
  rate_inv limit last h st -> in_window (minute_window_start st) b h <= limit.
Proof.
  intros [_ _ Hr Hl _ _]. etransitivity; [|exact Hl]. rewrite Hr. unfold in_window.
  clear Hr Hl. induction h as [|t h IH]; cbn; [lia|].
  destruct (Z.leb_spec (minute_window_start st) t), (Z.ltb_spec t b); cbn; lia.
Qed.

Lemma rate_inv_later limit last last' h st :
  (last <= last')%Z -> rate_inv limit last h st -> rate_inv limit last' h st.
Proof.
  intros Hl [H1 H2 H3 H4 H5 H6]. split; try done; [lia|]. intros t Ht. destruct (H2 t Ht). lia.
Qed.

(** Coming back later, the recent requests are as they were, or the window is
    over and there is none. *)
Lemma rate_inv_at limit last h st now :
  (last <= now)%Z -> rate_inv limit last h st ->
  rate_inv limit now h (rate_at now st) /\
  (now < minute_window_start (rate_at now st) + 60)%Z /\
  cooldown_until (rate_at now st) = cooldown_until st.
Proof.
  intros Hn H. unfold rate_at. destruct (Z.leb_spec (minute_window_start st + 60) now) as [Hw|Hw].
  - cbn. split; [|split; [lia|done]]. pose proof H as [H1 H2 H3 H4 H5 H6]. split; cbn; try done; try lia.
    + intros t Ht. destruct (H2 t Ht). lia.
    + symmetry. clear -H2 Hw. induction h as [|t h IH]; cbn; [done|].
      destruct (H2 t (list_elem_of_here t h)).
      destruct (Z.leb_spec now t); [lia|]. apply IH. intros u Hu. apply H2. by right.
    + intros a Ha. etransitivity; [|exact (recent_count _ _ _ _ now H)].
      apply in_window_mono; lia.
  - pose proof H as [H1 H2 H3 H4 H5 H6]. cbn.
    rewrite purge_recent; [split; [|split; [lia|done]]|].
    + split; cbn; try done; [lia|]. intros t Ht. destruct (H2 t Ht). lia.
    + intros t Ht. rewrite H3 in Ht. apply elem_filter in Ht as [_ Ht%Z.leb_le]. lia.
Qed.

Lemma rate_inv_fresh limit now : rate_inv limit now [] (fresh_rate now).
Proof.
  split; cbn; try done; try lia; try (intros; unfold in_window; cbn; lia).
  intros t Ht. by apply not_elem_of_nil in Ht.
Qed.

(** A request let through. *)
Lemma rate_inv_push limit now h st :
  (now < minute_window_start st + 60)%Z -> length (recent_requests st) < limit ->
  rate_inv limit now h st ->
  rate_inv limit now (h ++ [now]) {| minute_window_start := minute_window_start st;
    recent_requests := recent_requests st ++ [now]; cooldown_until := cooldown_until st |}.
Proof.
  intros Hw Hl H. pose proof H as [H1 H2 H3 H4 H5 H6].
  assert (forall a b, in_window a b [now] = if (a <=? now)%Z && (now <? b)%Z then 1 else 0) as H1w
    by (intros; unfold in_window; cbn; by destruct (_ && _)).
  split; cbn; try done.
  - intros t [Ht| ->%list_elem_of_singleton]%elem_of_app; [by apply H2|lia].
  - rewrite List.filter_app, H3. f_equal. cbn. by rewrite (proj2 (Z.leb_le _ _) H1).
  - rewrite length_app. cbn. lia.
  - intros a. rewrite in_window_app, H1w.
    destruct (Z.leb_spec a now); cbn; [|rewrite Nat.add_0_r; apply H5].
    destruct (Z.ltb_spec now (a + 60)); cbn; [|rewrite Nat.add_0_r; apply H5].
    assert (in_window a (minute_window_start st) h <= limit) as Hb by (apply H6; lia).
    assert (in_window (minute_window_start st) (a + 60) h <= length (recent_requests st)) as Hr.
    { rewrite H3. unfold in_window. clear. induction h as [|t h IH]; cbn; [lia|].
      destruct (Z.leb_spec (minute_window_start st) t), (Z.ltb_spec t (a + 60)); cbn; lia. }
    destruct (Z.le_gt_cases a (minute_window_start st)).
    + rewrite (in_window_split a (minute_window_start st)) by lia. lia.
    + pose proof (in_window_mono a (minute_window_start st) (a + 60) (a + 60) h). lia.
  - intros a Ha. rewrite in_window_app, H1w.
    destruct (Z.ltb_spec now (minute_window_start st)); [lia|].
    rewrite andb_false_r, Nat.add_0_r. by apply H6.
Qed.

Definition rate_known (limit : nat) (key : string) (last : Z) (h : list Z) (rt : LookupRuntime) : Prop :=
  match lr_providers rt !! key with
  | Some st => rate_inv limit last h st
  | None => h = []
  end.

(** The state a provider's turn or cooldown starts from. *)
Lemma rate_known_default limit key last now h rt :
  (last <= now)%Z -> rate_known limit key last h rt ->
  rate_inv limit now h (unwrap_or (fresh_rate now) (lr_providers rt !! key)).
Proof.
  unfold rate_known. intros Hn. destruct (lr_providers rt !! key) as [st|]; cbn.
  - by apply rate_inv_later.
  - intros ->. apply rate_inv_fresh.
Qed.

Lemma can_run_known limit limit' key k last now h rt :
  (last <= now)%Z -> limit' <= limit -> rate_known limit key last h rt ->
  let '(res, rt') := provider_can_run k now limit' rt in
  rate_known limit key now (h ++ (if String.eqb k key && is_ok res then [now] else [])) rt'.
Proof.
  intros Hn Hl H. destruct (String.eqb_spec k key) as [->|Hk].
  - apply (rate_known_default _ _ _ now) in H; [|done].
    apply (rate_inv_at _ _ _ _ now) in H as (H & Hw & _); [|lia].
    unfold provider_can_run. set (st := rate_at now _) in *. unfold rate_known.
    destruct (now <? cooldown_until st)%Z; [|destruct (Nat.leb_spec limit' (length (recent_requests st)))];
      cbn [lr_providers with_providers]; rewrite lookup_insert_eq; cbn [is_ok andb].
    + by rewrite app_nil_r.
    + by rewrite app_nil_r.
    + apply rate_inv_push; [done|lia|done].
  - unfold provider_can_run. set (st := rate_at now _) in *. cbn [andb].
    assert (forall st', rate_known limit key now h (with_providers <[k := st']> rt)) as Hkeep.
    { intros st'. unfold rate_known in *. cbn. rewrite lookup_insert_ne by done.
      destruct (lr_providers rt !! key); [by eapply rate_inv_later|done]. }
    rewrite app_nil_r. repeat case_match; simplify_eq; apply Hkeep.
Qed.

Lemma cooldown_known limit key k last now secs h rt :
  (last <= now)%Z -> rate_known limit key last h rt ->
  rate_known limit key now h (provider_mark_cooldown k now secs rt).
Proof.
  intros Hn H. unfold provider_mark_cooldown, rate_known. cbn.
  destruct (decide (k = key)) as [->|Hk].
  - rewrite lookup_insert_eq. apply (rate_known_default _ _ _ now) in H; [|done].
    destruct H as [H1 H2 H3 H4 H5 H6]. by split.
  - rewrite lookup_insert_ne by done. unfold rate_known in H.
    destruct (lr_providers rt !! key); [by eapply rate_inv_later|done].
Qed.

(** No event is earlier than [last] or than the one before it. *)
Fixpoint in_order (last : Z) (evs : list rate_event) : Prop :=
  match evs with
  | [] => True
  | ev :: r => (last <= event_time ev)%Z /\ in_order (event_time ev) r
  end.

Definition limit_at_most (limit : nat) (ev : rate_event) : Prop :=
  match ev with Turn _ _ l => l <= limit | Cooldown _ _ _ => True end.

Lemma requests_bound limit key evs : forall last h rt,
  in_order last evs -> Forall (limit_at_most limit) evs -> rate_known limit key last h rt ->
  forall a, in_window a (a + 60) (h ++ requests_of key evs rt) <= 2 * limit.
Proof.
  induction evs as [|ev evs IH]; intros last h rt; cbn [in_order requests_of].
  - intros _ _ H a. rewrite app_nil_r. unfold rate_known in H.
    destruct (lr_providers rt !! key); [by destruct H|subst h; cbn; lia].
  - intros [Hn Ho] [Hl Hf]%Forall_cons H a. destruct ev as [k now l|k now secs]; cbn in *.
    + pose proof (can_run_known limit l key k last now h rt Hn Hl H) as H'.
      destruct (provider_can_run k now l rt) as [res rt']. rewrite app_assoc. by eapply IH.
    + eapply IH; [exact Ho|done|]. by eapply cooldown_known.
Qed.


(** ** Answers *)

Section Answers.
Context {W : Type} `{LO : LogOs W} `{ST : !Statements W} `{RN : !Randomness W} `{AW : !AuthWorld W}
  `{CW : !CnpjWorld W} `{UP : UnicodeUpper}.
Context (state : SharedState).
Implicit Types s : lookup (W := W).

Lemma on_db_runtime {A} (c : St (db (W := W)) A) s a s' : on_db c s = (a, s') -> snd s' = snd s.
Proof. unfold on_db. destruct (c (fst s)) as [b d]. by intros [= _ <-]. Qed.

Lemma ask_providers_found ask ps : forall errs sk s m s',
  ask_providers (W := W) ask ps errs sk s = (inl m, s') ->
  exists p s1, p ∈ ps /\ ask p s1 = (Found m, s').
Proof.
  induction ps as [|p ps IH]; intros errs sk s m s'; cbn [ask_providers]; [done|].
  intros H. run_bind H a s1 as E. destruct a as [reason|reason|payload].
  - apply IH in H as (q & s2 & Hq & H). exists q, s2. split; [by right|done].
  - apply IH in H as (q & s2 & Hq & H). exists q, s2. split; [by right|done].
  - injection H as -> <-. exists p, s. split; [left|done].
Qed.

Lemma ask_provider_found app digits uf now cool ttl limit p s m s' :
  ask_provider app digits uf now cool ttl limit p s = (Found m, s') ->
  (exists body payload, parse_response (W := W) p body uf = Ok payload /\ m = answered payload) /\
  lr_cache (snd s') !! digits = Some {| lc_expires_at := now + ttl; lc_payload := m |}.
Proof.
  unfold ask_provider. intros H. run_bind H allowed s1 as Ex. destruct allowed; [|done].
  run_bind H fetched s2 as E2. destruct fetched as [body|err].
  - destruct (parse_response _ _ _) as [payload|err] eqn:Ep; [|done].
    run_bind H u s3 as E3. injection H as <- <-. split; [eauto|].
    unfold update_runtime, locked in E3. injection E3 as _ <-. cbn. by rewrite lookup_insert_eq.
  - destruct (bool_decide _); [|done]. run_bind H u s3 as Ey. by run_bind H v s4 as Ez.
Qed.

Lemma clamped_setting_bounds d min max raw :
  (min <= max)%Z -> (min <= clamped_setting d min max raw <= max)%Z.
Proof. unfold clamped_setting. lia. Qed.

Lemma get_setting_i64_bounds key d min max (t : db (W := W)) v t' :
  get_setting_i64 key d min max t = (Ok v, t') -> (min <= max)%Z -> (min <= v <= max)%Z.
Proof.
  unfold get_setting_i64. intros (raw & s1 & _ & [= <- _])%try_Ok Hm. by apply clamped_setting_bounds.
Qed.

(** Where the answer of a look-up comes from. It needs fourteen digits;
    while the cache holds an answer for them that has not expired, that answer
    is given again, marked as cached, and no provider is asked (the limiter is
    not touched), whatever state the caller names this time; otherwise the
    answer is the reply of one of the two services, read for the state named,
    and it is kept for between 10 and 1800 seconds. *)
Theorem lookup_answers documento uf s m s' :
  company_lookup_cnpj state documento uf s = (Ok m, s') ->
  let digits := only_digits documento in
  String.length digits = 14 /\
  exists now (w w' : W), utc_timestamp w = (now, w') /\
    match lr_cache (snd s) !! digits with
    | Some hit =>
        (now < lc_expires_at hit)%Z -> m = from_cache (lc_payload hit) /\
          lr_providers (snd s') = lr_providers (snd s) /\
          lr_cache (snd s') !! digits = Some hit
    | None => True
    end /\
    (~ (exists hit, lr_cache (snd s) !! digits = Some hit /\ (now < lc_expires_at hit)%Z) ->
     exists p body payload ttl, pr_key p ∈ ["publica_cnpj_ws"; "receita_ws"] /\
       parse_response (W := W) p body
         (opt_filter (fun v => negb (is_empty v)) ((fun v => unicode_uppercase (trim v)) <$> uf))
       = Ok payload /\
       m = answered payload /\ (10 <= ttl <= 1800)%Z /\
       lr_cache (snd s') !! digits = Some {| lc_expires_at := now + ttl; lc_payload := m |}).
Proof.
  cbv zeta. unfold company_lookup_cnpj. intros (app & s1 & E1 & H)%try_Ok.
  apply on_db_runtime in E1. set (digits := only_digits documento) in *.
  destruct (Nat.eqb_spec (String.length digits) 14) as [Hd|]; [|done]. cbn [negb] in H.
  split; [done|]. run_bind H now s2 as E2. pose proof (on_db_runtime _ _ _ _ E2) as R2.
  assert (exists w w', utc_timestamp (W := W) w = (now, w')) as (w & w' & Hw).
  { unfold on_db, lift in E2. destruct (utc_timestamp (snd (fst s1))) as [n w1] eqn:Eu.
    injection E2 as -> _. eauto. }
  apply try_Ok in H as (limit & s3 & E3 & H). apply on_db_runtime in E3.
  apply try_Ok in H as (cool & s4 & E4 & H). apply on_db_runtime in E4.
  apply try_Ok in H as (ttl & s5 & E5 & H). pose proof (on_db_runtime _ _ _ _ E5) as R5.
  assert (10 <= ttl <= 1800)%Z as Httl.
  { unfold on_db in E5. destruct (get_setting_i64 _ _ _ _ _) as [r d] eqn:Eg.
    injection E5 as -> _. eapply get_setting_i64_bounds; [exact Eg|lia]. }
  run_bind H hit s6 as E6. unfold locked in E6. injection E6 as Eh <-.
  replace (snd s5) with (snd s) in * by congruence. cbn [lr_cache with_cache sanitize_lookup_cache] in Eh.
  exists now, w, w'. split; [done|].
  destruct hit as [hit|].
  - apply map_lookup_filter_Some in Eh as [Eh Hx]. cbn in Hx. injection H as <- <-. rewrite Eh.
    split; [|intros Hn; destruct Hn; eauto]. intros _. split; [done|]. split; [done|].
    cbn. by apply map_lookup_filter_Some.
  - assert (match lr_cache (snd s) !! digits with
            | Some hit => ~ (now < lc_expires_at hit)%Z | None => True end) as Hno.
    { apply map_lookup_filter_None in Eh. destruct (lr_cache (snd s) !! digits) as [h|] eqn:El; [|done].
      destruct Eh as [Eh|Eh]; [done|]. by apply (Eh h). }
    split; [by destruct (lr_cache (snd s) !! digits)|]. intros _.
    unfold lookup_fresh in H. apply try_Ok in H as (publica & s7 & _ & H).
    apply try_Ok in H as (receita & s8 & _ & H). run_bind H found s9 as E9.
    destruct found as [payload|[errs sk]]; [|by run_bind H u s10 as Ex]. injection H as <- <-.
    apply ask_providers_found in E9 as (p & s10 & Hp & E9).
    apply ask_provider_found in E9 as [(body & payload' & Hb & ->) Hc].
    exists p, body, payload', ttl. split_and!; try done; try lia.
    apply list_elem_of_In in Hp as [<-|[<-|[]]]; cbn; [left|right; left].
Qed.
End Answers.
