(* ===== verification/Support.v ===== *)
(** * The administration guard: commands/support.rs

    Provisioning of the support secret, the TOTP secret and the recovery
    codes, activation of the second factor, and the short-lived unlock sessions
    that the licensing commands require. *)

From S2P Require Import Prelude RustStr Utf8 Json Security NetAddr NetBind RuntimeSettings.
From S2P Require Import ServiceConfigs RuntimeStore AppLog Accounts Auth.

#[local] Open Scope string_scope.
#[local] Open Scope tunnara_scope.

(** A row as [row_to_json_map] returns it. *)
(*| src-tauri/src/commands/support.rs 27-37 guard_row *)
Definition guard_json (g : AdminGuard) : members :=
  [("id", json_i64 1);
   ("support_secret_hash", json_opt_str (ag_support_secret_hash g));
   ("totp_secret_encrypted", json_opt_str (ag_totp_secret_encrypted g));
   ("totp_enabled", json_i64 (ag_totp_enabled g));
   ("recovery_codes_encrypted", json_opt_str (ag_recovery_codes_encrypted g));
   ("licensing_protected", json_i64 (ag_licensing_protected g));
   ("white_label_protected", json_i64 (ag_white_label_protected g));
   ("created_at", String_ (ag_created_at g));
   ("updated_at", String_ (ag_updated_at g));
   ("last_rotated_at", json_opt_str (ag_last_rotated_at g))].

Section Support.
Context {W : Type} `{LO : LogOs W} `{ST : !Statements W} `{CR : Crypto} `{RN : !Randomness W}
  `{AW : !AuthWorld W}.
Context (state : SharedState) (env : Env).

(*| src-tauri/src/commands/support.rs 19-25 ensure_master *)
Definition ensure_master (session_token : string) : St db (result string Z) :=
  identity ←? require_session_by_token session_token;
  if negb (si_master_user identity)
  then mret (Err "Apenas usuário master pode acessar a proteção administrativa.")
  else mret (Ok (si_user_id identity)).

(*| src-tauri/src/commands/support.rs 27-37 guard_row *)
Definition guard_row : St db (result string (option AdminGuard)) :=
  select "Falha ao consultar proteção administrativa" acc_guard.

(*| src-tauri/src/commands/support.rs 39-45 decrypt_guard_secret *)
Definition decrypt_guard_secret (field : option string) : result string (option string) :=
  let value := unwrap_or "" field in
  if blank value then Ok None else Some <$> decrypt_text (machine_key env) value.

(*| src-tauri/src/commands/support.rs 47-77 require_admin_unlock *)
Definition require_admin_unlock (user_id : Z) (unlock_token scope : string) :
    St db (result string unit) :=
  let token := trim unlock_token in
  if is_empty token then mret (Err "Autorização administrativa reforçada é obrigatória.") else
  now ←? now_text;
  found ←? select "Falha ao validar autorização administrativa"
    (fun t => list_find (live_unlock user_id token scope now) (acc_unlocks t));
  match found with
  | None => mret (Err "Sessão administrativa reforçada ausente, inválida ou expirada.")
  | Some _ => execute "Falha ao atualizar uso da autorização administrativa"
                (update_unlock_use now token)
  end.

(*| src-tauri/src/commands/support.rs 79-111 support_guard_status *)
Definition support_guard_status (session_token : string) : St db (result string members) :=
  _ ←? open_app state;
  user_id ←? ensure_master session_token;
  row ←? guard_row;
  now ←? now_text;
  count ←? select "Falha ao consultar sessão administrativa" (count_unlocks user_id now);
  let result := unwrap_or [] (guard_json <$> row) in
  let hash := unwrap_or "" (v ← obj_get "support_secret_hash" result; as_str v) in
  mret (Ok (obj_insert "totp_uri" Null
             (obj_insert "unlocked" (Bool (0 <? count)%nat)
               (obj_insert "configured" (Bool (10 <? String.length hash)%nat) result)))).

(** What [support_guard_provision] shows once. *)
Record Provisioned : Type := {
  pv_support_secret : string;
  pv_totp_secret : string;
  pv_otpauth_url : string;
  pv_recovery_codes : list string;
  pv_totp_enabled : bool;
}.

(*| src-tauri/src/commands/support.rs 113-189 support_guard_provision *)
Definition support_guard_provision (session_token : string) (force_rotate : option bool) :
    St db (result string Provisioned) :=
  app ←? open_app state;
  user_id ←? ensure_master session_token;
  existing ←? guard_row;
  if bool_decide (is_Some existing) && negb (unwrap_or false force_rotate)
  then mret (Err "A proteção administrativa já foi provisionada. Use rotação explícita para gerar novos segredos.")
  else
  support_secret ← lift generate_support_secret;
  totp_secret ← lift generate_totp_secret;
  recovery_codes ← lift generate_recovery_codes;
  now ←? now_text;
  support_secret_hash ←? lift (hash_password support_secret);
  let recovery_json := json_to_string (Array (map String_ recovery_codes)) in
  let totp_encrypted := encrypt_text (machine_key env) totp_secret in
  let recovery_encrypted := encrypt_text (machine_key env) recovery_json in
  _ ←? execute "Falha ao provisionar proteção administrativa"
    (upsert_guard support_secret_hash totp_encrypted recovery_encrypted now);
  let payload := Object [("usuario_id", json_i64 user_id);
                         ("rotated", Bool (bool_decide (is_Some existing)))] in
  _ ←? lift (write_audit (fst app) "admin_guard" "provision" (Some 1%Z) payload);
  _ ←? log_command app "warning" "support_guard"
    "Proteção administrativa provisionada/rotacionada." (Some payload);
  mret (Ok {|
    pv_support_secret := support_secret;
    pv_totp_secret := totp_secret;
    pv_otpauth_url := build_otpauth_url totp_secret "Tunnara Console:Suporte Admin" "Tunnara Console";
    pv_recovery_codes := recovery_codes;
    pv_totp_enabled := false |}).

(** [if !verify_password(...)? { return Err(message) }] *)
Definition check_password (message password hash : string) : result string unit :=
  match verify_password password hash with
  | Err e => Err e
  | Ok false => Err message
  | Ok true => Ok ()
  end.

(** [if !verify_totp_code(...)? { return Err(...) }], with the stored secret *)
Definition check_totp (missing : string) (g : AdminGuard) (code : string) :
    St db (result string unit) :=
  match decrypt_guard_secret (ag_totp_secret_encrypted g) with
  | Err e => mret (Err e)
  | Ok None => mret (Err missing)
  | Ok (Some totp_secret) =>
      ok ←? lift (verify_totp_code totp_secret code);
      mret (if ok : bool then Ok () else Err "Código TOTP inválido.")
  end.

(*| src-tauri/src/commands/support.rs 191-245 support_guard_enable_totp *)
Definition support_guard_enable_totp (session_token current_password support_secret totp_code : string) :
    St db (result string bool) :=
  app ←? open_app state;
  user_id ←? ensure_master session_token;
  row ←? guard_row;
  match row with
  | None => mret (Err "Proteção administrativa ainda não provisionada.")
  | Some g =>
      let support_hash := unwrap_or "" (ag_support_secret_hash g) in
      _ ←? mret (check_password "Secret de suporte inválido." support_secret support_hash);
      password_hash ←? stored_password "Falha ao consultar senha do usuário master" user_id;
      _ ←? mret (check_password "Senha atual inválida." (trim current_password) password_hash);
      _ ←? check_totp "Secret TOTP não encontrado para provisionamento." g totp_code;
      now ←? now_text;
      _ ←? execute "Falha ao ativar TOTP administrativo" (enable_guard_totp now);
      _ ←? log_command app "info" "support_guard" "TOTP administrativo ativado."
        (Some (Object [("usuario_id", json_i64 user_id)]));
      mret (Ok true)
  end.

Record Unlocked : Type := { un_token : string; un_expires_at : string; un_scope : string }.

(*| src-tauri/src/commands/support.rs 247-322 support_guard_unlock *)
Definition support_guard_unlock (session_token current_password support_secret : string)
    (totp_code scope : option string) : St db (result string Unlocked) :=
  app ←? open_app state;
  user_id ←? ensure_master session_token;
  row ←? guard_row;
  match row with
  | None => mret (Err "Proteção administrativa ainda não provisionada.")
  | Some g =>
      password_hash ←? stored_password "Falha ao consultar senha do usuário master" user_id;
      _ ←? mret (check_password "Senha atual inválida." (trim current_password) password_hash);
      let support_hash := unwrap_or "" (ag_support_secret_hash g) in
      _ ←? mret (check_password "Secret de suporte inválido." support_secret support_hash);
      _ ←? (if (ag_totp_enabled g =? 1)%Z
            then check_totp "Secret TOTP não configurado." g (unwrap_or "" totp_code)
            else mret (Ok ()));
      let scope_value := unwrap_or "global" scope in
      unlock_token ← lift uuid_v4;
      created_at ←? now_text;
      now ← lift utc_now;
      let expires_at := to_rfc3339 (plus_minutes now 15) in
      _ ←? insert "Falha ao criar sessão administrativa reforçada" (insert_unlock {|
        ul_usuario_id := user_id; ul_scope := scope_value; ul_unlock_token := unlock_token;
        ul_expires_at := expires_at; ul_created_at := created_at;
        ul_last_used_at := Some created_at |});
      _ ←? log_command app "warning" "support_guard" "Acesso administrativo reforçado liberado."
        (Some (Object [("usuario_id", json_i64 user_id); ("scope", String_ scope_value);
                       ("expires_at", String_ expires_at)]));
      mret (Ok {| un_token := unlock_token; un_expires_at := expires_at;
                  un_scope := scope_value |})
  end.

End Support.

(** ** What the commands check *)

(** A live session, at some reading of the clock, of an active master user. *)
Definition master_session {W} `{AW : AuthWorld W} (token : string) (t : Accounts) (id : Z) : Prop :=
  exists ses u (w : W), ses ∈ acc_sessions t /\ us_session_token ses = trim token /\
    text_lt (to_rfc3339 (fst (utc_now w))) (us_expires_at ses) = true /\
    u ∈ acc_users t /\ u_id u = us_usuario_id ses /\ u_id u = id /\
    u_ativo u <> 0%Z /\ u_master_user u = 1%Z.

Section Properties.
Context {W : Type} `{LO : LogOs W} `{ST : !Statements W} `{CR : Crypto} `{RN : !Randomness W}
  `{AW : !AuthWorld W}.
Context (state : SharedState) (env : Env).
Implicit Types s : db (W := W).

Lemma ensure_master_inv token s id s' :
  ensure_master token s = (Ok id, s') ->
  master_session token (fst s) id /\
  exists now, fst s' = update_session_activity now (trim token) (fst s).
Proof.
  unfold ensure_master. intros H. apply try_Ok in H as (si & s1 & E & H).
  apply require_session_inv in E
    as (ses & u & Hs & Hu & Htok & _ & Hexp & Hid & Hact & -> & E). cbn [si_master_user si_user_id] in H.
  destruct (Z.eqb_spec (u_master_user u) 1); [|done]. injection H as <- <-.
  split; [|by eexists]. by exists ses, u, (snd s).
Qed.

Lemma check_password_Ok message password hash :
  check_password message password hash = Ok () -> verify_password password hash = Ok true.
Proof. unfold check_password. by destruct (verify_password _ _) as [[]|]. Qed.

Lemma check_totp_inv missing g code s s' :
  check_totp env missing g code s = (Ok (), s') ->
  fst s' = fst s /\ exists secret w', decrypt_guard_secret env (ag_totp_secret_encrypted g) = Ok (Some secret) /\
    verify_totp_code secret code (snd s) = (Ok true, w').
Proof.
  unfold check_totp. destruct (decrypt_guard_secret _ _) as [[secret|]|e]; [|done|done].
  intros H. apply try_Ok in H as (ok & s1 & E & H). unfold lift in E.
  destruct (verify_totp_code _ _ _) as [r w'] eqn:Ev. injection E as -> <-.
  destruct ok; [|done]. injection H as <-. split; [done|]. eauto.
Qed.

Lemma insert_unlock_Ok u t t' : insert_unlock u t = Ok t' ->
  t' = with_unlocks (fun l => l ++ [u])%list t /\
  ul_unlock_token u ∉ map ul_unlock_token (acc_unlocks t).
Proof.
  unfold insert_unlock. destruct (existsb _ _) eqn:E; [done|]. intros [= <-].
  split; [done|]. by apply not_in_map_existsb in E.
Qed.

Lemma unlock_inv token current secret code scope s un s' :
  support_guard_unlock state env token current secret code scope s = (Ok un, s') ->
  exists id g u row, master_session token (fst s) id /\ acc_guard (fst s) = Some g /\
    user_by_id id (fst s) = Some u /\
    verify_password (trim current) (u_senha_hash u) = Ok true /\
    verify_password secret (unwrap_or "" (ag_support_secret_hash g)) = Ok true /\
    (ag_totp_enabled g = 1%Z -> exists totp (w w' : W),
       decrypt_guard_secret env (ag_totp_secret_encrypted g) = Ok (Some totp) /\
       verify_totp_code totp (unwrap_or "" code) w = (Ok true, w')) /\
    acc_unlocks (fst s') = (acc_unlocks (fst s) ++ [row])%list /\
    (ul_unlock_token row ∉ map ul_unlock_token (acc_unlocks (fst s))) /\
    ul_usuario_id row = id /\ ul_unlock_token row = un_token un /\
    ul_scope row = un_scope un /\ ul_expires_at row = un_expires_at un /\
    un_scope un = unwrap_or "global" scope.
Proof.
  unfold support_guard_unlock. intros H. apply try_Ok in H as (app & s1 & E1 & H).
  apply open_app_tables in E1. apply try_Ok in H as (id & s2 & E2 & H).
  apply ensure_master_inv in E2 as (Hm & now & E2). rewrite E1 in *.
  apply try_Ok in H as (row & s3 & E3 & H). apply select_inv in E3 as [-> E3].
  destruct (acc_guard (fst s2)) as [g|] eqn:Eg; [|done].
  apply try_Ok in H as (h & s4 & E4 & H). apply stored_password_inv in E4 as (u & Hu & -> & E4).
  apply try_Ok in H as ([] & s5 & [= Hp <-] & H). apply check_password_Ok in Hp.
  apply try_Ok in H as ([] & s6 & [= Hs <-] & H). apply check_password_Ok in Hs.
  apply try_Ok in H as ([] & s7 & E7 & H).
  assert (fst s7 = fst s4 /\ (ag_totp_enabled g = 1%Z -> exists totp (w w' : W),
       decrypt_guard_secret env (ag_totp_secret_encrypted g) = Ok (Some totp) /\
       verify_totp_code totp (unwrap_or "" code) w = (Ok true, w'))) as [E7' Htotp].
  { destruct (Z.eqb_spec (ag_totp_enabled g) 1) as [He|He]; [|injection E7 as <-; done].
    apply check_totp_inv in E7 as (E7 & totp & w' & Hd & Hv). eauto 10. }
  run_bind H tok s8 as E8. apply lift_tables in E8.
  apply try_Ok in H as (created & s9 & E9 & H). apply now_text_run in E9 as [_ E9].
  run_bind H at_ s10 as E10. apply lift_tables in E10.
  apply try_Ok in H as ([] & s11 & E11 & H). apply insert_tables in E11 as [(_ & E11)|(? & _)]; [|done].
  apply try_Ok in H as ([] & s12 & E12 & H). apply log_command_run in E12 as [_ E12].
  injection H as <- <-. apply insert_unlock_Ok in E11 as [E11 Hfresh].
  assert (acc_unlocks (fst s10) = acc_unlocks (fst s)) as Hul
    by (rewrite E10, E9, E8, E7', E4, E3, E2; done).
  rewrite E3, E2 in Hu. rewrite E2 in Eg. rewrite Hul in Hfresh.
  eexists id, g, u, _. split_and!; try done.
  rewrite E12, E11. cbn [acc_unlocks with_unlocks]. by rewrite Hul.
Qed.

(** An unlock session is created only for an active master user with a live
    session who gave the account password, the support secret and, when the
    second factor is on, a code that its secret verifies. *)
Theorem unlock_sound token current secret code scope s un s' :
  support_guard_unlock state env token current secret code scope s = (Ok un, s') ->
  exists id g u, master_session token (fst s) id /\ acc_guard (fst s) = Some g /\
    user_by_id id (fst s) = Some u /\
    verify_password (trim current) (u_senha_hash u) = Ok true /\
    verify_password secret (unwrap_or "" (ag_support_secret_hash g)) = Ok true /\
    (ag_totp_enabled g = 1%Z -> exists totp (w w' : W),
       decrypt_guard_secret env (ag_totp_secret_encrypted g) = Ok (Some totp) /\
       verify_totp_code totp (unwrap_or "" code) w = (Ok true, w')).
Proof.
  intros (id & g & u & row & Hm & Hg & Hu & Hp & Hs & Ht & _)%unlock_inv. exists id, g, u. done.
Qed.

Lemma require_admin_unlock_run user_id token scope s :
  (forall w, fst (sql_fault w) = None) -> trim token <> "" ->
  is_ok (fst (require_admin_unlock user_id token scope s)) =
  existsb (live_unlock user_id (trim token) scope (to_rfc3339 (fst (utc_now (snd s)))))
    (acc_unlocks (fst s)).
Proof.
  intros Hf Hne. unfold require_admin_unlock.
  destruct (is_empty (trim token)) eqn:Et; [by apply is_empty_spec in Et|].
  destruct (now_text s) as [r s1] eqn:E1. pose proof (now_text_run _ _ _ E1) as [-> Ht].
  rewrite (try_run _ _ _ _ _ E1). unfold select, execute, statement, try, mbind, st_bind.
  pose proof (Hf (snd s1)) as F1. destruct (sql_fault (snd s1)) as [f w2]. cbn in F1. subst f.
  cbn [fst snd]. rewrite Ht. destruct (list_find _ _) as [row|] eqn:El.
  - apply list_find_Some in El as [Hin Hp]. cbn [fst snd]. pose proof (Hf w2) as F2.
    destruct (sql_fault w2) as [f w3]. cbn in F2. subst f. cbn. symmetry. apply existsb_exists.
    exists row. by rewrite <- list_elem_of_In.
  - apply list_find_None in El. cbn. symmetry. apply not_true_is_false. intros Hex.
    apply existsb_exists in Hex as (x & Hx & Hp). rewrite Forall_forall in El.
    rewrite <- list_elem_of_In in Hx. rewrite (El x Hx) in Hp. done.
Qed.


(** Provisioning shows what it stores: the support secret verifies against the
    stored hash and the stored TOTP secret decrypts to the one shown. It also
    turns the second factor off, with no other authorisation than the session
    of a master user. *)
Theorem provision_stores_secrets `{CL : !CryptoLaws} token force s pv s' :
  support_guard_provision state env token force s = (Ok pv, s') ->
  exists id g, master_session token (fst s) id /\
    (is_Some (acc_guard (fst s)) -> force = Some true) /\
    acc_guard (fst s') = Some g /\ ag_totp_enabled g = 0%Z /\
    verify_password (pv_support_secret pv) (unwrap_or "" (ag_support_secret_hash g)) = Ok true /\
    (pv_totp_secret pv <> "" ->
     decrypt_guard_secret env (ag_totp_secret_encrypted g) = Ok (Some (pv_totp_secret pv))).
Proof.
  unfold support_guard_provision. intros H. apply try_Ok in H as (app & s1 & E1 & H).
  apply open_app_tables in E1. apply try_Ok in H as (id & s2 & E2 & H).
  apply ensure_master_inv in E2 as (Hm & now & E2). rewrite E1 in *.
  apply try_Ok in H as (existing & s3 & E3 & H). apply select_inv in E3 as [-> E3].
  destruct (_ && _) eqn:Ef; [done|]. run_bind H secret s4 as E4. run_bind H totp s5 as E5.
  run_bind H codes s6 as E6. apply try_Ok in H as (at_ & s7 & E7 & H).
  apply try_Ok in H as (hash & s8 & E8 & H). apply hash_password_inv in E8 as [(salt & Eh) E8].
  apply try_Ok in H as ([] & s9 & E9 & H). apply execute_tables in E9. cbn [is_ok] in E9.
  apply try_Ok in H as ([] & s10 & E10 & H). apply lift_tables in E10.
  apply try_Ok in H as ([] & s11 & E11 & H). apply log_command_run in E11 as [_ E11].
  injection H as <- <-. cbn [pv_support_secret pv_totp_secret].
  destruct (argon2_hash_verifies _ _ _ Eh) as (ph & Ep & Eok).
  assert (exists sec, totp = base32_encode sec) as (sec & Et).
  { revert E5. unfold lift, generate_totp_secret, mbind, st_bind, mret, st_ret.
    destruct (rng_bytes 20 (snd s4)) as [b w]. intros [= <- _]. eauto. }
  assert (acc_guard (fst s2) = acc_guard (fst s)) as Eg by (by rewrite E2).
  rewrite Eg in Ef. exists id.
  assert (exists g, acc_guard (fst s11) = Some g /\ ag_totp_enabled g = 0%Z /\
    ag_support_secret_hash g = Some hash /\
    ag_totp_secret_encrypted g = Some (encrypt_text (machine_key env) totp)) as (g & G1 & G2 & G3 & G4).
  { rewrite E11, E10, E9. cbn. destruct (acc_guard (fst s8)); by eexists. }
  exists g. split_and!; try done.
  - intros Hsome. apply andb_false_iff in Ef as [Ef|Ef].
    + by apply bool_decide_eq_false in Ef.
    + by destruct force as [[]|].
  - rewrite G3. cbn. unfold verify_password. by rewrite Ep, Eok.
  - intros Hne. rewrite G4. unfold decrypt_guard_secret. cbn [unwrap_or].
    destruct (blank _) eqn:Eb.
    + destruct Hne. unfold encrypt_text in Eb. apply base64_not_blank in Eb.
      by rewrite <- (xor_from_involutive (derive_secret (machine_key env)) totp 0), Eb.
    + rewrite decrypt_encrypt'; [done|]. rewrite Et. unfold utf8_valid.
      by rewrite utf8_ascii by apply base32_ascii.
Qed.
End Properties.

(** ** The tables over any sequence of commands *)

Inductive command : Type :=
| Login (login senha : string)
| RestoreSession (token : string)
| Logout (token : string)
| ChangePassword (token current new : string)
| GuardStatus (token : string)
| Provision (token : string) (force : option bool)
| EnableTotp (token current secret code : string)
| Unlock (token current secret : string) (code scope : option string)
| RequireUnlock (user_id : Z) (token scope : string).

(** At most one session for each user, and no token twice. *)
Definition accounts_ok (t : Accounts) : Prop :=
  NoDup (map us_usuario_id (acc_sessions t)) /\ NoDup (map us_session_token (acc_sessions t)) /\
  NoDup (map ul_unlock_token (acc_unlocks t)).

Section Invariant.
Context {W : Type} `{LO : LogOs W} `{ST : !Statements W} `{CR : Crypto} `{RN : !Randomness W}
  `{AW : !AuthWorld W}.
Context (state : SharedState) (env : Env).

Definition run_command (cmd : command) (s : db (W := W)) : db :=
  match cmd with
  | Login login senha => snd (auth_login state login senha s)
  | RestoreSession token => snd (auth_restore state token s)
  | Logout token => snd (auth_logout state token s)
  | ChangePassword token current new => snd (auth_change_password state token current new s)
  | GuardStatus token => snd (support_guard_status state token s)
  | Provision token force => snd (support_guard_provision state env token force s)
  | EnableTotp token current secret code =>
      snd (support_guard_enable_totp state env token current secret code s)
  | Unlock token current secret code scope =>
      snd (support_guard_unlock state env token current secret code scope s)
  | RequireUnlock user_id token scope => snd (require_admin_unlock user_id token scope s)
  end.

Lemma accounts_ok_sessions t f :
  accounts_ok t -> (forall l, map us_usuario_id (f l) = map us_usuario_id l) ->
  (forall l, map us_session_token (f l) = map us_session_token l) ->
  accounts_ok (with_sessions f t).
Proof. intros (H1 & H2 & H3) Hu Ht. split_and!; cbn; by rewrite ?Hu, ?Ht. Qed.

Lemma accounts_ok_filter t p : accounts_ok t -> accounts_ok (with_sessions (List.filter p) t).
Proof. intros (H1 & H2 & H3). split_and!; cbn; auto using NoDup_map_filter. Qed.

Lemma accounts_ok_touch now token t :
  accounts_ok t -> accounts_ok (update_session_activity now token t).
Proof. intros H. apply accounts_ok_sessions; [done|..]; intros l; by apply map_update_where. Qed.

Lemma accounts_ok_unlock_use now token t :
  accounts_ok t -> accounts_ok (update_unlock_use now token t).
Proof. intros (H1 & H2 & H3). split_and!; cbn; [done..|]. by rewrite map_update_where. Qed.

Lemma accounts_ok_insert_unlock u t t' :
  accounts_ok t -> insert_unlock u t = Ok t' -> accounts_ok t'.
Proof.
  unfold insert_unlock. destruct (existsb _ _) eqn:E; [done|]. intros (H1 & H2 & H3) [= <-].
  split_and!; cbn; [done..|]. apply NoDup_map_snoc; [done|]. by apply not_in_map_existsb in E.
Qed.

Lemma preserves_open : preserves accounts_ok (open_app state).
Proof. unfold open_app. keep. Qed.
Lemma preserves_log app level category message details :
  preserves accounts_ok (log_command app level category message details).
Proof. unfold log_command. keep. Qed.
Lemma preserves_now : preserves accounts_ok now_text.
Proof. unfold now_text. keep. Qed.
Lemma preserves_build id : preserves accounts_ok (build_auth_user id).
Proof. unfold build_auth_user. keep. Qed.
Lemma preserves_stored what id : preserves accounts_ok (stored_password what id).
Proof.
  intros s r s' HI. unfold stored_password, statement. destruct (sql_fault _) as [[e|] w];
    [by intros [= _ <-]|]. destruct (user_by_id _ _); by intros [= _ <-].
Qed.
#[local] Hint Resolve preserves_open preserves_log preserves_now preserves_build preserves_stored
  accounts_ok_touch accounts_ok_unlock_use accounts_ok_insert_unlock accounts_ok_filter : accounts.

Ltac keep_accounts := keep; try (apply preserves_execute; eauto with accounts).

Lemma preserves_session token : preserves accounts_ok (require_session_by_token token).
Proof. unfold require_session_by_token. keep_accounts. Qed.
#[local] Hint Resolve preserves_session : accounts.

Lemma preserves_master token : preserves accounts_ok (ensure_master token).
Proof. unfold ensure_master. keep_accounts. Qed.
#[local] Hint Resolve preserves_master : accounts.

(** Clearing a user's sessions makes room for one. *)
Lemma preserves_new_session {A} what what' id now ses (k : St db (result string A)) :
  us_usuario_id ses = id -> preserves accounts_ok k ->
  preserves accounts_ok
    (_ ←? execute what (delete_old_sessions id now); _ ←? insert what' (insert_session ses); k).
Proof.
  intros Hid Hk s r s' HI [([] & s1 & E1 & H)|(e & E1 & _)]%try_inv; apply execute_tables in E1;
    cbn [is_ok] in E1; [|by rewrite E1].
  assert (accounts_ok (fst s1)) as HI1 by (rewrite E1; by apply accounts_ok_filter).
  apply try_inv in H as [([] & s2 & E2 & H)|(e & E2 & _)]; apply insert_tables in E2 as
    [(Hok & E2)|(Hok & E2)]; try done; [|by rewrite E2]. eapply Hk; [|exact H].
  apply insert_session_Ok in E2 as [-> Ht]. destruct HI1 as (H1 & H2 & H3).
  split_and!; cbn [acc_sessions acc_unlocks with_sessions]; [|by apply NoDup_map_snoc|done].
  apply NoDup_map_snoc; [done|]. rewrite list_elem_of_In, in_map_iff.
  intros (x & Hx & Hin%list_elem_of_In). rewrite E1 in Hin. apply deleted_sessions in Hin. congruence.
Qed.

Lemma preserves_create app u : preserves accounts_ok (create_session app u).
Proof.
  unfold create_session. do 2 (apply preserves_bind; [apply preserves_lift|intros]).
  apply preserves_new_session; [done|]. keep_accounts; intros t Ht; exact Ht.
Qed.
#[local] Hint Resolve preserves_create : accounts.

(** C3. Whatever commands run in whatever order, with whatever the clock, the
    random generator and the database engine do, a user has at most one session
    and no session or unlock token occurs twice. *)
Theorem accounts_invariant cmds (s : db (W := W)) :
  accounts_ok (fst s) -> accounts_ok (fst (foldl (fun s cmd => run_command cmd s) s cmds)).
Proof.
  revert s. induction cmds as [|cmd cmds IH]; intros s H; [done|]. cbn [foldl]. apply IH. clear IH.
  assert (forall A (c : St db A), preserves accounts_ok c -> accounts_ok (fst (snd (c s)))) as Hp.
  { intros A c Hc. destruct (c s) as [a s'] eqn:E. by eapply Hc. }
  destruct cmd; cbn [run_command]; apply Hp; clear Hp H s.
  - unfold auth_login. keep_accounts.
  - unfold auth_restore. keep_accounts.
  - unfold auth_logout. keep_accounts.
  - unfold auth_change_password. keep_accounts.
  - unfold support_guard_status, guard_row. keep_accounts.
  - unfold support_guard_provision, guard_row. keep_accounts.
  - unfold support_guard_enable_totp, guard_row, check_totp. keep_accounts.
  - unfold support_guard_unlock, guard_row, check_totp. keep_accounts.
    apply preserves_insert. eauto with accounts.
  - unfold require_admin_unlock. keep_accounts.
Qed.
End Invariant.
