(* ===== verification/WebAssets.v ===== *)
(** * The web interface's files: internal_api/web_app.rs

    Where the built interface is looked for, which request paths name a file of
    it, and what is answered. The file system is the class [AssetFiles]; paths
    are Unix paths. The interface is always mounted at the root, so the mount
    path of the code is the empty text in every request. *)

From S2P Require Import Prelude RustStr.
From Stdlib Require Import Ascii.

#[local] Open Scope string_scope.

Class AssetFiles (W : Type) : Type := {
  fs_canonicalize : string -> St W (option string);
  fs_is_file : string -> St W bool;
  fs_read_text : string -> St W (option string);
  fs_read : string -> St W (option string);
  env_current_dir : W -> option string;
  env_current_exe : W -> option string;
  (** [env!("CARGO_MANIFEST_DIR")] *)
  cargo_manifest_dir : string;
}.

(** ** Paths *)

Inductive component : Type := Normal (name : string) | CurDir | RootDir | ParentDir.

Definition component_eqb (a b : component) : bool :=
  match a, b with
  | Normal x, Normal y => String.eqb x y
  | CurDir, CurDir | RootDir, RootDir | ParentDir, ParentDir => true
  | _, _ => false
  end.

(** The components between separators: an empty part and a "." are dropped,
    but a path that starts with "." keeps it. *)
Definition part_component (part : string) : list component :=
  if is_empty part || String.eqb part "." then []
  else if String.eqb part ".." then [ParentDir] else [Normal part].

(** [Path::components] on Unix, which has no prefix components *)
Definition components (p : string) : list component :=
  let parts := flat_map part_component (split "/" p) in
  if starts_with "/" p then RootDir :: parts
  else match split "/" p with
       | "." :: _ => CurDir :: parts
       | _ => parts
       end.

(** [Path::starts_with]: by whole components *)
Fixpoint components_prefix (a b : list component) : bool :=
  match a, b with
  | [], _ => true
  | x :: a, y :: b => component_eqb x y && components_prefix a b
  | _ :: _, [] => false
  end.
Definition path_starts_with (path base : string) : bool :=
  components_prefix (components base) (components path).

(** [Path::extension]: what follows the last dot of the file name, if
    something precedes it. *)
Fixpoint last_dot (s : string) : option (string * string) :=
  match s with
  | "" => None
  | String c r => match last_dot r with
                  | Some (a, b) => Some (String c a, b)
                  | None => if Ascii.eqb c "." then Some ("", r) else None
                  end
  end.
Definition path_extension (p : string) : option string :=
  match last (components p) with
  | Some (Normal name) =>
      match last_dot name with
      | Some (stem, ext) => if is_empty stem then None else Some ext
      | None => None
      end
  | _ => None
  end.

Definition push_component (output : option string) (c : component) : option string :=
  out ← output;
  match c with
  | Normal value => Some (path_join out value)
  | CurDir => Some out
  | RootDir | ParentDir => None
  end.

(*| src-tauri/src/internal_api/web_app.rs 168-179 normalize_asset_path *)
Definition normalize_asset_path (path : string) : option string :=
  let trimmed := replace "\" "/" (trim_start_char "/" path) in
  foldl push_component (Some "") (components trimmed).

(** ** Replies *)

Record web_reply : Type := {
  wr_status : N;
  wr_content_type : option string;
  wr_cache_control : option string;
  wr_body : string;
}.

Definition no_store : string := "no-store, no-cache, must-revalidate".

(*| src-tauri/src/internal_api/web_app.rs 218-242 content_type_for *)
Definition content_type_for (path : string) : string :=
  let ext := to_ascii_lowercase (unwrap_or "" (path_extension path)) in
  if bool_decide (ext = "html") then "text/html; charset=utf-8"
  else if bool_decide (ext ∈ ["js"; "mjs"]) then "application/javascript; charset=utf-8"
  else if bool_decide (ext = "css") then "text/css; charset=utf-8"
  else if bool_decide (ext ∈ ["json"; "webmanifest"]) then "application/json; charset=utf-8"
  else if bool_decide (ext = "svg") then "image/svg+xml"
  else if bool_decide (ext = "png") then "image/png"
  else if bool_decide (ext ∈ ["jpg"; "jpeg"]) then "image/jpeg"
  else if bool_decide (ext = "gif") then "image/gif"
  else if bool_decide (ext = "ico") then "image/x-icon"
  else if bool_decide (ext = "wasm") then "application/wasm"
  else if bool_decide (ext = "txt") then "text/plain; charset=utf-8"
  else if bool_decide (ext = "woff") then "font/woff"
  else if bool_decide (ext = "woff2") then "font/woff2"
  else if bool_decide (ext = "ttf") then "font/ttf"
  else "application/octet-stream".

Definition quote (s : string) : string := String DQUOTE s ++ String DQUOTE "".

Definition runtime_script : string :=
"<script>
window.TUNNARA_CONSOLE_WEB_RUNTIME = true;
window.TUNNARA_CONSOLE_INTERNAL_API_WEB_RUNTIME = true;
window.TUNNARA_CONSOLE_COMMAND_PROXY_BASE = '/__internal_api';
</script>".

Definition newline_text : string := String LF "".

(*| src-tauri/src/internal_api/web_app.rs 191-216 rewrite_index_html *)
Definition rewrite_index_html (html mount_path : string) : string :=
  let base := if is_empty mount_path then "/" else mount_path ++ "/" in
  let dq := String DQUOTE "" in
  let output := replace ("href=" ++ dq ++ "/") ("href=" ++ dq ++ mount_path ++ "/") html in
  let output := replace ("src=" ++ dq ++ "/") ("src=" ++ dq ++ mount_path ++ "/") output in
  let output := replace "href='/" ("href='" ++ mount_path ++ "/") output in
  let output := replace "src='/" ("src='" ++ mount_path ++ "/") output in
  let output := replace "url(/" ("url(" ++ mount_path ++ "/") output in
  let output :=
    if contains "<base " output then output
    else replace "<head>" ("<head>" ++ newline_text ++ "    <base href=" ++ quote base ++ " />") output in
  if contains "TUNNARA_CONSOLE_INTERNAL_API_WEB_RUNTIME" output then output
  else if contains "</head>" output
       then replace "</head>" ("    " ++ runtime_script ++ newline_text ++ "</head>") output
       else runtime_script ++ newline_text ++ output.

(** The page shown when there is no built interface. *)
(*| src-tauri/src/internal_api/web_app.rs 244-269 render_not_available *)
Definition render_not_available (mount_path : string) : string := quoted "<!doctype html>
<html lang=`pt-BR`>
<head>
  <meta charset=`utf-8`>
  <meta name=`viewport` content=`width=device-width, initial-scale=1`>
  <title>Tunnara Console</title>
  <style>
    body{font-family:Inter,Segoe UI,Arial,sans-serif;background:#f8fafc;color:#172033;margin:0}
    main{max-width:860px;margin:80px auto;padding:24px}
    .card{background:white;border:1px solid #dbe4f0;border-radius:18px;padding:28px;box-shadow:0 12px 34px rgba(15,23,42,.08)}
    code{background:#eef2ff;border-radius:8px;padding:2px 7px}
  </style>
</head>
<body>
  <main><section class=`card`>
    <h1>Aplicação web não encontrada</h1>
    <p>O endpoint <code>" ++ mount_path ++ quoted "</code> publica a mesma interface web gerada pelo Vite, sem incorporar os arquivos no binário.</p>
    <p>Execute <code>npm run build:web</code> antes do build Tauri, ou defina <code>TUNNARA_CONSOLE_WEB_DIST_DIR</code> apontando para a pasta <code>dist</code>.</p>
  </section></main>
</body>
</html>".

(** A service worker that takes an earlier one out of the browser. *)
Definition worker_script : string := "self.addEventListener('install', event => { self.skipWaiting(); });
self.addEventListener('activate', event => {
  event.waitUntil((async () => {
    if (self.registration) await self.registration.unregister();
    if (self.caches) {
      const keys = await caches.keys();
      await Promise.all(keys.map(key => caches.delete(key)));
    }
    const clientsList = await clients.matchAll({ type: 'window', includeUncontrolled: true });
    for (const client of clientsList) client.navigate(client.url);
  })());
});
self.addEventListener('fetch', () => {});
".
(*| src-tauri/src/internal_api/web_app.rs 36-61 disabled_service_worker *)
Definition disabled_service_worker : web_reply := {|
  wr_status := 200; wr_content_type := Some "application/javascript; charset=utf-8";
  wr_cache_control := Some no_store; wr_body := worker_script |}.

Section WebAssets.
Context {W : Type} `{AF : AssetFiles W}.
(*| src-tauri/src/internal_api/web_app.rs 181-189 is_inside *)
Definition is_inside (path root : string) : St W bool :=
  p ← fs_canonicalize path;
  match p with
  | None => mret false
  | Some p => r ← fs_canonicalize root;
              match r with None => mret false | Some r => mret (path_starts_with p r) end
  end.

(** The candidates, in order. *)
(*| src-tauri/src/internal_api/web_app.rs 135-163 resolve_dist_dir *)
Definition dist_candidates (env : Env) (w : W) : list string :=
  let configured := opt_filter (fun v => negb (is_empty v)) (trim <$> (env !! "TUNNARA_CONSOLE_WEB_DIST_DIR")) in
  let below base := map (path_join base) in
  (option_list configured
   ++ match env_current_dir w with
      | Some dir => below dir ["dist"; "src-tauri/dist"; "../dist"; "../../dist"]
      | None => []
      end
   ++ match exe ← env_current_exe w; path_parent exe with
      | Some dir => below dir ["dist"; "resources/dist"; "../dist"; "../Resources/dist";
                               "../share/tunnara-console/dist"]
      | None => []
      end
   ++ below cargo_manifest_dir ["dist"; "../dist"])%list.

(** [filter_map(canonicalize).find(has an index.html)], one candidate at a time *)
Fixpoint first_dist (candidates : list string) : St W (option string) :=
  match candidates with
  | [] => mret None
  | c :: rest =>
      p ← fs_canonicalize c;
      match p with
      | None => first_dist rest
      | Some p => found ← fs_is_file (path_join p "index.html");
                  if found : bool then mret (Some p) else first_dist rest
      end
  end.

(*| src-tauri/src/internal_api/web_app.rs 132-166 resolve_dist_dir *)
Definition resolve_dist_dir (env : Env) : St W (option string) := fun w =>
  first_dist (dist_candidates env w) w.

(** The cached directory of the process, once it has been looked for. *)
Definition asset_state : Type := option (option string) * W.

Definition outside {A} (c : St W A) : St asset_state A := fun s =>
  let '(a, w) := c (snd s) in (a, (fst s, w)).

(*| src-tauri/src/internal_api/web_app.rs 128-130 dist_dir *)
Definition dist_dir (env : Env) : St asset_state (option string) := fun s =>
  match fst s with
  | Some dir => (dir, s)
  | None => let '(dir, w) := resolve_dist_dir env (snd s) in (dir, (Some dir, w))
  end.

Definition unavailable (mount_path : string) : web_reply := {|
  wr_status := 503; wr_content_type := Some "text/html; charset=utf-8"; wr_cache_control := None;
  wr_body := render_not_available mount_path |}.
Definition text_reply (status : N) (text : string) : web_reply := {|
  wr_status := status; wr_content_type := Some "text/plain; charset=utf-8";
  wr_cache_control := None; wr_body := text |}.

(*| src-tauri/src/internal_api/web_app.rs 63-87 index_response *)
Definition index_response (env : Env) (mount_path : string) : St asset_state web_reply :=
  dir ← dist_dir env;
  match dir with
  | None => mret (unavailable mount_path)
  | Some dir =>
      html ← outside (fs_read_text (path_join dir "index.html"));
      match html with
      | None => mret (unavailable mount_path)
      | Some html => mret {|
          wr_status := 200; wr_content_type := Some "text/html; charset=utf-8";
          wr_cache_control := Some no_store; wr_body := rewrite_index_html html mount_path |}
      end
  end.

(*| src-tauri/src/internal_api/web_app.rs 91-126 asset_response *)
Definition asset_response (env : Env) (path mount_path : string) : St asset_state web_reply :=
  dir ← dist_dir env;
  match dir with
  | None => index_response env mount_path
  | Some dir =>
      match normalize_asset_path path with
      | None => mret (text_reply 400 "Caminho de asset inválido.")
      | Some relative_path =>
          if is_empty relative_path || String.eqb relative_path "index.html"
          then index_response env mount_path else
          let asset_path := path_join dir relative_path in
          inside ← outside (is_inside asset_path dir);
          file ← (if inside : bool then outside (fs_is_file asset_path) else mret false);
          if negb file then index_response env mount_path else
          bytes ← outside (fs_read asset_path);
          match bytes with
          | None => mret (text_reply 404 "Asset não encontrado.")
          | Some bytes => mret {|
              wr_status := 200; wr_content_type := Some (content_type_for relative_path);
              wr_cache_control :=
                Some (if path_starts_with relative_path "assets"
                      then "public, max-age=31536000, immutable" else "public, max-age=3600");
              wr_body := bytes |}
          end
      end
  end.

(*| src-tauri/src/internal_api/web_app.rs 12-14 web_index *)
Definition web_index (env : Env) : St asset_state web_reply := index_response env "".
(*| src-tauri/src/internal_api/web_app.rs 16-18 web_asset *)
Definition web_asset (env : Env) (path : string) : St asset_state web_reply :=
  asset_response env path "".
(*| src-tauri/src/internal_api/web_app.rs 20-22 root_assets *)
Definition root_assets (env : Env) (path : string) : St asset_state web_reply :=
  asset_response env ("assets/" ++ path) "".
(*| src-tauri/src/internal_api/web_app.rs 24-26 root_branding *)
Definition root_branding (env : Env) (path : string) : St asset_state web_reply :=
  asset_response env ("branding/" ++ path) "".
(*| src-tauri/src/internal_api/web_app.rs 28-30 root_icons *)
Definition root_icons (env : Env) (path : string) : St asset_state web_reply :=
  asset_response env ("icons/" ++ path) "".
(*| src-tauri/src/internal_api/web_app.rs 32-34 manifest *)
Definition manifest (env : Env) : St asset_state web_reply :=
  asset_response env "manifest.webmanifest" "".

End WebAssets.

(** ** Lemmas: paths made of normal components *)

(** A part that names an entry of its directory. *)
Definition plain (name : string) : Prop :=
  name <> "" /\ name <> "." /\ name <> ".." /\ contains "/" name = false.

(** The path below [base] that goes through these names. *)
Definition below (base : string) (names : list string) : string := foldl path_join base names.

Lemma split_no_slash s : Forall (fun part => contains "/" part = false) (split "/" s).
Proof.
  induction s as [|a s IH]; [by repeat constructor|]. cbn [split].
  destruct (Ascii.eqb_spec a "/") as [->|Ha]; [by constructor|].
  destruct (split "/" s) as [|h t].
  - repeat constructor. cbn [contains]. rewrite starts_with_cons. by destruct (ascii_dec "/" a).
  - apply Forall_cons in IH as [Hh Ht]. constructor; [|done]. cbn [contains].
    rewrite starts_with_cons, Hh, orb_false_r. by destruct (ascii_dec "/" a).
Qed.

Lemma parts_plain l : Forall (fun part => contains "/" part = false) l ->
  Forall (fun c => match c with Normal n => plain n | ParentDir => True | _ => False end)
    (flat_map part_component l).
Proof.
  induction 1 as [|p l Hp _ IH]; [done|]. cbn [flat_map]. apply Forall_app. split; [|done].
  unfold part_component. destruct (is_empty p) eqn:E1; [done|]. cbn [orb].
  destruct (String.eqb_spec p "."); [done|]. destruct (String.eqb_spec p ".."); [by repeat constructor|].
  repeat constructor; try done. intros ->. done.
Qed.

Lemma push_none cs : foldl push_component None cs = None.
Proof. by induction cs. Qed.

Lemma push_components cs : forall base out,
  Forall (fun c => match c with Normal n => plain n | _ => True end) cs ->
  foldl push_component (Some base) cs = Some out ->
  exists names, out = below base names /\ Forall plain names.
Proof.
  induction cs as [|c cs IH]; intros base out Hp H; cbn in H.
  - injection H as <-. by exists [].
  - apply Forall_cons in Hp as [Hc Hp]. destruct c as [n| | |]; cbn in H;
      try by rewrite push_none in H.
    + destruct (IH _ _ Hp H) as (names & -> & Hn). exists (n :: names). split; [done|by constructor].
    + by apply IH.
Qed.

Lemma normalize_asset_path_safe path out :
  normalize_asset_path path = Some out ->
  exists names, out = below "" names /\ Forall plain names.
Proof.
  unfold normalize_asset_path. set (t := replace _ _ _). intros H.
  eapply push_components; [|exact H]. pose proof (parts_plain _ (split_no_slash t)) as Hp.
  assert (Forall (fun c => match c with Normal n => plain n | _ => True end)
            (flat_map part_component (split "/" t))) as Hq.
  { eapply Forall_impl; [exact Hp|]. by intros []. }
  unfold components. destruct (starts_with "/" t); [by constructor|].
  case_match; [done|]. repeat (case_match; try done). by constructor.
Qed.

Lemma is_inside_inv {W} `{AF : AssetFiles W} path root (w w' : W) :
  is_inside path root w = (true, w') ->
  exists p r w1, fs_canonicalize path w = (Some p, w1) /\ fs_canonicalize root w1 = (Some r, w') /\
    path_starts_with p r = true.
Proof.
  unfold is_inside, mbind, st_bind, mret, st_ret.
  destruct (fs_canonicalize path w) as [[p|] w1]; [|done].
  destruct (fs_canonicalize root w1) as [[r|] w2] eqn:E; [|done]. intros [= Hp <-].
  by exists p, r, w1.
Qed.

Lemma asset_outside_run {W A} (c : St W A) s a s' :
  outside c s = (a, s') -> c (snd s) = (a, snd s') /\ fst s' = fst s.
Proof. unfold outside. destruct (c (snd s)) as [b w]. by intros [= <- <-]. Qed.

(** C27. A request is answered with the bytes of a file only if its path is made of
    plain names below the interface's directory (no "..", no root, whatever
    mix of slashes and backslashes the request holds) and, links resolved, the
    file still lies inside that directory. Every other path is refused or
    answered with the index page. *)
Theorem asset_served_inside {W} `{AF : AssetFiles W} env path mount_path
    (s s0 s' : asset_state (W := W)) dir r :
  dist_dir env s = (Some dir, s0) ->
  asset_response env path mount_path s = (r, s') ->
  (exists s1, index_response env mount_path s1 = (r, s')) \/
  (normalize_asset_path path = None /\ wr_status r = 400%N /\ s' = s0) \/
  (exists names p root (w1 w2 w3 : W) bytes,
     let file := path_join dir (below "" names) in
     normalize_asset_path path = Some (below "" names) /\ Forall plain names /\
     fs_canonicalize file (snd s0) = (Some p, w1) /\ fs_canonicalize dir w1 = (Some root, w2) /\
     path_starts_with p root = true /\ fs_is_file file w2 = (true, w3) /\
     fs_read file w3 = (bytes, snd s') /\
     match bytes with
     | Some b => wr_status r = 200%N /\ wr_body r = b /\
                 wr_content_type r = Some (content_type_for (below "" names))
     | None => wr_status r = 404%N
     end).
Proof.
  intros Hd H. unfold asset_response in H. rewrite (st_bind_run _ _ _ _ _ Hd) in H.
  destruct (normalize_asset_path path) as [rel|] eqn:En;
    [|injection H as <- <-; right; left; done].
  destruct (normalize_asset_path_safe _ _ En) as (names & -> & Hn).
  destruct (_ || _); [left; eauto|]. run_bind H inside s1 as E1. apply asset_outside_run in E1 as [E1 _].
  destruct inside.
  - run_bind H file s2 as E2. apply asset_outside_run in E2 as [E2 _]. destruct file; [|left; eauto].
    cbn [negb] in H. run_bind H bytes s3 as E3. apply asset_outside_run in E3 as [E3 _].
    apply is_inside_inv in E1 as (p & root & w1 & C1 & C2 & Hp). right. right.
    exists names, p, root, w1, (snd s1), (snd s2), bytes.
    destruct bytes; injection H as <- <-; done.
  - run_bind H file s2 as E2. injection E2 as <- <-. left. eauto.
Qed.
