(* ===== verification/WebhookRoutes.v ===== *)
(** * Receiving webhooks: [native_webhook/routes.rs]

    The in-memory event log (a ring of the last 500 events and a counter), the
    token check, the handlers and the route table. The two statics of the file
    are the record [WebhookGlobals]; each lock scope of the code is one atomic
    step on it. The HTTP headers (the http crate) and the body decoders
    (serde_json) are the class [HttpRequests]. *)

From Stdlib Require Import Ascii.
From S2P Require Import Prelude RustStr Utf8 Json NetAddr NetBind RuntimeSettings.
From S2P Require Import ServiceConfigs RuntimeStore AppLog.

#[local] Open Scope string_scope.

Class HttpRequests : Type := {
  header_map : Type;
  (** [headers.get(name).and_then(|v| v.to_str().ok())] *)
  header_str : header_map -> string -> option string;
  (** the headers in iteration order, with [v.to_str().unwrap_or_default()] *)
  header_list : header_map -> list (string * string);
  serde_from_slice : string -> option value;
}.

(** A reply with a JSON body. *)
Record reply : Type := { reply_status : N; reply_json : value }.

(** ** The event log *)

(*| src-tauri/src/native_webhook/routes.rs 27-38 WebhookEventRecord *)
Record WebhookEventRecord : Type := {
  ev_id : N;
  ev_provider : string;
  ev_event : string;
  ev_method : string;
  ev_path : string;
  ev_status : string;
  ev_headers_json : value;
  ev_payload_json : value;
  ev_received_at : string;
}.

(*| src-tauri/src/native_webhook/routes.rs 40-45 WEBHOOK_EVENTS, WEBHOOK_SEQ *)
Record WebhookGlobals : Type := { wg_events : list WebhookEventRecord; wg_seq : N }.

Definition webhook_globals_init : WebhookGlobals := {| wg_events := []; wg_seq := 0 |}.

(** [*guard += 1] on a [u64], as a release build computes it. *)
(*| src-tauri/src/native_webhook/routes.rs 47-52 next_id *)
Definition next_id (g : WebhookGlobals) : N * WebhookGlobals :=
  let id := ((wg_seq g + 1) mod (U64_MAX + 1))%N in
  (id, {| wg_events := wg_events g; wg_seq := id |}).

Definition MAX_EVENTS : nat := 500.

(*| src-tauri/src/native_webhook/routes.rs 203-210 push_event *)
Definition push_event (r : WebhookEventRecord) (g : WebhookGlobals) : WebhookGlobals :=
  let pushed := app (wg_events g) [r] in
  {| wg_events := if Nat.ltb MAX_EVENTS (length pushed)
                  then drop (length pushed - MAX_EVENTS) pushed else pushed;
     wg_seq := wg_seq g |}.

(*| src-tauri/src/native_webhook/routes.rs 212-220 list_events_snapshot *)
Definition list_events_snapshot (g : WebhookGlobals) : list WebhookEventRecord :=
  rev (wg_events g).

(*| src-tauri/src/native_webhook/routes.rs 222-227 clear_events *)
Definition clear_events (g : WebhookGlobals) : WebhookGlobals :=
  {| wg_events := []; wg_seq := wg_seq g |}.

(** The JSON of a record, as its [Serialize] derives it. *)
Definition event_json (r : WebhookEventRecord) : value :=
  Object [("id", Number (PosInt (ev_id r))); ("provider", String_ (ev_provider r));
    ("event", String_ (ev_event r)); ("method", String_ (ev_method r));
    ("path", String_ (ev_path r)); ("status", String_ (ev_status r));
    ("headers_json", ev_headers_json r); ("payload_json", ev_payload_json r);
    ("received_at", String_ (ev_received_at r))].

(** ** Requests *)

Section Requests.
Context `{HR : HttpRequests}.

(*| src-tauri/src/native_webhook/routes.rs 169-186 validate_token *)
Definition webhook_validate_token (config : WebhookConfig) (headers : header_map) :
    result string unit :=
  if negb (wh_token_required config) then Ok ()
  else if blank (wh_token config) then Ok ()
  else
    let received := unwrap_or "" (header_str headers (trim (wh_token_header config))) in
    if String.eqb received (wh_token config) then Ok ()
    else Err "Token do webhook ausente ou inválido.".

(*| src-tauri/src/native_webhook/routes.rs 188-193 parse_payload *)
Definition parse_payload (body : string) : value :=
  if is_empty body then Object []
  else unwrap_or (Object [("raw", String_ (from_utf8_lossy body))]) (serde_from_slice body).

(*| src-tauri/src/native_webhook/routes.rs 195-201 headers_to_json *)
Definition headers_to_json (headers : header_map) : value :=
  Object (foldl (fun m '(k, v) => obj_insert k (String_ v) m) [] (header_list headers)).

Definition build_record (id : N) (headers : header_map) (method path provider event body now : string) :
    WebhookEventRecord := {|
  ev_id := id; ev_provider := provider; ev_event := event; ev_method := method; ev_path := path;
  ev_status := "received"; ev_headers_json := headers_to_json headers;
  ev_payload_json := parse_payload body; ev_received_at := now |}.

Definition unauthorized (message : string) : reply :=
  {| reply_status := 401; reply_json := Object [("ok", Bool false); ("error", String_ message)] |}.
Definition ok_json (v : value) : reply := {| reply_status := 200; reply_json := v |}.

Section Handlers.
Context {W : Type} `{LO : LogOs W}.
Context (config : WebhookConfig) (app_state : SharedState).

(** The server's statics and the outside world. *)
Definition wstate : Type := WebhookGlobals * W.

(*| src-tauri/src/native_webhook/routes.rs 229-246 log_webhook_event *)
Definition log_webhook_event (r : WebhookEventRecord) : St W unit :=
  log_event app_state {| log_level := "info"; log_category := "webhook";
    log_message := "Webhook recebido"; log_source := Some "native_webhook";
    log_route := Some "-"; log_details := Some (event_json r) |}.

(*| src-tauri/src/native_webhook/routes.rs 138-167 receive_event *)
Definition receive_event (headers : header_map) (method path provider event body : string) :
    St wstate reply := fun '(g, w) =>
  match webhook_validate_token config headers with
  | Err message => (unauthorized message, (g, w))
  | Ok _ =>
      let '(id, g) := next_id g in
      let '(now, w) := utc_now_rfc3339 w in
      let record := build_record id headers method path provider event body now in
      let g := push_event record g in
      let '(_, w) := log_webhook_event record w in
      (ok_json (Object [("ok", Bool true); ("event", event_json record)]), (g, w))
  end.

(*| src-tauri/src/native_webhook/routes.rs 98-100 test_receive *)
Definition test_receive (headers : header_map) (body : string) : St wstate reply :=
  receive_event headers "POST" "/test" "test" "manual" body.

(*| src-tauri/src/native_webhook/routes.rs 102-118 receive_provider *)
Definition receive_provider (provider : string) (headers : header_map) (body : string) :
    St wstate reply :=
  receive_event headers "POST" ("/webhooks/" ++ provider) provider "generic" body.

(*| src-tauri/src/native_webhook/routes.rs 120-136 receive_provider_event *)
Definition receive_provider_event (provider event : string) (headers : header_map)
    (body : string) : St wstate reply :=
  receive_event headers "POST" ("/webhooks/" ++ provider ++ "/" ++ event) provider event body.

(*| src-tauri/src/native_webhook/routes.rs 73-81 root *)
Definition webhook_root : reply :=
  ok_json (Object [("service", String_ "webhook"); ("running", Bool true);
    ("port", Number (PosInt (wh_port config))); ("base_path", String_ (wh_base_path config));
    ("endpoints", Array [String_ "/health"; String_ "/events"; String_ "/test";
                         String_ (wh_base_path config)])]).

(*| src-tauri/src/native_webhook/routes.rs 83-92 health *)
Definition webhook_health (g : WebhookGlobals) : reply :=
  ok_json (Object [("ok", Bool true); ("service", String_ "webhook");
    ("host", String_ (wh_public_host config)); ("port", Number (PosInt (wh_port config)));
    ("base_path", String_ (wh_base_path config));
    ("received_events", Number (PosInt (N.of_nat (length (list_events_snapshot g)))))]).

(*| src-tauri/src/native_webhook/routes.rs 94-96 list_events *)
Definition list_events (g : WebhookGlobals) : reply :=
  ok_json (Object [("items", Array (map event_json (list_events_snapshot g)))]).

End Handlers.
End Requests.

(** ** The route table *)

Inductive route_method : Type := RGet | RPost.
#[export] Instance route_method_eq_dec : EqDecision route_method.
Proof. solve_decision. Defined.

(** The routes in the order the code registers them. *)
(*| src-tauri/src/native_webhook/routes.rs 54-71 router *)
Definition webhook_router (base : string) : list (route_method * string) :=
  [ (RGet, "/"); (RGet, "/health"); (RGet, "/events"); (RPost, "/test");
    (RGet, base ++ "/events"); (RPost, base ++ "/test");
    (RPost, base ++ "/:provider"); (RPost, base ++ "/:provider/:event") ].

(** What [axum::Router::route] asks of a table: every path starts with a slash
    and no method of a path is registered twice. *)
Definition routable (routes : list (route_method * string)) : Prop :=
  Forall (fun r => starts_with "/" (snd r) = true) routes /\ NoDup routes.

(** ** Lemmas: the ring *)

Lemma push_event_last_n r g :
  wg_events (push_event r g) = last_n MAX_EVENTS (app (wg_events g) [r]).
Proof.
  unfold push_event, last_n. cbn [wg_events]. destruct (Nat.ltb_spec MAX_EVENTS
    (length (app (wg_events g) [r]))); [done|]. rewrite (proj2 (Nat.sub_0_le _ _)) by lia. done.
Qed.

Lemma last_n_elem {A} n (l : list A) x : x ∈ last_n n l -> x ∈ l.
Proof.
  unfold last_n. intros H. rewrite <- (take_drop (length l - n) l). apply elem_of_app. by right.
Qed.

Lemma last_n_NoDup {A} n (l : list A) : NoDup l -> NoDup (last_n n l).
Proof.
  unfold last_n. intros H. rewrite <- (take_drop (length l - n) l) in H.
  by apply NoDup_app in H as (_ & _ & ?).
Qed.

(** ** Properties *)

(** The event log refines the history of the service: after any events
    pushed since the log was empty, it holds the last 500 of them and the
    listing shows these newest first. *)
Theorem event_log_refines_history g rs :
  wg_events g = [] ->
  let g' := foldl (fun g r => push_event r g) g rs in
  wg_events g' = last_n MAX_EVENTS rs /\
  list_events_snapshot g' = rev (last_n MAX_EVENTS rs) /\
  length (wg_events g') <= MAX_EVENTS /\ wg_seq g' = wg_seq g.
Proof.
  intros Hg. cbv zeta. set (g' := foldl _ g rs).
  assert (wg_events g' = last_n MAX_EVENTS rs /\ wg_seq g' = wg_seq g) as [He Hs].
  { subst g'. assert (wg_events g = last_n MAX_EVENTS []) as Hg0 by done. clear Hg.
    induction rs as [|r rs IH] using rev_ind; [done|].
    rewrite foldl_app. cbn [foldl]. destruct IH as [He Hs].
    rewrite push_event_last_n, He. split; [apply last_n_snoc|done]. }
  unfold list_events_snapshot. rewrite He. split_and!; try done.
  rewrite length_last_n. lia.
Qed.

(** What the token check lets in: everything when no token is required or
    the configured token is blank, even if one is required; otherwise exactly
    the requests whose token header is the configured token. A refused request
    leaves no trace, an accepted one adds exactly one event. *)
Theorem receive_event_spec {W : Type} `{HR : HttpRequests} `{LO : LogOs W}
    config app_state headers method path provider event body g (w : W) :
  let granted := wh_token_required config = false \/ blank (wh_token config) = true \/
    unwrap_or "" (header_str headers (trim (wh_token_header config))) = wh_token config in
  match receive_event config app_state headers method path provider event body (g, w) with
  | (reply, (g', w')) =>
      (granted /\ reply_status reply = 200%N /\
       exists r, wg_events g' = last_n MAX_EVENTS (app (wg_events g) [r]) /\
         ev_provider r = provider /\ ev_event r = event /\ ev_path r = path /\
         ev_payload_json r = parse_payload body /\ ev_id r = wg_seq g') \/
      (~ granted /\ reply_status reply = 401%N /\ g' = g /\ w' = w)
  end.
Proof.
  cbv zeta. unfold receive_event.
  assert (webhook_validate_token config headers = Ok () <->
    (wh_token_required config = false \/ blank (wh_token config) = true \/
     unwrap_or "" (header_str headers (trim (wh_token_header config))) = wh_token config)) as Hg.
  { unfold webhook_validate_token. destruct (wh_token_required config); cbn; [|by split; [left|]].
    destruct (blank _); [split; [by right; left|done]|].
    destruct (String.eqb_spec (unwrap_or "" (header_str headers (trim (wh_token_header config))))
      (wh_token config)); solve_iff. }
  destruct (webhook_validate_token config headers) as [[]|e] eqn:Ev.
  - destruct (next_id g) as [id g1] eqn:En. destruct (utc_now_rfc3339 w) as [now w1].
    destruct (log_webhook_event _ _ w1) as [u w2]. left. split; [by apply Hg|]. split; [done|].
    unfold next_id in En. injection En as <- <-. eexists. split; [by rewrite push_event_last_n|]. done.
  - right. split; [|done]. intros H. apply Hg in H. done.
Qed.

Lemma length_pos_ne (s : string) : s <> "" -> 1 <= String.length s.
Proof. destruct s; [done|cbn; lia]. Qed.

Lemma app_const_ne (base s t : string) :
  base <> "" -> String.length t <= String.length s -> base ++ s <> t.
Proof.
  intros Hb%length_pos_ne Hl H. apply (f_equal String.length) in H.
  rewrite string_app_length in H. lia.
Qed.

Lemma app_cancel_l (base s t : string) : base ++ s = base ++ t -> s = t.
Proof. induction base as [|a b IH]; [done|]. rewrite !app_cons. intros [= H]. by apply IH. Qed.

Lemma starts_with_app_l p s t : starts_with p s = true -> starts_with p (s ++ t) = true.
Proof.
  rewrite !starts_with_spec. intros [u ->]. exists (u ++ t). by rewrite string_app_assoc.
Qed.

Lemma route_ne_const m base s t :
  base <> "" -> String.length t <= String.length s -> (m, t) <> (m, base ++ s) :> route_method * string.
Proof. intros Hb Hl [= H]. by apply (app_const_ne base s t). Qed.

Lemma route_ne_app m base s t : s <> t -> (m, base ++ s) <> (m, base ++ t) :> route_method * string.
Proof. intros Hne [= H]. by apply app_cancel_l in H. Qed.

Lemma route_ne_method (s t : string) : (RGet, s) <> (RPost, t) /\ (RPost, t) <> (RGet, s).
Proof. by split. Qed.

Lemma route_ne_path m (s t : string) : s <> t -> (m, s) <> (m, t) :> route_method * string.
Proof. congruence. Qed.

(** Two routes of a table with a base that is not empty are different. *)
Ltac route_ne :=
  first [ apply route_ne_method | apply route_ne_const; [done|cbn; lia] | apply route_ne_app; done
        | apply route_ne_path; done ].

(** The service has a route table that can be served unless its base path
    is empty, which is what the configured path "/" becomes: then "/events" and
    "/test" are each registered twice. *)
Theorem webhook_routes_routable base :
  base = "" \/ starts_with "/" base = true ->
  (routable (webhook_router base) <-> base <> "") /\
  ~ routable (webhook_router (webhook_normalize_path "/")).
Proof.
  intros Hb. assert (~ routable (webhook_router "")) as Hroot.
  { intros [_ Hn]. apply (bool_decide_pack _) in Hn. vm_compute in Hn. done. }
  split; [split|exact Hroot].
  - intros H ->. by apply Hroot.
  - intros Hne. destruct Hb as [|Hs]; [done|]. split.
    + repeat constructor; cbn [snd]; try done; by apply starts_with_app_l.
    + unfold webhook_router. repeat (apply NoDup_cons; split); [..|by apply NoDup_nil];
        rewrite ?not_elem_of_cons; repeat split; try apply not_elem_of_nil; route_ne.
Qed.

(** ** Concurrent requests

    Handlers run on several threads. [next_id] and [push_event] each hold a
    lock, and nothing is held between the two: a request in flight is a record
    that has its id and is not in the log yet. *)

Record log_state : Type := { ls_globals : WebhookGlobals; ls_flight : list WebhookEventRecord }.

Definition log_init : log_state :=
  {| ls_globals := webhook_globals_init; ls_flight := [] |}.

Inductive log_step : log_state -> log_state -> Prop :=
| step_take_id g fl r g' :
    (wg_seq g < U64_MAX)%N -> next_id g = (ev_id r, g') ->
    log_step {| ls_globals := g; ls_flight := fl |}
             {| ls_globals := g'; ls_flight := r :: fl |}
| step_push g fl1 r fl2 :
    log_step {| ls_globals := g; ls_flight := app fl1 (r :: fl2) |}
             {| ls_globals := push_event r g; ls_flight := app fl1 fl2 |}
| step_clear g fl :
    log_step {| ls_globals := g; ls_flight := fl |}
             {| ls_globals := clear_events g; ls_flight := fl |}.

Definition all_ids (s : log_state) : list N :=
  map ev_id (app (wg_events (ls_globals s)) (ls_flight s)).

Definition log_inv (s : log_state) : Prop :=
  NoDup (all_ids s) /\ Forall (fun i => 0 < i <= wg_seq (ls_globals s))%N (all_ids s) /\
  length (wg_events (ls_globals s)) <= MAX_EVENTS.

Lemma next_id_nowrap g id g' :
  (wg_seq g < U64_MAX)%N -> next_id g = (id, g') ->
  id = (wg_seq g + 1)%N /\ wg_seq g' = id /\ wg_events g' = wg_events g.
Proof. unfold next_id. intros H [= <- <-]. cbn. rewrite N.mod_small by lia. done. Qed.

Lemma log_step_inv s s' : log_inv s -> log_step s s' -> log_inv s'.
Proof.
  unfold log_inv, all_ids. intros (Hn & Hf & Hl) H.
  inversion H as [g fl r g' Hw Hi|g fl1 r fl2|g fl]; subst; cbn [ls_globals ls_flight] in *.
  - apply next_id_nowrap in Hi as (Hid & Hs & He); [|done]. rewrite He.
    assert (Permutation (map ev_id (app (wg_events g) (r :: fl)))
              (ev_id r :: map ev_id (app (wg_events g) fl))) as Hp.
    { rewrite <- Permutation_middle. done. }
    rewrite Hp. rewrite Forall_forall in Hf. split_and!; [|constructor|done].
    + constructor; [|done]. intros Hin. specialize (Hf _ Hin). lia.
    + lia.
    + apply Forall_forall. intros i Hin. specialize (Hf _ Hin). lia.
  - rewrite push_event_last_n. rewrite length_last_n.
    assert (Permutation (map ev_id (app (wg_events g) (app fl1 (r :: fl2))))
              (map ev_id (app (app (wg_events g) [r]) (app fl1 fl2)))) as Hp.
    { apply Permutation_map. rewrite <- app_assoc. apply Permutation_app_head.
      cbn. by rewrite <- Permutation_middle. }
    rewrite Hp in Hn, Hf. unfold last_n. set (l := app (wg_events g) [r]) in *.
    rewrite <- (take_drop (length l - MAX_EVENTS) l) in Hn, Hf.
    rewrite <- app_assoc, map_app in Hn, Hf.
    apply NoDup_app in Hn as (_ & _ & Hn). apply Forall_app in Hf as [_ Hf].
    split_and!; [done|done|lia].
  - rewrite map_app in Hn, Hf. apply NoDup_app in Hn as (_ & _ & Hn).
    apply Forall_app in Hf as [_ Hf]. cbn. split_and!; [done|done|lia].
Qed.

(** However the threads interleave, the log never holds more than 500
    events and no id is given twice, in the log or in flight; but the order of
    the log is the order of the pushes, not of the ids. *)
Theorem concurrent_log_ids :
  (forall s, rtc log_step log_init s ->
     NoDup (all_ids s) /\ length (wg_events (ls_globals s)) <= MAX_EVENTS) /\
  exists s, rtc log_step log_init s /\ map ev_id (wg_events (ls_globals s)) = [2; 1]%N.
Proof.
  split.
  - intros s H. assert (log_inv s) as (Hn & _ & Hl); [|done].
    assert (log_inv log_init) as H0.
    { unfold log_inv, all_ids. cbn. split_and!; [constructor|constructor|lia]. }
    revert H0. induction H as [s|s1 s2 s3 Hs _ IH]; [done|]. intros H0.
    apply IH. by eapply log_step_inv.
  - pose (r := fun i => {| ev_id := i; ev_provider := ""; ev_event := ""; ev_method := "";
      ev_path := ""; ev_status := ""; ev_headers_json := Null; ev_payload_json := Null;
      ev_received_at := "" |}).
    eexists. split.
    + eapply rtc_l; [eapply (step_take_id _ [] (r 1%N)); done|].
      eapply rtc_l; [eapply (step_take_id _ [r 1%N] (r 2%N)); done|].
      eapply rtc_l; [apply (step_push _ [] (r 2%N) [r 1%N])|].
      eapply rtc_l; [apply (step_push _ [] (r 1%N) [])|]. apply rtc_refl.
    + reflexivity.
Qed.
