(* ===== verification/InternalRoutes.v ===== *)
(** * Internal API: routes, token guard and documentation

    [internal_api/routes.rs], [docs.rs] and [state.rs]: the route table, which
    routes the token guard wraps, what the guard answers, and the handlers. The
    command handler of [app_commands.rs] is an argument of the router. Routing
    itself is axum's: a request is served by the route with its method and path. *)

From Stdlib Require Import Ascii.
From S2P Require Import Prelude RustStr Json NetAddr NetBind RuntimeSettings.
From S2P Require Import ServiceConfigs RuntimeStore AppLog WebhookRoutes.

#[local] Open Scope string_scope.

(*| src-tauri/src/internal_api/state.rs 5-13 InternalApiState *)
Record InternalApiState : Type := {
  is_db_path : string;
  is_data_dir : string;
  is_started_at : string;
  is_host : string;
  is_port : N;
  is_config : InternalApiConfig;
}.

(** What the compiler bakes in: [env!], [option_env!] and [cfg!]. *)
Class BuildInfo : Type := {
  cargo_pkg_version : string;
  build_hash : option string;
  build_app_env : option string;
  target_windows : bool;
  target_linux : bool;
  feature_mysql : bool;
  feature_postgres : bool;
}.

(** A request without its body. *)
Record request `{HR : HttpRequests} : Type := {
  rq_method : route_method;
  rq_path : string;
  rq_query : option string;
  rq_headers : header_map;
}.

(** [HeaderName::from_bytes] succeeds, and the last 100 rows of the log. *)
Class ApiWorld (W : Type) `{OS : ConsoleOs W} : Type := {
  header_name_ok : string -> bool;
  db_last_logs : db_conn -> St W (result string (list value));
}.

Inductive api_reply : Type :=
| JsonReply (status : N) (body : value)
| HtmlReply (html : string)
| TemporaryRedirect (location : string).

Inductive endpoint : Type :=
| Command | Version | Status | AppMeta | Features | Logs | Root | Health | Openapi | ScalarDocs.
#[export] Instance endpoint_eq_dec : EqDecision endpoint.
Proof. solve_decision. Defined.

(** ** Tokens in a query *)

(** [pair.splitn(2, '=')], with the empty text for a missing value *)
Definition query_pair (item : string) : string * string :=
  let '(key, value) := split_once "=" item in (key, unwrap_or "" value).

(** [query.split('&').find_map(...)]: the first pair with one of the names *)
Fixpoint first_token (pairs : list string) : option string :=
  match pairs with
  | [] => None
  | item :: rest =>
      let '(key, value) := query_pair item in
      if bool_decide (key ∈ ["token"; "api_token"; "x-app-token"]) then Some value
      else first_token rest
  end.

Definition query_token (query : option string) : option string :=
  q ← query; first_token (split "&" q).

Section Guard.
Context `{HR : HttpRequests} {W : Type} `{AW : ApiWorld W}.

Definition configured_token (config : InternalApiConfig) : string :=
  trim (unwrap_or "" (sec_token (ia_security config))).

(*| src-tauri/src/internal_api/routes.rs 129-149 token_guard *)
Definition received_token (config : InternalApiConfig) (req : request) : string :=
  let header_token :=
    trim (unwrap_or "" (header_str (rq_headers req) (sec_token_header (ia_security config)))) in
  if is_empty header_token then unwrap_or "" (trim <$> query_token (rq_query req))
  else header_token.

(*| src-tauri/src/internal_api/routes.rs 90-161 token_guard *)
Definition token_guard (config : InternalApiConfig) (req : request)
    (next : St W api_reply) : St W api_reply :=
  if negb (sec_require_token (ia_security config)) then next else
  let token := configured_token config in
  if is_empty token then
    mret (JsonReply 503 (Object [
      ("error", String_ "API token não configurado no servidor.");
      ("hint", String_ "Defina TUNNARA_CONSOLE_API_TOKEN ou desative TUNNARA_CONSOLE_API_REQUIRE_TOKEN apenas em ambiente local controlado.")]))
  else if negb (header_name_ok (sec_token_header (ia_security config))) then
    mret (JsonReply 500 (Object [
      ("error", String_ "Nome do header de token inválido na configuração da API interna.")]))
  else if negb (String.eqb (received_token config req) token) then
    mret (JsonReply 401 (Object [
      ("error", String_ "Token da API interna inválido ou ausente.")]))
  else next.

End Guard.

(** ** The route table *)

Definition both (m : route_method) (path : string) (e : endpoint) :
    list ((route_method * string) * endpoint) :=
  [((m, path), e); ((m, "/__internal_api" ++ path), e)].

(*| src-tauri/src/internal_api/routes.rs 34-47 router *)
Definition protected_routes : list ((route_method * string) * endpoint) :=
  (both RPost "/api/command" Command ++ both RGet "/version" Version
   ++ both RGet "/status" Status ++ both RGet "/app/meta" AppMeta
   ++ both RGet "/features" Features ++ both RGet "/logs" Logs)%list.

(*| src-tauri/src/internal_api/routes.rs 49-55 router *)
Definition public_routes : list ((route_method * string) * endpoint) :=
  (both RGet "/" Root ++ both RGet "/health" Health)%list.

(*| src-tauri/src/internal_api/routes.rs 57-63 router *)
Definition docs_routes (path : string) : list ((route_method * string) * endpoint) :=
  (both RGet "/openapi.json" Openapi ++ both RGet path ScalarDocs)%list.

(*| src-tauri/src/internal_api/routes.rs 65-75 router *)
Definition docs_guarded (config : InternalApiConfig) : bool :=
  sec_require_token (ia_security config) && negb (docs_are_public_for_current_bind config).

(** A route, with whether the guard wraps it. *)
(*| src-tauri/src/internal_api/routes.rs 33-88 router *)
Definition router (config : InternalApiConfig) : list ((route_method * string) * (endpoint * bool)) :=
  let tag b := map (fun r => (fst r, (snd r, b))) in
  (tag false public_routes ++ tag true protected_routes
   ++ (if ia_expose_docs config
       then tag (docs_guarded config) (docs_routes (docs_path (ia_docs config)))
       else []))%list.

(** ** Documentation *)

Definition dq : string := String (ascii_of_N 34) "".

(*| src-tauri/src/internal_api/docs.rs 1-37 scalar_html *)
Definition scalar_html (docs_path : string) (token : option string) : string :=
  let openapi_path := if starts_with "/__internal_api" docs_path
                      then "/__internal_api/openapi.json" else "/openapi.json" in
  let openapi_url := match token with
                     | Some value => openapi_path ++ "?token=" ++ value
                     | None => openapi_path
                     end in
  "<!doctype html>
<html lang=" ++ dq ++ "pt-BR" ++ dq ++ ">
<head>
  <meta charset=" ++ dq ++ "utf-8" ++ dq ++ " />
  <meta name=" ++ dq ++ "viewport" ++ dq ++ " content=" ++ dq ++ "width=device-width, initial-scale=1" ++ dq ++ " />
  <title>Tunnara Console API Docs</title>
  <style>
    :root { color-scheme: light only; }
    html, body { margin:0; min-height:100%; background:#ffffff !important; color:#172033 !important; }
    body { font-family: Inter, ui-sans-serif, system-ui, -apple-system, BlinkMacSystemFont, 'Segoe UI', sans-serif; }
    scalar-api-reference {
      --scalar-background-1:#ffffff !important;
      --scalar-background-2:#f8fafc !important;
      --scalar-background-3:#eef2f7 !important;
      --scalar-color-1:#172033 !important;
      --scalar-color-2:#475569 !important;
      --scalar-color-3:#64748b !important;
      color-scheme: light only !important;
    }
  </style>
</head>
<body>
  <script id=" ++ dq ++ "api-reference" ++ dq ++ " data-url=" ++ dq ++ ""
  ++ openapi_url ++
  "" ++ dq ++ " data-theme=" ++ dq ++ "default" ++ dq ++ "></script>
  <script src=" ++ dq ++ "https://cdn.jsdelivr.net/npm/@scalar/api-reference" ++ dq ++ "></script>
</body>
</html>".

Definition response (code description : string) : value :=
  Object [(code, Object [("description", String_ description)])].
Definition get_operation (security : option value) (summary : string) (responses : value) : value :=
  Object [("get", Object (app (match security with Some v => [("security", v)] | None => [] end)
    [("summary", String_ summary); ("responses", responses)]))].

(** [serde_json]'s objects are sorted by key only when printed without
    [preserve_order]; a value built by [json!] is compared by its members. *)
(*| src-tauri/src/internal_api/docs.rs 39-69 openapi_json *)
Definition openapi_json `{BI : BuildInfo} (token_header : string) (require_token : bool)
    (docs_path : string) : value :=
  let security := Array (if require_token then [Object [("LocalToken", Array [])]] else []) in
  Object [
    ("openapi", String_ "3.0.3");
    ("info", Object [("title", String_ "Tunnara Console Internal API");
                     ("version", String_ cargo_pkg_version)]);
    ("components", Object [("securitySchemes", Object [("LocalToken",
       Object [("type", String_ "apiKey"); ("in", String_ "header"); ("name", String_ token_header)])])]);
    ("paths", Object (obj_insert docs_path
       (get_operation None "Documentação Scalar em tema claro fixo" (response "200" "HTML")) [
       ("/health", get_operation None "Health check público/local" (response "200" "OK"));
       ("/version", get_operation (Some security) "Versão da aplicação"
          (Object [("200", Object [("description", String_ "OK")]);
                   ("401", Object [("description", String_ "Token inválido")])]));
       ("/status", get_operation (Some security) "Status operacional" (response "200" "OK"));
       ("/app/meta", get_operation (Some security) "Metadados da aplicação" (response "200" "OK"));
       ("/features", get_operation (Some security) "Feature flags" (response "200" "OK"));
       ("/logs", get_operation (Some security) "Últimos logs" (response "200" "OK"));
       ("/openapi.json", get_operation None "OpenAPI" (response "200" "JSON"))]))].

(** ** Handlers *)

(*| src-tauri/src/internal_api/routes.rs 17-23 runtime_app_name *)
Definition runtime_app_name (env : Env) : string :=
  unwrap_or "Tunnara Console"
    (opt_filter (fun v => negb (blank v)) (or_else (env !! "TUNNARA_CONSOLE_NAME") (env !! "APP_NAME"))).
(*| src-tauri/src/internal_api/routes.rs 25-31 runtime_app_identifier *)
Definition runtime_app_identifier (env : Env) : string :=
  unwrap_or "br.com.wwsoftwares.tunnara.console"
    (opt_filter (fun v => negb (blank v))
       (or_else (env !! "TUNNARA_CONSOLE_IDENTIFIER") (env !! "APP_IDENTIFIER"))).

Section Handlers.
Context `{HR : HttpRequests} `{BI : BuildInfo} {W : Type} `{AW : ApiWorld W}.
Context (env : Env) (st : InternalApiState) (run_command : request -> St W api_reply).
Let config := is_config st.
Let sec := ia_security config.

(*| src-tauri/src/internal_api/routes.rs 163-174 root *)
Definition api_root : api_reply :=
  if ia_expose_docs config then TemporaryRedirect (docs_path (ia_docs config))
  else JsonReply 200 (Object [("ok", Bool true); ("service", String_ "internal-api");
         ("version", String_ cargo_pkg_version); ("health", String_ "/health")]).

(*| src-tauri/src/internal_api/routes.rs 176-186 health *)
Definition api_health : St W api_reply :=
  conn ← db_open (is_db_path st);
  mret (JsonReply 200 (Object [
    ("ok", Bool true); ("database", Bool (is_ok conn)); ("version", String_ cargo_pkg_version);
    ("docs_exposed", Bool (ia_expose_docs config));
    ("token_required", Bool (sec_require_token sec));
    ("bind_host", String_ (sec_bind_host sec))])).

(*| src-tauri/src/internal_api/routes.rs 188-192 version *)
Definition api_version : api_reply :=
  JsonReply 200 (Object [("version", String_ cargo_pkg_version);
                         ("build", String_ (unwrap_or "dev" build_hash))]).

(*| src-tauri/src/internal_api/routes.rs 194-211 status *)
Definition api_status : api_reply :=
  JsonReply 200 (Object [
    ("runtime", String_ "headless-api"); ("host", String_ (is_host st));
    ("port", Number (PosInt (is_port st))); ("started_at", String_ (is_started_at st));
    ("database_path", String_ (is_db_path st)); ("data_dir", String_ (is_data_dir st));
    ("security", Object [
       ("require_token", Bool (sec_require_token sec));
       ("token_header", String_ (sec_token_header sec));
       ("allow_public_network", Bool (sec_allow_public_network sec));
       ("cors_enabled", Bool (sec_cors_enabled sec));
       ("expose_docs", Bool (ia_expose_docs config));
       ("docs_public", Bool (sec_docs_public sec))])]).

(*| src-tauri/src/internal_api/routes.rs 213-220 app_meta *)
Definition api_app_meta : api_reply :=
  JsonReply 200 (Object [
    ("name", String_ (runtime_app_name env)); ("identifier", String_ (runtime_app_identifier env));
    ("version", String_ cargo_pkg_version);
    ("environment", String_ (unwrap_or "production" build_app_env))]).

(*| src-tauri/src/internal_api/routes.rs 222-238 features *)
Definition api_features : api_reply :=
  JsonReply 200 (Object [
    ("licensing", Bool true); ("logs", Bool true); ("systemSettings", Bool true);
    ("internalApi", Bool true); ("scalarDocs", Bool (ia_expose_docs config));
    ("integrations", Bool true); ("tray", Bool true); ("windowsService", Bool target_windows);
    ("linuxService", Bool target_linux); ("mysql", Bool feature_mysql);
    ("postgres", Bool feature_postgres); ("firebird", Bool false); ("headlessMode", Bool true)]).

(*| src-tauri/src/internal_api/routes.rs 240-265 logs *)
Definition api_logs : St W api_reply :=
  conn ← db_open (is_db_path st);
  items ← match conn with Ok conn => db_last_logs conn | Err e => mret (Err e) end;
  mret (JsonReply 200 (Object [("items", Array (unwrap_or [] (ok items)))])).

(*| src-tauri/src/internal_api/routes.rs 267-273 openapi *)
Definition api_openapi : api_reply :=
  JsonReply 200 (openapi_json (sec_token_header sec) (sec_require_token sec)
                   (docs_path (ia_docs config))).

(** The token of the page's link is not trimmed. *)
(*| src-tauri/src/internal_api/routes.rs 275-286 scalar_docs *)
Definition api_scalar_docs (req : request) : api_reply :=
  HtmlReply (scalar_html (rq_path req) (query_token (rq_query req))).

Definition handle (e : endpoint) (req : request) : St W api_reply :=
  match e with
  | Command => run_command req
  | Version => mret api_version
  | Status => mret api_status
  | AppMeta => mret api_app_meta
  | Features => mret api_features
  | Logs => api_logs
  | Root => mret api_root
  | Health => api_health
  | Openapi => mret api_openapi
  | ScalarDocs => mret (api_scalar_docs req)
  end.

(** The route of a request. *)
Definition find_route (req : request) : option (endpoint * bool) :=
  snd <$> list_find (fun r => bool_decide (fst r = (rq_method req, rq_path req))) (router config).

(** A request the table has a route for, served. *)
(*| src-tauri/src/internal_api/routes.rs 33-88 router *)
Definition serve (req : request) : St W (option api_reply) :=
  match find_route req with
  | None => mret None
  | Some (e, guarded) =>
      r ← (if guarded then token_guard config req (handle e req) else handle e req);
      mret (Some r)
  end.

End Handlers.

(** ** Properties *)

Section Access.
Context `{HR : HttpRequests} `{BI : BuildInfo} {W : Type} `{AW : ApiWorld W}.

(** The token of a request is the configured one, which is not blank. *)
Definition authorized (config : InternalApiConfig) (req : request) : bool :=
  negb (is_empty (configured_token config))
  && header_name_ok (sec_token_header (ia_security config))
  && String.eqb (received_token config req) (configured_token config).

(** What is served without a token: the start page, the health check, and the
    documentation when the settings make it public for the bound host. *)
Definition public_endpoint (config : InternalApiConfig) (e : endpoint) : bool :=
  match e with
  | Root | Health => true
  | Openapi | ScalarDocs => docs_are_public_for_current_bind config
  | _ => false
  end.

Lemma guard_authorized config req next w :
  sec_require_token (ia_security config) = true -> authorized config req = true ->
  token_guard config req next w = next w.
Proof.
  unfold authorized, token_guard. intros -> [[H1 H2]%andb_true_iff H3]%andb_true_iff.
  apply negb_true_iff in H1. by rewrite H1, H2, H3.
Qed.

Lemma guard_refused config req next w :
  sec_require_token (ia_security config) = true -> authorized config req = false ->
  exists status body, token_guard config req next w = (JsonReply status body, w) /\
    (status = 503 <-> configured_token config = "")%N /\ status ∈ [503; 500; 401]%N.
Proof.
  unfold authorized, token_guard. intros -> H. cbn [negb].
  destruct (is_empty (configured_token config)) eqn:E1.
  - apply is_empty_spec in E1. eexists _, _. split_and!; [reflexivity|done|by left].
  - assert (configured_token config <> "") as Hne by (intros Hn; by rewrite Hn in E1).
    destruct (header_name_ok _); cbn [negb andb] in *.
    + rewrite H. eexists _, _. split_and!; [reflexivity|done|set_solver].
    + eexists _, _. split_and!; [reflexivity|done|set_solver].
Qed.

Lemma router_guards config r e guarded :
  sec_require_token (ia_security config) = true ->
  (r, (e, guarded)) ∈ router config -> guarded = negb (public_endpoint config e).
Proof.
  unfold router. rewrite !elem_of_app, !list_elem_of_In. intros Hreq [H|[H|H]].
  - apply in_map_iff in H as ([r' e'] & [= <- <- <-] & Hin). cbn in Hin.
    destruct_or!; by simplify_eq.
  - apply in_map_iff in H as ([r' e'] & [= <- <- <-] & Hin). cbn in Hin.
    destruct_or!; by simplify_eq.
  - destruct (ia_expose_docs config); [|done].
    apply in_map_iff in H as ([r' e'] & [= <- <- <-] & Hin). unfold docs_guarded.
    rewrite Hreq. cbn in Hin. destruct_or!; by simplify_eq.
Qed.

Lemma find_route_guard st req e guarded :
  sec_require_token (ia_security (is_config st)) = true ->
  find_route st req = Some (e, guarded) ->
  guarded = negb (public_endpoint (is_config st) e).
Proof.
  unfold find_route. intros Hreq. destruct (list_find _ _) as [[r [e' g]]|] eqn:E; [|done].
  intros [= -> ->]. apply list_find_Some in E as [E _]. by eapply router_guards.
Qed.

(** C8. With tokens required, the handlers of the internal API run only for a
    request that carries the configured token, and a blank configured token
    admits nobody: the only exceptions are the start page, the health check and,
    if the settings say so, the documentation. A refused request reaches no
    handler and changes nothing. *)
Theorem internal_api_access env st run_command req w :
  sec_require_token (ia_security (is_config st)) = true ->
  match find_route st req with
  | None => serve env st run_command req w = (None, w)
  | Some (e, _) =>
      if public_endpoint (is_config st) e || authorized (is_config st) req
      then exists r w', handle env st run_command e req w = (r, w') /\
             serve env st run_command req w = (Some r, w')
      else exists status body, serve env st run_command req w = (Some (JsonReply status body), w) /\
             (status = 503 <-> configured_token (is_config st) = "")%N /\ status ∈ [503; 500; 401]%N
  end.
Proof.
  intros Hreq. unfold serve. destruct (find_route st req) as [[e guarded]|] eqn:E; [|done].
  apply find_route_guard in E as ->; [|done]. unfold mbind, st_bind.
  destruct (public_endpoint _ e) eqn:Ep; cbn [negb orb].
  - destruct (handle env st run_command e req w) as [r w'] eqn:Eh. eauto.
  - destruct (authorized _ req) eqn:Ea.
    + rewrite guard_authorized by done.
      destruct (handle env st run_command e req w) as [r w'] eqn:Eh. eauto.
    + destruct (guard_refused (is_config st) req (handle env st run_command e req) w Hreq Ea)
        as (status & body & -> & Hs). eauto.
Qed.
End Access.

(** The paths every instance answers GET requests on. *)
Definition fixed_paths : list string :=
  let base := ["/"; "/health"; "/version"; "/status"; "/app/meta"; "/features"; "/logs";
               "/openapi.json"] in
  (base ++ map (String.append "/__internal_api") base)%list.

Definition fixed_routes : list (route_method * string) :=
  map fst (public_routes ++ protected_routes ++ both RGet "/openapi.json" Openapi)%list.

Lemma fixed_routes_get p : (RGet, p) ∈ fixed_routes <-> p ∈ fixed_paths.
Proof.
  rewrite !list_elem_of_In. cbn. split; intros H; destruct_or!; simplify_eq; eauto 25.
Qed.

Lemma fixed_paths_prefix p : "/__internal_api" ++ p ∈ fixed_paths -> p ∈ fixed_paths.
Proof.
  rewrite !list_elem_of_In. intros H. pose proof (strip_prefix_app "/__internal_api" p) as Hs.
  set (t := "/__internal_api" ++ p) in *. clearbody t. cbn in H.
  destruct_or!; try done; subst t; cbn in Hs; try discriminate Hs; injection Hs as <-; cbn;
    eauto 25.
Qed.

Lemma prefix_ne (p : string) : p <> "/__internal_api" ++ p.
Proof. intros H. apply (f_equal String.length) in H. rewrite string_app_length in H. cbn in H. lia. Qed.

(** The router accepts its routes unless the configured documentation path is
    one of its own paths: "/" and "/health" are accepted by the settings and
    make the server thread fail. *)
Theorem internal_routes_routable config :
  ia_expose_docs config = true -> starts_with "/" (docs_path (ia_docs config)) = true ->
  routable (map fst (router config)) <-> docs_path (ia_docs config) ∉ fixed_paths.
Proof.
  intros He Hp. set (p := docs_path (ia_docs config)) in *.
  assert (map fst (router config)
          = app fixed_routes [(RGet, p); (RGet, "/__internal_api" ++ p)]) as Hr by (unfold router; rewrite He; reflexivity).
  unfold routable. rewrite Hr. split.
  - intros [_ H] Hin. apply NoDup_app in H as (_ & H & _).
    apply (H (RGet, p)); [by apply fixed_routes_get|left].
  - intros Hn. split.
    + apply Forall_app. split; [by repeat constructor|]. by repeat constructor.
    + apply NoDup_app. split_and!.
      * apply (bool_decide_unpack _). vm_compute. exact I.
      * intros [[] q] Hq; [|intros H; repeat (apply elem_of_cons in H as [H|H]; [done|]);
          by apply not_elem_of_nil in H].
        apply fixed_routes_get in Hq. intros H.
        apply elem_of_cons in H as [[= ->]|H]; [done|].
        apply elem_of_cons in H as [[= ->]|H]; [by apply Hn, fixed_paths_prefix|].
        by apply not_elem_of_nil in H.
      * constructor; [|apply NoDup_singleton]. intros H%list_elem_of_singleton.
        injection H as H. by apply prefix_ne in H.
Qed.
