(* ===== verification/Licensing.v ===== *)
(** * Licensing commands: commands/licensing.rs

    The licensing settings stored as one JSON text, the input of a licence
    check built from them, and the trial licence kept in the database. The
    check itself is the service of [LicenseService]. SQLite's clock, the text of
    a date of the licensing service and the host are parameters. *)

From S2P Require Import Prelude RustStr Json Payload LicenseModels LicenseClient LicenseDevice.
From S2P Require Import LicenseRegistration LicenseService.
From S2P Require Import Security NetAddr NetBind RuntimeSettings ServiceConfigs RuntimeStore.
From S2P Require Import AppLog Accounts AccessTables Auth Access Support InternalRoutes.

#[local] Open Scope string_scope.
#[local] Open Scope tunnara_scope.

(** [datetime('now')] *)
Class SqlClock (W : Type) : Type := { sql_now : St W string }.
(** serde's text of a [DateTime<FixedOffset>] *)
Class ChronoText `{CH : Chrono} : Type := { dt_text : datetime -> string }.

(*| src-tauri/src/commands/licensing.rs 19-19 LICENSE_SETTINGS_KEY *)
Definition LICENSE_SETTINGS_KEY : string := "licensing_settings".

(** ** Statements *)

(** The company of an id, or the one with the least id: id, document, name and
    e-mail. *)
(*| src-tauri/src/commands/licensing.rs 25-39 company_seed *)
Definition seed_company (empresa_id : option Z) (t : Accounts) : option Empresa :=
  match empresa_id with
  | Some id => list_find (fun e => (e_id e =? id)%Z) (acc_companies t)
  | None => head (sort_by (fun a b => (e_id a <=? e_id b)%Z) (acc_companies t))
  end.

(** A column that is NULL is not a text. *)
(*| src-tauri/src/commands/licensing.rs 79-86 load_settings_from_db *)
Definition stored_settings (t : Accounts) : result string (option string * Accounts) :=
  match list_find (fun c => String.eqb (cf_nome c) LICENSE_SETTINGS_KEY) (acc_config t) with
  | None => Ok (None, t)
  | Some c => match cf_valor c with
              | Some raw => Ok (Some raw, t)
              | None => Err "Invalid column type Null at index: 0, name: valor"
              end
  end.

(*| src-tauri/src/commands/licensing.rs 104-108 save_settings_to_db *)
Definition upsert_config (nome valor now : string) : Accounts -> Accounts :=
  let row := {| cf_nome := nome; cf_valor := Some valor; cf_updated_at := now |} in
  with_config (fun l =>
    if existsb (fun c => String.eqb (cf_nome c) nome) l
    then update_where (fun c => String.eqb (cf_nome c) nome) (fun _ => row) l
    else (l ++ [row])%list).

(*| src-tauri/src/commands/licensing.rs 222-226 trial_license_row *)
Definition license_of_company (empresa_id : Z) (t : Accounts) : option LocalLicense :=
  list_find (fun l => (ll_empresa_id l =? empresa_id)%Z) (acc_licenses t).

(*| src-tauri/src/commands/licensing.rs 492-498 licensing_start_trial *)
Definition license_by_id (id : Z) (t : Accounts) : option LocalLicense :=
  list_find (fun l => (ll_id l =? id)%Z) (acc_licenses t).

(** One licence for each company, which has to exist. *)
(*| src-tauri/src/commands/licensing.rs 474-489 licensing_start_trial *)
Definition insert_license (empresa_id : Z) (cnpj issued_at expires_at fingerprint encrypted hash : string)
    (t : Accounts) : result string (Z * Accounts) :=
  if existsb (fun l => (ll_empresa_id l =? empresa_id)%Z) (acc_licenses t)
  then Err "UNIQUE constraint failed: local_licenses.empresa_id"
  else if negb (existsb (fun e => (e_id e =? empresa_id)%Z) (acc_companies t)) then Err fk_failed
  else id ← next_rowid (sq_licenses (acc_seq t)) (map ll_id (acc_licenses t));
       Ok (id, with_seq {| sq_users := sq_users (acc_seq t); sq_profiles := sq_profiles (acc_seq t);
                           sq_companies := sq_companies (acc_seq t); sq_licenses := id |}
         (with_licenses (fun l => l ++ [{|
            ll_id := id; ll_empresa_id := empresa_id; ll_cnpj := cnpj; ll_license_kind := "trial";
            ll_status := "active"; ll_issued_at := issued_at; ll_expires_at := expires_at;
            ll_fingerprint := Some fingerprint; ll_payload_encrypted := Some encrypted;
            ll_integrity_hash := Some hash; ll_created_at := issued_at;
            ll_updated_at := issued_at |}])%list t)).

(*| src-tauri/src/commands/licensing.rs 222-227 trial_license_row *)
Definition license_row (l : LocalLicense) : members :=
  [("id", json_i64 (ll_id l)); ("empresa_id", json_i64 (ll_empresa_id l));
   ("cnpj", String_ (ll_cnpj l)); ("license_kind", String_ (ll_license_kind l));
   ("status", String_ (ll_status l)); ("issued_at", String_ (ll_issued_at l));
   ("expires_at", String_ (ll_expires_at l)); ("fingerprint", opt_json (ll_fingerprint l));
   ("payload_encrypted", opt_json (ll_payload_encrypted l));
   ("integrity_hash", opt_json (ll_integrity_hash l)); ("created_at", String_ (ll_created_at l));
   ("updated_at", String_ (ll_updated_at l))].

(** ** Settings *)

(** Insert the members of an object, one after another. *)
Definition obj_extend (m saved : members) : members :=
  fold_left (fun m '(k, v) => obj_insert k v m) saved m.

(*| src-tauri/src/commands/licensing.rs 45-76 default_license_settings *)
Definition default_license_settings (env : Env) (host : HostInfo) : members :=
  [("service_url", String_ (cfg_base_url config_default)); ("company_name", String_ "");
   ("company_document", String_ ""); ("company_email", String_ "");
   ("station_name", String_ (default_device_name host));
   ("machine_key", String_ (machine_key env)); ("app_instance", String_ "app-template");
   ("auto_register_machine", Bool true); ("auto_register_requested_licenses", Null);
   ("auto_register_validation_mode", String_ "standard");
   ("auto_register_interface_mode", String_ "interactive");
   ("auto_register_device_identifier", String_ ""); ("licensing_disabled", Bool false)].

Definition protected_keys : list string :=
  ["service_url"; "app_instance"; "auto_register_validation_mode"; "auto_register_interface_mode";
   "auto_register_device_identifier"; "auto_register_requested_licenses"].
Definition MASK : value := String_ "[protegido]".

(*| src-tauri/src/commands/licensing.rs 112-128 mask_protected_settings *)
Definition mask_protected_settings (settings : members) : members :=
  obj_insert "protected" (Bool true)
    (fold_left (fun masked key =>
       if contains_key key masked then obj_insert key MASK masked else masked)
     protected_keys settings).

(*| src-tauri/src/commands/licensing.rs 130-140 get_bool *)
Definition setting_bool (m : members) (key : string) (default : bool) : bool :=
  match obj_get key m with
  | Some (Bool flag) => flag
  | Some (Number number) => negb (unwrap_or 0 (number_as_i64 number) =? 0)%Z
  | Some (String_ text) => existsb (String.eqb (to_lowercase (trim text))) ["1"; "true"; "sim"; "yes"]
  | _ => default
  end.

(** The reader of [commands/access.rs], repeated. *)
(*| src-tauri/src/commands/licensing.rs 142-155 get_string *)
Definition setting_string : members -> string -> option string := get_string.

(** [as u32] keeps the low 32 bits. *)
(*| src-tauri/src/commands/licensing.rs 208-216 map_requested_licenses *)
Definition map_requested_licenses (settings : members) : option N :=
  value ← obj_get "auto_register_requested_licenses" settings;
  match value with
  | Number number => as_u32_cast <$> number_as_u64 number
  | String_ text => parse_u32 (trim text)
  | _ => None
  end.

(** The input before the device key. *)
(*| src-tauri/src/commands/licensing.rs 163-203 build_check_input *)
Definition bare_check_input `{BI : BuildInfo} (settings : members) (documento nome : string)
    (email : option string) : LicenseCheckInput := {|
  in_company_document := unwrap_or documento (setting_string settings "company_document");
  in_company_name := or_else (setting_string settings "company_name") (Some nome);
  in_company_email := or_else (setting_string settings "company_email") email;
  in_company_legal_name := Some nome;
  in_app_id := "tunnara-console"; in_app_name := "Tunnara Console";
  in_app_version := cargo_pkg_version;
  in_app_slug := Some (unwrap_or "app-template" (setting_string settings "app_instance"));
  in_device_key := None; in_device_name := None;
  in_station_name := setting_string settings "station_name";
  in_hostname := None; in_computer_name := None; in_serial_number := None;
  in_machine_guid := None; in_bios_serial := None; in_motherboard_serial := None;
  in_logged_user := None; in_os_name := None; in_os_version := None; in_os_arch := None;
  in_domain_name := None; in_mac_addresses := []; in_install_mode := None;
  in_registration_file_content_b64 := None; in_registration_file_path := None;
  in_registration_file_verified := None;
  in_allow_company_auto_create := Some (setting_bool settings "auto_register_machine" true);
  in_allow_device_auto_create := Some (setting_bool settings "auto_register_machine" true);
  in_allow_device_auto_update := Some true;
  in_requested_licenses := map_requested_licenses settings;
  in_device_identifier := setting_string settings "auto_register_device_identifier";
  in_validation_mode := setting_string settings "auto_register_validation_mode";
  in_interface_mode := setting_string settings "auto_register_interface_mode";
  in_local_license_mode := None; in_metadata := []; in_login_context := false |}.

(*| src-tauri/src/commands/licensing.rs 157-206 build_check_input *)
Definition build_check_input `{BI : BuildInfo} `{HA : Hashing} (settings : members)
    (documento nome : string) (email : option string) : LicenseCheckInput :=
  let input := bare_check_input settings documento nome email in
  with_device_key (Some (generate_device_key input)) input.

(** [LicenseConfig { cache_namespace, base_url, ..LicenseConfig::default() }] *)
(*| src-tauri/src/commands/licensing.rs 386-392 licensing_check_runtime *)
Definition runtime_config (settings : members) (empresa_id : Z) : LicenseConfig := {|
  cfg_base_url := unwrap_or (cfg_base_url config_default) (setting_string settings "service_url");
  cfg_api_token := cfg_api_token config_default;
  cfg_resolve_activation_endpoint := cfg_resolve_activation_endpoint config_default;
  cfg_status_endpoint := cfg_status_endpoint config_default;
  cfg_register_company_endpoint := cfg_register_company_endpoint config_default;
  cfg_register_device_endpoint := cfg_register_device_endpoint config_default;
  cfg_update_device_endpoint := cfg_update_device_endpoint config_default;
  cfg_offline_max_age_days := cfg_offline_max_age_days config_default;
  cfg_warn_before_expiration_in_days := cfg_warn_before_expiration_in_days config_default;
  cfg_auto_register_company_on_missing := cfg_auto_register_company_on_missing config_default;
  cfg_auto_register_device_on_missing := cfg_auto_register_device_on_missing config_default;
  cfg_auto_update_device_name := cfg_auto_update_device_name config_default;
  cfg_block_on_company_blocked := cfg_block_on_company_blocked config_default;
  cfg_block_on_device_blocked := cfg_block_on_device_blocked config_default;
  cfg_block_on_device_missing := cfg_block_on_device_missing config_default;
  cfg_block_on_expired := cfg_block_on_expired config_default;
  cfg_cache_namespace := "app-template-" ++ show_Z empresa_id;
  cfg_prefer_resolve_activation := cfg_prefer_resolve_activation config_default;
  cfg_allow_legacy_fallback := cfg_allow_legacy_fallback config_default;
  cfg_enable_registration_file_lookup := cfg_enable_registration_file_lookup config_default;
  cfg_registration_file_names := cfg_registration_file_names config_default;
  cfg_registration_file_extra_paths := cfg_registration_file_extra_paths config_default;
  cfg_registration_public_key_base64 := cfg_registration_public_key_base64 config_default |}.

(** ** serde's JSON of the records *)

(*| generic-license-tauri/src/device.rs 8-24 DeviceCollectedInfo *)
Definition device_info_json (i : DeviceCollectedInfo) : members :=
  [("station_name", String_ (info_station_name i)); ("hostname", String_ (info_hostname i));
   ("computer_name", String_ (info_computer_name i)); ("serial_number", String_ (info_serial_number i));
   ("machine_guid", String_ (info_machine_guid i)); ("bios_serial", String_ (info_bios_serial i));
   ("motherboard_serial", String_ (info_motherboard_serial i));
   ("logged_user", String_ (info_logged_user i)); ("os_name", String_ (info_os_name i));
   ("os_version", String_ (info_os_version i)); ("os_arch", String_ (info_os_arch i));
   ("domain_name", String_ (info_domain_name i));
   ("mac_addresses", Array (map String_ (info_mac_addresses i)));
   ("install_mode", String_ (info_install_mode i))].

(*| generic-license-tauri/src/models.rs 51-77 DeviceRecord *)
Definition device_record_json (d : DeviceRecord) : value :=
  Object [("id", opt_json (dev_id d)); ("device_key", opt_json (dev_device_key d));
    ("device_name", opt_json (dev_device_name d)); ("station_name", opt_json (dev_station_name d));
    ("hostname", opt_json (dev_hostname d)); ("computer_name", opt_json (dev_computer_name d));
    ("serial_number", opt_json (dev_serial_number d)); ("machine_guid", opt_json (dev_machine_guid d));
    ("bios_serial", opt_json (dev_bios_serial d));
    ("motherboard_serial", opt_json (dev_motherboard_serial d));
    ("logged_user", opt_json (dev_logged_user d)); ("os_name", opt_json (dev_os_name d));
    ("os_version", opt_json (dev_os_version d)); ("os_arch", opt_json (dev_os_arch d));
    ("domain_name", opt_json (dev_domain_name d));
    ("mac_addresses", Array (map String_ (dev_mac_addresses d)));
    ("install_mode", opt_json (dev_install_mode d)); ("blocked", Bool (dev_blocked d));
    ("reused_existing", Bool (dev_reused_existing d)); ("bound", Bool (dev_bound d))].

Definition json_of {A} (f : A -> value) (o : option A) : value :=
  match o with Some a => f a | None => Null end.

(*| generic-license-tauri/src/models.rs 31-39 CompanyRecord *)
Definition company_record_json (c : CompanyRecord) : value :=
  Object [("id", opt_json (com_id c)); ("document", opt_json (com_document c));
    ("legal_name", opt_json (com_legal_name c)); ("email", opt_json (com_email c));
    ("reused_existing", Bool (com_reused_existing c))].

(*| generic-license-tauri/src/models.rs 84-89 DiagnosticItem *)
Definition diagnostic_json (d : DiagnosticItem) : value :=
  Object [("step", String_ (diag_step d)); ("code", String_ (diag_code d));
    ("message", String_ (diag_message d))].

Section DecisionJson.
Context `{CT : ChronoText}.

Definition date_json : option datetime -> value := json_of (fun d => String_ (dt_text d)).

(*| generic-license-tauri/src/models.rs 13-29 LicenseRecord *)
Definition license_record_json (l : LicenseRecord) : value :=
  Object [("document", opt_json (lic_document l)); ("company_name", opt_json (lic_company_name l));
    ("company_email", opt_json (lic_company_email l)); ("blocked", Bool (lic_blocked l));
    ("active", Bool (lic_active l)); ("expires_at", date_json (lic_expires_at l));
    ("max_devices", json_opt_u32 (lic_max_devices l));
    ("devices_in_use", json_opt_u32 (lic_devices_in_use l));
    ("devices_available", json_opt_u32 (lic_devices_available l));
    ("application_slug", opt_json (lic_application_slug l));
    ("devices", Array (map device_record_json (lic_devices l)))].

(*| generic-license-tauri/src/models.rs 41-49 ApplicationLicenseRecord *)
Definition application_license_json (a : ApplicationLicenseRecord) : value :=
  Object [("application_slug", opt_json (app_application_slug a)); ("status", opt_json (app_status a));
    ("max_devices", json_opt_u32 (app_max_devices a));
    ("devices_in_use", json_opt_u32 (app_devices_in_use a));
    ("devices_available", json_opt_u32 (app_devices_available a));
    ("expires_at", date_json (app_expires_at a))].

(*| generic-license-tauri/src/models.rs 173-190 LicenseDecision *)
Definition decision_json (d : LicenseDecision) : value :=
  Object [("allowed", Bool (d_allowed d)); ("decision", String_ (d_decision d));
    ("reason_code", opt_json (d_reason_code d)); ("step", opt_json (d_step d));
    ("message", String_ (d_message d)); ("used_offline_cache", Bool (d_used_offline_cache d));
    ("warning", opt_json (d_warning d)); ("license", json_of license_record_json (d_license d));
    ("application_license", json_of application_license_json (d_application_license d));
    ("company", json_of company_record_json (d_company d));
    ("device", json_of device_record_json (d_device d));
    ("offline", json_of (fun o => Object [("cache_allowed_until", date_json (cache_allowed_until o))])
       (d_offline d));
    ("diagnostics", Array (map diagnostic_json (d_diagnostics d))); ("source", String_ (d_source d))].
End DecisionJson.

(** ** The trial licence *)

(*| src-tauri/src/commands/licensing.rs 232-251 attach_decrypted_payload *)
Definition attach_decrypted_payload `{CR : Crypto} (row : members) (cnpj : string) : members :=
  let encrypted := unwrap_or "" (v ← obj_get "payload_encrypted" row; as_str v) in
  let decrypted :=
    if is_empty encrypted then None
    else match decrypt_text cnpj encrypted with Ok text => Some text | Err _ => None end in
  obj_insert "is_trial"
    (Bool match v ← obj_get "license_kind" row; as_str v with
          | Some kind => String.eqb kind "trial"
          | None => false
          end)
    (obj_insert "payload_decrypted" (opt_json decrypted) row).

(*| src-tauri/src/commands/licensing.rs 460-469 licensing_start_trial *)
Definition trial_payload (env : Env) (empresa_id : Z) (nome cnpj issued_at expires_at : string) : value :=
  Object [("empresa_id", json_i64 empresa_id); ("empresa_nome", String_ nome); ("cnpj", String_ cnpj);
    ("kind", String_ "trial"); ("issued_at", String_ issued_at); ("expires_at", String_ expires_at);
    ("machine_key", String_ (machine_key env)); ("days", json_i64 45)].

(*| src-tauri/src/commands/licensing.rs 373-380 licensing_check_runtime *)
Definition disabled_decision : value :=
  Object [("allowed", Bool true); ("decision", String_ "allowed");
    ("reason_code", String_ "LICENSING_DISABLED"); ("step", String_ "settings");
    ("message", String_ "Licenciamento desabilitado na configuração da aplicação.");
    ("source", String_ "settings")].

(** ** Commands *)

Section Licensing.
Context {W : Type} `{LO : LogOs W} `{ST : !Statements W} `{CR : Crypto} `{RN : !Randomness W}
  `{AW : !AuthWorld W} `{SC : !SqlClock W} `{JT : JsonText} `{BI : BuildInfo}.
Context `{LW : LicenseWorld W} `{HA : Hashing} `{HC : !HttpClient W} `{CP : !ChronoParse}
  `{RC : RegistrationCrypto} `{CT : !ChronoText}.
Context (state : SharedState) (env : Env) (host : HostInfo) (rhost : RegistrationHost).

(*| src-tauri/src/commands/licensing.rs 21-43 company_seed *)
Definition company_seed (empresa_id : option Z) :
    St db (result string (Z * string * string * option string)) :=
  found ←? select "Falha ao localizar empresa para licenciamento" (seed_company empresa_id);
  e ←? require found "Cadastre ao menos uma empresa para utilizar o licenciamento.";
  mret (Ok (e_id e, unwrap_or "" (e_documento e), e_nome e, e_email e)).

(*| src-tauri/src/commands/licensing.rs 78-97 load_settings_from_db *)
Definition load_settings_from_db : St db (result string members) :=
  existing ←? statement "Falha ao consultar configuração de licenciamento" stored_settings;
  mret (Ok (match existing ≫= json_of_text with
            | Some (Object saved) => obj_extend (default_license_settings env host) saved
            | _ => default_license_settings env host
            end)).

(*| src-tauri/src/commands/licensing.rs 99-111 save_settings_to_db *)
Definition save_settings_to_db (settings : members) : St db (result string unit) :=
  now ← lift sql_now;
  execute "Falha ao salvar configuração de licenciamento"
    (upsert_config LICENSE_SETTINGS_KEY (json_to_string (Object settings)) now).

(*| src-tauri/src/commands/licensing.rs 218-230 trial_license_row *)
Definition trial_license_row (empresa_id : Z) : St db (result string (option members)) :=
  select "Falha ao consultar licença local"
    (fun t => license_row <$> license_of_company empresa_id t).

(*| src-tauri/src/commands/licensing.rs 254-272 licensing_load_settings *)
Definition licensing_load_settings (session_token : string) (admin_unlock_token : option string) :
    St db (result string members) :=
  _ ←? open_db state;
  identity ←? require_session_by_token session_token;
  settings ←? load_settings_from_db;
  match admin_unlock_token with
  | Some token =>
      if si_master_user identity then
        unlocked ← require_admin_unlock (si_user_id identity) token "licensing";
        mret (Ok (if is_ok unlocked then settings else mask_protected_settings settings))
      else mret (Ok (mask_protected_settings settings))
  | None => mret (Ok (mask_protected_settings settings))
  end.

(*| src-tauri/src/commands/licensing.rs 275-311 licensing_save_settings *)
Definition licensing_save_settings (session_token admin_unlock_token : string) (payload : members) :
    St db (result string members) :=
  app ←? open_app state;
  identity ←? require_session_by_token session_token;
  _ ←? guard_ (si_master_user identity)
    "Apenas usuário master pode alterar configurações de licenciamento.";
  _ ←? require_admin_unlock (si_user_id identity) admin_unlock_token "licensing";
  let settings := obj_extend (default_license_settings env host) payload in
  _ ←? save_settings_to_db settings;
  _ ←? audit (fst app) "licensing_settings" "update" None (Object settings);
  _ ←? log_command app "warning" "licensing" "Configurações sensíveis de licenciamento atualizadas."
    (Some (Object [("usuario_id", json_i64 (si_user_id identity))]));
  mret (Ok settings).

(*| src-tauri/src/commands/licensing.rs 314-331 licensing_device_info *)
Definition licensing_device_info (session_token : string) : St db (result string members) :=
  _ ←? open_db state;
  _ ←? require_session_by_token session_token;
  mret (Ok (obj_insert "device_key" (String_ (machine_key env))
              (device_info_json (collect_device_metadata host)))).

(** The licence of the company as a member of the reply. *)
(*| src-tauri/src/commands/licensing.rs 359-366 licensing_check_runtime *)
Definition local_license (empresa_id : Z) (documento : string) : St db (result string value) :=
  row ←? trial_license_row empresa_id;
  mret (Ok match row with
           | Some local => Object (attach_decrypted_payload local documento)
           | None => Null
           end).

(** The members common to the two reports. *)
(*| src-tauri/src/commands/licensing.rs 346-357 licensing_check_runtime *)
Definition report_head (empresa_id : Z) (nome documento : string) (settings : members) : members :=
  [("empresa_id", json_i64 empresa_id); ("empresa_nome", String_ nome); ("cnpj", String_ documento);
   ("machine_key", String_ (machine_key env));
   ("settings", Object (mask_protected_settings settings))].

(** A check that is to be made: its input, its configuration, and the reply so
    far. *)
Record pending : Type := {
  pe_input : LicenseCheckInput;
  pe_config : LicenseConfig;
  pe_report : members;
}.

(** The command up to the call of the service. *)
(*| src-tauri/src/commands/licensing.rs 339-393 licensing_check_runtime *)
Definition prepare_runtime (session_token : string) (empresa_id : option Z) :
    St db (result string (members + pending)) :=
  _ ←? open_db state;
  _ ←? require_session_by_token session_token;
  settings ←? load_settings_from_db;
  seed ←? company_seed empresa_id;
  let '(id, documento, nome, email) := seed in
  local ←? local_license id documento;
  let report := (report_head id nome documento settings ++ [("local_license", local)])%list in
  mret (Ok (if setting_bool settings "licensing_disabled" false
    then inl (report ++ [("mode", String_ "disabled"); ("allowed", Bool true);
                         ("decision", disabled_decision)])%list
    else inr {| pe_input := build_check_input settings documento nome email;
                pe_config := runtime_config settings id; pe_report := report |})).

(** The service, with the number of registrations it may go through; [None] is
    a check that has not returned. *)
(*| src-tauri/src/commands/licensing.rs 334-401 licensing_check_runtime *)
Definition licensing_check_runtime (fuel : nat) (session_token : string) (empresa_id : option Z) :
    St db (option (result string members)) :=
  prepared ← prepare_runtime session_token empresa_id;
  match prepared with
  | Err e => mret (Some (Err e))
  | Ok (inl report) => mret (Some (Ok report))
  | Ok (inr p) =>
      decision ← lift (check host rhost (pe_config p) fuel (pe_input p));
      mret ((fun r => match r with
        | Err err => Err (show_error err)
        | Ok d => Ok (pe_report p ++ [("mode", String_ "generic-license-tauri");
                        ("allowed", Bool (d_allowed d)); ("decision", decision_json d)])%list
        end) <$> decision)
  end.

(*| src-tauri/src/commands/licensing.rs 404-435 licensing_status *)
Definition licensing_status (session_token : string) (empresa_id : option Z) :
    St db (result string members) :=
  _ ←? open_db state;
  _ ←? require_session_by_token session_token;
  settings ←? load_settings_from_db;
  seed ←? company_seed empresa_id;
  let '(id, documento, nome, _) := seed in
  license ←? local_license id documento;
  mret (Ok (report_head id nome documento settings ++ [("license", license)])%list).

(** The insert, and the row read back. *)
(*| src-tauri/src/commands/licensing.rs 458-516 licensing_start_trial *)
Definition create_trial (conn : db_conn) (now : instant) (empresa_id : Z) (documento nome : string) :
    St db (result string members) :=
  let cnpj := trim documento in
  let expires_at := to_rfc3339 (plus_days now 45) in
  let issued_at := to_rfc3339 now in
  let payload_str := json_to_string (trial_payload env empresa_id nome cnpj issued_at expires_at) in
  id ←? statement "Falha ao gravar licença de teste"
    (insert_license empresa_id cnpj issued_at expires_at (machine_key env)
       (encrypt_text cnpj payload_str) (integrity_hash cnpj payload_str));
  saved ←? select "Falha ao reler licença salva" (license_by_id id);
  saved ←? require saved "Falha ao reler licença salva: Query returned no rows";
  _ ←? audit conn "local_licenses" "create_trial" (Some id) (Object (license_row saved));
  _ ←? sync conn "local_licenses" "create_trial" (Some id) (Object (license_row saved));
  mret (Ok (attach_decrypted_payload (license_row saved) documento)).

(*| src-tauri/src/commands/licensing.rs 438-517 licensing_start_trial *)
Definition licensing_start_trial (session_token : string) (empresa_id : option Z) :
    St db (result string members) :=
  conn ←? open_db state;
  _ ←? require_session_by_token session_token;
  now ← lift utc_now;
  seed ←? company_seed empresa_id;
  let '(id, documento, nome, _) := seed in
  let cnpj := trim documento in
  _ ←? guard_ (negb (is_empty cnpj))
    "A licença de teste exige CNPJ/CPF cadastrado na empresa ativa.";
  existing ←? trial_license_row id;
  match existing with
  | Some row => mret (Ok (attach_decrypted_payload row cnpj))
  | None => create_trial conn now id documento nome
  end.
End Licensing.
