(* ===== verification/LicensingRules.v ===== *)
(** * What the licensing commands keep

    The protected settings, the trial licence of a company, and the device key
    of a check. *)

From S2P Require Import Prelude RustStr Utf8 Json Payload LicenseModels LicenseClient LicenseDevice.
From S2P Require Import LicenseRegistration LicenseService.
From S2P Require Import Security NetAddr NetBind RuntimeSettings ServiceConfigs RuntimeStore.
From S2P Require Import AppLog Accounts AccessTables Auth Access AccessRules Companies CompanyRules.
From S2P Require Import Support InternalRoutes Licensing.

#[local] Open Scope string_scope.
#[local] Open Scope tunnara_scope.

(** ** Settings *)

Lemma contains_get k m : contains_key k m = true <-> obj_get k m <> None.
Proof. unfold contains_key. by destruct (obj_get k m). Qed.

Lemma contains_insert k k' v m :
  contains_key k (obj_insert k' v m) = String.eqb k k' || contains_key k m.
Proof.
  unfold contains_key. destruct (String.eqb_spec k k') as [->|Hn]; [by rewrite obj_get_insert_eq|].
  by rewrite obj_get_insert_ne by congruence.
Qed.

(** Extending an object drops no member. *)
Lemma contains_extend k saved m :
  contains_key k m = true -> contains_key k (obj_extend m saved) = true.
Proof.
  unfold obj_extend. revert m. induction saved as [|[k' v] saved IH]; intros m H; cbn [fold_left]; [done|].
  apply IH. rewrite contains_insert, H. apply orb_true_r.
Qed.

(** The mask of a list of keys. *)
Definition mask_keys (keys : list string) (m : members) : members :=
  fold_left (fun m key => if contains_key key m then obj_insert key MASK m else m) keys m.

Lemma mask_keys_get keys m k :
  obj_get k (mask_keys keys m) =
  if existsb (String.eqb k) keys && contains_key k m then Some MASK else obj_get k m.
Proof.
  revert m. induction keys as [|key keys IH]; intros m; [done|]. unfold mask_keys in *.
  cbn [fold_left existsb]. rewrite IH.
  destruct (contains_key key m) eqn:E; destruct (String.eqb_spec k key) as [->|Hn]; cbn [orb].
  - rewrite contains_insert, String.eqb_refl, obj_get_insert_eq, E. by destruct (existsb _ _).
  - rewrite contains_insert, (proj2 (String.eqb_neq _ _) Hn). cbn [orb].
    by rewrite obj_get_insert_ne by congruence.
  - by rewrite E, !andb_false_r.
  - done.
Qed.

Lemma masked_get settings k : k <> "protected" ->
  obj_get k (mask_protected_settings settings) =
  if existsb (String.eqb k) protected_keys && contains_key k settings then Some MASK else obj_get k settings.
Proof.
  intros H. unfold mask_protected_settings. rewrite obj_get_insert_ne by congruence. apply mask_keys_get.
Qed.

Section Properties.
Context {W : Type} `{LO : LogOs W} `{ST : !Statements W} `{CR : Crypto} `{RN : !Randomness W}
  `{AW : !AuthWorld W} `{SC : !SqlClock W} `{JT : JsonText} `{BI : BuildInfo}.
Context `{LW : LicenseWorld W} `{HA : Hashing} `{HC : !HttpClient W} `{CP : !ChronoParse}
  `{RC : RegistrationCrypto} `{CT : !ChronoText}.
Context (state : SharedState) (env : Env) (host : HostInfo) (rhost : RegistrationHost).
Implicit Types s : db (W := W).

(** A live unlock session of a user for a scope, at some reading of the clock. *)
Definition unlocked (t : Accounts) (id : Z) (token scope : string) : Prop :=
  exists (w : W) ul, ul ∈ acc_unlocks t /\
    live_unlock id (trim token) scope (to_rfc3339 (fst (utc_now w))) ul = true.

Lemma require_admin_unlock_inv id token scope s r s' :
  require_admin_unlock id token scope s = (r, s') ->
  acc_config (fst s') = acc_config (fst s) /\ (is_ok r = true -> unlocked (fst s) id token scope).
Proof.
  unfold require_admin_unlock. destruct (is_empty (trim token)); [by intros [= <- <-]|].
  intros [(now & s1 & E1 & H)|(e & E1 & ->)]%try_inv; apply now_text_run in E1 as [Hn E1]; [|done].
  apply try_inv in H as [(o & s2 & E2 & H)|(e & E2 & ->)];
    [|apply select_tables in E2; split; [congruence|done]].
  apply select_inv in E2 as [-> E2]. injection Hn as ->.
  destruct (list_find _ _) as [ul|] eqn:El; [|injection H as <- <-; split; [congruence|done]].
  apply list_find_Some in El as [Hin Hl]. apply execute_tables in H.
  split; [rewrite H; case_match; cbn; congruence|]. intros _. exists (snd s), ul. by rewrite <- E1.
Qed.

(** A live session of an active master user. *)
Lemma session_master_session token s i s' :
  require_session_by_token token s = (Ok i, s') -> si_master_user i = true ->
  master_session token (fst s) (si_user_id i).
Proof.
  intros (ses & u & Hs & Hu & Ht & _ & He & Hid & Ha & -> & _)%require_session_inv Hm.
  cbn in *. apply Z.eqb_eq in Hm. by exists ses, u, (snd s).
Qed.

Lemma session_unlocks token s r s' : require_session_by_token token s = (r, s') ->
  acc_unlocks (fst s') = acc_unlocks (fst s) /\ acc_config (fst s') = acc_config (fst s).
Proof.
  intros H%require_session_inv. destruct r; cbn in H.
  - by destruct H as (? & ? & _ & _ & _ & _ & _ & _ & _ & _ & ->).
  - by rewrite H.
Qed.

Lemma stored_settings_reads t o t' : stored_settings t = Ok (o, t') -> t' = t.
Proof.
  unfold stored_settings. destruct (list_find _ _) as [c|]; [|by intros [= _ <-]].
  destruct (cf_valor c); [by intros [= _ <-]|done].
Qed.

Lemma license_settings_inv s m s' : load_settings_from_db env host s = (Ok m, s') ->
  fst s' = fst s /\ (exists saved, m = obj_extend (default_license_settings env host) saved) /\
  forall key, key ∈ protected_keys -> contains_key key m = true.
Proof.
  unfold load_settings_from_db. intros (o & s1 & E & H)%try_Ok.
  assert (fst s1 = fst s) as E1.
  { unfold statement in E. destruct (sql_fault _) as [[e|] w]; [done|].
    destruct (stored_settings (fst s)) as [[o' t]|] eqn:Es; [|done]. injection E as _ <-.
    by apply stored_settings_reads in Es. }
  injection H as <- <-. split; [done|].
  assert (exists saved, match o ≫= json_of_text with
    | Some (Object saved) => obj_extend (default_license_settings env host) saved
    | _ => default_license_settings env host end = obj_extend (default_license_settings env host) saved)
    as [saved ->] by (destruct (o ≫= json_of_text) as [[]|]; first [by eexists|by exists []]).
  split; [by exists saved|]. intros key Hk. apply contains_extend.
  unfold protected_keys in Hk. repeat (apply elem_of_cons in Hk as [->|Hk]; [done|]).
  by apply not_elem_of_nil in Hk.
Qed.

Lemma masked_hides m key :
  (forall key, key ∈ protected_keys -> contains_key key m = true) ->
  key ∈ protected_keys -> obj_get key (mask_protected_settings m) = Some MASK.
Proof.
  intros Hm Hk. rewrite masked_get.
  - rewrite (Hm _ Hk), andb_true_r. assert (existsb (String.eqb key) protected_keys = true) as ->; [|done].
    apply existsb_elem. exists key. by rewrite String.eqb_refl.
  - intros ->. unfold protected_keys in Hk. repeat (apply elem_of_cons in Hk as [?|Hk]; [done|]).
    by apply not_elem_of_nil in Hk.
Qed.

(** C12. The six protected settings are read only through an unlock: whoever
    loads the settings sees the mask in place of each of them, unless the
    session is a master's and the token opens a live unlock session of that
    user for the licensing scope. *)
Theorem protected_settings_hidden token unlock s m s' key :
  licensing_load_settings state env host token unlock s = (Ok m, s') -> key ∈ protected_keys ->
  obj_get key m = Some MASK \/
  exists id t, unlock = Some t /\ master_session token (fst s) id /\ unlocked (fst s) id t "licensing".
Proof.
  unfold licensing_load_settings. intros H Hk. apply try_Ok in H as (conn & s1 & E1 & H).
  apply open_db_tables in E1. apply try_Ok in H as (i & s2 & E2 & H).
  apply try_Ok in H as (settings & s3 & E3 & H). apply license_settings_inv in E3 as (E3 & _ & Hall).
  destruct unlock as [t|]; [|left; injection H as <- _; by apply masked_hides].
  destruct (si_master_user i) eqn:Em; [|left; injection H as <- _; by apply masked_hides].
  run_bind H r s4 as E4. apply require_admin_unlock_inv in E4 as [_ E4].
  destruct (is_ok r) eqn:Er; [|left; injection H as <- _; by apply masked_hides].
  right. exists (si_user_id i), t. split; [done|]. rewrite <- E1. split.
  - by eapply session_master_session.
  - apply session_unlocks in E2 as [E2 _]. destruct (E4 eq_refl) as (w & ul & Hin & Hl).
    exists w, ul. rewrite <- E2, <- E3. done.
Qed.

Lemma open_app_db s r s' : open_app state s = (r, s') ->
  acc_config (fst s') = acc_config (fst s) /\ fst s' = fst s.
Proof. intros ->%open_app_tables. done. Qed.

(** Nothing a save does before its write touches the settings, and reaching the
    write takes a master session and an unlock. *)
Lemma save_settings_inv token unlock payload s r s' :
  licensing_save_settings state env host token unlock payload s = (r, s') ->
  let settings := obj_extend (default_license_settings env host) payload in
  (is_ok r = false /\ acc_config (fst s') = acc_config (fst s)) \/
  (exists id now, master_session token (fst s) id /\ unlocked (fst s) id unlock "licensing" /\
   (is_ok r = true -> r = Ok settings) /\
   acc_config (fst s') = acc_config (upsert_config LICENSE_SETTINGS_KEY
     (json_to_string (Object settings)) now (fst s))).
Proof.
  cbv zeta. unfold licensing_save_settings.
  intros [(app & s1 & E1 & H)|(e & E1 & ->)]%try_inv; apply open_app_tables in E1;
    [|left; split; [done|congruence]].
  apply try_inv in H as [(i & s2 & E2 & H)|(e & E2 & ->)]; pose proof (session_unlocks _ _ _ _ E2) as [Hu Hc];
    [|left; split; [done|congruence]].
  apply try_inv in H as [([] & s3 & E3 & H)|(e & E3 & ->)]; injection E3 as E3 <-;
    [|left; split; [done|congruence]].
  destruct (si_master_user i) eqn:Em; [|done]. clear E3.
  apply try_inv in H as [([] & s4 & E4 & H)|(e & E4 & ->)];
    apply require_admin_unlock_inv in E4 as [E4 Hul]; [|left; split; [done|congruence]].
  apply session_master_session in E2 as Hm; [|done]. rewrite E1 in *.
  assert (unlocked (fst s) (si_user_id i) unlock "licensing") as Hunl.
  { destruct (Hul eq_refl) as (w & ul & Hin & Hl). exists w, ul. by rewrite <- Hu. }
  apply try_inv in H as [([] & s5 & E5 & H)|(e & E5 & ->)]; unfold save_settings_to_db in E5;
    run_bind E5 now s6 as E6; apply lift_tables in E6; apply execute_tables in E5; cbn [is_ok] in E5;
    [|left; split; [done|congruence]].
  right. exists (si_user_id i), now. split_and!; try done.
  - intros Hr. apply try_inv in H as [([] & s7 & E7 & H)|(e & E7 & ->)]; [|done].
    apply try_inv in H as [([] & s8 & E8 & H)|(e & E8 & ->)]; [by injection H as <- _|done].
  - assert (fst s' = fst s5) as ->.
    { revert H. match goal with |- ?c s5 = _ -> _ =>
        assert (preserves (fun t => t = fst s5) c) as Hp; [|intros H; by eapply Hp] end.
      unfold audit, log_command. keep. }
    assert (acc_config (fst s6) = acc_config (fst s)) as Hs by congruence.
    rewrite E5. unfold upsert_config, with_config. cbn. by rewrite Hs.
Qed.

(** The stored settings change only under an unlock: a save that wrote them,
    whatever it answered, had a live master session and a live unlock session of
    that user. What it answers is the payload over the factory settings: the
    settings stored before do not count. *)
Theorem settings_change_unlocked token unlock payload s r s' :
  licensing_save_settings state env host token unlock payload s = (r, s') ->
  acc_config (fst s') <> acc_config (fst s) ->
  (exists id, master_session token (fst s) id /\ unlocked (fst s) id unlock "licensing") /\
  (is_ok r = true -> r = Ok (obj_extend (default_license_settings env host) payload)).
Proof.
  intros [(_ & H)|(id & now & Hm & Hu & Hr & _)]%save_settings_inv Hne; [done|].
  split; [by exists id|done].
Qed.

Lemma find_replaced {A} (p : A -> bool) y l : p y = true -> existsb p l = true ->
  list_find p (update_where p (fun _ => y) l) = Some y.
Proof.
  intros Hy. induction l as [|x l IH]; [done|]. unfold update_where in *. cbn [existsb map list_find].
  destruct (p x) eqn:E; cbn [orb]; [by rewrite Hy|]. rewrite E. exact IH.
Qed.

Lemma find_snoc {A} (p : A -> bool) y l : p y = true -> existsb p l = false ->
  list_find p (l ++ [y])%list = Some y.
Proof.
  intros Hy. induction l as [|x l IH]; cbn; [by rewrite Hy|]. destruct (p x); [done|exact IH].
Qed.

Lemma upsert_config_stored nome valor now t :
  list_find (fun c => String.eqb (cf_nome c) nome) (acc_config (upsert_config nome valor now t)) =
  Some {| cf_nome := nome; cf_valor := Some valor; cf_updated_at := now |}.
Proof.
  unfold upsert_config, with_config. cbn [acc_config].
  assert (String.eqb nome nome = true) as Hn by apply String.eqb_refl.
  destruct (existsb _ _) eqn:E; [by apply find_replaced|by apply find_snoc].
Qed.

(** Inserting the members of an object in an object that has them already. *)
Lemma extend_get m saved k : NoDup (map fst saved) ->
  obj_get k (obj_extend m saved) = or_else (obj_get k saved) (obj_get k m).
Proof.
  unfold obj_extend. revert m. induction saved as [|[k' v] saved IH]; intros m; [done|].
  cbn [map fst fold_left]. intros [Hk Hn]%NoDup_cons. rewrite IH by done. cbn [obj_get].
  destruct (String.eqb_spec k k') as [->|Hne].
  - rewrite obj_get_insert_eq. assert (obj_get k' saved = None) as ->; [|done].
    clear -Hk. induction saved as [|[k v'] l IH]; [done|]. cbn in *.
    apply not_elem_of_cons in Hk as [? Hl]. rewrite (proj2 (String.eqb_neq _ _)) by congruence. by apply IH.
  - by rewrite obj_get_insert_ne by congruence.
Qed.

Lemma insert_keys k v m : NoDup (map fst m) -> NoDup (map fst (obj_insert k v m)).
Proof.
  assert (forall m, k ∉ map fst m -> map fst (obj_insert k v m) = map fst m ++ [k])%list as Hn.
  { clear m. induction m as [|[k' v'] m IH]; cbn; [done|]. intros [Hk Hm]%not_elem_of_cons.
    rewrite (proj2 (String.eqb_neq _ _)) by done. cbn. by rewrite IH. }
  assert (forall m, k ∈ map fst m -> map fst (obj_insert k v m) = map fst m) as Hi.
  { clear m. induction m as [|[k' v'] m IH]; cbn; [by intros ?%not_elem_of_nil|].
    intros Hk. destruct (String.eqb_spec k k') as [->|]; cbn; [done|]. f_equal. apply IH.
    by apply elem_of_cons in Hk as [?|?]. }
  intros H. destruct (decide (k ∈ map fst m)); [by rewrite Hi|]. rewrite Hn by done.
  apply NoDup_app. split_and!; [done| |apply NoDup_singleton]. by intros x Hx ->%list_elem_of_singleton.
Qed.

Lemma extend_keys m saved : NoDup (map fst m) -> NoDup (map fst (obj_extend m saved)).
Proof.
  unfold obj_extend. revert m. induction saved as [|[k v] saved IH]; intros m H; cbn [fold_left]; [done|].
  by apply IH, insert_keys.
Qed.

Lemma default_keys : NoDup (map fst (default_license_settings env host)).
Proof. cbn [default_license_settings map fst]. apply (bool_decide_unpack _). by vm_compute. Qed.

(** What a save answers is what the next load reads, member by member, when
    the stored text reads back as the value it was printed from. *)
Theorem saved_settings_loaded token unlock payload s settings s' s2 m s3 k :
  json_of_text (json_to_string (Object settings)) = Some (Object settings) ->
  licensing_save_settings state env host token unlock payload s = (Ok settings, s') ->
  acc_config (fst s2) = acc_config (fst s') ->
  load_settings_from_db env host s2 = (Ok m, s3) -> obj_get k m = obj_get k settings.
Proof.
  intros Hj [(? & _)|(id & now & _ & _ & Hr & Hc)]%save_settings_inv E2 Hl; [done|].
  specialize (Hr eq_refl). injection Hr as ->. revert Hl. unfold load_settings_from_db.
  intros (o & s4 & E4 & Hl)%try_Ok. unfold statement in E4.
  destruct (sql_fault _) as [[e|] w]; [done|]. unfold stored_settings in E4.
  rewrite E2, Hc, upsert_config_stored in E4. injection E4 as <- _. injection Hl as <- _.
  cbn [cf_valor mbind option_bind]. rewrite Hj, extend_get by (apply extend_keys; apply default_keys).
  destruct (obj_get k (obj_extend _ _)) eqn:E; [done|]. cbn [or_else].
  destruct (obj_get k (default_license_settings env host)) eqn:Ed; [|done]. exfalso.
  assert (contains_key k (default_license_settings env host) = true) as Hk by (apply contains_get; congruence).
  apply (contains_extend _ payload), contains_get in Hk. congruence.
Qed.

(** ** The device key *)

(** The key that identifies a device is the same on every machine: it is
    computed before the machine's readings are collected and kept afterwards,
    so it depends on the application's name in the settings and on nothing
    else. *)
Theorem device_key_everywhere cfg settings documento nome email input :
  sha256_hex ("tunnara-console|" ++ unwrap_or "app-template" (setting_string settings "app_instance")
              ++ "|||||||") <> "" ->
  prepare_input host rhost cfg (build_check_input settings documento nome email) = Ok input ->
  in_device_key input = Some (sha256_hex
    ("tunnara-console|" ++ unwrap_or "app-template" (setting_string settings "app_instance") ++ "|||||||")).
Proof.
  intros Hne. unfold prepare_input, build_check_input.
  set (i := bare_check_input settings documento nome email).
  assert (generate_device_key i = sha256_hex ("tunnara-console|" ++
    unwrap_or "app-template" (setting_string settings "app_instance") ++ "|||||||")) as Hk by done.
  destruct (enrich_input_from_registration_file _ _ _) as [[d i']|] eqn:E; [|done].
  intros [= <-]. apply registration_keeps_caller in E as (_ & _ & _ & _ & _ & -> & _).
  cbn [in_device_key enrich_input with_device_key enrich_fields with_document].
  rewrite Hk. rewrite fill_present; [done|]. unfold missing. cbn [unwrap_or].
  by destruct (is_empty _) eqn:Ee; [apply is_empty_spec in Ee|].
Qed.

(** ** Trial licences *)

Lemma session_trial token s r s' : require_session_by_token token s = (r, s') ->
  acc_licenses (fst s') = acc_licenses (fst s) /\ acc_companies (fst s') = acc_companies (fst s).
Proof.
  intros H%require_session_inv. destruct r; cbn in H.
  - by destruct H as (? & ? & _ & _ & _ & _ & _ & _ & _ & _ & ->).
  - by rewrite H.
Qed.

(** The document of the company a command is about, without surrounding
    spaces. *)
Definition trial_document (e : Empresa) : string := trim (unwrap_or "" (e_documento e)).

(** The text that is encrypted, and the row that is written. *)
Definition trial_text (e : Empresa) (now : instant) : string :=
  json_to_string (trial_payload env (e_id e) (e_nome e) (trial_document e) (to_rfc3339 now)
    (to_rfc3339 (plus_days now 45))).
Definition is_trial_row (e : Empresa) (now : instant) (l : LocalLicense) : Prop :=
  ll_empresa_id l = e_id e /\ ll_cnpj l = trial_document e /\ ll_license_kind l = "trial" /\
  ll_status l = "active" /\ ll_issued_at l = to_rfc3339 now /\
  ll_expires_at l = to_rfc3339 (plus_days now 45) /\ ll_fingerprint l = Some (machine_key env) /\
  ll_payload_encrypted l = Some (encrypt_text (trial_document e) (trial_text e now)) /\
  ll_integrity_hash l = Some (integrity_hash (trial_document e) (trial_text e now)).

Lemma insert_license_inv empresa cnpj issued expires fp enc hash t id t' :
  insert_license empresa cnpj issued expires fp enc hash t = Ok (id, t') ->
  license_of_company empresa t = None /\ empresa ∈ map e_id (acc_companies t) /\
  acc_companies t' = acc_companies t /\ (id ∉ map ll_id (acc_licenses t)) /\
  exists l, acc_licenses t' = (acc_licenses t ++ [l])%list /\ ll_id l = id /\ ll_empresa_id l = empresa /\
    l = {| ll_id := id; ll_empresa_id := empresa; ll_cnpj := cnpj; ll_license_kind := "trial";
           ll_status := "active"; ll_issued_at := issued; ll_expires_at := expires;
           ll_fingerprint := Some fp; ll_payload_encrypted := Some enc; ll_integrity_hash := Some hash;
           ll_created_at := issued; ll_updated_at := issued |}.
Proof.
  unfold insert_license, mbind, result_bind. destruct (existsb _ (acc_licenses t)) eqn:El; [done|].
  destruct (existsb _ (acc_companies t)) eqn:Ec; cbn [negb]; [|done].
  destruct (next_rowid _ _) as [i|] eqn:Ei; [|done]. intros [= -> <-].
  split_and!.
  - apply list_find_None, Forall_forall. intros l Hl. rewrite (existsb_false_elem _ _ _ El Hl). done.
  - by apply (existsb_id e_id).
  - done.
  - by eapply next_rowid_fresh.
  - by eexists.
Qed.

Lemma find_new_license t l :
  ll_id l ∉ map ll_id t -> list_find (fun x => (ll_id x =? ll_id l)%Z) (t ++ [l])%list = Some l.
Proof.
  induction t as [|x t IH]; cbn; [by rewrite Z.eqb_refl|]. intros [Hx Ht]%not_elem_of_cons.
  destruct (Z.eqb_spec (ll_id x) (ll_id l)); [congruence|by apply IH].
Qed.

(** Creating the row either fails and writes nothing, or writes it, whatever
    happens next. *)
Lemma create_trial_inv conn now e s r s' :
  create_trial env conn now (e_id e) (unwrap_or "" (e_documento e)) (e_nome e) s = (r, s') ->
  (is_ok r = false /\ fst s' = fst s) \/
  exists l, license_of_company (e_id e) (fst s) = None /\ e_id e ∈ map e_id (acc_companies (fst s)) /\
    acc_companies (fst s') = acc_companies (fst s) /\ (ll_id l ∉ map ll_id (acc_licenses (fst s))) /\
    acc_licenses (fst s') = (acc_licenses (fst s) ++ [l])%list /\ is_trial_row e now l /\
    (is_ok r = true -> r = Ok (attach_decrypted_payload (license_row l) (unwrap_or "" (e_documento e)))).
Proof.
  unfold create_trial. intros [(id & s1 & E1 & H)|(err & E1 & ->)]%try_inv.
  - right. unfold statement in E1. destruct (sql_fault _) as [[f|] w]; [done|].
    destruct (insert_license _ _ _ _ _ _ _ _) as [[i t]|] eqn:Ei; [|done]. injection E1 as -> <-.
    apply insert_license_inv in Ei as (Hn & Hc & Hcs & Hid & l & Hl & Hli & Hle & Heq).
    assert (acc_companies (fst s') = acc_companies t /\ acc_licenses (fst s') = acc_licenses t) as [Hc' Hl'].
    { revert H. match goal with |- ?c ?x = _ -> _ =>
        assert (preserves (fun t' => t' = t) c) as Hp; [|intros H; apply (Hp (t, w)) in H as ->; done] end.
      unfold audit, sync. keep. }
    rewrite <- Hli in Hid. exists l. split_and!; try congruence; [by subst l|].
    intros Hr. apply try_inv in H as [(o & s2 & E2 & H)|(err & E2 & ->)]; [|done].
    apply select_inv in E2 as [-> E2]. cbn [fst] in H. unfold license_by_id in H.
    rewrite Hl, <- Hli, find_new_license in H by done.
    apply try_inv in H as [(o & s3 & E3 & H)|(err & E3 & ->)]; [|done]. injection E3 as <- <-.
    apply try_inv in H as [([] & s4 & _ & H)|(err & E4 & ->)]; [|done].
    apply try_inv in H as [([] & s5 & _ & H)|(err & E5 & ->)]; [|done]. by injection H as <- _.
  - left. split; [done|]. unfold statement in E1.
    destruct (sql_fault _) as [[f|] w]; [by injection E1 as _ <-|].
    destruct (insert_license _ _ _ _ _ _ _ _) as [[i t]|] eqn:Ei; [done|by injection E1 as _ <-].
Qed.

Lemma company_seed_inv empresa_id s r s' : company_seed empresa_id s = (r, s') ->
  fst s' = fst s /\ forall seed, r = Ok seed -> exists e, seed_company empresa_id (fst s) = Some e /\
    seed = (e_id e, unwrap_or "" (e_documento e), e_nome e, e_email e).
Proof.
  unfold company_seed. intros [(o & s1 & E1 & H)|(err & E1 & ->)]%try_inv.
  - apply select_inv in E1 as [-> E1]. destruct (seed_company _ _) as [e|]; cbn in H.
    + injection H as <- <-. split; [done|]. intros seed [= <-]. by exists e.
    + injection H as <- <-. by split.
  - apply select_tables in E1. by split.
Qed.

(** Starting a trial: nothing written, or one row by [create_trial]. *)
Lemma start_trial_inv token empresa_id s r s' :
  licensing_start_trial state env token empresa_id s = (r, s') ->
  (acc_licenses (fst s') = acc_licenses (fst s) /\ acc_companies (fst s') = acc_companies (fst s) /\
   forall m, r = Ok m -> exists e l, seed_company empresa_id (fst s) = Some e /\ trial_document e <> "" /\
     license_of_company (e_id e) (fst s) = Some l /\
     m = attach_decrypted_payload (license_row l) (trial_document e)) \/
  (exists e now l, seed_company empresa_id (fst s) = Some e /\ trial_document e <> "" /\
    license_of_company (e_id e) (fst s) = None /\ e_id e ∈ map e_id (acc_companies (fst s)) /\
    acc_companies (fst s') = acc_companies (fst s) /\ (ll_id l ∉ map ll_id (acc_licenses (fst s))) /\
    acc_licenses (fst s') = (acc_licenses (fst s) ++ [l])%list /\ is_trial_row e now l /\
    (is_ok r = true -> r = Ok (attach_decrypted_payload (license_row l) (unwrap_or "" (e_documento e))))).
Proof.
  unfold licensing_start_trial.
  assert (forall s1, fst s1 = fst s -> acc_licenses (fst s1) = acc_licenses (fst s) /\
    acc_companies (fst s1) = acc_companies (fst s)) as Hid by (by intros ? ->).
  intros [(conn & s1 & E1 & H)|(err & E1 & ->)]%try_inv; apply open_db_tables in E1;
    [|left; apply Hid in E1 as [? ?]; done].
  apply try_inv in H as [(i & s2 & E2 & H)|(err & E2 & ->)]; apply session_trial in E2 as [El Ec];
    rewrite E1 in El, Ec; [|left; done].
  run_bind H now s3 as E3. apply lift_tables in E3.
  apply try_inv in H as [(seed & s4 & E4 & H)|(err & E4 & ->)]; apply company_seed_inv in E4 as [E4 Hs];
    rewrite E3 in E4; [|left; rewrite E4; done].
  destruct (Hs _ eq_refl) as (e & He & ->). clear Hs.
  assert (seed_company empresa_id (fst s) = Some e) as He'.
  { rewrite <- He. unfold seed_company. by rewrite E3, Ec. }
  apply try_inv in H as [([] & s5 & E5 & H)|(err & E5 & ->)]; injection E5 as E5 <-; [|left; rewrite E4; done].
  assert (trial_document e <> "") as Hd.
  { intros Hd. unfold trial_document in Hd. by rewrite Hd in E5. }
  apply try_inv in H as [(o & s6 & E6 & H)|(err & E6 & ->)];
    [|apply select_tables in E6; left; rewrite E6, E4; done].
  apply select_inv in E6 as [-> E6]. rewrite E4 in E6.
  assert (license_of_company (e_id e) (fst s4) = license_of_company (e_id e) (fst s)) as Hlic
    by (unfold license_of_company; congruence).
  rewrite Hlic in H. destruct (license_of_company (e_id e) (fst s)) as [l|] eqn:Eq; cbn in H.
  - injection H as <- <-. left. rewrite E6. split_and!; try done. intros m [= <-]. by exists e, l.
  - apply create_trial_inv in H as [(Hr & H)|(l & Hn & Hin & Hc & Hni & Hl & Ht & Hr)].
    + left. rewrite H, E6. split_and!; try done. intros m ->. done.
    + right. exists e, now, l. rewrite E6, ?El, ?Ec in *. done.
Qed.

End Properties.

(** ** Licences and companies *)

Inductive license_command : Type :=
| LoadSettings (token : string) (unlock : option string)
| SaveSettings (token unlock : string) (payload : members)
| Status (token : string) (empresa_id : option Z)
| StartTrial (token : string) (empresa_id : option Z)
| Company (cmd : company_command).

(** One licence for each company at most, and only for companies that are
    there. *)
Definition licenses_ok (t : Accounts) : Prop :=
  NoDup (map ll_id (acc_licenses t)) /\ NoDup (map ll_empresa_id (acc_licenses t)) /\
  Forall (fun l => ll_empresa_id l ∈ map e_id (acc_companies t)) (acc_licenses t).

Lemma licenses_ok_same t t' :
  acc_licenses t' = acc_licenses t -> map e_id (acc_companies t') = map e_id (acc_companies t) ->
  licenses_ok t -> licenses_ok t'.
Proof. unfold licenses_ok. by intros -> ->. Qed.

Section Keeps.
Context {W : Type} `{LO : LogOs W} `{ST : !Statements W} `{CR : Crypto} `{RN : !Randomness W}
  `{AW : !AuthWorld W} `{SC : !SqlClock W} `{JT : JsonText} `{UP : UnicodeUpper}.
Context (state : SharedState) (env : Env) (host : HostInfo).
Implicit Types s : db (W := W).

Definition run_license (cmd : license_command) (s : db (W := W)) : db :=
  match cmd with
  | LoadSettings token unlock => snd (licensing_load_settings state env host token unlock s)
  | SaveSettings token unlock payload => snd (licensing_save_settings state env host token unlock payload s)
  | Status token empresa_id => snd (licensing_status state env host token empresa_id s)
  | StartTrial token empresa_id => snd (licensing_start_trial state env token empresa_id s)
  | Company cmd => run_company state cmd s
  end.

Lemma licenses_ok_touch now token t : licenses_ok t -> licenses_ok (update_session_activity now token t).
Proof. by apply licenses_ok_same. Qed.
Lemma licenses_ok_unlock now token t : licenses_ok t -> licenses_ok (update_unlock_use now token t).
Proof. by apply licenses_ok_same. Qed.
Lemma licenses_ok_config n v now t : licenses_ok t -> licenses_ok (upsert_config n v now t).
Proof. by apply licenses_ok_same. Qed.

Lemma preserves_stored_settings what : preserves licenses_ok (statement what stored_settings).
Proof. apply preserves_statement. by intros t o t' Ht ->%stored_settings_reads. Qed.

Lemma licenses_ok_save_company i form now s e s' :
  write_company i form now s = (Ok e, s') -> licenses_ok (fst s) -> licenses_ok (fst s').
Proof.
  intros H%write_company_inv Hl. destruct i as [i|].
  - destruct H as [-> ->]. revert Hl. apply licenses_ok_same; [done|]. unfold update_company. cbn.
    by apply map_update_where.
  - revert H. unfold insert_company, mbind, result_bind. destruct (next_rowid _ _) as [k|]; [|done].
    intros [= -> <-]. destruct Hl as (H1 & H2 & H3). split_and!; try done. cbn.
    eapply Forall_impl; [exact H3|]. cbn. intros l Hl. rewrite map_app. apply elem_of_app. by left.
Qed.

Lemma licenses_ok_delete_company id t n t' :
  delete_company id t = Ok (n, t') -> licenses_ok t -> licenses_ok t'.
Proof.
  unfold delete_company. destruct (_ && _) eqn:E; [done|]. intros [= _ <-] (H1 & H2 & H3).
  split_and!; try done. cbn. apply Forall_forall. intros l Hl. rewrite Forall_forall in H3.
  pose proof (H3 _ Hl) as Hin. apply list_elem_of_In, in_map_iff in Hin as (c & Hc & Hin).
  apply list_elem_of_In, in_map_iff. exists c. split; [done|]. apply filter_In. split; [done|].
  apply negb_true_iff, Z.eqb_neq. intros Hid. apply andb_false_iff in E as [E|E].
  - apply negb_false_iff, Nat.eqb_eq, length_zero_iff_nil in E.
    assert (In c (List.filter (fun e => (e_id e =? id)%Z) (acc_companies t))) as Hf
      by (apply filter_In; split; [done|by apply Z.eqb_eq]).
    by rewrite E in Hf.
  - pose proof (existsb_false_elem _ _ _ E Hl) as Hb. cbn in Hb. apply Z.eqb_neq in Hb. congruence.
Qed.

#[local] Hint Resolve preserves_stored_settings preserves_open_app preserves_open_db preserves_now_text
  preserves_guard preserves_require preserves_audit preserves_sync : accounts.

Lemma preserves_license_session token : preserves licenses_ok (require_session_by_token token).
Proof. apply preserves_session_of. apply licenses_ok_touch. Qed.
Lemma preserves_license_unlock id token scope : preserves licenses_ok (require_admin_unlock id token scope).
Proof. unfold require_admin_unlock. keep. apply preserves_execute. apply licenses_ok_unlock. Qed.
#[local] Hint Resolve preserves_license_session preserves_license_unlock : accounts.

Lemma preserves_load_stored : preserves licenses_ok (load_settings_from_db env host).
Proof. unfold load_settings_from_db. keep. Qed.
#[local] Hint Resolve preserves_load_stored : accounts.

Lemma preserves_load token unlock : preserves licenses_ok (licensing_load_settings state env host token unlock).
Proof. unfold licensing_load_settings. keep. Qed.
Lemma preserves_save token unlock payload :
  preserves licenses_ok (licensing_save_settings state env host token unlock payload).
Proof.
  unfold licensing_save_settings, save_settings_to_db, log_command. keep. apply preserves_execute.
  intros t. apply licenses_ok_config.
Qed.
Lemma preserves_status token empresa_id :
  preserves licenses_ok (licensing_status state env host token empresa_id).
Proof. unfold licensing_status, company_seed, local_license, trial_license_row. keep. Qed.
Lemma preserves_delete_company id : preserves licenses_ok (company_delete state id).
Proof.
  unfold company_delete. keep. apply preserves_statement. intros t n t' H E.
  by eapply licenses_ok_delete_company.
Qed.

(** C14. Whatever licensing and company commands run, in whatever order and with
    whatever failures, no company has two licences and no licence is without
    its company: the second is why a company with a trial cannot be deleted. *)
Theorem licenses_consistent cmds s :
  licenses_ok (fst s) -> licenses_ok (fst (foldl (fun s cmd => run_license cmd s) s cmds)).
Proof.
  revert s. induction cmds as [|cmd cmds IH]; intros s H; [done|]. cbn [foldl]. apply IH. clear IH.
  destruct cmd as [token unlock|token unlock payload|token empresa|token empresa|cmd]; cbn [run_license].
  - eapply preserves_load; [exact H|apply surjective_pairing].
  - eapply preserves_save; [exact H|apply surjective_pairing].
  - eapply preserves_status; [exact H|apply surjective_pairing].
  - destruct (licensing_start_trial _ _ _ _ s) as [r s'] eqn:E. cbn [snd].
    apply start_trial_inv in E as [(Hl & Hc & _)|(e & now & l & _ & _ & Hn & Hin & Hc & Hi & Hl & Ht & _)].
    + revert H. by apply licenses_ok_same; [|rewrite Hc].
    + destruct H as (H1 & H2 & H3). rewrite <- Hc in H3, Hin. unfold licenses_ok. rewrite Hl.
      destruct Ht as (He & _). split_and!.
      * by apply NoDup_map_snoc.
      * apply NoDup_map_snoc; [done|]. rewrite He. unfold license_of_company in Hn.
        rewrite list_find_None in Hn. intros Hx. apply list_elem_of_In, in_map_iff in Hx as (x & Hx & Hy).
        rewrite Forall_forall in Hn. apply list_elem_of_In in Hy. specialize (Hn _ Hy). cbn in Hn. by rewrite Hx, Z.eqb_refl in Hn.
      * apply Forall_app. split; [done|]. apply Forall_singleton. by rewrite He.
  - destruct cmd as [payload|id]; cbn [run_company].
    + destruct (company_save state payload s) as [r s'] eqn:E. cbn [snd].
      apply company_save_inv in E as [->|(raw & f & now & i & s1 & s2 & _ & _ & _ & E & E1 & ->)]; [done|].
      eapply licenses_ok_save_company; [exact E|]. by rewrite E1.
    + eapply preserves_delete_company; [exact H|apply surjective_pairing].
Qed.
End Keeps.
