(* ===== verification/Tunnel.v ===== *)
(** * The tunnel: protocol, coordinator, relay, agent and bridge

    The Rust crates [tunnara-types], [tunnara-protocol], [tunnara-config],
    [tunnara-agent-core] and [tunnara-sdk-c], and the logic of the services
    coordinator, edge, relay and agent, with the loop of the client of quic-bridge;
    the rest of the bridge is in [Quic] and [BridgeStreams]. serde_json's texts
    are the class [Serde], sockets and random identifiers the class
    [TunnelWorld]. *)

From S2P Require Import Prelude RustStr Json NetAddr.
From Stdlib Require Import Ascii.

#[local] Open Scope string_scope.

(** ** Types *)

(** 128 bits *)
Abbreviation Uuid := N.

(*| crates/tunnara-types/src/lib.rs 4-12 TunnelProtocol *)
Inductive TunnelProtocol : Type := Http | Https | Tcp | Udp | PrivateNetwork.

(*| crates/tunnara-types/src/lib.rs 14-21 AgentStatus *)
Inductive AgentStatus : Type := Provisioning | Online | Offline | Revoked.

(*| crates/tunnara-types/src/lib.rs 23-30 AgentRegistration *)
Record AgentRegistration : Type := {
  reg_name : string;
  reg_platform : string;
  reg_architecture : string;
  reg_version : string;
  reg_public_key : string;
}.

(*| crates/tunnara-types/src/lib.rs 32-37 RegisteredAgent *)
Record RegisteredAgent : Type := {
  ra_id : Uuid;
  ra_session_token : string;
  ra_heartbeat_interval_seconds : N;
}.

(*| crates/tunnara-types/src/lib.rs 39-48 TunnelDefinition *)
Record TunnelDefinition : Type := {
  tun_id : Uuid;
  tun_name : string;
  tun_protocol : TunnelProtocol;
  tun_target_host : string;
  tun_target_port : N;
  tun_public_hostname : option string;
  tun_public_port : option N;
}.

(*| crates/tunnara-protocol/src/lib.rs 5-14 ControlMessage *)
Inductive ControlMessage : Type :=
| Hello (agent_id : Uuid) (version : string)
| Heartbeat (agent_id : Uuid) (sequence : N)
| ConfigureTunnel (tunnel : TunnelDefinition)
| CloseTunnel (tunnel_id : Uuid) (reason : string)
| Ack (message_id : Uuid)
| ErrorMessage (code message : string).

(*| crates/tunnara-protocol/src/lib.rs 16-21 ControlEnvelope *)
Record ControlEnvelope : Type := {
  env_id : Uuid;
  env_correlation_id : option Uuid;
  env_message : ControlMessage;
}.

(** The JSON texts the derived serializers read and write. *)
Class Serde : Type := {
  envelope_of_json : string -> result string ControlEnvelope;
  envelope_to_json : ControlEnvelope -> result string string;
  json_text : value -> string;
}.

(** An envelope that is written is read back. *)
Class SerdeLaws `{SD : Serde} : Prop := {
  envelope_roundtrip e text : envelope_to_json e = Ok text -> envelope_of_json text = Ok e;
}.

Class TunnelWorld (W : Type) : Type := {
  uuid_new_v4 : St W Uuid;
  uuid_text : Uuid -> string;
  (** a text frame sent: whether the peer took it *)
  ws_send : string -> St W bool;
}.

(** ** Configuration *)

(*| crates/tunnara-config/src/lib.rs 5-7 env_string *)
Definition config_env_string (env : Env) (name default : string) : string :=
  unwrap_or default (env !! name).

(*| crates/tunnara-config/src/lib.rs 9-13 env_socket *)
Definition env_socket (env : Env) (name default : string) : result string SocketAddr :=
  ok_or (name ++ " deve ser um SocketAddr válido")
    (parse_socket_addr (config_env_string env name default)).

(** The tables of the coordinator and of an agent: [AppState], [AgentRuntime]. *)
Abbreviation Agents := (gmap Uuid AgentRegistration).
Abbreviation AgentRuntime := (gmap Uuid TunnelDefinition).

(** ** The control protocol *)

Section Tunnel.
Context {W : Type} `{TW : TunnelWorld W} `{SD : Serde}.

(*| crates/tunnara-protocol/src/lib.rs 23-31 ControlEnvelope::new *)
Definition new_envelope (message : ControlMessage) : St W ControlEnvelope :=
  id ← uuid_new_v4;
  mret {| env_id := id; env_correlation_id := None; env_message := message |}.

(** ** Coordinator *)

(*| services/coordinator/src/main.rs 60-75 register *)
Definition register (payload : AgentRegistration) : St (Agents * W) (N * RegisteredAgent) := fun s =>
  let '(id, w) := uuid_new_v4 (snd s) in
  let '(token, w) := uuid_new_v4 w in
  ((201%N, {| ra_id := id; ra_session_token := uuid_text token;
              ra_heartbeat_interval_seconds := 20 |}),
   (<[id := payload]> (fst s), w)).

Inductive ws_message : Type := Text (text : string) | Close | Other.

Definition error_text (error : string) : string := json_text (Object [("error", String_ error)]).

(** The answer to one text frame. *)
(*| services/coordinator/src/main.rs 85-99 handle_socket *)
Definition control_reply (text : string) : St W string :=
  match envelope_of_json text with
  | Err error => mret (error_text error)
  | Ok envelope =>
      ack ← new_envelope (Ack (env_id envelope));
      mret (match envelope_to_json {|
              env_id := env_id ack; env_correlation_id := Some (env_id envelope);
              env_message := env_message ack |} with
            | Ok payload => payload
            | Err error => error_text error
            end)
  end.

(** What is sent to a socket from which these messages arrive: the loop ends
    with a failed read, a close frame or a failed send. *)
(*| services/coordinator/src/main.rs 81-108 handle_socket *)
Fixpoint control_socket (incoming : list (result string ws_message)) : St W (list string) :=
  match incoming with
  | Ok (Text text) :: rest =>
      payload ← control_reply text;
      taken ← ws_send payload;
      if taken : bool then sent ← control_socket rest; mret (payload :: sent)
      else mret [payload]
  | Ok Other :: rest => control_socket rest
  | Ok Close :: _ | Err _ :: _ | [] => mret []
  end.

(** ** Relay, edge, agent and SDK *)

(** The bytes a relay writes to a peer whose first bytes are these:
    [read_exact] of eight bytes fails on a shorter stream. *)
(*| services/relay/src/main.rs 13-25 main *)
Definition relay_reply (stream : string) : string :=
  if (8 <=? String.length stream)%nat && String.eqb (String.substring 0 8 stream) "TUNNARA1"
  then "OK" ++ String LF "" else "".

(** Every path but the health check falls back to the refusal; the health check
    answers other methods as axum does. *)
(*| services/edge/src/main.rs 11-30 main *)
Definition edge_reply (version path : string) (get : bool) : N * (string + value) :=
  if String.eqb path "/healthz" then
    if get then (200%N, inr (Object [("status", String_ "ok"); ("service", String_ "edge");
                                     ("version", String_ version)]))
    else (405%N, inl "")
  else (503%N, inl "Nenhuma rota de túnel foi associada a este host.").

(*| services/agent/src/main.rs 44-64 main *)
Definition register_request (coordinator os arch version name public_key : string) :
    string * AgentRegistration :=
  (trim_end_char "/" coordinator ++ "/v1/agents/register",
   {| reg_name := name; reg_platform := os; reg_architecture := arch; reg_version := version;
      reg_public_key := public_key |}).

(** The agent's other commands say what they are. *)
(*| services/agent/src/main.rs 20-32 Command *)
Inductive AgentCommand : Type :=
| Register (name public_key : string)
| SayStatus
| Serve (local_port : N).

(*| services/agent/src/main.rs 61-74 main *)
Definition agent_says (coordinator version : string) (c : AgentCommand) : option string :=
  match c with
  | Register _ _ => None
  | SayStatus => Some ("agent version=" ++ version ++ " coordinator=" ++ coordinator)
  | Serve local_port =>
      Some ("Modo de serviço preparado para publicar 127.0.0.1:" ++ show_N local_port
        ++ ". O runtime funcional da série 0.2 está em runtime/node; este binário Rust permanece experimental.")
  end.

(** A C string: null, or the bytes before the terminator. *)
(*| crates/tunnara-sdk-c/src/lib.rs 29-36 tunnara_validate_token *)
Definition tunnara_validate_token (token : option string) : bool :=
  match token with
  | None => false
  | Some bytes => (16 <=? String.length bytes)%nat
  end.

(** ** Agent runtime *)

(*| crates/tunnara-agent-core/src/lib.rs 13-15 AgentRuntime::apply *)
Definition runtime_apply (tunnel : TunnelDefinition) (r : AgentRuntime) : AgentRuntime :=
  <[tun_id tunnel := tunnel]> r.
(*| crates/tunnara-agent-core/src/lib.rs 17-19 AgentRuntime::remove *)
Definition runtime_remove (id : Uuid) (r : AgentRuntime) : AgentRuntime := delete id r.
(** The order of a hash map is unspecified: any permutation of these. *)
(*| crates/tunnara-agent-core/src/lib.rs 21-23 AgentRuntime::list *)
Definition runtime_list (r : AgentRuntime) : list TunnelDefinition := snd <$> map_to_list r.

End Tunnel.

(** ** The bridge client *)

(** Connections are numbered in the order they are made. *)
Record bridge : Type := {
  br_connected : nat;          (** connections made so far; the last is current *)
  br_closed : gset nat;        (** connections known to be closed *)
  br_waiting : bool;           (** waiting for a local socket *)
  br_streams : list (nat * nat); (** local socket and the connection it was given *)
}.

Definition bridge_init : bridge :=
  {| br_connected := 0; br_closed := ∅; br_waiting := false; br_streams := [] |}.

(** [current] is missing or its [close_reason] is set. *)
(*| services/quic-bridge/src/main.rs 229-232 run_client *)
Definition needs_connection (b : bridge) : bool :=
  (br_connected b =? 0)%nat || bool_decide (br_connected b ∈ br_closed b).

(** One step of [run_client], or of the network: the check at the head of the
    loop (a failed attempt to connect changes nothing and is retried), a closed
    connection at any time, and a local socket accepted and handed to the
    current connection. *)
(*| services/quic-bridge/src/main.rs 228-259 run_client *)
Inductive bridge_step : bridge -> bridge -> Prop :=
| step_connect b :
    br_waiting b = false -> needs_connection b = true ->
    bridge_step b {| br_connected := S (br_connected b); br_closed := br_closed b;
                     br_waiting := true; br_streams := br_streams b |}
| step_keep b :
    br_waiting b = false -> needs_connection b = false ->
    bridge_step b {| br_connected := br_connected b; br_closed := br_closed b;
                     br_waiting := true; br_streams := br_streams b |}
| step_accept b socket :
    br_waiting b = true ->
    bridge_step b {| br_connected := br_connected b; br_closed := br_closed b;
                     br_waiting := false;
                     br_streams := (socket, br_connected b) :: br_streams b |}
| step_close b c :
    c <= br_connected b -> 0 < c ->
    bridge_step b {| br_connected := br_connected b; br_closed := {[c]} ∪ br_closed b;
                     br_waiting := br_waiting b; br_streams := br_streams b |}.

(** ** Lemmas: sockets of the coordinator *)

(** The text frames that arrive before the loop ends. *)
Fixpoint live_texts (incoming : list (result string ws_message)) : list string :=
  match incoming with
  | Ok (Text text) :: rest => text :: live_texts rest
  | Ok Other :: rest => live_texts rest
  | Ok Close :: _ | Err _ :: _ | [] => []
  end.

(** What a text frame must be answered with: an acknowledgement of the
    envelope it holds, or the reason it is not one. *)
Definition answers `{SD : Serde} (text payload : string) : Prop :=
  match envelope_of_json text with
  | Ok e => exists id, envelope_of_json payload =
      Ok {| env_id := id; env_correlation_id := Some (env_id e);
            env_message := Ack (env_id e) |}
  | Err error => payload = error_text error
  end.

Lemma control_reply_answers {W} `{TW : TunnelWorld W} `{SL : SerdeLaws} text (w : W) payload w' :
  (forall e, is_ok (envelope_to_json e) = true) ->
  control_reply text w = (payload, w') -> answers text payload.
Proof.
  intros Htotal. unfold control_reply, answers, new_envelope, mbind, st_bind, mret, st_ret.
  destruct (envelope_of_json text) as [e|error]; [|by intros [= <- _]].
  destruct (uuid_new_v4 w) as [id w1]. cbn. set (ack := {| env_id := id |}).
  pose proof (Htotal ack) as Ht. destruct (envelope_to_json ack) as [p|] eqn:E; [|done].
  intros [= <- _]. exists id. by apply envelope_roundtrip in E.
Qed.

(** C28. The coordinator answers the text frames of a socket in order, one answer to
    each: an acknowledgement that names the frame's envelope, twice, or the
    decoding error. It stops early only when the peer does not take an answer. *)
Theorem coordinator_answers_in_order {W} `{TW : TunnelWorld W} `{SL : SerdeLaws}
    incoming (w w' : W) sent :
  (forall e, is_ok (envelope_to_json e) = true) ->
  control_socket incoming w = (sent, w') ->
  Forall2 answers (take (length sent) (live_texts incoming)) sent /\
  ((forall p (w : W), fst (ws_send p w) = true) -> length sent = length (live_texts incoming)).
Proof.
  intros Htotal. revert w sent. induction incoming as [|m rest IH]; intros w sent H.
  { by injection H as <- _. }
  destruct m as [[text| |]|e]; cbn in H.
  - run_bind H payload w1 as E1. apply control_reply_answers in E1; [|done].
    run_bind H taken w2 as E2. destruct taken.
    + run_bind H sent' w3 as E3. injection H as <- <-.
      destruct (IH _ _ E3) as (Hk & Hlen). cbn. split; [by constructor|].
      intros Hs. f_equal. by apply Hlen.
    + injection H as <- <-. cbn. rewrite take_0. split; [by repeat constructor|].
      intros Hs. specialize (Hs payload w1). by rewrite E2 in Hs.
  - by injection H as <- _.
  - by eapply IH.
  - by injection H as <- _.
Qed.

(** ** The agent's tunnels *)

Inductive runtime_op : Type := Apply (tunnel : TunnelDefinition) | Remove (id : Uuid).

Definition run_op (r : AgentRuntime) (op : runtime_op) : AgentRuntime :=
  match op with Apply t => runtime_apply t r | Remove id => runtime_remove id r end.

(** What the last operation on an identifier left there. *)
Fixpoint last_tunnel (id : Uuid) (ops : list runtime_op) : option TunnelDefinition :=
  match ops with
  | [] => None
  | op :: rest =>
      match last_tunnel id rest, existsb (fun op => match op with
               | Apply t => N.eqb (tun_id t) id | Remove i => N.eqb i id end) rest with
      | found, true => found
      | _, false => match op with
                    | Apply t => if N.eqb (tun_id t) id then Some t else None
                    | Remove _ => None
                    end
      end
  end.

Definition touches (id : Uuid) (op : runtime_op) : bool :=
  match op with Apply t => N.eqb (tun_id t) id | Remove i => N.eqb i id end.

Lemma last_tunnel_snoc id ops op :
  last_tunnel id (ops ++ [op])%list =
    if touches id op then match op with Apply t => Some t | Remove _ => None end
    else last_tunnel id ops.
Proof.
  induction ops as [|o ops IH]; cbn.
  - destruct op as [t|i]; cbn; [by destruct (N.eqb (tun_id t) id)|by destruct (N.eqb i id)].
  - rewrite IH, existsb_app. cbn [existsb]. rewrite orb_false_r.
    fold (touches id op). destruct (touches id op); [by rewrite orb_true_r|]. by rewrite orb_false_r.
Qed.

Lemma run_ops_lookup ops id :
  foldl run_op (∅ : AgentRuntime) ops !! id = last_tunnel id ops.
Proof.
  induction ops as [|op ops IH] using rev_ind; [done|]. rewrite foldl_app, last_tunnel_snoc.
  cbn [foldl]. destruct op as [t|i]; cbn [run_op touches].
  - unfold runtime_apply. destruct (N.eqb_spec (tun_id t) id) as [->|Hne].
    + by rewrite lookup_insert_eq.
    + by rewrite lookup_insert_ne.
  - unfold runtime_remove. destruct (N.eqb_spec i id) as [->|Hne].
    + by rewrite lookup_delete_eq.
    + by rewrite lookup_delete_ne.
Qed.

Lemma last_tunnel_id id ops t : last_tunnel id ops = Some t -> tun_id t = id.
Proof.
  induction ops as [|op ops IH] using rev_ind; [done|]. rewrite last_tunnel_snoc.
  destruct op as [u|i]; cbn; case_match; try done; auto. intros [= ->]. by apply N.eqb_eq.
Qed.

(** C29. After any sequence of applied and removed tunnels the agent lists each
    identifier once, with the definition applied last, and none whose last
    operation removed it. *)
Theorem agent_runtime_refines ops t :
  let r := foldl run_op (∅ : AgentRuntime) ops in
  (t ∈ runtime_list r <-> last_tunnel (tun_id t) ops = Some t) /\
  NoDup (tun_id <$> runtime_list r).
Proof.
  cbv zeta. set (r := foldl _ _ _). unfold runtime_list. split.
  - rewrite list_elem_of_fmap. split.
    + intros ([id u] & -> & Hin). apply elem_of_map_to_list in Hin. unfold r in Hin.
      rewrite run_ops_lookup in Hin. cbn. by rewrite (last_tunnel_id _ _ _ Hin).
    + intros H. exists (tun_id t, t). split; [done|]. apply elem_of_map_to_list. unfold r.
      by rewrite run_ops_lookup.
  - rewrite <- list_fmap_compose.
    assert ((tun_id ∘ snd) <$> map_to_list r = fst <$> map_to_list r) as ->.
    { apply list_fmap_ext. intros i [id u] Hl. cbn. apply list_elem_of_lookup_2 in Hl.
      apply elem_of_map_to_list in Hl. unfold r in Hl. rewrite run_ops_lookup in Hl.
      by apply last_tunnel_id in Hl. }
    apply NoDup_fst_map_to_list.
Qed.

(** ** The bridge client *)

Definition bridge_ok (b : bridge) : Prop :=
  (br_waiting b = true -> 0 < br_connected b) /\
  Forall (fun sc => 0 < snd sc <= br_connected b) (br_streams b).

Lemma bridge_step_ok b b' : bridge_ok b -> bridge_step b b' -> bridge_ok b'.
Proof.
  intros [Hw Hs] Hstep. inversion Hstep; subst; split; cbn; try done.
  - lia.
  - eapply Forall_impl; [exact Hs|]. cbn. lia.
  - intros _. unfold needs_connection in *. destruct (br_connected b); [done|lia].
  - constructor; [|done]. cbn. specialize (Hw H). lia.
Qed.

(** A local socket is always handed to a connection that was made: the [expect]
    of the accept step never fails. The connection may be closed by then, since
    the loop looks at it before it waits: there is a run in which a socket is
    handed to a connection known to be closed. *)
Theorem bridge_expect_holds :
  (forall b, rtc bridge_step bridge_init b -> bridge_ok b) /\
  (exists b socket c, rtc bridge_step bridge_init b /\ (socket, c) ∈ br_streams b /\
     c ∈ br_closed b /\ br_streams b = [(socket, c)] /\
     exists b', rtc bridge_step bridge_init b' /\ br_streams b' = [] /\ c ∈ br_closed b' /\
       bridge_step b' b).
Proof.
  split.
  - intros b H. assert (bridge_ok bridge_init) as H0 by (split; [done|constructor]).
    revert H0. induction H as [|b1 b2 b3 Hs _ IH]; [done|]. intros Hb. apply IH.
    by eapply bridge_step_ok.
  - set (b' := {| br_connected := 1; br_closed := {[1]} ∪ ∅; br_waiting := true; br_streams := [] |}).
    assert (rtc bridge_step bridge_init b') as Hb'.
    { eapply rtc_l; [by apply step_connect|]. eapply rtc_l; [apply (step_close _ 1); cbn; lia|].
      apply rtc_refl. }
    eexists _, 7, 1. split_and!.
    + eapply rtc_r; [exact Hb'|]. by apply (step_accept _ 7).
    + left.
    + cbn. set_solver.
    + done.
    + exists b'. split_and!; [done|done|cbn; set_solver|by apply (step_accept _ 7)].
Qed.
