(* ===== verification/Quic.v ===== *)
(** * QUIC: tunnara-quic and the set-up of tunnara-quic-bridge

    The transport's configuration, the end points, and what each of the two
    commands of the bridge does before its loop. The QUIC and TLS stacks (quinn,
    rustls), PEM texts and the files are the class [QuicStack]; an error is the
    text anyhow shows, that of the outermost context. *)

From S2P Require Import Prelude RustStr NetAddr Security.

#[local] Open Scope string_scope.
#[local] Open Scope tunnara_scope.

(** ** The transport *)

(** The kinds of transport that are planned; the trait that goes with them has no
    implementation. *)
(*| crates/tunnara-transport/src/lib.rs 16-22 TransportKind *)
Inductive TransportKind : Type := KindQuic | KindTlsTcp | KindWebSocket | KindHttp2.

(*| crates/tunnara-quic/src/lib.rs 12-12 ALPN_TUNNARA_V1 *)
Definition ALPN_TUNNARA_V1 : string := "tunnara/1".

(** Durations are in milliseconds. *)
(*| crates/tunnara-quic/src/lib.rs 14-21 QuicTransportConfig *)
Record QuicTransportConfig : Type := {
  qt_idle_timeout : N;
  qt_keep_alive_interval : N;
  qt_max_concurrent_bidi_streams : N;
  qt_max_concurrent_uni_streams : N;
  qt_datagram_receive_buffer_size : N;
}.

(*| crates/tunnara-quic/src/lib.rs 23-33 QuicTransportConfig::default *)
Definition quic_transport_default : QuicTransportConfig := {|
  qt_idle_timeout := 45 * 1000; qt_keep_alive_interval := 15 * 1000;
  qt_max_concurrent_bidi_streams := 4096; qt_max_concurrent_uni_streams := 128;
  qt_datagram_receive_buffer_size := 16 * 1024 * 1024 |}.

(** What is set on quinn's configuration. *)
Record TransportConfig : Type := {
  tc_max_idle_timeout : N;
  tc_keep_alive_interval : N;
  tc_bidi_streams : N;
  tc_uni_streams : N;
  tc_datagram_buffer : N;
}.

(** The stacks below, and the files. *)
Class QuicStack (W : Type) : Type := {
  (** quinn's conversion of a duration, which refuses the longest ones *)
  idle_timeout : N -> option N;
  certificate : Type;
  private_key : Type;
  (** the text of a file that can be opened *)
  pem_open : string -> St W (result string string);
  pem_certs : string -> result string (list certificate);
  pem_private_key : string -> result string (option private_key);
  (** the certificates of the system, and the text of the errors met *)
  native_certs : St W (list certificate * string);
  root_store : Type;
  no_roots : root_store;
  (** how many were added, how many ignored *)
  add_parsable : list certificate -> root_store -> root_store * (N * N);
  server_tls : Type;
  client_tls : Type;
  with_single_cert : list certificate -> private_key -> result string server_tls;
  with_root_certificates : root_store -> result string client_tls;
  endpoint : Type;
  connection : Type;
  endpoint_server : server_tls * TransportConfig -> SocketAddr -> St W (result string endpoint);
  endpoint_client : SocketAddr -> St W (result string endpoint);
  (** the address or the name refused, or the result of the handshake *)
  endpoint_connect : endpoint -> client_tls * TransportConfig -> SocketAddr -> string ->
    St W (result string (result string connection));
  endpoint_local_addr : endpoint -> St W (result string SocketAddr);
  (** a close with its code and reason *)
  endpoint_close : endpoint -> N -> string -> St W unit;
  bi_stream : Type;
  open_bi : connection -> St W (result string bi_stream);
  write_all : bi_stream -> string -> St W (result string unit);
  finish : bi_stream -> St W (result string unit);
  (** an error when there is more than a number of bytes *)
  read_to_end : N -> bi_stream -> St W (result string string);
  tcp_bind : SocketAddr -> St W (result string unit);
}.

(** *** The text of an address *)

(** The longest run of zero groups, the first of equal ones: where, and how long. *)
Fixpoint zero_run (l : list N) : nat :=
  match l with 0%N :: r => S (zero_run r) | _ => 0 end.
Fixpoint longest_zeros (at_ : nat) (l : list N) (best : nat * nat) : nat * nat :=
  match l with
  | [] => best
  | _ :: r => longest_zeros (S at_) r
                (if (snd best <? zero_run l)%nat then (at_, zero_run l) else best)
  end.
Fixpoint hex_digits (fuel : nat) (n : N) : string :=
  match fuel with
  | 0 => ""
  | S fuel => (if (n <? 16)%N then "" else hex_digits fuel (n / 16)) ++ String (hex_digit (n mod 16)) ""
  end.
Definition groups_text (l : list N) : string := String.concat ":" (map (hex_digits 4) l).
Definition show_ipv6 (groups : list N) : string :=
  match groups with
  | [0; 0; 0; 0; 0; 65535; a; b]%N =>
      "::ffff:" ++ show_ipv4 [a / 256; a mod 256; b / 256; b mod 256]%N
  | _ =>
      let '(start, len) := longest_zeros 0 groups (0, 0) in
      if (1 <? len)%nat
      then groups_text (take start groups) ++ "::" ++ groups_text (drop (start + len) groups)
      else groups_text groups
  end.
Definition show_socket_addr (a : SocketAddr) : string :=
  match a with
  | SocketAddrV4 ip port => show_ipv4 ip ++ ":" ++ show_N port
  | SocketAddrV6 ip scope port =>
      "[" ++ show_ipv6 ip ++ (if (scope =? 0)%N then "" else "%" ++ show_N scope) ++ "]:" ++ show_N port
  end.

Definition with_context {A} (text : string) (r : result string A) : result string A :=
  map_err (fun _ => text) r.

Section Quic.
Context {W : Type} `{QS : QuicStack W}.

(*| crates/tunnara-quic/src/lib.rs 35-49 transport_config *)
Definition transport_config (c : QuicTransportConfig) : result string TransportConfig :=
  idle ← ok_or "idle timeout inválido" (idle_timeout (qt_idle_timeout c));
  Ok {| tc_max_idle_timeout := idle; tc_keep_alive_interval := qt_keep_alive_interval c;
        tc_bidi_streams := qt_max_concurrent_bidi_streams c;
        tc_uni_streams := qt_max_concurrent_uni_streams c;
        tc_datagram_buffer := qt_datagram_receive_buffer_size c |}.

(*| crates/tunnara-quic/src/lib.rs 51-60 make_server_config *)
Definition make_server_config (chain : list certificate) (key : private_key) (c : QuicTransportConfig) :
    result string (server_tls * TransportConfig) :=
  server ← with_context "não foi possível criar a configuração TLS do servidor QUIC" (with_single_cert chain key);
  transport ← transport_config c;
  Ok (server, transport).

(*| crates/tunnara-quic/src/lib.rs 62-70 make_client_config *)
Definition make_client_config (roots : root_store) (c : QuicTransportConfig) :
    result string (client_tls * TransportConfig) :=
  client ← with_context "não foi possível criar a configuração TLS do cliente QUIC" (with_root_certificates roots);
  transport ← transport_config c;
  Ok (client, transport).

(*| crates/tunnara-quic/src/lib.rs 77-81 QuicServer::bind *)
Definition server_bind (address : SocketAddr) (c : server_tls * TransportConfig) : St W (result string endpoint) :=
  endpoint_server c address.
(*| crates/tunnara-quic/src/lib.rs 83-85 QuicServer::local_addr *)
Definition server_local_addr (e : endpoint) : St W (result string SocketAddr) := endpoint_local_addr e.

(** An end point with the configuration its connections are made with. *)
(*| crates/tunnara-quic/src/lib.rs 101-103 QuicClient *)
Definition QuicClient : Type := endpoint * (client_tls * TransportConfig).

(*| crates/tunnara-quic/src/lib.rs 96-98 QuicServer::close *)
Definition server_close : endpoint -> N -> string -> St W unit := endpoint_close.
(*| crates/tunnara-quic/src/lib.rs 120-122 QuicClient::close *)
Definition client_close (client : QuicClient) : N -> string -> St W unit := endpoint_close (fst client).

(*| crates/tunnara-quic/src/lib.rs 106-110 QuicClient::bind *)
Definition client_bind (address : SocketAddr) (c : client_tls * TransportConfig) : St W (result string QuicClient) :=
  e ←? endpoint_client address;
  mret (Ok (e, c)).

(*| crates/tunnara-quic/src/lib.rs 112-118 QuicClient::connect *)
Definition client_connect (client : QuicClient) (remote : SocketAddr) (server_name : string) :
    St W (result string connection) :=
  started ← endpoint_connect (fst client) (snd client) remote server_name;
  match started with
  | Err _ => mret (Err "endereço ou SNI QUIC inválido")
  | Ok handshake => mret (with_context "não foi possível estabelecer a conexão QUIC" handshake)
  end.

(*| crates/tunnara-quic/src/lib.rs 125-133 send_request *)
Definition send_request (c : connection) (payload : string) : St W (result string string) :=
  opened ← open_bi c;
  stream ←? mret (with_context "não foi possível abrir stream QUIC" opened);
  _ ←? write_all stream payload;
  _ ←? finish stream;
  read_to_end (64 * 1024 * 1024) stream.

(** ** The bridge *)

(*| services/quic-bridge/src/main.rs 34-64 Command *)
Inductive Command : Type :=
| Server (listen upstream : SocketAddr) (cert key : string)
| Client (listen remote : SocketAddr) (server_name : string) (ca : option string) (reconnect_seconds : N).

(*| services/quic-bridge/src/main.rs 66-77 load_certificates *)
Definition load_certificates (path : string) : St W (result string (list certificate)) :=
  file ← pem_open path;
  text ←? mret (with_context ("não foi possível abrir o certificado " ++ path) file);
  certs ←? mret (with_context "certificado PEM inválido" (pem_certs text));
  match certs with
  | [] => mret (Err ("nenhum certificado foi encontrado em " ++ path))
  | _ => mret (Ok certs)
  end.

(*| services/quic-bridge/src/main.rs 79-86 load_private_key *)
Definition load_private_key (path : string) : St W (result string private_key) :=
  file ← pem_open path;
  text ←? mret (with_context ("não foi possível abrir a chave " ++ path) file);
  key ←? mret (with_context "chave privada PEM inválida" (pem_private_key text));
  mret (ok_or ("nenhuma chave privada foi encontrada em " ++ path) key).

(** Until the loop that accepts connections. *)
(*| services/quic-bridge/src/main.rs 141-152 run_server *)
Definition start_server (listen : SocketAddr) (cert key : string) : St W (result string endpoint) :=
  certs ←? load_certificates cert;
  private ←? load_private_key key;
  config ←? mret (make_server_config certs private quic_transport_default);
  server ←? server_bind listen config;
  _ ←? server_local_addr server;
  mret (Ok server).

(** The roots a connection trusts: those of a file, or those of the system. *)
(*| services/quic-bridge/src/main.rs 194-206 connect_quic *)
Definition trusted_roots (ca : option string) : St W (result string root_store) :=
  match ca with
  | Some path =>
      certs ←? load_certificates path;
      let '(roots, (added, ignored)) := add_parsable certs no_roots in
      mret (if (added =? 0)%N
            then Err ("nenhum certificado CA válido foi carregado; ignorados: " ++ show_N ignored)
            else Ok roots)
  | None =>
      native ← native_certs;
      let '(roots, (added, ignored)) := add_parsable (fst native) no_roots in
      mret (if (added =? 0)%N
            then Err ("nenhuma CA do sistema foi carregada; certificados ignorados: " ++ show_N ignored
                      ++ "; erros: " ++ snd native)
            else Ok roots)
  end.

(** IPv4's unspecified address, and a port the system chooses. *)
Definition any_addr : SocketAddr := SocketAddrV4 [0; 0; 0; 0]%N 0.

(*| services/quic-bridge/src/main.rs 189-213 connect_quic *)
Definition connect_quic (remote : SocketAddr) (server_name : string) (ca : option string) :
    St W (result string (QuicClient * connection)) :=
  roots ←? trusted_roots ca;
  config ←? mret (make_client_config roots quic_transport_default);
  client ←? client_bind any_addr config;
  c ←? client_connect client remote server_name;
  mret (Ok (client, c)).

(** Until the loop that accepts local connections. *)
(*| services/quic-bridge/src/main.rs 215-225 run_client *)
Definition start_client (listen : SocketAddr) : St W (result string unit) :=
  r ← tcp_bind listen;
  mret (with_context ("não foi possível abrir " ++ show_socket_addr listen) r).

(** Both commands, until their loops; the error ends the process. *)
(*| services/quic-bridge/src/main.rs 268-287 main *)
Definition start_command (c : Command) : St W (result string (option endpoint)) :=
  match c with
  | Server listen _ cert key => e ←? start_server listen cert key; mret (Ok (Some e))
  | Client listen _ _ _ _ => _ ←? start_client listen; mret (Ok None)
  end.
End Quic.

(** A QUIC connection is never made with an empty set of roots. *)
Lemma trusted_roots_added {W} `{QS : QuicStack W} ca w roots w' :
  trusted_roots ca w = (Ok roots, w') ->
  exists certs added ignored, add_parsable certs no_roots = (roots, (added, ignored)) /\ (added <> 0)%N.
Proof.
  unfold trusted_roots. destruct ca as [path|].
  - intros (certs & w1 & _ & H)%try_Ok. destruct (add_parsable certs no_roots) as [r [a i]] eqn:E.
    destruct (N.eqb_spec a 0); [done|]. injection H as <- _. by exists certs, a, i.
  - intros H. run_bind H native w1. destruct (add_parsable _ no_roots) as [r [a i]] eqn:E.
    destruct (N.eqb_spec a 0); [done|]. injection H as <- _. by exists (fst native), a, i.
Qed.

(** Each command fails with the text of the first thing it lacks. *)
Lemma load_certificates_cases {W} `{QS : QuicStack W} path w r w' :
  load_certificates path w = (r, w') ->
  match fst (pem_open path w) with
  | Err _ => r = Err ("não foi possível abrir o certificado " ++ path)
  | Ok text => match pem_certs text with
               | Err _ => r = Err "certificado PEM inválido"
               | Ok [] => r = Err ("nenhum certificado foi encontrado em " ++ path)
               | Ok certs => r = Ok certs
               end
  end.
Proof.
  unfold load_certificates. intros H. run_bind H file w1 as E. rewrite E. cbn [fst].
  destruct file as [text|e]; [|by injection H as <- _].
  change ((certs ←? mret (with_context "certificado PEM inválido" (pem_certs text));
    match certs with [] => mret (Err ("nenhum certificado foi encontrado em " ++ path)) | _ => mret (Ok certs) end) w1
    = (r, w')) in H.
  destruct (pem_certs text) as [[|c l]|e]; by injection H as <- _.
Qed.

Example show_socket_addr_v6 :
  map (fun s => show_socket_addr <$> parse_socket_addr s)
    ["[::1]:7443"; "[2001:db8:0:0:1:0:0:1]:1"; "[::ffff:1.2.3.4]:5"; "0.0.0.0:7443"; "[fe80::1%3]:80"]
  = [Some "[::1]:7443"; Some "[2001:db8::1:0:0:1]:1"; Some "[::ffff:1.2.3.4]:5"; Some "0.0.0.0:7443";
     Some "[fe80::1%3]:80"].
Proof. vm_compute. reflexivity. Qed.
