(* ===== verification/BridgeStreams.v ===== *)
(** * What the QUIC bridge carries: tunnara-quic-bridge

    A connection is carried by a task with two copies, one per direction, that
    run at the same time: [proxy_step]. A server keeps the tasks of a QUIC
    connection in a set: [serve_step]. It takes connections one after another:
    [server_accept]. Each is a function from a state and an action, chosen by the
    network and by the scheduler, to the next state, or to none when the action
    cannot happen; a run is a list of actions. *)

From Stdlib Require Import Ascii.
From S2P Require Import Prelude.

#[local] Open Scope string_scope.

(** Runs of a step function. *)
Section Runs.
Context {S A : Type} (step : S -> A -> option S).
Fixpoint runs (s : S) (l : list A) : option S :=
  match l with [] => Some s | a :: r => s' ← step s a; runs s' r end.

Lemma runs_app s l1 l2 : runs s (l1 ++ l2)%list = s' ← runs s l1; runs s' l2.
Proof. revert s. induction l1 as [|a l1 IH]; intros s; [done|]. cbn. destruct (step s a); [apply IH|done]. Qed.

(** What holds at the start and is kept by each step holds after a run; the
    actions taken so far are at hand. *)
Lemma runs_ind (P : list A -> S -> Prop) s0 :
  P [] s0 -> (forall l s a s', P l s -> step s a = Some s' -> P (l ++ [a])%list s') ->
  forall l s, runs s0 l = Some s -> P l s.
Proof.
  intros H0 Hs l. induction l as [|a l IH] using rev_ind; intros s.
  - by intros [= <-].
  - rewrite runs_app. destruct (runs s0 l) as [s1|]; [|done]. cbn. destruct (step s1 a) eqn:E; [|done].
    intros [= <-]. by eapply Hs; [apply IH|].
Qed.
End Runs.

(** ** One connection *)

Inductive Side : Type := TcpToQuic | QuicToTcp.
#[export] Instance Side_eq_dec : EqDecision Side.
Proof. solve_decision. Defined.

(** A direction: what arrived and was not read, whether its source ended, what
    [io::copy] read and did not write, what the other end has, and whether it was
    told that nothing follows: [finish] on QUIC, [shutdown] on TCP. *)
Record Direction : Type := {
  unread : list ascii;
  source_end : bool;
  held : list ascii;
  sink : list ascii;
  sink_end : bool;
}.
Definition idle : Direction :=
  {| unread := []; source_end := false; held := []; sink := []; sink_end := false |}.

(** [try_join!] ends with the first failure, which drops the other direction. *)
Inductive Progress : Type := Running | Completed | Broken.
#[export] Instance Progress_eq_dec : EqDecision Progress.
Proof. solve_decision. Defined.

Record Proxy : Type := { to_quic : Direction; to_tcp : Direction; progress : Progress }.
Definition direction (s : Side) (p : Proxy) : Direction :=
  match s with TcpToQuic => to_quic p | QuicToTcp => to_tcp p end.
Definition set_direction (s : Side) (d : Direction) (p : Proxy) : Proxy :=
  match s with
  | TcpToQuic => {| to_quic := d; to_tcp := to_tcp p; progress := progress p |}
  | QuicToTcp => {| to_quic := to_quic p; to_tcp := d; progress := progress p |}
  end.
Definition set_progress (x : Progress) (p : Proxy) : Proxy :=
  {| to_quic := to_quic p; to_tcp := to_tcp p; progress := x |}.
Definition connected : Proxy := {| to_quic := idle; to_tcp := idle; progress := Running |}.

(** What the network does ([Arrive], [EndSource], [Fail]) and what the task does. *)
Inductive ProxyAction : Type :=
| Arrive (s : Side) (bytes : list ascii)
| EndSource (s : Side)
| Read_ (s : Side) (n : nat)
| Write_ (s : Side) (n : nat)
| Finish (s : Side)
| Fail_ (s : Side).

(** The buffer of [io::copy]. *)
Definition copy_buffer : nat := N.to_nat 8192.

Definition both_ended (p : Proxy) : bool := sink_end (to_quic p) && sink_end (to_tcp p).

Definition direction_step (d : Direction) (a : ProxyAction) : option Direction :=
  match a with
  | Arrive _ bytes =>
      if source_end d then None
      else Some {| unread := unread d ++ bytes; source_end := false; held := held d; sink := sink d;
                   sink_end := sink_end d |}
  | EndSource _ =>
      if source_end d then None
      else Some {| unread := unread d; source_end := true; held := held d; sink := sink d;
                   sink_end := sink_end d |}
  | Read_ _ n =>
      if sink_end d || (n =? 0)%nat || (length (unread d) <? n)%nat
         || (copy_buffer <? length (held d) + n)%nat then None
      else Some {| unread := drop n (unread d); source_end := source_end d;
                   held := held d ++ take n (unread d); sink := sink d; sink_end := sink_end d |}
  | Write_ _ n =>
      if sink_end d || (n =? 0)%nat || (length (held d) <? n)%nat then None
      else Some {| unread := unread d; source_end := source_end d; held := drop n (held d);
                   sink := sink d ++ take n (held d); sink_end := sink_end d |}
  | Finish _ =>
      if negb (sink_end d) && source_end d && (length (unread d) =? 0)%nat && (length (held d) =? 0)%nat
      then Some {| unread := []; source_end := true; held := []; sink := sink d; sink_end := true |}
      else None
  | Fail_ _ => if sink_end d then None else Some d
  end%list.

Definition side_of (a : ProxyAction) : Side :=
  match a with Arrive s _ | EndSource s | Read_ s _ | Write_ s _ | Finish s | Fail_ s => s end.

(*| services/quic-bridge/src/main.rs 99-111 proxy_quic_to_tcp *)
Definition proxy_step (p : Proxy) (a : ProxyAction) : option Proxy :=
  match progress p with
  | Running =>
      d ← direction_step (direction (side_of a) p) a;
      let p' := set_direction (side_of a) d p in
      Some (match a with
            | Fail_ _ => set_progress Broken p'
            | Finish _ => if both_ended p' then set_progress Completed p' else p'
            | _ => p'
            end)
  | Completed | Broken => None
  end.

(** A task whose connection or stream is refused copies nothing. *)
Definition proxy_start (opened : bool) : Proxy :=
  if opened then connected else set_progress Broken connected.

(** On the server's side the TCP connection is opened, then its option is set. *)
(*| services/quic-bridge/src/main.rs 88-113 proxy_quic_to_tcp *)
Definition proxy_quic_to_tcp (tcp_connected nodelay : bool) (l : list ProxyAction) : option Proxy :=
  runs proxy_step (proxy_start (tcp_connected && nodelay)) l.
(** On the client's side the QUIC stream is opened. *)
(*| services/quic-bridge/src/main.rs 165-187 proxy_tcp_to_quic *)
Definition proxy_tcp_to_quic (nodelay stream_opened : bool) (l : list ProxyAction) : option Proxy :=
  runs proxy_step (proxy_start (nodelay && stream_opened)) l.

(** What arrived in a direction. *)
Fixpoint arrivals (s : Side) (l : list ProxyAction) : list ascii :=
  match l with
  | Arrive s' bytes :: r => if decide (s = s') then bytes ++ arrivals s r else arrivals s r
  | _ :: r => arrivals s r
  | [] => []
  end%list.

(** What the peer of the QUIC stream sees of its end: a stream that is dropped is
    finished by quinn. *)
Definition peer_sees_end (p : Proxy) : bool :=
  sink_end (to_quic p) || bool_decide (progress p = Broken).

(** ** The tasks of a server's connection *)

Inductive Outcome : Type := Carried | StreamError (e : string) | Panicked (e : string).
Inductive ServeLog : Type := ConnectionEnded (e : string) | TaskPanic (e : string) | StreamFailed (e : string).

Record Serving : Type := {
  sv_accepting : bool;
  sv_tasks : list nat;       (** the streams whose tasks are in the set *)
  sv_accepted : nat;         (** streams are numbered as they come *)
  sv_joined : list nat;
  sv_log : list ServeLog;
  sv_returned : bool;
}.
Definition serving : Serving := {|
  sv_accepting := true; sv_tasks := []; sv_accepted := 0; sv_joined := []; sv_log := []; sv_returned := false |}.

(** [AcceptFails] is the end of the connection; [Join] the next task to end. *)
Inductive ServeAction : Type :=
| AcceptBi
| AcceptFails (e : string)
| Join (id : nat) (o : Outcome)
| Return_.

(** The loop looks at the panics only, and what follows it at the failures only. *)
Definition join_log (accepting : bool) (o : Outcome) : list ServeLog :=
  match o with
  | Carried => []
  | StreamError e => if accepting then [] else [StreamFailed e]
  | Panicked e => if accepting then [TaskPanic e] else []
  end.

(*| services/quic-bridge/src/main.rs 115-139 serve_connection *)
Definition serve_step (s : Serving) (a : ServeAction) : option Serving :=
  if sv_returned s then None else
  match a with
  | AcceptBi =>
      if sv_accepting s then
        Some {| sv_accepting := true; sv_tasks := sv_tasks s ++ [sv_accepted s];
                sv_accepted := S (sv_accepted s); sv_joined := sv_joined s; sv_log := sv_log s;
                sv_returned := false |}
      else None
  | AcceptFails e =>
      if sv_accepting s then
        Some {| sv_accepting := false; sv_tasks := sv_tasks s; sv_accepted := sv_accepted s;
                sv_joined := sv_joined s; sv_log := sv_log s ++ [ConnectionEnded e]; sv_returned := false |}
      else None
  | Join id o =>
      if bool_decide (id ∈ sv_tasks s) then
        Some {| sv_accepting := sv_accepting s;
                sv_tasks := List.filter (fun t => negb (t =? id)%nat) (sv_tasks s);
                sv_accepted := sv_accepted s; sv_joined := sv_joined s ++ [id];
                sv_log := sv_log s ++ join_log (sv_accepting s) o; sv_returned := false |}
      else None
  | Return_ =>
      match sv_accepting s, sv_tasks s with
      | false, [] => Some {| sv_accepting := false; sv_tasks := []; sv_accepted := sv_accepted s;
                             sv_joined := sv_joined s; sv_log := sv_log s; sv_returned := true |}
      | _, _ => None
      end
  end%list.

(** ** The server's loop *)

Definition opt_list {A} (o : option A) : list A := match o with Some x => [x] | None => [] end.

(** Connections are numbered as they arrive. *)
Record Accepting : Type := {
  ac_arrived : nat;
  ac_queue : list nat;
  ac_handshake : option nat;   (** the one whose handshake is awaited *)
  ac_done : list (nat * bool); (** the others, and whether they are served *)
}.
Definition accepting : Accepting :=
  {| ac_arrived := 0; ac_queue := []; ac_handshake := None; ac_done := [] |}.

Inductive AcceptAction : Type := Incoming | Take_ | Handshake (ok : bool).

(** [QuicServer::accept] takes a connection and awaits its handshake before the
    loop comes round. *)
(*| crates/tunnara-quic/src/lib.rs 87-94 QuicServer::accept *)
Definition server_accept (s : Accepting) (a : AcceptAction) : option Accepting :=
  match a, ac_handshake s with
  | Incoming, h =>
      Some {| ac_arrived := S (ac_arrived s); ac_queue := ac_queue s ++ [ac_arrived s];
              ac_handshake := h; ac_done := ac_done s |}
  | Take_, None =>
      match ac_queue s with
      | c :: r => Some {| ac_arrived := ac_arrived s; ac_queue := r; ac_handshake := Some c;
                          ac_done := ac_done s |}
      | [] => None
      end
  | Handshake ok, Some c =>
      Some {| ac_arrived := ac_arrived s; ac_queue := ac_queue s; ac_handshake := None;
              ac_done := ac_done s ++ [(c, ok)] |}
  | _, _ => None
  end%list.
(*| services/quic-bridge/src/main.rs 153-162 run_server *)
Definition server_run : Accepting -> list AcceptAction -> option Accepting := runs server_accept.

(** ** Bytes *)

(** What a direction holds of what arrived, whatever happened. *)
Definition carried (l : list ProxyAction) (s : Side) (d : Direction) : Prop :=
  arrivals s l = (sink d ++ held d ++ unread d)%list /\
  (source_end d = true <-> EndSource s ∈ l) /\
  (sink_end d = true -> source_end d = true /\ held d = [] /\ unread d = []) /\
  length (held d) <= copy_buffer.

Lemma arrivals_app s l1 l2 : arrivals s (l1 ++ l2)%list = (arrivals s l1 ++ arrivals s l2)%list.
Proof.
  induction l1 as [|a l1 IH]; [done|]. destruct a; cbn; try apply IH.
  destruct (decide _); [by rewrite IH, app_assoc|apply IH].
Qed.

Lemma carried_other l s a d : side_of a <> s -> carried l s d -> carried (l ++ [a])%list s d.
Proof.
  intros Hs (Ha & He & Hf & Hb). split_and!; [|split|done|done].
  - rewrite arrivals_app, Ha. destruct a; cbn in *; rewrite ?app_nil_r; try done.
    destruct (decide _); [congruence|by rewrite app_nil_r].
  - intros H. apply elem_of_app. left. by apply He.
  - intros [H|H]%elem_of_app; [by apply He|]. apply list_elem_of_singleton in H. subst a. done.
Qed.

Lemma ends_snoc s l a : EndSource s ∈ (l ++ [a])%list <-> EndSource s ∈ l \/ a = EndSource s.
Proof. rewrite elem_of_app, list_elem_of_singleton. naive_solver. Qed.

Lemma arrivals_snoc s l a : arrivals s (l ++ [a])%list = (arrivals s l ++ arrivals s [a])%list.
Proof. apply arrivals_app. Qed.

Lemma carried_step l a d d' :
  carried l (side_of a) d -> direction_step d a = Some d' -> carried (l ++ [a])%list (side_of a) d'.
Proof.
  intros (Ha & He & Hf & Hb) Hd. unfold carried. rewrite ends_snoc, arrivals_snoc, Ha.
  destruct a as [s bytes|s|s n|s n|s|s]; cbn [side_of] in *; cbn [direction_step] in Hd; cbn [arrivals];
    rewrite ?app_nil_r; repeat case_match; simplify_eq; cbn [sink held unread source_end sink_end];
    rewrite ?orb_false_iff, ?andb_true_iff, ?negb_true_iff, ?Nat.eqb_eq, ?Nat.ltb_ge in *; destruct_and?.
  - rewrite !app_assoc. split_and!; [done|by rewrite <- He; naive_solver| |done].
    intros Hs. destruct (Hf Hs) as (? & ? & ?). congruence.
  - split_and!; [done|naive_solver| |done]. intros Hs. by destruct (Hf Hs) as (? & ? & ?).
  - rewrite <- (take_drop n (unread d)) at 1. rewrite <- !app_assoc.
    split_and!; [done|naive_solver|congruence|]. rewrite length_app, length_take. lia.
  - rewrite <- (take_drop n (held d)) at 1. rewrite <- !app_assoc.
    split_and!; [done|naive_solver|congruence|]. rewrite length_drop. lia.
  - destruct (held d); [|done]. destruct (unread d); [|done]. split_and!; [done|naive_solver|done|cbn; lia].
  - split_and!; [done|naive_solver|congruence|done].
Qed.

Definition proxy_ok (l : list ProxyAction) (p : Proxy) : Prop :=
  (forall s, carried l s (direction s p)) /\
  (progress p = Completed <-> both_ended p = true) /\
  (progress p = Broken <-> exists s, Fail_ s ∈ l).

Lemma direction_set s s' d p :
  direction s (set_direction s' d p) = if decide (s = s') then d else direction s p.
Proof. by destruct s, s'. Qed.

Lemma direction_progress s x p : direction s (set_progress x p) = direction s p.
Proof. by destruct s. Qed.

Lemma fails_snoc l a : (exists s, Fail_ s ∈ (l ++ [a])%list) <-> (exists s, Fail_ s ∈ l) \/ exists s, a = Fail_ s.
Proof.
  split.
  - intros [s [H|H]%elem_of_app]; [left; by exists s|right; exists s]. by apply list_elem_of_singleton in H.
  - intros [[s H]|[s ->]]; exists s; apply elem_of_app; [by left|right; apply list_elem_of_here].
Qed.

Lemma both_ended_spec p : both_ended p = true <-> forall s, sink_end (direction s p) = true.
Proof.
  unfold both_ended. rewrite andb_true_iff. split; [intros [H1 H2] []; done|].
  intros H. split; [apply (H TcpToQuic)|apply (H QuicToTcp)].
Qed.

Lemma proxy_step_ok l p a p' : proxy_ok l p -> proxy_step p a = Some p' -> proxy_ok (l ++ [a])%list p'.
Proof.
  intros (Hc & Hd & Hb) Hs. unfold proxy_step in Hs. destruct (progress p) eqn:Ep; try done.
  apply bind_Some in Hs as (d & Es & [= <-]).
  set (p1 := set_direction (side_of a) d p) in *.
  assert (forall s, carried (l ++ [a])%list s (direction s p1)) as Hc1.
  { intros s. subst p1. rewrite direction_set. destruct (decide (s = side_of a)) as [->|Hn].
    - by eapply carried_step.
    - apply carried_other; [congruence|apply Hc]. }
  assert (progress p1 = Running) as Ep1 by (subst p1; destruct a as [[]|[]|[]|[]|[]|[]]; cbn; congruence).
  assert (~ exists s, Fail_ s ∈ l) as Hnf by (rewrite <- Hb; congruence).
  assert (both_ended p = false) as Hbe
    by (destruct (both_ended p); [|done]; destruct Hd as [_ Hd]; by specialize (Hd eq_refl)).
  assert ((forall s, a <> Finish s) -> both_ended p1 = both_ended p) as Hkeep.
  { intros Hn. subst p1. destruct a as [[]|[]|[]|[]|s|[]]; try (by destruct (Hn s)); cbn in Es;
      repeat case_match; simplify_eq; cbn; done. }
  unfold proxy_ok. rewrite fails_snoc.
  destruct a as [s bytes|s|s n|s n|s|s]; cbn [set_progress progress to_quic to_tcp];
    try (rewrite Ep1, (Hkeep ltac:(done)), Hbe; split_and!; [done|done|naive_solver]).
  - destruct (both_ended p1) eqn:E1; cbn; rewrite ?Ep1.
    + split_and!; [intros s'; rewrite direction_progress; apply Hc1|done|naive_solver].
    + rewrite E1. split_and!; [done|done|naive_solver].
  - change (both_ended (set_progress Broken p1)) with (both_ended p1). rewrite (Hkeep ltac:(done)), Hbe.
    split_and!; [intros s'; rewrite direction_progress; apply Hc1|done|]. split; [intros _; right; by exists s|done].
Qed.

Lemma connected_ok : proxy_ok [] connected.
Proof.
  split_and!.
  - intros s. unfold carried. replace (direction s connected) with idle by by destruct s. cbn.
    split_and!; [by destruct s|split; [done|by intros ?%not_elem_of_nil]|done|lia].
  - done.
  - split; [done|]. intros [s H]. by apply not_elem_of_nil in H.
Qed.

Lemma proxy_runs_ok l p : runs proxy_step connected l = Some p -> proxy_ok l p.
Proof. apply (runs_ind proxy_step proxy_ok); [apply connected_ok|]. intros. by eapply proxy_step_ok. Qed.

(** C35. What a carried connection delivers. In either direction, at any moment of
    any schedule, the other end has a beginning of what arrived, byte for byte, and
    what it lacks is in the copy's buffer, of 8 KiB at most, or was not read; the
    other end is told that nothing follows only when the source ended and all of it
    was written. The task ends well exactly when both directions did, and fails
    exactly when an operation of one failed, which stops the other too. *)
Theorem proxy_delivers_in_order l p :
  runs proxy_step connected l = Some p ->
  (forall s, exists rest, arrivals s l = (sink (direction s p) ++ rest)%list /\
     rest = (held (direction s p) ++ unread (direction s p))%list /\
     length (held (direction s p)) <= copy_buffer /\
     (sink_end (direction s p) = true -> rest = [] /\ EndSource s ∈ l)) /\
  (progress p = Completed <-> forall s, sink_end (direction s p) = true) /\
  (progress p = Broken <-> exists s, Fail_ s ∈ l).
Proof.
  intros (Hc & Hd & Hb)%proxy_runs_ok. rewrite <- both_ended_spec. split_and!; [|done|done].
  intros s. destruct (Hc s) as (Ha & He & Hf & Hn). eexists. split_and!; [exact Ha|done|done|].
  intros Hs. destruct (Hf Hs) as (Hse & -> & ->). split; [done|by apply He].
Qed.

(** ** Termination *)

(** What the task still has to do, when nothing more arrives. *)
Definition work (d : Direction) : nat :=
  2 * length (unread d) + length (held d) + (if sink_end d then 0 else 1).
Definition proxy_work (p : Proxy) : nat := work (to_quic p) + work (to_tcp p).

(** What the task does itself. *)
Definition own (a : ProxyAction) : bool :=
  match a with Read_ _ _ | Write_ _ _ | Finish _ => true | _ => false end.

Lemma direction_work d a d' : own a = true -> direction_step d a = Some d' -> work d' < work d.
Proof.
  intros Ho Hs. unfold work. destruct a; try done; cbn [direction_step] in Hs; repeat case_match; simplify_eq;
    cbn [sink held unread source_end sink_end] in *;
    rewrite ?orb_false_iff, ?andb_true_iff, ?negb_true_iff, ?Nat.eqb_eq, ?Nat.eqb_neq, ?Nat.ltb_ge in *;
    destruct_and?; rewrite ?length_app, ?length_take, ?length_drop; cbn [length]; try lia; congruence.
Qed.

Lemma proxy_step_work p a p' : own a = true -> proxy_step p a = Some p' -> proxy_work p' < proxy_work p.
Proof.
  intros Ho Hs. unfold proxy_step in Hs. destruct (progress p); try done.
  apply bind_Some in Hs as (d & Es & [= <-]). pose proof (direction_work _ _ _ Ho Es) as Hw.
  assert (proxy_work (set_direction (side_of a) d p) < proxy_work p) as H
    by (destruct (side_of a); unfold proxy_work, direction in *; cbn in *; lia).
  destruct a; try done. destruct (both_ended _); done.
Qed.

Lemma own_runs_work p l p' :
  Forall (fun a => own a = true) l -> runs proxy_step p l = Some p' -> length l + proxy_work p' <= proxy_work p.
Proof.
  revert p. induction l as [|a l IH]; intros p Hl; [intros [= ->]; cbn; lia|]. apply Forall_cons in Hl as [Ha Hl].
  cbn [runs]. intros (p1 & E & H)%bind_Some. apply IH in H; [|done]. apply proxy_step_work in E; [|done].
  cbn [length]. lia.
Qed.

(** A direction whose source ended and that is not through can do something. *)
Lemma direction_moves d s : sink_end d = false -> source_end d = true -> length (held d) <= copy_buffer ->
  exists a d', own a = true /\ side_of a = s /\ direction_step d a = Some d'.
Proof.
  intros Hs He Hb. destruct (held d) as [|b h] eqn:Eh; [destruct (unread d) as [|b u] eqn:Eu|].
  - exists (Finish s). eexists. split_and!; [done|done|]. cbn. by rewrite Hs, He, Eh, Eu.
  - exists (Read_ s 1). eexists. split_and!; [done|done|]. cbn [direction_step]. rewrite Hs, Eh, Eu. cbn [length].
    replace (copy_buffer <? 0 + 1)%nat with false by (vm_compute; reflexivity). cbn. reflexivity.
  - exists (Write_ s 1). eexists. split_and!; [done|done|]. cbn [direction_step]. rewrite Hs, Eh. cbn. reflexivity.
Qed.

(** C36. A carried connection comes to its end. Once both sources ended, and no
    operation fails, every schedule of the task is finite, bounded by the bytes
    that are left; it can always go on until both directions are through; and then
    each end has exactly what the other sent. *)
Theorem proxy_completes l p own_actions p' :
  runs proxy_step connected l = Some p -> progress p = Running -> (forall s, EndSource s ∈ l) ->
  Forall (fun a => own a = true) own_actions -> runs proxy_step p own_actions = Some p' ->
  length own_actions <= proxy_work p /\
  (progress p' = Running -> exists a p2, own a = true /\ proxy_step p' a = Some p2) /\
  (progress p' = Completed -> forall s, sink (direction s p') = arrivals s l) /\
  (progress p' = Running \/ progress p' = Completed).
Proof.
  intros Hr Hp He Ho H.
  assert (runs proxy_step connected (l ++ own_actions)%list = Some p') as Hall
    by (rewrite runs_app, Hr; exact H).
  pose proof (proxy_runs_ok _ _ Hall) as (Hc & Hd & Hb).
  assert (forall s, arrivals s (l ++ own_actions)%list = arrivals s l) as Har.
  { intros s. rewrite arrivals_app. replace (arrivals s own_actions) with (@nil ascii); [apply app_nil_r|].
    symmetry. clear -Ho. induction Ho as [|a r Ha _ IH]; [done|]. by destruct a. }
  assert (progress p' <> Broken) as Hnb.
  { rewrite Hb. intros [s [Hs|Hs]%elem_of_app].
    - pose proof (proxy_runs_ok _ _ Hr) as (_ & _ & Hb0). rewrite Hp in Hb0. destruct Hb0 as [_ Hb0].
      specialize (Hb0 (ex_intro _ s Hs)). discriminate Hb0.
    - rewrite Forall_forall in Ho. by specialize (Ho _ Hs). }
  split_and!.
  - pose proof (own_runs_work _ _ _ Ho H). lia.
  - intros Hrun. assert (exists s, sink_end (direction s p') = false) as [s Hs].
    { destruct (both_ended p') eqn:E; [destruct Hd as [_ Hd]; specialize (Hd eq_refl); congruence|].
      unfold both_ended in E. apply andb_false_iff in E as [E|E]; [by exists TcpToQuic|by exists QuicToTcp]. }
    destruct (Hc s) as (_ & Hse & _ & Hbuf).
    destruct (direction_moves (direction s p') s) as (a & d & Ha & Hsd & Hst); [done| |done|].
    { apply Hse. apply elem_of_app. left. apply He. }
    exists a. eexists. split; [exact Ha|]. unfold proxy_step. rewrite Hrun, Hsd, Hst. reflexivity.
  - intros Hcomp s. apply Hd in Hcomp. apply (proj1 (both_ended_spec p')) with (s := s) in Hcomp. destruct (Hc s) as (Ha & _ & Hf & _).
    destruct (Hf Hcomp) as (_ & Eh & Eu). by rewrite <- Har, Ha, Eh, Eu, app_nil_r.
  - destruct (progress p'); [by left|by right|by destruct Hnb].
Qed.

(** A failure can leave the other end with a part of what arrived, and with a QUIC
    stream that looks like one that ended. *)
Example truncated_end :
  let p := runs proxy_step connected
    [Arrive TcpToQuic ["a"; "b"]%char; Read_ TcpToQuic 2; Write_ TcpToQuic 1; Fail_ QuicToTcp] in
  (fun p => (sink (to_quic p), peer_sees_end p)) <$> p = Some (["a"]%char, true).
Proof. vm_compute. reflexivity. Qed.

(** ** The tasks of a server's connection *)

Definition serve_ok (l : list ServeAction) (s : Serving) : Prop :=
  Permutation (sv_tasks s ++ sv_joined s)%list (seq 0 (sv_accepted s)) /\
  (sv_accepting s = true <-> forall e, (AcceptFails e ∉ l)) /\
  (sv_returned s = true -> sv_tasks s = [] /\ sv_accepting s = false) /\
  (forall id, id ∈ sv_joined s <-> exists o, Join id o ∈ l).

Lemma filter_out_perm (id : nat) l : NoDup l -> id ∈ l ->
  Permutation (List.filter (fun t => negb (t =? id)%nat) l ++ [id])%list l.
Proof.
  induction l as [|x l IH]; [by intros _ ?%not_elem_of_nil|]. intros [Hx Hl]%NoDup_cons Hin. cbn.
  destruct (Nat.eqb_spec x id) as [->|Hn]; cbn.
  - replace (List.filter (fun t => negb (t =? id)%nat) l) with l; [by rewrite Permutation_app_comm|].
    symmetry. clear IH Hl Hin. induction l as [|y l IH]; [done|]. cbn.
    destruct (Nat.eqb_spec y id) as [->|]; [destruct Hx; apply list_elem_of_here|]. cbn. f_equal. apply IH.
    intros H. apply Hx. by right.
  - constructor. apply IH; [done|]. by apply elem_of_cons in Hin as [->|].
Qed.

Lemma serve_step_ok l s a s' : serve_ok l s -> serve_step s a = Some s' -> serve_ok (l ++ [a])%list s'.
Proof.
  intros (Hp & Ha & Hr & Hj) Hs. unfold serve_step in Hs. destruct (sv_returned s) eqn:Er; [done|].
  assert (forall e, (AcceptFails e ∉ (l ++ [a])%list) <-> (AcceptFails e ∉ l) /\ a <> AcceptFails e) as Hf.
  { intros e. rewrite elem_of_app, list_elem_of_singleton. naive_solver. }
  assert (forall id, (exists o, Join id o ∈ (l ++ [a])%list) <->
      (exists o, Join id o ∈ l) \/ exists o, a = Join id o) as Hjl.
  { intros id. split.
    - intros [o [H|H]%elem_of_app]; [left; by exists o|right; exists o]. by apply list_elem_of_singleton in H.
    - intros [[o H]|[o ->]]; exists o; apply elem_of_app; [by left|right; apply list_elem_of_here]. }
  unfold serve_ok. setoid_rewrite Hf. setoid_rewrite Hjl.
  destruct a as [|e|id o|]; repeat case_match; simplify_eq; cbn [sv_tasks sv_joined sv_accepted sv_accepting sv_returned].
  - split_and!; [|naive_solver|done|naive_solver]. rewrite seq_S, <- Hp. cbn.
    rewrite <- !app_assoc. f_equiv. apply Permutation_app_comm.
  - split_and!; [done| |done|naive_solver]. split; [done|]. intros Hno. by destruct (Hno e).
  - match goal with Hb : bool_decide _ = true |- _ => apply bool_decide_eq_true in Hb as Hin end.
    assert (NoDup (sv_tasks s)) as Hn by (apply (NoDup_app (sv_tasks s) (sv_joined s)); rewrite Hp; apply NoDup_seq).
    split_and!; [|naive_solver|done|].
    + rewrite <- Hp. rewrite <- (filter_out_perm id (sv_tasks s)) at 2; [|done|done]. rewrite <- app_assoc. f_equiv.
      apply Permutation_app_comm.
    + intros x. rewrite elem_of_app, list_elem_of_singleton, Hj. naive_solver.
  - split_and!; [done|naive_solver|done|naive_solver].
Qed.

Lemma serving_ok : serve_ok [] serving.
Proof.
  unfold serve_ok. cbn. split_and!; [done|split; [intros _ e H; by apply not_elem_of_nil in H|done]|done|].
  intros id. split; [by intros ?%not_elem_of_nil|]. intros [o H]. by apply not_elem_of_nil in H.
Qed.

(** The log of a run: the panics seen before the connection ended, its end, and
    the failures seen after. *)
Fixpoint panics (l : list ServeAction) : list ServeLog :=
  match l with Join _ (Panicked e) :: r => TaskPanic e :: panics r | _ :: r => panics r | [] => [] end.
Fixpoint failures (l : list ServeAction) : list ServeLog :=
  match l with Join _ (StreamError e) :: r => StreamFailed e :: failures r | _ :: r => failures r | [] => [] end.

Lemma serve_log_open l s s' : (forall e, AcceptFails e ∉ l) -> sv_accepting s = true ->
  runs serve_step s l = Some s' -> sv_log s' = (sv_log s ++ panics l)%list /\ sv_accepting s' = true.
Proof.
  revert s. induction l as [|a l IH]; intros s Hn Ha; cbn [runs]; [intros [= <-]; by rewrite app_nil_r|].
  intros (s1 & E & H)%bind_Some. apply IH in H as [Hl Hacc].
  - rewrite Hl. split; [|done]. unfold serve_step in E. destruct (sv_returned s); [done|].
    destruct a as [|e|id [|x|x]|]; rewrite ?Ha in E; repeat case_match; simplify_eq; cbn;
      rewrite <- ?app_assoc; try done. by destruct (Hn e (list_elem_of_here _ _)).
  - intros e He. apply (Hn e). by right.
  - unfold serve_step in E. destruct (sv_returned s); [done|].
    destruct a as [|e|id o|]; rewrite ?Ha in E; repeat case_match; simplify_eq; try done.
    destruct (Hn e). apply list_elem_of_here.
Qed.
Lemma serve_log_ended l s s' : sv_accepting s = false -> runs serve_step s l = Some s' ->
  sv_log s' = (sv_log s ++ failures l)%list.
Proof.
  revert s. induction l as [|a l IH]; intros s Ha; cbn [runs]; [intros [= <-]; by rewrite app_nil_r|].
  intros (s1 & E & H)%bind_Some. unfold serve_step in E. destruct (sv_returned s); [done|].
  destruct a as [|e|id [|x|x]|]; rewrite ?Ha in E; repeat case_match; simplify_eq; apply IH in H; try done;
    rewrite H; cbn; rewrite <- ?app_assoc, ?app_nil_r; done.
Qed.


(** ** The server's loop *)

(** Connections are taken in the order they come, and each is served or
    refused before the next is looked at: a handshake that takes its time keeps
    every later connection waiting. *)
Theorem accept_in_order l s :
  runs server_accept accepting l = Some s ->
  seq 0 (ac_arrived s) = (map fst (ac_done s) ++ opt_list (ac_handshake s) ++ ac_queue s)%list.
Proof.
  apply (runs_ind server_accept (fun _ s => seq 0 (ac_arrived s)
    = (map fst (ac_done s) ++ opt_list (ac_handshake s) ++ ac_queue s)%list)); [done|].
  clear. intros _ s a s' IH E. unfold server_accept in E.
  destruct a as [| |ok], (ac_handshake s) as [c|] eqn:Eh; repeat case_match; simplify_eq;
    cbn [ac_arrived ac_queue ac_handshake ac_done opt_list] in *; cbn [opt_list] in IH.
  - rewrite seq_S, IH. cbn. by rewrite <- !app_assoc.
  - rewrite seq_S, IH. cbn. by rewrite <- !app_assoc.
  - by rewrite IH.
  - rewrite IH, map_app, <- app_assoc. done.
Qed.
