(* ===== verification/ServiceLifecycle.v ===== *)
(** * The life of an event service

    [native_webhook/server.rs] and [native_websocket/server.rs] hold the same
    state machine over two configuration types: one optional runtime handle,
    started, stopped and asked for its status. It is written once, against the
    interface [ManagedService] of what a configuration offers, and each server
    is an instance of it. Definitions point at the webhook file; the WebSocket
    lines are those of the instance at the end.

    A handle's shutdown sender and thread handle are always both there or both
    absent, so they are one [server_thread]. The mutexes are not modelled: the
    functions below are the runs of one caller at a time, which the start lock
    enforces for starts. *)

From Stdlib Require Import Ascii.
From S2P Require Import Prelude RustStr Json NetAddr NetBind RuntimeSettings.
From S2P Require Import ServiceConfigs RuntimeStore.

#[local] Open Scope string_scope.

(** ** Interfaces *)

(** What the state machine needs of a service and its configuration. *)
Class ManagedService (C : Type) : Type := {
  (** "Webhook Service", and "webhook" as its health reply says *)
  svc_label : string;
  svc_name : string;
  svc_path_suffix : string;
  svc_thread_name : string;
  svc_env : string;
  svc_default_port : N;
  svc_default_path : string;
  svc_enabled : C -> bool;
  svc_host : C -> string;
  svc_port : C -> N;
  svc_path : C -> string;
  svc_with_host : string -> C -> C;
  svc_validate_bind : C -> result string unit;
  svc_public_host : C -> string;
  svc_url : string -> N -> string -> string;
}.

Arguments svc_label C {_}.
Arguments svc_name C {_}.
Arguments svc_path_suffix C {_}.
Arguments svc_thread_name C {_}.
Arguments svc_env C {_}.
Arguments svc_default_port C {_}.
Arguments svc_default_path C {_}.

(** What its theorems rely on. *)
Class ManagedServiceLaws (C : Type) `{MS : ManagedService C} : Prop := {
  svc_with_host_port h c : svc_port (svc_with_host h c) = svc_port c;
  svc_with_host_path h c : svc_path (svc_with_host h c) = svc_path c;
  svc_validate_port c : svc_validate_bind c = Ok () -> svc_port c <> 0%N;
}.

(** Threads that serve a listener, and the rest of the outside world. *)
Class ServerWorld (W : Type) `{NW : NetWorld W} : Type := {
  server_thread : Type;
  set_nonblocking : listener -> St W (result string unit);
  (** send the shutdown signal, then join *)
  shutdown_join : server_thread -> St W unit;
  (** the body of a successful GET within 750 ms *)
  http_get_text : string -> St W (option string);
  now_rfc3339 : St W string;
  (** events received or clients connected *)
  activity_count : W -> nat;
  socket_addr_text : SocketAddr -> string;
}.

(** Starting a thread that serves the router of a configuration on a listener. *)
Class Spawner (W C : Type) `{SW : ServerWorld W} : Type := {
  spawn_thread : string -> C -> listener -> St W (result string server_thread);
}.

(*| src-tauri/src/native_webhook/server.rs 50-59 WebhookRuntimeStatus *)
Record RuntimeStatus : Type := {
  st_running : bool;
  st_host : string;
  st_port : N;
  st_url : option string;
  st_path : string;
  st_count : nat;
  st_started_at : option string;
}.

(*| src-tauri/src/native_webhook/server.rs 330-332 is_loopback_host *)
Definition is_loopback_host (host : string) : bool :=
  bool_decide (trim host ∈ ["127.0.0.1"; "localhost"; "::1"; "[::1]"]).

(*| src-tauri/src/native_webhook/server.rs 324-328 should_bind_loopback_mirror *)
Definition should_bind_loopback_mirror (configured_host effective_host : string) : bool :=
  negb (is_wildcard_host effective_host) && negb (is_loopback_host effective_host)
  && negb (is_loopback_host configured_host).

Section Lifecycle.
Context {W C : Type} `{SP : Spawner W C} `{MS : !ManagedService C}.
Context (env : Env).

(*| src-tauri/src/native_webhook/server.rs 15-29 WebhookRuntimeHandle *)
Record RuntimeHandle : Type := {
  rh_bind_host : string;
  rh_public_host : string;
  rh_port : N;
  rh_path : string;
  rh_started_at : string;
  rh_thread : option server_thread;
  rh_loopback : option server_thread;
}.

(** The runtime slot and the outside world. *)
Definition sstate : Type := option RuntimeHandle * W.
Definition outside {A} (c : St W A) : St sstate A := fun s =>
  let '(a, w) := c (snd s) in (a, (fst s, w)).

(*| src-tauri/src/native_webhook/server.rs 225-235 status_from_handle *)
Definition status_from_handle (h : RuntimeHandle) (w : W) : RuntimeStatus := {|
  st_running := true;
  st_host := rh_public_host h;
  st_port := rh_port h;
  st_url := Some (svc_url (rh_public_host h) (rh_port h) (rh_path h));
  st_path := rh_path h;
  st_count := activity_count w;
  st_started_at := Some (rh_started_at h) |}.

(** The status of an empty slot comes from the environment. *)
(*| src-tauri/src/native_webhook/server.rs 213-221 status *)
Definition stopped_status (w : W) : RuntimeStatus := {|
  st_running := false;
  st_host := env_or env (svc_env C ++ "_HOST") "0.0.0.0";
  st_port := unwrap_or (svc_default_port C) (env !! (svc_env C ++ "_PORT") ≫= parse_u16);
  st_url := None;
  st_path := env_or env (svc_env C ++ svc_path_suffix C) (svc_default_path C);
  st_count := activity_count w;
  st_started_at := None |}.

(*| src-tauri/src/native_webhook/server.rs 206-223 status *)
Definition service_status (s : sstate) : RuntimeStatus :=
  match fst s with
  | Some h => status_from_handle h (snd s)
  | None => stopped_status (snd s)
  end.

(** The loopback mirror is stopped before the service. *)
Definition stop_handle (h : RuntimeHandle) : St W unit :=
  _ ← match rh_loopback h with Some t => shutdown_join t | None => mret () end;
  match rh_thread h with Some t => shutdown_join t | None => mret () end.

(*| src-tauri/src/native_webhook/server.rs 180-204 stop_background *)
Definition stop_background : St sstate RuntimeStatus := fun s =>
  let w := match fst s with
           | Some h => snd (stop_handle h (snd s))
           | None => snd s
           end in
  (service_status (None, w), (None, w)).

(*| src-tauri/src/native_webhook/server.rs 363-367 socket_addr *)
Definition socket_addr (c : C) : result string SocketAddr :=
  match parse_socket_addr (svc_host c ++ ":" ++ show_N (svc_port c)) with
  | Some a => Ok a
  | None => Err ("Endereço do " ++ svc_label C ++ " inválido: " ++ addr_parse_error)
  end.

(*| src-tauri/src/native_webhook/server.rs 334-343 bind_listener_with_safe_fallback *)
Definition bind_listener_with_safe_fallback (c : C) : St W (result string PreparedListener) :=
  match socket_addr c with
  | Err e => mret (Err e)
  | Ok requested_addr =>
      r ← bind_fixed_service_listener (svc_host c) (svc_port c);
      mret (map_err (fun err => "Porta fixa do " ++ svc_label C ++ " "
        ++ socket_addr_text requested_addr ++ " indisponível: " ++ io_message err ++ ". Ajuste "
        ++ svc_env C ++ "_PORT/parâmetros ou encerre o processo que está usando esta porta.") r)
  end.

(** The JSON member the code looks for; the bare name after it subsumes it. *)
Definition health_marker (name : string) : string :=
  String DQUOTE "service" ++ String DQUOTE ":" ++ String DQUOTE name ++ String DQUOTE "".

(*| src-tauri/src/native_webhook/server.rs 347-361 existing_webhook_service_responds *)
Definition existing_service_responds (host : string) (port : N) : St W bool :=
  reply ← http_get_text ("http://" ++ host ++ ":" ++ show_N port ++ "/health");
  mret (match reply with
        | Some body => contains (health_marker (svc_name C)) body || contains (svc_name C) body
        | None => false
        end).

(*| src-tauri/src/native_webhook/server.rs 238-277 spawn_webhook_server_thread *)
Definition spawn_server_thread (name : string) (c : C) (l : listener) :
    St W (result string server_thread) :=
  r ← set_nonblocking l;
  match r with
  | Err err => mret (Err ("Falha ao configurar listener do " ++ svc_label C ++ ": " ++ err))
  | Ok _ =>
      t ← spawn_thread name c l;
      mret (map_err (fun err => "Falha ao iniciar thread do " ++ svc_label C ++ ": " ++ err) t)
  end.

(*| src-tauri/src/native_webhook/server.rs 279-322 prepare_loopback_mirror *)
Definition prepare_loopback_mirror (configured_host : string) (effective : C) (port : N) :
    St W (option server_thread) :=
  if negb (should_bind_loopback_mirror configured_host (svc_host effective)) then mret None
  else
    bound ← bind_fixed_service_listener "127.0.0.1" port;
    match bound with
    | Err _ => mret None
    | Ok p =>
        t ← spawn_server_thread (svc_thread_name C ++ "-loopback")
              (svc_with_host "127.0.0.1" effective) (pl_listener p);
        mret (ok t)
    end.

(** Put a handle in the slot and answer its status. *)
Definition fill_slot (h : RuntimeHandle) : St sstate (result string RuntimeStatus) := fun s =>
  (Ok (status_from_handle h (snd s)), (Some h, snd s)).

(** A handle for an instance of the service that another process runs. *)
(*| src-tauri/src/native_webhook/server.rs 98-115 start_background_with_config *)
Definition adopt_existing (c : C) : St sstate (result string RuntimeStatus) :=
  started_at ← outside now_rfc3339;
  let h := {| rh_bind_host := svc_host c; rh_public_host := svc_public_host c;
              rh_port := svc_port c; rh_path := svc_path c; rh_started_at := started_at;
              rh_thread := None; rh_loopback := None |} in
  fill_slot h.

(** A bound listener: start the threads and fill the slot. *)
(*| src-tauri/src/native_webhook/server.rs 142-177 start_background_with_config *)
Definition serve_bound (c : C) (bound : PreparedListener) :
    St sstate (result string RuntimeStatus) :=
  let effective := svc_with_host (pl_bind_host bound) c in
  started_at ← outside now_rfc3339;
  thread ← outside (spawn_server_thread (svc_thread_name C) effective (pl_listener bound));
  match thread with
  | Err e => mret (Err e)
  | Ok thread =>
      loopback ← outside (prepare_loopback_mirror (svc_host c) effective (pl_port bound));
      let h := {| rh_bind_host := svc_host effective; rh_public_host := pl_public_host bound;
                  rh_port := pl_port bound; rh_path := svc_path effective;
                  rh_started_at := started_at; rh_thread := Some thread;
                  rh_loopback := loopback |} in
      fill_slot h
  end.

(** The handle in the slot already serves this host, port and path. *)
(*| src-tauri/src/native_webhook/server.rs 84-93 start_background_with_config *)
Definition same_service (h : RuntimeHandle) (c : C) : bool :=
  String.eqb (rh_bind_host h) (svc_host c) && (rh_port h =? svc_port c)%N
  && String.eqb (rh_path h) (svc_path c).

(** The start after the previous service is stopped. *)
(*| src-tauri/src/native_webhook/server.rs 97-177 start_background_with_config *)
Definition start_fresh (c : C) : St sstate (result string RuntimeStatus) :=
  running ← (if negb (is_wildcard_host (svc_host c))
             then outside (existing_service_responds (svc_public_host c) (svc_port c))
             else mret false);
  if (running : bool) then adopt_existing c
  else
    bound ← outside (bind_listener_with_safe_fallback c);
    match bound with
    | Ok bound => serve_bound c bound
    | Err err =>
        running ← outside (existing_service_responds (svc_public_host c) (svc_port c));
        if (running : bool) then adopt_existing c else mret (Err err)
    end.

(*| src-tauri/src/native_webhook/server.rs 66-178 start_background_with_config *)
Definition start_background_with_config (c : C) :
    St sstate (result string RuntimeStatus) := fun s =>
  if negb (svc_enabled c) then
    (Ok {| st_running := false; st_host := svc_public_host c; st_port := svc_port c;
           st_url := None; st_path := svc_path c; st_count := activity_count (snd s);
           st_started_at := None |}, s)
  else
    match svc_validate_bind c with
    | Err e => (Err e, s)
    | Ok _ =>
        match fst s with
        | Some h =>
            if same_service h c then (Ok (status_from_handle h (snd s)), s)
            else (_ ← stop_background; _ ← outside (thread_sleep_ms 250); start_fresh c) s
        | None => (_ ← stop_background; _ ← outside (thread_sleep_ms 250); start_fresh c) s
        end
    end.

(** ** Lemmas *)

Lemma outside_run {A} (c : St W A) s a s' :
  outside c s = (a, s') -> c (snd s) = (a, snd s') /\ fst s' = fst s.
Proof. unfold outside. destruct (c (snd s)) as [b w]. by intros [= <- <-]. Qed.

(** The slot a start leaves, by what it answers: the handle of a running
    service on the configured port and path, or nothing. *)
Definition started (c : C) (r : result string RuntimeStatus) (s : sstate) : Prop :=
  match r with
  | Ok st => exists h, fst s = Some h /\ rh_port h = svc_port c /\ rh_path h = svc_path c /\
      (rh_bind_host h = svc_host c \/ is_Some (rh_thread h)) /\
      st = status_from_handle h (snd s)
  | Err _ => fst s = None
  end.

Lemma adopt_started c s r s' : adopt_existing c s = (r, s') -> started c r s'.
Proof.
  unfold adopt_existing. intros H. run_bind H t s1. injection H as <- <-. cbn.
  eexists. split_and!; [done..|by left|done].
Qed.

Section Started.
Context `{ML : !ManagedServiceLaws C}.

Lemma serve_started c bound s r s' :
  fst s = None -> pl_port bound = svc_port c ->
  serve_bound c bound s = (r, s') -> started c r s'.
Proof.
  unfold serve_bound. intros Hs Hp H. run_bind H t s1 as E1. apply outside_run in E1 as [_ E1].
  run_bind H th s2 as E2. apply outside_run in E2 as [_ E2]. destruct th as [th|e].
  - run_bind H lo s3. injection H as <- <-. cbn. eexists. split; [done|]. cbn.
    rewrite svc_with_host_path. split_and!; [done|done|right; by eexists|done].
  - injection H as <- <-. cbn. congruence.
Qed.

Lemma bind_port_kept host port w p w' :
  bind_fixed_service_listener host port w = (Ok p, w') -> pl_port p = port.
Proof.
  unfold bind_fixed_service_listener, bind_lan_fallback. intros H.
  destruct (parse_addr _ _); [|done]. run_bind H b w1. destruct b; [by injection H as <- _|].
  destruct (_ && _); [|done]. run_bind H lan w2. destruct lan; [|done].
  destruct (eq_ignore_ascii_case _ _); [done|]. destruct (parse_addr _ _); [|done].
  run_bind H b w3. destruct b; [|done]. by injection H as <- _.
Qed.

Lemma safe_fallback_port c w p w' :
  bind_listener_with_safe_fallback c w = (Ok p, w') -> pl_port p = svc_port c.
Proof.
  unfold bind_listener_with_safe_fallback. intros H. destruct (socket_addr c); [|done].
  run_bind H r w1 as E. injection H as H _. apply map_err_Ok in H as ->.
  by eapply bind_port_kept.
Qed.

Lemma start_fresh_started c s r s' :
  fst s = None -> start_fresh c s = (r, s') -> started c r s'.
Proof.
  unfold start_fresh. intros Hs H. run_bind H running s1 as E1.
  assert (fst s1 = None) as Hs1.
  { destruct (negb _); [by apply outside_run in E1 as [_ ->]|by injection E1 as _ <-]. }
  destruct running; [by eapply adopt_started|].
  run_bind H bound s2 as E2. apply outside_run in E2 as [Eb E2]. destruct bound as [bound|e].
  - eapply serve_started; [|by eapply safe_fallback_port|exact H]. congruence.
  - run_bind H again s3 as E3. apply outside_run in E3 as [_ E3].
    destruct again; [by eapply adopt_started|]. injection H as <- <-. cbn. congruence.
Qed.

(** What a start that is not a no-op does: stop, wait, start afresh. *)
Definition restart (c : C) : St sstate (result string RuntimeStatus) :=
  _ ← stop_background; _ ← outside (thread_sleep_ms 250); start_fresh c.

Lemma restart_started c s r s' : restart c s = (r, s') -> started c r s'.
Proof.
  unfold restart. intros H. run_bind H st s1 as E1. injection E1 as _ <-.
  run_bind H u s2 as E2. apply outside_run in E2 as [_ E2].
  by eapply start_fresh_started.
Qed.

Lemma start_restart c s :
  svc_enabled c = true -> svc_validate_bind c = Ok () ->
  (forall h, fst s = Some h -> same_service h c = false) ->
  start_background_with_config c s = restart c s.
Proof.
  intros He Hv Hn. unfold start_background_with_config. rewrite He, Hv. cbn [negb].
  destruct (fst s) as [h|] eqn:E; [|done]. by rewrite (Hn h).
Qed.

(** ** Properties *)

(** Starting a service. A disabled or invalid configuration touches
    nothing; a configuration the running handle already serves answers its
    status and touches nothing; any other start ends with a handle on the
    configured port and path, or, when it fails, with an empty slot: the
    service that ran before is stopped and not restored. *)
Theorem start_background_cases c s r s' :
  start_background_with_config c s = (r, s') ->
  (svc_enabled c = false /\ s' = s /\ st_running <$> ok r = Some false) \/
  (svc_enabled c = true /\ is_ok (svc_validate_bind c) = false /\ s' = s /\ is_ok r = false) \/
  (svc_enabled c = true /\ svc_validate_bind c = Ok () /\
   ((exists h, fst s = Some h /\ same_service h c = true /\ s' = s /\
       r = Ok (status_from_handle h (snd s))) \/
    ((forall h, fst s = Some h -> same_service h c = false) /\ started c r s'))).
Proof.
  intros H. destruct (svc_enabled c) eqn:He.
  - right. destruct (svc_validate_bind c) as [[]|e] eqn:Hv.
    + right. split; [done|]. split; [done|].
      destruct (fst s) as [h|] eqn:Es.
      * destruct (same_service h c) eqn:Eh.
        -- left. exists h. unfold start_background_with_config in H.
           rewrite He, Hv, Es in H. cbn in H. rewrite Eh in H. by injection H as <- <-.
        -- right. assert (forall h', Some h = Some h' -> same_service h' c = false) as Hn
             by congruence.
           rewrite start_restart in H; [|done..|by rewrite Es]. split; [done|].
           by eapply restart_started.
      * right. split; [done|]. rewrite start_restart in H; [|done..|by rewrite Es].
        by eapply restart_started.
    + left. unfold start_background_with_config in H. rewrite He, Hv in H. cbn in H.
      by injection H as <- <-.
  - left. unfold start_background_with_config in H. rewrite He in H. cbn in H.
    by injection H as <- <-.
Qed.

(** ** The state machine *)

Inductive command : Type := Start (c : C) | Stop.

Definition run_command (cmd : command) (s : sstate) : sstate :=
  match cmd with
  | Start c => snd (start_background_with_config c s)
  | Stop => snd (stop_background s)
  end.

(** C30. Over any sequence of starts and stops from an empty slot, whatever the
    outside world does, a service reported as running has a port other than
    0, and after a stop nothing is reported as running. *)
Theorem lifecycle_invariant cmds w :
  let s := foldl (fun s cmd => run_command cmd s) (None, w) cmds in
  (st_running (service_status s) = true -> st_port (service_status s) <> 0%N) /\
  st_running (service_status (run_command Stop s)) = false.
Proof.
  cbv zeta. set (s := foldl _ _ _).
  assert (forall h, fst s = Some h -> rh_port h <> 0%N) as Hinv.
  { subst s. induction cmds as [|cmd cmds IH] using rev_ind; [done|].
    rewrite foldl_app. cbn [foldl]. set (s0 := foldl _ _ _) in *. intros h Hh.
    destruct cmd as [c|]; [|done]. cbn [run_command] in Hh.
    destruct (svc_enabled c) eqn:He; [|unfold start_background_with_config in Hh;
      rewrite He in Hh; by apply IH].
    destruct (svc_validate_bind c) as [[]|e] eqn:Hv; [|unfold start_background_with_config in Hh;
      rewrite He, Hv in Hh; by apply IH].
    assert ((exists h, fst s0 = Some h /\ same_service h c = true) \/
            (forall h, fst s0 = Some h -> same_service h c = false)) as [(h0 & E0 & Es)|Hn].
    { destruct (fst s0) as [h0|]; [|by right]. destruct (same_service h0 c) eqn:Es; [left; eauto|].
      right. congruence. }
    - unfold start_background_with_config in Hh. rewrite He, Hv, E0 in Hh. cbn in Hh.
      rewrite Es in Hh. by apply IH.
    - rewrite start_restart in Hh by done. destruct (restart c s0) as [r s1] eqn:Er.
      apply restart_started in Er. cbn [snd] in Hh. destruct r as [st|e]; cbn in Er.
      + destruct Er as (h1 & E1 & Ep & _). assert (h = h1) as -> by congruence. rewrite Ep.
        by apply svc_validate_port.
      + congruence. }
  split; [|done]. unfold service_status. destruct (fst s) as [h|]; [|done].
  intros _. by apply Hinv.
Qed.

End Started.
End Lifecycle.
