(* ===== verification/DatabaseConfig.v ===== *)
(** * Choice of the database

    [core/database/config.rs], [connection.rs], [health.rs], [migrations.rs] and
    [firebird.rs]: the driver a text names, the connection data from the
    environment, and the dispatch of a connection, a health check or a migration
    to the driver. What SQLite, MySQL and PostgreSQL answer is the class
    [DatabaseDrivers]. *)

From Stdlib Require Import Ascii.
From S2P Require Import Prelude RustStr NetAddr.

#[local] Open Scope string_scope.
#[local] Open Scope tunnara_scope.

(*| core/database/config.rs 4-9 DatabaseDriver *)
Inductive DatabaseDriver : Type := Sqlite | Mysql | Postgres | FirebirdUnsupported.
#[export] Instance DatabaseDriver_eq_dec : EqDecision DatabaseDriver.
Proof. solve_decision. Defined.

(*| core/database/config.rs 12-19 from_str *)
Definition driver_from_str (value : string) : DatabaseDriver :=
  let v := to_ascii_lowercase (trim value) in
  if bool_decide (v ∈ ["mysql"; "mariadb"]) then Mysql
  else if bool_decide (v ∈ ["postgres"; "postgresql"]) then Postgres
  else if bool_decide (v ∈ ["firebird"; "fb"]) then FirebirdUnsupported
  else Sqlite.

(*| core/database/config.rs 21-28 as_str *)
Definition driver_as_str (d : DatabaseDriver) : string :=
  match d with
  | Sqlite => "sqlite" | Mysql => "mysql" | Postgres => "postgres"
  | FirebirdUnsupported => "firebird-unsupported"
  end.

(*| core/database/config.rs 30-32 is_external *)
Definition is_external (d : DatabaseDriver) : bool :=
  match d with Mysql | Postgres => true | _ => false end.

(*| core/database/config.rs 36-44 DatabaseConfig *)
Record DatabaseConfig : Type := {
  dc_driver : DatabaseDriver;
  dc_sqlite_path : option string;
  dc_host : option string;
  dc_port : option N;
  dc_database : option string;
  dc_username : option string;
  dc_password : option string;
}.

(*| core/database/config.rs 46-58 DatabaseConfig::default *)
Definition database_config_default : DatabaseConfig := {|
  dc_driver := Sqlite; dc_sqlite_path := Some "app.db"; dc_host := None; dc_port := None;
  dc_database := None; dc_username := None; dc_password := None |}.

(** The prefix of a driver's variables and its usual port. *)
(*| core/database/config.rs 64-73 from_env_with_driver *)
Definition driver_prefix (d : DatabaseDriver) : string :=
  match d with
  | Mysql => "TUNNARA_CONSOLE_MYSQL"
  | Postgres => "TUNNARA_CONSOLE_POSTGRES"
  | _ => "TUNNARA_CONSOLE_DB"
  end.
Definition driver_default_port (d : DatabaseDriver) : option N :=
  match d with Mysql => Some 3306%N | Postgres => Some 5432%N | _ => None end.

(*| core/database/config.rs 61-97 from_env_with_driver *)
Definition from_env_with_driver (env : Env) (driver : string) : DatabaseConfig :=
  let d := driver_from_str driver in
  let var name := or_else (env !! (driver_prefix d ++ name)) (env !! ("TUNNARA_CONSOLE_DB" ++ name)) in
  {| dc_driver := d;
     dc_sqlite_path := or_else (env !! "TUNNARA_CONSOLE_SQLITE_PATH") (Some "app.db");
     dc_host := var "_HOST";
     dc_port := or_else (var "_PORT" ≫= parse_u16) (driver_default_port d);
     dc_database := var "_DATABASE";
     dc_username := var "_USERNAME";
     dc_password := var "_PASSWORD" |}.

(*| core/database/config.rs 99-117 external_dsn_label *)
Definition external_dsn_label (c : DatabaseConfig) : string :=
  match dc_driver c with
  | Sqlite => unwrap_or "app.db" (dc_sqlite_path c)
  | Mysql | Postgres =>
      unwrap_or "127.0.0.1" (dc_host c) ++ ":" ++ show_N (unwrap_or 0%N (dc_port c)) ++ " / "
        ++ unwrap_or "<database>" (dc_database c)
  | FirebirdUnsupported => "Firebird ignorado nesta etapa por compatibilidade"
  end.

(*| core/database/firebird.rs 3-8 health *)
Definition firebird_health (c : DatabaseConfig) : result string bool :=
  if decide (dc_driver c = FirebirdUnsupported)
  then Err "Firebird foi ignorado nesta etapa por compatibilidade. Use SQLite, MySQL/MariaDB ou PostgreSQL."
  else Err "Driver informado não é Firebird.".

(*| core/database/firebird.rs 10-15 migrate *)
Definition firebird_migrate (c : DatabaseConfig) : result string unit :=
  if decide (dc_driver c = FirebirdUnsupported)
  then Err "Migrations Firebird não fazem parte da Etapa 2.2."
  else Err "Driver informado não é Firebird.".

(** What the drivers answer. *)
Class DatabaseDrivers (W : Type) : Type := {
  sqlite_conn : Type;
  sqlite_connect : string -> St W (result string sqlite_conn);
  sqlite_health : string -> St W (result string bool);
  sqlite_migrate : string -> St W (result string unit);
  mysql_health : DatabaseConfig -> St W (result string bool);
  mysql_migrate : DatabaseConfig -> St W (result string unit);
  postgres_health : DatabaseConfig -> St W (result string bool);
  postgres_migrate : DatabaseConfig -> St W (result string unit);
}.

Section Dispatch.
Context {W : Type} `{DD : DatabaseDrivers W}.

(*| core/database/connection.rs 10-14 AppDatabaseConnection *)
Inductive AppDatabaseConnection : Type :=
| SqliteConnection (c : sqlite_conn)
| MysqlEnabled (dsn : string)
| PostgresEnabled (dsn : string).

(*| core/database/connection.rs 16-39 connect *)
Definition db_connect (c : DatabaseConfig) (sqlite_path : string) :
    St W (result string AppDatabaseConnection) :=
  match dc_driver c with
  | Sqlite => conn ←? sqlite_connect sqlite_path; mret (Ok (SqliteConnection conn))
  | Mysql => _ ←? mysql_health c; mret (Ok (MysqlEnabled (external_dsn_label c)))
  | Postgres => _ ←? postgres_health c; mret (Ok (PostgresEnabled (external_dsn_label c)))
  | FirebirdUnsupported => mret (Err
      "Firebird foi ignorado nesta etapa por compatibilidade. Configure sqlite, mysql ou postgres.")
  end.

(*| core/database/health.rs 19-26 check *)
Definition db_check (c : DatabaseConfig) (sqlite_path : string) : St W (result string bool) :=
  match dc_driver c with
  | Sqlite => sqlite_health sqlite_path
  | Mysql => mysql_health c
  | Postgres => postgres_health c
  | FirebirdUnsupported => mret (firebird_health c)
  end.

(*| core/database/health.rs 11-17 DatabaseHealthReport *)
Record DatabaseHealthReport : Type := {
  hr_driver : string;
  hr_ok : bool;
  hr_message : string;
  hr_target : string;
  hr_feature_required : option string;
}.

(*| core/database/health.rs 28-60 report *)
Definition db_report (c : DatabaseConfig) (sqlite_path : string) : St W DatabaseHealthReport :=
  let target := if decide (dc_driver c = Sqlite) then sqlite_path else external_dsn_label c in
  checked ← db_check c sqlite_path;
  mret (match checked with
        | Ok ok => {|
            hr_driver := driver_as_str (dc_driver c); hr_ok := ok;
            hr_message := if ok then "Conexão verificada com sucesso." else "Conexão indisponível.";
            hr_target := target; hr_feature_required := None |}
        | Err message => {|
            hr_driver := driver_as_str (dc_driver c); hr_ok := false; hr_message := message;
            hr_target := target;
            hr_feature_required := match dc_driver c with
                                   | Mysql => Some "mysql-db" | Postgres => Some "postgres-db"
                                   | _ => None
                                   end |}
        end).

(*| core/database/migrations.rs 10-17 migrate *)
Definition db_migrate (c : DatabaseConfig) (sqlite_path : string) : St W (result string unit) :=
  match dc_driver c with
  | Sqlite => sqlite_migrate sqlite_path
  | Mysql => mysql_migrate c
  | Postgres => postgres_migrate c
  | FirebirdUnsupported => mret (firebird_migrate c)
  end.

End Dispatch.

(** ** Lemmas *)

(** The name of a driver names it, except Firebird's, which reads as SQLite. *)
Lemma driver_names d :
  driver_from_str (driver_as_str d) = if decide (d = FirebirdUnsupported) then Sqlite else d.
Proof. by destruct d. Qed.

(** The port of an external driver is always known and fits 16 bits. *)
Lemma external_port_known env driver :
  is_external (driver_from_str driver) = true ->
  exists p, dc_port (from_env_with_driver env driver) = Some p /\ (p <= U16_MAX)%N.
Proof.
  intros H. unfold from_env_with_driver. cbn [dc_port].
  destruct (_ ≫= parse_u16) as [p|] eqn:E; cbn [or_else].
  - exists p. split; [done|]. apply bind_Some in E as (v & _ & E). by eapply parse_uint_bound.
  - destruct (driver_from_str driver); [done| | |done]; by eexists.
Qed.
