(* ===== verification/Providers.v ===== *)
(** * Database providers: core/database/provider, sqlite.rs, mysql.rs, postgres.rs

    A provider runs statements that are texts with parameters. The trait is
    the record [Provider]; SQLite's implementation opens a connection for every
    call. MySQL's and PostgreSQL's are behind features that the default build
    leaves off; with a feature on, what the driver answers is the class
    [ExternalDrivers]. What SQLite answers to a text is the class [SqlDb]. *)

From Stdlib Require Import Ascii.
From S2P Require Import Prelude RustStr Utf8 Json NetAddr NetBind RuntimeSettings.
From S2P Require Import ServiceConfigs RuntimeStore AppLog DatabaseConfig.

#[local] Open Scope string_scope.
#[local] Open Scope tunnara_scope.

(** ** Values *)

(*| core/database/provider/types.rs 6-13 DbValue *)
Inductive DbValue : Type :=
| DbNull
| DbBool (b : bool)
| DbInteger (z : Z)
| DbReal (n : number)
| DbText (s : string)
| DbJson (v : value).

(** A number that is not an integer of 64 bits becomes the double nearest to it. *)
(*| core/database/provider/types.rs 18-35 from *)
Definition db_value_of_json (v : value) : DbValue :=
  match v with
  | Null => DbNull
  | Bool b => DbBool b
  | Number n => match number_as_i64 n with Some i => DbInteger i | None => DbReal n end
  | String_ s => DbText s
  | other => DbJson other
  end.

(*| core/database/provider/types.rs 37-48 to_json_value *)
Definition to_json_value (d : DbValue) : value :=
  match d with
  | DbNull => Null
  | DbBool b => Bool b
  | DbInteger z => json_i64 z
  | DbReal n => Number n
  | DbText s => String_ s
  | DbJson v => v
  end.

(** ** The trait *)

(*| core/database/provider/mod.rs 16-20 ProviderStatus *)
Record ProviderStatus : Type := {
  ps_driver : string; ps_available : bool; ps_message : string }.

(*| core/database/provider/mod.rs 23-62 DatabaseProvider *)
Record Provider (W : Type) : Type := {
  pv_driver : DatabaseDriver;
  pv_health : St W (result string ProviderStatus);
  pv_migrate : St W (result string unit);
  pv_execute : string -> list DbValue -> St W (result string N);
  pv_query : string -> list DbValue -> St W (result string (list members));
  pv_query_one : string -> list DbValue -> St W (result string (option members));
}.
Arguments pv_driver {W}. Arguments pv_health {W}. Arguments pv_migrate {W}.
Arguments pv_execute {W}. Arguments pv_query {W}. Arguments pv_query_one {W}.

(*| core/database/provider/mod.rs 28-35 placeholder *)
Definition placeholder (driver : DatabaseDriver) (index : nat) : string :=
  match driver with
  | Postgres => "$" ++ show_N (N.of_nat index)
  | _ => "?"
  end.

(*| core/database/provider/mod.rs 37-44 last_insert_id_sql *)
Definition last_insert_id_sql (driver : DatabaseDriver) : string :=
  match driver with
  | Sqlite => "SELECT last_insert_rowid() AS id"
  | Mysql => "SELECT LAST_INSERT_ID() AS id"
  | Postgres | FirebirdUnsupported => ""
  end.

Section Transactions.
Context {W : Type} (p : Provider W).

Definition command_of (sql : string) : St W (result string unit) :=
  _ ←? pv_execute p sql []; mret (Ok ()).
(*| core/database/provider/mod.rs 50-52 begin_transaction *)
Definition begin_transaction : St W (result string unit) := command_of "BEGIN".
(*| core/database/provider/mod.rs 54-56 commit *)
Definition commit : St W (result string unit) := command_of "COMMIT".
(*| core/database/provider/mod.rs 58-60 rollback *)
Definition rollback : St W (result string unit) := command_of "ROLLBACK".
End Transactions.

(** ** SQLite *)

(** Where a query fails: in its text, while it runs, or in a row. *)
Inductive query_stage : Type := AtPrepare | AtRun | AtRow.

Class SqlDb (W : Type) `{OS : ConsoleOs W} : Type := {
  sql_execute : db_conn -> string -> list sql_value -> St W (result string N);
  sql_query : db_conn -> string -> list sql_value -> St W (result (query_stage * string) (list members));
  (** the first row of a query *)
  sql_query_row : db_conn -> string -> list sql_value ->
    St W (result (query_stage * string) (option members));
  sql_last_insert_rowid : db_conn -> St W Z;
}.

Section Sqlite.
Context {W : Type} `{LO : LogOs W} `{SQ : !SqlDb W} `{DD : !DatabaseDrivers W}.

(*| core/database/sqlite.rs 27-40 to_rusqlite_value *)
Definition to_rusqlite_value (v : DbValue) : sql_value :=
  match v with
  | DbNull => SqlNull
  | DbBool b => SqlInt (if b then 1 else 0)
  | DbInteger z => SqlInt z
  | DbReal n => SqlReal n
  | DbText s => SqlText s
  | DbJson v => SqlText (json_to_string v)
  end.

Definition stage_error (prepare run row : string) (e : query_stage * string) : string :=
  match fst e with AtPrepare => prepare | AtRun => run | AtRow => row end ++ ": " ++ snd e.

(*| core/database/sqlite.rs 64-74 execute *)
Definition sqlite_execute (db_path sql : string) (params : list DbValue) : St W (result string N) :=
  conn ←? db_open db_path;
  r ← sql_execute conn sql (map to_rusqlite_value params);
  mret (map_err (fun err => "Falha ao executar SQL SQLite pelo provider: " ++ err) r).

(*| core/database/sqlite.rs 76-91 query *)
Definition sqlite_query (db_path sql : string) (params : list DbValue) :
    St W (result string (list members)) :=
  conn ←? db_open db_path;
  r ← sql_query conn sql (map to_rusqlite_value params);
  mret (map_err (stage_error "Falha ao preparar query SQLite pelo provider"
    "Falha ao executar query SQLite pelo provider" "Falha ao mapear query SQLite pelo provider") r).

(*| core/database/sqlite.rs 93-106 query_one *)
Definition sqlite_query_one (db_path sql : string) (params : list DbValue) :
    St W (result string (option members)) :=
  conn ←? db_open db_path;
  r ← sql_query_row conn sql (map to_rusqlite_value params);
  mret (map_err (stage_error "Falha ao preparar query_one SQLite pelo provider"
    "Falha ao executar query_one SQLite pelo provider"
    "Falha ao executar query_one SQLite pelo provider") r).

(*| core/database/sqlite.rs 47-58 health *)
Definition sqlite_provider_health (db_path : string) : St W (result string ProviderStatus) :=
  ok ←? sqlite_health db_path;
  mret (Ok {| ps_driver := "sqlite"; ps_available := ok;
    ps_message := if (ok : bool) then "SQLite funcional." else "SQLite indisponível." |}).

(*| core/database/sqlite.rs 42-62 DatabaseProvider *)
Definition SqliteProvider (db_path : string) : Provider W := {|
  pv_driver := Sqlite;
  pv_health := sqlite_provider_health db_path;
  pv_migrate := sqlite_migrate db_path;
  pv_execute := sqlite_execute db_path;
  pv_query := sqlite_query db_path;
  pv_query_one := sqlite_query_one db_path |}.
End Sqlite.

(** ** MySQL and PostgreSQL *)

(** The two drivers' connection data have the same fields. *)
(*| core/database/mysql.rs 7-13 MysqlConnectionInfo *)
Record ConnectionInfo : Type := {
  ci_host : string; ci_port : N; ci_database : string; ci_username : string;
  ci_password_configured : bool }.

Definition password_configured (c : DatabaseConfig) : bool :=
  match dc_password c with Some v => negb (is_empty v) | None => false end.

(*| core/database/mysql.rs 15-39 build_connection_info *)
Definition mysql_connection_info (c : DatabaseConfig) : result string ConnectionInfo :=
  if negb (bool_decide (dc_driver c = Mysql)) then Err "Driver informado não é MySQL/MariaDB." else
  database ← ok_or "Banco MySQL não informado." (dc_database c);
  Ok {| ci_host := unwrap_or "127.0.0.1" (dc_host c); ci_port := unwrap_or 3306%N (dc_port c);
        ci_database := database; ci_username := unwrap_or "root" (dc_username c);
        ci_password_configured := password_configured c |}.

(*| core/database/mysql.rs 54-60 urlencoding *)
Definition urlencoding (v : string) : string :=
  replace "#" "%23" (replace "/" "%2F" (replace ":" "%3A" (replace "@" "%40" v))).

(*| core/database/mysql.rs 41-52 connection_url *)
Definition mysql_connection_url (c : DatabaseConfig) : result string string :=
  info ← mysql_connection_info c;
  let password := unwrap_or "" (dc_password c) in
  Ok ("mysql://" ++ urlencoding (ci_username info) ++ ":" ++ urlencoding password ++ "@"
      ++ ci_host info ++ ":" ++ show_N (ci_port info) ++ "/" ++ ci_database info).

(*| core/database/postgres.rs 15-39 build_connection_info *)
Definition postgres_connection_info (c : DatabaseConfig) : result string ConnectionInfo :=
  if negb (bool_decide (dc_driver c = Postgres)) then Err "Driver informado não é PostgreSQL." else
  database ← ok_or "Banco PostgreSQL não informado." (dc_database c);
  Ok {| ci_host := unwrap_or "127.0.0.1" (dc_host c); ci_port := unwrap_or 5432%N (dc_port c);
        ci_database := database; ci_username := unwrap_or "postgres" (dc_username c);
        ci_password_configured := password_configured c |}.

(*| core/database/postgres.rs 41-53 connection_string *)
Definition postgres_connection_string (c : DatabaseConfig) : result string string :=
  info ← postgres_connection_info c;
  Ok (String.concat " " (app
        ["host=" ++ ci_host info; "port=" ++ show_N (ci_port info);
         "dbname=" ++ ci_database info; "user=" ++ ci_username info]
        match opt_filter (fun v => negb (is_empty v)) (dc_password c) with
        | Some password => ["password=" ++ password]
        | None => []
        end)).

(** *** Values of the two drivers *)

(** [mysql::Value]. A double is the JSON number it prints as; [None] when it is
    not finite. *)
Inductive MyValue : Type :=
| MyNULL
| MyBytes (bytes : string)
| MyInt (z : Z)
| MyUInt (n : N)
| MyFloat (r : option number)
| MyDouble (r : option number)
| MyDate (year month day hour minute second micros : N)
| MyTime (is_negative : bool) (days hours minutes seconds micros : N).

(** [{:0w$}] *)
Definition zero_padded (w : nat) (n : N) : string :=
  let t := show_N n in String.concat "" (repeat "0" (w - String.length t)) ++ t.

(*| core/database/mysql.rs 127-149 mysql_value_to_json *)
Definition mysql_value_to_json (v : MyValue) : value :=
  match v with
  | MyNULL => Null
  | MyBytes bytes => String_ (from_utf8_lossy bytes)
  | MyInt z => json_i64 z
  | MyUInt n => Number (PosInt n)
  | MyFloat r | MyDouble r => match r with Some n => Number n | None => Null end
  | MyDate year month day hour minute second micros =>
      String_ (zero_padded 4 year ++ "-" ++ zero_padded 2 month ++ "-" ++ zero_padded 2 day ++ "T"
        ++ zero_padded 2 hour ++ ":" ++ zero_padded 2 minute ++ ":" ++ zero_padded 2 second ++ "."
        ++ zero_padded 6 micros)
  | MyTime is_negative days hours minutes seconds micros =>
      String_ ((if is_negative then "-" else "") ++ show_N days ++ " " ++ zero_padded 2 hours ++ ":"
        ++ zero_padded 2 minutes ++ ":" ++ zero_padded 2 seconds ++ "." ++ zero_padded 6 micros)
  end.

(** A row: its columns in order; of two columns of one name the last counts. *)
Definition row_members {A} (f : A -> value) (row : list (string * A)) : members :=
  fold_left (fun out '(column, cell) => obj_insert column (f cell) out) row [].

(*| core/database/mysql.rs 152-167 mysql_row_to_json *)
Definition mysql_row_to_json : list (string * MyValue) -> members := row_members mysql_value_to_json.

(** A cell as the five conversions that are tried see it: [None] when the type
    of the column has no such conversion. *)
Record PgCell : Type := {
  pg_text : option (option string);
  pg_i64 : option (option Z);
  pg_i32 : option (option Z);
  pg_f64 : option (option (option number));
  pg_bool : option (option bool);
}.

Definition read_as {A} (f : A -> value) (o : option (option A)) : option value :=
  match o with
  | Some (Some a) => Some (f a)
  | Some None => Some Null
  | None => None
  end.
(*| core/database/postgres.rs 94-121 postgres_value_to_json *)
Definition postgres_value_to_json (c : PgCell) : value :=
  unwrap_or Null (or_else (read_as String_ (pg_text c)) (or_else (read_as json_i64 (pg_i64 c))
    (or_else (read_as json_i64 (pg_i32 c))
       (or_else (read_as (fun r => match r with Some n => Number n | None => Null end) (pg_f64 c))
          (read_as Bool (pg_bool c)))))).
(*| core/database/postgres.rs 124-133 postgres_row_to_json *)
Definition postgres_row_to_json : list (string * PgCell) -> members := row_members postgres_value_to_json.

(** The Rust type a parameter is sent as; NULL is that of a text. *)
Inductive PgParam : Type :=
| PgNullText
| PgBool (b : bool)
| PgI64 (z : Z)
| PgF64 (n : number)
| PgText (s : string).

Section Params.
Context {W : Type} `{LO : LogOs W}.

(*| core/database/mysql.rs 115-124 to_mysql_value *)
Definition to_mysql_value (v : DbValue) : MyValue :=
  match v with
  | DbNull => MyNULL
  | DbBool b => MyInt (if b then 1 else 0)
  | DbInteger z => MyInt z
  | DbReal n => MyDouble (Some n)
  | DbText s => MyBytes s
  | DbJson v => MyBytes (json_to_string v)
  end.

(*| core/database/postgres.rs 171-180 to_postgres_value *)
Definition to_postgres_value (v : DbValue) : PgParam :=
  match v with
  | DbNull => PgNullText
  | DbBool b => PgBool b
  | DbInteger z => PgI64 z
  | DbReal n => PgF64 n
  | DbText s => PgText s
  | DbJson v => PgText (json_to_string v)
  end.
End Params.

(** With a feature on: a connection to a server, and a statement on it. *)
Class ExternalDrivers (W : Type) : Type := {
  mysql_db : bool;
  postgres_db : bool;
  my_conn : Type;
  my_pool : string -> St W (result string unit);
  my_get_conn : string -> St W (result string my_conn);
  my_exec : my_conn -> string -> list MyValue -> St W (result string N);
  my_rows : my_conn -> string -> list MyValue -> St W (result string (list (list (string * MyValue))));
  (** a statement without parameters, its rows dropped *)
  my_query_drop : my_conn -> string -> St W (result string unit);
  pg_client : Type;
  pg_connect : string -> St W (result string pg_client);
  pg_execute : pg_client -> string -> list PgParam -> St W (result string N);
  pg_rows : pg_client -> string -> list PgParam -> St W (result string (list (list (string * PgCell))));
  pg_simple_query : pg_client -> string -> St W (result string unit);
  pg_batch_execute : pg_client -> string -> St W (result string unit);
}.

Section External.
Context {W : Type} `{LO : LogOs W} `{SQ : !SqlDb W} `{DD : !DatabaseDrivers W}
  `{XD : !ExternalDrivers W}.

(** [pool(config)?] and a connection of it. *)
Definition mysql_connect (c : DatabaseConfig) : St W (result string my_conn) :=
  url ←? mret (mysql_connection_url c);
  _ ←? (r ← my_pool url; mret (map_err (fun err => "Falha ao criar pool MySQL: " ++ err) r));
  r ← my_get_conn url;
  mret (map_err (fun err => "Falha ao conectar MySQL: " ++ err) r).

(*| core/database/mysql.rs 170-181 execute_mysql *)
Definition execute_mysql (c : DatabaseConfig) (sql : string) (params : list DbValue) :
    St W (result string N) :=
  conn ←? mysql_connect c;
  r ← my_exec conn sql (map to_mysql_value params);
  mret (map_err (fun err => "Falha ao executar SQL MySQL: " ++ err) r).

(*| core/database/mysql.rs 184-200 query_mysql *)
Definition query_mysql (c : DatabaseConfig) (sql : string) (params : list DbValue) :
    St W (result string (list members)) :=
  conn ←? mysql_connect c;
  r ← my_rows conn sql (map to_mysql_value params);
  mret (map mysql_row_to_json <$> map_err (fun err => "Falha ao consultar MySQL: " ++ err) r).

Definition no_mysql : string := "CRUD provider MySQL exige compilação com --features mysql-db.".

(** [query_one] takes the last row. *)
(*| core/database/mysql.rs 258-304 DatabaseProvider *)
Definition MySqlProvider (c : DatabaseConfig) : Provider W := {|
  pv_driver := Mysql;
  pv_health := ok ←? mysql_health c;
    mret (Ok {| ps_driver := "mysql"; ps_available := ok;
                ps_message := "MySQL/MariaDB disponível via feature Rust mysql-db." |});
  pv_migrate := mysql_migrate c;
  pv_execute := fun sql params =>
    if mysql_db then execute_mysql c sql params else mret (Err no_mysql);
  pv_query := fun sql params =>
    if mysql_db then query_mysql c sql params else mret (Err no_mysql);
  pv_query_one := fun sql params =>
    if mysql_db then (rows ←? query_mysql c sql params; mret (Ok (last rows)))
    else mret (Err no_mysql) |}.

Definition postgres_connect (c : DatabaseConfig) : St W (result string pg_client) :=
  dsn ←? mret (postgres_connection_string c);
  r ← pg_connect dsn;
  mret (map_err (fun err => "Falha ao conectar PostgreSQL: " ++ err) r).

(*| core/database/postgres.rs 136-148 execute_postgres *)
Definition execute_postgres (c : DatabaseConfig) (sql : string) (params : list DbValue) :
    St W (result string N) :=
  client ←? postgres_connect c;
  r ← pg_execute client sql (map to_postgres_value params);
  mret (map_err (fun err => "Falha ao executar SQL PostgreSQL: " ++ err) r).

(*| core/database/postgres.rs 151-168 query_postgres *)
Definition query_postgres (c : DatabaseConfig) (sql : string) (params : list DbValue) :
    St W (result string (list members)) :=
  client ←? postgres_connect c;
  r ← pg_rows client sql (map to_postgres_value params);
  mret (map postgres_row_to_json <$> map_err (fun err => "Falha ao consultar PostgreSQL: " ++ err) r).

Definition no_postgres : string :=
  "CRUD provider PostgreSQL exige compilação com --features postgres-db.".

(*| core/database/postgres.rs 238-284 DatabaseProvider *)
Definition PostgresProvider (c : DatabaseConfig) : Provider W := {|
  pv_driver := Postgres;
  pv_health := ok ←? postgres_health c;
    mret (Ok {| ps_driver := "postgres"; ps_available := ok;
                ps_message := "PostgreSQL disponível via feature Rust postgres-db." |});
  pv_migrate := postgres_migrate c;
  pv_execute := fun sql params =>
    if postgres_db then execute_postgres c sql params else mret (Err no_postgres);
  pv_query := fun sql params =>
    if postgres_db then query_postgres c sql params else mret (Err no_postgres);
  pv_query_one := fun sql params =>
    if postgres_db then (rows ←? query_postgres c sql params; mret (Ok (last rows)))
    else mret (Err no_postgres) |}.

(*| core/database/provider/mod.rs 64-68 ActiveDatabaseProvider *)
Inductive ActiveDatabaseProvider : Type :=
| ActiveSqlite (sqlite_path : string)
| ActiveMysql (c : DatabaseConfig)
| ActivePostgres (c : DatabaseConfig).

(*| core/database/provider/mod.rs 71-82 from_config *)
Definition active_of (c : DatabaseConfig) (sqlite_path : string) : result string ActiveDatabaseProvider :=
  match dc_driver c with
  | Sqlite => Ok (ActiveSqlite sqlite_path)
  | Mysql => Ok (ActiveMysql c)
  | Postgres => Ok (ActivePostgres c)
  | FirebirdUnsupported =>
      Err "Firebird permanece fora do escopo funcional por compatibilidade."
  end.

(** Every operation is that of the provider inside. *)
(*| core/database/provider/mod.rs 85-165 DatabaseProvider *)
Definition delegate (a : ActiveDatabaseProvider) : Provider W :=
  match a with
  | ActiveSqlite sqlite_path => SqliteProvider sqlite_path
  | ActiveMysql c => MySqlProvider c
  | ActivePostgres c => PostgresProvider c
  end.

Definition from_config (c : DatabaseConfig) (sqlite_path : string) : result string (Provider W) :=
  match active_of c sqlite_path with Ok a => Ok (delegate a) | Err e => Err e end.
End External.
