(* ===== verification/Entities.v ===== *)
(** * Generic records: commands/entities.rs

    A catalogue of tables whose columns the generic commands may read and
    write. The commands build each statement's text from the catalogue and send
    what the caller gave as parameters: [entity_*] over a connection to the
    local SQLite file, [provider_*] over the configured database. *)

From Stdlib Require Import Ascii.
From S2P Require Import Prelude RustStr Json NetAddr NetBind RuntimeSettings Security.
From S2P Require Import ServiceConfigs RuntimeStore AppLog DatabaseConfig Providers.

#[local] Open Scope string_scope.
#[local] Open Scope tunnara_scope.

(** ** The catalogue *)

(*| src-tauri/src/commands/entities.rs 13-19 EntityDefinition *)
Record EntityDefinition : Type := {
  ed_table : string;
  ed_fields : list string;
  ed_searchable : list string;
  ed_required : list string;
  ed_label_column : string;
}.

Definition person_fields : list string :=
  ["nome"; "documento"; "telefone"; "email"; "endereco"; "cidade"; "estado"; "observacoes"; "ativo"].

(** The names that give access to a definition, and the definition. *)
(*| src-tauri/src/commands/entities.rs 22-123 entity_definition *)
Definition catalogue : list (list string * EntityDefinition) :=
  [ (["empresas"; "companies"], {|
      ed_table := "empresas";
      ed_fields := ["nome"; "nome_fantasia"; "documento"; "cidade"; "estado"; "ativo"];
      ed_searchable := ["nome"; "nome_fantasia"; "documento"; "cidade"];
      ed_required := ["nome"]; ed_label_column := "nome" |});
    (["perfis"; "perfis_acesso"; "profiles"], {|
      ed_table := "perfis_acesso"; ed_fields := ["nome"; "descricao"; "perfil_master"; "ativo"];
      ed_searchable := ["nome"; "descricao"];
      ed_required := ["nome"]; ed_label_column := "nome" |});
    (["usuarios"; "users"], {|
      ed_table := "usuarios";
      ed_fields := ["nome"; "login"; "email"; "telefone"; "cargo"; "observacoes"; "master_user";
                    "administrador"; "senha_provisoria"; "ativo"];
      ed_searchable := ["nome"; "login"; "email"];
      ed_required := ["nome"; "login"]; ed_label_column := "nome" |});
    (["departamentos"], {|
      ed_table := "departamentos"; ed_fields := ["descricao"; "ativo"];
      ed_searchable := ["descricao"];
      ed_required := ["descricao"]; ed_label_column := "descricao" |});
    (["funcoes"], {|
      ed_table := "funcoes"; ed_fields := ["descricao"; "ativo"]; ed_searchable := ["descricao"];
      ed_required := ["descricao"]; ed_label_column := "descricao" |});
    (["centro_custos"], {|
      ed_table := "centro_custos"; ed_fields := ["codigo"; "descricao"; "ativo"];
      ed_searchable := ["codigo"; "descricao"];
      ed_required := ["descricao"]; ed_label_column := "descricao" |});
    (["clientes"], {|
      ed_table := "clientes"; ed_fields := person_fields;
      ed_searchable := ["nome"; "documento"; "email"];
      ed_required := ["nome"]; ed_label_column := "nome" |});
    (["fornecedores"], {|
      ed_table := "fornecedores"; ed_fields := person_fields;
      ed_searchable := ["nome"; "documento"; "email"];
      ed_required := ["nome"]; ed_label_column := "nome" |});
    (["produtos"], {|
      ed_table := "produtos";
      ed_fields := ["codigo"; "descricao"; "tipo"; "unidade"; "valor"; "ativo"];
      ed_searchable := ["codigo"; "descricao"; "tipo"];
      ed_required := ["descricao"]; ed_label_column := "descricao" |}) ].

(*| src-tauri/src/commands/entities.rs 21-126 entity_definition *)
Definition entity_definition (entity : string) : option EntityDefinition :=
  snd <$> list_find (fun row => bool_decide (entity ∈ fst row)) catalogue.

Definition not_allowed : string := "Entidade não permitida.".

(** ** The statements' texts *)

Definition comma : list string -> string := String.concat ", ".

Section Texts.
(** The placeholder of the n-th parameter, from 1. *)
Context (hole : nat -> string).

(** [{column}{op}{placeholder}] for each column, counting from [start]. *)
Definition with_holes (op : string) (start : nat) (columns : list string) : list string :=
  imap (fun i column => column ++ op ++ hole (start + i)) columns.

(*| src-tauri/src/commands/entities.rs 420-422 select_columns *)
Definition select_columns (d : EntityDefinition) : string := "id, " ++ comma (ed_fields d).

(*| src-tauri/src/commands/entities.rs 441-464 provider_list_with_database *)
Definition list_sql (d : EntityDefinition) (searching : bool) : string :=
  "SELECT " ++ select_columns d ++ " FROM " ++ ed_table d
  ++ (if searching then " WHERE (" ++ String.concat " OR " (with_holes " LIKE " 1 (ed_searchable d)) ++ ")"
      else "")
  ++ " ORDER BY id DESC".

(*| src-tauri/src/commands/entities.rs 475-480 provider_get_with_database *)
Definition get_sql (d : EntityDefinition) (id_hole : string) : string :=
  "SELECT " ++ select_columns d ++ " FROM " ++ ed_table d ++ " WHERE id = " ++ id_hole.

(*| src-tauri/src/commands/entities.rs 588-603 provider_save_with_database *)
Definition update_sql (table : string) (columns : list string) : string :=
  "UPDATE " ++ table ++ " SET " ++ comma (with_holes " = " 1 (columns ++ ["updated_at"]))
  ++ " WHERE id = " ++ hole (length columns + 2).

(*| src-tauri/src/commands/entities.rs 424-432 placeholders *)
Definition placeholders (start count : nat) : list string := map hole (seq start count).

(*| src-tauri/src/commands/entities.rs 614-626 provider_save_with_database *)
Definition insert_sql (table : string) (columns : list string) (returning : string) : string :=
  let columns := (columns ++ ["created_at"; "updated_at"])%list in
  "INSERT INTO " ++ table ++ " (" ++ comma columns ++ ") VALUES ("
  ++ comma (placeholders 1 (length columns)) ++ ")" ++ returning.

(*| src-tauri/src/commands/entities.rs 683-687 provider_delete_with_database *)
Definition delete_sql (d : EntityDefinition) (id_hole : string) : string :=
  "DELETE FROM " ++ ed_table d ++ " WHERE id = " ++ id_hole.

(*| src-tauri/src/commands/entities.rs 495-502 provider_insert_audit *)
Definition audit_sql : string :=
  "INSERT INTO audit_logs (entity_name, action_name, record_id, payload_json, created_at) VALUES ("
  ++ comma (placeholders 1 5) ++ ")".

(*| src-tauri/src/commands/entities.rs 526-535 provider_enqueue_sync *)
Definition sync_sql : string :=
  "INSERT INTO sync_queue (entity_name, action_name, record_id, payload_json, status, created_at, updated_at) VALUES ("
  ++ comma (placeholders 1 7) ++ ")".
End Texts.

(*| src-tauri/src/commands/entities.rs 231-234 combo_list *)
Definition combo_sql (d : EntityDefinition) : string :=
  "SELECT id, COALESCE(" ++ ed_label_column d ++ ", '[sem descrição]') AS label FROM "
  ++ ed_table d ++ " ORDER BY label ASC".

(** ** Values *)

(** A text is NULL when it is blank, which the providers' conversion does not do. *)
(*| src-tauri/src/commands/entities.rs 128-145 json_to_sql_value *)
Definition json_to_sql_value (to_text : value -> string) (v : value) : sql_value :=
  match v with
  | Null => SqlNull
  | Bool b => SqlInt (if b then 1 else 0)
  | Number n => match number_as_i64 n with Some i => SqlInt i | None => SqlReal n end
  | String_ s => if blank s then SqlNull else SqlText s
  | _ => SqlText (to_text v)
  end.

Definition integer_fields : list string :=
  ["empresa_id"; "departamento_id"; "funcao_id"; "centro_custo_id"; "horario_id"; "escala_id";
   "numero"; "porta"; "carga_horaria_minutos"; "tolerancia_minutos"; "ativo"; "administrador";
   "impacta_banco_horas"; "abono"; "banco_horas_ativo"; "permite_hora_extra";
   "compensa_atraso_com_extra"; "usa_banco_para_excedente"].

(** An integer's text is not trimmed before it is parsed. *)
(*| src-tauri/src/commands/entities.rs 147-175 normalize_value *)
Definition normalize_value (payload : members) (field : string) : value :=
  let v := unwrap_or Null (obj_get field payload) in
  if bool_decide (field ∈ integer_fields) then
    match v with
    | String_ s => if blank s then Null else match parse_i64 s with Some i => json_i64 i | None => Null end
    | other => other
    end
  else v.

(** An id given as a number or as the text of one. *)
Definition id_value (v : value) : option Z :=
  or_else (as_i64 v) (s ← as_str v; parse_i64 s).
(*| src-tauri/src/commands/entities.rs 264-267 entity_save *)
Definition payload_id (payload : members) : option Z := v ← obj_get "id" payload; id_value v.

(** The first required member that is not a text with something in it. *)
(*| src-tauri/src/commands/entities.rs 269-278 entity_save *)
Definition missing_required (d : EntityDefinition) (payload : members) : option string :=
  list_find (fun required =>
    blank (unwrap_or "" (v ← obj_get required payload; as_str v))) (ed_required d).

Definition check_required (d : EntityDefinition) (payload : members) : result string unit :=
  match missing_required d payload with
  | Some required => Err ("O campo " ++ required ++ " é obrigatório.")
  | None => Ok ()
  end.

Definition search_text (search : string) : string := "%" ++ trim search ++ "%".
Definition action_name (id : option Z) : string :=
  match id with Some _ => "update" | None => "create" end.

(*| src-tauri/src/models.rs 37-40 ComboOption *)
Record ComboOption : Type := { cb_id : Z; cb_label : string }.

(** ** Commands over the local file *)

(** Rows of an integer and a text. *)
Class SqlCombo (W : Type) `{OS : ConsoleOs W} : Type := {
  sql_combo : db_conn -> string -> St W (result (query_stage * string) (list ComboOption));
}.

Section Entities.
Context {W : Type} `{LO : LogOs W} `{SQ : !SqlDb W} `{SC : !SqlCombo W} `{CR : Crypto}
  `{RN : !Randomness W}.
Context (state : SharedState).

(** [state.db_path()?] and [open_connection]. *)
Definition open_local : St W (result string db_conn) :=
  db_path ←? mret (state_db_path state); db_open db_path.

Definition find_definition (entity : string) : St W (result string EntityDefinition) :=
  mret (ok_or not_allowed (entity_definition entity)).

Definition listing_error (d : EntityDefinition) (what : string) : query_stage * string -> string :=
  let falha s := "Falha ao " ++ s ++ " " ++ what ++ " de " ++ ed_table d in
  stage_error (falha "preparar") (falha "executar") (falha "mapear").

(*| src-tauri/src/commands/entities.rs 178-220 entity_list *)
Definition entity_list (entity search : string) : St W (result string (list members)) :=
  d ←? find_definition entity;
  conn ←? open_local;
  let searching := negb (blank search) in
  r ← sql_query conn (list_sql (fun _ => "?") d searching)
    (if searching then map (fun _ => SqlText (search_text search)) (ed_searchable d) else []);
  mret (map_err (listing_error d "listagem") r).

(*| src-tauri/src/commands/entities.rs 223-251 combo_list *)
Definition combo_list (entity : string) : St W (result string (list ComboOption)) :=
  d ←? find_definition entity;
  conn ←? open_local;
  r ← sql_combo conn (combo_sql d);
  mret (map_err (listing_error d "combo") r).

(** The columns to write and their values. *)
(*| src-tauri/src/commands/entities.rs 283-300 entity_save *)
Fixpoint save_columns (entity : string) (id : option Z) (payload : members) (fields : list string) :
    St W (result string (list (string * value))) :=
  match fields with
  | [] => mret (Ok [])
  | field :: r =>
      own ←? (if String.eqb entity "usuarios" && String.eqb field "senha_hash" then
                match v ← obj_get "senha" payload; as_str v with
                | Some password =>
                    if negb (blank password) then
                      hash ←? hash_password password; mret (Ok [(field, String_ hash)])
                    else if bool_decide (id = None)
                    then mret (Err "Senha é obrigatória para novo usuário.") else mret (Ok [])
                | None =>
                    if bool_decide (id = None)
                    then mret (Err "Senha é obrigatória para novo usuário.") else mret (Ok [])
                end
              else mret (Ok [(field, normalize_value payload field)]));
      rest ←? save_columns entity id payload r;
      mret (Ok (own ++ rest)%list)
  end.

(** The row is written, and its id is the one given or the new one. *)
(*| src-tauri/src/commands/entities.rs 302-346 entity_save *)
Definition write_record (conn : db_conn) (d : EntityDefinition) (id : option Z) (now : string)
    (columns : list (string * value)) : St W (result string Z) :=
  let names := map fst columns in
  let values := map (json_to_sql_value json_to_string) (map snd columns) in
  match id with
  | Some existing_id =>
      r ← sql_execute conn (update_sql (fun _ => "?") (ed_table d) names)
        (values ++ [SqlText now; SqlInt existing_id])%list;
      _ ←? mret (map_err (fun err => "Falha ao atualizar " ++ ed_table d ++ ": " ++ err) r);
      mret (Ok existing_id)
  | None =>
      r ← sql_execute conn (insert_sql (fun _ => "?") (ed_table d) names "")
        (values ++ [SqlText now; SqlText now])%list;
      _ ←? mret (map_err (fun err => "Falha ao inserir em " ++ ed_table d ++ ": " ++ err) r);
      rowid ← sql_last_insert_rowid conn;
      mret (Ok rowid)
  end.

(*| src-tauri/src/commands/entities.rs 254-370 entity_save *)
Definition entity_save (entity : string) (payload : members) : St W (result string members) :=
  d ←? find_definition entity;
  conn ←? open_local;
  now ← utc_now_rfc3339;
  let id := payload_id payload in
  _ ←? mret (check_required d payload);
  columns ←? save_columns entity id payload (ed_fields d);
  record_id ←? write_record conn d id now columns;
  r ← sql_query_row conn (get_sql d "?1") [SqlInt record_id];
  found ←? mret (map_err (fun err =>
    "Falha ao reler registro salvo em " ++ ed_table d ++ ": " ++ snd err) r);
  saved ←? mret (ok_or "Registro salvo não encontrado." found);
  _ ←? write_audit conn entity (action_name id) (Some record_id) (Object saved);
  _ ←? enqueue_sync conn entity (action_name id) (Some record_id) (Object saved);
  mret (Ok saved).

Definition deleted_json (entity : string) (id : Z) : value :=
  Object [("id", json_i64 id); ("entity", String_ entity)].

(*| src-tauri/src/commands/entities.rs 373-395 entity_delete *)
Definition entity_delete (entity : string) (id : Z) : St W (result string bool) :=
  d ←? find_definition entity;
  conn ←? open_local;
  r ← sql_execute conn (delete_sql d "?1") [SqlInt id];
  affected ←? mret (map_err (fun err => "Falha ao excluir de " ++ ed_table d ++ ": " ++ err) r);
  _ ←? (if (0 <? affected)%N then
          _ ←? write_audit conn entity "delete" (Some id) (deleted_json entity id);
          enqueue_sync conn entity "delete" (Some id) (deleted_json entity id)
        else mret (Ok ()));
  mret (Ok (0 <? affected)%N).

(** What [SqliteProvider] itself lists: a catalogue of its own. *)
(*| core/database/sqlite.rs 113-157 list_entities *)
Definition sqlite_allowed : list (string * (list string * list string)) :=
  [("departamentos", (["descricao"; "ativo"], ["descricao"]));
   ("funcoes", (["descricao"; "ativo"], ["descricao"]));
   ("centro_custos", (["codigo"; "descricao"; "ativo"], ["codigo"; "descricao"]));
   ("clientes", (person_fields, ["nome"; "documento"; "email"]));
   ("fornecedores", (person_fields, ["nome"; "documento"; "email"]));
   ("produtos", (["codigo"; "descricao"; "tipo"; "unidade"; "valor"; "ativo"],
                 ["codigo"; "descricao"; "tipo"]))].

(*| core/database/sqlite.rs 108-187 list_entities *)
Definition sqlite_list_entities (db_path entity search : string) :
    St W (result string (list members)) :=
  row ←? mret (ok_or "Entidade não permitida para o provider SQLite."
    (list_find (fun row => String.eqb (fst row) entity) sqlite_allowed));
  let '(table, (columns, searchable)) := row in
  conn ←? db_open db_path;
  let clauses := String.concat " OR " (map (fun column => column ++ " LIKE ?") searchable) in
  let sql := "SELECT id, " ++ comma columns ++ " FROM " ++ table
    ++ (if blank search then "" else " WHERE (" ++ clauses ++ ")") ++ " ORDER BY id DESC" in
  r ← sql_query conn sql
    (if blank search then [] else map (fun _ => SqlText (search_text search)) searchable);
  mret (map_err (stage_error "Falha ao preparar CRUD provider SQLite"
    "Falha ao listar via CRUD provider SQLite" "Falha ao mapear CRUD provider SQLite") r).

(** ** Commands over a provider *)

Section Provider.
Context (p : Provider W).

Definition hole : nat -> string := placeholder (pv_driver p).

(*| src-tauri/src/commands/entities.rs 434-466 provider_list_with_database *)
Definition provider_list_with_database (entity search : string) : St W (result string (list members)) :=
  d ←? find_definition entity;
  let searching := negb (blank search) in
  pv_query p (list_sql hole d searching)
    (if searching then map (fun _ => DbText (search_text search)) (ed_searchable d) else []).

(** The other two providers list by the catalogue of the commands. *)
(*| core/database/mysql.rs 306-308 list_entities *)
Definition mysql_list_entities : string -> string -> St W (result string (list members)) :=
  provider_list_with_database.
(*| core/database/postgres.rs 286-288 list_entities *)
Definition postgres_list_entities : string -> string -> St W (result string (list members)) :=
  provider_list_with_database.

(*| src-tauri/src/commands/entities.rs 468-485 provider_get_with_database *)
Definition provider_get_with_database (entity : string) (id : Z) : St W (result string (option members)) :=
  d ←? find_definition entity;
  pv_query_one p (get_sql d (hole 1)) [DbInteger id].

Definition opt_db_int (id : option Z) : DbValue :=
  match id with Some id => DbInteger id | None => DbNull end.

(*| src-tauri/src/commands/entities.rs 487-516 provider_insert_audit *)
Definition provider_insert_audit (entity action : string) (record_id : option Z) (payload : value)
    (now : string) : St W (result string unit) :=
  _ ←? pv_execute p (audit_sql hole)
    [DbText entity; DbText action; opt_db_int record_id; DbText (json_to_string payload); DbText now];
  mret (Ok ()).

(*| src-tauri/src/commands/entities.rs 518-551 provider_enqueue_sync *)
Definition provider_enqueue_sync (entity action : string) (record_id : option Z) (payload : value)
    (now : string) : St W (result string unit) :=
  _ ←? pv_execute p (sync_sql hole)
    [DbText entity; DbText action; opt_db_int record_id; DbText (json_to_string payload);
     DbText "pending"; DbText now; DbText now];
  mret (Ok ()).

(** The id of the row a statement answers. *)
(*| src-tauri/src/commands/entities.rs 631-637 provider_save_with_database *)
Definition returned_id (none : string) (row : option members) : result string Z :=
  row ← ok_or none row;
  ok_or "Id retornado pelo provider é inválido." (v ← obj_get "id" row; id_value v).

(*| src-tauri/src/commands/entities.rs 587-651 provider_save_with_database *)
Definition provider_write (d : EntityDefinition) (id : option Z) (now : string) (values : list DbValue) :
    St W (result string Z) :=
  match id with
  | Some existing_id =>
      _ ←? pv_execute p (update_sql hole (ed_table d) (ed_fields d))
        (values ++ [DbText now; DbInteger existing_id])%list;
      mret (Ok existing_id)
  | None =>
      let values := (values ++ [DbText now; DbText now])%list in
      if bool_decide (pv_driver p = Postgres) then
        row ←? pv_query_one p (insert_sql hole (ed_table d) (ed_fields d) " RETURNING id") values;
        mret (returned_id "Falha ao obter id retornado pelo PostgreSQL." row)
      else
        _ ←? pv_execute p (insert_sql hole (ed_table d) (ed_fields d) "") values;
        row ←? pv_query_one p (last_insert_id_sql (pv_driver p)) [];
        mret (returned_id "Falha ao obter último id inserido pelo provider." row)
  end.

(*| src-tauri/src/commands/entities.rs 553-674 provider_save_with_database *)
Definition provider_save_with_database (entity : string) (payload : members) :
    St W (result string members) :=
  d ←? find_definition entity;
  now ← utc_now_rfc3339;
  let id := payload_id payload in
  _ ←? mret (check_required d payload);
  record_id ←? provider_write d id now
    (map (fun field => db_value_of_json (normalize_value payload field)) (ed_fields d));
  found ←? provider_get_with_database entity record_id;
  saved ←? mret (ok_or "Registro salvo não encontrado pelo provider." found);
  _ ←? provider_insert_audit entity (action_name id) (Some record_id) (Object saved) now;
  _ ←? provider_enqueue_sync entity (action_name id) (Some record_id) (Object saved) now;
  mret (Ok saved).

(*| src-tauri/src/commands/entities.rs 676-699 provider_delete_with_database *)
Definition provider_delete_with_database (entity : string) (id : Z) : St W (result string bool) :=
  d ←? find_definition entity;
  affected ←? pv_execute p (delete_sql d (hole 1)) [DbInteger id];
  _ ←? (if (0 <? affected)%N then
          now ← utc_now_rfc3339;
          _ ←? provider_insert_audit entity "delete" (Some id) (deleted_json entity id) now;
          provider_enqueue_sync entity "delete" (Some id) (deleted_json entity id) now
        else mret (Ok ()));
  mret (Ok (0 <? affected)%N).
End Provider.

(** ** The configured provider *)

Context `{DD : !DatabaseDrivers W} `{XD : !ExternalDrivers W}.
Context (env : Env).

(*| src-tauri/src/commands/entities.rs 401-407 current_provider_driver *)
Definition current_provider_driver : string :=
  to_ascii_lowercase (trim (unwrap_or "sqlite"
    (or_else (env !! "TUNNARA_CONSOLE_DATABASE_DRIVER") (env !! "TUNNARA_CONSOLE_DB_DRIVER")))).

(*| src-tauri/src/commands/entities.rs 409-418 active_provider *)
Definition active_provider : result string (Provider W) :=
  db_path ← state_db_path state;
  from_config (from_env_with_driver env current_provider_driver) db_path.

Definition on_provider {A} (f : Provider W -> St W (result string A)) : St W (result string A) :=
  p ←? mret active_provider; f p.

(*| src-tauri/src/commands/entities.rs 702-709 entity_provider_list *)
Definition entity_provider_list (entity search : string) : St W (result string (list members)) :=
  on_provider (fun p => provider_list_with_database p entity search).
(*| src-tauri/src/commands/entities.rs 712-718 provider_entity_list *)
Definition provider_entity_list := entity_provider_list.
(*| src-tauri/src/commands/entities.rs 721-728 provider_entity_get *)
Definition provider_entity_get (entity : string) (id : Z) : St W (result string (option members)) :=
  on_provider (fun p => provider_get_with_database p entity id).
(*| src-tauri/src/commands/entities.rs 731-738 provider_entity_create *)
Definition provider_entity_create (entity : string) (payload : members) : St W (result string members) :=
  on_provider (fun p => provider_save_with_database p entity payload).
(*| src-tauri/src/commands/entities.rs 741-753 provider_entity_update *)
Definition provider_entity_update (entity : string) (payload : members) : St W (result string members) :=
  if negb (contains_key "id" payload)
  then mret (Err "Campo id é obrigatório para atualização via provider_entity_update.")
  else on_provider (fun p => provider_save_with_database p entity payload).
(*| src-tauri/src/commands/entities.rs 756-763 provider_entity_delete *)
Definition provider_entity_delete (entity : string) (id : Z) : St W (result string bool) :=
  on_provider (fun p => provider_delete_with_database p entity id).
End Entities.
