(* ===== verification/EntityRules.v ===== *)
(** * Properties of the generic records

    The texts that reach the database come from the catalogue alone; the two
    listings agree on SQLite; and a record created through the SQLite provider
    is never reported as created. *)

From Stdlib Require Import Ascii.
From S2P Require Import Prelude RustStr Json NetAddr NetBind RuntimeSettings Security.
From S2P Require Import ServiceConfigs RuntimeStore AppLog DatabaseConfig Providers Entities.

#[local] Open Scope string_scope.
#[local] Open Scope tunnara_scope.

(** ** The catalogue *)

Lemma definition_in_catalogue entity d :
  entity_definition entity = Some d -> d ∈ map snd catalogue.
Proof.
  unfold entity_definition. intros (row & H & ->)%fmap_Some.
  apply list_find_Some in H as [H _]. apply list_elem_of_In, in_map.
  by apply list_elem_of_In.
Qed.

(** No entity writes the column of the password's hash. *)
Lemma no_password_column entity d :
  entity_definition entity = Some d -> "senha_hash" ∉ ed_fields d.
Proof.
  intros H%definition_in_catalogue.
  assert (Forall (fun d => "senha_hash" ∉ ed_fields d) (map snd catalogue)) as Hall
    by (apply (bool_decide_unpack _); vm_compute; exact I).
  rewrite Forall_forall in Hall. by apply Hall.
Qed.

(** The statements over a table. *)
Definition texts_of (hole : nat -> string) (first : string) (d : EntityDefinition) : list string :=
  [list_sql hole d true; list_sql hole d false; get_sql d first;
   update_sql hole (ed_table d) (ed_fields d); insert_sql hole (ed_table d) (ed_fields d) "";
   insert_sql hole (ed_table d) (ed_fields d) " RETURNING id"; delete_sql d first].

Definition catalogue_texts (hole : nat -> string) (first : string) : list string :=
  concat (map (texts_of hole first) (map snd catalogue)).

(** Every text the commands over a provider can send. *)
Definition provider_texts (driver : DatabaseDriver) : list string :=
  let h := placeholder driver in
  audit_sql h :: sync_sql h :: last_insert_id_sql driver :: catalogue_texts h (h 1).

(** Every text the commands over the local file can send, beside the fixed ones
    of the audit and the queue. *)
Definition local_texts : list string := catalogue_texts (fun _ => "?") "?1".
Definition combo_texts : list string := map combo_sql (map snd catalogue).

Lemma text_in_catalogue hole first entity d sql :
  entity_definition entity = Some d -> sql ∈ texts_of hole first d ->
  sql ∈ catalogue_texts hole first.
Proof.
  intros H%definition_in_catalogue Hs. unfold catalogue_texts. apply list_elem_of_In, in_concat.
  exists (texts_of hole first d). split; [apply in_map|]; by apply list_elem_of_In.
Qed.

Ltac pick_text := unfold texts_of; rewrite ?elem_of_cons; repeat first [left; reflexivity | right].

Section Rules.
Context {W : Type} `{LO : LogOs W} `{SQ : !SqlDb W} `{SC : !SqlCombo W} `{CR : Crypto}
  `{RN : !Randomness W}.
Context (state : SharedState).

(** ** What reaches the database *)

Lemma stable_find (I : W -> Prop) {B} entity (f : EntityDefinition -> St W (result string B)) :
  (forall d, entity_definition entity = Some d -> stable I (f d)) ->
  stable I (try (find_definition entity) f).
Proof.
  intros H. unfold try, find_definition, mbind, st_bind, mret, st_ret.
  destruct (entity_definition entity) as [d|] eqn:E; cbn; [by apply H|].
  intros w b w' HI [= _ <-]. done.
Qed.

(** The statements of a provider over the fixed texts keep [I]. *)
Definition provider_keeps (p : Provider W) (I : W -> Prop) : Prop :=
  forall sql params, sql ∈ provider_texts (pv_driver p) ->
    stable I (pv_execute p sql params) /\ stable I (pv_query p sql params) /\
    stable I (pv_query_one p sql params).

(** The same for the local file. *)
Definition local_keeps (I : W -> Prop) : Prop :=
  forall conn, (forall sql params, sql ∈ local_texts ->
    stable I (sql_execute conn sql params) /\ stable I (sql_query conn sql params) /\
    stable I (sql_query_row conn sql params)) /\
  (forall sql, sql ∈ combo_texts -> stable I (sql_combo conn sql)) /\
  stable I (sql_last_insert_rowid conn) /\
  (forall entity action id payload, stable I (write_audit conn entity action id payload) /\
    stable I (enqueue_sync conn entity action id payload)).

Section ProviderTexts.
Context (p : Provider W) (I : W -> Prop) (HI : provider_keeps p I) (Hnow : stable I utc_now_rfc3339).

Lemma in_texts entity d sql :
  entity_definition entity = Some d ->
  sql ∈ texts_of (hole p) (hole p 1) d -> sql ∈ provider_texts (pv_driver p).
Proof. intros Hd Hs. do 3 right. by eapply text_in_catalogue. Qed.

Lemma stable_audit entity action id payload now :
  stable I (provider_insert_audit p entity action id payload now).
Proof. unfold provider_insert_audit. apply stable_try; [|frame]. apply HI. left. Qed.

Lemma stable_enqueue entity action id payload now :
  stable I (provider_enqueue_sync p entity action id payload now).
Proof. unfold provider_enqueue_sync. apply stable_try; [|frame]. apply HI. right. left. Qed.

Hint Resolve stable_audit stable_enqueue Hnow : frames.

Lemma stable_provider_list entity search : stable I (provider_list_with_database p entity search).
Proof.
  apply stable_find. intros d Hd. apply HI. eapply in_texts; [done|].
  destruct (negb (blank search)); pick_text.
Qed.

Lemma stable_provider_get entity id : stable I (provider_get_with_database p entity id).
Proof. apply stable_find. intros d Hd. apply HI. eapply in_texts; [done|]. pick_text. Qed.

Lemma stable_provider_write entity d id now values :
  entity_definition entity = Some d -> stable I (provider_write p d id now values).
Proof.
  intros Hd.
  assert (forall sql params, sql ∈ texts_of (hole p) (hole p 1) d ->
    stable I (pv_execute p sql params) /\ stable I (pv_query_one p sql params)) as Hk
    by (intros; split; apply HI; by eapply in_texts).
  unfold provider_write. destruct id; [|destruct (bool_decide _)];
    (apply stable_try; [apply Hk; pick_text|intros; try apply stable_ret]).
  apply stable_try; [|intros; apply stable_ret]. apply HI. right. right. left.
Qed.

Lemma stable_provider_save entity payload : stable I (provider_save_with_database p entity payload).
Proof.
  apply stable_find. intros d Hd. pose proof (stable_provider_get entity).
  pose proof (fun id now v => stable_provider_write entity d id now v Hd). frame; auto.
Qed.

Lemma stable_provider_delete entity id : stable I (provider_delete_with_database p entity id).
Proof.
  apply stable_find. intros d Hd. apply stable_try; [|intros; frame; auto].
  apply HI. eapply in_texts; [done|]. pick_text.
Qed.
End ProviderTexts.

Section LocalTexts.
Context (I : W -> Prop) (HI : local_keeps I) (Hnow : stable I utc_now_rfc3339)
  (Hopen : forall path, stable I (db_open path)).

Lemma in_local entity d sql :
  entity_definition entity = Some d -> sql ∈ texts_of (fun _ => "?") "?1" d -> sql ∈ local_texts.
Proof. apply text_in_catalogue. Qed.

Lemma stable_open_local : stable I (open_local state).
Proof. unfold open_local. frame; auto. Qed.

Lemma stable_audit_row conn entity action id payload :
  stable I (write_audit conn entity action id payload).
Proof. apply HI. Qed.
Lemma stable_queue_row conn entity action id payload :
  stable I (enqueue_sync conn entity action id payload).
Proof. apply HI. Qed.

Lemma stable_entity_list entity search : stable I (entity_list state entity search).
Proof.
  apply stable_find. intros d Hd. apply stable_try; [apply stable_open_local|]. intros conn.
  apply stable_bind; [|frame]. apply HI. eapply in_local; [done|].
  destruct (negb (blank search)); pick_text.
Qed.

Lemma stable_combo_list entity : stable I (combo_list state entity).
Proof.
  apply stable_find. intros d Hd. apply stable_try; [apply stable_open_local|]. intros conn.
  apply stable_bind; [|frame]. apply HI. unfold combo_texts. rewrite list_elem_of_In.
  apply in_map. rewrite <- list_elem_of_In. by eapply definition_in_catalogue.
Qed.
End LocalTexts.

(** A save's columns are the entity's, with the payload's values: the branch
    for the password's hash is never taken. *)
Lemma save_columns_plain entity id payload fields :
  "senha_hash" ∉ fields ->
  save_columns (W := W) entity id payload fields
  = mret (Ok (map (fun field => (field, normalize_value payload field)) fields)).
Proof.
  induction fields as [|field r IH]; [done|]. intros [Hf Hr]%not_elem_of_cons. cbn [save_columns].
  replace (field =? "senha_hash") with false by (symmetry; apply String.eqb_neq; congruence).
  rewrite andb_false_r, IH by done. done.
Qed.

Section LocalSaves.
Context (I : W -> Prop) (HI : local_keeps I) (Hnow : stable I utc_now_rfc3339)
  (Hopen : forall path, stable I (db_open path)).

Hint Resolve stable_audit_row stable_queue_row : frames.

Lemma stable_write_record conn entity d id now columns :
  entity_definition entity = Some d -> map fst columns = ed_fields d ->
  stable I (write_record conn d id now columns).
Proof.
  intros Hd Hc. pose proof (HI conn) as (Hsql & _ & Hrow & _). unfold write_record. rewrite Hc.
  assert (forall sql params, sql ∈ texts_of (fun _ => "?") "?1" d ->
    stable I (sql_execute conn sql params)) as Hk by (intros; apply Hsql; by eapply in_local).
  destruct id; (apply stable_bind; [apply Hk; pick_text|]); intros;
    (apply stable_try; [apply stable_ret|]); intros; frame; auto.
Qed.

Lemma stable_entity_save entity payload : stable I (entity_save state entity payload).
Proof.
  apply stable_find. intros d Hd. apply stable_try; [by apply stable_open_local|]. intros conn.
  apply stable_bind; [done|]. intros now. cbv zeta. apply stable_try; [apply stable_ret|]. intros _.
  rewrite save_columns_plain by by eapply no_password_column.
  unfold try at 1, mbind at 1, st_bind at 1, mret at 1, st_ret at 1.
  apply stable_try.
  - eapply stable_write_record; [done|]. rewrite map_map. apply map_id.
  - intros id. pose proof (HI conn) as (Hsql & _).
    apply stable_bind; [apply Hsql; eapply in_local; [done|]; pick_text|].
    intros r. frame.
Qed.

Lemma stable_entity_delete entity id : stable I (entity_delete state entity id).
Proof.
  apply stable_find. intros d Hd. apply stable_try; [by apply stable_open_local|]. intros conn.
  pose proof (HI conn) as (Hsql & _).
  apply stable_bind; [apply Hsql; eapply in_local; [done|]; pick_text|].
  intros r. frame.
Qed.
End LocalSaves.


(** ** SQLite through the provider *)

Context `{DD : !DatabaseDrivers W} `{XD : !ExternalDrivers W}.

Lemma with_holes_fixed h op start columns :
  (forall n, h n = "?") -> with_holes h op start columns = with_holes (fun _ => "?") op start columns.
Proof. intros H. unfold with_holes. apply imap_ext. intros i c _. by rewrite H. Qed.

Lemma list_sql_fixed h d b : (forall n, h n = "?") -> list_sql h d b = list_sql (fun _ => "?") d b.
Proof. intros H. unfold list_sql. by rewrite with_holes_fixed. Qed.

(** The two listings agree: when the configured driver is SQLite (which it
    is for any unknown name but an external one's), [entity_list] over the local
    file and [entity_provider_list] over the provider send the same statement
    with the same parameters: they answer the same rows, or both fail, and leave
    the same state behind. *)
Theorem entity_list_agrees env entity search w :
  driver_from_str (current_provider_driver env) = Sqlite ->
  let '(local, w1) := entity_list state entity search w in
  let '(provided, w2) := entity_provider_list state env entity search w in
  w1 = w2 /\ ok local = ok provided.
Proof.
  intros Hd. unfold entity_provider_list, on_provider, active_provider, from_config, active_of.
  change (dc_driver (from_env_with_driver env (current_provider_driver env)))
    with (driver_from_str (current_provider_driver env)). rewrite Hd.
  unfold entity_list, provider_list_with_database, find_definition, open_local.
  unfold try, mbind, st_bind, mret, st_ret, result_bind.
  destruct (entity_definition entity) as [d|]; cbn; [|by destruct (state_db_path state)].
  destruct (state_db_path state) as [path|e]; cbn; [|done].
  unfold sqlite_query, try, mbind, st_bind, mret, st_ret.
  destruct (db_open path w) as [[conn|e] w1]; [|done].
  rewrite (list_sql_fixed (hole _)) by done.
  replace (map to_rusqlite_value _) with
    (if negb (blank search) then map (fun _ => SqlText (search_text search)) (ed_searchable d) else [])
    by (destruct (negb (blank search)); [by rewrite map_map|done]).
  destruct (sql_query conn _ _ w1) as [r w2]. by destruct r.
Qed.

(** What SQLite documents of [last_insert_rowid()]: it is 0 on a connection
    that has inserted nothing; and that no row has the id 0, since AUTOINCREMENT
    counts from 1. *)
Class FreshRowid : Prop := {
  fresh_rowid path w conn w1 row w2 :
    db_open path w = (Ok conn, w1) ->
    sql_query_row conn (last_insert_id_sql Sqlite) [] w1 = (Ok (Some row), w2) ->
    obj_get "id" row = Some (json_i64 0);
  no_row_zero d conn w row w1 :
    sql_query_row conn (get_sql d "?") [SqlInt 0] w <> (Ok (Some row), w1);
}.

Lemma sqlite_query_one_Ok path sql params w o w' :
  sqlite_query_one path sql params w = (Ok o, w') ->
  exists conn w1, db_open path w = (Ok conn, w1) /\
    sql_query_row conn sql (map to_rusqlite_value params) w1 = (Ok o, w').
Proof.
  unfold sqlite_query_one. intros (conn & w1 & Eo & H)%try_Ok. run_bind H r w2 as Er.
  destruct r; [|done]. injection H as -> ->. eauto.
Qed.

(** A new record's id is read as 0. *)
Lemma sqlite_write_id `{FR : !FreshRowid} path d now values w id w' :
  provider_write (SqliteProvider path) d None now values w = (Ok id, w') -> id = 0%Z.
Proof.
  unfold provider_write. cbn [pv_driver SqliteProvider].
  rewrite bool_decide_eq_false_2 by done.
  intros (n & w1 & _ & H)%try_Ok. apply try_Ok in H as (row & w2 & Er & H).
  apply sqlite_query_one_Ok in Er as (conn & w3 & Eo & Er). injection H as H _.
  destruct row as [row|]; [|done]. unfold returned_id in H. cbn in H.
  rewrite (fresh_rowid _ _ _ _ _ _ Eo Er) in H. by injection H as <-.
Qed.

Lemma sqlite_save_create `{FR : !FreshRowid} path entity payload w r w' :
  payload_id payload = None ->
  provider_save_with_database (SqliteProvider path) entity payload w = (r, w') ->
  exists message, r = Err message.
Proof.
  intros Hid H. destruct r as [saved|message]; [exfalso|by exists message].
  apply try_Ok in H as (d & w1 & Hd & H). run_bind H now w2 as En. cbv zeta in H.
  rewrite Hid in H. apply try_Ok in H as (u & w3 & _ & H).
  apply try_Ok in H as (id & w4 & Ew & H). apply sqlite_write_id in Ew as ->.
  apply try_Ok in H as (found & w5 & Ef & H).
  apply try_Ok in H as (s & w6 & Es & _). injection Es as Es ->.
  apply try_Ok in Ef as (d' & w7 & Hd' & Ef). injection Hd as Hd ->. injection Hd' as Hd' ->.
  apply sqlite_query_one_Ok in Ef as (conn & w8 & _ & Ef).
  destruct found as [row|]; [|done]. by apply no_row_zero in Ef.
Qed.
(** The parameters of the statement that inserts a record. *)
Definition insert_params (d : EntityDefinition) (payload : members) (now : string) : list DbValue :=
  (map (fun field => db_value_of_json (normalize_value payload field)) (ed_fields d)
   ++ [DbText now; DbText now])%list.

(** Opening the file and reading a row. *)
Definition reads_keep (J : W -> Prop) : Prop :=
  (forall path, stable J (db_open path)) /\
  (forall conn sql params, stable J (sql_query_row conn sql params)).

Lemma sqlite_query_one_stable J path sql params :
  reads_keep J -> stable J (sqlite_query_one path sql params).
Proof. intros [Ho Hq]. unfold sqlite_query_one. frame; auto. Qed.

(** After the insertion only reads happen. *)
Lemma sqlite_save_keeps_row `{FR : !FreshRowid} J path entity payload w r w' d now w0 n w1 :
  payload_id payload = None ->
  provider_save_with_database (SqliteProvider path) entity payload w = (r, w') ->
  entity_definition entity = Some d -> check_required d payload = Ok () ->
  utc_now_rfc3339 w = (now, w0) ->
  sqlite_execute path (insert_sql (placeholder Sqlite) (ed_table d) (ed_fields d) "")
    (insert_params d payload now) w0 = (Ok n, w1) ->
  reads_keep J -> J w1 -> J w'.
Proof.
  intros Hid H Hd Hreq Hnow Hins HJ H1.
  destruct (sqlite_save_create path entity payload w r w' Hid H) as (message & ->).
  pose proof (fun sql params => sqlite_query_one_stable J path sql params HJ) as Hq.
  unfold provider_save_with_database, find_definition in H. rewrite Hd, Hid in H.
  erewrite try_run in H by done. erewrite st_bind_run in H by exact Hnow. cbv zeta in H.
  rewrite Hreq in H. erewrite try_run in H by done.
  unfold provider_write in H. cbn [pv_driver SqliteProvider] in H.
  rewrite bool_decide_eq_false_2 in H by done.
  apply try_inv in H as [(id & w2 & Ew & H)|(e & Ew & _)].
  - pose proof Ew as Ew'. erewrite try_run in Ew by exact Hins.
    apply try_Ok in Ew as (row & w3 & Er & Ew). injection Ew as Ew <-.
    assert (J w3) as H2 by (by eapply Hq; [|exact Er]).
    assert (id = 0%Z) as ->.
    { eapply (sqlite_write_id path d). unfold provider_write. cbn [pv_driver SqliteProvider].
      rewrite bool_decide_eq_false_2 by done. exact Ew'. }
    apply try_inv in H as [(found & w4 & Ef & H)|(e & Ef & _)].
    + unfold provider_get_with_database, find_definition in Ef. rewrite Hd in Ef.
      erewrite try_run in Ef by done. assert (J w4) as H4 by (by eapply Hq; [|exact Ef]).
      apply sqlite_query_one_Ok in Ef as (conn & w5 & _ & Ef).
      destruct found as [row'|]; [by apply no_row_zero in Ef|]. by injection H as _ <-.
    + unfold provider_get_with_database, find_definition in Ef. rewrite Hd in Ef.
      erewrite try_run in Ef by done. by eapply Hq; [|exact Ef].
  - erewrite try_run in Ew by exact Hins.
    apply try_inv in Ew as [(row & w3 & Er & Ew)|(e' & Er & _)]; [|by eapply Hq; [|exact Er]].
    injection Ew as _ <-. by eapply Hq; [|exact Er].
Qed.

End Rules.
