(* ===== verification/Schemas.v ===== *)
(** * Schemas: the tables of the three databases

    A table is the list of its columns. The tables of MySQL and PostgreSQL are
    one list: [mysql_schema] and [postgres_schema] are the texts the two drivers
    send, written from it in the two dialects. SQLite's tables are those of
    migrations.rs; its statements are run, in [Migrations], on a catalogue. *)

From S2P Require Import Prelude RustStr AppLog DatabaseConfig Providers Entities.

#[local] Open Scope string_scope.

(** ** Tables *)

(** SQLite's INTEGER is [Int_] and its REAL is [Real_]. *)
Inductive ColType : Type :=
| AutoId | Varchar (n : N) | Text_ | Flag | Int_ | BigInt | Decimal | Real_.

(** [DNow] is SQLite's [datetime('now')]. *)
Inductive Default : Type := DFlag (b : bool) | DNum (n : N) | DText (s : string) | DNow.

Record Column : Type := {
  c_name : string;
  c_type : ColType;
  c_primary : bool;
  c_not_null : bool;
  c_unique : bool;
  c_default : option Default;
}.

Inductive OnDelete : Type := NoAction | Cascade | SetNull.

Record Table : Type := {
  t_name : string;
  t_columns : list Column;
  (** column, table whose id it holds, what a deletion there does *)
  t_foreign : list (string * string * OnDelete);
}.

Record Index : Type := {
  i_unique : bool;
  i_name : string;
  i_table : string;
  i_columns : list string;
}.

#[export] Instance Index_eq_dec : EqDecision Index.
Proof. solve_decision. Defined.

Definition column name type primary not_null unique default : Column := {|
  c_name := name; c_type := type; c_primary := primary; c_not_null := not_null;
  c_unique := unique; c_default := default |}.
Definition auto_id : Column := column "id" AutoId true false false None.
Definition col name type : Column := column name type false false false None.
Definition required name type : Column := column name type false true false None.
Definition unique name type : Column := column name type false true true None.
Definition primary name type : Column := column name type true false false None.
Definition defaulted name type default : Column := column name type false true false (Some default).
Definition table name columns foreign : Table := {|
  t_name := name; t_columns := columns; t_foreign := foreign |}.
Definition index unique name table columns : Index := {|
  i_unique := unique; i_name := name; i_table := table; i_columns := columns |}.

Definition column_names (t : Table) : list string := map c_name (t_columns t).
Definition find_table (name : string) (l : list Table) : option Table :=
  list_find (fun t => String.eqb (t_name t) name) l.
Definition find_column (name : string) (t : Table) : option Column :=
  list_find (fun c => String.eqb (c_name c) name) (t_columns t).

(** ** MySQL and PostgreSQL *)

(*| core/database/mysql.rs 204-228 mysql_schema *)
Definition external_tables : list Table := [
  table "empresas" [
    auto_id; required "nome" (Varchar 255); col "nome_fantasia" (Varchar 255);
    col "documento" (Varchar 32); col "inscricao_estadual" (Varchar 64);
    col "inscricao_municipal" (Varchar 64); col "telefone" (Varchar 64);
    col "email" (Varchar 255); col "responsavel_nome" (Varchar 255);
    col "responsavel_telefone" (Varchar 64); col "cep" (Varchar 32); col "endereco" Text_;
    col "numero" (Varchar 32); col "complemento" (Varchar 255); col "bairro" (Varchar 120);
    col "cidade" (Varchar 120); col "estado" (Varchar 32); col "observacoes" Text_;
    defaulted "ativo" Flag (DFlag true); required "created_at" (Varchar 40);
    required "updated_at" (Varchar 40)] [];
  table "usuarios" [
    auto_id; required "nome" (Varchar 255); unique "login" (Varchar 120);
    col "email" (Varchar 255); col "telefone" (Varchar 64); col "cargo" (Varchar 120);
    col "observacoes" Text_; required "senha_hash" Text_;
    defaulted "master_user" Flag (DFlag false); defaulted "administrador" Flag (DFlag false);
    defaulted "senha_provisoria" Flag (DFlag false); col "ultimo_login_em" (Varchar 40);
    defaulted "ativo" Flag (DFlag true); required "created_at" (Varchar 40);
    required "updated_at" (Varchar 40)] [];
  table "perfis_acesso" [
    auto_id; unique "nome" (Varchar 160); col "descricao" Text_;
    defaulted "perfil_master" Flag (DFlag false); defaulted "ativo" Flag (DFlag true);
    required "created_at" (Varchar 40); required "updated_at" (Varchar 40)] [];
  table "perfis_permissoes" [
    auto_id; required "perfil_id" BigInt; required "permissao_chave" (Varchar 190);
    required "created_at" (Varchar 40)] [];
  table "usuarios_perfis" [
    auto_id; required "usuario_id" BigInt; required "perfil_id" BigInt;
    required "created_at" (Varchar 40)] [];
  table "usuarios_empresas" [
    auto_id; required "usuario_id" BigInt; required "empresa_id" BigInt;
    required "created_at" (Varchar 40)] [];
  table "user_sessions" [
    auto_id; required "usuario_id" BigInt; unique "session_token" (Varchar 190);
    required "created_at" (Varchar 40); required "expires_at" (Varchar 40);
    required "last_activity_at" (Varchar 40)] [];
  table "departamentos" [
    auto_id; required "descricao" (Varchar 255); defaulted "ativo" Flag (DFlag true);
    required "created_at" (Varchar 40); required "updated_at" (Varchar 40)] [];
  table "funcoes" [
    auto_id; required "descricao" (Varchar 255); defaulted "ativo" Flag (DFlag true);
    required "created_at" (Varchar 40); required "updated_at" (Varchar 40)] [];
  table "centro_custos" [
    auto_id; col "codigo" (Varchar 80); required "descricao" (Varchar 255);
    defaulted "ativo" Flag (DFlag true); required "created_at" (Varchar 40);
    required "updated_at" (Varchar 40)] [];
  table "clientes" [
    auto_id; required "nome" (Varchar 255); col "documento" (Varchar 32);
    col "telefone" (Varchar 64); col "email" (Varchar 255); col "endereco" Text_;
    col "cidade" (Varchar 120); col "estado" (Varchar 32); col "observacoes" Text_;
    defaulted "ativo" Flag (DFlag true); required "created_at" (Varchar 40);
    required "updated_at" (Varchar 40)] [];
  table "fornecedores" [
    auto_id; required "nome" (Varchar 255); col "documento" (Varchar 32);
    col "telefone" (Varchar 64); col "email" (Varchar 255); col "endereco" Text_;
    col "cidade" (Varchar 120); col "estado" (Varchar 32); col "observacoes" Text_;
    defaulted "ativo" Flag (DFlag true); required "created_at" (Varchar 40);
    required "updated_at" (Varchar 40)] [];
  table "produtos" [
    auto_id; col "codigo" (Varchar 80); required "descricao" (Varchar 255);
    col "tipo" (Varchar 80); col "unidade" (Varchar 32); defaulted "valor" Decimal (DNum 0);
    defaulted "ativo" Flag (DFlag true); required "created_at" (Varchar 40);
    required "updated_at" (Varchar 40)] [];
  table "audit_logs" [
    auto_id; required "entity_name" (Varchar 120); required "action_name" (Varchar 80);
    col "record_id" BigInt; col "payload_json" Text_; required "created_at" (Varchar 40)] [];
  table "sync_queue" [
    auto_id; required "entity_name" (Varchar 120); required "action_name" (Varchar 80);
    col "record_id" BigInt; col "payload_json" Text_;
    defaulted "status" (Varchar 40) (DText "pending"); required "created_at" (Varchar 40);
    required "updated_at" (Varchar 40)] [];
  table "app_settings" [
    primary "chave" (Varchar 190); col "valor" Text_; required "created_at" (Varchar 40);
    required "updated_at" (Varchar 40)] [];
  table "app_logs" [
    auto_id; required "level" (Varchar 40); required "category" (Varchar 120);
    required "message" Text_; col "source" (Varchar 255); col "route" (Varchar 255);
    col "details_json" Text_; required "created_at" (Varchar 40)] [];
  table "admin_guard" [
    primary "id" BigInt; col "support_secret_hash" Text_; col "totp_secret_encrypted" Text_;
    defaulted "totp_enabled" Flag (DFlag false); col "recovery_codes_encrypted" Text_;
    defaulted "licensing_protected" Flag (DFlag true);
    defaulted "white_label_protected" Flag (DFlag true); required "created_at" (Varchar 40);
    required "updated_at" (Varchar 40); col "last_rotated_at" (Varchar 40)] [];
  table "admin_unlock_sessions" [
    auto_id; required "usuario_id" BigInt; required "scope" (Varchar 120);
    unique "unlock_token" (Varchar 190); required "expires_at" (Varchar 40);
    required "created_at" (Varchar 40); col "last_used_at" (Varchar 40)] [];
  table "local_licenses" [
    auto_id; required "empresa_id" BigInt; required "cnpj" (Varchar 32);
    required "license_kind" (Varchar 80); defaulted "status" (Varchar 40) (DText "active");
    required "issued_at" (Varchar 40); required "expires_at" (Varchar 40);
    col "fingerprint" Text_; col "payload_encrypted" Text_; col "integrity_hash" Text_;
    required "created_at" (Varchar 40); required "updated_at" (Varchar 40)] [];
  table "feature_flags" [
    primary "chave" (Varchar 190); defaulted "ativo" Flag (DFlag true); col "descricao" Text_;
    required "created_at" (Varchar 40); required "updated_at" (Varchar 40)] [];
  table "integration_configs" [
    auto_id; required "nome" (Varchar 255); defaulted "tipo" (Varchar 40) (DText "rest");
    required "base_url" Text_; defaulted "metodo_padrao" (Varchar 16) (DText "GET");
    col "headers_json" Text_; col "token_encrypted" Text_;
    defaulted "ambiente" (Varchar 80) (DText "production");
    defaulted "status" (Varchar 40) (DText "inactive");
    defaulted "timeout_seconds" Int_ (DNum 30); defaulted "retry_attempts" Int_ (DNum 0);
    col "ultimo_erro" Text_; col "ultima_execucao_em" (Varchar 40);
    defaulted "ativo" Flag (DFlag true); required "created_at" (Varchar 40);
    required "updated_at" (Varchar 40)] [];
  table "integration_logs" [
    auto_id; col "integration_id" BigInt; col "method" (Varchar 16); col "url" Text_;
    col "request_headers_json" Text_; col "status_code" Int_;
    defaulted "success" Flag (DFlag false); col "duration_ms" BigInt; col "error_message" Text_;
    required "created_at" (Varchar 40)] [];
  table "api_tokens" [
    auto_id; required "nome" (Varchar 255); required "token_hash" Text_; col "escopo" Text_;
    defaulted "ativo" Flag (DFlag true); col "expires_at" (Varchar 40);
    required "created_at" (Varchar 40); required "updated_at" (Varchar 40)] [];
  table "configuracoes" [
    primary "nome" (Varchar 190); col "valor" Text_; required "updated_at" (Varchar 40)] []].

(*| core/database/mysql.rs 229-243 mysql_schema *)
Definition external_indexes : list Index := [
  index false "idx_empresas_nome" "empresas" ["nome"];
  index false "idx_empresas_documento" "empresas" ["documento"];
  index false "idx_usuarios_login" "usuarios" ["login"];
  index false "idx_usuarios_master" "usuarios" ["master_user"; "ativo"];
  index true "ux_perfis_permissao" "perfis_permissoes" ["perfil_id"; "permissao_chave"];
  index true "ux_usuarios_perfis" "usuarios_perfis" ["usuario_id"; "perfil_id"];
  index true "ux_usuarios_empresas" "usuarios_empresas" ["usuario_id"; "empresa_id"];
  index false "idx_app_logs_created_at" "app_logs" ["created_at"];
  index false "idx_app_logs_category" "app_logs" ["category"];
  index false "idx_admin_unlock_sessions_usuario" "admin_unlock_sessions" ["usuario_id"];
  index false "idx_local_licenses_cnpj" "local_licenses" ["cnpj"];
  index false "idx_clientes_nome" "clientes" ["nome"];
  index false "idx_fornecedores_nome" "fornecedores" ["nome"];
  index false "idx_produtos_descricao" "produtos" ["descricao"];
  index false "idx_sync_queue_status" "sync_queue" ["status"]].

Section Dialect.
Context (driver : DatabaseDriver).
Let postgres : bool := bool_decide (driver = Postgres).

Definition type_text (t : ColType) : string :=
  match t with
  | AutoId => if postgres then "BIGSERIAL" else "BIGINT"
  | Varchar n => "VARCHAR(" ++ show_N n ++ ")"
  | Text_ => "TEXT"
  | Flag => if postgres then "BOOLEAN" else "TINYINT"
  | Int_ => "INT"
  | BigInt => "BIGINT"
  | Decimal => if postgres then "NUMERIC(15,4)" else "DECIMAL(15,4)"
  | Real_ => "REAL"
  end.

Definition default_text (d : Default) : string :=
  match d with
  | DFlag b => if postgres then (if b then "TRUE" else "FALSE") else (if b then "1" else "0")
  | DNum n => show_N n
  | DText s => "'" ++ s ++ "'"
  | DNow => "(datetime('now'))"
  end.

Definition column_text (c : Column) : string :=
  c_name c ++ " " ++ type_text (c_type c)
  ++ (if c_primary c then " PRIMARY KEY" else "")
  ++ (match c_type c with AutoId => if postgres then "" else " AUTO_INCREMENT" | _ => "" end)
  ++ (if c_not_null c then " NOT NULL" else "")
  ++ (if c_unique c then " UNIQUE" else "")
  ++ (match c_default c with Some d => " DEFAULT " ++ default_text d | None => "" end).

Definition create_table_sql (t : Table) : string :=
  "CREATE TABLE IF NOT EXISTS " ++ t_name t ++ " (" ++ comma (map column_text (t_columns t)) ++ ")".

(** MySQL has no IF NOT EXISTS for an index. *)
Definition create_index_sql (i : Index) : string :=
  "CREATE " ++ (if i_unique i then "UNIQUE " else "") ++ "INDEX "
  ++ (if postgres then "IF NOT EXISTS " else "") ++ i_name i ++ " ON " ++ i_table i
  ++ "(" ++ comma (i_columns i) ++ ")".

Definition schema_sql : list string :=
  (map create_table_sql external_tables ++ map create_index_sql external_indexes)%list.
End Dialect.

(*| core/database/mysql.rs 202-245 mysql_schema *)
Definition mysql_schema : list string := schema_sql Mysql.
(*| core/database/postgres.rs 182-225 postgres_schema *)
Definition postgres_schema : list string := schema_sql Postgres.

(** ** SQLite *)

(*| src-tauri/src/migrations.rs 16-38 migrate *)
Definition empresas_table : Table :=
  table "empresas" [
    auto_id; required "nome" Text_; col "nome_fantasia" Text_; col "documento" Text_;
    col "inscricao_estadual" Text_; col "inscricao_municipal" Text_; col "telefone" Text_;
    col "email" Text_; col "responsavel_nome" Text_; col "responsavel_telefone" Text_;
    col "cep" Text_; col "endereco" Text_; col "numero" Text_; col "complemento" Text_;
    col "bairro" Text_; col "cidade" Text_; col "estado" Text_; col "observacoes" Text_;
    defaulted "ativo" Int_ (DNum 1); required "created_at" Text_; required "updated_at" Text_] [].
(*| src-tauri/src/migrations.rs 40-57 migrate *)
Definition usuarios_table : Table :=
  table "usuarios" [
    auto_id; required "nome" Text_; unique "login" Text_; col "email" Text_; col "telefone" Text_;
    col "cargo" Text_; col "observacoes" Text_; col "photo_url" Text_;
    required "senha_hash" Text_; defaulted "master_user" Int_ (DNum 0);
    defaulted "administrador" Int_ (DNum 0); defaulted "senha_provisoria" Int_ (DNum 0);
    col "ultimo_login_em" Text_; defaulted "ativo" Int_ (DNum 1); required "created_at" Text_;
    required "updated_at" Text_] [].
(*| src-tauri/src/migrations.rs 59-67 migrate *)
Definition perfis_acesso_table : Table :=
  table "perfis_acesso" [
    auto_id; unique "nome" Text_; col "descricao" Text_; defaulted "perfil_master" Int_ (DNum 0);
    defaulted "ativo" Int_ (DNum 1); required "created_at" Text_; required "updated_at" Text_] [].
(*| src-tauri/src/migrations.rs 69-75 migrate *)
Definition perfis_permissoes_table : Table :=
  table "perfis_permissoes" [
    auto_id; required "perfil_id" Int_; required "permissao_chave" Text_;
    required "created_at" Text_] [("perfil_id", "perfis_acesso", Cascade)].
(*| src-tauri/src/migrations.rs 77-84 migrate *)
Definition usuarios_perfis_table : Table :=
  table "usuarios_perfis" [
    auto_id; required "usuario_id" Int_; required "perfil_id" Int_; required "created_at" Text_] [("usuario_id", "usuarios", Cascade); ("perfil_id", "perfis_acesso", Cascade)].
(*| src-tauri/src/migrations.rs 86-93 migrate *)
Definition usuarios_empresas_table : Table :=
  table "usuarios_empresas" [
    auto_id; required "usuario_id" Int_; required "empresa_id" Int_; required "created_at" Text_] [("usuario_id", "usuarios", Cascade); ("empresa_id", "empresas", Cascade)].
(*| src-tauri/src/migrations.rs 95-103 migrate *)
Definition user_sessions_table : Table :=
  table "user_sessions" [
    auto_id; required "usuario_id" Int_; unique "session_token" Text_;
    required "created_at" Text_; required "expires_at" Text_; required "last_activity_at" Text_] [("usuario_id", "usuarios", Cascade)].
(*| src-tauri/src/migrations.rs 105-111 migrate *)
Definition departamentos_table : Table :=
  table "departamentos" [
    auto_id; required "descricao" Text_; defaulted "ativo" Int_ (DNum 1);
    required "created_at" Text_; required "updated_at" Text_] [].
(*| src-tauri/src/migrations.rs 113-119 migrate *)
Definition funcoes_table : Table :=
  table "funcoes" [
    auto_id; required "descricao" Text_; defaulted "ativo" Int_ (DNum 1);
    required "created_at" Text_; required "updated_at" Text_] [].
(*| src-tauri/src/migrations.rs 121-128 migrate *)
Definition centro_custos_table : Table :=
  table "centro_custos" [
    auto_id; col "codigo" Text_; required "descricao" Text_; defaulted "ativo" Int_ (DNum 1);
    required "created_at" Text_; required "updated_at" Text_] [].
(*| src-tauri/src/migrations.rs 130-143 migrate *)
Definition clientes_table : Table :=
  table "clientes" [
    auto_id; required "nome" Text_; col "documento" Text_; col "telefone" Text_;
    col "email" Text_; col "endereco" Text_; col "cidade" Text_; col "estado" Text_;
    col "observacoes" Text_; defaulted "ativo" Int_ (DNum 1); required "created_at" Text_;
    required "updated_at" Text_] [].
(*| src-tauri/src/migrations.rs 145-158 migrate *)
Definition fornecedores_table : Table :=
  table "fornecedores" [
    auto_id; required "nome" Text_; col "documento" Text_; col "telefone" Text_;
    col "email" Text_; col "endereco" Text_; col "cidade" Text_; col "estado" Text_;
    col "observacoes" Text_; defaulted "ativo" Int_ (DNum 1); required "created_at" Text_;
    required "updated_at" Text_] [].
(*| src-tauri/src/migrations.rs 160-170 migrate *)
Definition produtos_table : Table :=
  table "produtos" [
    auto_id; col "codigo" Text_; required "descricao" Text_; col "tipo" Text_;
    col "unidade" Text_; defaulted "valor" Real_ (DNum 0); defaulted "ativo" Int_ (DNum 1);
    required "created_at" Text_; required "updated_at" Text_] [].
(*| src-tauri/src/migrations.rs 172-179 migrate *)
Definition audit_logs_table : Table :=
  table "audit_logs" [
    auto_id; required "entity_name" Text_; required "action_name" Text_; col "record_id" Int_;
    col "payload_json" Text_; required "created_at" Text_] [].
(*| src-tauri/src/migrations.rs 181-190 migrate *)
Definition sync_queue_table : Table :=
  table "sync_queue" [
    auto_id; required "entity_name" Text_; required "action_name" Text_; col "record_id" Int_;
    col "payload_json" Text_; defaulted "status" Text_ (DText "pending");
    required "created_at" Text_; required "updated_at" Text_] [].
(*| src-tauri/src/migrations.rs 192-197 migrate *)
Definition app_settings_table : Table :=
  table "app_settings" [
    primary "chave" Text_; col "valor" Text_; defaulted "created_at" Text_ (DNow);
    defaulted "updated_at" Text_ (DNow)] [].
(*| src-tauri/src/migrations.rs 199-208 migrate *)
Definition app_logs_table : Table :=
  table "app_logs" [
    auto_id; required "level" Text_; required "category" Text_; required "message" Text_;
    col "source" Text_; col "route" Text_; col "details_json" Text_; required "created_at" Text_] [].
(** The id is 1. *)
(*| src-tauri/src/migrations.rs 210-221 migrate *)
Definition admin_guard_table : Table :=
  table "admin_guard" [
    primary "id" Int_; col "support_secret_hash" Text_; col "totp_secret_encrypted" Text_;
    defaulted "totp_enabled" Int_ (DNum 0); col "recovery_codes_encrypted" Text_;
    defaulted "licensing_protected" Int_ (DNum 1);
    defaulted "white_label_protected" Int_ (DNum 1); required "created_at" Text_;
    required "updated_at" Text_; col "last_rotated_at" Text_] [].
(*| src-tauri/src/migrations.rs 223-232 migrate *)
Definition admin_unlock_sessions_table : Table :=
  table "admin_unlock_sessions" [
    auto_id; required "usuario_id" Int_; required "scope" Text_; unique "unlock_token" Text_;
    required "expires_at" Text_; required "created_at" Text_; col "last_used_at" Text_] [("usuario_id", "usuarios", Cascade)].
(*| src-tauri/src/migrations.rs 234-248 migrate *)
Definition local_licenses_table : Table :=
  table "local_licenses" [
    auto_id; required "empresa_id" Int_; required "cnpj" Text_; required "license_kind" Text_;
    defaulted "status" Text_ (DText "active"); required "issued_at" Text_;
    required "expires_at" Text_; col "fingerprint" Text_; col "payload_encrypted" Text_;
    col "integrity_hash" Text_; required "created_at" Text_; required "updated_at" Text_] [("empresa_id", "empresas", NoAction)].
(*| src-tauri/src/migrations.rs 250-256 migrate *)
Definition feature_flags_table : Table :=
  table "feature_flags" [
    primary "chave" Text_; defaulted "ativo" Int_ (DNum 1); col "descricao" Text_;
    defaulted "created_at" Text_ (DNow); defaulted "updated_at" Text_ (DNow)] [].
(*| src-tauri/src/migrations.rs 258-275 migrate *)
Definition integration_configs_table : Table :=
  table "integration_configs" [
    auto_id; required "nome" Text_; defaulted "tipo" Text_ (DText "rest");
    required "base_url" Text_; defaulted "metodo_padrao" Text_ (DText "GET");
    col "headers_json" Text_; col "token_encrypted" Text_;
    defaulted "ambiente" Text_ (DText "production"); defaulted "status" Text_ (DText "inactive");
    defaulted "timeout_seconds" Int_ (DNum 30); defaulted "retry_attempts" Int_ (DNum 0);
    col "ultimo_erro" Text_; col "ultima_execucao_em" Text_; defaulted "ativo" Int_ (DNum 1);
    required "created_at" Text_; required "updated_at" Text_] [].
(*| src-tauri/src/migrations.rs 277-289 migrate *)
Definition integration_logs_table : Table :=
  table "integration_logs" [
    auto_id; col "integration_id" Int_; col "method" Text_; col "url" Text_;
    col "request_headers_json" Text_; col "status_code" Int_; defaulted "success" Int_ (DNum 0);
    col "duration_ms" Int_; col "error_message" Text_; required "created_at" Text_] [("integration_id", "integration_configs", SetNull)].
(*| src-tauri/src/migrations.rs 291-300 migrate *)
Definition api_tokens_table : Table :=
  table "api_tokens" [
    auto_id; required "nome" Text_; required "token_hash" Text_; col "escopo" Text_;
    defaulted "ativo" Int_ (DNum 1); col "expires_at" Text_; required "created_at" Text_;
    required "updated_at" Text_] [].
(*| src-tauri/src/migrations.rs 302-306 migrate *)
Definition configuracoes_table : Table :=
  table "configuracoes" [
    primary "nome" Text_; col "valor" Text_; required "updated_at" Text_] [].

(*| src-tauri/src/migrations.rs 14-309 migrate *)
Definition sqlite_tables : list Table := [
  empresas_table; usuarios_table; perfis_acesso_table; perfis_permissoes_table;
  usuarios_perfis_table; usuarios_empresas_table; user_sessions_table; departamentos_table;
  funcoes_table; centro_custos_table; clientes_table; fornecedores_table; produtos_table;
  audit_logs_table; sync_queue_table; app_settings_table; app_logs_table; admin_guard_table;
  admin_unlock_sessions_table; local_licenses_table; feature_flags_table;
  integration_configs_table; integration_logs_table; api_tokens_table; configuracoes_table].

(*| src-tauri/src/migrations.rs 393-420 ensure_indexes *)
Definition sqlite_indexes : list Index := [
  index false "idx_empresas_nome" "empresas" ["nome"];
  index false "idx_empresas_documento" "empresas" ["documento"];
  index false "idx_usuarios_login" "usuarios" ["login"];
  index false "idx_usuarios_master" "usuarios" ["master_user"; "ativo"];
  index true "ux_perfis_nome" "perfis_acesso" ["nome"];
  index true "ux_perfis_permissao" "perfis_permissoes" ["perfil_id"; "permissao_chave"];
  index true "ux_usuarios_perfis" "usuarios_perfis" ["usuario_id"; "perfil_id"];
  index true "ux_usuarios_empresas" "usuarios_empresas" ["usuario_id"; "empresa_id"];
  index true "ux_user_sessions_token" "user_sessions" ["session_token"];
  index true "ux_local_licenses_empresa" "local_licenses" ["empresa_id"];
  index false "idx_app_logs_created_at" "app_logs" ["created_at"];
  index false "idx_app_logs_category" "app_logs" ["category"];
  index false "idx_admin_unlock_sessions_usuario" "admin_unlock_sessions" ["usuario_id"];
  index false "idx_admin_unlock_sessions_token" "admin_unlock_sessions" ["unlock_token"];
  index false "idx_local_licenses_cnpj" "local_licenses" ["cnpj"];
  index false "idx_app_settings_chave" "app_settings" ["chave"];
  index false "idx_clientes_nome" "clientes" ["nome"];
  index false "idx_fornecedores_nome" "fornecedores" ["nome"];
  index false "idx_produtos_descricao" "produtos" ["descricao"];
  index false "idx_sync_queue_status" "sync_queue" ["status"]].
