(* ===== verification/SchemaRules.v ===== *)
(** * How the three schemas fit each other and the generic commands *)

From S2P Require Import Prelude RustStr AppLog DatabaseConfig Providers Entities EntityRules Schemas.

#[local] Open Scope string_scope.

(** What a statement that inserts the columns [named] leaves without a value:
    the columns that are NOT NULL and have no default. *)
Definition left_out (named : list string) (t : Table) : list string :=
  List.filter (fun n => negb (bool_decide (n ∈ named)))
    (map c_name (List.filter (fun c => c_not_null c && bool_decide (c_default c = None)) (t_columns t))).

(** The names every insertion of [d] has: a record without the required ones is
    refused, and the two times are always given. *)
Definition always_named (d : EntityDefinition) : list string := (ed_required d ++ ["created_at"; "updated_at"])%list.

(** All the columns an insertion of [d] can have. *)
Definition ever_named (d : EntityDefinition) : list string := (ed_fields d ++ ["created_at"; "updated_at"])%list.

Definition fits (tables : list Table) (d : EntityDefinition) : bool :=
  match find_table (ed_table d) tables with
  | None => false
  | Some t =>
      forallb (fun n => bool_decide (n ∈ column_names t)) ("id" :: ed_label_column d :: ever_named d)
      && forallb (fun n => bool_decide (n ∈ ed_fields d)) (ed_searchable d ++ ed_required d)
      && bool_decide (left_out (always_named d) t = left_out (ever_named d) t)
      && bool_decide (left_out (ever_named d) t
           = if String.eqb (ed_table d) "usuarios" then ["senha_hash"] else [])
  end%list.

Lemma catalogue_fits : forallb (fun row => fits sqlite_tables (snd row) && fits external_tables (snd row)) catalogue = true.
Proof. vm_compute. reflexivity. Qed.

Lemma fits_spec tables d : fits tables d = true ->
  exists t, find_table (ed_table d) tables = Some t /\
    (forall n, n ∈ "id" :: ed_label_column d :: ever_named d -> n ∈ column_names t) /\
    (forall n, n ∈ (ed_searchable d ++ ed_required d)%list -> n ∈ ed_fields d) /\
    left_out (always_named d) t = left_out (ever_named d) t /\
    left_out (ever_named d) t = if String.eqb (ed_table d) "usuarios" then ["senha_hash"] else [].
Proof.
  unfold fits. destruct (find_table _ _) as [t|]; [|done]. rewrite !andb_true_iff, !bool_decide_eq_true.
  intros [[[Hc Hs] Hl] Ho]. exists t. rewrite !forallb_forall in *. split_and!; [done| | |done..].
  - intros n Hn%list_elem_of_In. by apply (bool_decide_eq_true_1 _), Hc.
  - intros n Hn%list_elem_of_In. by apply (bool_decide_eq_true_1 _), Hs.
Qed.


(** ** SQLite against the others *)

(** What two columns of the same name have to share. *)
Definition same_column (c c' : Column) : bool :=
  String.eqb (c_name c) (c_name c') && eqb (c_primary c) (c_primary c')
  && eqb (c_not_null c) (c_not_null c') && eqb (c_unique c) (c_unique c').
Fixpoint same_columns (l l' : list Column) : bool :=
  match l, l' with
  | [], [] => true
  | c :: l, c' :: l' => same_column c c' && same_columns l l'
  | _, _ => false
  end.

(** The columns of SQLite's table that the others have. *)
Definition shared_columns (t : Table) : list Column :=
  List.filter (fun c => negb (String.eqb (t_name t) "usuarios" && String.eqb (c_name c) "photo_url")) (t_columns t).

(** The tables are the same, in the same order; column for column they agree on
    keys, on uniqueness and on what may be NULL, but for the photograph of a
    user, which the other two do not keep. *)
Lemma schemas_agree :
  map t_name external_tables = map t_name sqlite_tables /\
  Forall2 (fun t e => same_columns (shared_columns t) (t_columns e) = true) sqlite_tables external_tables /\
  "photo_url" ∈ column_names usuarios_table /\
  Forall (fun t => "photo_url" ∉ column_names t) external_tables.
Proof.
  split_and!; [reflexivity| |apply (bool_decide_unpack _); vm_compute; exact I..].
  repeat constructor.
Qed.

(** Their indexes are among SQLite's; what SQLite ensures beyond them is that a
    profile's name and a session's token are not used twice, which a column says
    there, and that a company has one license, which nothing says. None of their
    tables has a foreign key. *)
Lemma external_guarantees :
  Forall (fun i => i ∈ sqlite_indexes) external_indexes /\
  map i_name (List.filter (fun i => i_unique i && negb (bool_decide (i ∈ external_indexes))) sqlite_indexes)
    = ["ux_perfis_nome"; "ux_user_sessions_token"; "ux_local_licenses_empresa"] /\
  Forall (fun t => t_foreign t = []) external_tables.
Proof. split_and!; [apply (bool_decide_unpack _); vm_compute; exact I|vm_compute; reflexivity|repeat constructor]. Qed.
