(* ===== verification/Drivers.v ===== *)
(** * Health and migration of the external databases: mysql.rs, postgres.rs

    With the feature on, a driver connects and sends fixed texts: the schema of
    [Schemas] to migrate. What [DatabaseConfig] takes as the drivers' answers is
    given here in terms of connections and statements. *)

From S2P Require Import Prelude RustStr Utf8 Json NetAddr NetBind RuntimeSettings.
From S2P Require Import ServiceConfigs RuntimeStore AppLog DatabaseConfig Providers Entities Schemas.

#[local] Open Scope string_scope.
#[local] Open Scope tunnara_scope.

Section Drivers.
Context {W : Type} `{XD : ExternalDrivers W}.

(** ** MySQL *)

Definition mysql_health_missing : string :=
  "MySQL/MariaDB configurado, mas a feature Rust 'mysql-db' não está habilitada. Compile com --features mysql-db para conexão real.".
Definition mysql_migrate_missing : string :=
  "Migrations MySQL exigem compilação com --features mysql-db.".

(** Without the feature, the configuration is still read. *)
(*| core/database/mysql.rs 69-85 health *)
Definition mysql_server_health (c : DatabaseConfig) : St W (result string bool) :=
  if mysql_db then
    conn ←? mysql_connect c;
    r ← my_query_drop conn "SELECT 1";
    mret (_ ← map_err (fun err => "Falha no health check MySQL: " ++ err) r; Ok true)
  else
    _ ←? mret (mysql_connection_info c); mret (Err mysql_health_missing).

Definition duplicate_index (message : string) : bool :=
  contains "Duplicate key name" message || contains "1061" message.

(** An index that is there already is the one error that is passed over. *)
(*| core/database/mysql.rs 95-104 migrate *)
Fixpoint mysql_send (conn : my_conn) (statements : list string) : St W (result string unit) :=
  match statements with
  | [] => mret (Ok ())
  | sql :: rest =>
      r ← my_query_drop conn sql;
      match r with
      | Err err =>
          if duplicate_index err then mysql_send conn rest
          else mret (Err ("Falha ao migrar MySQL: " ++ err ++ "; SQL: " ++ sql))
      | Ok _ => mysql_send conn rest
      end
  end.

(*| core/database/mysql.rs 88-112 migrate *)
Definition mysql_server_migrate (c : DatabaseConfig) : St W (result string unit) :=
  if mysql_db then
    conn ←? mysql_connect c;
    mysql_send conn mysql_schema
  else
    _ ←? mret (mysql_connection_info c); mret (Err mysql_migrate_missing).

(** ** PostgreSQL *)

Definition postgres_health_missing : string :=
  "PostgreSQL configurado, mas a feature Rust 'postgres-db' não está habilitada. Compile com --features postgres-db para conexão real.".
Definition postgres_migrate_missing : string :=
  "Migrations PostgreSQL exigem compilação com --features postgres-db.".

(*| core/database/postgres.rs 62-74 health *)
Definition postgres_server_health (c : DatabaseConfig) : St W (result string bool) :=
  if postgres_db then
    client ←? postgres_connect c;
    r ← pg_simple_query client "SELECT 1";
    mret (_ ← map_err (fun err => "Falha no health check PostgreSQL: " ++ err) r; Ok true)
  else
    _ ←? mret (postgres_connection_info c); mret (Err postgres_health_missing).

(*| core/database/postgres.rs 79-84 migrate *)
Fixpoint postgres_send (client : pg_client) (statements : list string) : St W (result string unit) :=
  match statements with
  | [] => mret (Ok ())
  | sql :: rest =>
      _ ←? (r ← pg_batch_execute client sql;
            mret (map_err (fun err => "Falha ao migrar PostgreSQL: " ++ err ++ "; SQL: " ++ sql) r));
      postgres_send client rest
  end.

(*| core/database/postgres.rs 77-91 migrate *)
Definition postgres_server_migrate (c : DatabaseConfig) : St W (result string unit) :=
  if postgres_db then
    client ←? postgres_connect c;
    postgres_send client postgres_schema
  else
    _ ←? mret (postgres_connection_info c); mret (Err postgres_migrate_missing).

(** ** Properties *)

(** What a connection answers to the statements of a schema, one after another. *)
Fixpoint answers (send : string -> St W (result string unit)) (statements : list string) (w : W) :
    list (string * result string unit) :=
  match statements with
  | [] => []
  | sql :: rest => let '(r, w1) := send sql w in (sql, r) :: answers send rest w1
  end.

(** A migration of MySQL succeeds when no statement fails but for an index that
    is there: a second run on the same server does. PostgreSQL's succeeds when no
    statement fails. The first failure ends it, and names its statement. *)
Theorem migrations_answer conn client statements w :
  (Forall (fun a => match snd a with Ok _ => True | Err e => duplicate_index e = true end)
     (answers (my_query_drop conn) statements w) ->
   fst (mysql_send conn statements w) = Ok ()) /\
  (Forall (fun a => is_ok (snd a) = true) (answers (pg_batch_execute client) statements w) ->
   fst (postgres_send client statements w) = Ok ()) /\
  (forall e, fst (mysql_send conn statements w) = Err e -> exists sql err, sql ∈ statements /\
     duplicate_index err = false /\ e = "Falha ao migrar MySQL: " ++ err ++ "; SQL: " ++ sql).
Proof.
  split_and!.
  - revert w. induction statements as [|sql rest IH]; intros w; [done|]. cbn [answers mysql_send].
    unfold mbind, st_bind. destruct (my_query_drop conn sql w) as [r w1].
    intros [Hr Hrest]%Forall_cons. cbn in Hr. destruct r as [|e]; [by apply IH|]. rewrite Hr. by apply IH.
  - revert w. induction statements as [|sql rest IH]; intros w; [done|]. cbn [answers postgres_send].
    unfold try, mbind, st_bind, mret, st_ret. destruct (pg_batch_execute client sql w) as [r w1].
    intros [Hr Hrest]%Forall_cons. cbn in Hr. destruct r as [|e]; [by apply IH|done].
  - revert w. induction statements as [|sql rest IH]; intros w e; [done|]. cbn [mysql_send].
    unfold mbind, st_bind. destruct (my_query_drop conn sql w) as [[[]|err] w1].
    + intros (s & err & Hs & H)%IH. exists s, err. split; [by right|done].
    + destruct (duplicate_index err) eqn:E.
      * intros (s & err' & Hs & H)%IH. exists s, err'. split; [by right|done].
      * intros [= <-]. exists sql, err. split; [left|done].
Qed.
End Drivers.

(** The drivers of [DatabaseConfig], with SQLite's still given. *)
Definition drivers_of {W} `{XD : ExternalDrivers W} (conn : Type)
    (connect : string -> St W (result string conn)) (health : string -> St W (result string bool))
    (migrate : string -> St W (result string unit)) : DatabaseDrivers W := {|
  sqlite_conn := conn;
  sqlite_connect := connect;
  sqlite_health := health;
  sqlite_migrate := migrate;
  mysql_health := mysql_server_health;
  mysql_migrate := mysql_server_migrate;
  postgres_health := postgres_server_health;
  postgres_migrate := postgres_server_migrate |}.

Section Values.
Context {W : Type} `{LO : LogOs W}.

End Values.
