(* ===== verification/Integrations.v ===== *)
(** * Integrations: commands/integrations.rs

    The table of the remote services the console calls, the calls' log, and the
    five commands over them. The HTTP client is the class [HttpSend]; rows become
    JSON the way db.rs makes them. *)

From Stdlib Require Import Ascii.
From S2P Require Import Prelude RustStr Utf8 Json Payload NetAddr NetBind RuntimeSettings Security.
From S2P Require Import ServiceConfigs RuntimeStore AppLog Accounts AccessTables Providers Auth.
From S2P Require Import AccessRules.

#[local] Open Scope string_scope.
#[local] Open Scope tunnara_scope.

(** ** Rows as JSON *)

(** A cell as SQLite gives it. *)
Inductive SqlCell : Type :=
| CellNull
| CellInteger (z : Z)
| CellReal (r : option number)
| CellText (bytes : string)
| CellBlob (len : N).

Definition cell_value (c : SqlCell) : value :=
  match c with
  | CellNull => Null
  | CellInteger z => json_i64 z
  | CellReal r => match r with Some n => Number n | None => Null end
  | CellText bytes => String_ (from_utf8_lossy bytes)
  | CellBlob len => String_ ("<blob:" ++ show_N len ++ " bytes>")
  end.

(** A column without a name is called after its place. *)
(*| src-tauri/src/db.rs 16-39 row_to_json_map *)
Definition row_to_json_map (row : list (option string * SqlCell)) : members :=
  row_members cell_value
    (imap (fun idx '(name, cell) => (unwrap_or ("col_" ++ show_N (N.of_nat idx)) name, cell)) row).

Definition cell_opt (o : option string) : SqlCell :=
  match o with Some s => CellText s | None => CellNull end.
Definition cell_int (o : option Z) : SqlCell :=
  match o with Some z => CellInteger z | None => CellNull end.

(** ** Tables *)

(*| src-tauri/src/migrations.rs 258-275 integration_configs *)
Record IntegrationConfig : Type := {
  ic_id : Z;
  ic_nome : string;
  ic_tipo : string;
  ic_base_url : string;
  ic_metodo_padrao : string;
  ic_headers_json : option string;
  ic_token_encrypted : option string;
  ic_ambiente : string;
  ic_status : string;
  ic_timeout_seconds : Z;
  ic_retry_attempts : Z;
  ic_ultimo_erro : option string;
  ic_ultima_execucao_em : option string;
  ic_ativo : Z;
  ic_created_at : string;
  ic_updated_at : string;
}.

(*| src-tauri/src/migrations.rs 277-289 integration_logs *)
Record IntegrationLog : Type := {
  il_id : Z;
  il_integration_id : option Z;
  il_method : string;
  il_url : string;
  il_status_code : option Z;
  il_success : Z;
  il_duration_ms : Z;
  il_error_message : option string;
  il_created_at : string;
}.

Record Integrations : Type := {
  it_configs : list IntegrationConfig;
  it_configs_seq : Z;
  it_logs : list IntegrationLog;
  it_logs_seq : Z;
}.

Definition with_integrations (f : list IntegrationConfig -> list IntegrationConfig) (t : Integrations) : Integrations := {|
  it_configs := f (it_configs t); it_configs_seq := it_configs_seq t; it_logs := it_logs t;
  it_logs_seq := it_logs_seq t |}.

(** What a save writes; no token leaves the one that is there. *)
Record IntegrationForm : Type := {
  if_nome : string; if_tipo : string; if_base_url : string; if_metodo : string;
  if_headers_json : option string; if_ambiente : string; if_status : string;
  if_timeout : Z; if_retries : Z; if_ativo : Z; if_token : option string;
}.

(*| src-tauri/src/commands/integrations.rs 79-116 integration_save *)
Definition update_integration (f : IntegrationForm) (now : string) (id : Z) : Integrations -> Integrations :=
  with_integrations (update_where (fun c => (ic_id c =? id)%Z) (fun c => {|
    ic_id := ic_id c; ic_nome := if_nome f; ic_tipo := if_tipo f; ic_base_url := if_base_url f;
    ic_metodo_padrao := if_metodo f; ic_headers_json := if_headers_json f;
    ic_token_encrypted := match if_token f with Some t => Some t | None => ic_token_encrypted c end;
    ic_ambiente := if_ambiente f; ic_status := if_status f; ic_timeout_seconds := if_timeout f;
    ic_retry_attempts := if_retries f; ic_ultimo_erro := ic_ultimo_erro c;
    ic_ultima_execucao_em := ic_ultima_execucao_em c; ic_ativo := if_ativo f;
    ic_created_at := ic_created_at c; ic_updated_at := now |})).

(*| src-tauri/src/commands/integrations.rs 119-136 integration_save *)
Definition insert_integration (f : IntegrationForm) (now : string) (t : Integrations) :
    result string (Z * Integrations) :=
  id ← next_rowid (it_configs_seq t) (map ic_id (it_configs t));
  Ok (id, {| it_configs := it_configs t ++ [{|
      ic_id := id; ic_nome := if_nome f; ic_tipo := if_tipo f; ic_base_url := if_base_url f;
      ic_metodo_padrao := if_metodo f; ic_headers_json := if_headers_json f;
      ic_token_encrypted := if_token f; ic_ambiente := if_ambiente f; ic_status := if_status f;
      ic_timeout_seconds := if_timeout f; ic_retry_attempts := if_retries f; ic_ultimo_erro := None;
      ic_ultima_execucao_em := None; ic_ativo := if_ativo f; ic_created_at := now; ic_updated_at := now |}];
    it_configs_seq := id; it_logs := it_logs t; it_logs_seq := it_logs_seq t |})%list.

(** The log rows of a deleted service stay, without its id. *)
(*| src-tauri/src/commands/integrations.rs 143-144 integration_delete *)
Definition delete_integration (id : Z) (t : Integrations) : Integrations := {|
  it_configs := List.filter (fun c => negb (ic_id c =? id)%Z) (it_configs t);
  it_configs_seq := it_configs_seq t;
  it_logs := if existsb (fun c => (ic_id c =? id)%Z) (it_configs t)
    then update_where (fun l => bool_decide (il_integration_id l = Some id)) (fun l => {|
      il_id := il_id l; il_integration_id := None; il_method := il_method l; il_url := il_url l;
      il_status_code := il_status_code l; il_success := il_success l; il_duration_ms := il_duration_ms l;
      il_error_message := il_error_message l; il_created_at := il_created_at l |}) (it_logs t)
    else it_logs t;
  it_logs_seq := it_logs_seq t |}.

(** The outcome of a test call. *)
Record CallResult : Type := { cr_success : bool; cr_status_code : option Z; cr_error : option string }.

(*| src-tauri/src/commands/integrations.rs 210-222 integration_test *)
Definition insert_integration_log (id : Z) (method url : string) (r : CallResult) (duration : Z) (now : string)
    (t : Integrations) : result string (unit * Integrations) :=
  if existsb (fun c => (ic_id c =? id)%Z) (it_configs t) then
    new ← next_rowid (it_logs_seq t) (map il_id (it_logs t));
    Ok ((), {| it_configs := it_configs t; it_configs_seq := it_configs_seq t;
      it_logs := it_logs t ++ [{|
        il_id := new; il_integration_id := Some id; il_method := method; il_url := url;
        il_status_code := cr_status_code r; il_success := flag (cr_success r); il_duration_ms := duration;
        il_error_message := cr_error r; il_created_at := now |}];
      it_logs_seq := new |})
  else Err fk_failed
  %list.

(*| src-tauri/src/commands/integrations.rs 223-231 integration_test *)
Definition mark_integration (id : Z) (r : CallResult) (now : string) : Integrations -> Integrations :=
  with_integrations (update_where (fun c => (ic_id c =? id)%Z) (fun c => {|
    ic_id := ic_id c; ic_nome := ic_nome c; ic_tipo := ic_tipo c; ic_base_url := ic_base_url c;
    ic_metodo_padrao := ic_metodo_padrao c; ic_headers_json := ic_headers_json c;
    ic_token_encrypted := ic_token_encrypted c; ic_ambiente := ic_ambiente c;
    ic_status := if cr_success r then "active" else "error"; ic_timeout_seconds := ic_timeout_seconds c;
    ic_retry_attempts := ic_retry_attempts c; ic_ultimo_erro := cr_error r;
    ic_ultima_execucao_em := Some now; ic_ativo := ic_ativo c; ic_created_at := ic_created_at c;
    ic_updated_at := now |})).

(** ** Rows of the lists *)

Definition named (name : string) (c : SqlCell) : option string * SqlCell := (Some name, c).

(** The token is not among the columns. *)
(*| src-tauri/src/commands/integrations.rs 31-35 integration_list *)
Definition integration_row (c : IntegrationConfig) : members :=
  row_to_json_map [
    named "id" (CellInteger (ic_id c)); named "nome" (CellText (ic_nome c));
    named "tipo" (CellText (ic_tipo c)); named "base_url" (CellText (ic_base_url c));
    named "metodo_padrao" (CellText (ic_metodo_padrao c));
    named "headers_json" (cell_opt (ic_headers_json c)); named "ambiente" (CellText (ic_ambiente c));
    named "status" (CellText (ic_status c)); named "timeout_seconds" (CellInteger (ic_timeout_seconds c));
    named "retry_attempts" (CellInteger (ic_retry_attempts c));
    named "ultimo_erro" (cell_opt (ic_ultimo_erro c));
    named "ultima_execucao_em" (cell_opt (ic_ultima_execucao_em c));
    named "ativo" (CellInteger (ic_ativo c)); named "created_at" (CellText (ic_created_at c));
    named "updated_at" (CellText (ic_updated_at c))].

(*| src-tauri/src/commands/integrations.rs 252-253 integration_logs *)
Definition integration_log_row (l : IntegrationLog) : members :=
  row_to_json_map [
    named "id" (CellInteger (il_id l)); named "integration_id" (cell_int (il_integration_id l));
    named "method" (CellText (il_method l)); named "url" (CellText (il_url l));
    named "status_code" (cell_int (il_status_code l)); named "success" (CellInteger (il_success l));
    named "duration_ms" (CellInteger (il_duration_ms l));
    named "error_message" (cell_opt (il_error_message l)); named "created_at" (CellText (il_created_at l))].

(** ** Payloads *)

(*| src-tauri/src/commands/integrations.rs 18-24 get_str *)
Definition get_str (payload : members) (key : string) : option string :=
  opt_filter (fun v => negb (is_empty v)) (v ← obj_get key payload; trim <$> as_str v).

Definition as_bool (v : value) : option bool := match v with Bool b => Some b | _ => None end.

(** ** Calls *)

Record HttpRequest : Type := {
  rq_method : string;
  rq_url : string;
  rq_headers : list (string * string);
  rq_bearer : option string;
  rq_timeout_seconds : Z;
}.

Class HttpSend (W : Type) : Type := {
  (** the status of the answer, or why there is none *)
  http_send : HttpRequest -> St W (result string N);
  (** a client with a time limit in seconds *)
  http_client : Z -> St W (result string unit);
  (** milliseconds since a call began *)
  http_elapsed : St W Z;
}.

Definition to_ascii_uppercase : string -> string := map_bytes upper_byte.

(*| src-tauri/src/commands/integrations.rs 176-182 integration_test *)
Definition request_method (method : string) : string :=
  let upper := to_ascii_uppercase method in
  if bool_decide (upper ∈ ["POST"; "PUT"; "PATCH"; "DELETE"]) then upper else "GET".

(** The headers that are kept: an object's members that are texts. *)
(*| src-tauri/src/commands/integrations.rs 183-191 integration_test *)
Definition request_headers `{JT : JsonText} (headers_json : option string) : list (string * string) :=
  match headers_json ≫= json_of_text with
  | Some (Object map) => omap (fun '(key, v) => pair key <$> as_str v) map
  | _ => []
  end.

Definition is_success (status : N) : bool := (200 <=? status)%N && (status <? 300)%N.

(*| src-tauri/src/commands/integrations.rs 201-208 integration_test *)
Definition call_result (r : result string N) : CallResult :=
  match r with
  | Ok status => {| cr_success := is_success status; cr_status_code := Some (Z.of_N status); cr_error := None |}
  | Err err => {| cr_success := false; cr_status_code := None; cr_error := Some err |}
  end.

Section Commands.
Context {W : Type} `{LO : LogOs W} `{ST : !Statements W} `{CR : Crypto} `{AW : !AuthWorld W}
  `{JT : JsonText} `{HS : !HttpSend W}.
Context (env : Env) (state : SharedState).

Definition istate : Type := Integrations * W.

Definition out {A} (c : St W A) : St istate A := fun s => let '(a, w) := c (snd s) in (a, (fst s, w)).

Definition on_rows {A} (what : string) (f : Integrations -> result string (A * Integrations)) :
    St istate (result string A) := fun s =>
  let '(fault, w) := sql_fault (snd s) in
  match fault with
  | Some err => (Err (what ++ err), (fst s, w))
  | None => match f (fst s) with
            | Ok (a, t) => (Ok a, (t, w))
            | Err err => (Err (what ++ err), (fst s, w))
            end
  end.

(*| src-tauri/src/commands/integrations.rs 14-16 now *)
Definition integration_now : St istate string := out (t ← utc_now; mret (to_rfc3339 t)).

Definition open_state : St istate (result string db_conn) :=
  match state with
  | None => mret (Err "Aplicação ainda não inicializada.")
  | Some ctx => out (db_open (ctx_db_path ctx))
  end.

(*| src-tauri/src/commands/integrations.rs 27-42 integration_list *)
Definition integration_list : St istate (result string (list value)) :=
  _ ←? open_state;
  on_rows "Falha ao consultar integrações: " (fun t =>
    Ok (map (fun c => Object (integration_row c))
          (sort_by (fun a b => text_le (ic_nome a) (ic_nome b)) (it_configs t)), t)).

(** The token a bearer is made of. *)
(*| src-tauri/src/commands/integrations.rs 192-198 integration_test *)
Definition bearer_of (token_encrypted : option string) : option string :=
  cipher ← token_encrypted;
  match decrypt_text (machine_key env) cipher with
  | Ok token => if blank token then None else Some token
  | Err _ => None
  end.

(*| src-tauri/src/commands/integrations.rs 55-75 integration_save *)
Definition integration_form (payload : members) (nome base_url : string) : IntegrationForm := {|
  if_nome := nome; if_tipo := unwrap_or "rest" (get_str payload "tipo"); if_base_url := base_url;
  if_metodo := unwrap_or "GET" (get_str payload "metodo_padrao");
  if_headers_json := json_to_string <$> or_else (obj_get "headers" payload) (obj_get "headers_json" payload);
  if_ambiente := unwrap_or "production" (get_str payload "ambiente");
  if_status := unwrap_or "inactive" (get_str payload "status");
  if_timeout := unwrap_or 30%Z (v ← obj_get "timeout_seconds" payload; as_i64 v);
  if_retries := unwrap_or 0%Z (v ← obj_get "retry_attempts" payload; as_i64 v);
  if_ativo := flag (unwrap_or true (v ← obj_get "ativo" payload; as_bool v));
  if_token := encrypt_text (machine_key env) <$> get_str payload "token" |}.

(*| src-tauri/src/commands/integrations.rs 45-138 integration_save *)
Definition integration_save (payload : members) : St istate (result string Z) :=
  _ ←? open_state;
  nome ←? mret (ok_or "Informe o nome da integração." (get_str payload "nome"));
  base_url ←? mret (ok_or "Informe a URL base da integração." (get_str payload "base_url"));
  let form := integration_form payload nome base_url in
  now ← integration_now;
  match v ← obj_get "id" payload; as_i64 v with
  | Some id =>
      on_rows "Falha ao atualizar integração: " (fun t => Ok (id, update_integration form now id t))
  | None => on_rows "Falha ao criar integração: " (insert_integration form now)
  end.

(*| src-tauri/src/commands/integrations.rs 141-146 integration_delete *)
Definition integration_delete (id : Z) : St istate (result string bool) :=
  _ ←? open_state;
  on_rows "Falha ao excluir integração: " (fun t => Ok (true, delete_integration id t)).

(** The request a row stands for. *)
(*| src-tauri/src/commands/integrations.rs 170-198 integration_test *)
Definition test_request (c : IntegrationConfig) : HttpRequest := {|
  rq_method := request_method (ic_metodo_padrao c); rq_url := ic_base_url c;
  rq_headers := request_headers (ic_headers_json c); rq_bearer := bearer_of (ic_token_encrypted c);
  rq_timeout_seconds := Z.max (ic_timeout_seconds c) 1 |}.

Definition test_answer (r : CallResult) (duration : Z) : members :=
  [("duration_ms", json_i64 duration); ("error_message", opt_json (cr_error r));
   ("status_code", match cr_status_code r with Some z => json_i64 z | None => Null end);
   ("success", Bool (cr_success r))].

(*| src-tauri/src/commands/integrations.rs 149-244 integration_test *)
Definition integration_test (id : Z) : St istate (result string members) :=
  _ ←? open_state;
  found ←? on_rows "Falha ao localizar integração: "
    (fun t => Ok (list_find (fun c => (ic_id c =? id)%Z) (it_configs t), t));
  row ←? mret (ok_or "Integração não encontrada." found);
  let request := test_request row in
  client ← out (http_client (rq_timeout_seconds request));
  _ ←? mret (map_err (fun err => "Falha ao criar cliente HTTP: " ++ err) client);
  response ← out (http_send request);
  duration ← out http_elapsed;
  let result := call_result response in
  created ← integration_now;
  _ ←? on_rows "Falha ao registrar log de integração: "
    (insert_integration_log id (ic_metodo_padrao row) (ic_base_url row) result duration created);
  _ ←? on_rows "Falha ao atualizar status da integração: "
    (fun t => Ok ((), mark_integration id result created t));
  mret (Ok (test_answer result duration)).

(*| src-tauri/src/commands/integrations.rs 247-275 integration_logs *)
Definition integration_logs (integration_id : option Z) : St istate (result string (list value)) :=
  _ ←? open_state;
  on_rows "" (fun t =>
    let rows := match integration_id with
                | Some id => List.filter (fun l => bool_decide (il_integration_id l = Some id)) (it_logs t)
                | None => it_logs t
                end in
    Ok (map (fun l => Object (integration_log_row l))
          (take 200 (sort_by (fun a b => (il_id b <=? il_id a)%Z) rows)), t)).
End Commands.

(** ** What is kept *)


Section Rules.
Context {W : Type} `{LO : LogOs W} `{ST : !Statements W} `{CR : Crypto} `{AW : !AuthWorld W}
  `{JT : JsonText} `{HS : !HttpSend W}.
Context (env : Env) (state : SharedState).
Implicit Types s : istate (W := W).

(** ** Statements *)

Lemma on_rows_Ok {A} what (f : Integrations -> result string (A * Integrations)) s a s' :
  on_rows what f s = (Ok a, s') -> f (fst s) = Ok (a, fst s').
Proof.
  unfold on_rows. destruct (sql_fault _) as [[e|] w]; [done|]. destruct (f (fst s)) as [[x t]|]; [|done].
  by intros [= <- <-].
Qed.

(** What a statement's function keeps, the statement keeps. *)
Definition keeps_rows (J : Integrations -> Prop) {A} (c : St istate A) : Prop := stable (fun s => J (fst s)) c.

Lemma keeps_on_rows (J : Integrations -> Prop) {A} what (f : Integrations -> result string (A * Integrations)) :
  (forall t a t', J t -> f t = Ok (a, t') -> J t') -> keeps_rows J (on_rows (W := W) what f).
Proof.
  intros Hf [t w] r s' HJ. unfold on_rows. cbn. destruct (sql_fault w) as [[e|] w']; [by intros [= _ <-]|].
  destruct (f t) as [[x t']|] eqn:E; intros [= _ <-]; [by eapply Hf|done].
Qed.
Lemma keeps_out (J : Integrations -> Prop) {A} (c : St W A) : keeps_rows J (out c).
Proof. intros [t w] r s' HJ. unfold out. cbn. destruct (c w). by intros [= _ <-]. Qed.
Lemma keeps_open (J : Integrations -> Prop) : keeps_rows J (open_state (W := W) state).
Proof. unfold open_state. destruct state; [apply keeps_out|apply stable_ret]. Qed.

Lemma open_rows s r s' : open_state (W := W) state s = (r, s') -> fst s' = fst s.
Proof. intros H. by apply (keeps_open (fun t => t = fst s)) in H. Qed.

(** ** The tables hold together *)

Record consistent (t : Integrations) : Prop := {
  co_configs : NoDup (map ic_id (it_configs t));
  co_logs : NoDup (map il_id (it_logs t));
  co_linked l id : l ∈ it_logs t -> il_integration_id l = Some id -> id ∈ map ic_id (it_configs t);
}.

Lemma nodup_snoc {A} (x : A) l : NoDup l -> x ∉ l -> NoDup (l ++ [x]).
Proof.
  intros Hl Hx. apply NoDup_app. split_and!; [done| |apply NoDup_singleton].
  by intros y Hy ->%list_elem_of_singleton.
Qed.

Lemma consistent_configs f t : map ic_id (f (it_configs t)) = map ic_id (it_configs t) ->
  consistent t -> consistent (with_integrations f t).
Proof. intros E [Hc Hl Hk]. split; cbn; by rewrite ?E. Qed.

Lemma consistent_insert form now t id t' :
  consistent t -> insert_integration form now t = Ok (id, t') -> consistent t'.
Proof.
  intros [Hc Hl Hk]. unfold insert_integration, mbind, result_bind.
  destruct (next_rowid _ _) as [new|] eqn:E; [|done]. intros [= <- <-]. split; cbn [it_configs it_logs]; [| done|].
  - rewrite map_app. apply nodup_snoc; [done|]. by eapply next_rowid_fresh.
  - intros l x Hin Hx. rewrite map_app, elem_of_app. left. by eapply Hk.
Qed.

Lemma consistent_delete id t : consistent t -> consistent (delete_integration id t).
Proof.
  intros [Hc Hl Hk]. assert (forall l, l ∈ it_logs (delete_integration id t) ->
    exists l', l' ∈ it_logs t /\ (il_integration_id l = il_integration_id l' \/ il_integration_id l = None) /\
      il_integration_id l <> Some id) as Hlog.
  { intros l. unfold delete_integration. cbn [it_logs]. destruct (existsb _ _) eqn:E.
    - intros (l' & Hl' & ->)%elem_update_where. exists l'. split; [done|].
      case_bool_decide; cbn; auto.
    - intros Hin. exists l. split_and!; [done|by left|]. intros Hid. specialize (Hk l id Hin Hid).
      apply list_elem_of_In, in_map_iff in Hk as (c & Hcid & Hc'%list_elem_of_In).
      pose proof (existsb_false_elem _ _ _ E Hc') as Hb. cbn in Hb. by rewrite Hcid, Z.eqb_refl in Hb. }
  split.
  - cbn. by apply NoDup_map_filter.
  - unfold delete_integration. cbn [it_logs]. destruct (existsb _ _); [|done].
    by rewrite (map_update_where il_id).
  - intros l x Hin Hx. destruct (Hlog l Hin) as (l' & Hl' & Hsame & Hne).
    destruct Hsame as [Hsame|Hsame]; [|congruence]. rewrite Hx in Hsame, Hne. specialize (Hk l' x Hl' (eq_sym Hsame)).
    apply list_elem_of_In, in_map_iff in Hk as (c & <- & Hc').
    apply list_elem_of_In, in_map. apply filter_In. split; [done|]. apply negb_true_iff, Z.eqb_neq. congruence.
Qed.

Lemma consistent_log id method url r d now t t' :
  consistent t -> insert_integration_log id method url r d now t = Ok ((), t') -> consistent t'.
Proof.
  intros [Hc Hl Hk]. unfold insert_integration_log, mbind, result_bind. destruct (existsb _ _) eqn:E; [|done].
  destruct (next_rowid _ _) as [new|] eqn:En; [|done]. intros [= <-]. split; cbn [it_configs it_logs]; [done| |].
  - rewrite map_app. apply nodup_snoc; [done|]. by eapply next_rowid_fresh.
  - intros l x [Hin| ->%list_elem_of_singleton]%elem_of_app; [by apply Hk|]. intros [= <-].
    apply existsb_elem in E as (c & Hin & Hid%Z.eqb_eq). rewrite <- Hid. by apply list_elem_of_In, in_map, list_elem_of_In.
Qed.

Lemma consistent_update form now id t : consistent t -> consistent (update_integration form now id t).
Proof. apply consistent_configs. by apply (map_update_where ic_id). Qed.
Lemma consistent_mark id r now t : consistent t -> consistent (mark_integration id r now t).
Proof. apply consistent_configs. by apply (map_update_where ic_id). Qed.

(** The five commands. *)
Inductive integration_command : Type :=
| List_ | Save (payload : members) | Delete (id : Z) | Test_ (id : Z) | Logs (id : option Z).
Definition run_integration (c : integration_command) s : istate (W := W) :=
  match c with
  | List_ => snd (integration_list state s)
  | Save payload => snd (integration_save env state payload s)
  | Delete id => snd (integration_delete state id s)
  | Test_ id => snd (integration_test env state id s)
  | Logs id => snd (integration_logs state id s)
  end.

Lemma stable_run (J : Integrations -> Prop) {A} (c : St (istate (W := W)) A) s :
  keeps_rows J c -> J (fst s) -> J (fst (snd (c s))).
Proof. intros Hc HJ. destruct (c s) as [r s'] eqn:E. by eapply (Hc s r s'). Qed.

Lemma keeps_test (J : Integrations -> Prop) id :
  (forall id m u r d now t t', J t -> insert_integration_log id m u r d now t = Ok ((), t') -> J t') ->
  (forall id r now t, J t -> J (mark_integration id r now t)) ->
  keeps_rows J (integration_test env state id).
Proof.
  intros Hl Hm. unfold keeps_rows, integration_test. apply stable_try; [apply keeps_open|]. intros _.
  apply stable_try; [apply keeps_on_rows; by intros t a t' HJ [= _ <-]|]. intros found.
  apply stable_try; [apply stable_ret|]. intros row. cbv zeta.
  apply stable_bind; [apply keeps_out|]. intros client. apply stable_try; [apply stable_ret|]. intros _.
  apply stable_bind; [apply keeps_out|]. intros response. apply stable_bind; [apply keeps_out|]. intros duration.
  apply stable_bind; [apply keeps_out|]. intros created.
  apply stable_try; [apply keeps_on_rows; intros t [] t'; apply Hl|]. intros _.
  apply stable_try; [apply keeps_on_rows; intros t a t' HJ [= _ <-]; auto|]. intros _. apply stable_ret.
Qed.

Lemma keeps_save (J : Integrations -> Prop) payload :
  (forall form now id t, J t -> J (update_integration form now id t)) ->
  (forall form now t id t', J t -> insert_integration form now t = Ok (id, t') -> J t') ->
  keeps_rows J (integration_save env state payload).
Proof.
  intros Hu Hi. unfold keeps_rows, integration_save. apply stable_try; [apply keeps_open|]. intros _.
  apply stable_try; [apply stable_ret|]. intros nome. apply stable_try; [apply stable_ret|]. intros url. cbv zeta.
  apply stable_bind; [apply keeps_out|]. intros now. destruct (_ ≫= as_i64).
  - apply keeps_on_rows. intros t a t' HJ [= _ <-]. auto.
  - apply keeps_on_rows. intros t a t'. apply Hi.
Qed.

(** C38. The two tables stay consistent. Whatever the commands are given and
    however their statements fail, ids of services and of calls are never used
    twice, and a logged call names a service that is there or, once that was
    deleted, none. *)
Theorem integrations_consistent commands s :
  consistent (fst s) -> consistent (fst (fold_left (fun s c => run_integration c s) commands s)).
Proof.
  revert s. induction commands as [|c l IH]; intros s H; [done|]. cbn. apply IH. clear IH. destruct c; cbn.
  - apply stable_run; [|done]. apply stable_try; [apply keeps_open|]. intros _.
    apply keeps_on_rows. by intros t a t' HJ [= _ <-].
  - apply stable_run; [|done]. apply keeps_save; [intros form now id t; apply consistent_update|apply consistent_insert].
  - apply stable_run; [|done]. apply stable_try; [apply keeps_open|]. intros _.
    apply keeps_on_rows. intros t a t' HJ [= _ <-]. by apply consistent_delete.
  - apply stable_run; [|done]. apply keeps_test; [intros; by eapply consistent_log|intros; by apply consistent_mark].
  - apply stable_run; [|done]. apply stable_try; [apply keeps_open|]. intros _.
    apply keeps_on_rows. by intros t a t' HJ [= _ <-].
Qed.

(** ** Tokens *)

(** A row without its token. *)
Definition untold (c : IntegrationConfig) : IntegrationConfig := {|
  ic_id := ic_id c; ic_nome := ic_nome c; ic_tipo := ic_tipo c; ic_base_url := ic_base_url c;
  ic_metodo_padrao := ic_metodo_padrao c; ic_headers_json := ic_headers_json c; ic_token_encrypted := None;
  ic_ambiente := ic_ambiente c; ic_status := ic_status c; ic_timeout_seconds := ic_timeout_seconds c;
  ic_retry_attempts := ic_retry_attempts c; ic_ultimo_erro := ic_ultimo_erro c;
  ic_ultima_execucao_em := ic_ultima_execucao_em c; ic_ativo := ic_ativo c;
  ic_created_at := ic_created_at c; ic_updated_at := ic_updated_at c |}.
Definition hide_tokens (t : Integrations) : Integrations := with_integrations (map untold) t.

Lemma map_sort_insert {A B} (le : B -> B -> bool) (f : A -> B) x l :
  map f (sort_insert (fun a b => le (f a) (f b)) x l) = sort_insert le (f x) (map f l).
Proof. induction l as [|y l IH]; [done|]. cbn. destruct (le (f x) (f y)); [done|]. cbn. by rewrite IH. Qed.
Lemma map_sort_by {A B} (le : B -> B -> bool) (f : A -> B) l :
  map f (sort_by (fun a b => le (f a) (f b)) l) = sort_by le (map f l).
Proof. induction l as [|x l IH]; [done|]. cbn. by rewrite map_sort_insert, IH. Qed.

(** No list gives a token away. What the two lists answer is the same,
    whatever the stored tokens are, and so is what they leave. *)
Theorem tokens_not_listed t1 t2 (w : W) logs :
  hide_tokens t1 = hide_tokens t2 ->
  fst (integration_list state (t1, w)) = fst (integration_list state (t2, w)) /\
  fst (integration_logs state logs (t1, w)) = fst (integration_logs state logs (t2, w)).
Proof.
  intros H. injection H as Hc _ Hl _. unfold integration_list, integration_logs, open_state.
  destruct state as [ctx|]; [|done]. unfold try, mbind, st_bind, out. cbn [fst snd].
  destruct (db_open _ w) as [[c|e] w']; [|done]. unfold on_rows. cbn [fst snd].
  destruct (sql_fault w') as [[e|] w2]; [done|]. cbn [fst].
  assert (forall l, map (fun c => Object (integration_row c)) (sort_by (fun a b => text_le (ic_nome a) (ic_nome b)) l)
    = map (fun c => Object (integration_row c)) (sort_by (fun a b => text_le (ic_nome a) (ic_nome b)) (map untold l))) as E.
  { intros l. rewrite <- (map_sort_by (fun a b => text_le (ic_nome a) (ic_nome b)) untold), map_map. done. }
  split; [by rewrite (E (it_configs t1)), (E (it_configs t2)), Hc|by rewrite Hl].
Qed.

(** ** Calls *)

Lemma find_update {A} (p : A -> bool) f l :
  (forall x, p (f x) = p x) -> list_find p (update_where p f l) = f <$> list_find p l.
Proof.
  intros Hf. induction l as [|x l IH]; [done|]. cbn. destruct (p x) eqn:E; [by rewrite Hf, E|by rewrite E].
Qed.
Lemma find_none_app {A} (p : A -> bool) l x :
  existsb p l = false -> list_find p (l ++ [x])%list = if p x then Some x else None.
Proof.
  induction l as [|y l IH]; [done|]. cbn. intros [H1 H2]%orb_false_iff. by rewrite H1, IH.
Qed.
Lemma none_exists {A} (p : A -> bool) l : list_find p l = None <-> existsb p l = false.
Proof. induction l as [|x l IH]; [done|]. cbn. by destruct (p x). Qed.

Lemma get_str_not_blank payload key t : get_str payload key = Some t -> blank t = false.
Proof.
  unfold get_str, opt_filter. destruct (obj_get key payload) as [v|]; [|done]. cbn.
  destruct (as_str v) as [x|]; [|done]. cbn. destruct (is_empty (trim x)) eqn:E; [done|]. cbn. intros [= <-].
  by rewrite blank_trim_eq, <- is_empty_trim.
Qed.

(** The bearer a saved token becomes, or the one that was there. *)
Definition bearer_after (payload : members) (old : option IntegrationConfig) : option string :=
  match get_str payload "token" with
  | Some t => Some t
  | None => c ← old; bearer_of env (ic_token_encrypted c)
  end.

Lemma bearer_of_saved `{CL : !CryptoLaws} payload t :
  get_str payload "token" = Some t -> utf8_valid t = true ->
  bearer_of env (Some (encrypt_text (machine_key env) t)) = Some t.
Proof.
  intros Ht Hu. unfold bearer_of. cbn. rewrite decrypt_encrypt' by done. by rewrite (get_str_not_blank _ _ _ Ht).
Qed.


(** A test makes one call and records it: the request of the service's row is
    sent, its outcome is answered, added to the log, and becomes the state of the
    service, active for a status of success and error for any other status or none;
    every other row is as it was. *)
Theorem integration_test_effect id s answer s' :
  integration_test env state id s = (Ok answer, s') ->
  exists row w1 response w2 duration now log,
    list_find (fun c => (ic_id c =? id)%Z) (it_configs (fst s)) = Some row /\
    http_send (test_request env row) w1 = (response, w2) /\
    answer = test_answer (call_result response) duration /\
    it_configs (fst s') = it_configs (mark_integration id (call_result response) now (fst s)) /\
    it_logs (fst s') = (it_logs (fst s) ++ [log])%list /\
    il_integration_id log = Some id /\ il_url log = ic_base_url row /\
    il_success log = flag (cr_success (call_result response)).
Proof.
  unfold integration_test. intros (c & s1 & E1 & H)%try_Ok. apply open_rows in E1 as E1.
  apply try_Ok in H as (found & s2 & E2 & H). apply on_rows_Ok in E2. injection E2 as Ef E2.
  apply try_Ok in H as (row & s3 & E3 & H). destruct found as [x|]; [|done]. injection E3 as -> <-.
  cbv zeta in H. run_bind H client s4 as E4. apply (keeps_out (fun t => t = fst s2)) in E4; [|done].
  apply try_Ok in H as ([] & s5 & E5 & H). injection E5 as _ <-.
  run_bind H response s6 as E6. pose proof E6 as Es. unfold out in Es.
  destruct (http_send (test_request env row) (snd s4)) as [r w2] eqn:Eh. injection Es as -> _.
  apply (keeps_out (fun t => t = fst s4)) in E6; [|done].
  run_bind H duration s7 as E7. apply (keeps_out (fun t => t = fst s6)) in E7; [|done].
  run_bind H now s8 as E8. apply (keeps_out (fun t => t = fst s7)) in E8; [|done].
  apply try_Ok in H as ([] & s9 & E9 & H). apply on_rows_Ok in E9.
  apply try_Ok in H as ([] & s10 & E10 & H). apply on_rows_Ok in E10. injection H as <- <-. injection E10 as E10.
  rewrite E8, E7, E6, E4, <- E2, E1 in E9. rewrite E1 in Ef. unfold insert_integration_log, mbind, result_bind in E9.
  destruct (existsb _ _); [|done]. destruct (next_rowid _ _) as [new|]; [|done]. injection E9 as E9.
  rewrite <- E9 in E10. rewrite <- E10. eexists row, _, response, w2, duration, now, _. split_and!; try done.
Qed.
End Rules.
