(* ===== verification/Migrations.v ===== *)
(** * Migration of the local database: migrations.rs

    What every start of the console does to the SQLite file: the tables and
    the columns that are missing, the normalisation of what is stored, the
    indexes, and the first rows. The catalogue of tables and indexes, and the
    three tables the account commands do not use, are the record [Store]; the
    others are those of [Accounts]. *)

From Stdlib Require Import Ascii.
From S2P Require Import Prelude RustStr Json NetAddr NetBind RuntimeSettings Security.
From S2P Require Import ServiceConfigs RuntimeStore AppLog Accounts AccessTables Auth InternalRoutes.
From S2P Require Import Schemas.

#[local] Open Scope string_scope.
#[local] Open Scope tunnara_scope.

(** ** The catalogue, and the tables the account commands do not use *)

(*| src-tauri/src/migrations.rs 105-111 departamentos *)
Record Descricao : Type := {
  ds_id : Z; ds_descricao : string; ds_ativo : Z; ds_created_at : string; ds_updated_at : string }.
(*| src-tauri/src/migrations.rs 121-128 centro_custos *)
Record CentroCusto : Type := {
  cc_id : Z; cc_codigo : option string; cc_descricao : string; cc_ativo : Z;
  cc_created_at : string; cc_updated_at : string }.

(** A table with the largest id AUTOINCREMENT ever gave in it. *)
Record Rows (A : Type) : Type := { rows_of : list A; rows_seq : Z }.
Arguments rows_of {A}. Arguments rows_seq {A}.

Record Store : Type := {
  sto_tables : list Table;
  sto_indexes : list Index;
  sto_departamentos : Rows Descricao;
  sto_funcoes : Rows Descricao;
  sto_centros : Rows CentroCusto;
}.

Definition with_tables (l : list Table) (s : Store) : Store := {|
  sto_tables := l; sto_indexes := sto_indexes s; sto_departamentos := sto_departamentos s;
  sto_funcoes := sto_funcoes s; sto_centros := sto_centros s |}.
Definition with_indexes (l : list Index) (s : Store) : Store := {|
  sto_tables := sto_tables s; sto_indexes := l; sto_departamentos := sto_departamentos s;
  sto_funcoes := sto_funcoes s; sto_centros := sto_centros s |}.

(** [CREATE TABLE IF NOT EXISTS] *)
Definition create_table (t : Table) (s : Store) : Store :=
  match find_table (t_name t) (sto_tables s) with
  | Some _ => s
  | None => with_tables (sto_tables s ++ [t]) s
  end%list.

(** [ALTER TABLE ... ADD COLUMN] *)
Definition add_column (name : string) (c : Column) (s : Store) : result string Store :=
  match find_table name (sto_tables s) with
  | None => Err ("no such table: " ++ name)
  | Some _ => Ok (with_tables (update_where (fun t => String.eqb (t_name t) name)
      (fun t => table (t_name t) (t_columns t ++ [c])%list (t_foreign t)) (sto_tables s)) s)
  end.

(** [PRAGMA table_info]: a table that is not there has no columns. *)
Definition columns_of (name : string) (s : Store) : list string :=
  match find_table name (sto_tables s) with Some t => column_names t | None => [] end.

(** Whether two rows have the same values in the columns of an index. *)
Definition duplicated (i : Index) (t : Accounts) : bool :=
  if String.eqb (i_table i) "perfis_acesso" then negb (bool_decide (NoDup (map p_nome (acc_profiles t))))
  else if String.eqb (i_table i) "perfis_permissoes" then negb (bool_decide (NoDup (acc_profile_perms t)))
  else if String.eqb (i_table i) "usuarios_perfis" then negb (bool_decide (NoDup (acc_user_profiles t)))
  else if String.eqb (i_table i) "usuarios_empresas" then negb (bool_decide (NoDup (acc_user_companies t)))
  else if String.eqb (i_table i) "user_sessions"
       then negb (bool_decide (NoDup (map us_session_token (acc_sessions t))))
  else if String.eqb (i_table i) "local_licenses"
       then negb (bool_decide (NoDup (map ll_empresa_id (acc_licenses t))))
  else false.

(** [CREATE INDEX IF NOT EXISTS] *)
Definition create_index (t : Accounts) (i : Index) (s : Store) : result string Store :=
  if existsb (fun j => String.eqb (i_name j) (i_name i)) (sto_indexes s) then Ok s else
  match find_table (i_table i) (sto_tables s) with
  | None => Err ("no such table: main." ++ i_table i)
  | Some tab =>
      match list_find (fun c => negb (bool_decide (c ∈ column_names tab))) (i_columns i) with
      | Some c => Err ("no such column: " ++ c)
      | None =>
          if i_unique i && duplicated i t
          then Err ("UNIQUE constraint failed: "
                    ++ String.concat ", " (map (fun c => i_table i ++ "." ++ c) (i_columns i)))
          else Ok (with_indexes (sto_indexes s ++ [i])%list s)
      end
  end.

(** ** Normalisation of stored data *)

(** [REPLACE] of each text of a list by nothing, one after another, in a column
    that may be NULL. *)
Definition without (marks : list string) (column : option string) : string :=
  foldl (fun s mark => replace mark "" s) (unwrap_or "" column) marks.

Definition document_marks : list string := ["."; "-"; "/"; "("; ")"; " "].
Definition phone_marks : list string := ["("; ")"; "-"; " "; "."].
Definition cep_marks : list string := ["."; "-"; " "].

Definition set_company (documento telefone responsavel_telefone cep : option string) (e : Empresa) : Empresa := {|
  e_id := e_id e; e_nome := e_nome e; e_nome_fantasia := e_nome_fantasia e; e_documento := documento;
  e_inscricao_estadual := e_inscricao_estadual e; e_inscricao_municipal := e_inscricao_municipal e;
  e_telefone := telefone; e_email := e_email e; e_responsavel_nome := e_responsavel_nome e;
  e_responsavel_telefone := responsavel_telefone; e_cep := cep; e_endereco := e_endereco e;
  e_numero := e_numero e; e_complemento := e_complemento e; e_bairro := e_bairro e;
  e_cidade := e_cidade e; e_estado := e_estado e; e_observacoes := e_observacoes e;
  e_ativo := e_ativo e; e_created_at := e_created_at e; e_updated_at := e_updated_at e |}.

Definition set_login_phone (login : string) (telefone : option string) (u : Usuario) : Usuario := {|
  u_id := u_id u; u_nome := u_nome u; u_login := login; u_email := u_email u; u_telefone := telefone;
  u_cargo := u_cargo u; u_observacoes := u_observacoes u; u_photo_url := u_photo_url u;
  u_senha_hash := u_senha_hash u; u_administrador := u_administrador u;
  u_master_user := u_master_user u; u_senha_provisoria := u_senha_provisoria u;
  u_ativo := u_ativo u; u_ultimo_login_em := u_ultimo_login_em u;
  u_created_at := u_created_at u; u_updated_at := u_updated_at u |}.

(*| src-tauri/src/migrations.rs 342-343 migrate_existing_schema *)
Definition normalize_documents : Accounts -> Accounts :=
  with_companies (map (fun e => set_company (Some (without document_marks (e_documento e)))
    (e_telefone e) (e_responsavel_telefone e) (e_cep e) e)).
(*| src-tauri/src/migrations.rs 344-345 migrate_existing_schema *)
Definition normalize_phones : Accounts -> Accounts :=
  with_companies (map (fun e => set_company (e_documento e)
    (Some (without phone_marks (e_telefone e))) (e_responsavel_telefone e) (e_cep e) e)).
(*| src-tauri/src/migrations.rs 346-347 migrate_existing_schema *)
Definition normalize_contacts : Accounts -> Accounts :=
  with_companies (map (fun e => set_company (e_documento e) (e_telefone e)
    (Some (without phone_marks (e_responsavel_telefone e))) (e_cep e) e)).
(*| src-tauri/src/migrations.rs 348-349 migrate_existing_schema *)
Definition normalize_ceps : Accounts -> Accounts :=
  with_companies (map (fun e => set_company (e_documento e) (e_telefone e)
    (e_responsavel_telefone e) (Some (without cep_marks (e_cep e))) e)).

(** SQLite's [TRIM] takes spaces only, and [LOWER] ASCII letters only. *)
Definition normal_login (login : string) : string := to_ascii_lowercase (trim_char " "%char login).

(** Row by row; a value that another row has at that moment ends the
    statement, which then changes nothing. *)
Fixpoint update_logins (done_ rest : list Usuario) : result string (list Usuario) :=
  match rest with
  | [] => Ok done_
  | u :: r =>
      let login := normal_login (u_login u) in
      if existsb (fun v => String.eqb (u_login v) login) (done_ ++ r)
      then Err "UNIQUE constraint failed: usuarios.login"
      else update_logins (done_ ++ [set_login_phone login (u_telefone u) u]) r
  end%list.
(*| src-tauri/src/migrations.rs 350-351 migrate_existing_schema *)
Definition normalize_logins (t : Accounts) : result string Accounts :=
  users ← update_logins [] (acc_users t); Ok (with_users (fun _ => users) t).
(*| src-tauri/src/migrations.rs 352-353 migrate_existing_schema *)
Definition normalize_user_phones : Accounts -> Accounts :=
  with_users (map (fun u => set_login_phone (u_login u) (Some (without phone_marks (u_telefone u))) u)).

(** ** First rows *)

(*| src-tauri/src/migrations.rs 442-446 ensure_company_seed *)
Definition insert_demo_company (now : string) (t : Accounts) : result string (Z * Accounts) :=
  id ← next_rowid (sq_companies (acc_seq t)) (map e_id (acc_companies t));
  Ok (id, with_seq {| sq_users := sq_users (acc_seq t); sq_profiles := sq_profiles (acc_seq t);
                      sq_companies := id; sq_licenses := sq_licenses (acc_seq t) |}
    (with_companies (fun l => l ++ [{|
       e_id := id; e_nome := "Empresa Demonstração"; e_nome_fantasia := Some "Empresa Demo";
       e_documento := Some "00000000000000"; e_inscricao_estadual := None;
       e_inscricao_municipal := None; e_telefone := Some "0000000000";
       e_email := Some "contato@empresa.local"; e_responsavel_nome := None;
       e_responsavel_telefone := None; e_cep := None; e_endereco := None; e_numero := None;
       e_complemento := None; e_bairro := None; e_cidade := Some "Cidade"; e_estado := Some "UF";
       e_observacoes := None; e_ativo := 1; e_created_at := now; e_updated_at := now |}])%list t)).

(*| src-tauri/src/migrations.rs 466-470 ensure_access_seed *)
Definition legacy_form : UserForm := {|
  uf_nome := "Conta local desativada"; uf_login := "legacy-disabled"; uf_email := None;
  uf_telefone := None; uf_cargo := None; uf_observacoes := None; uf_photo_url := None;
  uf_master_user := 0; uf_administrador := 0; uf_senha_provisoria := 1; uf_ativo := 0 |}.

Definition disable (now : string) (u : Usuario) : Usuario := {|
  u_id := u_id u; u_nome := u_nome u; u_login := u_login u; u_email := u_email u;
  u_telefone := u_telefone u; u_cargo := u_cargo u; u_observacoes := u_observacoes u;
  u_photo_url := u_photo_url u; u_senha_hash := u_senha_hash u; u_administrador := 0;
  u_master_user := 0; u_senha_provisoria := u_senha_provisoria u; u_ativo := 0;
  u_ultimo_login_em := u_ultimo_login_em u; u_created_at := u_created_at u; u_updated_at := now |}.
(*| src-tauri/src/migrations.rs 476-479 ensure_access_seed *)
Definition disable_user (now : string) (id : Z) : Accounts -> Accounts :=
  with_users (update_where (fun u => (u_id u =? id)%Z) (disable now)).

Definition master_note : string := "Perfil com acesso total ao sistema.".
(*| src-tauri/src/migrations.rs 493-498 ensure_access_seed *)
Definition master_form : ProfileForm := {|
  pf_nome := "Master"; pf_descricao := Some master_note; pf_perfil_master := 1; pf_ativo := 1 |}.
(*| src-tauri/src/migrations.rs 503-506 ensure_access_seed *)
Definition restore_profile (now : string) (id : Z) : Accounts -> Accounts :=
  with_profiles (update_where (fun p => (p_id p =? id)%Z) (fun p => {|
    p_id := p_id p; p_nome := p_nome p; p_descricao := Some master_note; p_perfil_master := 1;
    p_ativo := 1; p_created_at := p_created_at p; p_updated_at := now |})).

(** [INSERT OR IGNORE] of a pair that the unique index allows once. *)
Definition insert_or_ignore {A} `{EqDecision A} (row : A) (l : list A) : list A :=
  if bool_decide (row ∈ l) then l else (l ++ [row])%list.

(** [INSERT OR REPLACE]: the old row goes, the new one comes last. *)
(*| src-tauri/src/migrations.rs 628-631 ensure_app_settings *)
Definition replace_setting (key value now : string) : Accounts -> Accounts :=
  with_settings (fun l =>
    (List.filter (fun s => negb (String.eqb (st_chave s) key)) l
     ++ [{| st_chave := key; st_valor := Some value; st_created_at := now; st_updated_at := now |}])%list).
(*| src-tauri/src/migrations.rs 634-637 ensure_app_settings *)
Definition replace_config (key value now : string) : Accounts -> Accounts :=
  with_config (fun l =>
    (List.filter (fun c => negb (String.eqb (cf_nome c) key)) l
     ++ [{| cf_nome := key; cf_valor := Some value; cf_updated_at := now |}])%list).

Definition insert_row {A} (row_id : A -> Z) (new : Z -> A) (r : Rows A) : result string (Rows A) :=
  id ← next_rowid (rows_seq r) (map row_id (rows_of r));
  Ok {| rows_of := rows_of r ++ [new id]; rows_seq := id |}%list.

(** ** The migration *)

Section Migrate.
Context {W : Type} `{LO : LogOs W} `{ST : !Statements W} `{CR : Crypto} `{RN : !Randomness W}
  `{AW : !AuthWorld W} `{BI : BuildInfo}.

(** The rows, the outside world, and the catalogue. *)
Definition mstate : Type := db (W := W) * Store.

Definition on_db {A} (c : St db A) : St mstate A := fun s =>
  let '(a, d) := c (fst s) in (a, (d, snd s)).

(** A statement that reads the rows and changes the catalogue. *)
Definition on_store {A} (what : string) (f : Accounts -> Store -> result string (A * Store)) :
    St mstate (result string A) := fun s =>
  let '((t, w), sto) := s in
  let '(fault, w) := sql_fault w in
  match fault with
  | Some err => (Err (what ++ ": " ++ err), ((t, w), sto))
  | None => match f t sto with
            | Ok (a, sto') => (Ok a, ((t, w), sto'))
            | Err err => (Err (what ++ ": " ++ err), ((t, w), sto))
            end
  end.

Definition change (what : string) (f : Accounts -> Store -> result string Store) :
    St mstate (result string unit) :=
  on_store what (fun t s => s' ← f t s; Ok ((), s')).

(*| src-tauri/src/migrations.rs 14-309 migrate *)
Definition create_tables : St mstate (result string unit) :=
  each (fun t => change "Falha ao executar migrations" (fun _ s => Ok (create_table t s))) sqlite_tables.

(** The three steps of the reading fail with texts of their own; a failure is
    reported as the first one's. *)
(*| src-tauri/src/migrations.rs 361-391 add_column_if_missing *)
Definition add_column_if_missing (name : string) (c : Column) : St mstate (result string unit) :=
  columns ←? on_store ("Falha ao inspecionar tabela " ++ name) (fun _ s => Ok (columns_of name s, s));
  if bool_decide (c_name c ∈ columns) then mret (Ok ())
  else change ("Falha ao adicionar coluna " ++ c_name c ++ " em " ++ name)
         (fun _ s => add_column name c s).

(*| src-tauri/src/migrations.rs 318-336 migrate_existing_schema *)
Definition later_columns : list (string * Column) :=
  map (fun name => ("empresas", col name Text_))
    ["nome_fantasia"; "inscricao_estadual"; "inscricao_municipal"; "responsavel_nome";
     "responsavel_telefone"; "cep"; "numero"; "complemento"; "observacoes"]
  ++ map (fun name => ("usuarios", col name Text_))
       ["email"; "telefone"; "cargo"; "observacoes"; "photo_url"]
  ++ [("usuarios", defaulted "master_user" Int_ (DNum 0));
      ("usuarios", defaulted "senha_provisoria" Int_ (DNum 0));
      ("usuarios", col "ultimo_login_em" Text_)].

Definition normalize_failed : string := "Falha ao normalizar dados existentes".
(*| src-tauri/src/migrations.rs 340-356 migrate_existing_schema *)
Definition normalize_rows : St mstate (result string unit) :=
  _ ←? on_db (execute normalize_failed normalize_documents);
  _ ←? on_db (execute normalize_failed normalize_phones);
  _ ←? on_db (execute normalize_failed normalize_contacts);
  _ ←? on_db (execute normalize_failed normalize_ceps);
  _ ←? on_db (insert normalize_failed normalize_logins);
  on_db (execute normalize_failed normalize_user_phones).

(*| src-tauri/src/migrations.rs 317-359 migrate_existing_schema *)
Definition migrate_existing_schema : St mstate (result string unit) :=
  _ ←? each (fun '(name, c) => add_column_if_missing name c) later_columns;
  normalize_rows.

(*| src-tauri/src/migrations.rs 644-664 ensure_optional_columns *)
Definition ensure_optional_columns : St mstate (result string unit) :=
  columns ←? on_store "Falha ao verificar colunas de usuários" (fun _ s => Ok (columns_of "usuarios" s, s));
  if bool_decide ("photo_url" ∈ columns) then mret (Ok ())
  else change "Falha ao adicionar coluna photo_url em usuarios"
         (fun _ s => add_column "usuarios" (col "photo_url" Text_) s).

(*| src-tauri/src/migrations.rs 393-420 ensure_indexes *)
Definition ensure_indexes : St mstate (result string unit) :=
  each (fun i => change "Falha ao criar índices" (fun t s => create_index t i s)) sqlite_indexes.

(** *** Seeds *)

(*| src-tauri/src/migrations.rs 435-451 ensure_company_seed *)
Definition ensure_company_seed (now : string) : St db (result string unit) :=
  exists_ ←? select "Falha ao verificar empresa inicial" (fun t => head (acc_companies t));
  match exists_ with
  | Some _ => mret (Ok ())
  | None => _ ←? statement "Falha ao criar empresa inicial" (insert_demo_company now); mret (Ok ())
  end.

(** The id of the row that is there, or of the one that is inserted. *)
Definition found_or {A} (row_id : A -> Z) (found : option A) (create : St (db (W := W)) (result string Z)) :
    St db (result string Z) :=
  match found with Some row => mret (Ok (row_id row)) | None => create end.

(*| src-tauri/src/migrations.rs 453-480 ensure_access_seed *)
Definition ensure_legacy_user (now : string) : St db (result string Z) :=
  found ←? select "Falha ao verificar usuário admin"
    (fun t => list_find (fun u => String.eqb (u_login u) "legacy-disabled") (acc_users t));
  admin_id ←? found_or u_id found
    (password ← lift uuid_v4;
     password_hash ←? lift (hash_password password);
     statement "Falha ao criar usuário admin" (insert_user legacy_form password_hash now));
  _ ←? execute "Falha ao atualizar usuário admin" (disable_user now admin_id);
  mret (Ok admin_id).

(*| src-tauri/src/migrations.rs 549-569 access_permission_keys *)
Definition access_permission_keys : list string :=
  ["dashboard:view"; "empresas:view"; "empresas:manage"; "cadastros:view"; "cadastros:manage";
   "usuarios:view"; "usuarios:manage"; "perfis:view"; "perfis:manage"; "config:view";
   "config:manage"; "licenciamento:view"; "licenciamento:manage"; "logs:view"; "logs:manage";
   "sync:view"; "relatorios:export"].

(*| src-tauri/src/migrations.rs 482-522 ensure_access_seed *)
Definition ensure_master_profile (now : string) : St db (result string Z) :=
  found ←? select "Falha ao verificar perfil master"
    (fun t => list_find (fun p => String.eqb (p_nome p) "Master") (acc_profiles t));
  id ←? found_or p_id found (statement "Falha ao criar perfil master" (insert_profile master_form now));
  _ ←? execute "Falha ao atualizar perfil master" (restore_profile now id);
  _ ←? execute "Falha ao limpar permissões do perfil master" (delete_profile_perms id);
  _ ←? each (fun key => execute "Falha ao gravar permissão do perfil master"
         (with_profile_perms (insert_or_ignore (id, key)))) access_permission_keys;
  mret (Ok id).

(*| src-tauri/src/migrations.rs 453-547 ensure_access_seed *)
Definition ensure_access_seed (now : string) : St db (result string unit) :=
  admin_id ←? ensure_legacy_user now;
  perfil_master_id ←? ensure_master_profile now;
  _ ←? execute "Falha ao vincular perfil master ao admin"
    (with_user_profiles (insert_or_ignore (admin_id, perfil_master_id)));
  empresa_ids ←? select "Falha ao consultar empresas para o admin"
    (fun t => sort_by Z.leb (map e_id (acc_companies t)));
  each (fun empresa_id => execute "Falha ao vincular empresa ao usuário admin"
    (with_user_companies (insert_or_ignore (admin_id, empresa_id)))) empresa_ids.

Definition new_descricao (text now : string) (id : Z) : Descricao := {|
  ds_id := id; ds_descricao := text; ds_ativo := 1; ds_created_at := now; ds_updated_at := now |}.
Definition missing_descricao (text : string) (r : Rows Descricao) : bool :=
  negb (existsb (fun d => String.eqb (ds_descricao d) text) (rows_of r)).

(** Check and insertion in one of the two tables of descriptions. *)
(*| src-tauri/src/migrations.rs 571-594 ensure_simple_seed *)
Definition ensure_simple_seed (name : string) (get : Store -> Rows Descricao)
    (put : Rows Descricao -> Store -> Store) (text now : string) : St mstate (result string unit) :=
  missing ←? on_store ("Falha ao verificar seed de " ++ name)
    (fun _ s => Ok (missing_descricao text (get s), s));
  if (missing : bool) then
    change ("Falha ao inserir seed em " ++ name)
      (fun _ s => r ← insert_row ds_id (new_descricao text now) (get s); Ok (put r s))
  else mret (Ok ()).

Definition with_departamentos (r : Rows Descricao) (s : Store) : Store := {|
  sto_tables := sto_tables s; sto_indexes := sto_indexes s; sto_departamentos := r;
  sto_funcoes := sto_funcoes s; sto_centros := sto_centros s |}.
Definition with_funcoes (r : Rows Descricao) (s : Store) : Store := {|
  sto_tables := sto_tables s; sto_indexes := sto_indexes s; sto_departamentos := sto_departamentos s;
  sto_funcoes := r; sto_centros := sto_centros s |}.
Definition with_centros (r : Rows CentroCusto) (s : Store) : Store := {|
  sto_tables := sto_tables s; sto_indexes := sto_indexes s; sto_departamentos := sto_departamentos s;
  sto_funcoes := sto_funcoes s; sto_centros := r |}.

(*| src-tauri/src/migrations.rs 596-613 ensure_center_cost_seed *)
Definition ensure_center_cost_seed (now : string) : St mstate (result string unit) :=
  missing ←? on_store "Falha ao verificar centro de custo inicial"
    (fun _ s => Ok (negb (existsb (fun c => bool_decide (cc_codigo c = Some "ADM"))
                            (rows_of (sto_centros s))), s));
  if (missing : bool) then
    change "Falha ao inserir centro de custo inicial"
      (fun _ s => r ← insert_row cc_id (fun id => {|
         cc_id := id; cc_codigo := Some "ADM"; cc_descricao := "Administrativo"; cc_ativo := 1;
         cc_created_at := now; cc_updated_at := now |}) (sto_centros s); Ok (with_centros r s))
  else mret (Ok ()).

(*| src-tauri/src/migrations.rs 7-7 BOOTSTRAP_SEED_KEY *)
Definition BOOTSTRAP_SEED_KEY : string := "bootstrap_seed_version".
(*| src-tauri/src/migrations.rs 8-8 BOOTSTRAP_SEED_STATUS_KEY *)
Definition BOOTSTRAP_SEED_STATUS_KEY : string := "bootstrap_seed_status".
(*| src-tauri/src/migrations.rs 9-9 BOOTSTRAP_SEED_VERSION *)
Definition BOOTSTRAP_SEED_VERSION : Z := 1.

(*| src-tauri/src/migrations.rs 616-625 ensure_app_settings *)
Definition seed_settings : list (string * string) :=
  [(BOOTSTRAP_SEED_KEY, show_Z BOOTSTRAP_SEED_VERSION); (BOOTSTRAP_SEED_STATUS_KEY, "ok");
   ("app_template_version", cargo_pkg_version); ("runtime_license_mode", "local");
   ("login_session_days", "7")].

(*| src-tauri/src/migrations.rs 615-642 ensure_app_settings *)
Definition ensure_app_settings (now : string) : St db (result string unit) :=
  each (fun '(key, value) =>
    _ ←? execute ("Falha ao gravar configuração " ++ key) (replace_setting key value now);
    execute ("Falha ao gravar parâmetro " ++ key) (replace_config key value now)) seed_settings.

(*| src-tauri/src/migrations.rs 422-433 seed_data *)
Definition seed_data : St mstate (result string unit) :=
  now ←? on_db now_text;
  _ ←? on_db (ensure_company_seed now);
  _ ←? on_db (ensure_access_seed now);
  _ ←? ensure_simple_seed "departamentos" sto_departamentos with_departamentos "Administrativo" now;
  _ ←? ensure_simple_seed "funcoes" sto_funcoes with_funcoes "Administrador" now;
  _ ←? ensure_center_cost_seed now;
  on_db (ensure_app_settings now).

(*| src-tauri/src/migrations.rs 11-315 migrate *)
Definition migrate (db_path : string) : St mstate (result string unit) :=
  _ ←? on_db (lift (db_open db_path));
  _ ←? create_tables;
  _ ←? migrate_existing_schema;
  _ ←? ensure_optional_columns;
  _ ←? ensure_indexes;
  seed_data.
End Migrate.
