(* ===== verification/MigrationRules.v ===== *)
(** * What a migration keeps and does

    The accounts it leaves, the logins that stop it, what it repeats, and how
    the tables fit the statements of the other components. *)

From Stdlib Require Import Ascii.
From S2P Require Import Prelude RustStr Json NetAddr NetBind RuntimeSettings Security.
From S2P Require Import ServiceConfigs RuntimeStore AppLog Accounts AccessTables Auth Access AccessRules.
From S2P Require Import InternalRoutes DatabaseConfig Providers Entities EntityRules Schemas Migrations.

#[local] Open Scope string_scope.
#[local] Open Scope tunnara_scope.

Section Rules.
Context {W : Type} `{LO : LogOs W} `{ST : !Statements W} `{CR : Crypto} `{RN : !Randomness W}
  `{AW : !AuthWorld W} `{BI : BuildInfo}.
Implicit Types s : mstate (W := W).

(** The rows of a state. *)
Definition accounts_of s : Accounts := fst (fst s).

(** ** Frames *)

Lemma on_store_accounts {A} what (f : Accounts -> Store -> result string (A * Store)) :
  frames (fun s => accounts_of s) (on_store (W := W) what f).
Proof.
  intros [[t w] sto] r s'. unfold on_store. destruct (sql_fault w) as [[e|] w']; [by intros [= _ <-]|].
  destruct (f t sto) as [[a sto']|e]; by intros [= _ <-].
Qed.

Lemma on_db_store {A} (c : St (db (W := W)) A) : frames snd (on_db c).
Proof. intros [d sto] r s'. unfold on_db. cbn. destruct (c d). by intros [= _ <-]. Qed.

(** A property of the rows that a call keeps is kept in the larger state. *)
Definition rows_keep {A} (I : Accounts -> Prop) (c : St (mstate (W := W)) A) : Prop :=
  stable (fun s => I (accounts_of s)) c.

Lemma rows_keep_db {A} I (c : St (db (W := W)) A) : preserves I c -> rows_keep I (on_db c).
Proof.
  intros H [d sto] r s' HI. unfold on_db, accounts_of in *. cbn in *. destruct (c d) as [a d'] eqn:E.
  intros [= _ <-]. cbn. by eapply H.
Qed.
Lemma rows_keep_store {A} I what (f : Accounts -> Store -> result string (A * Store)) :
  rows_keep I (on_store what f).
Proof. intros s r s' HI H. apply on_store_accounts in H. by rewrite H. Qed.
Lemma rows_keep_change I what (f : Accounts -> Store -> result string Store) : rows_keep I (change what f).
Proof. apply rows_keep_store. Qed.

Lemma rows_keep_column I name c : rows_keep I (add_column_if_missing name c).
Proof.
  unfold rows_keep, add_column_if_missing. apply stable_try; [apply rows_keep_store|]. intros columns.
  destruct (bool_decide _); [apply stable_ret|apply rows_keep_change].
Qed.
Lemma rows_keep_photo I : rows_keep I ensure_optional_columns.
Proof.
  unfold rows_keep, ensure_optional_columns. apply stable_try; [apply rows_keep_store|]. intros columns.
  destruct (bool_decide _); [apply stable_ret|apply rows_keep_change].
Qed.
Lemma rows_keep_each {A} I (f : A -> St (mstate (W := W)) (result string unit)) l :
  (forall a, rows_keep I (f a)) -> rows_keep I (each f l).
Proof. apply stable_each. Qed.
Lemma rows_keep_simple I name get put text now : rows_keep I (ensure_simple_seed name get put text now).
Proof.
  unfold rows_keep, ensure_simple_seed. apply stable_try; [apply rows_keep_store|]. intros [].
  - apply rows_keep_change. - apply stable_ret.
Qed.
Lemma rows_keep_center I now : rows_keep I (ensure_center_cost_seed now).
Proof.
  unfold rows_keep, ensure_center_cost_seed. apply stable_try; [apply rows_keep_store|]. intros [].
  - apply rows_keep_change. - apply stable_ret.
Qed.

(** What the statements of a migration keep, the migration keeps. *)
Record migration_keeps (I : Accounts -> Prop) : Prop := {
  mk_documents t : I t -> I (normalize_documents t);
  mk_phones t : I t -> I (normalize_phones t);
  mk_contacts t : I t -> I (normalize_contacts t);
  mk_ceps t : I t -> I (normalize_ceps t);
  mk_logins t t' : I t -> normalize_logins t = Ok t' -> I t';
  mk_user_phones t : I t -> I (normalize_user_phones t);
  mk_company now t id t' : I t -> insert_demo_company now t = Ok (id, t') -> I t';
  mk_legacy hash now t id t' : I t -> insert_user legacy_form hash now t = Ok (id, t') -> I t';
  mk_disable now id t : I t -> I (disable_user now id t);
  mk_master now t id t' : I t -> insert_profile master_form now t = Ok (id, t') -> I t';
  mk_restore now id t : I t -> I (restore_profile now id t);
  mk_no_perms id t : I t -> I (delete_profile_perms id t);
  mk_perm row t : I t -> I (with_profile_perms (insert_or_ignore row) t);
  mk_profile_link row t : I t -> I (with_user_profiles (insert_or_ignore row) t);
  mk_company_link row t : I t -> I (with_user_companies (insert_or_ignore row) t);
  mk_setting k v now t : I t -> I (replace_setting k v now t);
  mk_config k v now t : I t -> I (replace_config k v now t);
}.

Section Keeps.
Context (I : Accounts -> Prop) (HK : migration_keeps I).

Lemma keeps_company now : preserves I (ensure_company_seed now).
Proof. destruct HK. unfold ensure_company_seed. keep. apply preserves_statement. eauto. Qed.

Lemma keeps_legacy now : preserves I (ensure_legacy_user now).
Proof.
  destruct HK. unfold ensure_legacy_user, found_or. keep.
  - apply preserves_statement. eauto.
  - apply preserves_execute. eauto.
Qed.

Lemma keeps_master now : preserves I (ensure_master_profile now).
Proof.
  destruct HK. unfold ensure_master_profile, found_or. generalize access_permission_keys. intros keys. keep.
  - apply preserves_statement. eauto.
  - apply preserves_execute. eauto.
  - apply preserves_execute. eauto.
  - apply stable_each. intros key. apply preserves_execute. eauto.
Qed.

Lemma keeps_access now : preserves I (ensure_access_seed now).
Proof.
  pose proof HK as [].
  unfold ensure_access_seed.
  apply preserves_try; [apply keeps_legacy|]. intros admin. apply preserves_try; [apply keeps_master|].
  intros profile. keep.
  - apply preserves_execute. eauto.
  - apply stable_each. intros e. apply preserves_execute. eauto.
Qed.

Lemma keeps_app_settings now : preserves I (ensure_app_settings now).
Proof.
  destruct HK. unfold ensure_app_settings. apply stable_each. intros [k v].
  apply preserves_try; [|intros]; apply preserves_execute; eauto.
Qed.

Lemma keeps_rows : rows_keep I normalize_rows.
Proof.
  destruct HK. unfold normalize_rows, rows_keep.
  repeat (apply stable_try; [apply rows_keep_db|intros _]); try apply rows_keep_db;
    try apply preserves_execute; try apply preserves_insert; eauto.
Qed.

Lemma keeps_seed : rows_keep I seed_data.
Proof.
  unfold seed_data, rows_keep. apply stable_try; [apply rows_keep_db, preserves_now_text|]. intros now.
  apply stable_try; [apply rows_keep_db, keeps_company|]. intros _.
  apply stable_try; [apply rows_keep_db, keeps_access|]. intros _.
  apply stable_try; [apply rows_keep_simple|]. intros _.
  apply stable_try; [apply rows_keep_simple|]. intros _.
  apply stable_try; [apply rows_keep_center|]. intros _. apply rows_keep_db, keeps_app_settings.
Qed.

Lemma migrate_keeps db_path : rows_keep I (migrate db_path).
Proof.
  unfold migrate, rows_keep. apply stable_try; [apply rows_keep_db, preserves_lift|]. intros _.
  apply stable_try; [apply rows_keep_each; intros; apply rows_keep_change|]. intros _.
  apply stable_try.
  { unfold migrate_existing_schema. apply stable_try; [|intros _; apply keeps_rows].
    apply rows_keep_each. intros [name c]. apply rows_keep_column. }
  intros _. apply stable_try; [apply rows_keep_photo|]. intros _.
  apply stable_try; [apply rows_keep_each; intros; apply rows_keep_change|]. intros _. apply keeps_seed.
Qed.
End Keeps.

(** ** Accounts *)

(** Every active account is an account of [t0], with its password and marks. *)
Definition active_from (t0 t : Accounts) : Prop :=
  forall u, u ∈ acc_users t -> u_ativo u <> 0%Z -> exists v, v ∈ acc_users t0 /\ u_id v = u_id u /\
    u_senha_hash v = u_senha_hash u /\ u_master_user v = u_master_user u /\
    u_administrador v = u_administrador u /\ u_ativo v = u_ativo u.

Lemma update_logins_spec done_ rest l :
  update_logins done_ rest = Ok l ->
  l = (done_ ++ map (fun u => set_login_phone (normal_login (u_login u)) (u_telefone u) u) rest)%list /\
  (NoDup (map u_login done_) -> NoDup (map u_login done_ ++ map (fun u => normal_login (u_login u)) rest)%list).
Proof.
  revert done_. induction rest as [|u r IH]; intros done_; cbn [update_logins map].
  - intros [= <-]. rewrite !app_nil_r. done.
  - destruct (existsb _ _) eqn:E; [done|]. intros [-> Hn]%IH. rewrite <- app_assoc. split; [done|].
    intros Hd. rewrite map_app in Hn. cbn in Hn. rewrite <- app_assoc in Hn. apply Hn.
    apply NoDup_app. split_and!; [done| |apply NoDup_singleton].
    intros x Hx ->%list_elem_of_singleton. apply list_elem_of_In, in_map_iff in Hx as (v & Hv & Hin).
    assert (v ∈ (done_ ++ r)%list) as Hv' by (apply elem_of_app; left; by apply list_elem_of_In).
    pose proof (existsb_false_elem _ _ _ E Hv') as Hb. cbn in Hb. by rewrite Hv, String.eqb_refl in Hb.
Qed.

Lemma active_map t0 t f :
  (forall u, u_id (f u) = u_id u /\ u_senha_hash (f u) = u_senha_hash u /\
     u_master_user (f u) = u_master_user u /\ u_administrador (f u) = u_administrador u /\
     u_ativo (f u) = u_ativo u) ->
  active_from t0 t -> active_from t0 (with_users (map f) t).
Proof.
  intros Hf H u Hu Ha. cbn in Hu. apply list_elem_of_In, in_map_iff in Hu as (v & <- & Hv%list_elem_of_In).
  destruct (Hf v) as (-> & -> & -> & -> & E). rewrite E in Ha |- *. by apply H.
Qed.

Lemma active_from_keeps t0 : migration_keeps (active_from t0).
Proof.
  split; try (by intros; auto); unfold active_from.
  - unfold normalize_logins, mbind, result_bind. intros t t' H.
    destruct (update_logins _ _) as [l|] eqn:E; [|done]. intros [= <-].
    apply update_logins_spec in E as [-> _]. by apply (active_map t0 t).
  - intros t H. by apply (active_map t0 t).
  - intros now t id t' H. unfold insert_demo_company, mbind, result_bind.
    destruct (next_rowid _ _); [|done]. by intros [= _ <-].
  - intros hash now t id t' H. unfold insert_user, mbind, result_bind. destruct (existsb _ _); [done|].
    destruct (next_rowid _ _); [|done]. intros [= _ <-] u. cbn. rewrite elem_of_app, list_elem_of_singleton.
    intros [Hu| ->]; [by apply H|done].
  - intros now id t H u. cbn. intros (v & Hv & ->)%elem_update_where.
    destruct (u_id v =? id)%Z; [done|by apply H].
  - intros now t id t' H. unfold insert_profile, mbind, result_bind. destruct (existsb _ _); [done|].
    destruct (next_rowid _ _); [|done]. by intros [= _ <-].
Qed.

(** A login finds an active user. *)
Lemma login_needs_active (state : SharedState) login senha (d : db (W := W)) resp d' :
  Forall (fun u => u_ativo u = 0%Z) (acc_users (fst d)) ->
  auth_login state login senha d = (Ok resp, d') -> lr_success resp = false.
Proof.
  intros Hall. unfold auth_login. intros (app & d1 & E1 & H)%try_Ok. apply open_app_tables in E1.
  apply try_Ok in H as (row & d2 & E2 & H). apply select_inv in E2 as [-> _]. rewrite E1 in H.
  destruct (user_by_login _ _) as [u|] eqn:Eu; [|by injection H as <- _].
  apply list_find_Some in Eu as [Hu _]. rewrite Forall_forall in Hall. rewrite (Hall _ Hu) in H.
  cbn in H. by injection H as <- _.
Qed.


(** ** What lets a start succeed *)

(** From a state with [P], the call succeeds and leaves [Q]. *)
Definition goes {S A} (P : S -> Prop) (c : St S (result string A)) (Q : A -> S -> Prop) : Prop :=
  forall x : S, P x -> exists a x', c x = (Ok a, x') /\ Q a x'.

Lemma goes_ret {S A} (P : S -> Prop) (a : A) : goes P (mret (Ok a)) (fun _ => P).
Proof. intros s H. by exists a, s. Qed.
Lemma goes_try {S A B} (P : S -> Prop) (c : St S (result string A)) R (f : A -> St S (result string B)) Q :
  goes P c R -> (forall a, goes (R a) (f a) Q) -> goes P (try c f) Q.
Proof.
  intros Hc Hf s Hs. destruct (Hc s Hs) as (a & s1 & E & H1). destruct (Hf a s1 H1) as (b & s2 & E2 & H2).
  exists b, s2. rewrite (try_run _ _ _ _ _ E). done.
Qed.
Lemma goes_weak {S A} (P P' : S -> Prop) (c : St S (result string A)) (Q Q' : A -> S -> Prop) :
  goes P c Q -> (forall x : S, P' x -> P x) -> (forall a (x : S), Q a x -> Q' a x) -> goes P' c Q'.
Proof. intros H HP HQ s Hs. destruct (H s (HP s Hs)) as (a & s' & E & Hq). eauto. Qed.

(** A loop whose every step succeeds leaves what each step leaves. *)
Lemma goes_each {S A} (P : S -> Prop) (R : A -> S -> Prop) (f : A -> St S (result string unit)) l :
  (forall a, a ∈ l -> goes P (f a) (fun _ (x : S) => P x /\ R a x)) ->
  (forall a b, stable (R a) (f b)) ->
  goes P (each f l) (fun _ (x : S) => P x /\ forall a, a ∈ l -> R a x).
Proof.
  intros Hf Hst. induction l as [|x l IH]; cbn [each].
  - intros s Hs. exists (), s. split_and!; try done. by intros a ?%not_elem_of_nil.
  - intros s Hs. destruct (Hf x (list_elem_of_here _ _) s Hs) as ([] & s1 & E & Hs1 & Hr).
    destruct (IH (fun a Ha => Hf a (list_elem_of_further _ _ _ Ha)) s1 Hs1) as ([] & s2 & E2 & Hs2 & Hl).
    exists (), s2. rewrite (try_run _ _ _ _ _ E). split_and!; try done.
    intros a [->|Ha]%elem_of_cons; [|by apply Hl].
    eapply (stable_each (R x) f l); [intros; apply Hst|exact Hr|exact E2].
Qed.

Section Healthy.
Hypothesis no_fault : forall w : W, fst (sql_fault w) = None.

(** A statement of the rows, in the two states. *)
Lemma goes_statement {A} (P : Accounts -> Prop) what (f : Accounts -> result string (A * Accounts))
    (Q : A -> Accounts -> Prop) :
  (forall t, P t -> exists a t', f t = Ok (a, t') /\ Q a t') ->
  goes (fun d : db (W := W) => P (fst d)) (statement what f) (fun a d => Q a (fst d)).
Proof.
  intros H [t w] Ht. destruct (H t Ht) as (a & t' & E & Hq). unfold statement. cbn.
  pose proof (no_fault w) as Hn. destruct (sql_fault w) as [o w']. cbn in Hn. subst o. rewrite E. eauto.
Qed.
Lemma goes_select {A} (P : Accounts -> Prop) what (f : Accounts -> A) :
  goes (fun d : db (W := W) => P (fst d)) (select what f) (fun a d => P (fst d) /\ a = f (fst d)).
Proof. apply (goes_statement P what _ (fun a t => P t /\ a = f t)). intros t Ht. by exists (f t), t. Qed.
Lemma goes_execute (P : Accounts -> Prop) what f :
  (forall t, P t -> P (f t)) ->
  goes (fun d : db (W := W) => P (fst d)) (execute what f) (fun _ d => P (fst d)).
Proof. intros H. apply (goes_statement P what _ (fun _ => P)). intros t Ht. exists (), (f t). auto. Qed.

Lemma goes_db {A} (P : Accounts -> Prop) (K : Store -> Prop) (c : St (db (W := W)) (result string A))
    (Q : A -> Accounts -> Prop) :
  goes (fun d : db (W := W) => P (fst d)) c (fun a d => Q a (fst d)) ->
  goes (fun s => P (accounts_of s) /\ K (snd s)) (on_db c) (fun a s => Q a (accounts_of s) /\ K (snd s)).
Proof.
  intros H [d sto] [Hp Hk]. destruct (H d Hp) as (a & d' & E & Hq). unfold on_db. cbn in *. rewrite E.
  by exists a, (d', sto).
Qed.

Lemma goes_store {A} (P : Accounts -> Prop) (K : Store -> Prop) what
    (f : Accounts -> Store -> result string (A * Store)) (Q : A -> Store -> Prop) :
  (forall t sto, P t -> K sto -> exists a sto', f t sto = Ok (a, sto') /\ Q a sto') ->
  goes (fun s => P (accounts_of s) /\ K (snd s)) (on_store what f)
    (fun a s => P (accounts_of s) /\ Q a (snd s)).
Proof.
  intros H [[t w] sto] [Hp Hk]. destruct (H t sto Hp Hk) as (a & sto' & E & Hq). unfold on_store.
  pose proof (no_fault w) as Hn. destruct (sql_fault w) as [o w']. cbn in Hn. subst o. rewrite E.
  by exists a, (t, w', sto').
Qed.
Lemma goes_change (P : Accounts -> Prop) (K : Store -> Prop) what
    (f : Accounts -> Store -> result string Store) (Q : Store -> Prop) :
  (forall t sto, P t -> K sto -> exists sto', f t sto = Ok sto' /\ Q sto') ->
  goes (fun s => P (accounts_of s) /\ K (snd s)) (change what f) (fun _ s => P (accounts_of s) /\ Q (snd s)).
Proof.
  intros H. apply (goes_store P K what _ (fun _ => Q)). intros t sto Hp Hk.
  destruct (H t sto Hp Hk) as (sto' & -> & Hq). by exists (), sto'.
Qed.
End Healthy.

(** ** Logins *)

Lemma lower_space a : Ascii.eqb (lower_byte a) " " = Ascii.eqb a " ".
Proof. by destruct a as [[] [] [] [] [] [] [] []]. Qed.
Lemma lower_lower a : lower_byte (lower_byte a) = lower_byte a.
Proof. by destruct a as [[] [] [] [] [] [] [] []]. Qed.

Lemma lower_trim_start (x : string) : trim_start_char " " (to_ascii_lowercase x) = to_ascii_lowercase (trim_start_char " " x).
Proof.
  unfold to_ascii_lowercase. induction x as [|a x IH]; [done|]. cbn [map_bytes trim_start_char].
  rewrite lower_space. by destruct (Ascii.eqb a " ").
Qed.
Lemma lower_trim_end (x : string) : trim_end_char " " (to_ascii_lowercase x) = to_ascii_lowercase (trim_end_char " " x).
Proof.
  unfold to_ascii_lowercase. induction x as [|a x IH]; [done|]. cbn [map_bytes trim_end_char].
  rewrite IH. destruct (trim_end_char " " x); cbn; [|done]. rewrite lower_space. by destruct (Ascii.eqb a " ").
Qed.

Lemma trim_start_trimmed c (x : string) : trim_start_char c (trim_char c x) = trim_char c x.
Proof.
  unfold trim_char.
  destruct (trim_end_char_prefix c (trim_start_char c x)) as [t E].
  destruct (trim_end_char c (trim_start_char c x)) as [|b r] eqn:Eb; [done|]. cbn.
  destruct (Ascii.eqb_spec b c) as [->|]; [|done]. exfalso.
  clear Eb. induction x as [|a x IH]; [done|]. cbn in E.
  destruct (Ascii.eqb_spec a c); [by apply IH|]. by injection E.
Qed.

Lemma normal_login_idem login : normal_login (normal_login login) = normal_login login.
Proof.
  unfold normal_login. set (u := trim_char " " login).
  assert (trim_char " " (to_ascii_lowercase u) = to_ascii_lowercase u) as ->.
  { unfold trim_char. rewrite lower_trim_start, lower_trim_end. f_equal. subst u.
    rewrite trim_start_trimmed. unfold trim_char. apply trim_end_char_idem. }
  unfold to_ascii_lowercase. induction u as [|a r IH]; [done|]. cbn [map_bytes]. by rewrite lower_lower, IH.
Qed.

(** No two logins become the same text. *)
Definition logins_apart (t : Accounts) : Prop := NoDup (map (fun u => normal_login (u_login u)) (acc_users t)).

Lemma update_logins_total done_ rest :
  (forall v, v ∈ done_ -> normal_login (u_login v) = u_login v) ->
  NoDup (map u_login done_ ++ map (fun u => normal_login (u_login u)) rest)%list ->
  exists l, update_logins done_ rest = Ok l.
Proof.
  revert done_. induction rest as [|u r IH]; intros done_ Hd Hn; cbn [update_logins]; [by eexists|].
  cbn [map] in Hn. destruct (existsb _ _) eqn:E.
  - exfalso. apply existsb_elem in E as (v & Hv & Heq%String.eqb_eq).
    apply NoDup_app in Hn as (_ & Hn & Hr). apply NoDup_cons in Hr as [Hr _].
    apply elem_of_app in Hv as [Hv|Hv].
    + apply (Hn (u_login v)); [apply list_elem_of_In, in_map; by apply list_elem_of_In|].
      rewrite Heq. apply list_elem_of_here.
    + apply Hr. apply list_elem_of_In, in_map_iff. exists v. split; [|by apply list_elem_of_In].
      by rewrite Heq, normal_login_idem.
  - apply IH.
    + intros v [Hv|Hv]%elem_of_app; [by apply Hd|]. apply list_elem_of_singleton in Hv as ->.
      apply normal_login_idem.
    + rewrite map_app, <- app_assoc. exact Hn.
Qed.

Lemma normalize_logins_iff t : is_ok (normalize_logins t) = true <-> logins_apart t.
Proof.
  unfold normalize_logins, logins_apart, mbind, result_bind. split.
  - destruct (update_logins _ _) as [l|] eqn:E; [|done]. intros _. apply update_logins_spec in E as [_ H].
    apply H. apply NoDup_nil_2.
  - intros H. destruct (update_logins_total [] (acc_users t)) as [l ->]; [|done|done].
    by intros v ?%not_elem_of_nil.
Qed.
End Rules.
