(* ===== verification/MigrationStart.v ===== *)
(** * When a start succeeds, and what the next one does

    On an engine that runs every statement, what the file holds decides whether
    the migration succeeds; once it did, the next ones add nothing. *)

From Stdlib Require Import Ascii.
From S2P Require Import Prelude RustStr Json NetAddr NetBind RuntimeSettings Security.
From S2P Require Import ServiceConfigs RuntimeStore AppLog Accounts AccessTables Auth Access AccessRules.
From S2P Require Import InternalRoutes DatabaseConfig Providers Entities Schemas Migrations MigrationRules.

#[local] Open Scope string_scope.
#[local] Open Scope tunnara_scope.

(** ** What the file has to leave room for *)

Definition users_room (t : Accounts) : bool :=
  is_ok (next_rowid (sq_users (acc_seq t)) (map u_id (acc_users t))).
Definition profiles_room (t : Accounts) : bool :=
  is_ok (next_rowid (sq_profiles (acc_seq t)) (map p_id (acc_profiles t))).
Definition companies_room (t : Accounts) : bool :=
  is_ok (next_rowid (sq_companies (acc_seq t)) (map e_id (acc_companies t))).
Definition rows_room {A} (row_id : A -> Z) (r : Rows A) : bool :=
  is_ok (next_rowid (rows_seq r) (map row_id (rows_of r))).

(** Ids are left for new rows, and no two rows are equal in a unique index. *)
Definition room (t : Accounts) : Prop :=
  users_room t = true /\ profiles_room t = true /\ companies_room t = true.
Definition indexable (t : Accounts) : Prop := Forall (fun i => duplicated i t = false) sqlite_indexes.

(** The columns of an index are there, or are among those that are added. *)
Definition index_columns : list (string * string) :=
  flat_map (fun i => map (pair (i_table i)) (i_columns i)) sqlite_indexes.
Definition later_names : list (string * string) := map (fun '(n, c) => (n, c_name c)) later_columns.
Definition columns_fit (s : Store) : Prop :=
  Forall (fun '(n, c) => find_table n (sto_tables s) = None \/ c ∈ columns_of n s \/ (n, c) ∈ later_names)
    index_columns.
Definition store_room (s : Store) : Prop :=
  rows_room ds_id (sto_departamentos s) = true /\ rows_room ds_id (sto_funcoes s) = true /\
  rows_room cc_id (sto_centros s) = true.

Definition has_table (t : Table) (s : Store) : Prop := find_table (t_name t) (sto_tables s) <> None.
Definition has_column (nc : string * Column) (s : Store) : Prop := c_name (snd nc) ∈ columns_of (fst nc) s.

(** ** The catalogue *)

Lemma find_table_app n l t :
  find_table n (l ++ [t])%list =
  match find_table n l with Some x => Some x | None => if String.eqb (t_name t) n then Some t else None end.
Proof. unfold find_table. induction l as [|x l IH]; cbn; [done|]. by destruct (String.eqb (t_name x) n). Qed.

Lemma find_table_name n l t : find_table n l = Some t -> t_name t = n.
Proof. intros H. by apply list_find_Some in H as [_ ?%String.eqb_eq]. Qed.

Lemma create_table_find n t s :
  find_table n (sto_tables (create_table t s)) =
  match find_table n (sto_tables s) with
  | Some x => Some x
  | None => if String.eqb (t_name t) n then Some t else None
  end.
Proof.
  unfold create_table. destruct (find_table (t_name t) (sto_tables s)) as [x|] eqn:E; cbn [sto_tables with_tables].
  - destruct (find_table n (sto_tables s)) eqn:En; [done|].
    destruct (String.eqb_spec (t_name t) n); [congruence|done].
  - apply find_table_app.
Qed.

Lemma add_column_find n name c s s' : add_column name c s = Ok s' ->
  find_table n (sto_tables s') = (fun t => if String.eqb (t_name t) name
    then table (t_name t) (t_columns t ++ [c])%list (t_foreign t) else t) <$> find_table n (sto_tables s).
Proof.
  unfold add_column. destruct (find_table name _); [|done]. intros [= <-]. cbn. unfold find_table, update_where.
  induction (sto_tables s) as [|x l IH]; [done|]. cbn [map list_find].
  destruct (String.eqb (t_name x) name) eqn:E; cbn [t_name table];
    destruct (String.eqb (t_name x) n); cbn; rewrite ?E; done.
Qed.

(** Columns are only added. *)
Lemma create_table_columns n t s x : x ∈ columns_of n s -> x ∈ columns_of n (create_table t s).
Proof.
  unfold columns_of. rewrite create_table_find. destruct (find_table n (sto_tables s)); [done|].
  by intros ?%not_elem_of_nil.
Qed.
Lemma add_column_columns n name c s s' x :
  add_column name c s = Ok s' -> x ∈ columns_of n s -> x ∈ columns_of n s'.
Proof.
  unfold columns_of. intros H%(add_column_find n). rewrite H. destruct (find_table n (sto_tables s)) as [t|]; [|done].
  cbn. destruct (String.eqb (t_name t) name); [|done]. unfold column_names. cbn [t_columns table].
  rewrite map_app, elem_of_app. by left.
Qed.
Lemma add_column_has name c s s' : add_column name c s = Ok s' -> has_column (name, c) s'.
Proof.
  intros H. pose proof (add_column_find name _ _ _ _ H) as Hf. unfold add_column in H.
  destruct (find_table name (sto_tables s)) as [t|] eqn:E; [|done]. unfold has_column, columns_of. cbn [fst snd].
  rewrite Hf. cbn. apply find_table_name in E as <-. rewrite String.eqb_refl. unfold column_names.
  cbn [t_columns table]. rewrite map_app, elem_of_app. right. apply list_elem_of_here.
Qed.

(** The tables of the schema have the columns of its indexes, and the columns
    that are added later. *)
Lemma schema_columns n c : (n, c) ∈ (index_columns ++ later_names)%list ->
  exists t, find_table n sqlite_tables = Some t /\ c ∈ column_names t.
Proof.
  assert (forallb (fun '(n, c) => match find_table n sqlite_tables with
    | Some t => bool_decide (c ∈ column_names t) | None => false end) (index_columns ++ later_names)%list
    = true) as H by (vm_compute; reflexivity).
  rewrite forallb_forall in H. intros Hin%list_elem_of_In. specialize (H _ Hin). cbn beta iota in H.
  destruct (find_table n sqlite_tables) as [t|]; [|done]. exists t. split; [done|]. by apply bool_decide_eq_true in H.
Qed.

Lemma schema_table t : t ∈ sqlite_tables -> find_table (t_name t) sqlite_tables = Some t.
Proof.
  assert (NoDup (map t_name sqlite_tables)) as Hn by (apply (bool_decide_unpack _); vm_compute; exact I).
  induction sqlite_tables as [|x l IH]; [by intros ?%not_elem_of_nil|]. cbn in *.
  apply NoDup_cons in Hn as [Hx Hl]. intros [->|Ht]%elem_of_cons; [by rewrite String.eqb_refl|].
  destruct (String.eqb_spec (t_name x) (t_name t)) as [E|]; [|by apply IH].
  destruct Hx. rewrite E. by apply list_elem_of_In, in_map, list_elem_of_In.
Qed.

Lemma create_table_fits t s : t ∈ sqlite_tables -> columns_fit s -> columns_fit (create_table t s).
Proof.
  intros Ht%schema_table H. unfold columns_fit in *. rewrite Forall_forall in H |- *. intros [n c] Hin.
  specialize (H _ Hin). cbn beta iota in H.
  destruct H as [H|[H|H]]; [|right; left; by apply create_table_columns|by right; right].
  rewrite create_table_find, H. destruct (String.eqb_spec (t_name t) n) as [<-|]; [|by left].
  right. left. unfold columns_of. rewrite create_table_find, H, String.eqb_refl.
  destruct (schema_columns (t_name t) c) as (t' & E & Hc); [apply elem_of_app; by left|congruence].
Qed.

Lemma create_table_has t s : has_table t (create_table t s).
Proof.
  unfold has_table. rewrite create_table_find, String.eqb_refl. by destruct (find_table _ _).
Qed.
Lemma has_table_create t t' s : has_table t s -> has_table t (create_table t' s).
Proof. unfold has_table. rewrite create_table_find. by destruct (find_table _ _). Qed.
Lemma has_table_add t name c s s' : add_column name c s = Ok s' -> has_table t s -> has_table t s'.
Proof.
  unfold has_table. intros H%(add_column_find (t_name t)). rewrite H.
  by destruct (find_table (t_name t) (sto_tables s)).
Qed.

Lemma create_index_inv t i s s' : create_index t i s = Ok s' ->
  sto_tables s' = sto_tables s /\ (s' = s \/ s' = with_indexes (sto_indexes s ++ [i])%list s).
Proof.
  unfold create_index. destruct (existsb _ _); [intros [= <-]; auto|].
  destruct (find_table _ _); [|done]. destruct (list_find _ _); [done|].
  destruct (_ && _); [done|]. intros [= <-]. auto.
Qed.

Lemma create_index_total t i s :
  duplicated i t = false -> find_table (i_table i) (sto_tables s) <> None ->
  (forall c, c ∈ i_columns i -> c ∈ columns_of (i_table i) s) -> exists s', create_index t i s = Ok s'.
Proof.
  intros Hd Ht Hc. unfold create_index. destruct (existsb _ _); [by eexists|].
  unfold columns_of in Hc. destruct (find_table _ _) as [tab|]; [|done].
  destruct (list_find _ _) as [c|] eqn:E.
  - apply list_find_Some in E as [Hin Hb]. rewrite bool_decide_eq_true_2 in Hb by auto. done.
  - rewrite Hd, andb_false_r. by eexists.
Qed.

Section Start.
Context {W : Type} `{LO : LogOs W} `{ST : !Statements W} `{CR : Crypto} `{RN : !Randomness W}
  `{AW : !AuthWorld W} `{BI : BuildInfo}.
Implicit Types s : mstate (W := W).

(** What every change of the catalogue keeps. *)
Lemma stable_on_store {A} (K : Store -> Prop) what (f : Accounts -> Store -> result string (A * Store)) :
  (forall t sto a sto', K sto -> f t sto = Ok (a, sto') -> K sto') ->
  stable (fun s => K (snd s)) (on_store (W := W) what f).
Proof.
  intros Hf [[t w] sto] r s' HK. unfold on_store. destruct (sql_fault w) as [[e|] w']; [by intros [= _ <-]|].
  destruct (f t sto) as [[a sto']|e] eqn:E; intros [= _ <-]; [by eapply Hf|done].
Qed.
Lemma stable_change (K : Store -> Prop) what (f : Accounts -> Store -> result string Store) :
  (forall t sto sto', K sto -> f t sto = Ok sto' -> K sto') ->
  stable (fun s => K (snd s)) (change (W := W) what f).
Proof.
  intros Hf. apply stable_on_store. intros t sto [] sto' HK. unfold mbind, result_bind.
  destruct (f t sto) eqn:E; [|done]. intros [= <-]. by eapply Hf.
Qed.
Lemma stable_read {A} (K : Store -> Prop) what (f : Store -> A) :
  stable (fun s => K (snd s)) (on_store (W := W) what (fun _ sto => Ok (f sto, sto))).
Proof. apply stable_on_store. by intros t sto a sto' HK [= _ <-]. Qed.

Lemma stable_column (K : Store -> Prop) name c :
  (forall sto sto', K sto -> add_column name c sto = Ok sto' -> K sto') ->
  stable (fun s => K (snd s)) (add_column_if_missing (W := W) name c).
Proof.
  intros Hf. unfold add_column_if_missing. apply stable_try; [apply stable_read|]. intros columns.
  destruct (bool_decide _); [apply stable_ret|]. apply stable_change. intros t sto sto'. apply Hf.
Qed.

Section Healthy.
Hypothesis no_fault : forall w : W, fst (sql_fault w) = None.
Hypothesis hashes : forall p salt, is_ok (argon2_hash p salt) = true.

(** *** The catalogue *)

Section Catalogue.
Context (P : Accounts -> Prop).
#[local] Abbreviation state_with K := (fun s => P (accounts_of s) /\ K (snd s)).

Definition ready (sto : Store) : Prop := columns_fit sto /\ store_room sto.
Definition complete (sto : Store) : Prop := ready sto /\ forall t, t ∈ sqlite_tables -> has_table t sto.

Lemma create_tables_goes : goes (state_with ready) create_tables (fun _ => state_with complete).
Proof.
  unfold create_tables. eapply goes_weak; [apply (goes_each (state_with ready) (fun t s => has_table t (snd s)))| |].
  - intros t Ht. eapply goes_weak.
    + apply (goes_change no_fault P ready _ _ (fun sto => ready sto /\ has_table t sto)).
      intros _ sto _ [Hf Hr]. eexists. split; [done|]. split; [|apply create_table_has].
      split; [by apply create_table_fits|]. unfold store_room, create_table. by destruct (find_table _ _).
    + done.
    + intros [] s (Hp & Hr & Ht'). done.
  - intros t t'. apply (stable_change (has_table t)). intros _ sto sto' H [= <-]. by apply has_table_create.
  - done.
  - intros [] s ((Hp & Hr) & Hall). done.
Qed.

Lemma add_column_ready name c sto sto' :
  add_column name c sto = Ok sto' -> ready sto -> ready sto'.
Proof.
  intros E [Hf Hr]. split.
  - unfold columns_fit in *. rewrite Forall_forall in Hf |- *. intros [n x] Hin. specialize (Hf _ Hin).
    cbn beta iota in *. destruct Hf as [H|[H|H]]; [left|right; left|by right; right].
    + by rewrite (add_column_find n _ _ _ _ E), H.
    + by eapply add_column_columns.
  - unfold add_column in E. destruct (find_table _ _); [|done]. by injection E as <-.
Qed.

Lemma later_goes nc : nc ∈ later_columns ->
  goes (state_with complete) (add_column_if_missing (fst nc) (snd nc))
    (fun _ s => (P (accounts_of s) /\ complete (snd s)) /\ has_column nc (snd s)).
Proof.
  intros Hin. assert (nc.1 ∈ map t_name sqlite_tables) as Hn.
  { destruct (schema_columns nc.1 (c_name nc.2)) as (t & Ht & _).
    - apply elem_of_app. right. unfold later_names. apply list_elem_of_In, in_map_iff. exists nc.
      destruct nc. split; [done|]. by apply list_elem_of_In.
    - apply list_find_Some in Ht as [Ht <-%String.eqb_eq]. by apply list_elem_of_In, in_map, list_elem_of_In. }
  apply list_elem_of_In, in_map_iff in Hn as (t & Hn & Ht%list_elem_of_In).
  unfold add_column_if_missing. eapply goes_try.
  - apply (goes_store no_fault P complete _ _ (fun cols sto => complete sto /\ cols = columns_of nc.1 sto)).
    intros _ sto _ Hc. eexists _, sto. done.
  - intros cols. destruct (bool_decide _) eqn:Eb.
    + apply bool_decide_eq_true in Eb. intros s (Hp & Hc & ->). by exists (), s.
    + eapply goes_weak; [apply (goes_change no_fault P (fun sto => complete sto /\ cols = columns_of nc.1 sto) _ _
        (fun sto => complete sto /\ has_column nc sto))|done|].
      * intros _ sto _ [[Hr Hall] _]. pose proof (Hall _ Ht) as Hh. unfold has_table in Hh. rewrite Hn in Hh.
        destruct (add_column nc.1 nc.2 sto) as [sto'|] eqn:E;
          [|unfold add_column in E; destruct (find_table nc.1 _); [done|by destruct Hh]].
        exists sto'. split; [done|]. split; [split; [by eapply add_column_ready|]|].
        -- intros t' Ht'. eapply has_table_add; [exact E|by apply Hall].
        -- destruct nc. by eapply add_column_has.
      * intros [] s (Hp & Hc & Hh). done.
Qed.

Lemma columns_goes :
  goes (state_with complete) (each (fun '(name, c) => add_column_if_missing name c) later_columns)
    (fun _ s => (P (accounts_of s) /\ complete (snd s)) /\ forall nc, nc ∈ later_columns -> has_column nc (snd s)).
Proof.
  apply (goes_each (state_with complete) (fun nc s => has_column nc (snd s))).
  - intros [n c] Hin. by apply (later_goes (n, c)).
  - intros nc [n c]. apply (stable_column (has_column nc)). unfold has_column. intros sto sto' H E.
    by eapply add_column_columns.
Qed.
End Catalogue.

(** *** The rows *)

Definition fit (t : Accounts) : Prop := room t /\ indexable t.
Definition added (sto : Store) : Prop := complete sto /\ forall nc, nc ∈ later_columns -> has_column nc sto.

Lemma companies_fit f t : (forall e, e_id (f e) = e_id e) -> fit t -> fit (with_companies (map f) t).
Proof.
  intros Hf [(Hu & Hp & Hc) Hi]. split; [|done]. split_and!; [done..|]. unfold companies_room in *. cbn.
  rewrite map_map. by erewrite map_ext by exact Hf.
Qed.
Lemma users_fit f t : (forall u, u_id (f u) = u_id u) -> fit t -> fit (with_users (map f) t).
Proof.
  intros Hf [(Hu & Hp & Hc) Hi]. split; [|done]. split_and!; [|done..]. unfold users_room in *. cbn.
  rewrite map_map. by erewrite map_ext by exact Hf.
Qed.

Lemma normalize_logins_fit t : fit t -> logins_apart t -> exists t', normalize_logins t = Ok t' /\ fit t'.
Proof.
  intros Hf Hl%normalize_logins_iff. unfold normalize_logins, mbind, result_bind in *.
  destruct (update_logins _ _) as [l|] eqn:E; [|done]. eexists. split; [done|].
  apply update_logins_spec in E as [-> _]. by apply (users_fit (fun u => _) t).
Qed.

Lemma normalize_goes K :
  goes (fun s => (fit (accounts_of s) /\ logins_apart (accounts_of s)) /\ K (snd s)) normalize_rows
    (fun _ s => fit (accounts_of s) /\ K (snd s)).
Proof.
  unfold normalize_rows.
  do 4 (eapply goes_try;
    [apply (goes_db (fun t => fit t /\ logins_apart t) K _ (fun _ t => fit t /\ logins_apart t));
     apply (goes_execute no_fault (fun t => fit t /\ logins_apart t));
     intros t [Hf Hl]; split; [by apply companies_fit|done]|intros []; cbn beta]).
  eapply goes_try; [|intros []; cbn beta].
  - apply (goes_db (fun t => fit t /\ logins_apart t) K _ (fun _ => fit)).
    apply (goes_statement no_fault (fun t => fit t /\ logins_apart t) _ _ (fun _ => fit)).
    intros t [Hf Hl]. destruct (normalize_logins_fit t Hf Hl) as (t' & E & Hf').
    exists (), t'. unfold mbind, result_bind. by rewrite E.
  - apply (goes_db fit K _ (fun _ => fit)). apply (goes_execute no_fault fit). intros t. by apply users_fit.
Qed.

(** *** The indexes *)

Lemma photo_added : ("usuarios", col "photo_url" Text_) ∈ later_columns.
Proof. apply (list_elem_of_lookup_2 _ 13). reflexivity. Qed.

Lemma photo_goes : goes (fun s => fit (accounts_of s) /\ added (snd s)) (ensure_optional_columns (W := W))
  (fun _ s => fit (accounts_of s) /\ added (snd s)).
Proof.
  unfold ensure_optional_columns. eapply goes_try.
  - apply (goes_store no_fault fit added _ _ (fun cols sto => added sto /\ cols = columns_of "usuarios" sto)).
    intros _ sto _ Hc. by eexists _, sto.
  - intros cols s (Hp & Ha & ->). rewrite bool_decide_eq_true_2; [by exists (), s|].
    destruct Ha as [_ Ha]. apply (Ha _ photo_added).
Qed.

Lemma index_ready i sto : i ∈ sqlite_indexes -> added sto ->
  find_table (i_table i) (sto_tables sto) <> None /\ forall c, c ∈ i_columns i -> c ∈ columns_of (i_table i) sto.
Proof.
  intros Hi [[[Hf _] Hall] Hlater].
  assert (forall c, c ∈ i_columns i -> (i_table i, c) ∈ index_columns) as Hin.
  { intros c Hc. unfold index_columns. apply list_elem_of_In, in_flat_map. exists i.
    split; [by apply list_elem_of_In|]. apply in_map. by apply list_elem_of_In. }
  assert (find_table (i_table i) (sto_tables sto) <> None) as Ht.
  { assert (i_columns i <> []) as Hn.
    { assert (Forall (fun i => i_columns i <> []) sqlite_indexes) as H by (repeat constructor; done).
      rewrite Forall_forall in H. by apply H. }
    destruct (i_columns i) as [|c l]; [done|]. destruct (schema_columns (i_table i) c) as (t & E & _).
    - apply elem_of_app. left. apply Hin, list_elem_of_here.
    - apply list_find_Some in E as [Hin' <-%String.eqb_eq]. by apply Hall. }
  split; [done|]. intros c Hc. specialize (Hin c Hc). unfold columns_fit in Hf. rewrite Forall_forall in Hf.
  specialize (Hf _ Hin). cbn beta iota in Hf. destruct Hf as [Hf|[Hf|Hf]]; [done|done|].
  unfold later_names in Hf. apply list_elem_of_In, in_map_iff in Hf as ([n x] & [= <- <-] & Hx%list_elem_of_In).
  by apply (Hlater _ Hx).
Qed.

Lemma with_indexes_added l sto : added sto -> added (with_indexes l sto).
Proof. done. Qed.

Lemma indexes_goes : goes (fun s => fit (accounts_of s) /\ added (snd s)) (ensure_indexes (W := W))
  (fun _ s => fit (accounts_of s) /\ added (snd s)).
Proof.
  unfold ensure_indexes.
  eapply goes_weak;
    [apply (goes_each (fun s => fit (accounts_of s) /\ added (snd s)) (fun _ _ => True))|by intros s|by intros [] s [H _]].
  - intros i Hi. eapply goes_weak; [apply (goes_change no_fault fit added _ _ added)|by intros s|by intros [] s].
    intros t sto [_ Hx] Ha. destruct (index_ready i sto Hi Ha) as [Ht Hc].
    unfold indexable in Hx. rewrite Forall_forall in Hx. specialize (Hx _ Hi).
    destruct (create_index_total t i sto Hx Ht Hc) as [sto' E]. exists sto'. split; [done|].
    apply create_index_inv in E as [_ [->| ->]]; [done|by apply with_indexes_added].
  - by intros i j s r s' _ _.
Qed.

(** *** The first rows *)

Definition users_left (t : Accounts) : Prop := users_room t = true /\ profiles_room t = true.

Lemma next_rowid_room seq ids : is_ok (next_rowid seq ids) = true -> exists id, next_rowid seq ids = Ok id.
Proof. destruct (next_rowid seq ids) as [id|]; [by exists id|done]. Qed.

Lemma head_found {A} (p : A -> bool) l : list_find p l = None -> existsb p l = false.
Proof. induction l as [|x l IH]; [done|]. cbn. by destruct (p x). Qed.

Lemma now_goes (P : Accounts -> Prop) :
  goes (fun d : db (W := W) => P (fst d)) now_text (fun _ d => P (fst d)).
Proof. intros [t w] H. unfold now_text, lift, mbind, st_bind. cbn. destruct (utc_now w). by eexists _, _. Qed.

Lemma goes_lift {A B} (P : Accounts -> Prop) (c : St W A) (f : A -> St db (result string B)) Q :
  (forall a, goes (fun d : db (W := W) => P (fst d)) (f a) Q) ->
  goes (fun d : db (W := W) => P (fst d)) (lift c ≫= f) Q.
Proof.
  intros H [t w] Hp. unfold mbind, st_bind, lift. cbn [fst snd]. destruct (c w) as [a w']. by apply H.
Qed.
Lemma hash_goes (P : Accounts -> Prop) password :
  goes (fun d : db (W := W) => P (fst d)) (lift (hash_password password)) (fun _ d => P (fst d)).
Proof.
  intros [t w] Hp. unfold hash_password, lift, mbind, st_bind. cbn [fst snd].
  destruct (rng_salt w) as [salt w']. cbn. pose proof (hashes password salt) as Hh.
  destruct (argon2_hash password salt) as [hash|]; [|done]. by eexists _, _.
Qed.

Lemma company_goes now :
  goes (fun d : db (W := W) => room (fst d)) (ensure_company_seed now) (fun _ d => users_left (fst d)).
Proof.
  unfold ensure_company_seed. eapply goes_try; [apply (goes_select no_fault)|]. intros [e|]; cbn beta.
  - intros s ((Hu & Hp & _) & _). by exists (), s.
  - eapply goes_try; [|intros id; apply goes_ret].
    eapply goes_weak; [apply (goes_statement no_fault room _ _ (fun _ => users_left))|by intros s [H _]|done].
    intros t (Hu & Hp & Hc). destruct (next_rowid_room _ _ Hc) as [id E].
    unfold insert_demo_company. rewrite E. by eexists id, _.
Qed.

Lemma legacy_goes now : goes (fun d : db (W := W) => users_left (fst d)) (ensure_legacy_user now)
  (fun _ d => profiles_room (fst d) = true).
Proof.
  set (left_ := fun (_ : Z) (d : db (W := W)) => profiles_room (fst d) = true).
  unfold ensure_legacy_user. eapply goes_try; [apply (goes_select no_fault)|]. intros found; cbn beta.
  apply (goes_try _ _ left_); [|intros id; apply (goes_try _ _ (fun _ => left_ 0%Z)); [|intros []; apply goes_ret]].
  2:{ by apply (goes_execute no_fault (fun t => profiles_room t = true)). }
  unfold found_or. destruct found as [u|].
  { intros s ((_ & Hp) & _). by exists (u_id u), s. }
  set (P := fun t => users_left t /\ None =
    list_find (fun u => String.eqb (u_login u) "legacy-disabled") (acc_users t)).
  apply (goes_lift P). intros password. apply (goes_try _ _ (fun _ d => P (fst d))); [apply (hash_goes P)|].
  intros hash. apply (goes_statement no_fault P _ _ (fun _ t => profiles_room t = true)).
  intros t ((Hu & Hp) & Hn). unfold insert_user. cbn [uf_login legacy_form].
  rewrite (head_found _ _ (eq_sym Hn)). destruct (next_rowid_room _ _ Hu) as [id ->]. by eexists id, _.
Qed.

Lemma goes_each_execute {A} what (f : A -> Accounts -> Accounts) l :
  goes (fun _ : db (W := W) => True) (each (fun a => execute what (f a)) l) (fun _ _ => True).
Proof.
  eapply goes_weak; [apply (goes_each (fun _ : db (W := W) => True) (fun _ _ => True))|done|done].
  - intros a _. eapply goes_weak; [apply (goes_execute no_fault (fun _ => True))|done|done]. done.
  - done.
Qed.

Lemma master_goes now : goes (fun d : db (W := W) => profiles_room (fst d) = true)
  (ensure_master_profile now) (fun _ _ => True).
Proof.
  unfold ensure_master_profile. eapply goes_try; [apply (goes_select no_fault (fun t => profiles_room t = true))|]. intros found; cbn beta.
  apply (goes_try _ _ (fun _ _ => True)); [|intros id].
  - unfold found_or. destruct found as [p|]; [by intros s _; exists (p_id p), s|].
    apply (goes_statement no_fault (fun t => profiles_room t = true /\ None =
      list_find (fun p => String.eqb (p_nome p) "Master") (acc_profiles t)) _ _ (fun _ _ => True)).
    intros t (Hp & Hn). unfold insert_profile. cbn [pf_nome master_form].
    rewrite (head_found _ _ (eq_sym Hn)). destruct (next_rowid_room _ _ Hp) as [id ->]. by eexists id, _.
  - do 2 (apply (goes_try _ _ (fun _ _ => True)); [by apply (goes_execute no_fault (fun _ => True))|intros []]).
    apply (goes_try _ _ (fun _ _ => True)); [apply goes_each_execute|intros []; apply goes_ret].
Qed.

Lemma access_goes now : goes (fun d : db (W := W) => users_left (fst d)) (ensure_access_seed now) (fun _ _ => True).
Proof.
  unfold ensure_access_seed.
  apply (goes_try _ _ (fun _ d => profiles_room (fst d) = true)); [apply legacy_goes|intros admin_id].
  apply (goes_try _ _ (fun _ _ => True)); [apply master_goes|intros perfil].
  apply (goes_try _ _ (fun _ _ => True)); [by apply (goes_execute no_fault (fun _ => True))|intros []].
  eapply (goes_try _ _ (fun _ _ => True)); [|intros ids; apply goes_each_execute].
  eapply goes_weak; [apply (goes_select no_fault (fun _ => True))|done|done].
Qed.

Definition centers_room (sto : Store) : Prop := rows_room cc_id (sto_centros sto) = true.
Definition later_room (sto : Store) : Prop := rows_room ds_id (sto_funcoes sto) = true /\ centers_room sto.

Lemma simple_goes name get put text now (K K' : Store -> Prop) :
  (forall sto, K sto -> rows_room ds_id (get sto) = true) -> (forall r sto, K sto -> K' (put r sto)) ->
  (forall sto, K sto -> K' sto) ->
  goes (fun s => True /\ K (snd s)) (ensure_simple_seed (W := W) name get put text now)
    (fun _ s => True /\ K' (snd s)).
Proof.
  intros Hr Hp Hk. unfold ensure_simple_seed.
  apply (goes_try _ _ (fun _ s => True /\ K (snd s))).
  - apply (goes_store no_fault (fun _ => True) K _ _ (fun _ => K)). intros _ sto _ H. by eexists _, sto.
  - intros []; [|intros s [_ H]; exists (), s; auto].
    apply (goes_change no_fault (fun _ => True) K _ _ K'). intros _ sto _ H.
    destruct (next_rowid_room _ _ (Hr sto H)) as [id E]. unfold insert_row. rewrite E. eexists. split; [done|auto].
Qed.

Lemma center_goes now :
  goes (fun s => True /\ centers_room (snd s)) (ensure_center_cost_seed (W := W) now)
    (fun _ _ => True).
Proof.
  unfold ensure_center_cost_seed.
  apply (goes_try _ _ (fun _ s => True /\ centers_room (snd s))).
  - apply (goes_store no_fault (fun _ => True) centers_room _ _
      (fun _ => centers_room)). intros _ sto _ H. by eexists _, sto.
  - intros []; [|intros s [_ H]; by exists (), s].
    eapply goes_weak;
      [apply (goes_change no_fault (fun _ => True) centers_room _ _
        (fun _ => True))|done|done].
    intros _ sto _ H. destruct (next_rowid_room _ _ H) as [id E]. unfold insert_row. rewrite E. by eexists.
Qed.

Lemma app_settings_goes now : goes (fun _ : db (W := W) => True) (ensure_app_settings now) (fun _ _ => True).
Proof.
  unfold ensure_app_settings.
  eapply goes_weak; [apply (goes_each (fun _ : db (W := W) => True) (fun _ _ => True))|done|done]; [|done].
  intros [k v] _. apply (goes_try _ _ (fun _ _ => True)); [by apply (goes_execute no_fault (fun _ => True))|].
  intros []. eapply goes_weak; [by apply (goes_execute no_fault (fun _ => True))|done|done].
Qed.

Lemma seed_goes :
  goes (fun s => room (accounts_of s) /\ store_room (snd s)) (seed_data (W := W)) (fun _ _ => True).
Proof.
  unfold seed_data.
  apply (goes_try _ _ (fun _ s => room (accounts_of s) /\ store_room (snd s)));
    [apply (goes_db room store_room _ (fun _ => room)), now_goes|intros now].
  apply (goes_try _ _ (fun _ s => users_left (accounts_of s) /\ store_room (snd s)));
    [apply (goes_db room store_room _ (fun _ => users_left)), company_goes|intros []].
  apply (goes_try _ _ (fun _ s => True /\ store_room (snd s)));
    [apply (goes_db users_left store_room _ (fun _ _ => True)), access_goes|intros []].
  apply (goes_try _ _ (fun _ s => True /\ later_room (snd s))); [|intros []].
  { by apply (simple_goes _ _ _ _ _ store_room later_room); [intros sto []|intros r sto []|intros sto []]. }
  apply (goes_try _ _ (fun _ s => True /\ centers_room (snd s))); [|intros []].
  { by apply (simple_goes _ _ _ _ _ later_room centers_room); [intros sto []|intros r sto []|intros sto []]. }
  apply (goes_try _ _ (fun _ _ => True)); [apply center_goes|intros []].
  eapply goes_weak; [apply (goes_db (fun _ => True) (fun _ => True) _ (fun _ _ => True)), app_settings_goes|done|done].
Qed.

Lemma migrate_goes db_path :
  goes (fun s => (fit (accounts_of s) /\ logins_apart (accounts_of s)) /\ ready (snd s) /\
      is_ok (fst (db_open db_path (snd (fst s)))) = true)
    (migrate db_path) (fun _ _ => True).
Proof.
  set (P := fun t => fit t /\ logins_apart t). unfold migrate.
  apply (goes_try _ _ (fun _ s => P (accounts_of s) /\ ready (snd s))); [|intros _].
  { intros [[t w] sto] (Hp & Hr & Ho). unfold on_db, lift. cbn in *.
    destruct (db_open db_path w) as [[]  w']; [|done]. by eexists _, _. }
  apply (goes_try _ _ (fun _ s => P (accounts_of s) /\ complete (snd s)));
    [apply create_tables_goes|intros []].
  apply (goes_try _ _ (fun _ s => fit (accounts_of s) /\ added (snd s))); [|intros []].
  { unfold migrate_existing_schema. apply (goes_try _ _ (fun _ s => P (accounts_of s) /\ added (snd s))).
    - eapply goes_weak; [apply (columns_goes P)|done|]. by intros [] s [[Hp Hc] Hl].
    - intros []. apply normalize_goes. }
  apply (goes_try _ _ (fun _ s => fit (accounts_of s) /\ added (snd s))); [apply photo_goes|intros []].
  apply (goes_try _ _ (fun _ s => fit (accounts_of s) /\ added (snd s))); [apply indexes_goes|intros []].
  eapply goes_weak; [apply seed_goes| |done]. by intros s [[Hr _] [[[_ Hs] _] _]].
Qed.
End Healthy.

(** ** What stops it *)

Lemma try_users {A B} (c : St (mstate (W := W)) (result string A)) (f : A -> St _ (result string B)) s b s' :
  frames (fun s => acc_users (accounts_of s)) c -> try c f s = (Ok b, s') ->
  exists a s1, acc_users (accounts_of s1) = acc_users (accounts_of s) /\ f a s1 = (Ok b, s').
Proof. intros Hc (a & s1 & E & H)%try_Ok. exists a, s1. split; [by eapply Hc|done]. Qed.

Lemma frames_users_store {A} what (f : Accounts -> Store -> result string (A * Store)) :
  frames (fun s => acc_users (accounts_of s)) (on_store (W := W) what f).
Proof. intros s r s' H. by rewrite (on_store_accounts _ _ _ _ _ H). Qed.

Lemma frames_users_execute what f :
  (forall t, acc_users (f t) = acc_users t) ->
  frames (fun s => acc_users (accounts_of s)) (on_db (W := W) (execute what f)).
Proof.
  intros Hf [d sto] r s' H. unfold on_db in H. cbn in H. destruct (execute what f d) as [a d'] eqn:E.
  injection H as <- <-. unfold accounts_of. cbn. rewrite (execute_tables _ _ _ _ _ E).
  destruct (is_ok a); [apply Hf|done].
Qed.

Lemma frames_each {A} {B} (g : mstate (W := W) -> B) (f : A -> St _ (result string unit)) l :
  (forall a, frames g (f a)) -> frames g (each f l).
Proof. intros H. apply frames_stable. intros b. apply stable_each. intros a. by apply frames_stable. Qed.

(** Two logins that become one text end every migration. *)
Lemma migrate_logins db_path s s' : migrate db_path s = (Ok (), s') -> logins_apart (accounts_of s).
Proof.
  unfold migrate. intros (x & s1 & E1 & H)%try_users.
  2:{ intros [[t w] sto] r s1. unfold on_db, lift. cbn. destruct (db_open _ _). by intros [= _ <-]. }
  apply try_users in H as ([] & s2 & E2 & H); [|apply frames_each; intros; apply frames_users_store].
  rewrite E1 in E2. apply try_Ok in H as ([] & s3 & H & _). unfold migrate_existing_schema in H.
  apply try_users in H as ([] & s4 & E4 & H).
  2:{ apply frames_each. intros [n c]. apply frames_try; [apply frames_users_store|]. intros cols.
      destruct (bool_decide _); [apply frames_ret|apply frames_users_store]. }
  rewrite E2 in E4. unfold normalize_rows in H.
  do 4 (apply try_users in H as ([] & ? & E & H); [|by apply frames_users_execute]; rewrite E4 in E; clear E4; rename E into E4).
  apply try_Ok in H as ([] & s5 & H & _). unfold on_db in H. destruct (insert _ _ _) as [r d] eqn:Ei.
  injection H as -> _. apply insert_tables in Ei as [[_ Ei]|[? _]]; [|done].
  match type of Ei with normalize_logins ?t = _ =>
    assert (logins_apart t) as Hl by (apply normalize_logins_iff; by rewrite Ei) end.
  unfold logins_apart in *. unfold accounts_of in *. by rewrite E4 in Hl.
Qed.

End Start.
