(* ===== verification/MigrationSettles.v ===== *)
(** * What one migration leaves to the next

    Everything a migration adds, it adds once: on the file another one left, it
    changes neither the catalogue nor the rows that are there. *)

From Stdlib Require Import Ascii.
From S2P Require Import Prelude RustStr Json NetAddr NetBind RuntimeSettings Security.
From S2P Require Import ServiceConfigs RuntimeStore AppLog Accounts AccessTables Auth Access AccessRules.
From S2P Require Import InternalRoutes Schemas Migrations MigrationRules MigrationStart.

#[local] Open Scope string_scope.
#[local] Open Scope tunnara_scope.

(** ** What a migration establishes *)

Definition has_index (i : Index) (s : Store) : Prop :=
  existsb (fun j => String.eqb (i_name j) (i_name i)) (sto_indexes s) = true.
Definition has_descricao (text : string) (r : Rows Descricao) : Prop := missing_descricao text r = false.
Definition has_adm (s : Store) : Prop :=
  existsb (fun c => bool_decide (cc_codigo c = Some "ADM")) (rows_of (sto_centros s)) = true.

Record settled_store (s : Store) : Prop := {
  ss_tables t : t ∈ sqlite_tables -> has_table t s;
  ss_columns nc : nc ∈ later_columns -> has_column nc s;
  ss_indexes i : i ∈ sqlite_indexes -> has_index i s;
  ss_departamento : has_descricao "Administrativo" (sto_departamentos s);
  ss_funcao : has_descricao "Administrador" (sto_funcoes s);
  ss_centro : has_adm s;
}.

Definition has_login (login : string) (t : Accounts) : Prop :=
  exists u, u ∈ acc_users t /\ u_login u = login.
Definition has_profile (nome : string) (t : Accounts) : Prop :=
  exists p, p ∈ acc_profiles t /\ p_nome p = nome.
Definition normal_logins (t : Accounts) : Prop :=
  forall u, u ∈ acc_users t -> normal_login (u_login u) = u_login u.

Record settled_rows (t : Accounts) : Prop := {
  sr_company : acc_companies t <> [];
  sr_legacy : has_login "legacy-disabled" t;
  sr_master : has_profile "Master" t;
  sr_logins : normal_logins t;
}.

(** What identifies the rows. *)
Definition identities (t : Accounts) :=
  (map e_id (acc_companies t), map (fun u => (u_id u, u_login u, u_senha_hash u)) (acc_users t),
   map (fun p => (p_id p, p_nome p)) (acc_profiles t), acc_seq t).

Section Settles.
Context {W : Type} `{LO : LogOs W} `{ST : !Statements W} `{CR : Crypto} `{RN : !Randomness W}
  `{AW : !AuthWorld W} `{BI : BuildInfo}.
Implicit Types s : mstate (W := W).

(** ** Facts that last *)

(** The steps of a migration after the file is open. *)
Inductive step_of : St (mstate (W := W)) (result string unit) -> Prop :=
| step_tables : step_of create_tables
| step_columns : step_of (each (fun '(name, c) => add_column_if_missing name c) later_columns)
| step_rows : step_of normalize_rows
| step_photo : step_of ensure_optional_columns
| step_indexes : step_of ensure_indexes
| step_company now : step_of (on_db (ensure_company_seed now))
| step_access now : step_of (on_db (ensure_access_seed now))
| step_departamento now : step_of (ensure_simple_seed "departamentos" sto_departamentos with_departamentos "Administrativo" now)
| step_funcao now : step_of (ensure_simple_seed "funcoes" sto_funcoes with_funcoes "Administrador" now)
| step_centro now : step_of (ensure_center_cost_seed now)
| step_settings now : step_of (on_db (ensure_app_settings now)).
#[local] Hint Constructors step_of : core.

Definition lasting (F : mstate (W := W) -> Prop) : Prop := forall c, step_of c -> stable F c.

Lemma rows_last I : migration_keeps I -> lasting (fun s => I (accounts_of s)).
Proof.
  intros HK c []; try (apply (rows_keep_each I)); try (intros; apply rows_keep_change).
  - intros [n x]. apply rows_keep_column.
  - by apply keeps_rows.
  - apply rows_keep_photo.
  - apply rows_keep_db. by apply keeps_company.
  - apply rows_keep_db. by apply keeps_access.
  - apply rows_keep_simple.
  - apply rows_keep_simple.
  - apply rows_keep_center.
  - apply rows_keep_db. by apply keeps_app_settings.
Qed.

(** A fact of the catalogue that every change keeps. *)
Record store_keeps (K : Store -> Prop) : Prop := {
  sk_table t x : K x -> K (create_table t x);
  sk_column n c x y : K x -> add_column n c x = Ok y -> K y;
  sk_index t i x y : K x -> create_index t i x = Ok y -> K y;
  sk_departamentos x now r : K x ->
    insert_row ds_id (new_descricao "Administrativo" now) (sto_departamentos x) = Ok r -> K (with_departamentos r x);
  sk_funcoes x now r : K x ->
    insert_row ds_id (new_descricao "Administrador" now) (sto_funcoes x) = Ok r -> K (with_funcoes r x);
  sk_centros x new r : K x -> insert_row cc_id new (sto_centros x) = Ok r -> K (with_centros r x);
}.

Lemma stable_db_store {A} (K : Store -> Prop) (c : St (db (W := W)) A) : stable (fun s => K (snd s)) (on_db c).
Proof. intros s r s' H E. apply on_db_store in E. by rewrite E. Qed.

Lemma stable_simple (K : Store -> Prop) name get put text now :
  (forall x r, K x -> insert_row ds_id (new_descricao text now) (get x) = Ok r -> K (put r x)) ->
  stable (fun s => K (snd s)) (ensure_simple_seed (W := W) name get put text now).
Proof.
  intros Hk. unfold ensure_simple_seed. apply stable_try; [apply stable_read|]. intros []; [|apply stable_ret].
  apply stable_change. intros t sto sto' H. unfold mbind, result_bind.
  destruct (insert_row _ _ _) as [r|] eqn:E; [|done]. intros [= <-]. by apply Hk.
Qed.

Lemma store_last K : store_keeps K -> lasting (fun s => K (snd s)).
Proof.
  intros [] c []; try apply (stable_db_store K).
  - apply stable_each. intros t. apply (stable_change K). intros _ sto sto' H [= <-]. auto.
  - apply stable_each. intros [n x]. apply (stable_column K). eauto.
  - unfold normalize_rows. repeat (apply stable_try; [|intros _]); apply (stable_db_store K).
  - unfold ensure_optional_columns. apply stable_try; [apply (stable_read K)|]. intros cols.
    destruct (bool_decide _); [apply stable_ret|]. apply (stable_change K). intros _ sto sto'. eauto.
  - apply stable_each. intros i. apply (stable_change K). eauto.
  - apply (stable_simple K). eauto.
  - apply (stable_simple K). eauto.
  - unfold ensure_center_cost_seed. apply stable_try; [apply (stable_read K)|]. intros []; [|apply stable_ret].
    apply (stable_change K). intros t sto sto' H. unfold mbind, result_bind.
    destruct (insert_row _ _ _) as [r|] eqn:E; [|done]. intros [= <-]. eauto.
Qed.

(** ** The facts, and what makes them last *)

Lemma create_table_rest t x : sto_indexes (create_table t x) = sto_indexes x /\
  sto_departamentos (create_table t x) = sto_departamentos x /\
  sto_funcoes (create_table t x) = sto_funcoes x /\ sto_centros (create_table t x) = sto_centros x.
Proof. unfold create_table. by destruct (find_table _ _). Qed.
Lemma add_column_rest n c x y : add_column n c x = Ok y -> sto_indexes y = sto_indexes x /\
  sto_departamentos y = sto_departamentos x /\ sto_funcoes y = sto_funcoes x /\ sto_centros y = sto_centros x.
Proof. unfold add_column. destruct (find_table _ _); [|done]. by intros [= <-]. Qed.
Lemma create_index_rest t i x y : create_index t i x = Ok y ->
  sto_departamentos y = sto_departamentos x /\ sto_funcoes y = sto_funcoes x /\ sto_centros y = sto_centros x.
Proof. by intros [_ [->| ->]]%create_index_inv. Qed.
Lemma insert_row_rows {A} row_id (new : Z -> A) r r' : insert_row row_id new r = Ok r' ->
  exists id, rows_of r' = (rows_of r ++ [new id])%list.
Proof.
  unfold insert_row, mbind, result_bind. destruct (next_rowid _ _) as [id|]; [|done].
  intros [= <-]. by exists id.
Qed.

Lemma table_kept t : store_keeps (has_table t).
Proof.
  split; try done.
  - intros t' x. apply has_table_create.
  - intros n c x y H E. by eapply has_table_add.
  - intros a i x y H [E _]%create_index_inv. unfold has_table. by rewrite E.
Qed.
Lemma column_kept nc : store_keeps (has_column nc).
Proof.
  split; try done.
  - intros t x. apply create_table_columns.
  - intros n c x y H E. by eapply add_column_columns.
  - intros a i x y H [E _]%create_index_inv. unfold has_column, columns_of. by rewrite E.
Qed.
Lemma index_kept i : store_keeps (has_index i).
Proof.
  split; try done; unfold has_index.
  - intros t x. by destruct (create_table_rest t x) as [-> _].
  - intros n c x y H E. by destruct (add_column_rest _ _ _ _ E) as [-> _].
  - intros t j x y H [_ [->| ->]]%create_index_inv; [done|]. cbn. by rewrite existsb_app, H.
Qed.

Lemma has_descricao_more text r row_id new r' :
  insert_row row_id new r = Ok r' -> has_descricao text r -> has_descricao text r'.
Proof.
  intros [id E]%insert_row_rows. unfold has_descricao, missing_descricao. rewrite E, existsb_app.
  rewrite !negb_false_iff. by intros ->.
Qed.
Lemma departamento_kept text : store_keeps (fun x => has_descricao text (sto_departamentos x)).
Proof.
  split; try done.
  - intros t x. by destruct (create_table_rest t x) as (_ & -> & _).
  - intros n c x y H E. by destruct (add_column_rest _ _ _ _ E) as (_ & -> & _).
  - intros t i x y H E. by destruct (create_index_rest _ _ _ _ E) as (-> & _).
  - intros x now r H E. by eapply has_descricao_more.
Qed.
Lemma funcao_kept text : store_keeps (fun x => has_descricao text (sto_funcoes x)).
Proof.
  split; try done.
  - intros t x. by destruct (create_table_rest t x) as (_ & _ & -> & _).
  - intros n c x y H E. by destruct (add_column_rest _ _ _ _ E) as (_ & _ & -> & _).
  - intros t i x y H E. by destruct (create_index_rest _ _ _ _ E) as (_ & -> & _).
  - intros x now r H E. by eapply has_descricao_more.
Qed.
Lemma adm_kept : store_keeps has_adm.
Proof.
  split; try done; unfold has_adm.
  - intros t x. by destruct (create_table_rest t x) as (_ & _ & _ & ->).
  - intros n c x y H E. by destruct (add_column_rest _ _ _ _ E) as (_ & _ & _ & ->).
  - intros t i x y H E. by destruct (create_index_rest _ _ _ _ E) as (_ & _ & ->).
  - intros x new r H [id E]%insert_row_rows. cbn. by rewrite E, existsb_app, H.
Qed.

(** The rows: a map over a table keeps what it does not change. *)
Lemma has_login_map login f t :
  (forall u, u_login (f u) = u_login u) -> has_login login t -> has_login login (with_users (map f) t).
Proof.
  intros Hf (u & Hu & <-). exists (f u). split; [|apply Hf]. cbn.
  by apply list_elem_of_In, in_map, list_elem_of_In.
Qed.

Lemma logins_after t t' : normalize_logins t = Ok t' ->
  t' = with_users (map (fun u => set_login_phone (normal_login (u_login u)) (u_telefone u) u)) t.
Proof.
  unfold normalize_logins, mbind, result_bind. destruct (update_logins _ _) as [l|] eqn:E; [|done].
  apply update_logins_spec in E as [-> _]. by intros [= <-].
Qed.

Ltac unfold_insert :=
  unfold insert_demo_company, insert_user, insert_profile, mbind, result_bind;
  try (destruct (existsb _ _); [done|]); destruct (next_rowid _ _); [|done]; intros [= _ <-].

Lemma company_kept : migration_keeps (fun t => acc_companies t <> []).
Proof.
  split; try (by intros); unfold normalize_documents, normalize_phones, normalize_contacts, normalize_ceps.
  1-4: intros t H; cbn; by destruct (acc_companies t).
  - intros t t' H ->%logins_after. done.
  - intros now t id t' H. unfold_insert. cbn. by destruct (acc_companies t).
  - intros hash now t id t' H. unfold_insert. done.
  - intros now t id t' H. unfold_insert. done.
Qed.

Lemma legacy_kept : migration_keeps (has_login "legacy-disabled").
Proof.
  split; try (by intros).
  - intros t t' (u & Hu & E) ->%logins_after. exists (set_login_phone (normal_login (u_login u)) (u_telefone u) u).
    split; [cbn; by apply list_elem_of_In, in_map_iff; exists u; rewrite <- list_elem_of_In|].
    cbn. by rewrite E.
  - intros t. by apply has_login_map.
  - intros now t id t' H. unfold_insert. done.
  - intros hash now t id t' (u & Hu & E). unfold_insert. exists u. cbn. rewrite elem_of_app. auto.
  - intros now id t. apply (has_login_map _ (fun u => if (u_id u =? id)%Z then disable now u else u)).
    intros u. by destruct (u_id u =? id)%Z.
  - intros now t id t' H. unfold_insert. done.
Qed.

Lemma master_kept : migration_keeps (has_profile "Master").
Proof.
  split; try (by intros).
  - intros t t' H ->%logins_after. done.
  - intros now t id t' H. unfold_insert. done.
  - intros hash now t id t' H. unfold_insert. done.
  - intros now t id t' (p & Hp & E). unfold_insert. exists p. cbn. rewrite elem_of_app. auto.
  - intros now id t (p & Hp & E). unfold restore_profile.
    eexists. split; [cbn; apply list_elem_of_In, in_map_iff; exists p; split; [reflexivity|by apply list_elem_of_In]|].
    by destruct (p_id p =? id)%Z.
Qed.

Lemma normal_logins_map f t : (forall u, u_login (f u) = u_login u) ->
  normal_logins t -> normal_logins (with_users (map f) t).
Proof.
  intros Hf H u. cbn. rewrite list_elem_of_In, in_map_iff. intros (v & <- & Hv%list_elem_of_In).
  rewrite Hf. by apply H.
Qed.
Lemma logins_kept : migration_keeps normal_logins.
Proof.
  split; try (by intros).
  - intros t t' _ ->%logins_after u. cbn. rewrite list_elem_of_In, in_map_iff. intros (v & <- & _).
    apply normal_login_idem.
  - intros t. by apply normal_logins_map.
  - intros now t id t' H. unfold_insert. done.
  - intros hash now t id t' H. unfold_insert. intros u. cbn. rewrite elem_of_app, list_elem_of_singleton.
    intros [Hu| ->]; [by apply H|reflexivity].
  - intros now id t. apply (normal_logins_map (fun u => if (u_id u =? id)%Z then disable now u else u)).
    intros u. by destruct (u_id u =? id)%Z.
  - intros now t id t' H. unfold_insert. done.
Qed.

(** ** What establishes them *)

Lemma each_ok {S A} (R : A -> S -> Prop) (f : A -> St S (result string unit)) l (s0 s' : S) :
  (forall a b, stable (R a) (f b)) -> (forall a x y, f a x = (Ok (), y) -> R a y) ->
  each f l s0 = (Ok (), s') -> forall a, a ∈ l -> R a s'.
Proof.
  intros Hst Hf. revert s0. induction l as [|x l IH]; intros s0; [by intros _ a ?%not_elem_of_nil|].
  cbn [each]. intros ([] & s1 & E & H)%try_Ok a [->|Ha]%elem_of_cons; [|by eapply IH].
  eapply (stable_each (R x) f l); [intros; apply Hst|by eapply Hf|exact H].
Qed.

Lemma on_store_ok {A} what (f : Accounts -> Store -> result string (A * Store)) s a s' :
  on_store (W := W) what f s = (Ok a, s') -> f (accounts_of s) (snd s) = Ok (a, snd s').
Proof.
  destruct s as [[t w] sto]. unfold on_store. destruct (sql_fault w) as [[e|] w']; [done|].
  unfold accounts_of. cbn. destruct (f t sto) as [[x y]|]; [|done]. by intros [= <- <-].
Qed.
Lemma change_ok what (f : Accounts -> Store -> result string Store) s s' :
  change (W := W) what f s = (Ok (), s') -> f (accounts_of s) (snd s) = Ok (snd s').
Proof.
  intros H%on_store_ok. unfold mbind, result_bind in H. destruct (f _ _) as [x|]; [|done]. by injection H as ->.
Qed.

Lemma tables_made s s' : create_tables s = (Ok (), s') -> forall t, t ∈ sqlite_tables -> has_table t (snd s').
Proof.
  apply (each_ok (fun t s => has_table t (snd s))).
  - intros a b. apply (stable_change (has_table a)). intros t x y H [= <-]. by apply has_table_create.
  - intros t x y [= <-]%change_ok. apply create_table_has.
Qed.

Lemma columns_made s s' :
  each (fun '(name, c) => add_column_if_missing name c) later_columns s = (Ok (), s') ->
  forall nc, nc ∈ later_columns -> has_column nc (snd s').
Proof.
  apply (each_ok (fun nc s => has_column nc (snd s))).
  - intros nc [n c]. apply (stable_column (has_column nc)). intros x y H E. by eapply add_column_columns.
  - intros [n c] x y. unfold add_column_if_missing. intros (cols & z & E & H)%try_Ok.
    apply on_store_ok in E as [= <- Ez]. destruct (bool_decide _) eqn:Eb.
    + apply bool_decide_eq_true in Eb. injection H as <-. unfold has_column. cbn. by rewrite <- Ez.
    + apply change_ok in H. by eapply add_column_has.
Qed.

Lemma indexes_made s s' : ensure_indexes s = (Ok (), s') -> forall i, i ∈ sqlite_indexes -> has_index i (snd s').
Proof.
  apply (each_ok (fun i s => has_index i (snd s))).
  - intros i j. apply (stable_change (has_index i)). intros t x y H E. by eapply sk_index; [apply index_kept| |].
  - intros i x y H%change_ok. unfold create_index in H. unfold has_index.
    destruct (existsb _ _) eqn:E; [by injection H as <-|]. destruct (find_table _ _); [|done].
    destruct (list_find _ _); [done|]. destruct (_ && _); [done|]. injection H as <-. cbn.
    rewrite existsb_app. cbn. by rewrite String.eqb_refl, orb_true_r.
Qed.

Lemma on_db_Ok {A} (c : St (db (W := W)) (result string A)) s a s' :
  on_db c s = (Ok a, s') -> exists d', c (fst s) = (Ok a, d') /\ fst s' = d'.
Proof. unfold on_db. destruct (c (fst s)) as [r d]. intros [= -> <-]. by exists d. Qed.

Lemma logins_made s s' : normalize_rows s = (Ok (), s') -> normal_logins (accounts_of s').
Proof.
  unfold normalize_rows.
  do 4 (intros ([] & ? & _ & H)%try_Ok; revert H). intros ([] & s1 & E & H)%try_Ok.
  eapply (rows_keep_db normal_logins (execute normalize_failed normalize_user_phones)); [| |exact H].
  - apply preserves_execute. apply (mk_user_phones _ logins_kept).
  - apply on_db_Ok in E as (d & E & Ed). apply insert_tables in E as [[_ E]|[? _]]; [|done].
    unfold accounts_of. rewrite Ed. apply logins_after in E as ->. intros u. cbn.
    rewrite list_elem_of_In, in_map_iff. intros (v & <- & _). apply normal_login_idem.
Qed.

Lemma company_made now d d' : ensure_company_seed (W := W) now d = (Ok (), d') -> acc_companies (fst d') <> [].
Proof.
  unfold ensure_company_seed. intros (o & d1 & [-> E]%select_inv & H)%try_Ok.
  destruct (acc_companies (fst d)) as [|e l] eqn:Ec; cbn in H.
  - apply try_Ok in H as (id & d2 & H & [= <-]). unfold statement in H.
    destruct (sql_fault _) as [[?|] w]; [done|]. unfold insert_demo_company, mbind, result_bind in H.
    destruct (next_rowid _ _); [|done]. injection H as <- <-. cbn. by destruct (acc_companies (fst d1)).
  - injection H as <-. by rewrite E, Ec.
Qed.

Lemma statement_ok {A} what (f : Accounts -> result string (A * Accounts)) (d d' : db (W := W)) a :
  statement what f d = (Ok a, d') -> f (fst d) = Ok (a, fst d').
Proof.
  unfold statement. destruct (sql_fault _) as [[e|] w]; [done|].
  destruct (f (fst d)) as [[x t]|]; [|done]. by intros [= <- <-].
Qed.

Lemma legacy_made now d id d' : ensure_legacy_user (W := W) now d = (Ok id, d') -> has_login "legacy-disabled" (fst d').
Proof.
  unfold ensure_legacy_user. intros (o & d1 & [-> E]%select_inv & H)%try_Ok.
  apply try_Ok in H as (i & d2 & Hf & H). apply try_Ok in H as ([] & d3 & H & [= _ <-]).
  apply execute_tables in H. cbn in H. rewrite H. apply (mk_disable _ legacy_kept). clear H. unfold found_or in Hf.
  destruct (list_find _ _) as [u|] eqn:El.
  - injection Hf as _ <-. apply list_find_Some in El as [Hu El%String.eqb_eq]. rewrite E. by exists u.
  - run_bind Hf password d4. apply try_Ok in Hf as (hash & d5 & _ & Hf). apply statement_ok in Hf.
    revert Hf. unfold_insert. eexists. split; [cbn; apply elem_of_app; right; apply list_elem_of_singleton; reflexivity|done].
Qed.

Lemma master_made now d id d' : ensure_master_profile (W := W) now d = (Ok id, d') -> has_profile "Master" (fst d').
Proof.
  unfold ensure_master_profile. generalize access_permission_keys. intros keys (o & d1 & [-> E]%select_inv & H)%try_Ok.
  apply try_Ok in H as (i & d2 & Hf & H).
  assert (has_profile "Master" (fst d2)) as Hp.
  { clear H. unfold found_or in Hf. destruct (list_find _ _) as [p|] eqn:El.
    - injection Hf as _ <-. apply list_find_Some in El as [Hp El%String.eqb_eq]. rewrite E. by exists p.
    - apply statement_ok in Hf. revert Hf. unfold_insert.
      eexists. split; [cbn; apply elem_of_app; right; apply list_elem_of_singleton; reflexivity|done]. }
  revert H Hp. pose proof master_kept as [].
  enough (preserves (has_profile "Master") (_ ←? execute "Falha ao atualizar perfil master" (restore_profile now i);
    _ ←? execute "Falha ao limpar permissões do perfil master" (delete_profile_perms i);
    _ ←? each (fun key => execute (W := W) "Falha ao gravar permissão do perfil master"
      (with_profile_perms (insert_or_ignore (i, key)))) keys; mret (Ok i))) as Hk by (intros H Hp; by eapply Hk).
  keep; try (apply preserves_execute; eauto). apply stable_each. intros key. apply preserves_execute. eauto.
Qed.

Lemma access_made now d d' : ensure_access_seed (W := W) now d = (Ok (), d') ->
  has_login "legacy-disabled" (fst d') /\ has_profile "Master" (fst d').
Proof.
  unfold ensure_access_seed. intros (admin & d1 & E1 & H)%try_Ok. apply try_Ok in H as (profile & d2 & E2 & H).
  assert (forall I, migration_keeps I -> I (fst d2) -> I (fst d')) as Hk.
  { intros I [] Hi. revert H. enough (preserves I (_ ←? execute "Falha ao vincular perfil master ao admin"
      (with_user_profiles (insert_or_ignore (admin, profile)));
      empresa_ids ←? select "Falha ao consultar empresas para o admin"
        (fun t => sort_by Z.leb (map e_id (acc_companies t)));
      each (fun empresa_id => execute (W := W) "Falha ao vincular empresa ao usuário admin"
        (with_user_companies (insert_or_ignore (admin, empresa_id)))) empresa_ids)) as Hk by (intros H; by eapply Hk).
    keep; [apply preserves_execute; eauto|]. apply stable_each. intros e. apply preserves_execute. eauto. }
  split; apply Hk.
  - apply legacy_kept.
  - eapply keeps_master; [apply legacy_kept| |exact E2]. by eapply legacy_made.
  - apply master_kept.
  - by eapply master_made.
Qed.

Lemma simple_made name get put text now s s' :
  (forall r x, get (put r x) = r) ->
  ensure_simple_seed (W := W) name get put text now s = (Ok (), s') -> has_descricao text (get (snd s')).
Proof.
  intros Hg. unfold ensure_simple_seed. intros (b & s1 & E & H)%try_Ok. apply on_store_ok in E as [= <- Es].
  unfold has_descricao. destruct (missing_descricao _ _) eqn:Em.
  - apply change_ok in H. unfold mbind, result_bind in H. destruct (insert_row _ _ _) as [r|] eqn:Ei; [|done].
    injection H as <-. rewrite Hg. apply insert_row_rows in Ei as [id Ei]. unfold missing_descricao.
    rewrite Ei, existsb_app. cbn. by rewrite String.eqb_refl, orb_true_r.
  - injection H as <-. by rewrite <- Es.
Qed.

Lemma center_made now s s' : ensure_center_cost_seed (W := W) now s = (Ok (), s') -> has_adm (snd s').
Proof.
  unfold ensure_center_cost_seed. intros (b & s1 & E & H)%try_Ok. apply on_store_ok in E as [= <- Es].
  unfold has_adm. destruct (existsb _ (rows_of (sto_centros (snd s)))) eqn:Em; cbn in H.
  - injection H as <-. by rewrite <- Es.
  - apply change_ok in H. unfold mbind, result_bind in H. destruct (insert_row _ _ _) as [r|] eqn:Ei; [|done].
    injection H as <-. apply insert_row_rows in Ei as [id Ei]. cbn. rewrite Ei, existsb_app. cbn.
    by rewrite orb_true_r.
Qed.

(** A fact goes from step to step to the end. *)
Definition ran (s s' : mstate (W := W)) : Prop := exists c r, step_of c /\ c s = (r, s').
Lemma lasting_ran F s s' : lasting F -> rtc ran s s' -> F s -> F s'.
Proof. intros L. induction 1 as [|x y z (c & r & Hc & E) _ IH]; [done|]. intros Hx. apply IH. by eapply L. Qed.
Lemma ran_next c s s1 s' r : c s = (r, s1) -> step_of c -> rtc ran s1 s' -> rtc ran s s'.
Proof. intros E Hc. apply rtc_l. by exists c, r. Qed.

Lemma now_same s r s' : on_db (W := W) now_text s = (r, s') -> accounts_of s' = accounts_of s /\ snd s' = snd s.
Proof.
  intros H. split; [|by apply on_db_store in H]. destruct s as [[t w] sto].
  unfold on_db, now_text, lift, mbind, st_bind in H. cbn in H. destruct (utc_now w). by injection H as _ <-.
Qed.

Lemma migrate_settled db_path s s' :
  migrate db_path s = (Ok (), s') -> settled_store (snd s') /\ settled_rows (accounts_of s').
Proof.
  unfold migrate, migrate_existing_schema, seed_data.
  intros (x & s1 & _ & H)%try_Ok. apply try_Ok in H as ([] & s2 & E2 & H).
  apply try_Ok in H as ([] & s4 & H0 & H). apply try_Ok in H0 as ([] & s3 & E3 & E4).
  apply try_Ok in H as ([] & s5 & E5 & H). apply try_Ok in H as ([] & s6 & E6 & H).
  apply try_Ok in H as (now & s7 & E7 & H). apply try_Ok in H as ([] & s8 & E8 & H).
  apply try_Ok in H as ([] & s9 & E9 & H). apply try_Ok in H as ([] & s10 & E10 & H).
  apply try_Ok in H as ([] & s11 & E11 & H). apply try_Ok in H as ([] & s12 & E12 & E13).
  pose proof (ran_next _ _ _ _ _ E13 (step_settings now) (rtc_refl _ _)) as R12.
  pose proof (ran_next _ _ _ _ _ E12 (step_centro now) R12) as R11.
  pose proof (ran_next _ _ _ _ _ E11 (step_funcao now) R11) as R10.
  pose proof (ran_next _ _ _ _ _ E10 (step_departamento now) R10) as R9.
  pose proof (ran_next _ _ _ _ _ E9 (step_access now) R9) as R8.
  pose proof (ran_next _ _ _ _ _ E8 (step_company now) R8) as R7.
  apply now_same in E7 as [A7 S7].
  assert (forall K, store_keeps K -> K (snd s6) -> K (snd s')) as K6.
  { intros K HK Hk. rewrite <- S7 in Hk. by eapply (lasting_ran _ _ _ (store_last K HK) R7). }
  assert (forall J, migration_keeps J -> J (accounts_of s6) -> J (accounts_of s')) as I6.
  { intros J HJ Hj. rewrite <- A7 in Hj. by eapply (lasting_ran _ _ _ (rows_last J HJ) R7). }
  pose proof (ran_next _ _ _ _ _ E6 step_indexes (rtc_refl _ _)) as R5.
  pose proof (ran_next _ _ _ _ _ E5 step_photo R5) as R4.
  pose proof (ran_next _ _ _ _ _ E4 step_rows R4) as R3.
  pose proof (ran_next _ _ _ _ _ E3 step_columns R3) as R2.
  split; split.
  - intros t Ht. apply K6; [apply table_kept|].
    eapply (lasting_ran _ _ _ (store_last _ (table_kept t)) R2). by eapply tables_made.
  - intros nc Hc. apply K6; [apply column_kept|].
    eapply (lasting_ran _ _ _ (store_last _ (column_kept nc)) R3). by eapply columns_made.
  - intros i Hi. apply K6; [apply index_kept|]. by eapply indexes_made.
  - apply (lasting_ran _ _ _ (store_last _ (departamento_kept _)) R10). exact (simple_made _ _ _ _ _ _ _ (fun _ _ => eq_refl) E10).
  - apply (lasting_ran _ _ _ (store_last _ (funcao_kept _)) R11). exact (simple_made _ _ _ _ _ _ _ (fun _ _ => eq_refl) E11).
  - apply (lasting_ran _ _ _ (store_last _ adm_kept) R12). by eapply center_made.
  - apply (lasting_ran _ _ _ (rows_last _ company_kept) R8). apply on_db_Ok in E8 as (d & E & Ed).
    unfold accounts_of. rewrite Ed. by eapply company_made.
  - apply (lasting_ran _ _ _ (rows_last _ legacy_kept) R9). apply on_db_Ok in E9 as (d & E & Ed).
    unfold accounts_of. rewrite Ed. by eapply access_made.
  - apply (lasting_ran _ _ _ (rows_last _ master_kept) R9). apply on_db_Ok in E9 as (d & E & Ed).
    unfold accounts_of. rewrite Ed. by eapply access_made.
  - apply I6; [apply logins_kept|]. apply (lasting_ran _ _ _ (rows_last _ logins_kept) R4). by eapply logins_made.
Qed.

(** ** The next migration *)

Lemma stable_try_known {S A B E} (F : S -> Prop) (P : A -> Prop) (c : St S (result E A)) (f : A -> St S (result E B)) :
  stable F c -> (forall x a y, F x -> c x = (Ok a, y) -> P a) -> (forall a, P a -> stable F (f a)) ->
  stable F (try c f).
Proof.
  intros Hc HP Hf x r y HI [(a & z & E1 & H)|(e & E1 & ->)]%try_inv; [|by eapply Hc].
  eapply Hf; [by eapply HP|by eapply Hc|exact H].
Qed.
Lemma stable_each_in {S A E} (F : S -> Prop) (f : A -> St S (result E unit)) l :
  (forall a, a ∈ l -> stable F (f a)) -> stable F (each f l).
Proof.
  induction l as [|x l IH]; intros H; cbn; [apply stable_ret|].
  apply stable_try; [apply H, list_elem_of_here|]. intros _. apply IH. intros a Ha. apply H. by right.
Qed.

Section Store.
Context (sto : Store) (HS : settled_store sto).
#[local] Abbreviation same := (fun s => snd s = sto).

Lemma same_change what f : (forall t y, f t sto = Ok y -> y = sto) -> stable same (change (W := W) what f).
Proof. intros H. apply (stable_change (fun x => x = sto)). intros t x y -> E. by eapply H. Qed.

(** A seed that is there is not inserted again. *)
Lemma same_seed what (missing : Store -> bool) (c : St (mstate (W := W)) (result string unit)) :
  missing sto = false ->
  stable same (m ←? on_store what (fun _ x => Ok (missing x, x)); if (m : bool) then c else mret (Ok ())).
Proof.
  intros Hm. apply (stable_try_known _ (fun b => b = false)); [apply (stable_read (fun x => x = sto))| |].
  - intros x a y Hx H%on_store_ok. rewrite Hx in H. injection H as <- _. done.
  - intros b ->. apply stable_ret.
Qed.

Lemma store_stays db_path : stable same (migrate (W := W) db_path).
Proof.
  unfold migrate. apply stable_try; [apply (stable_db_store (fun x => x = sto))|intros _].
  apply stable_try; [|intros _].
  { apply stable_each_in. intros t Ht. apply same_change. intros _ y [= <-]. unfold create_table.
    pose proof (ss_tables _ HS t Ht) as H. unfold has_table in H. by destruct (find_table _ _). }
  apply stable_try; [|intros _].
  { unfold migrate_existing_schema. apply stable_try; [|intros _].
    - apply stable_each_in. intros [n c] Hc. unfold add_column_if_missing.
      apply (stable_try_known _ (fun cols => cols = columns_of n sto)); [apply (stable_read (fun x => x = sto))| |].
      + intros x a y Hx H%on_store_ok. rewrite Hx in H. by injection H as <- _.
      + intros cols ->. pose proof (ss_columns _ HS _ Hc) as H. rewrite bool_decide_eq_true_2 by exact H. apply stable_ret.
    - unfold normalize_rows. repeat (apply stable_try; [|intros _]); apply (stable_db_store (fun x => x = sto)). }
  apply stable_try; [|intros _].
  { unfold ensure_optional_columns.
    apply (stable_try_known _ (fun cols => cols = columns_of "usuarios" sto)); [apply (stable_read (fun x => x = sto))| |].
    + intros x a y Hx H%on_store_ok. rewrite Hx in H. by injection H as <- _.
    + intros cols ->. pose proof (ss_columns _ HS _ photo_added) as H.
      rewrite bool_decide_eq_true_2 by exact H. apply stable_ret. }
  apply stable_try; [|intros _].
  { apply stable_each_in. intros i Hi. apply same_change. intros t y. unfold create_index.
    pose proof (ss_indexes _ HS i Hi) as H. unfold has_index in H. rewrite H. by intros [= <-]. }
  unfold seed_data. apply stable_try; [apply (stable_db_store (fun x => x = sto))|intros now].
  do 2 (apply stable_try; [apply (stable_db_store (fun x => x = sto))|intros _]).
  destruct HS as [_ _ _ Hd Hf Ha].
  do 2 (apply stable_try; [by apply same_seed|intros _]).
  apply stable_try; [|intros _; apply (stable_db_store (fun x => x = sto))].
  apply same_seed. unfold has_adm in Ha. by rewrite Ha.
Qed.
End Store.

Section Rows.
Context (k : list Z * list (Z * string * string) * list (Z * string) * Sequences).
Definition rows_are (t : Accounts) : Prop := settled_rows t /\ identities t = k.

Lemma rows_are_same f :
  (forall t, acc_companies (f t) = acc_companies t /\ acc_users (f t) = acc_users t /\
     acc_profiles (f t) = acc_profiles t /\ acc_seq (f t) = acc_seq t) ->
  forall what, preserves rows_are (execute what f).
Proof.
  intros Hf what. apply preserves_execute. intros t [[Hc Hl Hm Hn] <-]. destruct (Hf t) as (Ec & Eu & Ep & Es).
  split; [split|]; unfold has_login, has_profile, normal_logins, identities; by rewrite ?Ec, ?Eu, ?Ep, ?Es.
Qed.
Lemma rows_are_companies f t : (forall e, e_id (f e) = e_id e) -> rows_are t -> rows_are (with_companies (map f) t).
Proof.
  intros Hf [[Hc Hl Hm Hn] <-]. split; [split; try done|].
  - cbn. by destruct (acc_companies t).
  - unfold identities. cbn. rewrite map_map. by erewrite (map_ext _ e_id) by exact Hf.
Qed.
Lemma rows_are_users f t :
  (forall u, u ∈ acc_users t -> u_id (f u) = u_id u /\ u_login (f u) = u_login u /\ u_senha_hash (f u) = u_senha_hash u) ->
  rows_are t -> rows_are (with_users (map f) t).
Proof.
  intros Hf [[Hc (u & Hu & El) Hm Hn] <-]. split; [split; try done|].
  - exists (f u). split; [cbn; by apply list_elem_of_In, in_map, list_elem_of_In|].
    by destruct (Hf u Hu) as (_ & -> & _).
  - intros v. cbn. rewrite list_elem_of_In, in_map_iff. intros (x & <- & Hx%list_elem_of_In).
    destruct (Hf x Hx) as (_ & -> & _). by apply Hn.
  - unfold identities. cbn. rewrite map_map.
    rewrite (map_ext_in _ (fun u => (u_id u, u_login u, u_senha_hash u)) (acc_users t)); [done|].
    intros x Hx%list_elem_of_In. cbn. by destruct (Hf x Hx) as (-> & -> & ->).
Qed.
Lemma rows_are_logins t t' : rows_are t -> normalize_logins t = Ok t' -> rows_are t'.
Proof.
  intros H ->%logins_after. apply rows_are_users; [|done]. intros u Hu. cbn. split_and!; [done| |done].
  destruct H as [[_ _ _ Hn] _]. by apply Hn.
Qed.

Lemma rows_stay_select {A B} what (f : Accounts -> option A) (g : option A -> St (db (W := W)) (result string B)) :
  (forall t, rows_are t -> f t <> None) -> (forall x, preserves rows_are (g (Some x))) ->
  preserves rows_are (try (select what f) g).
Proof.
  intros Hf Hg. apply (stable_try_known _ (fun o => o <> None)); [apply preserves_select| |].
  - intros x a y Hx [-> _]%select_inv. by apply Hf.
  - intros [a|] H; [apply Hg|done].
Qed.

Lemma rows_are_disable now id t : rows_are t -> rows_are (disable_user now id t).
Proof.
  apply (rows_are_users (fun u => if (u_id u =? id)%Z then disable now u else u)). intros u _.
  by destruct (u_id u =? id)%Z.
Qed.
Lemma rows_are_restore now id t : rows_are t -> rows_are (restore_profile now id t).
Proof.
  intros [[Hc Hl Hm Hn] <-]. split; [split; try done|].
  - by apply (mk_restore _ master_kept).
  - unfold identities. cbn. unfold update_where. rewrite map_map. erewrite (map_ext _ (fun p => (p_id p, p_nome p))); [done|].
    intros p. by destruct (p_id p =? id)%Z.
Qed.

Lemma company_stays now : preserves rows_are (ensure_company_seed now).
Proof.
  unfold ensure_company_seed. apply rows_stay_select; [|intros; apply stable_ret].
  intros t [[Hc _ _ _] _]. by destruct (acc_companies t).
Qed.

Lemma found_by {A} (p : A -> bool) l x : x ∈ l -> p x = true -> list_find p l <> None.
Proof.
  intros Hx Hp Hn. pose proof (head_found _ _ Hn) as H. pose proof (existsb_false_elem _ _ _ H Hx). congruence.
Qed.

Lemma legacy_stays now : preserves rows_are (ensure_legacy_user now).
Proof.
  unfold ensure_legacy_user. apply rows_stay_select.
  - intros t [[_ (u & Hu & E) _ _] _]. apply (found_by _ _ u Hu). by rewrite E.
  - intros u. cbn [found_or]. keep. apply preserves_execute. intros t. apply rows_are_disable.
Qed.
Lemma master_stays now : preserves rows_are (ensure_master_profile now).
Proof.
  unfold ensure_master_profile. generalize access_permission_keys. intros keys. apply rows_stay_select.
  - intros t [[_ _ (p & Hp & E) _] _]. apply (found_by _ _ p Hp). by rewrite E.
  - intros p. cbn [found_or]. keep.
    + apply preserves_execute. intros t. apply rows_are_restore.
    + by apply rows_are_same.
    + apply stable_each. intros key. by apply rows_are_same.
Qed.

Lemma rows_stay db_path : rows_keep rows_are (migrate (W := W) db_path).
Proof.
  unfold migrate, rows_keep. apply stable_try; [apply rows_keep_db, preserves_lift|]. intros _.
  apply stable_try; [apply rows_keep_each; intros; apply rows_keep_change|]. intros _.
  apply stable_try.
  { unfold migrate_existing_schema. apply stable_try.
    - apply rows_keep_each. intros [name c]. apply rows_keep_column.
    - intros _. unfold normalize_rows.
      do 4 (apply stable_try; [apply rows_keep_db, preserves_execute; intros t; by apply rows_are_companies|intros _]).
      apply stable_try; [apply rows_keep_db, preserves_insert, rows_are_logins|intros _].
      apply rows_keep_db, preserves_execute. intros t. by apply rows_are_users. }
  intros _. apply stable_try; [apply rows_keep_photo|]. intros _.
  apply stable_try; [apply rows_keep_each; intros; apply rows_keep_change|]. intros _.
  unfold seed_data. apply stable_try; [apply rows_keep_db, preserves_now_text|]. intros now.
  apply stable_try; [apply rows_keep_db, company_stays|]. intros _.
  apply stable_try.
  { apply rows_keep_db. unfold ensure_access_seed. apply preserves_try; [apply legacy_stays|]. intros admin.
    apply preserves_try; [apply master_stays|]. intros profile. keep; [by apply rows_are_same|].
    apply stable_each. intros e. by apply rows_are_same. }
  intros _. apply stable_try; [apply rows_keep_simple|]. intros _.
  apply stable_try; [apply rows_keep_simple|]. intros _.
  apply stable_try; [apply rows_keep_center|]. intros _.
  apply rows_keep_db. unfold ensure_app_settings. apply stable_each. intros [key v].
  apply preserves_try; [|intros]; by apply rows_are_same.
Qed.
End Rows.

(** C20. Starting again changes nothing that counts. Once a migration succeeded,
    the next one, whatever it answers, creates no table, adds no column and makes
    no index, and inserts no company, user, profile, department, function or cost
    centre: the catalogue and the three small tables are equal to what they were,
    and so are the ids of companies, users and profiles, the logins, the
    passwords and the profiles' names. *)
Theorem migration_settles db_path s s1 other r s2 :
  migrate db_path s = (Ok (), s1) -> migrate other s1 = (r, s2) ->
  snd s2 = snd s1 /\ identities (accounts_of s2) = identities (accounts_of s1).
Proof.
  intros [Hs Hr]%migrate_settled H. split.
  - by eapply (store_stays (snd s1) Hs).
  - by eapply (rows_stay (identities (accounts_of s1))).
Qed.
End Settles.
