(* ===== verification/DbWorld.v ===== *)
(** * The database as part of the state

    Some statements are fixed texts over tables that [Accounts] holds row by
    row; others are texts built at run time, and what SQLite answers to those is
    a parameter. A component that uses both runs in [db], the tables and the
    outside world together, so that a built text may change any table. The
    interfaces of the outside world hold there too, without touching the
    tables. *)

From S2P Require Import Prelude RustStr Json NetAddr NetBind RuntimeSettings Security.
From S2P Require Import ServiceConfigs RuntimeStore AppLog Accounts.

Section Lifted.
Context {W : Type} `{OS : ConsoleOs W} `{LO : !LogOs W}.

#[export] Instance db_os : ConsoleOs (db (W := W)) := {|
  os_exists := fun p => lift (os_exists p);
  os_create_dir_all := fun p => lift (os_create_dir_all p);
  os_write := fun p c => lift (os_write p c);
  os_read_to_string := fun p => lift (os_read_to_string p);
  os_file := @os_file W OS;
  os_open_truncate := fun p => lift (os_open_truncate p);
  os_write_all := fun f c => lift (os_write_all f c);
  dirs_config_local_dir := fun s => dirs_config_local_dir (snd s);
  os_current_dir := fun s => os_current_dir (snd s);
  db_conn := @db_conn W OS;
  db_open := fun p => lift (db_open p);
  db_select_settings := fun c => lift (db_select_settings c);
  db_replace_settings := fun c v n => lift (db_replace_settings c v n);
  utc_now_rfc3339 := lift utc_now_rfc3339;
  settings_to_json := @settings_to_json W OS;
  settings_of_json := @settings_of_json W OS |}.

#[export] Instance db_log : @LogOs (db (W := W)) db_os :=
  @Build_LogOs (db (W := W)) db_os
    (fun (c : @db_conn W OS) sql params => lift (@db_execute W OS LO c sql params))
    (fun p => lift (@os_open_append W OS LO p)) (@json_to_string W OS LO).
(** A connection, as the statements of the state with the tables see it. *)
Definition db_handle : Type := @db_conn (db (W := W)) db_os.
End Lifted.

Section Stable.
Context {W : Type}.

(** A property of the world alone. *)
Definition world_only (J : W -> Prop) : db (W := W) -> Prop := fun s => J (snd s).

(** What holds of the world alone is kept by what a call does to it. *)
Lemma stable_lift {A} (J : W -> Prop) (c : St W A) : stable J c -> stable (world_only J) (lift c).
Proof.
  intros H [t w] a s' HJ. unfold lift, world_only in *. cbn in *. destruct (c w) as [b w'] eqn:E.
  intros [= _ <-]. by eapply H.
Qed.

Context `{ST : !Statements W}.

(** A statement over the tables changes the world only by failing. *)
Lemma stable_statement {A} (J : W -> Prop) what (f : Accounts -> result string (A * Accounts)) :
  stable J sql_fault -> stable (world_only J) (statement what f).
Proof.
  intros H [t w] a s' HJ. unfold statement, world_only in *. cbn in *.
  destruct (sql_fault w) as [fault w'] eqn:E.
  assert (J w') by (by eapply H). destruct fault; [by intros [= _ <-]|].
  destruct (f t) as [[b t']|e]; by intros [= _ <-].
Qed.

Lemma stable_select {A} (J : W -> Prop) what (f : Accounts -> A) :
  stable J sql_fault -> stable (world_only J) (select what f).
Proof. apply stable_statement. Qed.
Lemma stable_execute (J : W -> Prop) what f :
  stable J sql_fault -> stable (world_only J) (execute what f).
Proof. apply stable_statement. Qed.
Lemma stable_insert (J : W -> Prop) what f :
  stable J sql_fault -> stable (world_only J) (insert what f).
Proof. apply stable_statement. Qed.
End Stable.
#[export] Hint Resolve stable_lift stable_statement stable_select stable_execute stable_insert : frames.
