(* ===== verification/AppTables.v ===== *)
(** * Records over HTTP: the table functions of internal_api/app_commands.rs

    Readers of a command's arguments, and the list, get, save and delete of a
    table whose columns are asked of SQLite: the texts are built from the
    table's name and its columns, each quoted as an identifier. *)

From Stdlib Require Import Ascii.
From S2P Require Import Prelude RustStr Json NetAddr NetBind RuntimeSettings Security.
From S2P Require Import ServiceConfigs RuntimeStore AppLog Accounts Auth DatabaseConfig Providers.
From S2P Require Import Entities DbWorld.

#[local] Open Scope string_scope.
#[local] Open Scope tunnara_scope.

(** ** Arguments *)

(*| src-tauri/src/internal_api/app_commands.rs 94-100 get_string *)
Definition arg_string (args : members) (key : string) : string :=
  trim (unwrap_or "" (v ← obj_get key args; as_str v)).

(*| src-tauri/src/internal_api/app_commands.rs 102-106 get_i64 *)
Definition arg_i64 (args : members) (key : string) : Z :=
  unwrap_or 0%Z (v ← obj_get key args; id_value v).

Definition arg_object (args : members) (key : string) : members :=
  unwrap_or [] (v ← obj_get key args; as_object v).
(*| src-tauri/src/internal_api/app_commands.rs 108-113 get_payload *)
Definition get_payload (args : members) : members := arg_object args "payload".
(*| src-tauri/src/internal_api/app_commands.rs 115-120 get_filters *)
Definition get_filters (args : members) : members := arg_object args "filters".

(*| src-tauri/src/internal_api/app_commands.rs 122-133 search_from_args *)
Definition search_from_args (args : members) : string :=
  let direct := arg_string args "search" in
  if negb (is_empty direct) then direct else arg_string (get_filters args) "search".

(*| src-tauri/src/internal_api/app_commands.rs 349-362 as_i64_list *)
Definition as_i64_list (v : option value) : list Z :=
  List.filter (fun id => (0 <? id)%Z) (omap id_value (unwrap_or [] (v ≫= as_array))).

(** ** Texts *)

(** A double quote, and the same twice. *)
Definition quote_char : ascii := "034"%char.
Definition dquote : string := String quote_char EmptyString.

(*| src-tauri/src/internal_api/app_commands.rs 154-156 quote_ident *)
Definition quote_ident (identifier : string) : string :=
  dquote ++ replace dquote (dquote ++ dquote) identifier ++ dquote.

Definition numbered (n : nat) : string := "?" ++ show_N (N.of_nat n).

Definition pragma_sql (table : string) : string := "PRAGMA table_info(" ++ quote_ident table ++ ")".

Definition record_sql (table : string) : string :=
  "SELECT * FROM " ++ quote_ident table ++ " WHERE id = ?1".

Definition order_column (available : list string) : string :=
  if bool_decide ("nome" ∈ available) then "nome"
  else if bool_decide ("descricao" ∈ available) then "descricao"
  else if bool_decide ("id" ∈ available) then "id" else "rowid".

(*| src-tauri/src/internal_api/app_commands.rs 226-258 table_list *)
Definition table_list_sql (table : string) (available columns : list string) : string :=
  "SELECT * FROM " ++ quote_ident table
  ++ (if bool_decide (columns = []) then ""
      else " WHERE " ++ String.concat " OR "
             (map (fun field => "LOWER(COALESCE(" ++ quote_ident field ++ ", '')) LIKE LOWER(?1)") columns))
  ++ " ORDER BY " ++ quote_ident (order_column available).

(*| src-tauri/src/internal_api/app_commands.rs 296-312 save_record *)
Definition record_update_sql (table : string) (fields : list string) : string :=
  "UPDATE " ++ quote_ident table ++ " SET "
  ++ comma (imap (fun i field => quote_ident field ++ " = " ++ numbered (S i)) fields)
  ++ " WHERE id = " ++ numbered (S (length fields)).

(*| src-tauri/src/internal_api/app_commands.rs 317-335 save_record *)
Definition record_insert_sql (table : string) (fields : list string) : string :=
  "INSERT INTO " ++ quote_ident table ++ " (" ++ comma (map quote_ident fields) ++ ") VALUES ("
  ++ comma (map numbered (seq 1 (length fields))) ++ ")".

Definition record_delete_sql (table : string) : string :=
  "DELETE FROM " ++ quote_ident table ++ " WHERE id = ?1".

Definition unlink_sql (table owner_field : string) : string :=
  "DELETE FROM " ++ quote_ident table ++ " WHERE " ++ quote_ident owner_field ++ " = ?1".
Definition link_sql (table owner_field target_field : string) : string :=
  "INSERT INTO " ++ quote_ident table ++ " (" ++ quote_ident owner_field ++ ", "
  ++ quote_ident target_field ++ ", created_at) VALUES (?1, ?2, ?3)".

(** ** Statements *)

(** The texts of the second column of a query. *)
Class SqlNames (W : Type) `{OS : ConsoleOs W} : Type := {
  sql_names : db_conn -> string -> St W (result (query_stage * string) (list string));
}.

Section Tables.
Context {W : Type} `{LO : LogOs W} `{ST : !Statements W} `{AW : !AuthWorld W}
  `{SQ : !SqlDb (db (W := W))} `{SN : !SqlNames (db (W := W))}.

(*| src-tauri/src/internal_api/app_commands.rs 135-152 json_to_sql_value *)
Definition record_sql_value : value -> sql_value := json_to_sql_value json_to_string.

(*| src-tauri/src/internal_api/app_commands.rs 158-174 table_columns *)
Definition table_columns (conn : db_handle) (table : string) : St db (result string (list string)) :=
  r ← sql_names conn (pragma_sql table);
  columns ←? mret (map_err (stage_error ("Falha ao inspecionar tabela " ++ table)
    ("Falha ao consultar colunas de " ++ table) ("Falha ao mapear coluna de " ++ table)) r);
  mret (match columns with
        | [] => Err ("Tabela " ++ table ++ " não encontrada ou sem colunas.")
        | _ => Ok columns
        end).

(*| src-tauri/src/internal_api/app_commands.rs 190-205 query_json_params *)
Definition query_json_params (conn : db_handle) (sql : string) (params : list sql_value) :
    St db (result string (list value)) :=
  r ← sql_query conn sql params;
  mret (map_err (stage_error "Falha ao preparar consulta" "Falha ao executar consulta"
                   "Falha ao mapear linha") (map Object <$> r)).
(*| src-tauri/src/internal_api/app_commands.rs 176-188 query_json *)
Definition query_json (conn : db_handle) (sql : string) : St db (result string (list value)) :=
  query_json_params conn sql [].

(*| src-tauri/src/internal_api/app_commands.rs 207-212 query_one_json *)
Definition query_one_json (conn : db_handle) (sql : string) (id : Z) : St db (result string members) :=
  r ← sql_query_row conn sql [SqlInt id];
  row ←? mret (map_err (fun err => "Falha ao consultar registro: " ++ snd err) r);
  mret (ok_or "Registro não encontrado." row).

(*| src-tauri/src/internal_api/app_commands.rs 214-217 table_record *)
Definition table_record (conn : db_handle) (table : string) (id : Z) : St db (result string members) :=
  query_one_json conn (record_sql table) id.

(*| src-tauri/src/internal_api/app_commands.rs 219-261 table_list *)
Definition table_list (conn : db_handle) (table search : string) (searchable : list string) :
    St db (result string (list value)) :=
  available ←? table_columns conn table;
  if blank search then query_json conn (table_list_sql table available [])
  else
    let columns := List.filter (fun field => bool_decide (field ∈ available)) searchable in
    if bool_decide (columns = []) then query_json conn (table_list_sql table available [])
    else query_json_params conn (table_list_sql table available columns) [SqlText (search_text search)].

(** The positive id of a payload. *)
Definition record_id (payload : members) : option Z :=
  opt_filter (fun id => (0 <? id)%Z) (payload_id payload).

(** The payload with the times the table has and the caller left out. *)
(*| src-tauri/src/internal_api/app_commands.rs 267-277 save_record *)
Definition stamped (available : list string) (timestamp : string) (payload : members) : members :=
  let add (b : bool) key m :=
    if b && bool_decide (key ∈ available) && negb (contains_key key m)
    then obj_insert key (String_ timestamp) m else m in
  add (bool_decide (record_id payload = None)) "created_at" (add true "updated_at" payload).

(** The members that are columns, in the order of their names. *)
(*| src-tauri/src/internal_api/app_commands.rs 279-289 save_record *)
Definition record_fields (available : list string) (data : members) : members :=
  sort_by (fun a b => text_le (fst a) (fst b))
    (List.filter (fun kv => negb (fst kv =? "id") && bool_decide (fst kv ∈ available)) data).

(*| src-tauri/src/internal_api/app_commands.rs 263-340 save_record *)
Definition save_record (conn : db_handle) (table : string) (payload : members) :
    St db (result string members) :=
  available ←? table_columns conn table;
  timestamp ←? now_text;
  let fields := record_fields available (stamped available timestamp payload) in
  let values := map (fun kv => record_sql_value (snd kv)) fields in
  match fields, record_id payload with
  | [], _ => mret (Err ("Nenhum campo válido foi informado para " ++ table ++ "."))
  | _, Some id =>
      r ← sql_execute conn (record_update_sql table (map fst fields)) (values ++ [SqlInt id])%list;
      _ ←? mret (map_err (fun err => "Falha ao atualizar " ++ table ++ ": " ++ err) r);
      table_record conn table id
  | _, None =>
      r ← sql_execute conn (record_insert_sql table (map fst fields)) values;
      _ ←? mret (map_err (fun err => "Falha ao inserir em " ++ table ++ ": " ++ err) r);
      id ← sql_last_insert_rowid conn;
      table_record conn table id
  end.

(** The number of rows is not looked at. *)
(*| src-tauri/src/internal_api/app_commands.rs 342-347 delete_record *)
Definition delete_record (conn : db_handle) (table : string) (id : Z) : St db (result string bool) :=
  r ← sql_execute conn (record_delete_sql table) [SqlInt id];
  _ ←? mret (map_err (fun err => "Falha ao excluir registro de " ++ table ++ ": " ++ err) r);
  mret (Ok true).

(** No target ids leave the links alone. *)
(*| src-tauri/src/internal_api/app_commands.rs 364-394 sync_link_table *)
Definition sync_link_table (conn : db_handle) (table owner_field target_field : string) (owner_id : Z)
    (target_ids : list Z) : St db (result string unit) :=
  if bool_decide (target_ids = []) then mret (Ok ()) else
  r ← sql_execute conn (unlink_sql table owner_field) [SqlInt owner_id];
  _ ←? mret (map_err (fun err => "Falha ao limpar vínculos de " ++ table ++ ": " ++ err) r);
  timestamp ←? now_text;
  each (fun target_id =>
    r ← sql_execute conn (link_sql table owner_field target_field)
      [SqlInt owner_id; SqlInt target_id; SqlText timestamp];
    _ ←? mret (map_err (fun err => "Falha ao gravar vínculo de " ++ table ++ ": " ++ err) r);
    mret (Ok ())) target_ids.
End Tables.

(** ** Quoted identifiers *)

(** How SQLite reads a quoted identifier: up to a double quote that is not
    followed by another, a pair standing for one. The rest of the text follows. *)
Fixpoint read_quoted (s : string) : option (string * string) :=
  match s with
  | "" => None
  | String a r =>
      if Ascii.eqb a quote_char then
        match r with
        | String b r' =>
            if Ascii.eqb b quote_char
            then '(name, rest) ← read_quoted r'; Some (String a name, rest)
            else Some ("", r)
        | "" => Some ("", "")
        end
      else '(name, rest) ← read_quoted r; Some (String a name, rest)
  end.
Definition read_ident (s : string) : option (string * string) :=
  match s with
  | String a r => if Ascii.eqb a quote_char then read_quoted r else None
  | "" => None
  end.
