(* ===== verification/AppCommands.v ===== *)
(** * Commands over HTTP: internal_api/app_commands.rs

    [execute_command] runs a command of the web interface: the account commands
    over the tables of [Accounts], the table functions of [AppTables], the
    generic records of [Entities] over the configured provider, and replies
    that stand for what only the desktop can do. The native services are the
    interface [NativeServices]; the other files of the console implement it. *)

From Stdlib Require Import Ascii.
From S2P Require Import Prelude RustStr Json NetAddr NetBind RuntimeSettings Security.
From S2P Require Import ServiceConfigs RuntimeStore AppLog Accounts AccessTables Auth.
From S2P Require Import InternalRoutes DatabaseConfig Providers Entities DbWorld AppTables.

#[local] Open Scope string_scope.
#[local] Open Scope tunnara_scope.

(** The web server, the webhook service and the WebSocket service, with their
    statuses as JSON. *)
Class NativeServices (S : Type) : Type := {
  web_server_status : St S (option value);
  webhook_service_status : St S (result string (bool * value));
  webhook_service_stop : St S (result string value);
  webhook_events : St S (list value);
  webhook_clear : St S unit;
  websocket_service_status : St S (result string (bool * value));
  websocket_service_stop : St S (result string value);
  websocket_clients : St S (list value);
  websocket_broadcast : string -> St S N;
}.

(** ** JSON of an account *)

Definition strings_json (l : list string) : value := Array (map String_ l).

Definition auth_user_json (u : AuthUser) : value :=
  Object [("id", json_i64 (au_id u)); ("nome", String_ (au_nome u)); ("login", String_ (au_login u));
    ("email", opt_json (au_email u)); ("telefone", opt_json (au_telefone u));
    ("cargo", opt_json (au_cargo u)); ("photo_url", opt_json (au_photo_url u));
    ("administrador", Bool (au_administrador u)); ("master_user", Bool (au_master_user u));
    ("senha_provisoria", Bool (au_senha_provisoria u));
    ("permission_keys", strings_json (au_permission_keys u));
    ("profile_names", strings_json (au_profile_names u));
    ("company_ids", Array (map json_i64 (au_company_ids u)));
    ("company_names", strings_json (au_company_names u))].

Definition login_response_json (r : LoginResponse) : value :=
  Object [("success", Bool (lr_success r)); ("message", String_ (lr_message r));
    ("session_token", opt_json (lr_session_token r));
    ("user", match lr_user r with Some u => auth_user_json u | None => Null end)].

(** ** The runtime's own data *)

Section Runtime.
Context (env : Env).

Definition named (first second default : string) : string :=
  unwrap_or default (opt_filter (fun v => negb (blank v)) (or_else (env !! first) (env !! second))).
(*| src-tauri/src/internal_api/app_commands.rs 56-62 runtime_app_name *)
Definition runtime_app_name : string := named "TUNNARA_CONSOLE_NAME" "APP_NAME" "Tunnara Console".
(*| src-tauri/src/internal_api/app_commands.rs 64-70 runtime_app_short_name *)
Definition runtime_app_short_name : string :=
  named "TUNNARA_CONSOLE_SHORT_NAME" "APP_SHORT_NAME" "Template".
(*| src-tauri/src/internal_api/app_commands.rs 72-78 runtime_app_identifier *)
Definition runtime_app_identifier : string :=
  named "TUNNARA_CONSOLE_IDENTIFIER" "APP_IDENTIFIER" "br.com.wwsoftwares.tunnara.console".
End Runtime.

Definition json_N (n : N) : value := Number (PosInt n).
Definition local_url (port : N) (path : string) : string :=
  "http://127.0.0.1:" ++ show_N port ++ path.

Definition service_port (key label host : string) (port default_port : N) : value :=
  Object [("key", String_ key); ("label", String_ label); ("host", String_ host);
    ("configured_port", json_N port); ("effective_port", json_N port);
    ("default_port", json_N default_port); ("available", Bool true); ("fallback_applied", Bool false)].

(*| src-tauri/src/internal_api/app_commands.rs 432-444 runtime_settings_payload *)
Definition runtime_settings_payload (st : InternalApiState) (settings : value) : value :=
  Object [("env_path", String_ "app_settings:runtime.settings"); ("settings", settings);
    ("ports", Array [
       service_port "internal_api" "API interna" (is_host st) (is_port st) 61001;
       service_port "local_web" "Servidor web local" "0.0.0.0" 61002 61002;
       service_port "auxiliary" "Webhook Service" "0.0.0.0" 61003 61003;
       service_port "bridge_core" "WebSocket Service" "0.0.0.0" 61004 61004]);
    ("warnings", Array [String_ "Configurações carregadas pela API interna web. Reinicie os serviços nativos pelo desktop quando necessário."])].

(*| src-tauri/src/internal_api/app_commands.rs 446-540 default_runtime_settings *)
Definition default_runtime_settings (st : InternalApiState) : value :=
  let sec := ia_security (is_config st) in
  Object [
    ("internal_api_host", String_ (is_host st)); ("internal_api_port", json_N (is_port st));
    ("internal_api_auto_start", Bool true);
    ("internal_api_base_url", String_ (local_url (is_port st) ""));
    ("internal_api_docs_url", String_ (local_url (is_port st) "/docs"));
    ("internal_api_restart_on_config_change", Bool true);
    ("internal_api_require_token", Bool (sec_require_token sec));
    ("internal_api_allow_public_network", Bool (sec_allow_public_network sec));
    ("internal_api_cors_enabled", Bool (sec_cors_enabled sec));
    ("internal_api_token_header", String_ (sec_token_header sec));
    ("internal_api_token", String_ "");
    ("internal_api_docs_public_local", Bool (sec_docs_public_local sec));
    ("internal_api_open_scalar_after_start", Bool false); ("internal_api_timeout_ms", json_N 8000);
    ("internal_api_log_mode", String_ "normal");
    ("internal_api_docs_enabled", Bool (ia_expose_docs (is_config st)));
    ("internal_api_docs_path", String_ (docs_path (ia_docs (is_config st))));
    ("local_web_enabled", Bool true); ("local_web_auto_start", Bool true);
    ("local_web_host", String_ "0.0.0.0"); ("local_web_port", json_N 61002);
    ("auxiliary_host", String_ "0.0.0.0"); ("auxiliary_port", json_N 61003);
    ("bridge_core_host", String_ "0.0.0.0"); ("bridge_core_port", json_N 61004);
    ("webhook_enabled", Bool false); ("webhook_auto_start", Bool false);
    ("webhook_host", String_ "0.0.0.0"); ("webhook_port", json_N 61003);
    ("webhook_base_path", String_ "/webhooks"); ("webhook_token_required", Bool true);
    ("webhook_token_header", String_ "X-Webhook-Token"); ("webhook_token", String_ "");
    ("webhook_allow_lan", Bool true); ("webhook_allow_external", Bool false);
    ("websocket_enabled", Bool false); ("websocket_auto_start", Bool false);
    ("websocket_host", String_ "0.0.0.0"); ("websocket_port", json_N 61004);
    ("websocket_path", String_ "/ws"); ("websocket_token_required", Bool true);
    ("websocket_token_query", String_ "token"); ("websocket_token_header", String_ "X-WebSocket-Token");
    ("websocket_token", String_ ""); ("websocket_allow_lan", Bool true);
    ("websocket_allow_external", Bool false); ("websocket_heartbeat_seconds", json_N 30);
    ("tray_enabled", Bool false); ("minimize_to_tray", Bool false); ("close_to_tray", Bool false);
    ("start_with_windows", Bool false); ("services_auto_start", Bool true);
    ("app_service_name", String_ "TunnaraConsoleServer")].

Section Commands.
Context {W : Type} `{LO : LogOs W} `{ST : !Statements W} `{CR : Crypto} `{RN : !Randomness W}
  `{AW : !AuthWorld W} `{BI : BuildInfo} `{JT : JsonText}.
#[local] Abbreviation DB := (@db W).
Context `{SQ : !SqlDb DB} `{SN : !SqlNames DB} `{DD : !DatabaseDrivers DB}
  `{XD : !ExternalDrivers DB} `{NS : !NativeServices DB}.
Context (env : Env) (st : InternalApiState).

(** [open_connection(&state.db_path)?] *)
Definition open_api : St DB (result string (@db_handle W OS)) := lift (db_open (is_db_path st)).

(*| src-tauri/src/internal_api/app_commands.rs 80-88 provider_for_state *)
Definition provider_for_state : result string (Provider DB) :=
  from_config (from_env_with_driver env (current_provider_driver env)) (is_db_path st).

(** ** Sessions *)

(** The statements of a login whose password was right. *)
(*| src-tauri/src/internal_api/app_commands.rs 589-617 auth_login_http *)
Definition create_session_http (row : Usuario) : St DB (result string LoginResponse) :=
  now_dt ← lift utc_now;
  session_token ← lift uuid_v4;
  let expires_at := to_rfc3339 (plus_days now_dt 7) in
  let now_str := to_rfc3339 now_dt in
  _ ←? execute "Falha ao limpar sessões antigas" (delete_old_sessions (u_id row) now_str);
  _ ←? insert "Falha ao criar sessão" (insert_session {|
    us_usuario_id := u_id row; us_session_token := session_token; us_created_at := now_str;
    us_expires_at := expires_at; us_last_activity_at := now_str |});
  login_at ←? now_text;
  _ ←? execute "Falha ao atualizar último login" (update_last_login login_at (u_id row));
  user ←? build_auth_user (u_id row);
  mret (Ok {| lr_success := true; lr_message := "Login efetuado com sucesso.";
              lr_session_token := Some session_token; lr_user := Some user |}).

(*| src-tauri/src/internal_api/app_commands.rs 542-618 auth_login_http *)
Definition auth_login_http (login senha : string) : St DB (result string LoginResponse) :=
  _ ←? open_api;
  let normalized_login := unicode_lowercase (trim login) in
  row ←? select "Falha ao consultar usuário" (user_by_login normalized_login);
  match row with
  | None => mret (Ok (failed_login "Usuário não encontrado."))
  | Some row =>
      if (u_ativo row =? 0)%Z then mret (Ok (failed_login "Usuário inativo.")) else
      match verify_password senha (u_senha_hash row) with
      | Err e => mret (Err e)
      | Ok false => mret (Ok (failed_login "Senha inválida."))
      | Ok true => create_session_http row
      end
  end.

(*| src-tauri/src/internal_api/app_commands.rs 620-631 auth_restore_http *)
Definition auth_restore_http (session_token : string) : St DB (result string LoginResponse) :=
  _ ←? open_api;
  identity ←? require_session_by_token session_token;
  user ←? build_auth_user (si_user_id identity);
  mret (Ok {| lr_success := true; lr_message := "Sessão restaurada.";
              lr_session_token := Some session_token; lr_user := Some user |}).

(*| src-tauri/src/internal_api/app_commands.rs 633-659 auth_change_password_http *)
Definition auth_change_password_http (args : members) : St DB (result string value) :=
  let session_token := arg_string args "session_token" in
  let current_password := arg_string args "current_password" in
  let new_password := arg_string args "new_password" in
  if (String.length new_password <? 6)%nat
  then mret (Err "A nova senha deve possuir no mínimo 6 caracteres.") else
  _ ←? open_api;
  identity ←? require_session_by_token session_token;
  current_hash ←? stored_password "Falha ao carregar senha atual" (si_user_id identity);
  verified ←? mret (if is_empty current_password then Ok true
                    else verify_password current_password current_hash);
  if negb verified then mret (Err "Senha atual inválida.") else
  new_hash ←? lift (hash_password new_password);
  now ←? now_text;
  _ ←? execute "Falha ao atualizar senha" (update_password new_hash now (si_user_id identity));
  mret (Ok (Bool true)).

(** The first of two arguments that is not blank. *)
Definition either_arg (args : members) (first second : string) : string :=
  if negb (is_empty (arg_string args first)) then arg_string args first else arg_string args second.

(*| src-tauri/src/internal_api/app_commands.rs 685-689 execute_command *)
Definition login_command (args : members) : St DB (result string value) :=
  r ←? auth_login_http (either_arg args "login" "username") (either_arg args "senha" "password");
  mret (Ok (login_response_json r)).

Definition restore_command (args : members) : St DB (result string value) :=
  r ←? auth_restore_http (arg_string args "session_token");
  mret (Ok (login_response_json r)).

(*| src-tauri/src/internal_api/app_commands.rs 691-697 execute_command *)
Definition logout_command (args : members) : St DB (result string value) :=
  _ ←? open_api;
  _ ←? execute "Falha ao encerrar sessão" (delete_session (arg_string args "session_token"));
  mret (Ok (Bool true)).

(** ** Profiles *)

(*| src-tauri/src/internal_api/app_commands.rs 699-711 execute_command *)
Definition permission_catalog_rows : value :=
  Array (map (fun '(key, label) =>
    let group := unwrap_or "geral" (head (split ":"%char key)) in
    Object [("key", String_ key); ("label", String_ label); ("descricao", String_ label);
            ("module", String_ group); ("group", String_ group)]) PERMISSION_CATALOG).

(*| src-tauri/src/internal_api/app_commands.rs 396-408 profile_permissions *)
Definition profile_permissions (id : Z) : St DB (result string (list string)) :=
  select "Falha ao consultar permissões" (fun t =>
    sort_by text_le (map snd (List.filter (fun r => (fst r =? id)%Z) (acc_profile_perms t)))).

Fixpoint rows_with_permissions (rows : list value) : St DB (result string (list value)) :=
  match rows with
  | [] => mret (Ok [])
  | row :: rest =>
      row ←? match row with
             | Object m =>
                 match v ← obj_get "id" m; as_i64 v with
                 | Some id =>
                     permissions ←? profile_permissions id;
                     mret (Ok (Object (obj_insert "permissions" (strings_json permissions) m)))
                 | None => mret (Ok row)
                 end
             | _ => mret (Ok row)
             end;
      rest ←? rows_with_permissions rest;
      mret (Ok (row :: rest))
  end.

(*| src-tauri/src/internal_api/app_commands.rs 712-726 execute_command *)
Definition profile_list_command (args : members) : St DB (result string value) :=
  conn ←? open_api;
  rows ←? table_list conn "perfis_acesso" (search_from_args args) ["nome"; "descricao"];
  rows ←? rows_with_permissions rows;
  mret (Ok (Array rows)).

Definition row_id (m : members) : Z := unwrap_or 0%Z (v ← obj_get "id" m; as_i64 v).

(*| src-tauri/src/internal_api/app_commands.rs 727-737 execute_command *)
Definition profile_get_command (args : members) : St DB (result string value) :=
  conn ←? open_api;
  row ←? table_record conn "perfis_acesso" (arg_i64 args "id");
  permissions ←? profile_permissions (row_id row);
  mret (Ok (Object (obj_insert "permission_keys" (strings_json permissions)
              (obj_insert "permissions" (strings_json permissions) row)))).

(*| src-tauri/src/internal_api/app_commands.rs 743-755 execute_command *)
Definition sent_permissions (payload : members) : list string :=
  omap as_str (unwrap_or []
    (v ← first_of payload ["permission_keys"; "permissions"; "permissoes"]; as_array v)).

(*| src-tauri/src/internal_api/app_commands.rs 738-768 execute_command *)
Definition profile_save_command (args : members) : St DB (result string value) :=
  conn ←? open_api;
  let payload := get_payload args in
  saved ←? save_record conn "perfis_acesso" payload;
  let saved_id := row_id saved in
  let permissions := sent_permissions payload in
  _ ←? (if bool_decide (permissions = []) then mret (Ok ()) else
          _ ←? execute "Falha ao limpar permissões" (delete_profile_perms saved_id);
          each (fun permission =>
            _ ←? now_text;
            insert "Falha ao gravar permissão" (insert_profile_perm saved_id permission)) permissions);
  row ←? table_record conn "perfis_acesso" saved_id;
  mret (Ok (Object row)).

(** ** Tables *)

Definition list_command (table : string) (searchable : list string) (args : members) :
    St DB (result string value) :=
  conn ←? open_api;
  rows ←? table_list conn table (search_from_args args) searchable;
  mret (Ok (Array rows)).

Definition get_command (table : string) (args : members) : St DB (result string value) :=
  conn ←? open_api;
  row ←? table_record conn table (arg_i64 args "id");
  mret (Ok (Object row)).

Definition save_command (table : string) (args : members) : St DB (result string value) :=
  conn ←? open_api;
  row ←? save_record conn table (get_payload args);
  mret (Ok (Object row)).

Definition delete_command (table : string) (args : members) : St DB (result string value) :=
  conn ←? open_api;
  b ←? delete_record conn table (arg_i64 args "id");
  mret (Ok (Bool b)).

Definition query_command (sql : string) : St DB (result string value) :=
  conn ←? open_api;
  rows ←? query_json conn sql;
  mret (Ok (Array rows)).

(** One statement with a fixed text, and [true]. *)
Definition statement_command (what sql : string) (params : St DB (result string (list sql_value))) :
    St DB (result string value) :=
  conn ←? open_api;
  params ←? params;
  r ← sql_execute conn sql params;
  _ ←? mret (map_err (fun err => what ++ ": " ++ err) r);
  mret (Ok (Bool true)).

(** ** Users *)

(*| src-tauri/src/internal_api/app_commands.rs 779-786 execute_command *)
Definition user_get_command (args : members) : St DB (result string value) :=
  conn ←? open_api;
  row ←? table_record conn "usuarios" (arg_i64 args "id");
  mret (Ok (Object (obj_remove "senha_hash" row))).

Definition with_password (password : string) (payload : members) : St DB (result string members) :=
  hash ←? lift (hash_password password);
  mret (Ok (obj_insert "senha_provisoria" (json_i64 1)
              (obj_insert "senha_hash" (String_ hash) payload))).

(** The id counts here only when it is a number. *)
(*| src-tauri/src/internal_api/app_commands.rs 790-807 execute_command *)
Definition user_payload (payload : members) : St DB (result string members) :=
  let senha := trim (unwrap_or "" (v ← first_of payload ["senha"; "password"]; as_str v)) in
  payload ←? (if ((row_id payload <=? 0)%Z && is_empty senha)%bool then with_password "123456" payload
              else if negb (is_empty senha) then with_password senha payload
              else mret (Ok payload));
  mret (Ok (if contains_key "ativo" payload then payload else obj_insert "ativo" (json_i64 1) payload)).

(*| src-tauri/src/internal_api/app_commands.rs 787-829 execute_command *)
Definition user_save_command (args : members) : St DB (result string value) :=
  conn ←? open_api;
  payload ←? user_payload (get_payload args);
  let profile_ids := as_i64_list (first_of payload ["profile_ids"; "perfil_ids"; "perfis"]) in
  let company_ids := as_i64_list (first_of payload ["company_ids"; "empresa_ids"; "empresas"]) in
  saved ←? save_record conn "usuarios" payload;
  let saved_id := row_id saved in
  _ ←? sync_link_table conn "usuarios_perfis" "usuario_id" "perfil_id" saved_id profile_ids;
  _ ←? sync_link_table conn "usuarios_empresas" "usuario_id" "empresa_id" saved_id company_ids;
  row ←? table_record conn "usuarios" saved_id;
  mret (Ok (Object (obj_remove "senha_hash" row))).
(** ** Generic records *)

Definition with_provider {A} (f : Provider DB -> St DB (result string A)) : St DB (result string A) :=
  p ←? mret provider_for_state; f p.

Definition provider_list (entity search : string) : St DB (result string value) :=
  rows ←? with_provider (fun p => provider_list_with_database p entity search);
  mret (Ok (Array (map Object rows))).
Definition provider_get (entity : string) (id : Z) : St DB (result string value) :=
  row ←? with_provider (fun p => provider_get_with_database p entity id);
  mret (Object <$> ok_or "Registro não encontrado." row).
Definition provider_save (entity : string) (payload : members) : St DB (result string value) :=
  row ←? with_provider (fun p => provider_save_with_database p entity payload);
  mret (Ok (Object row)).
Definition provider_delete (entity : string) (id : Z) : St DB (result string value) :=
  b ←? with_provider (fun p => provider_delete_with_database p entity id);
  mret (Ok (Bool b)).

(*| src-tauri/src/internal_api/app_commands.rs 878-896 execute_command *)
Definition combo_list_command (args : members) : St DB (result string value) :=
  rows ←? with_provider (fun p => provider_list_with_database p (arg_string args "entity") "");
  mret (Ok (Array (map (fun row =>
    let id := unwrap_or Null (obj_get "id" row) in
    let label := unwrap_or (String_ ("Registro " ++ json_to_string id))
                   (first_of row ["nome"; "descricao"; "titulo"]) in
    Object [("id", id); ("label", label)]) rows))).

(** ** Logs and settings *)

Definition text_member (payload : members) (key : string) : option string :=
  v ← obj_get key payload; as_str v.

(*| src-tauri/src/internal_api/app_commands.rs 897-910 execute_command *)
Definition log_write_command (args : members) : St DB (result string value) :=
  let payload := get_payload args in
  conn ←? open_api;
  _ ←? write_app_log conn (is_data_dir st) {|
    log_level := unwrap_or "info" (text_member payload "level");
    log_category := unwrap_or "frontend" (text_member payload "category");
    log_message := unwrap_or "Evento da aplicação web" (text_member payload "message");
    log_source := text_member payload "source"; log_route := text_member payload "route";
    log_details := Some (unwrap_or Null (obj_get "details" payload)) |};
  mret (Ok (Bool true)).

Definition SETTINGS_KEY : string := "runtime.settings".

(*| src-tauri/src/internal_api/app_commands.rs 410-420 save_settings_value *)
Definition save_settings_value (key : string) (v : value) : St DB (result string unit) :=
  timestamp ←? now_text;
  execute ("Falha ao salvar configuração " ++ key) (upsert_setting key (json_to_string v) timestamp).

(*| src-tauri/src/internal_api/app_commands.rs 422-430 load_settings_value *)
Definition load_settings_value (key : string) : St DB (result string (option value)) :=
  raw ←? statement ("Falha ao carregar configuração " ++ key) (fun t =>
    raw ← text_column "valor" (setting_of key t); Ok (raw, t));
  mret (Ok (raw ≫= json_of_text)).

(*| src-tauri/src/internal_api/app_commands.rs 960-964 execute_command *)
Definition settings_load_command (_ : members) : St DB (result string value) :=
  _ ←? open_api;
  stored ←? load_settings_value SETTINGS_KEY;
  mret (Ok (runtime_settings_payload st (unwrap_or (default_runtime_settings st) stored))).

(** What is sent is stored as it is. *)
(*| src-tauri/src/internal_api/app_commands.rs 965-973 execute_command *)
Definition settings_save_command (args : members) : St DB (result string value) :=
  _ ←? open_api;
  let settings := unwrap_or (Object (get_payload args)) (obj_get "settings" args) in
  _ ←? save_settings_value SETTINGS_KEY settings;
  mret (Ok (runtime_settings_payload st settings)).

(** ** Services *)

Definition answer (v : value) (_ : members) : St DB (result string value) := mret (Ok v).
Definition text (s : string) : value := String_ s.

(*| src-tauri/src/internal_api/app_commands.rs 975-989 execute_command *)
Definition api_status_command (_ : members) : St DB (result string value) :=
  web_status ← web_server_status;
  mret (Ok (Object [("running", Bool true); ("status", text "running"); ("host", text (is_host st));
    ("port", json_N (is_port st)); ("url", text (local_url (is_port st) ""));
    ("bind_url", text ("http://" ++ is_host st ++ ":" ++ show_N (is_port st)));
    ("docs_url", text (local_url (is_port st) "/docs"));
    ("token_required", Bool (sec_require_token (ia_security (is_config st))));
    ("auto_start", Bool true); ("web_server", unwrap_or Null web_status)])).

Definition web_status_command (_ : members) : St DB (result string value) :=
  web_status ← web_server_status; mret (Ok (unwrap_or Null web_status)).

Definition status_command (status : St DB (result string (bool * value))) (_ : members) :
    St DB (result string value) := s ←? status; mret (Ok (snd s)).
Definition start_command (status : St DB (result string (bool * value))) (message : string)
    (_ : members) : St DB (result string value) :=
  s ←? status;
  mret (Ok (Object [("running", Bool (fst s)); ("runtime", text "internal-api-web"); ("message", text message)])).

(*| src-tauri/src/internal_api/app_commands.rs 1007-1007 execute_command *)
Definition test_receive_command (args : members) : St DB (result string value) :=
  now ←? now_text;
  mret (Ok (Object [("ok", Bool true); ("event", Object [
    ("provider", text (arg_string args "provider")); ("event", text (arg_string args "event"));
    ("status", text "received"); ("received_at", text now)])])).

(*| src-tauri/src/internal_api/app_commands.rs 1014-1018 execute_command *)
Definition broadcast_command (args : members) : St DB (result string value) :=
  now ←? now_text;
  let payload := Object [("type", text "template.broadcast.test");
    ("message", text (arg_string args "message")); ("sent_at", text now)] in
  sent ← websocket_broadcast (json_to_string payload);
  mret (Ok (Object [("ok", Bool true); ("sent", json_N sent); ("payload", payload)])).

(*| src-tauri/src/internal_api/app_commands.rs 663-669 execute_command *)
Definition app_meta : value :=
  Object [("name", text (runtime_app_name env)); ("short_name", text (runtime_app_short_name env));
    ("version", text cargo_pkg_version); ("identifier", text (runtime_app_identifier env));
    ("runtime", text "internal-api-web")].

(*| src-tauri/src/internal_api/app_commands.rs 675-680 execute_command *)
Definition system_info : value :=
  Object [("runtime", Object [("mode", text "internal-api-web")]);
    ("database_provider", text (unwrap_or "sqlite" (env !! "TUNNARA_CONSOLE_DATABASE_DRIVER")));
    ("online", Bool true);
    ("api", Object [("host", text (is_host st)); ("port", json_N (is_port st))])].
End Commands.
