(* ===== verification/AppDispatch.v ===== *)
(** * The command table: execute_command of internal_api/app_commands.rs

    The names a web session may call, each with what it runs, and the names that
    are not in the table: those that end in [_list], [_get], [_save] or
    [_delete] are taken for commands on a generic record. *)

From Stdlib Require Import Ascii.
From S2P Require Import Prelude RustStr Json NetAddr NetBind RuntimeSettings Security.
From S2P Require Import ServiceConfigs RuntimeStore AppLog Accounts Auth InternalRoutes.
From S2P Require Import DatabaseConfig Providers Entities DbWorld AppTables AppCommands.

#[local] Open Scope string_scope.
#[local] Open Scope tunnara_scope.

(** ** Fixed answers *)

Definition web_note (message : string) : value :=
  Object [("ok", Bool false); ("warning", text message)].

(*| src-tauri/src/internal_api/app_commands.rs 921-929 execute_command *)
Definition admin_disabled : value :=
  Object [("enabled", Bool false); ("status", text "disabled");
    ("message", text "Recurso administrativo disponível pelo runtime desktop/Tauri.")].
Definition admin_registered : value :=
  Object [("ok", Bool true); ("message", text "Solicitação registrada pela API interna web.")].

Definition already_active (message : string) : value :=
  Object [("ok", Bool true); ("running", Bool true); ("message", text message)].
Definition cannot_stop (message : string) : value :=
  Object [("ok", Bool false); ("running", Bool true); ("warning", text message)].

Definition desktop_note (message : string) : value :=
  Object [("implemented", Bool false); ("runtime", text "internal-api-web"); ("message", text message)].

Definition provider_row (id name : string) : value :=
  Object [("id", text id); ("name", text name); ("runtime", text "internal-api-web")].

(** The texts of the queries that name no table of the caller's. *)
Definition log_list_sql : string :=
  "SELECT id, level, category, message, source, route, details_json, created_at FROM app_logs ORDER BY id DESC LIMIT 300".
Definition integration_logs_sql : string := "SELECT * FROM integration_logs ORDER BY id DESC LIMIT 200".
Definition sync_list_sql : string :=
  "SELECT id, entity_name, action_name, record_id, payload_json, status, created_at, updated_at FROM sync_queue ORDER BY id DESC LIMIT 300".
Definition log_clear_sql : string := "DELETE FROM app_logs".
Definition mark_synced_sql : string :=
  "UPDATE sync_queue SET status = 'synced', updated_at = ?1 WHERE id = ?2".

Definition webhook_note : string :=
  "Inicie/reinicie o Webhook Service pelo desktop/headless; a sessão web apenas monitora o serviço real.".
Definition websocket_note : string :=
  "Inicie/reinicie o WebSocket Service pelo desktop/headless; a sessão web apenas monitora o serviço real.".

(** ** The desktop's table *)

(** The commands the front end of the window may call. *)
(*| src-tauri/src/lib.rs 78-169 run *)
Definition invoke_commands : list string :=
  ["app_bootstrap"; "app_meta"; "system_info"; "system_set_data_dir"; "app_log_write";
   "app_log_list"; "app_log_clear"; "auth_login"; "auth_restore"; "auth_logout";
   "auth_change_password"; "permission_catalog"; "profile_list"; "profile_get"; "profile_save";
   "profile_delete"; "user_list"; "user_get"; "user_policy_get"; "user_policy_save"; "user_save";
   "user_delete"; "company_list"; "company_get"; "company_save"; "company_delete";
   "company_lookup_cnpj"; "company_lookup_ie"; "entity_list"; "entity_save"; "entity_delete";
   "combo_list"; "entity_provider_list"; "provider_entity_list"; "provider_entity_get";
   "provider_entity_create"; "provider_entity_update"; "provider_entity_delete";
   "licensing_status"; "licensing_load_settings"; "licensing_save_settings";
   "licensing_device_info"; "licensing_check_runtime"; "licensing_start_trial";
   "support_guard_status"; "support_guard_provision"; "support_guard_enable_totp";
   "support_guard_unlock"; "integration_list"; "integration_save"; "integration_delete";
   "integration_test"; "integration_logs"; "internal_api_status"; "internal_api_start";
   "internal_api_stop"; "internal_api_restart"; "internal_api_test_port"; "internal_api_test";
   "web_proxy_restart"; "web_proxy_stop"; "web_proxy_start"; "web_proxy_status";
   "webhook_status"; "webhook_start"; "webhook_stop"; "webhook_restart"; "webhook_list_events";
   "webhook_clear_events"; "webhook_test_receive"; "websocket_status"; "websocket_start";
   "websocket_stop"; "websocket_restart"; "websocket_list_clients"; "websocket_broadcast_test";
   "runtime_settings_load"; "runtime_settings_save"; "runtime_env_example";
   "startup_with_windows_set"; "app_service_install"; "app_service_uninstall";
   "app_service_start"; "app_service_stop"; "app_service_restart"; "app_service_status";
   "open_print_preview"; "tray_status"; "tray_restore_window"; "tray_exit_app"].

(** ** The web session's table *)

Section Dispatch.
Context {W : Type} `{LO : LogOs W} `{ST : !Statements W} `{CR : Crypto} `{RN : !Randomness W}
  `{AW : !AuthWorld W} `{BI : BuildInfo} `{JT : JsonText}.
#[local] Abbreviation DB := (@db W).
Context `{SQ : !SqlDb DB} `{SN : !SqlNames DB} `{DD : !DatabaseDrivers DB}
  `{XD : !ExternalDrivers DB} `{NS : !NativeServices DB}.
Context (env : Env) (st : InternalApiState).

Definition handler : Type := members -> St DB (result string value).

(*| src-tauri/src/internal_api/app_commands.rs 663-711 execute_command *)
Definition account_commands : list (list string * handler) :=
  [ (["app_meta"], answer (app_meta env));
    (["app_bootstrap"], answer (Object [("ok", Bool true);
       ("runtime", Object [("mode", text "internal-api-web"); ("isWeb", Bool true); ("isTauri", Bool false)]);
       ("database", text "internal-api")]));
    (["system_info"], answer (system_info env st));
    (["system_set_data_dir"], answer (web_note
       "Alteração de diretório de dados deve ser aplicada pelo runtime desktop/Tauri."));
    (["auth_login"], login_command st);
    (["auth_restore"], restore_command st);
    (["auth_logout"], logout_command st);
    (["auth_change_password"], auth_change_password_http st);
    (["permission_catalog"], answer permission_catalog_rows) ].

(*| src-tauri/src/internal_api/app_commands.rs 712-896 execute_command *)
Definition record_commands : list (list string * handler) :=
  [ (["profile_list"], profile_list_command st);
    (["profile_get"], profile_get_command st);
    (["profile_save"], profile_save_command st);
    (["profile_delete"], delete_command st "perfis_acesso");
    (["user_policy_get"], answer (Object [("login_min_length", json_N 3); ("login_min_allowed", json_N 3);
       ("login_max_allowed", json_N 60); ("password_min_length", json_N 6)]));
    (["user_policy_save"], fun args => mret (Ok (Object (get_payload args))));
    (["user_list"], list_command st "usuarios" ["nome"; "login"; "email"]);
    (["user_get"], user_get_command st);
    (["user_save"], user_save_command st);
    (["user_delete"], delete_command st "usuarios");
    (["company_list"], list_command st "empresas" ["nome"; "nome_fantasia"; "documento"; "cidade"; "estado"]);
    (["company_get"], get_command st "empresas");
    (["company_save"], save_command st "empresas");
    (["company_delete"], delete_command st "empresas");
    (["company_lookup_cnpj"; "company_lookup_ie"], answer (Object [("ok", Bool false);
       ("message", text "Consulta externa não configurada nesta API interna.")]));
    (["entity_list"], fun args => provider_list env st (arg_string args "entity") (search_from_args args));
    (["entity_save"], fun args => provider_save env st (arg_string args "entity") (get_payload args));
    (["entity_delete"], fun args => provider_delete env st (arg_string args "entity") (arg_i64 args "id"));
    (["combo_list"], combo_list_command env st) ].

(*| src-tauri/src/internal_api/app_commands.rs 897-974 execute_command *)
Definition log_commands : list (list string * handler) :=
  [ (["app_log_write"], log_write_command st);
    (["app_log_list"], fun _ => query_command st log_list_sql);
    (["app_log_clear"], fun _ => statement_command st "Falha ao limpar logs" log_clear_sql (mret (Ok [])));
    (["licensing_load_settings"; "licensing_status"; "licensing_device_info"; "licensing_check_runtime";
      "support_guard_status"], answer admin_disabled);
    (["licensing_save_settings"; "licensing_start_trial"; "support_guard_provision";
      "support_guard_enable_totp"; "support_guard_unlock"], answer admin_registered);
    (["integration_list"], list_command st "integration_configs" ["nome"; "tipo"; "base_url"; "ambiente"; "status"]);
    (["integration_save"], save_command st "integration_configs");
    (["integration_delete"], delete_command st "integration_configs");
    (["integration_test"], answer (Object [("ok", Bool true); ("status", text "not_tested");
       ("message", text "Teste real de integração disponível no desktop/API dedicada.")]));
    (["integration_logs"], fun _ => query_command st integration_logs_sql);
    (["sync_queue_list"], fun _ => query_command st sync_list_sql);
    (["sync_queue_mark_synced"], fun args =>
       statement_command st "Falha ao marcar item como sincronizado" mark_synced_sql
         (now ←? now_text; mret (Ok [SqlText now; SqlInt (arg_i64 args "id")])));
    (["runtime_settings_load"], settings_load_command st);
    (["runtime_settings_save"], settings_save_command st);
    (["runtime_env_example"], answer (text default_env_template)) ].

(*| src-tauri/src/internal_api/app_commands.rs 975-1029 execute_command *)
Definition service_commands : list (list string * handler) :=
  [ (["internal_api_status"], api_status_command st);
    (["internal_api_test"], answer (Object [("ok", Bool true); ("url", text (local_url (is_port st) "/health"))]));
    (["web_proxy_status"], web_status_command);
    (["web_proxy_start"; "web_proxy_restart"], answer (already_active
       "Webport já está ativo, pois esta chamada chegou pela própria API interna/proxy."));
    (["web_proxy_stop"], answer (cannot_stop
       "O webport que serve a sessão atual não pode ser parado pela própria sessão web."));
    (["internal_api_test_port"], answer (Object [("available", Bool false); ("running_here", Bool true);
       ("port", json_N (is_port st))]));
    (["internal_api_start"; "internal_api_restart"], answer (already_active "API já está ativa neste processo."));
    (["internal_api_stop"], answer (cannot_stop
       "A API que serve a aplicação web não pode ser parada por esta própria sessão."));
    (["webhook_status"], status_command webhook_service_status);
    (["webhook_start"; "webhook_restart"], start_command webhook_service_status webhook_note);
    (["webhook_stop"], fun _ => webhook_service_stop);
    (["webhook_list_events"], fun _ => items ← webhook_events; mret (Ok (Object [("items", Array items)])));
    (["webhook_clear_events"], fun _ => _ ← webhook_clear; mret (Ok (Bool true)));
    (["webhook_test_receive"], test_receive_command);
    (["websocket_status"], status_command websocket_service_status);
    (["websocket_start"; "websocket_restart"], start_command websocket_service_status websocket_note);
    (["websocket_stop"], fun _ => websocket_service_stop);
    (["websocket_list_clients"], fun _ => items ← websocket_clients; mret (Ok (Object [("items", Array items)])));
    (["websocket_broadcast_test"], broadcast_command);
    (["startup_with_windows_set"], answer (desktop_note
       "Inicialização com Windows deve ser aplicada pelo runtime desktop/Tauri."));
    (["app_service_install"; "app_service_uninstall"; "app_service_start"; "app_service_stop";
      "app_service_restart"], answer (web_note "Controle de serviço nativo indisponível pela sessão web interna."));
    (["app_service_status"], answer (Object [("running", Bool false); ("installed", Bool false);
       ("available", Bool false); ("runtime", text "internal-api-web")]));
    (["tray_status"], answer (Object [("enabled", Bool false); ("available", Bool false);
       ("runtime", text "internal-api-web"); ("message", text "Tray icon é recurso do processo desktop.")]));
    (["open_print_preview"], answer (Bool true));
    (["tray_restore_window"; "tray_exit_app"], answer (Bool true));
    (["provider_list_with_database"], answer (Array [provider_row "sqlite" "SQLite interno";
       provider_row "mysql" "MySQL"; provider_row "postgres" "PostgreSQL"])) ].

(*| src-tauri/src/internal_api/app_commands.rs 1030-1052 execute_command *)
Definition provider_commands : list (list string * handler) :=
  [ (["entity_provider_list"; "provider_entity_list"; "entity_provider_list_data"],
       fun args => provider_list env st (arg_string args "entity") (search_from_args args));
    (["provider_entity_get"], fun args => provider_get env st (arg_string args "entity") (arg_i64 args "id"));
    (["provider_entity_create"; "provider_entity_update"],
       fun args => provider_save env st (arg_string args "entity") (get_payload args));
    (["provider_entity_delete"],
       fun args => provider_delete env st (arg_string args "entity") (arg_i64 args "id")) ].

Definition exposed : list (list string * handler) :=
  account_commands ++ record_commands ++ log_commands ++ service_commands ++ provider_commands.

(** The entity a command's name stands for. *)
Definition entity_of (suffix command : string) : string :=
  replace "_" "-" (trim_end_str suffix command).

(*| src-tauri/src/internal_api/app_commands.rs 1053-1079 execute_command *)
Definition unlisted_command (command : string) : handler := fun args =>
  if ends_with "_list" command then provider_list env st (entity_of "_list" command) (search_from_args args)
  else if ends_with "_get" command then provider_get env st (entity_of "_get" command) (arg_i64 args "id")
  else if ends_with "_save" command then provider_save env st (entity_of "_save" command) (get_payload args)
  else if ends_with "_delete" command
  then provider_delete env st (entity_of "_delete" command) (arg_i64 args "id")
  else mret (Err ("Comando ainda não exposto na API web interna: " ++ command)).

(*| src-tauri/src/internal_api/app_commands.rs 661-1081 execute_command *)
Definition execute_command (command : string) (args : members) : St DB (result string value) :=
  match list_find (fun row => bool_decide (command ∈ fst row)) exposed with
  | Some (_, run) => run args
  | None => unlisted_command command args
  end.
End Dispatch.
