(* ===== verification/AppRules.v ===== *)
(** * Properties of the commands over HTTP

    A quoted name is read as that one name; the web login is the desktop login;
    what a password change over HTTP needs; which names of unlisted commands can
    ever answer. *)

From Stdlib Require Import Ascii.
From S2P Require Import Prelude RustStr Json NetAddr NetBind RuntimeSettings Security.
From S2P Require Import ServiceConfigs RuntimeStore AppLog Accounts Auth InternalRoutes.
From S2P Require Import DatabaseConfig Providers Entities EntityRules DbWorld AppTables AppCommands.
From S2P Require Import AppDispatch.

#[local] Open Scope string_scope.
#[local] Open Scope tunnara_scope.

(** ** Quoted identifiers *)

Lemma dquote_app s : dquote ++ s = String quote_char s.
Proof. reflexivity. Qed.

Lemma quote_ident_go name rest :
  (forall r, rest <> String quote_char r) ->
  read_quoted (replace_go dquote (dquote ++ dquote) 0 name ++ dquote ++ rest) = Some (name, rest).
Proof.
  intros Hr. induction name as [|a name IH]; cbn [replace_go].
  - rewrite app_nil, dquote_app. cbn [read_quoted]. rewrite Ascii.eqb_refl.
    destruct rest as [|b rest]; [done|]. destruct (Ascii.eqb_spec b quote_char); [|done].
    subst. by destruct (Hr rest).
  - change (String.length dquote - 1) with 0.
    replace (starts_with dquote (String a name)) with (Ascii.eqb quote_char a)
      by (unfold dquote; rewrite starts_with_cons; destruct (ascii_dec quote_char a) as [<-|H];
          [by rewrite starts_with_nil, Ascii.eqb_refl|by apply Ascii.eqb_neq]).
    destruct (Ascii.eqb_spec quote_char a) as [<-|Ha].
    + change (dquote ++ dquote) with (String quote_char (String quote_char "")) at 1.
      rewrite !app_cons, app_nil. cbn [read_quoted]. by rewrite Ascii.eqb_refl, IH.
    + rewrite app_cons. cbn [read_quoted]. rewrite (proj2 (Ascii.eqb_neq a quote_char)) by congruence.
      by rewrite IH.
Qed.

(** A quoted name is one name. Whatever characters a table or a column has in
    its name, double quotes among them, what [quote_ident] writes is read back as
    that name, and the reading stops where the quoting stops, when no double
    quote follows: nothing of the name becomes SQL. *)
Theorem quote_ident_read_back name rest :
  (forall r, rest <> String quote_char r) ->
  read_ident (quote_ident name ++ rest) = Some (name, rest).
Proof.
  intros Hr. unfold quote_ident. rewrite string_app_assoc, dquote_app. cbn [read_ident].
  rewrite Ascii.eqb_refl, string_app_assoc. by apply quote_ident_go.
Qed.

(** ** Sessions *)

Section Sessions.
Context {W : Type} `{LO : LogOs W} `{ST : !Statements W} `{CR : Crypto} `{RN : !Randomness W}
  `{AW : !AuthWorld W}.
#[local] Abbreviation DB := (@db W).
Implicit Types s : DB.

(** Two runs fail alike, or answer alike with the same tables. *)
Definition agree {A B} (R : A -> B -> Prop) (x : result string A * DB) (y : result string B * DB) : Prop :=
  fst (snd x) = fst (snd y) /\
  match fst x, fst y with
  | Ok a, Ok b => R a b
  | Err e, Err e' => e = e'
  | _, _ => False
  end.

Lemma agree_try {A B C} (R : B -> C -> Prop) (c : St DB (result string A)) f g s :
  (forall a s', c s = (Ok a, s') -> agree R (f a s') (g a s')) -> agree R (try c f s) (try c g s).
Proof.
  intros H. unfold try, mbind, st_bind. destruct (c s) as [[a|e] s'] eqn:E; [by apply H|done].
Qed.

Lemma agree_bind {A B C} (R : B -> C -> Prop) (c : St DB A) f g s :
  (forall a s', agree R (f a s') (g a s')) -> agree R ((c ≫= f) s) ((c ≫= g) s).
Proof. intros H. unfold mbind, st_bind. by destruct (c s). Qed.

(** The same answer to the front end, but for the text of a success. *)
Definition same_login (a b : LoginResponse) : Prop :=
  lr_success a = lr_success b /\ lr_session_token a = lr_session_token b /\ lr_user a = lr_user b /\
  (lr_success a = false -> lr_message a = lr_message b).

Lemma create_session_agrees app row s :
  agree same_login (create_session app row s) (create_session_http row s).
Proof.
  unfold create_session, create_session_http.
  do 2 (apply agree_bind; intros ? ?). cbv zeta. do 5 (apply agree_try; intros ? ? _).
  unfold try, mbind, st_bind. destruct (log_command _ _ _ _ _ _) as [r s2] eqn:E.
  apply log_command_run in E as [-> Ht]. by split.
Qed.

Lemma login_agrees st login senha s :
  agree same_login
    (auth_login (Some {| ctx_data_dir := is_data_dir st; ctx_db_path := is_db_path st |}) login senha s)
    (auth_login_http st login senha s).
Proof.
  unfold auth_login, auth_login_http, open_app, open_api, try, mbind, st_bind, mret, st_ret.
  cbn [ctx_db_path ctx_data_dir].
  destruct (lift (db_open (is_db_path st)) s) as [[c|e] s1]; [|by repeat split].
  destruct (select _ _ s1) as [[row|e] s2]; [|by repeat split].
  destruct row as [row|]; [|by repeat split]. destruct (u_ativo row =? 0)%Z; [by repeat split|].
  destruct (verify_password senha (u_senha_hash row)) as [[]|e]; [|by repeat split..].
  apply create_session_agrees.
Qed.

(** C16. The web login is the desktop login. For the same login and password and
    from the same state, [auth_login_http] of a server over the application's
    database leaves the same tables as [auth_login] and gives the same answer:
    the same error, the same refusal, or the same token and user (the text of a
    success is the only difference; the desktop also writes to the log). *)
Theorem login_http_agrees st login senha s :
  let state := Some {| ctx_data_dir := is_data_dir st; ctx_db_path := is_db_path st |} in
  let '(desktop, s1) := auth_login state login senha s in
  let '(web, s2) := auth_login_http st login senha s in
  fst s1 = fst s2 /\
  match desktop, web with
  | Ok a, Ok b => same_login a b
  | Err e, Err e' => e = e'
  | _, _ => False
  end.
Proof.
  cbv zeta. pose proof (login_agrees st login senha s) as H.
  destruct (auth_login _ login senha s) as [a s1], (auth_login_http st login senha s) as [b s2].
  exact H.
Qed.

Lemma change_password_http_inv st args s v s' :
  auth_change_password_http st args s = (Ok v, s') ->
  exists ses u hash salt now,
    ses ∈ acc_sessions (fst s) /\ us_session_token ses = trim (arg_string args "session_token") /\
    user_by_id (us_usuario_id ses) (fst s) = Some u /\
    (arg_string args "current_password" = "" \/
     verify_password (arg_string args "current_password") (u_senha_hash u) = Ok true) /\
    6 <= String.length (arg_string args "new_password") /\
    argon2_hash (arg_string args "new_password") salt = Ok hash /\
    acc_users (fst s') = acc_users (update_password hash now (us_usuario_id ses) (fst s)).
Proof.
  unfold auth_change_password_http. destruct (Nat.ltb_spec (String.length (arg_string args "new_password")) 6)
    as [|Hlen]; [done|]. intros H.
  apply try_Ok in H as (c & s1 & E1 & H). apply lift_tables in E1.
  apply try_Ok in H as (id & s2 & E2 & H). apply require_session_inv in E2
    as (ses & u0 & Hs & _ & Htok & _ & _ & Hid & _ & -> & E2). cbn [si_user_id] in H. rewrite Hid in H.
  apply try_Ok in H as (hash0 & s3 & E3 & H).
  unfold stored_password, statement in E3. destruct (sql_fault _) as [[e|] w]; [done|].
  destruct (user_by_id _ _) as [u|] eqn:Eu; [|done]. injection E3 as <- <-.
  apply try_Ok in H as (verified & s4 & E4 & H). injection E4 as Ev <-.
  destruct verified; [|done]. cbn [negb] in H.
  apply try_Ok in H as (hash & s5 & E5 & H). apply hash_password_inv in E5 as [(salt & Eh) E5].
  apply try_Ok in H as (now & s6 & E6 & H). apply now_text_run in E6 as [_ E6].
  apply try_Ok in H as ([] & s7 & E7 & H). apply execute_tables in E7. cbn [is_ok] in E7.
  injection H as _ <-. exists ses, u, hash, salt, now. rewrite <- E1. split_and!; try done.
  - rewrite E2 in Eu. exact Eu.
  - destruct (is_empty (arg_string args "current_password")) eqn:Ee; [left|by right].
    by apply is_empty_spec.
  - rewrite E7, E6, E5. cbn [fst]. by rewrite E2.
Qed.

End Sessions.

(** ** Saving a user *)

Section Users.
Context {W : Type} `{LO : LogOs W} `{ST : !Statements W} `{CR : Crypto} `{RN : !Randomness W}
  `{AW : !AuthWorld W}.
#[local] Abbreviation DB := (@db W).

Lemma with_password_inv password payload (s : DB) p s' :
  with_password password payload s = (Ok p, s') ->
  exists salt hash, argon2_hash password salt = Ok hash /\ fst s' = fst s /\
    p = obj_insert "senha_provisoria" (json_i64 1) (obj_insert "senha_hash" (String_ hash) payload).
Proof.
  unfold with_password. intros H. apply try_Ok in H as (hash & s1 & E & H).
  apply hash_password_inv in E as [(salt & E) Ht]. injection H as <- <-. by exists salt, hash.
Qed.

Lemma get_activated key payload :
  key <> "ativo" ->
  obj_get key (if contains_key "ativo" payload then payload else obj_insert "ativo" (json_i64 1) payload)
  = obj_get key payload.
Proof. intros H. destruct (contains_key "ativo" payload); [done|]. by apply obj_get_insert_ne. Qed.

(** A save over HTTP can reset a password. [user_save] counts the id of a
    payload only when it is a number, and [save_record] also when it is a text:
    a payload whose id is the text of an existing user's id, without a password,
    is saved over that user with the password 123456, marked as provisional. For
    a new user (no id at all) the same password is set. *)
Theorem user_save_default_password `{CL : !CryptoLaws} payload id_text (s : DB) p s' :
  (obj_get "id" payload = None \/ obj_get "id" payload = Some (String_ id_text)) ->
  first_of payload ["senha"; "password"] = None ->
  user_payload payload s = (Ok p, s') ->
  record_id p = record_id payload /\
  exists hash, obj_get "senha_hash" p = Some (String_ hash) /\
    verify_password "123456" hash = Ok true /\ obj_get "senha_provisoria" p = Some (json_i64 1).
Proof.
  intros Hid Hnone H. unfold user_payload in H. rewrite Hnone in H.
  assert (row_id payload = 0%Z) as Hrow by (unfold row_id; by destruct Hid as [-> | ->]).
  rewrite Hrow in H. change (is_empty (trim _)) with true in H. cbn [Z.leb Z.compare andb negb] in H.
  apply try_Ok in H as (q & s1 & E & H). apply with_password_inv in E as (salt & hash & Eh & _ & ->).
  injection H as <- _. split.
  - unfold record_id, payload_id. rewrite get_activated by done. by rewrite !obj_get_insert_ne by done.
  - exists hash. rewrite !get_activated by done. rewrite obj_get_insert_ne by done.
    rewrite !obj_get_insert_eq. split_and!; [done| |done].
    unfold verify_password. destruct (argon2_hash_verifies _ _ _ Eh) as (ph & Ep & Eok).
    by rewrite Ep, Eok.
Qed.
End Users.

(** ** Names that are not in the table *)

(** Every name of the catalogue, and the endings of the generic commands. *)
Definition entity_names : list string := concat (map fst catalogue).
Definition generic_endings : list string := ["_list"; "_get"; "_save"; "_delete"].

Section Unlisted.
Context {W : Type} `{LO : LogOs W} `{ST : !Statements W} `{CR : Crypto} `{RN : !Randomness W}
  `{AW : !AuthWorld W} `{BI : BuildInfo} `{JT : JsonText}.
#[local] Abbreviation DB := (@db W).
Context `{SQ : !SqlDb DB} `{SN : !SqlNames DB} `{DD : !DatabaseDrivers DB}
  `{XD : !ExternalDrivers DB} `{NS : !NativeServices DB}.
Context (env : Env) (st : InternalApiState).

(** The web session knows every command of the desktop by its name, so that none
    of them is taken for a command on a generic record. *)
Lemma desktop_commands_listed command args s :
  command ∈ invoke_commands ->
  exists run, execute_command env st command args s = run args s /\ run ∈ map snd (exposed env st).
Proof.
  intros H. assert (command ∈ concat (map fst (exposed env st))) as Hin.
  { revert command H. apply Forall_forall. unfold invoke_commands. repeat constructor;
      apply (bool_decide_unpack _); vm_compute; exact I. }
  apply list_elem_of_In, in_concat in Hin as (names & Hn%in_map_iff & Hc%list_elem_of_In).
  destruct Hn as (row & <- & Hrow%list_elem_of_In).
  unfold execute_command. destruct (list_find _ (exposed env st)) as [[names1 run1]|] eqn:E.
  - apply list_find_Some in E as (Hi & _). exists run1. split; [done|].
    apply list_elem_of_In, in_map_iff. exists (names1, run1). by apply list_elem_of_In in Hi.
  - apply list_find_None in E. rewrite Forall_forall in E. specialize (E _ Hrow). cbv beta in E.
    by rewrite bool_decide_eq_true_2 in E.
Qed.

Definition generic_run (ending entity : string) (args : members) : St DB (result string value) :=
  if String.eqb ending "_list" then provider_list env st entity (search_from_args args)
  else if String.eqb ending "_get" then provider_get env st entity (arg_i64 args "id")
  else if String.eqb ending "_save" then provider_save env st entity (get_payload args)
  else provider_delete env st entity (arg_i64 args "id").

(** What [execute_command] looks at in a name made of an entity and an ending. *)
Definition name_reads (entity ending : string) : bool :=
  let name := entity ++ ending in
  bool_decide (name ∉ concat (map fst (exposed env st)))
  && forallb (fun e => Bool.eqb (ends_with e name) (String.eqb e ending)) generic_endings
  && String.eqb (entity_of ending name) (replace "_" "-" entity).

Lemma names_read entity ending :
  entity ∈ entity_names -> ending ∈ generic_endings -> name_reads entity ending = true.
Proof.
  assert (Forall (fun e => Forall (fun x => name_reads e x = true) generic_endings) entity_names) as H.
  { unfold name_reads. set (names := concat (map fst (exposed env st))).
    vm_compute in names. subst names.
    apply (bool_decide_unpack _). vm_compute. exact I. }
  rewrite Forall_forall in H. intros He Hx. specialize (H entity He).
  rewrite Forall_forall in H. by apply H.
Qed.

Lemma not_exposed name :
  name ∉ concat (map fst (exposed env st)) ->
  list_find (fun row => bool_decide (name ∈ fst row)) (exposed env st) = None.
Proof.
  intros H. apply list_find_None, Forall_forall. intros row Hrow. apply bool_decide_eq_false. intros Hin.
  apply H, list_elem_of_In, in_concat. exists (fst row).
  split; [apply in_map|]; by apply list_elem_of_In.
Qed.

Lemma generic_name entity ending args :
  entity ∈ entity_names -> ending ∈ generic_endings ->
  execute_command env st (entity ++ ending) args = generic_run ending (replace "_" "-" entity) args.
Proof.
  intros He Hx. pose proof (names_read entity ending He Hx) as H.
  unfold name_reads in H. rewrite !andb_true_iff in H. destruct H as [[H1 H2] H3].
  apply bool_decide_eq_true in H1. apply String.eqb_eq in H3. unfold execute_command.
  rewrite not_exposed by done. unfold unlisted_command, generic_run. cbn [forallb generic_endings] in H2.
  rewrite !andb_true_iff, !Bool.eqb_true_iff in H2. destruct H2 as (-> & -> & -> & -> & _).
  rewrite <- H3. unfold generic_endings in Hx. rewrite !elem_of_cons in Hx. destruct Hx as [->|[->|[->|[->|Hx]]]]; try done.
  by apply elem_of_nil in Hx.
Qed.

(** Which generic names answer. A command whose name is that of an entity of
    the catalogue and one of the four endings is none of the table's, and runs on
    the entity of that name with its underscores turned into dashes: an entity
    without an underscore is reached, and one with an underscore (such as
    [centro_custos]) never is, so that its commands always fail. *)
Theorem unlisted_commands entity ending args s :
  entity ∈ entity_names -> ending ∈ generic_endings ->
  execute_command env st (entity ++ ending) args s
    = generic_run ending (replace "_" "-" entity) args s /\
  (contains "_" entity = false -> replace "_" "-" entity = entity) /\
  (contains "_" entity = true -> exists message,
     execute_command env st (entity ++ ending) args s = (Err message, s)).
Proof.
  intros He Hx. rewrite generic_name by done. split; [done|].
  assert (Forall (fun e => (contains "_" e = false -> replace "_" "-" e = e) /\
    (contains "_" e = true -> entity_definition (replace "_" "-" e) = None)) entity_names) as H.
  { repeat (apply Forall_cons; split; [split; [vm_compute; congruence|vm_compute; congruence]|]).
    apply Forall_nil. done. }
  rewrite Forall_forall in H. destruct (H entity He) as [H1 H2]. split; [done|]. intros Hu.
  specialize (H2 Hu). unfold generic_run, provider_list, provider_get, provider_save, provider_delete,
    with_provider, provider_list_with_database, provider_get_with_database,
    provider_save_with_database, provider_delete_with_database, find_definition.
  rewrite H2. unfold try, mbind, st_bind, mret, st_ret.
  destruct (String.eqb ending "_list"), (String.eqb ending "_get"), (String.eqb ending "_save");
    destruct (provider_for_state env st) as [p|e]; cbn; by eexists.
Qed.
End Unlisted.
