(* ===== verification/AppTexts.v ===== *)
(** * What a web session can make the database run

    The texts of the statements behind [execute_command]: fixed ones, and those
    made of the names of a few tables and of the columns SQLite says they have.
    Nothing else of a command becomes part of a text. *)

From Stdlib Require Import Ascii.
From S2P Require Import Prelude RustStr Json NetAddr NetBind RuntimeSettings Security.
From S2P Require Import ServiceConfigs RuntimeStore AppLog Accounts AccessTables Auth InternalRoutes.
From S2P Require Import DatabaseConfig Providers Entities EntityRules DbWorld AppTables AppCommands.
From S2P Require Import AppDispatch.

#[local] Open Scope string_scope.
#[local] Open Scope tunnara_scope.

(** The tables of the record commands and the columns they search. *)
Definition web_tables : list string :=
  ["perfis_acesso"; "usuarios"; "empresas"; "integration_configs"].
Definition web_searched : list string :=
  ["nome"; "descricao"; "login"; "email"; "nome_fantasia"; "documento"; "cidade"; "estado"; "tipo";
   "base_url"; "ambiente"; "status"].
Definition web_links : list (string * string * string) :=
  [("usuarios_perfis", "usuario_id", "perfil_id"); ("usuarios_empresas", "usuario_id", "empresa_id")].

(** The texts, given which columns a table has. *)
Inductive web_text (known : string -> string -> Prop) : string -> Prop :=
| WebFixed sql :
    sql ∈ [log_list_sql; integration_logs_sql; sync_list_sql; log_clear_sql; mark_synced_sql] ->
    web_text known sql
| WebRecord t : t ∈ web_tables -> web_text known (record_sql t)
| WebList t available columns :
    t ∈ web_tables -> Forall (fun c => c ∈ web_searched) columns ->
    web_text known (table_list_sql t available columns)
| WebUpdate t fields : t ∈ web_tables -> Forall (known t) fields -> web_text known (record_update_sql t fields)
| WebInsert t fields : t ∈ web_tables -> Forall (known t) fields -> web_text known (record_insert_sql t fields)
| WebDelete t : t ∈ web_tables -> web_text known (record_delete_sql t)
| WebUnlink t owner target : (t, owner, target) ∈ web_links -> web_text known (unlink_sql t owner)
| WebLink t owner target : (t, owner, target) ∈ web_links -> web_text known (link_sql t owner target).

Section Texts.
Context {W : Type} `{LO : LogOs W} `{ST : !Statements W} `{CR : Crypto} `{RN : !Randomness W}
  `{AW : !AuthWorld W} `{BI : BuildInfo} `{JT : JsonText}.
#[local] Abbreviation DB := (@db W).
Context `{SQ : !SqlDb DB} `{SN : !SqlNames DB} `{DD : !DatabaseDrivers DB}
  `{XD : !ExternalDrivers DB} `{NS : !NativeServices DB}.
Context (env : Env) (st : InternalApiState).

(** A property of the outside world that the texts keep, whatever their
    parameters, and that everything outside the database keeps. *)
Record web_keeps (J : W -> Prop) (known : string -> string -> Prop) : Prop := {
  wk_execute conn sql params : web_text known sql -> stable (world_only J) (sql_execute (W := DB) conn sql params);
  wk_query conn sql params : web_text known sql -> stable (world_only J) (sql_query (W := DB) conn sql params);
  wk_row conn sql params : web_text known sql -> stable (world_only J) (sql_query_row (W := DB) conn sql params);
  wk_names conn t : t ∈ web_tables -> stable (world_only J) (sql_names (W := DB) conn (pragma_sql t));
  (** the columns a table is said to have are known *)
  wk_known conn t s cols s' : t ∈ web_tables ->
    sql_names (W := DB) conn (pragma_sql t) s = (Ok cols, s') -> Forall (known t) cols;
  wk_rowid conn : stable (world_only J) (sql_last_insert_rowid (W := DB) conn);
  wk_provider p : provider_for_state env st = Ok p -> provider_keeps p (world_only J);
  wk_log conn dir input : stable (world_only J) (write_app_log (W := DB) conn dir input);
  wk_fault : stable J sql_fault;
  wk_open path : stable J (db_open path);
  wk_now : stable J utc_now;
  wk_now_text : stable J utc_now_rfc3339;
  wk_uuid : stable J uuid_v4;
  wk_salt : stable J rng_salt;
  wk_web : stable (world_only J) web_server_status;
  wk_hook : stable (world_only J) webhook_service_status /\ stable (world_only J) webhook_service_stop /\
    stable (world_only J) webhook_events /\ stable (world_only J) webhook_clear;
  wk_sock : stable (world_only J) websocket_service_status /\ stable (world_only J) websocket_service_stop /\
    stable (world_only J) websocket_clients /\
    (forall t, stable (world_only J) (websocket_broadcast t));
}.

Context (J : W -> Prop) (known : string -> string -> Prop) (K : web_keeps J known).
#[local] Abbreviation I := (world_only J).

Lemma stable_open_api : stable I (open_api st).
Proof. apply stable_lift, K. Qed.
Lemma stable_now_text : stable I (now_text (W := W)).
Proof. unfold now_text. apply stable_bind; [apply stable_lift, K|frame]. Qed.
Lemma stable_hash password : stable I (lift (hash_password password)).
Proof. apply stable_lift. unfold hash_password. apply stable_bind; [apply K|frame]. Qed.
Lemma stable_fault : stable J sql_fault.
Proof. apply K. Qed.
Lemma stable_uuid : stable I (lift uuid_v4).
Proof. apply stable_lift, K. Qed.
Lemma stable_utc : stable I (lift utc_now).
Proof. apply stable_lift, K. Qed.
Hint Resolve stable_open_api stable_now_text stable_hash stable_fault stable_uuid stable_utc : frames.

(** *** Accounts *)

Lemma stable_session token : stable I (require_session_by_token token).
Proof. unfold require_session_by_token. frame. Qed.
Lemma stable_build id : stable I (build_auth_user id).
Proof. unfold build_auth_user. frame. Qed.
Lemma stable_stored what id : stable I (stored_password (W := W) what id).
Proof. unfold stored_password. frame. Qed.
Lemma stable_create row : stable I (create_session_http row).
Proof. unfold create_session_http. pose proof stable_build. frame; auto. Qed.
Hint Resolve stable_session stable_build stable_stored stable_create : frames.

Lemma stable_login args : stable I (login_command st args).
Proof. unfold login_command, auth_login_http. frame. Qed.
Lemma stable_restore args : stable I (restore_command st args).
Proof. unfold restore_command, auth_restore_http. frame. Qed.
Lemma stable_logout args : stable I (logout_command st args).
Proof. unfold logout_command. frame. Qed.
Lemma stable_password args : stable I (auth_change_password_http st args).
Proof. unfold auth_change_password_http. frame. Qed.
Hint Resolve stable_login stable_restore stable_logout stable_password : frames.
(** *** Tables *)

Lemma stable_columns conn t : t ∈ web_tables -> stable I (table_columns (W := W) conn t).
Proof. intros Ht. unfold table_columns. apply stable_bind; [by apply K|frame]. Qed.

Lemma columns_known conn t s cols s' :
  t ∈ web_tables -> table_columns (W := W) conn t s = (Ok cols, s') -> Forall (known t) cols.
Proof.
  intros Ht H. unfold table_columns in H. run_bind H r s1 as E.
  apply try_Ok in H as (c & s2 & E2 & H). injection E2 as E2 <-. apply map_err_Ok in E2 as ->.
  apply (wk_known _ _ K) in E; [|done]. destruct c; [done|]. by injection H as <- _.
Qed.

Lemma fields_known t available data :
  Forall (known t) available -> Forall (known t) (map fst (record_fields available data)).
Proof.
  rewrite !Forall_forall. intros H x Hx. apply H. rewrite list_elem_of_In in Hx.
  apply in_map_iff in Hx as (kv & <- & Hkv). unfold record_fields in Hkv.
  apply (Permutation_in _ (sort_by_perm _ _)), filter_In in Hkv as [_ Hb].
  apply andb_true_iff in Hb as [_ Hb]. by apply bool_decide_eq_true in Hb.
Qed.

Lemma stable_query_text conn sql params :
  web_text known sql -> stable I (query_json_params (W := W) conn sql params).
Proof. intros Ht. unfold query_json_params. apply stable_bind; [by apply K|frame]. Qed.

Lemma stable_record conn t id : t ∈ web_tables -> stable I (table_record (W := W) conn t id).
Proof.
  intros Ht. unfold table_record, query_one_json. apply stable_bind; [|frame].
  apply K. by constructor.
Qed.

Lemma stable_list conn t search searchable :
  t ∈ web_tables -> Forall (fun c => c ∈ web_searched) searchable ->
  stable I (table_list (W := W) conn t search searchable).
Proof.
  intros Ht Hs. unfold table_list. apply stable_try; [by apply stable_columns|]. intros available.
  assert (web_text known (table_list_sql t available [])) as H0 by by constructor.
  destruct (blank search); [by apply stable_query_text|].
  destruct (bool_decide _); apply stable_query_text; [done|].
  constructor; [done|]. apply Forall_forall. intros c Hc. rewrite list_elem_of_In in Hc.
  apply filter_In in Hc as [Hc _]. rewrite Forall_forall in Hs. by apply Hs, list_elem_of_In.
Qed.

Lemma stable_save conn t payload : t ∈ web_tables -> stable I (save_record (W := W) conn t payload).
Proof.
  intros Ht. unfold save_record. apply (stable_try_post _ (Forall (known t))).
  - by apply stable_columns.
  - intros s cols s'. by apply columns_known.
  - intros available Hk. apply stable_try; [apply stable_now_text|]. intros now. cbv zeta.
    pose proof (fields_known t available (stamped available now payload) Hk) as Hf.
    pose proof (stable_record conn t) as Hrec.
    destruct (record_fields _ _) as [|kv fields] eqn:Ef; [frame|].
    destruct (record_id payload).
    + apply stable_bind; [apply K; by constructor|]. intros r. frame; auto.
    + apply stable_bind; [apply K; by constructor|]. intros r. apply stable_try; [frame|]. intros _.
      apply stable_bind; [apply K|]. auto.
Qed.

Lemma stable_delete conn t id : t ∈ web_tables -> stable I (delete_record (W := W) conn t id).
Proof.
  intros Ht. unfold delete_record. apply stable_bind; [|frame]. apply K. by constructor.
Qed.

Lemma stable_links conn t owner target id ids :
  (t, owner, target) ∈ web_links -> stable I (sync_link_table (W := W) conn t owner target id ids).
Proof.
  intros Ht. unfold sync_link_table. destruct (bool_decide _); [frame|].
  apply stable_bind; [apply K; by econstructor|]. intros r. apply stable_try; [frame|]. intros _.
  apply stable_try; [apply stable_now_text|]. intros now. apply stable_each. intros x.
  apply stable_bind; [apply K; by econstructor|frame].
Qed.

Lemma stable_payload payload : stable I (user_payload (W := W) payload).
Proof. unfold user_payload, with_password. frame. Qed.
Hint Resolve stable_payload : frames.

Ltac in_words := apply (bool_decide_unpack _); vm_compute; exact Logic.I.

(** *** Handlers *)

Lemma stable_provider {A} (f : Provider DB -> St DB (result string A)) :
  (forall p, provider_keeps p I -> stable I (f p)) -> stable I (with_provider env st f).
Proof.
  intros H. unfold with_provider. eapply (stable_try_post _ (fun p => provider_keeps p I)); [frame| |done].
  intros s p s' [= E _]. by apply K.
Qed.

Lemma stable_db_now : stable I (utc_now_rfc3339 (W := DB)).
Proof. apply stable_lift, K. Qed.

Ltac by_provider := apply stable_try; [apply stable_provider; intros p Hp|frame].

Lemma stable_generic_list entity search : stable I (provider_list env st entity search).
Proof. by_provider. by apply stable_provider_list. Qed.
Lemma stable_generic_get entity id : stable I (provider_get env st entity id).
Proof. by_provider. by apply stable_provider_get. Qed.
Lemma stable_generic_save entity payload : stable I (provider_save env st entity payload).
Proof. by_provider. apply stable_provider_save; [done|apply stable_db_now]. Qed.
Lemma stable_generic_delete entity id : stable I (provider_delete env st entity id).
Proof. by_provider. apply stable_provider_delete; [done|apply stable_db_now]. Qed.
Hint Resolve stable_generic_list stable_generic_get stable_generic_save stable_generic_delete : frames.

Lemma stable_log_write args : stable I (log_write_command st args).
Proof. unfold log_write_command. apply stable_try; [frame|]. intros. apply stable_try; [apply K|frame]. Qed.

Lemma stable_settings_load args : stable I (settings_load_command st args).
Proof. unfold settings_load_command, load_settings_value. frame. Qed.
Lemma stable_settings_save args : stable I (settings_save_command st args).
Proof. unfold settings_save_command, save_settings_value. frame. Qed.

Lemma stable_rows rows : stable I (rows_with_permissions (W := W) rows).
Proof. induction rows as [|row rows IH]; cbn [rows_with_permissions]; unfold profile_permissions; frame. Qed.

Lemma stable_query_command sql : web_text known sql -> stable I (query_command st sql).
Proof. intros H. unfold query_command, query_json. apply stable_try; [frame|]. intros. apply stable_try; [by apply stable_query_text|frame]. Qed.

Lemma stable_statement_command what sql params :
  web_text known sql -> stable I params -> stable I (statement_command st what sql params).
Proof.
  intros H Hp. unfold statement_command. do 2 (apply stable_try; [frame|intros]).
  apply stable_bind; [by apply K|frame].
Qed.
Hint Resolve stable_rows stable_log_write stable_settings_load stable_settings_save : frames.

(** A handler of the table. *)
Definition handler_keeps (row : list string * handler (W := W)) : Prop :=
  forall args, stable I (snd row args).

Lemma stable_answer v args : stable I (answer (W := W) v args).
Proof. apply stable_ret. Qed.
Hint Resolve stable_answer : frames.

Lemma accounts_keep : Forall handler_keeps (account_commands env st).
Proof. repeat (apply Forall_cons; split; [intros args; cbn [snd]; frame|]). by apply Forall_nil. Qed.

Hint Extern 0 (stable _ (table_list _ _ _ _)) => apply stable_list; in_words : frames.
Hint Extern 0 (stable _ (table_record _ _ _)) => apply stable_record; in_words : frames.
Hint Extern 0 (stable _ (save_record _ _ _)) => apply stable_save; in_words : frames.
Hint Extern 0 (stable _ (delete_record _ _ _)) => apply stable_delete; in_words : frames.
Hint Extern 0 (stable _ (sync_link_table _ _ _ _ _ _)) => apply stable_links; in_words : frames.

Ltac on_table :=
  unfold list_command, get_command, save_command, delete_command; frame;
  apply stable_each; intros; frame.

Lemma records_keep : Forall handler_keeps (record_commands env st).
Proof.
  repeat (apply Forall_cons; split; [intros args; cbn [snd]|]); [..|by apply Forall_nil].
  1: unfold profile_list_command. 2: unfold profile_get_command, profile_permissions.
  3: unfold profile_save_command. 8: unfold user_get_command. 9: unfold user_save_command.
  19: unfold combo_list_command; apply stable_try; [apply stable_provider; intros p Hp; by apply stable_provider_list|frame].
  all: by on_table.
Qed.

Lemma logs_keep : Forall handler_keeps (log_commands st).
Proof.
  assert (forall sql, sql ∈ [log_list_sql; integration_logs_sql; sync_list_sql; log_clear_sql; mark_synced_sql] ->
    web_text known sql) as Hf by (intros; by constructor).
  repeat (apply Forall_cons; split; [intros args; cbn [snd]|]); [..|by apply Forall_nil].
  all: try solve [on_table].
  all: first [apply stable_query_command | apply stable_statement_command]; try (apply Hf; in_words); frame.
Qed.

Lemma services_keep : Forall handler_keeps (service_commands st).
Proof.
  pose proof (wk_web _ _ K). pose proof (wk_hook _ _ K) as (? & ? & ? & ?).
  pose proof (wk_sock _ _ K) as (? & ? & ? & ?).
  repeat (apply Forall_cons; split; [intros args; cbn [snd]|]); [..|by apply Forall_nil].
  all: unfold api_status_command, web_status_command, status_command, start_command,
    test_receive_command, broadcast_command; frame; auto.
Qed.

Lemma providers_keep : Forall handler_keeps (provider_commands env st).
Proof.
  repeat (apply Forall_cons; split; [intros args; cbn [snd]|]); [..|by apply Forall_nil]; frame.
Qed.

Lemma exposed_keep : Forall handler_keeps (exposed env st).
Proof.
  unfold exposed. rewrite !Forall_app.
  split_and!; [apply accounts_keep|apply records_keep|apply logs_keep|apply services_keep|apply providers_keep].
Qed.

End Texts.
