(* ===== verification/CommandLine.v ===== *)
(** * The command line

    [cli/args.rs]: the options, their two spellings, and what a list of
    arguments means. *)

From Stdlib Require Import Ascii.
From S2P Require Import Prelude RustStr NetAddr RuntimeSettings ServiceConfigs.

#[local] Open Scope string_scope.

(*| src-tauri/src/cli/args.rs 4-10 RuntimeMode *)
Inductive RuntimeMode : Type := Desktop | HeadlessApi | WebProxyMode | Cli | Worker.
#[export] Instance RuntimeMode_eq_dec : EqDecision RuntimeMode.
Proof. solve_decision. Defined.

(*| src-tauri/src/cli/args.rs 13-23 CliArgs *)
Record CliArgs : Type := {
  cli_mode : RuntimeMode;
  cli_host : string;
  cli_port : N;
  cli_database_driver : string;
  cli_data_dir : option string;
  cli_start_web_proxy : bool;
  cli_start_webhook : bool;
  cli_start_websocket : bool;
  cli_start_services : bool;
}.

(*| src-tauri/src/cli/args.rs 26-41 default *)
Definition cli_default (env : Env) : CliArgs := {|
  cli_mode := Desktop;
  cli_host := env_or env "TUNNARA_CONSOLE_API_HOST" "127.0.0.1";
  cli_port := unwrap_or 61001%N (env !! "TUNNARA_CONSOLE_API_PORT" ≫= parse_u16);
  cli_database_driver := "sqlite";
  cli_data_dir := None;
  cli_start_web_proxy := false;
  cli_start_webhook := false;
  cli_start_websocket := false;
  cli_start_services := false |}.

(*| src-tauri/src/cli/args.rs 113-121 parse_mode *)
Definition parse_mode (value : string) : RuntimeMode :=
  let v := to_ascii_lowercase (trim value) in
  if bool_decide (v ∈ ["headless-api"; "server"; "api"]) then HeadlessApi
  else if bool_decide (v ∈ ["web-proxy"; "webport"; "web"; "proxy"]) then WebProxyMode
  else if bool_decide (v = "cli") then Cli
  else if bool_decide (v = "worker") then Worker
  else Desktop.

(** ** Options *)

(*| src-tauri/src/cli/args.rs 51-57 parse *)
Definition set_mode (v : string) (p : CliArgs) : CliArgs := {|
  cli_mode := parse_mode v; cli_host := cli_host p; cli_port := cli_port p;
  cli_database_driver := cli_database_driver p; cli_data_dir := cli_data_dir p;
  cli_start_web_proxy := cli_start_web_proxy p; cli_start_webhook := cli_start_webhook p;
  cli_start_websocket := cli_start_websocket p; cli_start_services := cli_start_services p |}.

(*| src-tauri/src/cli/args.rs 58-68 parse *)
Definition set_host (v : string) (p : CliArgs) : CliArgs :=
  if blank v then p else {|
  cli_mode := cli_mode p; cli_host := trim v; cli_port := cli_port p;
  cli_database_driver := cli_database_driver p; cli_data_dir := cli_data_dir p;
  cli_start_web_proxy := cli_start_web_proxy p; cli_start_webhook := cli_start_webhook p;
  cli_start_websocket := cli_start_websocket p; cli_start_services := cli_start_services p |}.

(*| src-tauri/src/cli/args.rs 69-79 parse *)
Definition set_port (v : string) (p : CliArgs) : CliArgs :=
  match parse_u16 v with
  | None => p
  | Some port => {|
      cli_mode := cli_mode p; cli_host := cli_host p; cli_port := port;
      cli_database_driver := cli_database_driver p; cli_data_dir := cli_data_dir p;
      cli_start_web_proxy := cli_start_web_proxy p; cli_start_webhook := cli_start_webhook p;
      cli_start_websocket := cli_start_websocket p; cli_start_services := cli_start_services p |}
  end.

(*| src-tauri/src/cli/args.rs 80-86 parse *)
Definition set_driver (v : string) (p : CliArgs) : CliArgs := {|
  cli_mode := cli_mode p; cli_host := cli_host p; cli_port := cli_port p;
  cli_database_driver := to_ascii_lowercase v; cli_data_dir := cli_data_dir p;
  cli_start_web_proxy := cli_start_web_proxy p; cli_start_webhook := cli_start_webhook p;
  cli_start_websocket := cli_start_websocket p; cli_start_services := cli_start_services p |}.

(*| src-tauri/src/cli/args.rs 87-97 parse *)
Definition set_data_dir (v : string) (p : CliArgs) : CliArgs :=
  if blank v then p else {|
  cli_mode := cli_mode p; cli_host := cli_host p; cli_port := cli_port p;
  cli_database_driver := cli_database_driver p; cli_data_dir := Some v;
  cli_start_web_proxy := cli_start_web_proxy p; cli_start_webhook := cli_start_webhook p;
  cli_start_websocket := cli_start_websocket p; cli_start_services := cli_start_services p |}.

(** The four switches: web server, webhooks, WebSocket, every service. *)
Definition set_flags (web webhook websocket services : bool) (p : CliArgs) : CliArgs := {|
  cli_mode := cli_mode p; cli_host := cli_host p; cli_port := cli_port p;
  cli_database_driver := cli_database_driver p; cli_data_dir := cli_data_dir p;
  cli_start_web_proxy := cli_start_web_proxy p || web;
  cli_start_webhook := cli_start_webhook p || webhook;
  cli_start_websocket := cli_start_websocket p || websocket;
  cli_start_services := cli_start_services p || services |}.

(** The options with a value, in the order the code tries them. *)
(*| src-tauri/src/cli/args.rs 51-97 parse *)
Definition valued_options : list (string * (string -> CliArgs -> CliArgs)) :=
  [("--mode", set_mode); ("--host", set_host); ("--port", set_port);
   ("--database-driver", set_driver); ("--data-dir", set_data_dir)].

Definition web_proxy_flags : list string :=
  ["--start-web-proxy"; "--web-proxy-auto-start"; "--start-webport"; "--webport-auto-start"].
Definition webhook_flags : list string :=
  ["--start-webhook"; "--webhook-auto-start"; "--webhook"].
Definition websocket_flags : list string :=
  ["--start-websocket"; "--websocket-auto-start"; "--websocket"].
Definition services_flags : list string :=
  ["--start-services"; "--services-auto-start"; "--auto-start-services"].

(*| src-tauri/src/cli/args.rs 98-106 parse *)
Definition apply_switch (arg : string) (p : CliArgs) : CliArgs :=
  if bool_decide (arg ∈ web_proxy_flags) then set_flags true false false false p
  else if bool_decide (arg ∈ webhook_flags) then set_flags false true false false p
  else if bool_decide (arg ∈ websocket_flags) then set_flags false false true false p
  else if bool_decide (arg ∈ services_flags) then set_flags false false false true p
  else p.

(** One turn of the loop: the new arguments, and whether the next one was
    taken as a value. *)
(*| src-tauri/src/cli/args.rs 49-108 parse *)
Fixpoint cli_step (options : list (string * (string -> CliArgs -> CliArgs))) (arg : string)
    (next : option string) (p : CliArgs) : CliArgs * bool :=
  match options with
  | [] => (apply_switch arg p, false)
  | (name, set) :: rest =>
      match strip_prefix (name ++ "=") arg with
      | Some value => (set value p, false)
      | None =>
          if String.eqb arg name then
            match next with Some value => (set value p, true) | None => (p, false) end
          else cli_step rest arg next p
      end
  end.

(** The loop over the arguments after the program's name. *)
(*| src-tauri/src/cli/args.rs 48-110 parse *)
Fixpoint parse_from (p : CliArgs) (args : list string) : CliArgs :=
  match args with
  | [] => p
  | arg :: rest =>
      let '(p, taken) := cli_step valued_options arg (head rest) p in
      if (taken : bool) then match rest with [] => p | _ :: rest => parse_from p rest end
      else parse_from p rest
  end.

(*| src-tauri/src/cli/args.rs 45-111 parse *)
Definition cli_parse (env : Env) (args : list string) : CliArgs := parse_from (cli_default env) args.

(*| src-tauri/src/cli/runner.rs 9-14 should_run_without_tauri *)
Definition should_run_without_tauri (p : CliArgs) : bool := negb (bool_decide (cli_mode p = Desktop)).

(** ** Lemmas *)

(** Splitting an argument on the option it names. *)
Lemma cli_step_cases arg next p :
  (exists name set value, (name, set) ∈ valued_options /\ arg = name ++ "=" ++ value /\
     cli_step valued_options arg next p = (set value p, false)) \/
  (exists name set, (name, set) ∈ valued_options /\ arg = name /\
     cli_step valued_options arg next p =
       match next with Some value => (set value p, true) | None => (p, false) end) \/
  ((arg ∉ map fst valued_options) /\ cli_step valued_options arg next p = (apply_switch arg p, false)).
Proof.
  induction valued_options as [|[name set] rest IH]; [right; right; split; [apply not_elem_of_nil|done]|].
  cbn [cli_step map fst]. destruct (strip_prefix (name ++ "=") arg) as [value|] eqn:E.
  { left. exists name, set, value. apply strip_prefix_Some in E as ->.
    split_and!; [by left|by rewrite string_app_assoc|done]. }
  destruct (String.eqb_spec arg name) as [->|Hne].
  { right. left. exists name, set. split_and!; [by left|done|done]. }
  destruct IH as [(n & f & v & Hin & H)|[(n & f & Hin & H)|[Hin H]]].
  - left. exists n, f, v. split; [by right|done].
  - right. left. exists n, f. split; [by right|done].
  - right. right. split; [rewrite not_elem_of_cons; done|done].
Qed.

(** [--name=value], as one argument. *)
Lemma cli_step_equals name set value next p :
  (name, set) ∈ valued_options ->
  cli_step valued_options (name ++ "=" ++ value) next p = (set value p, false) /\
  cli_step valued_options name (Some value) p = (set value p, true).
Proof.
  unfold valued_options. rewrite !elem_of_cons, elem_of_nil.
  intros [[= -> ->]|[[= -> ->]|[[= -> ->]|[[= -> ->]|[[= -> ->]|[]]]]]]; split; reflexivity.
Qed.

(** An argument that names no option is handled without the next one. *)
Lemma cli_step_plain options arg next p :
  arg ∉ map fst options -> cli_step options arg next p = (fst (cli_step options arg None p), false).
Proof.
  induction options as [|[name set] rest IH]; [done|]. cbn [cli_step map fst].
  rewrite not_elem_of_cons. intros [Hne Hin].
  destruct (strip_prefix (name ++ "=") arg); [done|].
  destruct (String.eqb_spec arg name); [done|]. by apply IH.
Qed.

Lemma cli_step_missing name set p :
  (name, set) ∈ valued_options -> cli_step valued_options name None p = (p, false).
Proof.
  unfold valued_options. rewrite !elem_of_cons, elem_of_nil.
  by intros [[= -> ->]|[[= -> ->]|[[= -> ->]|[[= -> ->]|[[= -> ->]|[]]]]]].
Qed.

Definition port_ok (p : CliArgs) : bool := (cli_port p <=? U16_MAX)%N.
Definition host_ok (p : CliArgs) : bool := negb (blank (cli_host p)).

Lemma apply_switch_frame arg p :
  port_ok (apply_switch arg p) = port_ok p /\ host_ok (apply_switch arg p) = host_ok p.
Proof. unfold apply_switch. by repeat destruct (bool_decide _). Qed.

Lemma set_keeps name set value p :
  (name, set) ∈ valued_options ->
  (port_ok p = true -> port_ok (set value p) = true) /\
  (host_ok p = true -> host_ok (set value p) = true).
Proof.
  unfold valued_options. rewrite !elem_of_cons, elem_of_nil.
  intros [[= -> ->]|[[= -> ->]|[[= -> ->]|[[= -> ->]|[[= -> ->]|[]]]]]]; try done.
  - unfold set_host. destruct (blank value) eqn:E; [done|]. split; [done|].
    intros _. unfold host_ok. cbn [cli_host]. by rewrite blank_trim_eq, E.
  - unfold set_port. destruct (parse_u16 value) as [n|] eqn:E; [|done]. split; [|done].
    intros _. apply parse_uint_bound in E. unfold port_ok. cbn [cli_port]. by apply N.leb_le.
  - unfold set_data_dir. by destruct (blank value).
Qed.

Lemma cli_step_keeps arg next p :
  (port_ok p = true -> port_ok (fst (cli_step valued_options arg next p)) = true) /\
  (host_ok p = true -> host_ok (fst (cli_step valued_options arg next p)) = true).
Proof.
  destruct (cli_step_cases arg next p) as [(n & f & v & Hin & _ & ->)|[(n & f & Hin & _ & ->)|[_ ->]]].
  - by apply (set_keeps n).
  - destruct next; [by apply (set_keeps n)|done].
  - cbn. by destruct (apply_switch_frame arg p) as [-> ->].
Qed.

Lemma parse_from_keeps args p :
  (port_ok p = true -> port_ok (parse_from p args) = true) /\
  (host_ok p = true -> host_ok (parse_from p args) = true).
Proof.
  remember (length args) as n eqn:Hn. revert args Hn p.
  induction (lt_wf n) as [n _ IH]. intros [|arg rest] Hn p; [done|]. cbn [parse_from].
  destruct (cli_step_keeps arg (head rest) p) as [H1 H2].
  destruct (cli_step valued_options arg (head rest) p) as [p1 taken]. cbn [fst] in *.
  assert (forall l, length l < n -> (port_ok p = true -> port_ok (parse_from p1 l) = true) /\
    (host_ok p = true -> host_ok (parse_from p1 l) = true)) as Hl.
  { intros l Hl. destruct (IH _ Hl l eq_refl p1). split; eauto. }
  cbn in Hn. destruct taken; [destruct rest as [|v rest]; [done|]|]; apply Hl; cbn in *; lia.
Qed.

(** ** Properties *)

(** The port of the command line fits 16 bits and the host is not blank,
    whatever the arguments say (unless the environment gives a blank host):
    values that do not parse leave the earlier ones. *)
Theorem cli_bounds env args :
  (cli_port (cli_parse env args) <= U16_MAX)%N /\
  (blank (cli_host (cli_default env)) = false -> blank (cli_host (cli_parse env args)) = false).
Proof.
  unfold cli_parse. destruct (parse_from_keeps args (cli_default env)) as [Hp Hh].
  unfold port_ok, host_ok in *. split.
  - apply N.leb_le, Hp. apply N.leb_le. cbn [cli_default cli_port].
    destruct (_ ≫= parse_u16) as [n|] eqn:E; [|done].
    apply bind_Some in E as (v & _ & E). by eapply parse_uint_bound.
  - intros H. rewrite H in Hh. by apply negb_true_iff, Hh.
Qed.

(** The two spellings of an option mean the same, wherever they stand:
    [--name=value] as one argument, and [--name] followed by [value], even when
    the value looks like another option. A switch that is taken as the value of
    an option is not seen; an option with no value after it is ignored. *)
Theorem cli_spellings env before name set value after :
  (name, set) ∈ valued_options ->
  Forall (fun arg => arg ∉ map fst valued_options) before ->
  cli_parse env (app before ((name ++ "=" ++ value) :: after))
  = cli_parse env (app before (name :: value :: after)) /\
  cli_parse env (app before (name :: value :: after))
  = parse_from (set value (cli_parse env before)) after /\
  cli_parse env (app before [name]) = cli_parse env before.
Proof.
  intros Hin Hb. unfold cli_parse. generalize (cli_default env) as p.
  induction Hb as [|arg before Harg Hb IH]; intros p; cbn [app parse_from head].
  - destruct (cli_step_equals name set value (head after) p Hin) as [-> ->].
    by rewrite (cli_step_missing name set p Hin).
  - rewrite !(cli_step_plain _ _ (head _) _ Harg). apply IH.
Qed.
