(* ===== verification/OsServices.v ===== *)
(** * System services and defaults

    [service/], [core/mod.rs] and the modules of [integrations/]: the texts and
    tables of the program as a system service, its default switches, and what a
    module of the integrations tells. The nine modules of [integrations/] are
    copies of one text. *)

From S2P Require Import Prelude RustStr Json NetAddr CommandLine.

#[local] Open Scope string_scope.

(** ** The program as a service *)

(*| src-tauri/src/service/service_runner.rs 2-9 ServiceCommand *)
Inductive ServiceCommand : Type :=
| ServiceInstall | ServiceUninstall | ServiceStart | ServiceStop | ServiceRestart | ServiceStatus.

(** A word that is no command asks for the status. *)
(*| src-tauri/src/service/service_runner.rs 11-20 parse_command *)
Definition parse_command (value : string) : ServiceCommand :=
  if value =? "install" then ServiceInstall
  else if value =? "uninstall" then ServiceUninstall
  else if value =? "start" then ServiceStart
  else if value =? "stop" then ServiceStop
  else if value =? "restart" then ServiceRestart
  else ServiceStatus.

(** The command of the unit runs the program without its window. *)
Definition unit_switch : string := "--mode=headless-api".

(*| src-tauri/src/service/linux_service.rs 1-16 systemd_unit *)
Definition systemd_unit (app_name exec_path : string) : string :=
"[Unit]
Description=" ++ app_name ++ " Server
After=network.target

[Service]
ExecStart=" ++ exec_path ++ " " ++ unit_switch ++ "
Restart=always
Environment=APP_ENV=production

[Install]
WantedBy=multi-user.target
".

(*| src-tauri/src/service/windows_service.rs 3-11 service_status *)
Definition windows_service_status : value :=
  Object [("installed", Bool false); ("manager", String_ "available");
    ("message", String_ "Use o empacotamento final para ativar instalação real como serviço Windows.");
    ("platform", String_ "windows"); ("running", Bool false)].

(** ** Defaults *)

(*| src-tauri/src/core/mod.rs 4-11 RuntimeMode *)
Inductive CoreRuntimeMode : Type :=
| CoreDesktop | CoreHeadlessApi | CoreWindowsService | CoreLinuxService | CoreCli | CoreWorker.

(*| src-tauri/src/core/mod.rs 14-23 AppFeatureFlags *)
Record AppFeatureFlags : Type := {
  ff_licensing : bool; ff_internal_api : bool; ff_scalar_docs : bool; ff_tray : bool;
  ff_windows_service : bool; ff_linux_service : bool; ff_auto_start_with_windows : bool;
  ff_headless_mode : bool;
}.
(*| src-tauri/src/core/mod.rs 25-38 AppFeatureFlags::default *)
Definition feature_flags_default : AppFeatureFlags := {|
  ff_licensing := true; ff_internal_api := false; ff_scalar_docs := false; ff_tray := true;
  ff_windows_service := false; ff_linux_service := false; ff_auto_start_with_windows := false;
  ff_headless_mode := false |}.

(*| src-tauri/src/core/mod.rs 41-46 DefaultAdminConfig *)
Record DefaultAdminConfig : Type := {
  da_enabled : bool; da_username : string; da_password : string;
  da_force_password_change_on_first_login : bool;
}.
(*| src-tauri/src/core/mod.rs 48-57 DefaultAdminConfig::default *)
Definition default_admin_default : DefaultAdminConfig := {|
  da_enabled := false; da_username := ""; da_password := "";
  da_force_password_change_on_first_login := true |}.

(*| src-tauri/src/integrations/token_store.rs 4-7 IntegrationModuleStatus *)
Record IntegrationModuleStatus : Type := { ims_enabled : bool; ims_status : string }.
(*| src-tauri/src/integrations/token_store.rs 9-14 module_status *)
Definition module_status : IntegrationModuleStatus :=
  {| ims_enabled := true; ims_status := "available" |}.

(** ** Lemmas *)

(** The unit starts the program, and what it is given there is read as the mode
    without a window, whatever the environment is. *)
Lemma unit_runs_headless env app_name exec_path :
  (exists before after, systemd_unit app_name exec_path
     = before ++ "ExecStart=" ++ exec_path ++ " " ++ unit_switch ++ "
" ++ after) /\
  should_run_without_tauri (cli_parse env [unit_switch]) = true.
Proof.
  split; [|reflexivity]. unfold systemd_unit.
  exists ("[Unit]
Description=" ++ app_name ++ " Server
After=network.target

[Service]
").
  exists "Restart=always
Environment=APP_ENV=production

[Install]
WantedBy=multi-user.target
".
  rewrite !string_app_assoc. reflexivity.
Qed.
