(* ===== verification/ApiServer.v ===== *)
(** * Internal API: the server's life cycle

    [internal_api/server.rs]: start, stop, status and adoption of an instance
    that another process already runs, over the runtime slot of the process, its
    environment and the outside world. The body of the server thread is the
    parameter [spawn_api]; the routes it serves are in [InternalRoutes]. *)

From Stdlib Require Import Ascii.
From S2P Require Import Prelude RustStr Json NetAddr NetBind RuntimeSettings.
From S2P Require Import ServiceConfigs RuntimeStore AppLog ServiceLifecycle.
From S2P Require Import WebhookRoutes InternalRoutes.

#[local] Open Scope string_scope.
#[local] Open Scope tunnara_scope.

Class ApiServerWorld (W : Type) `{SW : ServerWorld W} : Type := {
  (** starting the thread that serves the configuration on a listener *)
  spawn_api : InternalApiConfig -> listener -> St W (result string server_thread);
  (** serving until the process ends *)
  serve_api : InternalApiConfig -> listener -> St W (result string unit);
  (** the JSON body of a successful GET within 900 ms *)
  http_get_json : string -> St W (option value);
  (** the address of the web server, if one is known *)
  web_server_url : St W (option string);
}.

(*| src-tauri/src/internal_api/server.rs 37-47 ApiRuntimeStatus *)
Record ApiRuntimeStatus : Type := {
  as_running : bool;
  as_host : string;
  as_port : N;
  as_url : option string;
  as_docs_url : option string;
  as_started_at : option string;
  as_external : bool;
  as_message : option string;
}.

Definition http_url (host : string) (port : N) : string := "http://" ++ host ++ ":" ++ show_N port.

(** [config.base_url = ...] *)
Definition with_base_url (url : string) (c : InternalApiConfig) : InternalApiConfig := {|
  ia_enabled := ia_enabled c; ia_auto_start := ia_auto_start c; ia_host := ia_host c;
  ia_port := ia_port c; ia_base_url := url; ia_timeout_ms := ia_timeout_ms c;
  ia_log_mode := ia_log_mode c; ia_open_scalar_after_start := ia_open_scalar_after_start c;
  ia_restart_on_config_change := ia_restart_on_config_change c;
  ia_expose_docs := ia_expose_docs c; ia_docs := ia_docs c; ia_security := ia_security c |}.

Section ApiServer.
Context `{BI : BuildInfo} {W : Type} `{OS : ConsoleOs W} `{LO : !LogOs W} `{AS : ApiServerWorld W}.
Context (state : SharedState).

(*| src-tauri/src/internal_api/server.rs 16-24 ApiRuntimeHandle *)
Record ApiRuntimeHandle : Type := {
  ah_bind_host : string;
  ah_public_host : string;
  ah_port : N;
  ah_started_at : string;
  ah_thread : server_thread;
  ah_docs_url : string;
}.

(** The runtime slot, the environment and the outside world. *)
Definition api_state : Type := option ApiRuntimeHandle * (Env * W).

Definition api_outside {A} (c : St W A) : St api_state A := fun s =>
  let '(slot, (env, w)) := s in let '(a, w) := c w in (a, (slot, (env, w))).
Definition set_env (kvs : list (string * string)) : St api_state unit := fun s =>
  let '(slot, (env, w)) := s in
  ((), (slot, (foldl (fun env '(k, v) => <[k := v]> env) env kvs, w))).
Definition set_slot (h : option ApiRuntimeHandle) : St api_state unit := fun s => ((), (h, snd s)).

(*| src-tauri/src/internal_api/server.rs 339-343 socket_addr *)
Definition api_socket_addr (c : InternalApiConfig) : result string SocketAddr :=
  match parse_socket_addr (ia_host c ++ ":" ++ show_N (ia_port c)) with
  | Some a => Ok a
  | None => Err ("Endereço da API interna inválido: " ++ addr_parse_error)
  end.

(*| src-tauri/src/internal_api/server.rs 345-362 log_runtime_event *)
Definition log_runtime_event (level message : string) (details : value) : St api_state unit :=
  api_outside (log_event state {|
    log_level := level; log_category := "internal-api"; log_message := message;
    log_source := Some "internal_api::server"; log_route := None; log_details := Some details |}).

(*| src-tauri/src/internal_api/server.rs 306-337 adopt_existing_api_runtime *)
Definition adopt_existing_api_runtime (public_host : string) (port : N) :
    St W (option ApiRuntimeStatus) :=
  let local_url := http_url "127.0.0.1" port in
  reply ← http_get_json (local_url ++ "/health");
  mret (match reply with
        | None => None
        | Some v =>
            if match version ← value_get "version" v; as_str version with
               | Some version => String.eqb version cargo_pkg_version
               | None => false
               end
            then Some {|
              as_running := true; as_host := public_host; as_port := port;
              as_url := Some local_url; as_docs_url := Some (local_url ++ "/docs");
              as_started_at := None; as_external := true;
              as_message := Some "API interna já estava ativa em outra instância do Tunnara Console; esta janela reutilizou a instância existente sem tentar abrir uma segunda porta." |}
            else None
        end).

(*| src-tauri/src/internal_api/server.rs 270-280 status *)
Definition status_of_handle (h : ApiRuntimeHandle) : ApiRuntimeStatus := {|
  as_running := true; as_host := ah_public_host h; as_port := ah_port h;
  as_url := Some (http_url (ah_public_host h) (ah_port h));
  as_docs_url := Some (ah_docs_url h); as_started_at := Some (ah_started_at h);
  as_external := false; as_message := None |}.

(*| src-tauri/src/internal_api/server.rs 266-304 status *)
Definition api_server_status : St api_state ApiRuntimeStatus := fun s =>
  match fst s with
  | Some h => (status_of_handle h, s)
  | None =>
      let env := fst (snd s) in
      let host := env_or env "TUNNARA_CONSOLE_API_HOST" "127.0.0.1" in
      let port := unwrap_or 61001%N (env !! "TUNNARA_CONSOLE_API_PORT" ≫= parse_u16) in
      let '(adopted, s) := api_outside (adopt_existing_api_runtime (public_url_host host) port) s in
      (unwrap_or {| as_running := false; as_host := host; as_port := port; as_url := None;
                    as_docs_url := None; as_started_at := None; as_external := false;
                    as_message := None |} adopted, s)
  end.

(*| src-tauri/src/internal_api/server.rs 241-264 stop_background *)
Definition api_stop_background : St api_state ApiRuntimeStatus :=
  slot ← (fun s => (fst s, s));
  _ ← set_slot None;
  _ ← match slot with
      | Some h => api_outside (shutdown_join (ah_thread h))
      | None => mret ()
      end;
  api_server_status.

(** The variables a start or a headless run publishes. *)
(*| src-tauri/src/internal_api/server.rs 129-131 start_background *)
Definition api_env (c : InternalApiConfig) : list (string * string) :=
  [("TUNNARA_CONSOLE_API_HOST", ia_host c); ("TUNNARA_CONSOLE_API_PORT", show_N (ia_port c));
   ("TUNNARA_CONSOLE_API_BASE_URL", http_url (public_url_host (ia_host c)) (ia_port c))].

(** The port is taken, or the address cannot be bound: adopt or fail. *)
(*| src-tauri/src/internal_api/server.rs 134-163 start_background *)
Definition bind_failed (c : InternalApiConfig) (addr : SocketAddr) (err : io_error) :
    St api_state (result string ApiRuntimeStatus) :=
  adopted ← match io_kind err with
            | AddrInUse => api_outside (adopt_existing_api_runtime (public_url_host (ia_host c)) (ia_port c))
            | _ => mret None
            end;
  match adopted with
  | Some status =>
      _ ← log_runtime_event "warning" "API interna já estava ativa; reutilizando instância existente"
        (Object [("configured", String_ (socket_addr_text addr)); ("port", Number (PosInt (ia_port c)));
                 ("error", String_ (io_message err)); ("external", Bool true);
                 ("url", json_opt_str (as_url status))]);
      mret (Ok status)
  | None =>
      _ ← log_runtime_event "error" "Porta da API interna indisponível"
        (Object [("configured", String_ (socket_addr_text addr)); ("port", Number (PosInt (ia_port c)));
                 ("error", String_ (io_message err)); ("adopted_existing_instance", Bool false)]);
      mret (Err ("Porta da API interna " ++ socket_addr_text addr ++ " indisponível: " ++ io_message err
        ++ ". A porta está ocupada por outro processo que não respondeu como Tunnara Console API. Altere TUNNARA_CONSOLE_API_PORT ou encerre o processo externo que está usando esta porta."))
  end.

(** Serve on a listener: the slot is filled once the thread runs. *)
(*| src-tauri/src/internal_api/server.rs 164-239 start_background *)
Definition serve_listener (c : InternalApiConfig) (l : listener) :
    St api_state (result string ApiRuntimeStatus) :=
  nonblocking ← api_outside (set_nonblocking l);
  match nonblocking with
  | Err err => mret (Err ("Falha ao configurar listener da API interna: " ++ err))
  | Ok _ =>
      let public_host := public_url_host (ia_host c) in
      let c := with_base_url (http_url public_host (ia_port c)) c in
      started_at ← api_outside now_rfc3339;
      let docs_url := ia_docs_url c in
      thread ← api_outside (spawn_api c l);
      match thread with
      | Err err => mret (Err ("Falha ao iniciar thread da API interna: " ++ err))
      | Ok thread =>
          let h := {| ah_bind_host := ia_host c; ah_public_host := public_host;
                      ah_port := ia_port c; ah_started_at := started_at; ah_thread := thread;
                      ah_docs_url := docs_url |} in
          _ ← set_slot (Some h);
          web ← api_outside web_server_url;
          _ ← log_runtime_event "info" "API iniciada com sucesso"
            (Object [("bind_url", String_ (http_url (ia_host c) (ia_port c)));
                     ("url", String_ (http_url public_host (ia_port c)));
                     ("docs_url", String_ docs_url); ("web_url", json_opt_str web)]);
          mret (Ok (status_of_handle h))
      end
  end.

(*| src-tauri/src/internal_api/server.rs 90-239 start_background *)
Definition api_start_background (c : InternalApiConfig) :
    St api_state (result string ApiRuntimeStatus) := fun s =>
  match ia_validate_bind c with
  | Err e => (Err e, s)
  | Ok _ =>
      match fst s with
      | Some h => (Ok (status_of_handle h), s)
      | None =>
          (_ ← log_runtime_event "info" "API iniciando"
             (Object [("host", String_ (ia_host c)); ("port", Number (PosInt (ia_port c)))]);
           match api_socket_addr c with
           | Err e => mret (Err e)
           | Ok addr =>
               _ ← set_env (api_env c);
               bound ← api_outside (tcp_bind addr);
               match bound with
               | Ok l => serve_listener c l
               | Err err => bind_failed c addr err
               end
           end) s
      end
  end.

(** A headless run: no slot, and the process serves until the server ends. *)
(*| src-tauri/src/internal_api/server.rs 68-88 run_with_config *)
Definition run_with_config (c : InternalApiConfig) : St api_state (result string unit) := fun s =>
  match ia_validate_bind c, state_db_path state with
  | Err e, _ | _, Err e => (Err e, s)
  | Ok _, Ok _ =>
      match api_socket_addr c with
      | Err e => (Err e, s)
      | Ok addr =>
          (_ ← set_env (api_env c);
           bound ← api_outside (tcp_bind addr);
           match bound with
           | Err err => mret (Err ("Falha ao iniciar API interna em " ++ socket_addr_text addr
                                   ++ ": " ++ io_message err))
           | Ok l =>
               served ← api_outside (serve_api c l);
               mret (map_err (fun err => "Falha no servidor da API interna: " ++ err) served)
           end) s
      end
  end.

(** The same, at an address, with the rest from the environment. *)
(*| src-tauri/src/internal_api/server.rs 63-66 run *)
Definition api_run (host : string) (port : N) : St api_state (result string unit) := fun s =>
  run_with_config (ia_with_host_port (internal_api_default (fst (snd s))) host port) s.
(** A runtime of its own for it: what makes one cannot fail here. *)
(*| src-tauri/src/internal_api/server.rs 49-52 run_blocking *)
Definition run_blocking (host : string) (port : N) : St api_state (result string unit) := api_run host port.

(*| src-tauri/src/internal_api/server.rs 364-376 build_api_state *)
Definition build_api_state (c : InternalApiConfig) : St api_state (result string InternalApiState) :=
  match state with
  | None => mret (Err "Aplicação ainda não inicializada.")
  | Some ctx =>
      now ← api_outside now_rfc3339;
      mret (Ok {| is_db_path := ctx_db_path ctx; is_data_dir := ctx_data_dir ctx; is_started_at := now;
                  is_host := ia_host c; is_port := ia_port c; is_config := c |})
  end.

(** ** Lemmas *)

Definition slot_of (s : api_state) : option ApiRuntimeHandle := fst s.
Definition env_of (s : api_state) : Env := fst (snd s).

Lemma api_outside_run {A} (c : St W A) s a s' :
  api_outside c s = (a, s') ->
  slot_of s' = slot_of s /\ env_of s' = env_of s /\ c (snd (snd s)) = (a, snd (snd s')).
Proof.
  destruct s as [slot [env w]]. unfold api_outside. destruct (c w) as [b w1] eqn:E.
  intros [= <- <-]. done.
Qed.

Lemma logged_frame level message details s u s' :
  log_runtime_event level message details s = (u, s') ->
  slot_of s' = slot_of s /\ env_of s' = env_of s.
Proof. intros H%api_outside_run. tauto. Qed.

(** What a status borrowed from another instance says. *)
Lemma adopt_existing_spec public_host port w st w' :
  adopt_existing_api_runtime public_host port w = (Some st, w') ->
  as_running st = true /\ as_external st = true /\ as_port st = port /\
  as_url st = Some (http_url "127.0.0.1" port) /\
  exists v, http_get_json (http_url "127.0.0.1" port ++ "/health") w = (Some v, w') /\
    (value_get "version" v ≫= as_str) = Some cargo_pkg_version.
Proof.
  unfold adopt_existing_api_runtime. intros H. run_bind H reply w1 as Eg.
  destruct reply as [v|]; [|done]. injection H as H Hw. subst w1.
  destruct (_ ≫= _) as [version|] eqn:Ev; [|done].
  destruct (String.eqb_spec version cargo_pkg_version) as [->|]; [|done].
  injection H as <-. cbn. split_and!; eauto.
Qed.

(** The outcome of a start that found the slot empty. *)
Definition api_started (c : InternalApiConfig) (r : result string ApiRuntimeStatus)
    (s' : api_state) : Prop :=
  match slot_of s' with
  | Some h => r = Ok (status_of_handle h) /\ ah_bind_host h = ia_host c /\
      ah_public_host h = public_url_host (ia_host c) /\ ah_port h = ia_port c /\
      exists addr l w1 w2, tcp_bind addr w1 = (Ok l, w2) /\ sa_port addr = ia_port c
  | None =>
      match r with
      | Err _ => True
      | Ok st => as_external st = true /\ as_port st = ia_port c /\
          exists v w1 w2, http_get_json (http_url "127.0.0.1" (ia_port c) ++ "/health") w1
            = (Some v, w2) /\ (value_get "version" v ≫= as_str) = Some cargo_pkg_version
      end
  end.

Lemma bind_failed_spec c addr err s r s' :
  bind_failed c addr err s = (r, s') -> slot_of s = None ->
  env_of s' = env_of s /\ slot_of s' = None /\ api_started c r s' /\
  (io_kind err <> AddrInUse -> is_ok r = false).
Proof.
  intros H Hs. unfold bind_failed in H. run_bind H adopted s1 as Ea.
  assert (slot_of s1 = slot_of s /\ env_of s1 = env_of s /\
    forall st, adopted = Some st -> io_kind err = AddrInUse /\
      adopt_existing_api_runtime (public_url_host (ia_host c)) (ia_port c) (snd (snd s))
      = (Some st, snd (snd s1))) as (Hs1 & He1 & Ha).
  { destruct (io_kind err); [|injection Ea as <- <-..]; [|split_and!; [done..|by intros ?]|
      split_and!; [done..|by intros ?]].
    apply api_outside_run in Ea as (? & ? & Ea). split_and!; [done..|].
    intros st ->. done. }
  destruct adopted as [st|].
  - run_bind H u s2 as El. injection H as <- <-. apply logged_frame in El as [Hs2 He2].
    destruct (Ha st eq_refl) as [Hk Hadopt].
    split_and!; [congruence|congruence| |congruence].
    unfold api_started. rewrite Hs2, Hs1, Hs.
    apply adopt_existing_spec in Hadopt as (_ & Hx & Hp & _ & v & Hg & Hv).
    split_and!; [done..|]. eauto.
  - run_bind H u s2 as El. injection H as <- <-. apply logged_frame in El as [Hs2 He2].
    split_and!; [congruence|congruence| |done]. unfold api_started. by rewrite Hs2, Hs1, Hs.
Qed.

Lemma serve_listener_spec c l s r s' :
  serve_listener c l s = (r, s') -> slot_of s = None ->
  env_of s' = env_of s /\
  ((slot_of s' = None /\ is_ok r = false) \/
   exists h, slot_of s' = Some h /\ r = Ok (status_of_handle h) /\ ah_bind_host h = ia_host c /\
     ah_public_host h = public_url_host (ia_host c) /\ ah_port h = ia_port c).
Proof.
  intros H Hs. unfold serve_listener in H. run_bind H nb s1 as En.
  apply api_outside_run in En as (Hs1 & He1 & _).
  destruct nb; [|injection H as <- <-; split; [done|left; split; [congruence|done]]].
  run_bind H started s2 as Et. apply api_outside_run in Et as (Hs2 & He2 & _).
  run_bind H thread s3 as Ep. apply api_outside_run in Ep as (Hs3 & He3 & _).
  destruct thread as [t|]; [|injection H as <- <-; split; [congruence|left; split; [congruence|done]]].
  run_bind H u1 s4 as E4. injection E4 as <- <-.
  run_bind H web s5 as E5. apply api_outside_run in E5 as (Hs5 & He5 & _).
  run_bind H u2 s6 as E6. apply logged_frame in E6 as [Hs6 He6]. injection H as <- <-.
  unfold env_of, slot_of in *; cbn in *. split; [congruence|]. right. eexists.
  split; [rewrite Hs6, Hs5; reflexivity|]. done.
Qed.

(** The cases of a start. *)
Lemma api_start_spec c s r s' :
  api_start_background c s = (r, s') ->
  (exists e, ia_validate_bind c = Err e /\ r = Err e /\ s' = s) \/
  (exists h, slot_of s = Some h /\ r = Ok (status_of_handle h) /\ s' = s) \/
  (slot_of s = None /\ api_started c r s' /\
   (env_of s' = env_of s \/
    env_of s' = foldl (fun env '(k, v) => <[k := v]> env) (env_of s) (api_env c)) /\
   (forall st, slot_of s' <> None -> r = Ok st -> api_server_status s' = (st, s'))).
Proof.
  intros H. unfold api_start_background in H.
  destruct (ia_validate_bind c) as [[]|e]; [|injection H as <- <-; left; eauto].
  destruct (fst s) as [h|] eqn:Hs; [injection H as <- <-; right; left; eauto|].
  right. right. split; [done|]. run_bind H u1 s1 as E1.
  apply logged_frame in E1 as [Hs1 He1]. unfold slot_of in Hs1. rewrite Hs in Hs1.
  unfold api_socket_addr in H. destruct (parse_socket_addr _) as [addr|] eqn:Ep; cycle 1.
  { injection H as <- <-. unfold api_started, slot_of. rewrite Hs1. split_and!; [done|by left|done]. }
  run_bind H u2 s2 as E2. destruct s1 as [slot1 [env1 w1]]. cbn in *. subst slot1.
  injection E2 as <- <-. run_bind H bound s3 as E3.
  apply api_outside_run in E3 as (Hs3 & He3 & Hb). cbn in *. subst env1.
  destruct bound as [l|err].
  - apply serve_listener_spec in H as (He & Hcases); [|done].
    assert (api_started c r s') as Hst.
    { unfold api_started. destruct Hcases as [[-> Hr]|(h & -> & -> & H1 & H2 & H3)];
        [by destruct r|]. split_and!; [done..|]. exists addr, l. do 2 eexists.
      split; [exact Hb|]. by eapply parse_host_port_port. }
    split_and!; [done|right; congruence|]. intros st Hn ->. unfold api_server_status.
    destruct Hcases as [[? _]|(h & Hh & Hr & _)]; [done|]. unfold slot_of in Hh. rewrite Hh.
    by injection Hr as ->.
  - apply bind_failed_spec in H as (He & Hn & Hst & _); [|done].
    split_and!; [done|right; congruence|]. intros st Hn'. by rewrite Hn in Hn'.
Qed.

Lemma api_status_keeps : frames fst api_server_status.
Proof.
  intros s a s'. unfold api_server_status. destruct (fst s) as [h|] eqn:E; [by intros [= _ <-]|].
  destruct (api_outside _ s) as [x s1] eqn:Ea. intros [= _ <-]. rewrite <- E.
  by apply api_outside_run in Ea as [? _].
Qed.

(** After a stop the slot is empty, whatever was in it, and the status given
    is not that of a server of this process. *)
Lemma api_stop_empties s st s' :
  api_stop_background s = (st, s') ->
  slot_of s' = None /\ env_of s' = env_of s /\ (as_running st = true -> as_external st = true).
Proof.
  intros H. unfold api_stop_background in H. run_bind H slot s1 as E1. injection E1 as <- <-.
  run_bind H u s2 as E2. injection E2 as <- <-. run_bind H u3 s3 as E3.
  assert (slot_of s3 = None /\ env_of s3 = env_of s) as [Hs Hv].
  { destruct (fst s) as [h|]; [|injection E3 as <- <-; done].
    by apply api_outside_run in E3 as (? & ? & _). }
  unfold api_server_status in H. unfold slot_of in Hs. rewrite Hs in H.
  destruct (api_outside _ s3) as [adopted s4] eqn:E4. injection H as <- <-.
  apply api_outside_run in E4 as (Hs4 & He4 & Ea). split_and!;
    [unfold slot_of in *; congruence|congruence|].
  destruct adopted as [st|]; [|done]. apply adopt_existing_spec in Ea. tauto.
Qed.

(** ** Properties *)

(** Starting the internal API. A configuration that may not be bound
    changes nothing. An occupied slot answers the running server, whatever the
    configuration asked for. Otherwise, with the address published in the
    environment, either the slot is filled, with a server bound by the
    operating system on the configured port and a status that
    [api_server_status] repeats, or it stays empty: the answer is then an error
    or the status of another instance that answered on that port with this
    very version. *)
Theorem api_start_cases c s r s' :
  api_start_background c s = (r, s') ->
  (exists e, ia_validate_bind c = Err e /\ r = Err e /\ s' = s) \/
  (exists h, slot_of s = Some h /\ r = Ok (status_of_handle h) /\ s' = s) \/
  (slot_of s = None /\ api_started c r s' /\
   (env_of s' = env_of s \/
    env_of s' = foldl (fun env '(k, v) => <[k := v]> env) (env_of s) (api_env c)) /\
   (forall st, slot_of s' <> None -> r = Ok st -> api_server_status s' = (st, s'))).
Proof. apply api_start_spec. Qed.

End ApiServer.
