(* ===== verification/WebProxy.v ===== *)
(** * Web server: the proxy in front of the internal API

    The request side of [internal_api/web_server.rs]: the base URL the proxy
    forwards to, the URL and the headers of a forwarded request, the two health
    replies, the in-process command route and the route table. Reading a request
    body, sending a request (reqwest) and building a reply (the http crate) are
    the class [ProxyWorld]. *)

From Stdlib Require Import Ascii.
From S2P Require Import Prelude RustStr Json NetAddr NetBind RuntimeSettings.
From S2P Require Import ServiceConfigs RuntimeStore AppLog WebAssets WebhookRoutes InternalRoutes.

#[local] Open Scope string_scope.

(** ** Base URLs *)

(*| src-tauri/src/internal_api/web_server.rs 822-836 normalize_client_base_url *)
Definition normalize_client_base_url (value : string) : string :=
  let trimmed := trim value in
  let normalized := if is_empty trimmed then "http://127.0.0.1:61001" else trimmed in
  trim_end_str "/__internal_api" (trim_end_char "/"
    (replace "http://:::" "http://127.0.0.1:"
      (replace "http://[::]:" "http://127.0.0.1:"
        (replace "http://0.0.0.0:" "http://127.0.0.1:" normalized)))).

(** The address of the internal API itself. *)
Definition derived_api_url (c : InternalApiConfig) : string :=
  "http://" ++ public_url_host (ia_host c) ++ ":" ++ show_N (ia_port c).

(*| src-tauri/src/internal_api/web_server.rs 641-662 resolve_proxy_api_base_url *)
Definition resolve_proxy_api_base_url (s : RuntimeSettings) (web_port : N)
    (internal_config : InternalApiConfig) : string :=
  let configured := normalize_client_base_url (internal_api_base_url s) in
  if blank configured || contains (":" ++ show_N web_port) configured
     || ends_with "/__internal_api" configured || ends_with "/__internal_api/" configured
  then derived_api_url internal_config else configured.

(** The path and the query of a request's URI. *)
Record uri : Type := { uri_path : string; uri_query : option string }.

(*| src-tauri/src/internal_api/web_server.rs 624-638 upstream_url *)
Definition upstream_url (api_base_url : string) (u : uri) : string :=
  let path := unwrap_or (uri_path u) (strip_prefix "/__internal_api" (uri_path u)) in
  let path := if is_empty path then "/" else path in
  let query := unwrap_or "" ((fun q => "?" ++ q) <$> uri_query u) in
  trim_end_char "/" api_base_url ++ path ++ query.

(** The first of two variables that is set. *)
Definition env_first (env : Env) (a b : string) : option string := or_else (env !! a) (env !! b).

(*| src-tauri/src/internal_api/web_server.rs 795-802 web_bind_host_from_env *)
Definition web_bind_host_from_env (env : Env) : string :=
  unwrap_or "0.0.0.0" (opt_filter (fun v => negb (is_empty v))
    (trim <$> env_first env "TUNNARA_CONSOLE_WEB_HOST" "APP_WEB_HOST")).

(*| src-tauri/src/internal_api/web_server.rs 804-810 web_port_from_env *)
Definition web_port_from_env (env : Env) : N :=
  unwrap_or 61002%N (env_first env "TUNNARA_CONSOLE_WEB_PORT" "APP_WEB_PORT" ≫= (fun v => parse_u16 (trim v))).

(** ** Forwarding a request *)

(** A forwarded request: the headers in the order they are added. *)
Record upstream_request : Type := {
  ur_method : string;
  ur_url : string;
  ur_body : string;
  ur_headers : list (string * string);
}.

(** A reply whose body may still fail to arrive. *)
Record upstream_reply : Type := {
  up_status : N;
  up_content_type : option string;
  up_body : result string string;
}.

Class ProxyWorld (W : Type) : Type := {
  (** a request's body, and [axum::body::to_bytes] with its limit *)
  body_stream : Type;
  to_bytes : body_stream -> N -> St W (result string string);
  (** [reqwest::Method::from_bytes] *)
  method_from_bytes : string -> result string unit;
  send_upstream : upstream_request -> St W (result string upstream_reply);
  (** [HeaderValue::from_bytes] succeeds *)
  header_value_ok : string -> bool;
  (** [Response::builder]'s [body] *)
  build_response : web_reply -> result string web_reply;
}.

(*| src-tauri/src/internal_api/web_server.rs 43-50 WebProxyState *)
Record WebProxyState : Type := {
  ps_api_base_url : string;
  ps_api_token_header : string;
  ps_api_token : string;
  ps_command_state : InternalApiState;
}.

Section Proxy.
Context `{HR : HttpRequests} `{BI : BuildInfo} {W : Type} `{LO : LogOs W} `{PW : ProxyWorld W}.

Definition BODY_LIMIT : N := 10 * 1024 * 1024.

(** [StatusCode::from_u16] *)
Definition status_from_u16 (n : N) : option N := bool_then ((100 <=? n) && (n <? 1000))%N n.

(** The two headers kept from the client, and the token of the settings. *)
(*| src-tauri/src/internal_api/web_server.rs 571-582 proxy_internal_api *)
Definition upstream_headers (ps : WebProxyState) (headers : header_map) : list (string * string) :=
  let kept name := match header_str headers name with Some v => [(name, v)] | None => [] end in
  let token := if blank (ps_api_token ps) || blank (ps_api_token_header ps) then []
               else [(trim (ps_api_token_header ps), trim (ps_api_token ps))] in
  app (kept "accept") (app (kept "content-type") token).

(** The reply made of the upstream's. *)
(*| src-tauri/src/internal_api/web_server.rs 595-622 proxy_internal_api *)
Definition proxied_reply (up : upstream_reply) : web_reply :=
  match up_body up with
  | Err err => text_reply 502 ("Falha ao ler resposta da API interna pelo proxy: " ++ err)
  | Ok bytes =>
      let reply := {|
        wr_status := unwrap_or 502%N (status_from_u16 (up_status up));
        wr_content_type := opt_filter header_value_ok (up_content_type up);
        wr_cache_control := Some no_store; wr_body := bytes |} in
      match build_response reply with
      | Ok reply => reply
      | Err err => text_reply 500 ("Falha ao montar resposta do proxy: " ++ err)
      end
  end.

(*| src-tauri/src/internal_api/web_server.rs 540-622 proxy_internal_api *)
Definition proxy_internal_api (ps : WebProxyState) (method : string) (u : uri)
    (headers : header_map) (body : body_stream) : St W web_reply :=
  let url := upstream_url (ps_api_base_url ps) u in
  bytes ← to_bytes body BODY_LIMIT;
  match bytes with
  | Err err => mret (text_reply 400 ("Falha ao ler corpo da requisição do proxy: " ++ err))
  | Ok bytes =>
      match method_from_bytes method with
      | Err err => mret (text_reply 405 ("Método HTTP inválido no proxy: " ++ err))
      | Ok _ =>
          sent ← send_upstream {| ur_method := method; ur_url := url; ur_body := bytes;
                                  ur_headers := upstream_headers ps headers |};
          mret (match sent with
                | Err err => text_reply 502
                    ("Falha ao acessar API interna pelo proxy em " ++ url ++ ": " ++ err)
                | Ok up => proxied_reply up
                end)
      end
  end.

Definition json_body_reply (v : value) : web_reply := {|
  wr_status := 200; wr_content_type := Some "application/json; charset=utf-8";
  wr_cache_control := Some no_store; wr_body := json_to_string v |}.

(*| src-tauri/src/internal_api/web_server.rs 469-493 web_health *)
Definition web_health (env : Env) : web_reply :=
  json_body_reply (Object [("ok", Bool true); ("service", String_ "tunnara-console-web-proxy");
    ("version", String_ cargo_pkg_version); ("web_port", Number (PosInt (web_port_from_env env)));
    ("api_base_url", String_ (normalize_client_base_url
       (env_or env "TUNNARA_CONSOLE_API_BASE_URL" "http://127.0.0.1:61001")));
    ("bind_host", String_ (web_bind_host_from_env env)); ("lan_expected", Bool true)]).

(*| src-tauri/src/internal_api/web_server.rs 496-518 web_internal_health *)
Definition web_internal_health (ps : WebProxyState) : web_reply :=
  let st := ps_command_state ps in
  json_body_reply (Object [("ok", Bool true); ("service", String_ "internal-api-via-webport");
    ("version", String_ cargo_pkg_version); ("host", String_ (is_host st));
    ("port", Number (PosInt (is_port st))); ("started_at", String_ (is_started_at st));
    ("transport", String_ "in-process")]).

(** ** Commands *)

(*| src-tauri/src/internal_api/app_commands.rs 20-25 CommandRequest *)
Record CommandRequest : Type := { cr_command : string; cr_args : members }.

(*| src-tauri/src/internal_api/app_commands.rs 27-34 CommandResponse *)
Record CommandResponse : Type := {
  co_ok : bool;
  co_result : option value;
  co_error : option string;
}.

(** Its JSON: the absent members are left out. *)
Definition command_response_json (r : CommandResponse) : value :=
  Object (("ok", Bool (co_ok r))
    :: app (match co_result r with Some v => [("result", v)] | None => [] end)
           (match co_error r with Some e => [("error", String_ e)] | None => [] end)).

(** What runs a command: its name and its arguments. *)
Definition command_runner : Type := InternalApiState -> string -> members -> St W (result string value).

Definition command_reply (r : result string value) : api_reply :=
  match r with
  | Ok v => JsonReply 200 (command_response_json
              {| co_ok := true; co_result := Some v; co_error := None |})
  | Err e => JsonReply 400 (command_response_json
              {| co_ok := false; co_result := None; co_error := Some e |})
  end.

(*| src-tauri/src/internal_api/app_commands.rs 36-55 command *)
Definition api_command (execute_command : command_runner) (st : InternalApiState)
    (rq : CommandRequest) : St W api_reply :=
  r ← execute_command st (cr_command rq) (cr_args rq); mret (command_reply r).

(*| src-tauri/src/internal_api/web_server.rs 520-538 web_command *)
Definition web_command (execute_command : command_runner) (ps : WebProxyState)
    (rq : CommandRequest) : St W api_reply :=
  r ← execute_command (ps_command_state ps) (cr_command rq) (cr_args rq); mret (command_reply r).

End Proxy.

(** ** The route table *)

Inductive web_endpoint : Type :=
| WebIndex | WebHealth | WebInternalHealth | WebCommand | ProxyInternalApi
| RootAssets | RootBranding | RootIcons | Manifest | DisabledServiceWorker | WebAsset.
#[export] Instance web_endpoint_eq_dec : EqDecision web_endpoint.
Proof. solve_decision. Defined.

(** [None] is [any]: a route for every method. *)
(*| src-tauri/src/internal_api/web_server.rs 444-467 router *)
Definition web_router : list ((option route_method * string) * web_endpoint) := [
  ((Some RGet, "/"), WebIndex);
  ((Some RGet, "/index.html"), WebIndex);
  ((Some RGet, "/__web_health"), WebHealth);
  ((Some RGet, "/__internal_api/health"), WebInternalHealth);
  ((Some RPost, "/__internal_api/api/command"), WebCommand);
  ((None, "/__internal_api"), ProxyInternalApi);
  ((None, "/__internal_api/"), ProxyInternalApi);
  ((None, "/__internal_api/*path"), ProxyInternalApi);
  ((Some RGet, "/assets/*path"), RootAssets);
  ((Some RGet, "/branding/*path"), RootBranding);
  ((Some RGet, "/icons/*path"), RootIcons);
  ((Some RGet, "/manifest.webmanifest"), Manifest);
  ((Some RGet, "/sw.js"), DisabledServiceWorker);
  ((Some RGet, "/*path"), WebAsset)].

(** ** Properties *)

(** The proxy's base URL. It is the address of the internal API itself, or
    the configured one, brought to a form that loops neither through the port of
    the web server nor through its [/__internal_api] prefix; and the request that
    leaves the proxy has the path and the query of the client's, without the
    prefix and with exactly one base in front. When the configured URL is blank
    and the web server's port is not a prefix of 61001, the proxy calls port
    61001, whatever port the internal API listens on. *)
Theorem proxy_target s web_port ic u :
  let base := resolve_proxy_api_base_url s web_port ic in
  (base = derived_api_url ic \/
   base = normalize_client_base_url (internal_api_base_url s) /\
   contains (":" ++ show_N web_port) base = false /\
   ends_with "/__internal_api" base = false) /\
  (blank (internal_api_base_url s) = true ->
   contains (":" ++ show_N web_port) "http://127.0.0.1:61001" = false ->
   base = "http://127.0.0.1:61001") /\
  (forall p, uri_path u = "/__internal_api" ++ p ->
   upstream_url base u = trim_end_char "/" base ++ (if is_empty p then "/" else p)
     ++ match uri_query u with Some q => "?" ++ q | None => "" end).
Proof.
  cbv zeta. split_and!.
  - unfold resolve_proxy_api_base_url.
    destruct (_ || _) eqn:E; [by left|right].
    apply orb_false_iff in E as [[[_ E1]%orb_false_iff E2]%orb_false_iff _]. done.
  - intros Hb Hp. unfold resolve_proxy_api_base_url.
    assert (normalize_client_base_url (internal_api_base_url s) = "http://127.0.0.1:61001") as ->.
    { unfold normalize_client_base_url. rewrite is_empty_trim, Hb. reflexivity. }
    by rewrite Hp.
  - intros p Hp. unfold upstream_url. rewrite Hp, strip_prefix_app. cbn [unwrap_or].
    by destruct (uri_query u).
Qed.

Section ProxyGuard.
Context `{HR : HttpRequests} `{BI : BuildInfo} {W : Type}.
Context `{AW : ApiWorld W} `{LO : !LogOs W} `{PW : ProxyWorld W}.

(** A request with the headers the proxy added. *)
Definition delivered (headers : list (string * string)) (rq : request) : Prop :=
  forall n v, (n, v) ∈ headers -> header_str (rq_headers rq) n = Some v.

(** C26. The proxy opens the token guard. Of a client's headers only [accept]
    and [content-type] reach the internal API; the token of the settings is
    added to every forwarded request, so that the guard of an API configured by
    the same settings lets it through to its handler. The web server's own
    command route answers what that guarded API would answer an authorised
    caller, and asks for no token. *)
Theorem proxy_passes_guard env s ps headers rq execute_command rc w :
  ps_api_token_header ps = internal_api_token_header s -> ps_api_token ps = internal_api_token s ->
  blank (internal_api_token s) = false ->
  blank (internal_api_token_header s) = false ->
  trim (internal_api_token_header s) = internal_api_token_header s ->
  header_name_ok (internal_api_token_header s) = true ->
  delivered (upstream_headers ps headers) rq ->
  let config := ia_from_runtime_settings env s in
  (forall n v, (n, v) ∈ upstream_headers ps headers ->
    (n ∈ ["accept"; "content-type"] /\ header_str headers n = Some v) \/
    (n = internal_api_token_header s /\ v = trim (internal_api_token s))) /\
  (forall next, token_guard config rq next w = next w) /\
  token_guard config rq (api_command execute_command (ps_command_state ps) rc) w
  = web_command execute_command ps rc w.
Proof.
  cbv zeta. intros Hh Ht Hbt Hbh Htrim Hok Hd.
  assert (forall next, token_guard (ia_from_runtime_settings env s) rq next w = next w) as Hg.
  { intros next. destruct (sec_require_token (ia_security (ia_from_runtime_settings env s))) eqn:Er;
      [|unfold token_guard; by rewrite Er].
    apply guard_authorized; [done|]. unfold authorized, configured_token, received_token.
    assert (header_str (rq_headers rq) (internal_api_token_header s)
            = Some (trim (internal_api_token s))) as Hrq.
    { apply Hd. unfold upstream_headers. rewrite Hh, Ht, Hbt, Hbh, Htrim. cbn [orb].
      rewrite !elem_of_app. right. right. by left. }
    cbn [ia_from_runtime_settings ia_security sec_token sec_token_header].
    rewrite Hbt, Hok, Hrq. cbn [negb bool_then unwrap_or].
    by rewrite !trim_trim, is_empty_trim, Hbt, String.eqb_refl. }
  split_and!; [|exact Hg|by rewrite Hg].
  intros n v. unfold upstream_headers. rewrite Hh, Ht, Hbt, Hbh, Htrim. cbn [orb].
  rewrite !elem_of_app, list_elem_of_singleton.
  intros [H|[H|[= -> ->]]]; [| |by right];
    (destruct (header_str headers _) as [x|] eqn:E; [|by apply elem_of_nil in H]);
    apply list_elem_of_singleton in H as [= -> ->]; left; split; [set_solver|done|set_solver|done].
Qed.

End ProxyGuard.
