(* ===== verification/WebServer.v ===== *)
(** * Web server: its life cycle

    [internal_api/web_server.rs]: start, stop, status and adoption of an instance
    that another process already runs, over the runtime slot, the environment and
    the outside world. The settings are read through [RuntimeStore], the listener
    comes from [NetBind], and what the threads serve is in [WebProxy]. The
    mutexes are not modelled: starts are serialised by the start lock. *)

From Stdlib Require Import Ascii.
From S2P Require Import Prelude RustStr Json NetAddr NetBind RuntimeSettings.
From S2P Require Import ServiceConfigs RuntimeStore AppLog ServiceLifecycle.
From S2P Require Import WebAssets WebhookRoutes InternalRoutes WebProxy.

#[local] Open Scope string_scope.
#[local] Open Scope tunnara_scope.

Class WebServerWorld (W : Type) `{SW : ServerWorld W} : Type := {
  (** starting the thread that serves the router on a listener, which it owns:
      name, host, port, listener, proxy state and start time *)
  spawn_web : string -> string -> N -> listener -> WebProxyState -> string ->
    St W (result string server_thread);
  (** dropping a handle: its thread is told to stop and not waited for *)
  abandon_thread : server_thread -> St W unit;
  (** the client of the probes, and the body of a successful GET within 900 ms *)
  probe_client : Type;
  build_probe_client : St W (option probe_client);
  probe_get : probe_client -> string -> St W (option string);
  build_http_client : St W (result string unit);
  serde_from_str : string -> option value;
}.

(*| src-tauri/src/internal_api/web_server.rs 63-72 WebRuntimeStatus *)
Record WebRuntimeStatus : Type := {
  wst_running : bool;
  wst_host : string;
  wst_port : N;
  wst_url : option string;
  wst_started_at : option string;
  wst_external : bool;
  wst_message : option string;
}.

Definition web_not_running (host : string) (port : N) (message : option string) :
    WebRuntimeStatus := {|
  wst_running := false; wst_host := host; wst_port := port; wst_url := None;
  wst_started_at := None; wst_external := false; wst_message := message |}.

(*| src-tauri/src/internal_api/web_server.rs 664-668 web_bind_host *)
Definition web_bind_host (s : RuntimeSettings) : string :=
  normalize_bind_host (trim (local_web_host s)).

(*| src-tauri/src/internal_api/web_server.rs 283-287 web_status_matches_config *)
Definition web_status_matches_config (running_host configured_host : string) : bool :=
  String.eqb running_host configured_host
  || (is_wildcard_host configured_host && negb (is_loopback_host running_host)).

(*| src-tauri/src/internal_api/web_server.rs 428-432 should_bind_loopback_mirror *)
Definition web_should_mirror (configured_host effective_host : string) : bool :=
  is_wildcard_host configured_host && negb (is_wildcard_host effective_host)
  && negb (is_loopback_host effective_host).

(*| src-tauri/src/internal_api/web_server.rs 434-442 loopback_url_for *)
Definition loopback_url_for (host : string) (port : N) : option string :=
  bool_then (negb (is_wildcard_host host) && negb (is_loopback_host host))
    ("http://127.0.0.1:" ++ show_N port).

Section WebServer.
Context `{BI : BuildInfo} {W : Type} `{OS : ConsoleOs W} `{LO : !LogOs W}.
Context `{WW : WebServerWorld W}.
Context (state : SharedState).

(*| src-tauri/src/internal_api/web_server.rs 27-40 WebRuntimeHandle *)
Record WebRuntimeHandle : Type := {
  wrh_host : string;
  wrh_port : N;
  wrh_started_at : string;
  wrh_thread : server_thread;
  wrh_url : string;
  wrh_loopback : option server_thread;
}.

(*| src-tauri/src/internal_api/web_server.rs 74-82 WebBindResult *)
Inductive WebBindResult : Type :=
| Bound (host : string) (port : N) (url : string) (l : listener)
| External (status : WebRuntimeStatus).

(** The runtime slot, the environment and the outside world. *)
Definition web_state : Type := option WebRuntimeHandle * (Env * W).

Definition web_proc {A} (c : St (Env * W) A) : St web_state A := fun s =>
  let '(a, p) := c (snd s) in (a, (fst s, p)).
Definition web_os {A} (c : St W A) : St web_state A := web_proc (os c).
Definition set_web_slot (h : option WebRuntimeHandle) : St web_state unit := fun s => ((), (h, snd s)).

(*| src-tauri/src/internal_api/web_server.rs 904-922 log_runtime_event *)
Definition web_log (level message : string) (details : value) : St W unit :=
  log_event state {|
    log_level := level; log_category := "web-server"; log_message := message;
    log_source := Some "internal_api::web_server"; log_route := None; log_details := Some details |}.

(*| src-tauri/src/internal_api/web_server.rs 812-816 socket_addr *)
Definition web_socket_addr (host : string) (port : N) : result string SocketAddr :=
  ok_or ("Endereço do servidor web inválido: " ++ addr_parse_error)
    (parse_socket_addr (host ++ ":" ++ show_N port)).

(** ** Another instance *)

(*| src-tauri/src/internal_api/web_server.rs 876-902 probe_template_webport *)
Definition recognises_webport (body : string) : bool :=
  match (v ← serde_from_str body; value_get "service" v) ≫= as_str with
  | Some service => bool_decide (service ∈ ["tunnara-console-web-proxy"; "internal-api-via-webport"])
  | None => false
  end
  || (let normalized := to_ascii_lowercase body in
      contains "tunnara console" normalized || contains "tunnara-console-web-proxy" normalized
      || contains "tunnara_console_web_runtime" normalized).

(*| src-tauri/src/internal_api/web_server.rs 876-902 probe_template_webport *)
Definition probe_template_webport (client : probe_client) (url : string) : St W bool :=
  body ← probe_get client url;
  mret (match body with Some body => recognises_webport body | None => false end).

Definition web_local_url (port : N) : string := "http://127.0.0.1:" ++ show_N port.

(*| src-tauri/src/internal_api/web_server.rs 853-875 adopt_existing_web_runtime *)
Definition adopt_existing_web_runtime (bind_host : string) (port : N) :
    St W (option WebRuntimeStatus) :=
  let local_url := web_local_url port in
  client ← build_probe_client;
  match client with
  | None => mret None
  | Some client =>
      health ← probe_template_webport client (local_url ++ "/__web_health");
      found ← (if health : bool then mret true else probe_template_webport client local_url);
      mret (bool_then found {|
        wst_running := true; wst_host := bind_host; wst_port := port; wst_url := Some local_url;
        wst_started_at := None; wst_external := true;
        wst_message := Some "Webport já estava ativo em outra instância do Tunnara Console; esta janela reutilizou a instância existente sem tentar abrir uma segunda porta." |})
  end.

Fixpoint adopt_attempts (left : nat) (bind_host : string) (port : N) :
    St W (option WebRuntimeStatus) :=
  match left with
  | 0 => mret None
  | S left' =>
      adopted ← adopt_existing_web_runtime bind_host port;
      match adopted with
      | Some status => mret (Some status)
      | None => _ ← thread_sleep_ms 250; adopt_attempts left' bind_host port
      end
  end.

(*| src-tauri/src/internal_api/web_server.rs 839-851 adopt_existing_web_runtime_with_retry *)
Definition adopt_existing_web_runtime_with_retry : string -> N -> St W (option WebRuntimeStatus) :=
  adopt_attempts 12.

(** ** Status and stop *)

(*| src-tauri/src/internal_api/web_server.rs 268-281 current_status *)
Definition web_status_of (h : WebRuntimeHandle) : WebRuntimeStatus := {|
  wst_running := true; wst_host := wrh_host h; wst_port := wrh_port h; wst_url := Some (wrh_url h);
  wst_started_at := Some (wrh_started_at h); wst_external := false; wst_message := None |}.

(*| src-tauri/src/internal_api/web_server.rs 219-239 status *)
Definition web_status : St web_state WebRuntimeStatus := fun s =>
  match fst s with
  | Some h => (web_status_of h, s)
  | None =>
      let host := web_bind_host_from_env (fst (snd s)) in
      let port := web_port_from_env (fst (snd s)) in
      let '(adopted, s) := web_os (adopt_existing_web_runtime host port) s in
      (unwrap_or (web_not_running (public_host_for_bind host) port None) adopted, s)
  end.

(** The loopback mirror is joined before the server. *)
(*| src-tauri/src/internal_api/web_server.rs 249-264 stop_background *)
Definition stop_web_handle (h : WebRuntimeHandle) : St W unit :=
  _ ← match wrh_loopback h with Some t => shutdown_join t | None => mret () end;
  shutdown_join (wrh_thread h).

(*| src-tauri/src/internal_api/web_server.rs 241-266 stop_background *)
Definition web_stop_background : St web_state WebRuntimeStatus := fun s =>
  (_ ← set_web_slot None;
   _ ← match fst s with Some h => web_os (stop_web_handle h) | None => mret () end;
   web_status) s.

(** ** Start *)

Definition bind_details (configured_host effective_host : string) (port : N)
    (rest : list (string * value)) : value :=
  Object (app [("configured_host", String_ configured_host); ("effective_host", String_ effective_host);
    ("configured_port", Number (PosInt port)); ("effective_port", Number (PosInt port))] rest).

(** The status of a start that gives up, with its message and log row. *)
Definition web_unavailable (configured_host primary_host : string) (port : N) (addr : SocketAddr)
    (err : io_error) (log_message message : string) : St W WebBindResult :=
  _ ← web_log "warning" log_message (bind_details configured_host primary_host port
    [("addr", String_ (socket_addr_text addr)); ("error", String_ (io_message err));
     ("auto_port", Bool false); ("fallback_to_localhost", Bool false);
     ("desktop_startup_blocked", Bool false)]);
  mret (External (web_not_running primary_host port (Some message))).

(** The port is in use: another instance of this program, or a stranger. *)
(*| src-tauri/src/internal_api/web_server.rs 710-759 bind_web_listener *)
Definition web_port_in_use (configured_host primary_host : string) (port : N) (addr : SocketAddr)
    (err : io_error) : St W WebBindResult :=
  adopted ← adopt_existing_web_runtime_with_retry primary_host port;
  match adopted with
  | Some status =>
      _ ← web_log "warning" "Servidor web/proxy já estava ativo; reutilizando instância existente"
        (bind_details configured_host primary_host port
          [("addr", String_ (socket_addr_text addr)); ("error", String_ (io_message err));
           ("external", Bool true); ("url", json_opt_str (wst_url status));
           ("fixed_port_policy", Bool true)]);
      mret (External status)
  | None =>
      web_unavailable configured_host primary_host port addr err
        "Webport/proxy não iniciado porque a porta configurada está ocupada"
        ("Webport/proxy não foi iniciado em " ++ socket_addr_text addr ++ ": " ++ io_message err
         ++ ". A aplicação desktop continuará funcionando. Ajuste a porta nos parâmetros ou encerre o processo que está usando esta porta.")
  end.

(*| src-tauri/src/internal_api/web_server.rs 683-790 bind_web_listener *)
Definition bind_web_listener (configured_host : string) (port : N) :
    St W (result string WebBindResult) :=
  let primary_host := normalize_bind_host configured_host in
  match web_socket_addr primary_host port with
  | Err e => mret (Err e)
  | Ok addr =>
      bound ← bind_fixed_service_listener primary_host port;
      match bound with
      | Ok p =>
          let url := "http://" ++ pl_public_host p ++ ":" ++ show_N (pl_port p) in
          _ ← match pl_note p with
              | Some note => web_log "warning" "Webport/proxy publicado em interface LAN alternativa"
                  (Object [("configured_host", String_ configured_host);
                    ("requested_host", String_ primary_host);
                    ("effective_host", String_ (pl_bind_host p));
                    ("configured_port", Number (PosInt port));
                    ("effective_port", Number (PosInt (pl_port p))); ("url", String_ url);
                    ("note", String_ note); ("fixed_port_policy", Bool true);
                    ("port_fallback", Bool false)])
              | None => mret ()
              end;
          mret (Ok (Bound (pl_bind_host p) (pl_port p) url (pl_listener p)))
      | Err err =>
          r ← (if decide (io_kind err = AddrInUse)
               then web_port_in_use configured_host primary_host port addr err
               else web_unavailable configured_host primary_host port addr err
                 "Webport/proxy indisponível sem bloquear a aplicação"
                 ("Webport/proxy não foi iniciado em " ++ socket_addr_text addr ++ ": "
                  ++ io_message err ++ ". A aplicação desktop continuará funcionando."));
          mret (Ok r)
      end
  end.

(*| src-tauri/src/internal_api/web_server.rs 289-349 spawn_web_server_thread *)
Definition spawn_web_server_thread (name host : string) (port : N) (l : listener)
    (ps : WebProxyState) (started_at : string) : St W (result string server_thread) :=
  r ← set_nonblocking l;
  match r with
  | Err err =>
      _ ← drop_listener l;
      mret (Err ("Falha ao configurar listener web em " ++ host ++ ":" ++ show_N port ++ ": " ++ err))
  | Ok _ =>
      t ← spawn_web name host port l ps started_at;
      mret (map_err (fun err => "Falha ao iniciar thread do servidor web: " ++ err) t)
  end.

(*| src-tauri/src/internal_api/web_server.rs 351-426 prepare_loopback_mirror *)
Definition web_loopback_mirror (configured_host effective_host : string) (port : N)
    (started_at : string) (ps : WebProxyState) : St W (option server_thread) :=
  if negb (web_should_mirror configured_host effective_host) then mret None else
  let binds := [("lan_bind", String_ (effective_host ++ ":" ++ show_N port));
                ("loopback_bind", String_ ("127.0.0.1:" ++ show_N port))] in
  bound ← bind_fixed_service_listener "127.0.0.1" port;
  match bound with
  | Err err =>
      _ ← web_log "warning" "Webport/proxy ativo na rede local, mas loopback está indisponível"
        (Object (app binds [("error", String_ (io_message err)); ("localhost_available", Bool false);
          ("hint", String_ "Outro processo pode estar usando 127.0.0.1 nesta porta. Acesse pelo IP local ou libere a porta para habilitar localhost.")]));
      mret None
  | Ok p =>
      t ← spawn_web_server_thread "tunnara-console-web-proxy-loopback" "127.0.0.1" port
            (pl_listener p) ps started_at;
      match t with
      | Ok thread =>
          _ ← web_log "info" "Webport/proxy também publicado no loopback local"
            (Object (app binds [("url", String_ (web_local_url port)); ("localhost_available", Bool true)]));
          mret (Some thread)
      | Err err =>
          _ ← web_log "warning" "Falha ao iniciar listener loopback auxiliar do Webport/proxy"
            (Object (app binds [("error", String_ err); ("localhost_available", Bool false)]));
          mret None
      end
  end.

(** The proxy of a listener, from the settings and the stored configuration. *)
(*| src-tauri/src/internal_api/web_server.rs 144-167 start_background *)
Definition web_proxy_state (s : RuntimeSettings) (bound_port : N) :
    St web_state (result string WebProxyState) :=
  internal_config ←? (r ← web_proc (resolve_internal_api_config state);
    mret (map_err (fun err =>
      "Falha ao resolver configuração da API interna para o proxy web: " ++ err) r));
  _ ←? (r ← web_os build_http_client;
    mret (map_err (fun err => "Falha ao preparar cliente HTTP do proxy web: " ++ err) r));
  match state with
  | None => mret (Err "Aplicação ainda não inicializada.")
  | Some ctx =>
      now ← web_os now_rfc3339;
      mret (Ok {|
        ps_api_base_url := resolve_proxy_api_base_url s bound_port internal_config;
        ps_api_token_header := internal_api_token_header s; ps_api_token := internal_api_token s;
        ps_command_state := {|
          is_db_path := ctx_db_path ctx; is_data_dir := ctx_data_dir ctx; is_started_at := now;
          is_host := ia_host internal_config; is_port := ia_port internal_config;
          is_config := internal_config |} |})
  end.

(** From a bound listener to a filled slot. *)
(*| src-tauri/src/internal_api/web_server.rs 144-217 start_background *)
Definition web_serve_bound (s : RuntimeSettings) (configured_host host : string) (port : N)
    (url : string) (l : listener) : St web_state (result string WebRuntimeStatus) :=
  proxy ← web_proxy_state s port;
  match proxy with
  | Err e => _ ← web_os (drop_listener l); mret (Err e)
  | Ok ps =>
      started_at ← web_os now_rfc3339;
      loopback ← web_os (web_loopback_mirror configured_host host port started_at ps);
      thread ← web_os (spawn_web_server_thread "tunnara-console-web-proxy" host port l ps started_at);
      match thread with
      | Err e =>
          _ ← web_os (match loopback with Some t => abandon_thread t | None => mret () end);
          mret (Err e)
      | Ok thread =>
          let h := {| wrh_host := host; wrh_port := port; wrh_started_at := started_at;
                      wrh_thread := thread; wrh_url := url; wrh_loopback := loopback |} in
          _ ← set_web_slot (Some h);
          _ ← web_os (web_log "info" "Servidor web iniciado com sucesso"
            (Object [("bind", String_ (host ++ ":" ++ show_N port)); ("url", String_ url);
                     ("loopback_url", json_opt_str (loopback_url_for host port));
                     ("api_proxy", String_ (ps_api_base_url ps))]));
          mret (Ok (web_status_of h))
      end
  end.

(** The settings, or the defaults when they cannot be loaded. *)
(*| src-tauri/src/internal_api/web_server.rs 106-108 start_background *)
Definition web_settings : St web_state RuntimeSettings :=
  loaded ← web_proc (load_settings state);
  env ← web_proc get_env;
  mret (match loaded with Ok payload => payload_settings payload | Err _ => settings_default env end).

(** The running server is already the one asked for. *)
(*| src-tauri/src/internal_api/web_server.rs 127-129 start_background *)
Definition web_already_running (configured_host : string) (port : N) (h : WebRuntimeHandle) : bool :=
  web_status_matches_config (wrh_host h) configured_host && (wrh_port h =? port)%N.

(** A start with settings that enable the server and no server to keep. *)
(*| src-tauri/src/internal_api/web_server.rs 134-217 start_background *)
Definition web_bind_and_serve (s : RuntimeSettings) : St web_state (result string WebRuntimeStatus) :=
  bound ←? web_os (bind_web_listener (web_bind_host s) (local_web_port s));
  match bound with
  | Bound host port url l => web_serve_bound s (web_bind_host s) host port url l
  | External status => mret (Ok status)
  end.

(*| src-tauri/src/internal_api/web_server.rs 101-217 start_background *)
Definition web_start_background : St web_state (result string WebRuntimeStatus) :=
  s ← web_settings;
  if negb (local_web_enabled s) then
    mret (Ok (web_not_running (local_web_host s) (local_web_port s)
                (Some "Webport/proxy está desabilitado nos parâmetros runtime.")))
  else
    slot ← (fun st => (fst st, st));
    match slot with
    | Some h =>
        if web_already_running (web_bind_host s) (local_web_port s) h then mret (Ok (web_status_of h))
        else
          _ ← web_stop_background;
          _ ← web_os (thread_sleep_ms 350);
          web_bind_and_serve s
    | None => web_bind_and_serve s
    end.

End WebServer.

(** ** Properties *)

Section WebServerLaws.
Context `{BI : BuildInfo} {W : Type} `{OS : ConsoleOs W} `{LO : !LogOs W}.
Context `{WW : WebServerWorld W}.
Context (state : SharedState).

Lemma web_proc_run {A} (c : St (Env * W) A) s a s' :
  web_proc c s = (a, s') -> fst s' = fst s /\ c (snd s) = (a, snd s').
Proof.
  destruct s as [slot p]. unfold web_proc. cbn. destruct (c p) as [b p1] eqn:E. by intros [= <- <-].
Qed.

Lemma web_os_run {A} (c : St W A) s a s' :
  web_os c s = (a, s') -> fst s' = fst s /\ fst (snd s') = fst (snd s) /\ c (snd (snd s)) = (a, snd (snd s')).
Proof. intros [H1 H2]%web_proc_run. apply os_run in H2 as [H2 H3]. done. Qed.

(** A failed bind leaves a status of a server that does not run in this
    process: it is another instance's, or it says that nothing runs. *)
Definition not_ours (st : WebRuntimeStatus) : Prop :=
  wst_running st = wst_external st /\ wst_started_at st = None.

Lemma adopt_existing_web_spec host port w st w' :
  adopt_existing_web_runtime host port w = (Some st, w') ->
  not_ours st /\ wst_external st = true /\ wst_host st = host /\ wst_port st = port /\
  wst_url st = Some (web_local_url port).
Proof.
  unfold adopt_existing_web_runtime. intros H. run_bind H client w1 as E1.
  destruct client as [client|]; [|done]. run_bind H health w2 as E2. run_bind H found w3 as E3.
  injection H as H <-. destruct found; [|done]. injection H as <-. done.
Qed.

Lemma adopt_attempts_spec n host port w st w' :
  adopt_attempts n host port w = (Some st, w') -> not_ours st /\ wst_port st = port.
Proof.
  revert w. induction n as [|n IH]; intros w; cbn [adopt_attempts]; [done|].
  intros H. run_bind H adopted w1 as E1. destruct adopted as [st1|].
  - injection H as -> ->. apply adopt_existing_web_spec in E1. tauto.
  - run_bind H u w2 as E2. by eapply IH.
Qed.

(** What [bind_web_listener] gives: a listener bound by the operating system on
    the configured port, or the status of no server of this process. *)
Lemma bind_web_listener_spec host port w r w' :
  bind_web_listener state host port w = (Ok r, w') ->
  match r with
  | Bound h p url l => p = port /\
      (h = normalize_bind_host host \/ is_wildcard_host (normalize_bind_host host) = true) /\
      exists addr w1 w2, tcp_bind addr w1 = (Ok l, w2) /\ sa_port addr = port
  | External st => not_ours st /\ wst_port st = port
  end.
Proof.
  unfold bind_web_listener. intros H. destruct (web_socket_addr _ _) as [addr|]; [|done].
  run_bind H bound w1 as Eb. destruct bound as [p|err].
  - run_bind H u w2 as El. injection H as <- _.
    apply prepared_listener in Eb as (Hp & addr' & w3 & Hb & Hport & _ & Hcase).
    rewrite normalize_bind_host_idem in Hcase. split_and!; [done| |eauto].
    destruct Hcase as [[_ H]|(_ & H & _)]; [by left|by right].
  - run_bind H r' w2 as Er. injection H as <- _. destruct (decide _) as [_|_].
    + unfold web_port_in_use in Er. run_bind Er adopted w3 as Ea. destruct adopted as [st|].
      * run_bind Er u w4 as El. injection Er as <- _. by apply adopt_attempts_spec in Ea.
      * unfold web_unavailable in Er. run_bind Er u w4 as El. by injection Er as <- _.
    + unfold web_unavailable in Er. run_bind Er u w4 as El. by injection Er as <- _.
Qed.

(** Calls that leave the runtime slot alone. *)
Lemma keeps_proc {A} (c : St (Env * W) A) : frames fst (web_proc c).
Proof. intros s a s' H. by apply web_proc_run in H as [? _]. Qed.
Lemma keeps_os {A} (c : St W A) : frames fst (web_os c).
Proof. apply keeps_proc. Qed.
#[local] Hint Resolve keeps_proc keeps_os : frames.

Lemma web_proxy_state_keeps s port : frames fst (web_proxy_state state s port).
Proof.
  unfold web_proxy_state. frame.
Qed.

Lemma web_settings_keeps : frames fst (web_settings state).
Proof. unfold web_settings. frame. Qed.

Lemma web_status_keeps : frames fst web_status.
Proof.
  intros s a s'. unfold web_status. destruct (fst s) as [h|] eqn:E; [by intros [= _ <-]|].
  destruct (web_os _ s) as [x s1] eqn:Ea. intros [= _ <-]. rewrite <- E. by eapply keeps_os.
Qed.

(** A stop empties the slot, whatever it held. *)
Lemma web_stop_empties s st s' : web_stop_background s = (st, s') -> fst s' = None.
Proof.
  unfold web_stop_background. intros H. run_bind H u s1 as E1. injection E1 as <- <-.
  run_bind H v s2 as E2. apply web_status_keeps in H as ->.
  destruct (fst s); [|by injection E2 as <- <-]. by apply keeps_os in E2 as ->.
Qed.

(** The outcome of a start that has to serve: a server of this process on the
    configured port, or an empty slot with an error or a status that claims no
    server of this process. *)
Definition web_started (s : RuntimeSettings) (r : result string WebRuntimeStatus)
    (st : web_state) : Prop :=
  match fst st with
  | Some h => r = Ok (web_status_of h) /\ wrh_port h = local_web_port s /\
      (wrh_host h = web_bind_host s \/ is_wildcard_host (web_bind_host s) = true) /\
      exists addr l w1 w2, tcp_bind addr w1 = (Ok l, w2) /\ sa_port addr = local_web_port s
  | None => forall status, r = Ok status -> not_ours status /\ wst_port status = local_web_port s
  end.

Lemma web_serve_bound_spec s ch host port url l st r st' :
  web_serve_bound state s ch host port url l st = (r, st') -> fst st = None ->
  (fst st' = None /\ is_ok r = false) \/
  exists h, fst st' = Some h /\ r = Ok (web_status_of h) /\ wrh_host h = host /\ wrh_port h = port.
Proof.
  unfold web_serve_bound. intros H Hs. run_bind H proxy s1 as E1.
  apply web_proxy_state_keeps in E1. destruct proxy as [ps|e]; cycle 1.
  { run_bind H u s2 as E2. apply keeps_os in E2. injection H as <- <-. left. split; [congruence|done]. }
  run_bind H started s2 as E2. apply keeps_os in E2. run_bind H loopback s3 as E3.
  apply keeps_os in E3. run_bind H thread s4 as E4. apply keeps_os in E4.
  destruct thread as [t|e]; cycle 1.
  { run_bind H u s5 as E5. apply keeps_os in E5. injection H as <- <-. left. split; [congruence|done]. }
  run_bind H u s5 as E5. injection E5 as <- <-. run_bind H v s6 as E6. apply keeps_os in E6.
  injection H as <- <-. right. eexists. split; [exact E6|]. done.
Qed.

Lemma web_bind_and_serve_spec s st r st' :
  web_bind_and_serve state s st = (r, st') -> fst st = None -> web_started s r st'.
Proof.
  unfold web_bind_and_serve. intros H Hs. apply try_inv in H as [(b & s1 & Eb & H)|(e & Eb & ->)].
  - apply web_os_run in Eb as (H1 & _ & Eb). apply bind_web_listener_spec in Eb.
    destruct b as [host port url l|status].
    + destruct Eb as (-> & Hh & Hb). apply web_serve_bound_spec in H as [[Hn Hr]|Hr]; [| |congruence].
      * unfold web_started. rewrite Hn. intros status ->. done.
      * destruct Hr as (h & Hh' & -> & Hhost & Hp). unfold web_started. rewrite Hh'.
        split_and!; [done|done| |destruct Hb as (addr & w1 & w2 & Hb); by exists addr, l, w1, w2].
        rewrite Hhost. unfold web_bind_host in *. by rewrite !normalize_bind_host_idem in Hh.
    + injection H as <- <-. unfold web_started. rewrite H1, Hs. by intros status' [= <-].
  - apply keeps_os in Eb. unfold web_started. rewrite Eb, Hs. done.
Qed.

(** Starting the web server. With the settings that load (or the
    defaults), a disabled server starts nothing and stops nothing; a running
    server that matches the configuration is kept; in every other case the old
    server is stopped first, and the start ends either with a server of this
    process on the configured port and host (another host only for a wildcard),
    bound by the operating system, or with an empty slot, an error or a status
    that claims no server of this process. *)
Theorem web_start_cases st r st' :
  web_start_background state st = (r, st') ->
  exists s st1, web_settings state st = (s, st1) /\ fst st1 = fst st /\
  ((local_web_enabled s = false /\ fst st' = fst st /\
    exists m, r = Ok (web_not_running (local_web_host s) (local_web_port s) (Some m))) \/
   (local_web_enabled s = true /\ fst st' = fst st /\
    exists h, fst st = Some h /\ r = Ok (web_status_of h) /\
      web_already_running (web_bind_host s) (local_web_port s) h = true) \/
   (local_web_enabled s = true /\ web_started s r st' /\
    (forall h, fst st = Some h ->
      web_already_running (web_bind_host s) (local_web_port s) h = false))).
Proof.
  unfold web_start_background. intros H. run_bind H s s1 as E1. exists s, s1.
  pose proof (web_settings_keeps _ _ _ E1) as Hk. split_and!; [done..|].
  destruct (local_web_enabled s) eqn:Een; cbn [negb] in H; cycle 1.
  { injection H as <- <-. left. split_and!; [done..|by eexists]. }
  right. run_bind H slot s2 as E2. injection E2 as <- <-. rewrite Hk in H.
  destruct (fst st) as [h|] eqn:Es.
  - destruct (web_already_running _ _ h) eqn:Er.
    + left. injection H as <- <-. split_and!; [done..|]. by exists h.
    + right. split_and!; [done| |by intros ? [= <-]].
      run_bind H stopped s3 as E3. apply web_stop_empties in E3.
      run_bind H u s4 as E4. apply keeps_os in E4.
      apply web_bind_and_serve_spec in H; [done|congruence].
  - right. split_and!; [done| |done]. by apply web_bind_and_serve_spec in H.
Qed.

(** The wait for an instance that is starting up: when no probe is answered,
    twelve rounds of 250 ms, so three seconds, and then the port counts as
    taken by a stranger. *)
Lemma adopt_retry_gives_up host port w (after_probe : W -> W) (after_sleep : W -> W) :
  (forall w, adopt_existing_web_runtime host port w = (None, after_probe w)) ->
  (forall w, thread_sleep_ms 250 w = ((), after_sleep w)) ->
  adopt_existing_web_runtime_with_retry host port w
  = (None, Nat.iter 12 (fun w => after_sleep (after_probe w)) w).
Proof.
  intros Hp Hs. unfold adopt_existing_web_runtime_with_retry.
  assert (forall n w, adopt_attempts n host port w
    = (None, Nat.iter n (fun w => after_sleep (after_probe w)) w)) as Hn; [|apply Hn].
  induction n as [|n IH]; intros v; [done|]. cbn [adopt_attempts].
  unfold mbind, st_bind. by rewrite Hp, Hs, IH, Nat.iter_succ_r.
Qed.

End WebServerLaws.
