(* ===== verification/WebSocketHub.v ===== *)
(** * The WebSocket service: [native_websocket/hub.rs] and the request half of
    [native_websocket/server.rs]

    The table of connected clients, registration and broadcast, the life of
    one socket, the token check and the route table. The static table is the
    first component of the state. The channels to the clients (tokio's mpsc),
    the socket itself and the iteration order of a [HashMap] are the class
    [SocketWorld]. *)

From Stdlib Require Import Ascii.
From S2P Require Import Prelude RustStr Json NetAddr NetBind RuntimeSettings.
From S2P Require Import ServiceConfigs RuntimeStore AppLog WebhookRoutes.

#[local] Open Scope string_scope.

(*| src-tauri/src/native_websocket/hub.rs 8-13 WebSocketClientInfo *)
Record WebSocketClientInfo : Type := {
  ci_id : string;
  ci_connected_at : string;
  ci_user_agent : option string;
}.

(** The sending half of the channel of a client, as a type of its own. *)
Class Channels : Type := { sender : Type }.

(*| src-tauri/src/native_websocket/hub.rs 15-18 WebSocketClient *)
Record WebSocketClient `{CH : Channels} : Type := {
  cl_info : WebSocketClientInfo;
  cl_sender : sender;
}.

(** The static table. *)
(*| src-tauri/src/native_websocket/hub.rs 20-24 CLIENTS *)
Definition Clients `{CH : Channels} : Type := gmap string WebSocketClient.

Class SocketWorld (W : Type) `{CH : Channels} : Type := {
  (** [sender.send(Message::Text(text)).is_ok()] *)
  channel_send : sender -> string -> St W bool;
  (** the entries of a table in the order its iterator gives *)
  hash_order : gmap string WebSocketClient -> list (string * WebSocketClient);
  clock_rfc3339 : St W string;
  (** a text frame sent on the socket itself, its outcome ignored *)
  socket_send_text : string -> St W unit;
  value_to_string : value -> string;
}.

Class SocketWorldLaws (W : Type) `{SK : SocketWorld W} : Prop := {
  hash_order_perm m : Permutation (hash_order m) (map_to_list m);
}.

Section Hub.
Context {W : Type} `{SK : SocketWorld W}.

Definition hstate : Type := gmap string WebSocketClient * W.

(*| src-tauri/src/native_websocket/hub.rs 26-37 register_client *)
Definition register_client (id : string) (user_agent : option string) (tx : sender) :
    St hstate WebSocketClientInfo := fun '(clients, w) =>
  let '(now, w) := clock_rfc3339 w in
  let info := {| ci_id := id; ci_connected_at := now; ci_user_agent := user_agent |} in
  (info, (<[id := {| cl_info := info; cl_sender := tx |}]> clients, w)).

(*| src-tauri/src/native_websocket/hub.rs 39-44 unregister_client *)
Definition unregister_client (id : string) : St hstate unit := fun '(clients, w) =>
  ((), (delete id clients, w)).

(*| src-tauri/src/native_websocket/hub.rs 46-53 list_clients *)
Definition list_clients (s : hstate) : list WebSocketClientInfo :=
  map (fun kc => cl_info (snd kc)) (hash_order (fst s)).

(** The sends of a broadcast: the number that succeeded, and the clients whose
    channel is closed. *)
Fixpoint send_all (text : string) (targets : list (string * WebSocketClient)) :
    St W (nat * list string) :=
  match targets with
  | [] => mret (0, [])
  | (id, client) :: rest =>
      sent ← channel_send (cl_sender client) text;
      others ← send_all text rest;
      mret (if (sent : bool) then (S (fst others), snd others)
            else (fst others, id :: snd others))
  end.

(*| src-tauri/src/native_websocket/hub.rs 55-72 broadcast_text *)
Definition broadcast_text (text : string) : St hstate nat := fun '(clients, w) =>
  let '((sent, disconnected), w) := send_all text (hash_order clients) w in
  (sent, (foldl (fun m id => delete id m) clients disconnected, w)).

(** ** One socket *)

(** What [receiver.next().await] gives: a frame, or the end of the stream (an
    error counts as the end). *)
Inductive frame : Type := TextFrame (text : string) | CloseFrame | OtherFrame.

Definition echo_json (text now : string) : value :=
  Object [("type", String_ "echo"); ("payload", String_ text); ("at", String_ now)].

(*| src-tauri/src/native_websocket/server.rs 303-312 handle_socket *)
Fixpoint socket_loop (frames : list frame) : St hstate unit :=
  match frames with
  | [] => mret ()
  | TextFrame text :: rest => fun '(clients, w) =>
      let '(now, w) := clock_rfc3339 w in
      (_ ← broadcast_text (value_to_string (echo_json text now)); socket_loop rest) (clients, w)
  | CloseFrame :: _ => mret ()
  | OtherFrame :: rest => socket_loop rest
  end.

Definition client_json (i : WebSocketClientInfo) : value :=
  Object [("id", String_ (ci_id i)); ("connected_at", String_ (ci_connected_at i));
          ("user_agent", opt_json (ci_user_agent i))].

(** [id] and [tx] are the fresh identifier and channel of the connection. The
    task that forwards the channel to the socket is not part of the state. *)
(*| src-tauri/src/native_websocket/server.rs 287-317 handle_socket *)
Definition handle_socket (id : string) (user_agent : option string) (tx : sender)
    (frames : list frame) : St hstate unit :=
  info ← register_client id user_agent tx;
  _ ← (fun '(clients, w) =>
         let hello := value_to_string (Object [("type", String_ "connection.accepted");
                                               ("client", client_json info)]) in
         let '(u, w) := socket_send_text hello w in (u, (clients, w)));
  _ ← socket_loop frames;
  unregister_client id.

(** ** Requests *)

(*| src-tauri/src/native_websocket/server.rs 319-340 validate_token *)
Definition websocket_validate_token `{HR : HttpRequests} (config : WebSocketConfig)
    (headers : header_map) (query : gmap string string) : result string unit :=
  if negb (ws_token_required config) then Ok ()
  else if blank (ws_token config) then Ok ()
  else
    let header_value := unwrap_or "" (header_str headers (trim (ws_token_header config))) in
    let query_value := unwrap_or "" (query !! trim (ws_token_query config)) in
    if String.eqb header_value (ws_token config) || String.eqb query_value (ws_token config)
    then Ok () else Err "Token do WebSocket ausente ou inválido.".

(*| src-tauri/src/native_websocket/server.rs 253-260 root *)
Definition websocket_root (config : WebSocketConfig) (s : hstate) : reply :=
  ok_json (Object [("service", String_ "websocket"); ("running", Bool true);
    ("path", String_ (ws_path config));
    ("clients", Number (PosInt (N.of_nat (length (list_clients s)))))]).

(*| src-tauri/src/native_websocket/server.rs 262-269 health *)
Definition websocket_health (config : WebSocketConfig) (s : hstate) : reply :=
  ok_json (Object [("ok", Bool true); ("service", String_ "websocket");
    ("path", String_ (ws_path config));
    ("clients", Number (PosInt (N.of_nat (length (list_clients s)))))]).

(*| src-tauri/src/native_websocket/server.rs 271-273 clients *)
Definition websocket_clients (s : hstate) : reply :=
  ok_json (Object [("items", Array (map client_json (list_clients s)))]).

(** The handler of the socket route: a refusal, or the upgrade of the
    connection, which then runs [handle_socket]. *)
(*| src-tauri/src/native_websocket/server.rs 275-285 ws_handler *)
Definition ws_handler `{HR : HttpRequests} (config : WebSocketConfig) (headers : header_map)
    (query : gmap string string) (id : string) (tx : sender) (frames : list frame) :
    St hstate (option reply) :=
  match websocket_validate_token config headers query with
  | Err message => mret (Some (unauthorized message))
  | Ok _ => _ ← handle_socket id (header_str headers "user-agent") tx frames; mret None
  end.

(** ** Lemmas *)

Lemma foldl_delete_lookup (ids : list string) : forall (m : gmap string WebSocketClient) i,
  foldl (fun m id => delete id m) m ids !! i = if decide (i ∈ ids) then None else m !! i.
Proof.
  induction ids as [|id ids IH]; intros m i; [by rewrite decide_False by apply not_elem_of_nil|].
  cbn [foldl]. rewrite IH. destruct (decide (i ∈ ids)) as [Hi|Hi].
  - rewrite decide_True; [done|by right].
  - destruct (decide (i = id)) as [->|Hne].
    + rewrite lookup_delete_eq, decide_True; [done|by left].
    + rewrite lookup_delete_ne by done. rewrite decide_False; [done|].
      intros [?|?]%elem_of_cons; done.
Qed.

Lemma send_all_spec text targets : forall w sent dead w',
  send_all text targets w = ((sent, dead), w') ->
  sent + length dead = length targets /\ sublist dead (map fst targets).
Proof.
  induction targets as [|[id c] rest IH]; intros w sent dead w' H; cbn [send_all] in H.
  { by injection H as <- <- _. }
  run_bind H ok w1. run_bind H o w2 as E. destruct o as [n l].
  apply IH in E as [Hn Hs]. destruct ok; injection H as <- <- _; cbn.
  - split; [lia|by constructor].
  - split; [lia|by constructor].
Qed.

Lemma send_all_alive text targets (alive : sender -> bool) : forall w sent dead w',
  (forall s w, fst (channel_send s text w) = alive s) ->
  send_all text targets w = ((sent, dead), w') ->
  dead = map fst (List.filter (fun kc => negb (alive (cl_sender (snd kc)))) targets).
Proof.
  intros w sent dead w' Ha. revert w sent dead w'.
  induction targets as [|[id c] rest IH]; intros w sent dead w' H; cbn [send_all] in H.
  { by injection H as <- <- _. }
  run_bind H b w1 as E1. run_bind H o w2 as E. destruct o as [n l]. apply IH in E as ->.
  specialize (Ha (cl_sender c) w). rewrite E1 in Ha. cbn in Ha. subst b. cbn.
  destruct (alive (cl_sender c)); by injection H as _ <- _.
Qed.

Section HubLaws.
Context `{SL : !SocketWorldLaws W}.

Lemma hash_order_elem m id c : (id, c) ∈ hash_order m <-> m !! id = Some c.
Proof. rewrite hash_order_perm. apply elem_of_map_to_list. Qed.

Lemma hash_order_keys m : NoDup (map fst (hash_order m)).
Proof. rewrite hash_order_perm. apply NoDup_fst_map_to_list. Qed.

(** ** Properties *)

(** A broadcast counts the clients it reached: every client is tried
    once, those whose channel is closed and only those leave the table, and
    the count is the number of clients that stay. When a send succeeds exactly
    on the live channels, the table keeps exactly the live clients. *)
Theorem broadcast_reaches_live text clients w sent clients' w' :
  broadcast_text text (clients, w) = (sent, (clients', w')) ->
  clients' ⊆ clients /\ sent = size clients' /\
  forall alive, (forall s w, fst (channel_send s text w) = alive s) ->
    forall id c, clients' !! id = Some c <-> clients !! id = Some c /\ alive (cl_sender c) = true.
Proof.
  unfold broadcast_text. destruct (send_all text (hash_order clients) w) as [[n dead] w1] eqn:E.
  intros [= -> <- ->]. set (clients' := foldl _ clients dead).
  pose proof (send_all_spec _ _ _ _ _ _ E) as [Hn Hd].
  assert (forall i, clients' !! i = if decide (i ∈ dead) then None else clients !! i) as Hl
    by (intros i; apply foldl_delete_lookup).
  assert (clients' ⊆ clients) as Hsub.
  { apply map_subseteq_spec. intros i c. rewrite Hl. by destruct (decide _). }
  split; [done|]. split.
  - assert (NoDup dead) as Hnd by (eapply sublist_NoDup; [apply hash_order_keys|done]).
    assert (forall ids (m : gmap string WebSocketClient), NoDup ids ->
      Forall (fun i => is_Some (m !! i)) ids ->
      size (foldl (fun m id => delete id m) m ids) + length ids = size m) as Hsz.
    { induction ids as [|i ids IH]; intros m Hi Hf; [cbn; lia|].
      apply NoDup_cons in Hi as [Hni Hi]. apply Forall_cons in Hf as [[c Hc] Hf].
      cbn [foldl length]. rewrite <- (insert_delete_id m i c Hc) at 2.
      rewrite map_size_insert_None by apply lookup_delete_eq.
      rewrite <- (IH (delete i m)); [lia|done|]. apply Forall_forall. intros j Hj.
      rewrite Forall_forall in Hf. rewrite lookup_delete_ne; [by apply Hf|by intros ->]. }
    assert (length (hash_order clients) = size clients) as Hlen.
    { rewrite hash_order_perm. apply length_map_to_list. }
    specialize (Hsz dead clients Hnd). rewrite Hlen in Hn. fold clients' in Hsz.
    rewrite Forall_forall in Hsz. rewrite <- Hsz in Hn; [lia|].
    intros i Hi. eapply elem_of_sublist in Hi; [|exact Hd].
    apply list_elem_of_fmap in Hi as ([j c] & -> & Hj). apply hash_order_elem in Hj. by eexists.
  - intros alive Ha id c. rewrite Hl. rewrite (send_all_alive _ _ alive _ _ _ _ Ha E).
    destruct (decide _) as [Hi|Hi].
    + split; [done|]. intros [Hc Hal]. exfalso.
      apply list_elem_of_fmap in Hi as ([j c2] & -> & Hj).
      apply list_elem_of_In, filter_In in Hj as [Hj Hneg]. apply list_elem_of_In, hash_order_elem in Hj.
      cbn in *. assert (c2 = c) as -> by congruence. by rewrite Hal in Hneg.
    + split; [|by intros [? _]]. intros Hc. split; [done|].
      destruct (alive (cl_sender c)) eqn:Eal; [done|]. exfalso. apply Hi.
      apply list_elem_of_fmap. exists (id, c). split; [done|].
      apply list_elem_of_In, filter_In. split; [by apply list_elem_of_In, hash_order_elem|].
      cbn. by rewrite Eal.
Qed.

End HubLaws.

Lemma broadcast_subset text s n s' : broadcast_text text s = (n, s') -> fst s' ⊆ fst s.
Proof.
  destruct s as [m w]. unfold broadcast_text.
  destruct (send_all text (hash_order m) w) as [[k dead] w1]. intros [= <- <-]. cbn.
  apply map_subseteq_spec. intros i c. rewrite foldl_delete_lookup. by destruct (decide _).
Qed.

Lemma socket_loop_subset frames : forall s s', socket_loop frames s = ((), s') -> fst s' ⊆ fst s.
Proof.
  induction frames as [|[text| |] rest IH]; intros s s' H; cbn [socket_loop] in H.
  - by injection H as <-.
  - destruct s as [m w]. destruct (clock_rfc3339 w) as [now w1].
    run_bind H n s2 as E. apply broadcast_subset in E. etrans; [by apply IH|exact E].
  - by injection H as <-.
  - by apply IH.
Qed.

(** A socket leaves nothing behind: whatever frames arrive, when the
    handler of a connection returns its client is out of the table, and every
    client still there was there before. A request with a bad token is refused
    and changes nothing. *)
Theorem handle_socket_cleans_up `{HR : HttpRequests} config headers query id tx frames s r s' :
  ws_handler config headers query id tx frames s = (r, s') ->
  match websocket_validate_token config headers query with
  | Ok _ => r = None /\ fst s' !! id = None /\ fst s' ⊆ fst s
  | Err m => r = Some (unauthorized m) /\ s' = s
  end.
Proof.
  unfold ws_handler. intros H. destruct (websocket_validate_token _ _ _); [|by injection H as <- <-].
  run_bind H u s1 as E. injection H as <- <-. split; [done|].
  unfold handle_socket in E. run_bind E info s2 as E1. run_bind E v s3 as E2.
  run_bind E x s4 as E3. destruct x. apply socket_loop_subset in E3.
  destruct s as [m w], s2 as [m2 w2], s3 as [m3 w3], s4 as [m4 w4], s1 as [m1 w1].
  unfold register_client in E1. destruct (clock_rfc3339 w) as [now w0]. injection E1 as _ <- _.
  destruct (socket_send_text _ _) as [y w5]. injection E2 as _ <- _.
  injection E as _ <- _. cbn in *. split; [apply lookup_delete_eq|].
  apply map_subseteq_spec. intros i c. destruct (decide (i = id)) as [->|Hne].
  - by rewrite lookup_delete_eq.
  - rewrite lookup_delete_ne by done. intros Hc.
    eapply lookup_weaken in Hc; [|exact E3]. by rewrite lookup_insert_ne in Hc.
Qed.

End Hub.

(** ** The route table *)

(*| src-tauri/src/native_websocket/server.rs 243-251 router *)
Definition websocket_router (ws_path : string) : list (route_method * string) :=
  [ (RGet, "/"); (RGet, "/health"); (RGet, "/clients"); (RGet, ws_path) ].

(** Which socket paths can be served: any path that starts with a slash and
    is not one of the three fixed routes. The configured path "/" is not
    served at the root: it becomes the empty path, which no router takes. *)
Theorem websocket_routes_routable path :
  (routable (websocket_router path) <->
     starts_with "/" path = true /\ path ∉ ["/"; "/health"; "/clients"]) /\
  ~ routable (websocket_router (websocket_normalize_path "/")).
Proof.
  assert (forall p, routable (websocket_router p) <->
     starts_with "/" p = true /\ p ∉ ["/"; "/health"; "/clients"]) as Hr; [|split; [done|]].
  - intros p. unfold routable, websocket_router. rewrite !Forall_cons. cbn [snd]. split.
    + intros [(_ & _ & _ & Hs & _) Hn]. split; [done|].
      rewrite !NoDup_cons in Hn. intros Hin. destruct Hn as (H1 & H2 & H3 & _).
      rewrite !elem_of_cons in Hin.
      destruct Hin as [->|[->|[->|Hin]]]; [apply H1|apply H2|apply H3|by apply elem_of_nil in Hin];
        set_solver.
    + intros [Hs Hp]. rewrite !not_elem_of_cons in Hp. destruct Hp as (P1 & P2 & P3 & _).
      split; [by split_and!|].
      repeat (apply NoDup_cons; split); [..|by apply NoDup_nil];
        rewrite ?not_elem_of_cons; repeat split; try apply not_elem_of_nil; congruence.
  - rewrite Hr. intros [H _]. by vm_compute in H.
Qed.
