(* ===== verification/EventServices.v ===== *)
(** * The two event services as instances

    [native_webhook/server.rs] and [native_websocket/server.rs] instantiate
    the state machine of [ServiceLifecycle]: the fields below are the texts and
    configuration accessors in which the two files differ. *)

From Stdlib Require Import Ascii.
From S2P Require Import Prelude RustStr Json NetAddr NetBind RuntimeSettings.
From S2P Require Import ServiceConfigs RuntimeStore AppLog WebhookRoutes ServiceLifecycle.

#[local] Open Scope string_scope.

(** ** The webhook service *)

(*| src-tauri/src/native_webhook/server.rs 225-235 status_from_handle *)
Definition webhook_status_url (host : string) (port : N) (path : string) : string :=
  "http://" ++ host ++ ":" ++ show_N port.

#[export] Instance webhook_service : ManagedService WebhookConfig := {|
  svc_label := "Webhook Service";
  svc_name := "webhook";
  svc_thread_name := "tunnara-console-webhook-service";
  svc_env := "TUNNARA_CONSOLE_WEBHOOK";
  svc_path_suffix := "_BASE_PATH";
  svc_default_port := 61003;
  svc_default_path := "/webhooks";
  svc_enabled := wh_enabled;
  svc_host := wh_host;
  svc_port := wh_port;
  svc_path := wh_base_path;
  svc_with_host := fun h c => wh_with_host_port c h (wh_port c);
  svc_validate_bind := wh_validate_bind;
  svc_public_host := wh_public_host;
  svc_url := webhook_status_url |}.

(** ** The WebSocket service *)

(*| src-tauri/src/native_websocket/server.rs 465-475 status_from_handle *)
Definition websocket_status_url (host : string) (port : N) (path : string) : string :=
  "ws://" ++ host ++ ":" ++ show_N port ++ path.

#[export] Instance websocket_service : ManagedService WebSocketConfig := {|
  svc_label := "WebSocket Service";
  svc_name := "websocket";
  svc_thread_name := "tunnara-console-websocket-service";
  svc_env := "TUNNARA_CONSOLE_WEBSOCKET";
  svc_path_suffix := "_PATH";
  svc_default_port := 61004;
  svc_default_path := "/ws";
  svc_enabled := ws_enabled;
  svc_host := ws_host;
  svc_port := ws_port;
  svc_path := ws_path;
  svc_with_host := fun h c => ws_with_host_port c h (ws_port c);
  svc_validate_bind := ws_validate_bind;
  svc_public_host := ws_public_host;
  svc_url := websocket_status_url |}.

Lemma service_validate_port service host port :
  service_validate_bind service host port = Ok () -> port <> 0%N.
Proof.
  unfold service_validate_bind. destruct (is_empty _); [done|].
  by destruct (N.eqb_spec port 0).
Qed.

#[export] Instance webhook_service_laws : ManagedServiceLaws WebhookConfig.
Proof. split; [done|done|]. intros c H. exact (service_validate_port _ _ _ H). Qed.

#[export] Instance websocket_service_laws : ManagedServiceLaws WebSocketConfig.
Proof. split; [done|done|]. intros c H. exact (service_validate_port _ _ _ H). Qed.

(** ** The servers *)

Section Webhook.
Context {W : Type} `{SP : Spawner W WebhookConfig} `{OS : !ConsoleOs W}.

(** [start_background]: resolve the stored configuration, then start. The
    resolution runs on the process, the start on the slot. *)
(*| src-tauri/src/native_webhook/server.rs 61-64 start_background *)
Definition webhook_start_background (state : SharedState) (env : Env)
    (slot : option RuntimeHandle) (w : W) : result string RuntimeStatus * (Env * (option RuntimeHandle * W)) :=
  match resolve_webhook_config state (env, w) with
  | (Err e, (env, w)) => (Err e, (env, (slot, w)))
  | (Ok config, (env, w)) =>
      let '(r, s) := start_background_with_config env config (slot, w) in (r, (env, s))
  end.

End Webhook.

Section WebSocket.
Context {W : Type} `{SP : Spawner W WebSocketConfig} `{OS : !ConsoleOs W}.

(** The file has its own copies of the handle and of the loopback test. *)
(*| src-tauri/src/native_websocket/server.rs 30-44 WebSocketRuntimeHandle *)
Definition WebSocketRuntimeHandle : Type := RuntimeHandle (W := W).
(*| src-tauri/src/native_websocket/server.rs 426-434 should_bind_loopback_mirror *)
Definition websocket_binds_loopback_mirror (configured_host effective_host : string) : bool :=
  should_bind_loopback_mirror configured_host effective_host.

(*| src-tauri/src/native_websocket/server.rs 80-188 start_background_with_config *)
Definition websocket_start_background_with_config (env : Env) (c : WebSocketConfig) :
    St (option RuntimeHandle * W) (result string RuntimeStatus) :=
  start_background_with_config env c.

(*| src-tauri/src/native_websocket/server.rs 190-222 stop_background *)
Definition websocket_stop_background (env : Env) : St (option RuntimeHandle * W) RuntimeStatus :=
  stop_background (C := WebSocketConfig) env.

(*| src-tauri/src/native_websocket/server.rs 224-241 status *)
Definition websocket_status (env : Env) (s : option RuntimeHandle * W) : RuntimeStatus :=
  service_status (C := WebSocketConfig) env s.

(*| src-tauri/src/native_websocket/server.rs 343-381 spawn_websocket_server_thread *)
Definition websocket_spawn_server_thread : string -> WebSocketConfig -> listener ->
    St W (result string server_thread) := spawn_server_thread.

(*| src-tauri/src/native_websocket/server.rs 383-424 prepare_loopback_mirror *)
Definition websocket_prepare_loopback_mirror : string -> WebSocketConfig -> N ->
    St W (option server_thread) := prepare_loopback_mirror.

(*| src-tauri/src/native_websocket/server.rs 436-445 bind_listener_with_safe_fallback *)
Definition websocket_bind_listener_with_safe_fallback : WebSocketConfig ->
    St W (result string PreparedListener) := bind_listener_with_safe_fallback.

(*| src-tauri/src/native_websocket/server.rs 449-463 existing_websocket_service_responds *)
Definition existing_websocket_service_responds : string -> N -> St W bool :=
  existing_service_responds (C := WebSocketConfig).

(*| src-tauri/src/native_websocket/server.rs 75-78 start_background *)
Definition websocket_start_background (state : SharedState) (env : Env)
    (slot : option RuntimeHandle) (w : W) : result string RuntimeStatus * (Env * (option RuntimeHandle * W)) :=
  match resolve_websocket_config state (env, w) with
  | (Err e, (env, w)) => (Err e, (env, (slot, w)))
  | (Ok config, (env, w)) =>
      let '(r, s) := websocket_start_background_with_config env config (slot, w) in
      (r, (env, s))
  end.

End WebSocket.
