(* ===== verification/Console.v ===== *)
(** * The console process

    [app_state.rs], and the state of the process all later files share: the
    application context, the runtime slots of the four servers, the environment
    and the outside world. Each server's operations are lifted from the state
    they are defined on. *)

From Stdlib Require Import Ascii.
From S2P Require Import Prelude RustStr Json NetAddr NetBind RuntimeSettings.
From S2P Require Import ServiceConfigs RuntimeStore AppLog ServiceLifecycle EventServices.
From S2P Require Import WebhookRoutes InternalRoutes DatabaseConfig ApiServer WebAssets WebProxy WebServer.

#[local] Open Scope string_scope.
#[local] Open Scope tunnara_scope.

Class AppWorld (W : Type) `{OS : ConsoleOs W} : Type := {
  dirs_data_local_dir : W -> option string;
  (** [serde_json::from_str::<BootstrapConfig>], and [to_string_pretty] *)
  bootstrap_of_json : string -> result string (option string);
  json_pretty : value -> result string string;
}.

(*| src-tauri/src/app_state.rs 128-135 runtime_app_local_data_dir *)
Definition runtime_app_local_data_dir (env : Env) : string :=
  unwrap_or "tunnara_console" (opt_filter (fun v => negb (is_empty v))
    (trim <$> env_first env "TUNNARA_CONSOLE_LOCAL_DATA_DIR" "APP_LOCAL_DATA_DIR")).

Section Console.
Context `{BI : BuildInfo} {W : Type} `{NW : NetWorld W} `{SW : !ServerWorld W}.
Context `{OS : ConsoleOs W} `{LO : !LogOs W} `{AW : !ApiServerWorld W} `{WW : !WebServerWorld W}.
Context `{SPH : !Spawner W WebhookConfig} `{SPS : !Spawner W WebSocketConfig}.
Context `{AP : !AppWorld W} `{DD : DatabaseDrivers W}.

(** ** The process *)

Record console : Type := {
  co_app : SharedState;
  co_api : option ApiRuntimeHandle;
  co_web : option WebRuntimeHandle;
  co_hook : option RuntimeHandle;
  co_sock : option RuntimeHandle;
  co_proc : Env * W;
}.

Definition env_of_console (s : console) : Env := fst (co_proc s).

Definition get_app : St console SharedState := fun s => (co_app s, s).
Definition set_app (app : SharedState) : St console unit := fun s =>
  ((), {| co_app := app; co_api := co_api s; co_web := co_web s; co_hook := co_hook s;
          co_sock := co_sock s; co_proc := co_proc s |}).

Definition on_proc {A} (c : SharedState -> St (Env * W) A) : St console A := fun s =>
  let '(a, p) := c (co_app s) (co_proc s) in
  (a, {| co_app := co_app s; co_api := co_api s; co_web := co_web s; co_hook := co_hook s;
         co_sock := co_sock s; co_proc := p |}).
Definition on_os {A} (c : St W A) : St console A := on_proc (fun _ => os c).
Definition console_env : St console Env := fun s => (env_of_console s, s).

Definition on_api {A} (c : SharedState -> St api_state A) : St console A := fun s =>
  let '(a, (slot, p)) := c (co_app s) (co_api s, co_proc s) in
  (a, {| co_app := co_app s; co_api := slot; co_web := co_web s; co_hook := co_hook s;
         co_sock := co_sock s; co_proc := p |}).

Definition on_web {A} (c : SharedState -> St web_state A) : St console A := fun s =>
  let '(a, (slot, p)) := c (co_app s) (co_web s, co_proc s) in
  (a, {| co_app := co_app s; co_api := co_api s; co_web := slot; co_hook := co_hook s;
         co_sock := co_sock s; co_proc := p |}).

(** The operations of an event service: some change the environment (they load
    the settings), the others only read it. *)
Definition on_hook {A} (c : SharedState -> Env -> option RuntimeHandle -> W ->
    A * (Env * (option RuntimeHandle * W))) : St console A := fun s =>
  let '(a, (env, (slot, w))) := c (co_app s) (env_of_console s) (co_hook s) (snd (co_proc s)) in
  (a, {| co_app := co_app s; co_api := co_api s; co_web := co_web s; co_hook := slot;
         co_sock := co_sock s; co_proc := (env, w) |}).

Definition on_sock {A} (c : SharedState -> Env -> option RuntimeHandle -> W ->
    A * (Env * (option RuntimeHandle * W))) : St console A := fun s =>
  let '(a, (env, (slot, w))) := c (co_app s) (env_of_console s) (co_sock s) (snd (co_proc s)) in
  (a, {| co_app := co_app s; co_api := co_api s; co_web := co_web s; co_hook := co_hook s;
         co_sock := slot; co_proc := (env, w) |}).

Definition reading {A} (c : Env -> St (option RuntimeHandle * W) A) :
    SharedState -> Env -> option RuntimeHandle -> W -> A * (Env * (option RuntimeHandle * W)) :=
  fun _ env slot w => let '(a, s) := c env (slot, w) in (a, (env, s)).

(** The servers of this process. *)
Definition api_start (c : InternalApiConfig) : St console (result string ApiRuntimeStatus) :=
  on_api (fun app => api_start_background app c).
Definition api_stop : St console ApiRuntimeStatus := on_api (fun _ => api_stop_background).
Definition api_status_now : St console ApiRuntimeStatus := on_api (fun _ => api_server_status).
Definition web_start : St console (result string WebRuntimeStatus) := on_web web_start_background.
Definition web_stop : St console WebRuntimeStatus := on_web (fun _ => web_stop_background).
Definition web_status_now : St console WebRuntimeStatus := on_web (fun _ => web_status).
Definition hook_start : St console (result string RuntimeStatus) := on_hook webhook_start_background.
Definition hook_stop : St console RuntimeStatus :=
  on_hook (reading (stop_background (C := WebhookConfig))).
Definition hook_status_now : St console RuntimeStatus := fun s =>
  (service_status (C := WebhookConfig) (env_of_console s) (co_hook s, snd (co_proc s)), s).
Definition sock_start : St console (result string RuntimeStatus) := on_sock websocket_start_background.
Definition sock_stop : St console RuntimeStatus := on_sock (reading websocket_stop_background).
Definition sock_status_now : St console RuntimeStatus := fun s =>
  (websocket_status (env_of_console s) (co_sock s, snd (co_proc s)), s).

(** ** The application context *)

(*| src-tauri/src/app_state.rs 38-52 init_with_data_dir *)
Definition init_with_data_dir (data_dir : string) : St console (result string unit) :=
  _ ←? (r ← on_os (os_create_dir_all data_dir);
        mret (map_err (fun err => "Falha ao criar diretório de dados: " ++ err) r));
  let db_path := path_join data_dir "app.db" in
  _ ←? on_os (sqlite_migrate db_path);
  _ ← set_app (Some {| ctx_data_dir := data_dir; ctx_db_path := db_path |});
  mret (Ok ()).

(*| src-tauri/src/app_state.rs 54-56 reconfigure_data_dir *)
Definition reconfigure_data_dir : string -> St console (result string unit) := init_with_data_dir.

(*| src-tauri/src/app_state.rs 58-68 data_dir *)
Definition state_data_dir (state : SharedState) : result string string :=
  match state with
  | Some ctx => Ok (ctx_data_dir ctx)
  | None => Err "Aplicação ainda não inicializada."
  end.

(*| src-tauri/src/app_state.rs 82-90 bootstrap_config_path *)
Definition bootstrap_config_path : St (Env * W) (result string string) := fun p =>
  match or_else (dirs_config_local_dir (snd p)) (os_current_dir (snd p)) with
  | None => (Err "Não foi possível resolver o diretório de configuração.", p)
  | Some dir =>
      let config_dir := path_join dir (runtime_app_local_data_dir (fst p)) in
      (r ← os (os_create_dir_all config_dir);
       mret (match r with
             | Err err => Err ("Falha ao criar diretório de configuração: " ++ err)
             | Ok _ => Ok (path_join config_dir "bootstrap.json")
             end)) p
  end.

(** The override of a bootstrap file; a missing file has none. *)
(*| src-tauri/src/app_state.rs 92-101 load_bootstrap_config *)
Definition load_bootstrap_config : St (Env * W) (result string (option string)) :=
  path ←? bootstrap_config_path;
  present ← os (os_exists path);
  if negb present then mret (Ok None) else
  raw ← os (os_read_to_string path);
  mret (match raw with
        | Err err => Err ("Falha ao ler bootstrap config: " ++ err)
        | Ok raw => map_err (fun err => "Falha ao interpretar bootstrap config: " ++ err)
                      (bootstrap_of_json raw)
        end).

(*| src-tauri/src/app_state.rs 103-110 save_bootstrap_config *)
Definition save_bootstrap_config (config : value) : St (Env * W) (result string string) :=
  path ←? bootstrap_config_path;
  match json_pretty config with
  | Err err => mret (Err ("Falha ao serializar bootstrap config: " ++ err))
  | Ok json =>
      r ← os (os_write path json);
      mret (match r with
            | Err err => Err ("Falha ao salvar bootstrap config: " ++ err)
            | Ok _ => Ok path
            end)
  end.

(*| src-tauri/src/app_state.rs 112-125 resolve_data_dir *)
Definition resolve_data_dir : St (Env * W) (result string string) :=
  override ←? load_bootstrap_config;
  match opt_filter (fun d => negb (is_empty d)) (trim <$> override) with
  | Some dir => mret (Ok dir)
  | None => fun p =>
      (ok_or "Não foi possível resolver o diretório de dados."
         ((fun dir => path_join dir (runtime_app_local_data_dir (fst p)))
            <$> or_else (dirs_data_local_dir (snd p)) (os_current_dir (snd p))), p)
  end.

(*| src-tauri/src/app_state.rs 33-36 init *)
Definition app_init : St console (result string unit) :=
  dir ←? on_proc (fun _ => resolve_data_dir);
  init_with_data_dir dir.

(** ** Lemmas *)

(** What an operation of the console leaves alone. *)
Definition slots (s : console) :
    SharedState * option ApiRuntimeHandle * option WebRuntimeHandle
    * option RuntimeHandle * option RuntimeHandle :=
  (co_app s, co_api s, co_web s, co_hook s, co_sock s).

Lemma on_proc_slots {A} (c : SharedState -> St (Env * W) A) s a s' :
  on_proc c s = (a, s') -> slots s' = slots s.
Proof. unfold on_proc. destruct (c _ _) as [b p]. by intros [= <- <-]. Qed.

(** What each server's operations leave alone. *)

Lemma on_proc_frames {A T} (f : console -> T) (c : SharedState -> St (Env * W) A) :
  (forall s p, f {| co_app := co_app s; co_api := co_api s; co_web := co_web s; co_hook := co_hook s;
                    co_sock := co_sock s; co_proc := p |} = f s) ->
  frames f (on_proc c).
Proof.
  intros Hf s a s' H. unfold on_proc in H. destruct (c _ _) as [b p]. injection H as _ <-. apply Hf.
Qed.

Lemma on_api_frames {A T} (f : console -> T) (c : SharedState -> St api_state A) :
  (forall s h p, f {| co_app := co_app s; co_api := h; co_web := co_web s; co_hook := co_hook s;
                      co_sock := co_sock s; co_proc := p |} = f s) ->
  frames f (on_api c).
Proof.
  intros Hf s a s' H. unfold on_api in H. destruct (c _ _) as [b [h p]]. injection H as _ <-. apply Hf.
Qed.

Lemma on_web_frames {A T} (f : console -> T) (c : SharedState -> St web_state A) :
  (forall s h p, f {| co_app := co_app s; co_api := co_api s; co_web := h; co_hook := co_hook s;
                      co_sock := co_sock s; co_proc := p |} = f s) ->
  frames f (on_web c).
Proof.
  intros Hf s a s' H. unfold on_web in H. destruct (c _ _) as [b [h p]]. injection H as _ <-. apply Hf.
Qed.

Lemma on_hook_frames {A T} (f : console -> T) c :
  (forall s h p, f {| co_app := co_app s; co_api := co_api s; co_web := co_web s; co_hook := h;
                      co_sock := co_sock s; co_proc := p |} = f s) ->
  frames f (on_hook (A := A) c).
Proof.
  intros Hf s a s' H. unfold on_hook in H. destruct (c _ _ _ _) as [b [env [h w]]].
  injection H as _ <-. apply Hf.
Qed.

Lemma on_sock_frames {A T} (f : console -> T) c :
  (forall s h p, f {| co_app := co_app s; co_api := co_api s; co_web := co_web s; co_hook := co_hook s;
                      co_sock := h; co_proc := p |} = f s) ->
  frames f (on_sock (A := A) c).
Proof.
  intros Hf s a s' H. unfold on_sock in H. destruct (c _ _ _ _) as [b [env [h w]]].
  injection H as _ <-. apply Hf.
Qed.

(** ** Properties *)

(** Where the data of the application is: an initialisation that succeeds
    sets the context to the directory it was given and the database "app.db" in
    it, after the directory was created and the database migrated; one that
    fails leaves the context, and with it the running application, as they
    were. No server is touched. *)
Theorem init_with_data_dir_spec dir s r s' :
  init_with_data_dir dir s = (r, s') ->
  (co_api s', co_web s', co_hook s', co_sock s') = (co_api s, co_web s, co_hook s, co_sock s) /\
  match r with
  | Ok _ =>
      co_app s' = Some {| ctx_data_dir := dir; ctx_db_path := path_join dir "app.db" |} /\
      state_data_dir (co_app s') = Ok dir /\ state_db_path (co_app s') = Ok (path_join dir "app.db") /\
      exists w1 w2, os_create_dir_all dir (snd (co_proc s)) = (Ok (), w1) /\
        sqlite_migrate (path_join dir "app.db") w1 = (Ok (), w2) /\ snd (co_proc s') = w2
  | Err _ => co_app s' = co_app s
  end.
Proof.
  unfold init_with_data_dir. intros H.
  destruct s as [app api web hook sock [env w]]. cbn in *.
  unfold try, on_os, on_proc, os, mbind, st_bind in H. cbn in H.
  destruct (os_create_dir_all dir w) as [[[]|e] w1] eqn:E1; cbn in H; [|injection H as <- <-; done].
  destruct (sqlite_migrate _ w1) as [[[]|e] w2] eqn:E2; cbn in H; [|injection H as <- <-; done].
  injection H as <- <-. cbn. split_and!; [done..|]. by exists w1, w2.
Qed.

End Console.

(** An operation that does not touch a part of the console. *)
Ltac frame_op :=
  first [ apply on_proc_frames | apply on_api_frames | apply on_web_frames
        | apply on_hook_frames | apply on_sock_frames ]; done.
