(* ===== verification/AppInfo.v ===== *)
(** * Application commands: commands/app.rs

    What the console tells about itself, the move of its data to another
    directory, and its log. The counts, the log's queries and the administrator's
    check run in the state with the tables ([DbWorld]); the directories belong to
    the process ([Console]). *)

From Stdlib Require Import Ascii.
From S2P Require Import Prelude RustStr Utf8 Json NetAddr NetBind RuntimeSettings Security.
From S2P Require Import ServiceConfigs RuntimeStore AppLog Accounts Auth Access DatabaseConfig Providers DbWorld.
From S2P Require Import ServiceLifecycle EventServices WebhookRoutes InternalRoutes ApiServer WebAssets WebProxy.
From S2P Require Import WebServer Console.

#[local] Open Scope string_scope.
#[local] Open Scope tunnara_scope.

(** ** Names and paths *)

(** The first characters of a text. *)
Fixpoint take_chars (n : nat) (s : string) : string :=
  match s with
  | "" => ""
  | String a r =>
      if in_range 128 191 a then String a (take_chars n r)
      else match n with 0 => "" | S n => String a (take_chars n r) end
  end.

(*| src-tauri/src/commands/app.rs 16-22 build_hash *)
Definition short_build_hash (build_hash github_sha : option string) : string :=
  unwrap_or "dev" (opt_filter (fun v => negb (is_empty v)) (take_chars 8 <$> or_else build_hash github_sha)).

Definition env_name (env : Env) (own other default : string) : string :=
  unwrap_or default (opt_filter (fun v => negb (blank v)) (env_first env own other)).
(*| src-tauri/src/commands/app.rs 24-30 runtime_app_name *)
Definition runtime_app_name (env : Env) : string :=
  env_name env "TUNNARA_CONSOLE_NAME" "APP_NAME" "Tunnara Console".
(*| src-tauri/src/commands/app.rs 32-38 runtime_app_identifier *)
Definition runtime_app_identifier (env : Env) : string :=
  env_name env "TUNNARA_CONSOLE_IDENTIFIER" "APP_IDENTIFIER" "br.com.wwsoftwares.tunnara.console".

(*| src-tauri/src/commands/app.rs 40-42 export_dir_for *)
Definition export_dir_for (data_dir : string) : string := path_join data_dir "exports".

(** A change in the words of the synchronisation queue. *)
(*| src-tauri/src/db.rs 181-186 simple_change_payload *)
Definition simple_change_payload (record_id : option Z) (description : string) : value :=
  Object [("description", String_ description);
          ("record_id", match record_id with Some id => json_i64 id | None => Null end)].

(** A [BTreeMap]: members by their names. *)
Definition btree (m : members) : members := sort_by (fun a b => text_le (fst a) (fst b)) m.

(** The number of a [SELECT COUNT]. *)
Class SqlCount (W : Type) `{OS : ConsoleOs W} : Type := {
  sql_count : db_conn -> string -> St W (result string Z);
}.

(** ** The database *)

Section Database.
Context {W : Type} `{LO : LogOs W} `{ST : !Statements W} `{CR : Crypto} `{RN : !Randomness W}
  `{AW : !AuthWorld W}.
#[local] Abbreviation DB := (@db W).
Context `{SQ : !SqlDb DB} `{SC : !SqlCount DB}.
Context (state : SharedState).

Definition open_here : St DB (result string (db_handle * string)) := open_app (W := W) state.

(*| src-tauri/src/db.rs 41-45 count_table *)
Definition count_table (conn : db_handle) (table : string) : St DB (result string Z) :=
  r ← sql_count conn ("SELECT COUNT(*) FROM " ++ table);
  mret (map_err (fun err => "Falha ao contar tabela " ++ table ++ ": " ++ err) r).

(** The tables that are counted, and the names of the counts. *)
Definition counted_tables : list (string * string) :=
  [("empresas", "empresas"); ("usuarios", "usuarios"); ("perfis", "perfis_acesso");
   ("clientes", "clientes"); ("fornecedores", "fornecedores"); ("produtos", "produtos")].

(** Counts that are zero when they cannot be made. *)
Definition lenient_counts : list (string * string) :=
  [("logs_error_today",
    "SELECT COUNT(*) FROM app_logs WHERE level IN ('error','critical') AND substr(created_at, 1, 10) = date('now')");
   ("integrations_total", "SELECT COUNT(*) FROM integration_configs");
   ("integrations_active", "SELECT COUNT(*) FROM integration_configs WHERE ativo=1 AND status='active'")].

Fixpoint table_counts (conn : db_handle) (l : list (string * string)) : St DB (result string members) :=
  match l with
  | [] => mret (Ok [])
  | (name, table) :: r =>
      n ←? count_table conn table;
      rest ←? table_counts conn r;
      mret (Ok ((name, json_i64 n) :: rest))
  end.
Fixpoint other_counts (conn : db_handle) (l : list (string * string)) : St DB members :=
  match l with
  | [] => mret []
  | (name, sql) :: r =>
      n ← sql_count conn sql;
      rest ← other_counts conn r;
      mret ((name, json_i64 (match n with Ok n => n | Err _ => 0%Z end)) :: rest)
  end.

(*| src-tauri/src/commands/app.rs 45-140 app_bootstrap *)
Definition app_bootstrap : St DB (result string members) :=
  app ←? open_here;
  counts ←? table_counts (fst app) counted_tables;
  pending ← sql_count (fst app) "SELECT COUNT(*) FROM sync_queue WHERE status = 'pending'";
  pending ←? mret (map_err (fun err => "Falha ao contar fila de sincronização: " ++ err) pending);
  others ← other_counts (fst app) lenient_counts;
  db_path ←? mret (state_db_path state);
  mret (Ok (btree ([("db_path", String_ db_path); ("data_dir", String_ (snd app));
    ("exports_dir", String_ (export_dir_for (snd app)))] ++ counts
    ++ [("sync_pendente", json_i64 pending)] ++ others
    ++ [("database_status", String_ "ok"); ("internal_api_status", String_ "headless-capable")])%list)).

(** ** The log *)

Definition text_member (payload : members) (key : string) : option string :=
  v ← obj_get key payload; as_str v.

(*| src-tauri/src/commands/app.rs 238-273 app_log_write *)
Definition app_log_write (payload : members) : St DB (result string bool) :=
  app ←? open_app state;
  _ ←? lift (write_app_log (fst app) (snd app) {|
    log_level := unwrap_or "info" (text_member payload "level");
    log_category := unwrap_or "app" (text_member payload "category");
    log_message := unwrap_or "evento sem mensagem" (text_member payload "message");
    log_source := text_member payload "source"; log_route := text_member payload "route";
    log_details := obj_get "details" payload |});
  mret (Ok true).

Definition clamp (low high x : Z) : Z := Z.max low (Z.min high x).

(** A filter that is not blank adds a condition and what it compares with. *)
Definition filter_part (filter : string) (sql : string) (params : string -> list sql_value) :
    string * list sql_value :=
  if blank filter then ("", []) else (sql, params (trim filter)).

(*| src-tauri/src/commands/app.rs 284-316 app_log_list *)
Definition log_query (filters : members) : string * list sql_value :=
  let get key := unwrap_or "" (text_member filters key) in
  let limit := clamp 1 5000 (unwrap_or 300%Z (v ← obj_get "limit" filters; as_i64 v)) in
  let by_level := filter_part (get "level") " AND level = ?" (fun v => [SqlText v]) in
  let by_category := filter_part (get "category") " AND category = ?" (fun v => [SqlText v]) in
  let by_search := filter_part (get "search")
    " AND (message LIKE ? OR COALESCE(details_json,'') LIKE ? OR COALESCE(route,'') LIKE ?)"
    (fun v => let wild := SqlText ("%" ++ v ++ "%") in [wild; wild; wild]) in
  ("SELECT id, level, category, message, source, route, details_json, created_at FROM app_logs WHERE 1=1"
   ++ fst by_level ++ fst by_category ++ fst by_search ++ " ORDER BY id DESC LIMIT ?",
   (snd by_level ++ snd by_category ++ snd by_search ++ [SqlInt limit])%list).

(*| src-tauri/src/commands/app.rs 277-329 app_log_list *)
Definition app_log_list (session_token : string) (filters : members) : St DB (result string (list members)) :=
  app ←? open_here;
  _ ←? require_session_by_token session_token;
  let '(sql, params) := log_query filters in
  r ← sql_query (fst app) sql params;
  mret (map_err (stage_error "Falha ao preparar logs da aplicação" "Falha ao consultar logs da aplicação"
                   "Falha ao mapear logs da aplicação") r).

(*| src-tauri/src/commands/app.rs 332-347 app_log_clear *)
Definition app_log_clear (session_token : string) : St DB (result string bool) :=
  app ←? open_here;
  identity ←? require_session_by_token session_token;
  _ ←? guard_ (si_master_user identity) "Apenas usuário master pode limpar os logs da aplicação.";
  cleared ← sql_execute (fst app) "DELETE FROM app_logs" [];
  _ ←? mret (map_err (fun err => "Falha ao limpar logs da aplicação: " ++ err) cleared);
  let log_path := app_log_file_path (snd app) in
  present ← lift (os_exists log_path);
  if present : bool then
    written ← lift (os_write log_path "");
    _ ←? mret (map_err (fun err => "Falha ao limpar arquivo de log: " ++ err) written);
    mret (Ok true)
  else mret (Ok true).
End Database.

(** ** The process *)

(** Copies between directories. *)
Class FileTree (W : Type) : Type := {
  fs_copy : string -> string -> St W (result string unit);
  (** the names in a directory, each of which may fail to be read *)
  fs_read_dir : string -> St W (result string (list (result string string)));
  fs_is_file : string -> St W bool;
}.

(** [PathBuf]'s equality: by components. *)
Definition path_eq (a b : string) : bool :=
  components_prefix (components a) (components b) && components_prefix (components b) (components a).

Section Process.
Context `{BI : BuildInfo} {W : Type} `{NW : NetWorld W} `{SW : !ServerWorld W}.
Context `{OS : ConsoleOs W} `{LO : !LogOs W} `{AW : !ApiServerWorld W} `{WW : !WebServerWorld W}.
Context `{SPH : !Spawner W WebhookConfig} `{SPS : !Spawner W WebSocketConfig}.
Context `{AP : !AppWorld W} `{DD : DatabaseDrivers W} `{FT : FileTree W}.
Context (github_sha : option string).

(*| src-tauri/src/commands/app.rs 143-159 app_meta *)
Definition app_meta (env : Env) : members :=
  btree [("version", String_ cargo_pkg_version);
         ("build_hash", String_ (short_build_hash build_hash github_sha));
         ("product_name", String_ (runtime_app_name env)); ("identifier", String_ (runtime_app_identifier env))].

(*| src-tauri/src/commands/app.rs 162-188 system_info *)
Definition system_info : St console (result string members) :=
  app ← get_app;
  db_path ←? mret (state_db_path app);
  data_dir ←? mret (state_data_dir app);
  bootstrap_path ←? on_proc (fun _ => bootstrap_config_path);
  env ← console_env;
  mret (Ok (btree (app_meta env ++
    [("db_path", String_ db_path); ("data_dir", String_ data_dir);
     ("exports_dir", String_ (export_dir_for data_dir)); ("bootstrap_config", String_ bootstrap_path);
     ("log_file", String_ (app_log_file_path data_dir))])%list)).

(** The files of a directory, one by one; a copy that fails is passed over, and
    an entry that cannot be read ends it. *)
(*| src-tauri/src/commands/app.rs 219-227 system_set_data_dir *)
Fixpoint copy_entries (old new : string) (entries : list (result string string)) : St W (result string unit) :=
  match entries with
  | [] => mret (Ok ())
  | Err err :: _ => mret (Err ("Falha ao iterar exportações: " ++ err))
  | Ok name :: r =>
      is_file ← fs_is_file (path_join old name);
      _ ← (if is_file : bool then fs_copy (path_join old name) (path_join new name) else mret (Ok ()));
      copy_entries old new r
  end.

(*| src-tauri/src/commands/app.rs 214-228 system_set_data_dir *)
Definition copy_exports (old new : string) : St W (result string unit) :=
  present ← os_exists old;
  if negb present then mret (Ok ()) else
  made ← os_create_dir_all new;
  _ ←? mret (map_err (fun err => "Falha ao preparar diretório de exportações: " ++ err) made);
  entries ← fs_read_dir old;
  entries ←? mret (map_err (fun err => "Falha ao ler exportações atuais: " ++ err) entries);
  copy_entries old new entries.

(** The database and the exports, when there is a database elsewhere. *)
(*| src-tauri/src/commands/app.rs 204-229 system_set_data_dir *)
Definition move_data (current_db current_dir target : string) : St W (result string unit) :=
  let new_db := path_join target "app.db" in
  present ← os_exists current_db;
  if present && negb (path_eq current_db new_db) then
    made ← os_create_dir_all target;
    _ ←? mret (map_err (fun err => "Falha ao preparar diretório do novo banco: " ++ err) made);
    copied ← fs_copy current_db new_db;
    _ ←? mret (map_err (fun err => "Falha ao copiar banco para o novo local: " ++ err) copied);
    copy_exports (export_dir_for current_dir) (export_dir_for target)
  else mret (Ok ()).

(*| src-tauri/src/commands/app.rs 191-235 system_set_data_dir *)
Definition system_set_data_dir (data_dir : string) : St console (result string members) :=
  let target := trim data_dir in
  if is_empty target then mret (Err "Informe um diretório válido para os parâmetros/dados.") else
  made ← on_os (os_create_dir_all target);
  _ ←? mret (map_err (fun err => "Falha ao criar diretório informado: " ++ err) made);
  app ← get_app;
  current_db ←? mret (state_db_path app);
  current_dir ←? mret (state_data_dir app);
  _ ←? on_os (move_data current_db current_dir target);
  _ ←? on_proc (fun _ => save_bootstrap_config (Object [("data_dir_override", String_ target)]));
  _ ←? reconfigure_data_dir target;
  system_info.
End Process.

(** ** What is kept *)


(** ** The log's query *)

Fixpoint count_byte (c : ascii) (s : string) : nat :=
  match s with "" => 0 | String a r => (if Ascii.eqb a c then 1 else 0) + count_byte c r end.

Lemma clamp_between low high x : (low <= high)%Z -> (low <= clamp low high x <= high)%Z.
Proof. unfold clamp. lia. Qed.

(** The texts of the query: each filter is in it or not. *)
Definition log_texts : list string :=
  level ← [""; " AND level = ?"]; category ← [""; " AND category = ?"];
  search ← [""; " AND (message LIKE ? OR COALESCE(details_json,'') LIKE ? OR COALESCE(route,'') LIKE ?)"];
  ["SELECT id, level, category, message, source, route, details_json, created_at FROM app_logs WHERE 1=1"
   ++ level ++ category ++ search ++ " ORDER BY id DESC LIMIT ?"].

(** A search of the log cannot become a statement. Whatever the filters are,
    the text is one of eight, it has a place for each value that is sent and no
    other, the values are texts and, last, the limit, and no query answers more
    than five thousand rows or less than one. *)
Theorem log_query_bounded filters :
  fst (log_query filters) ∈ log_texts /\
  count_byte "?" (fst (log_query filters)) = length (snd (log_query filters)) /\
  exists texts limit, snd (log_query filters) = (map SqlText texts ++ [SqlInt limit])%list /\
    (1 <= limit <= 5000)%Z.
Proof.
  unfold log_query. set (limit := clamp 1 5000 _).
  assert (1 <= limit <= 5000)%Z as Hl by (apply clamp_between; lia). clearbody limit.
  set (level := unwrap_or "" (text_member filters "level")). set (cat := unwrap_or "" (text_member filters "category")).
  set (search := unwrap_or "" (text_member filters "search")). clearbody level cat search.
  unfold filter_part. destruct (blank level), (blank cat), (blank search); cbn [fst snd app].
  all: split; [apply list_elem_of_In; vm_compute; tauto|split; [reflexivity|]].
  all: match goal with |- exists texts l, ?x = _ /\ _ => let rec go x := match x with
      | SqlText ?a :: ?r => let l := go r in constr:(a :: l) | _ => constr:(@nil string) end in
      let l := go x in exists l, limit; split; [reflexivity|exact Hl] end.
Qed.

(** ** Clearing the log *)

Section Database.
Context {W : Type} `{LO : LogOs W} `{ST : !Statements W} `{CR : Crypto} `{RN : !Randomness W}
  `{AW : !AuthWorld W}.
#[local] Abbreviation DB := (@db W).
Context `{SQ : !SqlDb DB} `{SC : !SqlCount DB}.
Context (state : SharedState).

(** Only a master clears the log. Without an application, without a session or
    with the session of another user the command stops there, with the state the
    check left; for a master the rows go first, then the text of the file, and it
    succeeds only when both did. *)
Theorem log_cleared_by_master token s :
  match open_here state s with
  | (Err e, s1) => app_log_clear state token s = (Err e, s1)
  | (Ok app, s1) =>
      match require_session_by_token token s1 with
      | (Err e, s2) => app_log_clear state token s = (Err e, s2)
      | (Ok identity, s2) =>
          if si_master_user identity then
            forall s', app_log_clear state token s = (Ok true, s') ->
            exists n s3 s4, sql_execute (fst app) "DELETE FROM app_logs" [] s2 = (Ok n, s3) /\
              (lift (os_exists (app_log_file_path (snd app))) s3 = (false, s') \/
               lift (os_exists (app_log_file_path (snd app))) s3 = (true, s4) /\
               lift (os_write (app_log_file_path (snd app)) "") s4 = (Ok (), s'))
          else app_log_clear state token s
               = (Err "Apenas usuário master pode limpar os logs da aplicação.", s2)
      end
  end.
Proof.
  unfold app_log_clear. destruct (open_here state s) as [[app|e] s1] eqn:E1.
  2:{ by rewrite (try_err _ _ _ _ _ E1). }
  rewrite (try_run _ _ _ _ _ E1). destruct (require_session_by_token token s1) as [[i|e] s2] eqn:E2.
  2:{ by rewrite (try_err _ _ _ _ _ E2). }
  rewrite (try_run _ _ _ _ _ E2). destruct (si_master_user i); [|reflexivity].
  intros s' H. apply try_Ok in H as ([] & sx & [= <-] & H). run_bind H cleared s3 as E3.
  apply try_Ok in H as (n & sy & H0 & H). injection H0 as H0 <-. destruct cleared as [m|]; [|done].
  cbv zeta in H. run_bind H present s4 as E4. exists m, s3, s4. split; [exact E3|]. destruct present.
  - right. split; [exact E4|]. run_bind H written s5 as E5. apply try_Ok in H as (u & sz & H1 & H).
    injection H1 as H1 <-. injection H as <-. destruct written as [[]|]; [exact E5|done].
  - left. by injection H as <-.
Qed.
End Database.

(** ** Moving the data *)

Section Process.
Context `{BI : BuildInfo} {W : Type} `{NW : NetWorld W} `{SW : !ServerWorld W}.
Context `{OS : ConsoleOs W} `{LO : !LogOs W} `{AW : !ApiServerWorld W} `{WW : !WebServerWorld W}.
Context `{SPH : !Spawner W WebhookConfig} `{SPS : !Spawner W WebSocketConfig}.
Context `{AP : !AppWorld W} `{DD : DatabaseDrivers W} `{FT : FileTree W}.
Context (github_sha : option string).

Lemma init_app dir s r s' : init_with_data_dir dir s = (r, s') ->
  co_app s' = match r with
              | Ok _ => Some {| ctx_data_dir := dir; ctx_db_path := path_join dir "app.db" |}
              | Err _ => co_app s
              end.
Proof.
  unfold init_with_data_dir. intros H. destruct s as [app api web hook sock [env w]]. cbn in *.
  unfold try, on_os, on_proc, os, mbind, st_bind in H. cbn in H.
  destruct (os_create_dir_all dir w) as [[[]|e] w1]; cbn in H; [|by injection H as <- <-].
  destruct (sqlite_migrate _ w1) as [[[]|e] w2]; cbn in H; by injection H as <- <-.
Qed.

Lemma on_proc_app {A} (c : SharedState -> St (Env * W) A) s a s' : on_proc c s = (a, s') -> co_app s' = co_app s.
Proof. intros H%on_proc_slots. by injection H. Qed.

Lemma on_os_app {A} (c : St W A) s a s' : on_os c s = (a, s') -> co_app s' = co_app s.
Proof. apply (on_proc_app (fun _ => os c)). Qed.

Lemma system_info_app s r s' : system_info github_sha s = (r, s') -> co_app s' = co_app s.
Proof.
  unfold system_info. intros H. run_bind H app s1 as E. injection E as <- <-.
  apply try_inv in H as [(db & s2 & [= _ <-] & H)|(e & [= _ <-] & _)]; [|done].
  apply try_inv in H as [(dir & s3 & [= _ <-] & H)|(e & [= _ <-] & _)]; [|done].
  apply try_inv in H as [(b & s4 & E & H)|(e & E & _)]; apply on_proc_app in E; [|done].
  run_bind H env s5 as E5. injection E5 as _ <-. by injection H as _ <-.
Qed.

Lemma on_os_run {A} (c : St W A) s a s' :
  on_os c s = (a, s') -> exists w w', c w = (a, w').
Proof.
  unfold on_os, on_proc, os. destruct (co_proc s) as [env w]. cbn. destruct (c w) as [b w'] eqn:E.
  intros [= <- _]. by exists w, w'.
Qed.

End Process.
