(* ===== verification/RuntimeCommands.v ===== *)
(** * Commands on the services

    [commands/runtime.rs], [commands/webhook.rs] and [commands/websocket.rs]: what
    the front end asks of the four servers and of the runtime settings. Replies
    are records; their JSON is serde's. The print preview and the tray commands
    act on Tauri windows and are in [Desktop]. *)

From Stdlib Require Import Ascii.
From S2P Require Import Prelude RustStr Json NetAddr NetBind RuntimeSettings.
From S2P Require Import ServiceConfigs RuntimeStore AppLog ServiceLifecycle EventServices.
From S2P Require Import WebhookRoutes InternalRoutes DatabaseConfig CommandLine ApiServer.
From S2P Require Import WebAssets WebProxy WebServer WebSocketHub Console.

#[local] Open Scope string_scope.
#[local] Open Scope tunnara_scope.

(** ** Texts *)

(*| src-tauri/src/commands/runtime.rs 244-254 normalize_client_base_url *)
Definition test_base_url (base_url : string) : string :=
  if blank base_url then "http://127.0.0.1:61001"
  else
    replace "https://[::]:" "https://127.0.0.1:"
      (replace "http://[::]:" "http://127.0.0.1:"
        (replace "https://0.0.0.0:" "https://127.0.0.1:"
          (replace "http://0.0.0.0:" "http://127.0.0.1:" (trim base_url)))).

(** The body of a printed page: the text as it is, or a note that there is
    none. Neither the text nor the title is escaped. *)
(*| src-tauri/src/commands/runtime.rs 303-307 build_print_document *)
Definition print_body (html : string) : string :=
  if blank html
  then "<main class=" ++ quote "empty" ++ ">Nenhum conteúdo informado para impressão.</main>"
  else html.

(** The answer of every action on the system service: nothing is done. *)
Record ServiceAction : Type := {
  sa_action : string;
  sa_implemented : bool;
  sa_status : string;
}.

(*| src-tauri/src/commands/runtime.rs 236-243 service_action *)
Definition service_action (action : string) : ServiceAction :=
  {| sa_action := action; sa_implemented := false; sa_status := "managed-by-installer" |}.

(*| src-tauri/src/commands/runtime.rs 210-212 app_service_install *)
Definition app_service_install : ServiceAction := service_action "install".
(*| src-tauri/src/commands/runtime.rs 214-216 app_service_uninstall *)
Definition app_service_uninstall : ServiceAction := service_action "uninstall".
(*| src-tauri/src/commands/runtime.rs 218-220 app_service_start *)
Definition app_service_start : ServiceAction := service_action "start".
(*| src-tauri/src/commands/runtime.rs 222-224 app_service_stop *)
Definition app_service_stop : ServiceAction := service_action "stop".
(*| src-tauri/src/commands/runtime.rs 232-234 app_service_status *)
Definition app_service_status : ServiceAction := service_action "status".
(*| src-tauri/src/commands/runtime.rs 226-230 app_service_restart *)
Definition app_service_restart : ServiceAction * ServiceAction :=
  (service_action "stop", service_action "start").

(*| src-tauri/src/commands/runtime.rs 200-208 startup_with_windows_set *)
Definition startup_with_windows_set (enabled : bool) : ServiceAction * bool :=
  (service_action (if enabled then "startup-enable" else "startup-disable"), enabled).

(** ** Replies

    The members that repeat one setting, and fixed messages, are left out. *)

(*| src-tauri/src/commands/runtime.rs 12-42 internal_api_status *)
Record InternalApiStatus : Type := {
  ias_running : bool;
  ias_host : string;
  ias_port : N;
  ias_url : string;
  ias_docs_url : string;
  ias_started_at : option string;
  ias_token_configured : bool;
  ias_settings : RuntimeSettings;
  ias_ports : list RuntimeServicePort;
  ias_warnings : list string;
  ias_web_server : option WebRuntimeStatus;
  ias_recent_logs : list value;
}.

Record SettingsSaved : Type := {
  ss_env_path : string;
  ss_settings : RuntimeSettings;
  ss_ports : list RuntimeServicePort;
  ss_warnings : list string;
  ss_restarted : bool;
}.

Record PortTest : Type := {
  pt_host : string;
  pt_port : N;
  pt_available : bool;
  pt_suggested_port : N;
}.

Record ApiTest : Type := {
  at_url : string;
  at_status : N;
  at_ok : bool;
  at_body : string;
}.

Class RuntimeWorld (W : Type) `{OS : ConsoleOs W} : Type := {
  (** the last 50 rows of the log with category "internal-api" *)
  db_api_logs : db_conn -> St W (result string (list value));
  (** a GET with a time limit in milliseconds: the client, then the reply's
      status and text (empty when it cannot be read) *)
  build_timeout_client : N -> St W (result string unit);
  http_get_reply : N -> string -> St W (result string (N * string));
}.

(** The stored settings with the host and the port a caller gives. *)
(*| src-tauri/src/commands/runtime.rs 54-61 internal_api_start *)
Definition with_api_address (host : option string) (port : option N) (s : RuntimeSettings) :
    RuntimeSettings := {|
  internal_api_host := unwrap_or (internal_api_host s) host;
  internal_api_port := unwrap_or (internal_api_port s) port;
  internal_api_base_url := internal_api_base_url s;
  internal_api_docs_url := internal_api_docs_url s;
  internal_api_auto_start := internal_api_auto_start s;
  internal_api_restart_on_config_change := internal_api_restart_on_config_change s;
  internal_api_require_token := internal_api_require_token s;
  internal_api_allow_public_network := internal_api_allow_public_network s;
  internal_api_cors_enabled := internal_api_cors_enabled s;
  internal_api_token_header := internal_api_token_header s;
  internal_api_token := internal_api_token s;
  internal_api_docs_public_local := internal_api_docs_public_local s;
  internal_api_open_scalar_after_start := internal_api_open_scalar_after_start s;
  internal_api_timeout_ms := internal_api_timeout_ms s;
  internal_api_log_mode := internal_api_log_mode s;
  internal_api_docs_enabled := internal_api_docs_enabled s;
  internal_api_docs_path := internal_api_docs_path s; local_web_enabled := local_web_enabled s;
  local_web_auto_start := local_web_auto_start s; local_web_host := local_web_host s;
  local_web_port := local_web_port s; auxiliary_host := auxiliary_host s;
  auxiliary_port := auxiliary_port s; bridge_core_host := bridge_core_host s;
  bridge_core_port := bridge_core_port s; webhook_enabled := webhook_enabled s;
  webhook_auto_start := webhook_auto_start s; webhook_host := webhook_host s;
  webhook_port := webhook_port s; webhook_base_path := webhook_base_path s;
  webhook_token_required := webhook_token_required s;
  webhook_token_header := webhook_token_header s; webhook_token := webhook_token s;
  webhook_allow_lan := webhook_allow_lan s; webhook_allow_external := webhook_allow_external s;
  websocket_enabled := websocket_enabled s; websocket_auto_start := websocket_auto_start s;
  websocket_host := websocket_host s; websocket_port := websocket_port s;
  websocket_path := websocket_path s; websocket_token_required := websocket_token_required s;
  websocket_token_query := websocket_token_query s;
  websocket_token_header := websocket_token_header s; websocket_token := websocket_token s;
  websocket_allow_lan := websocket_allow_lan s;
  websocket_allow_external := websocket_allow_external s;
  websocket_heartbeat_seconds := websocket_heartbeat_seconds s; tray_enabled := tray_enabled s;
  minimize_to_tray := minimize_to_tray s; close_to_tray := close_to_tray s;
  start_with_windows := start_with_windows s; services_auto_start := services_auto_start s;
  app_service_name := app_service_name s |}.

Section RuntimeCommands.
Context `{BI : BuildInfo} {W : Type} `{NW : NetWorld W} `{SW : !ServerWorld W}.
Context `{OS : ConsoleOs W} `{LO : !LogOs W} `{AW : !ApiServerWorld W} `{WW : !WebServerWorld W}.
Context `{SPH : !Spawner W WebhookConfig} `{SPS : !Spawner W WebSocketConfig}.
Context `{AP : !AppWorld W} `{DD : DatabaseDrivers W} `{RW : !RuntimeWorld W}.

(** ** The internal API and the web server *)

(*| src-tauri/src/commands/runtime.rs 256-277 recent_internal_api_logs *)
Definition recent_internal_api_logs : St console (result string (list value)) :=
  app ← get_app;
  match state_db_path app with
  | Err e => mret (Err e)
  | Ok db_path => conn ←? on_os (db_open db_path); on_os (db_api_logs conn)
  end.

(*| src-tauri/src/commands/runtime.rs 12-42 internal_api_status *)
Definition internal_api_status : St console (result string InternalApiStatus) :=
  status ← api_status_now;
  web_status ← web_status_now;
  payload ←? on_proc load_settings;
  let s := payload_settings payload in
  logs ← recent_internal_api_logs;
  mret (Ok {|
    ias_running := as_running status;
    ias_host := if as_running status then as_host status else internal_api_host s;
    ias_port := if as_running status then as_port status else internal_api_port s;
    ias_url := unwrap_or (internal_api_base_url s) (as_url status);
    ias_docs_url := unwrap_or (internal_api_docs_url s) (as_docs_url status);
    ias_started_at := as_started_at status;
    ias_token_configured := negb (blank (internal_api_token s));
    ias_settings := s; ias_ports := payload_ports payload;
    ias_warnings := payload_warnings payload; ias_web_server := Some web_status;
    ias_recent_logs := unwrap_or [] (ok logs) |}).

(*| src-tauri/src/commands/runtime.rs 45-65 internal_api_start *)
Definition internal_api_start (host : option string) (port : option N) :
    St console (result string ApiRuntimeStatus) :=
  match host, port with
  | None, None => config ←? on_proc resolve_internal_api_config; api_start config
  | _, _ =>
      payload ←? on_proc load_settings;
      env ← console_env;
      api_start (ia_from_runtime_settings env (with_api_address host port (payload_settings payload)))
  end.

(*| src-tauri/src/commands/runtime.rs 68-71 internal_api_stop *)
Definition internal_api_stop : St console (result string ApiRuntimeStatus) :=
  status ← api_stop; mret (Ok status).

(*| src-tauri/src/commands/runtime.rs 74-81 internal_api_restart *)
Definition internal_api_restart (host : option string) (port : option N) :
    St console (result string ApiRuntimeStatus) :=
  _ ← api_stop; internal_api_start host port.

(*| src-tauri/src/commands/runtime.rs 143-152 internal_api_test_port *)
Definition internal_api_test_port (host : string) (port : N) : St console (result string PortTest) :=
  available ← on_os (is_port_available host port);
  mret (Ok {| pt_host := host; pt_port := port; pt_available := available; pt_suggested_port := port |}).

(*| src-tauri/src/commands/runtime.rs 155-170 internal_api_test *)
Definition internal_api_test (base_url : string) (timeout_ms : option N) :
    St console (result string ApiTest) :=
  let url := trim_end_char "/" (test_base_url base_url) ++ "/health" in
  let timeout := N.max (unwrap_or 8000%N timeout_ms) 1000 in
  _ ←? (r ← on_os (build_timeout_client timeout);
        mret (map_err (fun err => "Falha ao preparar teste da API: " ++ err) r));
  reply ← on_os (http_get_reply timeout url);
  mret (match reply with
        | Err err => Err ("Falha ao conectar na API interna em " ++ url ++ ": " ++ err)
        | Ok (status, body) => Ok {| at_url := url; at_status := status;
                                     at_ok := (200 <=? status)%N && (status <? 300)%N;
                                     at_body := body |}
        end).

(*| src-tauri/src/commands/runtime.rs 173-175 web_proxy_status *)
Definition web_proxy_status : St console (result string WebRuntimeStatus) :=
  status ← web_status_now; mret (Ok status).
(*| src-tauri/src/commands/runtime.rs 178-181 web_proxy_start *)
Definition web_proxy_start : St console (result string WebRuntimeStatus) := web_start.
(*| src-tauri/src/commands/runtime.rs 184-186 web_proxy_stop *)
Definition web_proxy_stop : St console (result string WebRuntimeStatus) :=
  status ← web_stop; mret (Ok status).
(*| src-tauri/src/commands/runtime.rs 189-192 web_proxy_restart *)
Definition web_proxy_restart : St console (result string WebRuntimeStatus) :=
  _ ← web_stop; web_proxy_start.

(** ** The event services *)

(*| src-tauri/src/commands/webhook.rs 12-15 webhook_start *)
Definition webhook_start : St console (result string RuntimeStatus) := hook_start.
(*| src-tauri/src/commands/webhook.rs 18-20 webhook_stop *)
Definition webhook_stop : St console (result string RuntimeStatus) :=
  status ← hook_stop; mret (Ok status).
(*| src-tauri/src/commands/webhook.rs 23-26 webhook_restart *)
Definition webhook_restart : St console (result string RuntimeStatus) := _ ← hook_stop; webhook_start.
(*| src-tauri/src/commands/webhook.rs 29-31 webhook_list_events *)
Definition webhook_list_events (g : WebhookGlobals) : value :=
  Object [("items", Array (map event_json (list_events_snapshot g)))].

(*| src-tauri/src/commands/webhook.rs 40-49 webhook_test_receive *)
Definition webhook_test_receive (provider event : option string) (payload : option value) :
    St console (result string value) :=
  now ← on_os utc_now_rfc3339;
  mret (Ok (Object [("ok", Bool true); ("simulated", Bool true);
    ("provider", String_ (unwrap_or "manual" provider)); ("event", String_ (unwrap_or "test" event));
    ("payload", unwrap_or (Object [("message", String_ "Teste local do Webhook Service")]) payload);
    ("received_at", String_ now)])).

(*| src-tauri/src/commands/websocket.rs 12-15 websocket_start *)
Definition websocket_start : St console (result string RuntimeStatus) := sock_start.
(*| src-tauri/src/commands/websocket.rs 18-20 websocket_stop *)
Definition websocket_stop : St console (result string RuntimeStatus) :=
  status ← sock_stop; mret (Ok status).
(*| src-tauri/src/commands/websocket.rs 23-26 websocket_restart *)
Definition websocket_restart : St console (result string RuntimeStatus) :=
  _ ← sock_stop; websocket_start.

(** The message a broadcast test sends, as JSON. *)
(*| src-tauri/src/commands/websocket.rs 33-37 websocket_broadcast_test *)
Definition broadcast_payload (message : option string) (now : string) : value :=
  Object [("type", String_ "template.broadcast.test");
    ("message", String_ (unwrap_or "Mensagem de teste do WebSocket Service" message));
    ("sent_at", String_ now)].

(** ** Saving the settings *)

(** A service after a save: stopped if it ran or starts by itself, and started
    again only if it is enabled and starts by itself. *)
Definition reconcile {A B} (was_running auto_start enabled : bool) (stop : St console A)
    (start : St console (result string B)) : St console unit :=
  if was_running || auto_start then
    _ ← stop; if enabled && auto_start then (_ ← start; mret ()) else mret ()
  else mret ().

(** The restart of the API, when the settings ask for it and it runs. *)
(*| src-tauri/src/commands/runtime.rs 106-110 runtime_settings_save *)
Definition restart_api (should_restart : bool) : St console (result string unit) :=
  if should_restart then
    _ ← api_stop;
    config ←? on_proc resolve_internal_api_config;
    _ ←? api_start config;
    mret (Ok ())
  else mret (Ok ()).

(** What follows the save, from what ran before it. *)
(*| src-tauri/src/commands/runtime.rs 106-139 runtime_settings_save *)
Definition apply_saved (restart web_ran hook_ran sock_ran : bool) (saved : RuntimeSettingsPayload) :
    St console (result string SettingsSaved) :=
  _ ←? restart_api restart;
  let s := payload_settings saved in
  _ ← reconcile web_ran (local_web_auto_start s) (local_web_enabled s) web_stop web_start;
  _ ← reconcile hook_ran (webhook_auto_start s) (webhook_enabled s) hook_stop hook_start;
  _ ← reconcile sock_ran (websocket_auto_start s) (websocket_enabled s) sock_stop sock_start;
  mret (Ok {| ss_env_path := payload_env_path saved; ss_settings := s;
              ss_ports := payload_ports saved; ss_warnings := payload_warnings saved;
              ss_restarted := restart |}).

(*| src-tauri/src/commands/runtime.rs 84-87 runtime_settings_load *)
Definition runtime_settings_load : St console (result string RuntimeSettingsPayload) := on_proc load_settings.

(*| src-tauri/src/commands/runtime.rs 90-140 runtime_settings_save *)
Definition runtime_settings_save (settings : RuntimeSettings) :
    St console (result string SettingsSaved) :=
  api ← api_status_now;
  web ← web_status_now;
  hook ← hook_status_now;
  sock ← sock_status_now;
  saved ←? on_proc (fun app => save_settings app settings);
  apply_saved (internal_api_restart_on_config_change settings && as_running api)
    (wst_running web) (st_running hook) (st_running sock) saved.

(** ** Lemmas *)

Definition runs_by_itself (auto_start enabled : bool) : bool := enabled && auto_start.

Lemma reconcile_frames {A B T} (f : console -> T) w a e (stop : St console A)
    (start : St console (result string B)) :
  frames f stop -> frames f start -> frames f (reconcile w a e stop start).
Proof. intros H1 H2. unfold reconcile. frame. Qed.

(** A service that does not start by itself does not run afterwards. *)
Lemma reconcile_stopped {A B T} (slot : console -> option T) w a e (stop : St console A)
    (start : St console (result string B)) s u s' :
  (forall s a s', stop s = (a, s') -> slot s' = None) ->
  (slot s <> None -> w = true) -> runs_by_itself a e = false ->
  reconcile w a e stop start s = (u, s') -> slot s' = None.
Proof.
  intros Hstop Hw Ha H. unfold reconcile in H. unfold runs_by_itself in Ha. rewrite Ha in H.
  destruct (w || a) eqn:E.
  - run_bind H x s1 as Es. apply Hstop in Es. by injection H as _ <-.
  - apply orb_false_iff in E as [-> _]. injection H as _ <-.
    destruct (slot s) eqn:Es; [by discriminate (Hw ltac:(done))|done].
Qed.

Lemma web_stop_slot s (a : WebRuntimeStatus) s' : web_stop s = (a, s') -> co_web s' = None.
Proof.
  unfold web_stop, on_web. destruct (web_stop_background _) as [b [h p]] eqn:E.
  intros [= _ <-]. by apply web_stop_empties in E.
Qed.
Lemma hook_stop_slot s (a : RuntimeStatus) s' : hook_stop s = (a, s') -> co_hook s' = None.
Proof. unfold hook_stop, on_hook, reading, stop_background. by intros [= _ <-]. Qed.
Lemma sock_stop_slot s (a : RuntimeStatus) s' : sock_stop s = (a, s') -> co_sock s' = None.
Proof.
  unfold sock_stop, on_sock, reading, websocket_stop_background, stop_background.
  by intros [= _ <-].
Qed.

(** The statuses change no slot, and a server in its slot is running. *)
Lemma api_status_now_slots : frames slots api_status_now.
Proof.
  intros s a s' H. unfold api_status_now, on_api in H.
  destruct (api_server_status _) as [x [h p]] eqn:E. injection H as _ <-.
  apply api_status_keeps in E. cbn in E. by subst.
Qed.
Lemma web_status_now_slots s st s' :
  web_status_now s = (st, s') -> slots s' = slots s /\ (co_web s <> None -> wst_running st = true).
Proof.
  intros H. unfold web_status_now, on_web in H. destruct (web_status _) as [x [h p]] eqn:E.
  injection H as -> <-. split; [apply web_status_keeps in E; cbn in E; by subst|].
  intros Hn. unfold web_status in E. cbn [fst] in E. destruct (co_web s); [|done].
  by injection E as <- _ _.
Qed.

Lemma restart_api_frames {T} (f : console -> T) b :
  frames f api_stop -> (forall c, frames f (api_start c)) ->
  frames f (on_proc resolve_internal_api_config) -> frames f (restart_api b).
Proof. intros H1 H2 H3. unfold restart_api. frame. Qed.

Lemma frames_run {A T} (f : console -> T) (c : St console A) s a s' :
  c s = (a, s') -> frames f c -> f s' = f s.
Proof. intros E Hf. by apply Hf in E. Qed.

(** Read a part of the console through the steps that do not touch it. *)
Ltac by_frames :=
  repeat match goal with
  | E : restart_api _ ?s = (_, ?s') |- context [?f ?s'] =>
      rewrite (frames_run f _ _ _ _ E) by (apply restart_api_frames; intros; frame_op)
  | E : reconcile _ _ _ _ _ ?s = (_, ?s') |- context [?f ?s'] =>
      rewrite (frames_run f _ _ _ _ E) by (apply reconcile_frames; frame_op)
  end.

Lemma apply_saved_effect restart wr hr kr saved s r s' :
  apply_saved restart wr hr kr saved s = (r, s') ->
  (co_web s <> None -> wr = true) -> (co_hook s <> None -> hr = true) -> (co_sock s <> None -> kr = true) ->
  co_app s' = co_app s /\
  match r with
  | Ok sv =>
      (ss_restarted sv = false -> co_api s' = co_api s) /\
      (runs_by_itself (local_web_auto_start (ss_settings sv)) (local_web_enabled (ss_settings sv)) = false ->
       co_web s' = None) /\
      (runs_by_itself (webhook_auto_start (ss_settings sv)) (webhook_enabled (ss_settings sv)) = false ->
       co_hook s' = None) /\
      (runs_by_itself (websocket_auto_start (ss_settings sv)) (websocket_enabled (ss_settings sv)) = false ->
       co_sock s' = None)
  | Err _ =>
      (co_web s', co_hook s', co_sock s') = (co_web s, co_hook s, co_sock s) /\
      (co_api s' = co_api s \/ restart = true)
  end.
Proof.
  unfold apply_saved. intros H Hw Hh Hk.
  apply try_inv in H as [([] & s1 & E & H)|(e & E & ->)]; cycle 1.
  { by_frames. split; [done|]. split; [done|]. destruct restart; [by right|left]. by injection E as _ <-. }
  run_bind H u1 s2 as E2. run_bind H u2 s3 as E3. run_bind H u3 s4 as E4. injection H as <- <-.
  cbn [ss_restarted ss_settings]. split_and!.
  - by by_frames.
  - intros ->. by_frames. by injection E as <-.
  - intros Hr. by_frames. revert E2. apply reconcile_stopped; [apply web_stop_slot|by by_frames|done].
  - intros Hr. by_frames. revert E3. apply reconcile_stopped; [apply hook_stop_slot|by by_frames|done].
  - intros Hr. revert E4. apply reconcile_stopped; [apply sock_stop_slot|by by_frames|done].
Qed.

(** ** Properties *)

(** Saving the runtime settings. A save that fails leaves every server as
    it was; one that succeeds leaves no web server, webhook service or WebSocket
    service running in this process unless the saved settings enable it and
    start it by themselves, so a service that was started by hand is stopped;
    the internal API is touched only when the settings ask for a restart; and
    an error after the settings are stored can only come from that restart,
    before any other server is touched. *)
Theorem settings_save_effect settings s r s' :
  runtime_settings_save settings s = (r, s') ->
  co_app s' = co_app s /\
  match r with
  | Ok saved =>
      (ss_restarted saved = false -> co_api s' = co_api s) /\
      (runs_by_itself (local_web_auto_start (ss_settings saved)) (local_web_enabled (ss_settings saved)) = false ->
       co_web s' = None) /\
      (runs_by_itself (webhook_auto_start (ss_settings saved)) (webhook_enabled (ss_settings saved)) = false ->
       co_hook s' = None) /\
      (runs_by_itself (websocket_auto_start (ss_settings saved)) (websocket_enabled (ss_settings saved)) = false ->
       co_sock s' = None)
  | Err _ =>
      (co_web s', co_hook s', co_sock s') = (co_web s, co_hook s, co_sock s) /\
      (co_api s' = co_api s \/ internal_api_restart_on_config_change settings = true)
  end.
Proof.
  unfold runtime_settings_save. intros H.
  run_bind H api s1 as E1. run_bind H web s2 as E2. run_bind H hook s3 as E3. run_bind H sock s4 as E4.
  injection E3 as <- <-. injection E4 as <- <-.
  apply api_status_now_slots in E1. apply web_status_now_slots in E2 as [E2 Hweb].
  assert (slots s2 = slots s) as Hs by congruence. unfold slots in E1, Hs.
  injection E1 as _ _ Ew1 _ _. injection Hs as Ha Hapi Hw Hh Hk.
  apply try_inv in H as [(saved & s5 & E5 & H)|(e & E5 & ->)]; apply on_proc_slots in E5;
    unfold slots in E5; injection E5 as Ha5 Hapi5 Hw5 Hh5 Hk5; cycle 1.
  { split; [congruence|]. split; [congruence|left; congruence]. }
  apply apply_saved_effect in H.
  - destruct H as [Happ H]. split; [congruence|]. destruct r as [sv|e].
    + destruct H as (H1 & H2). split; [|done]. intros Hr. rewrite (H1 Hr). congruence.
    + destruct H as [H1 H2]. split; [congruence|]. destruct H2 as [H2|H2]; [left; congruence|right].
      by apply andb_true_iff in H2 as [H2 _].
  - intros Hn. apply Hweb. congruence.
  - intros Hn. unfold service_status. cbn [fst]. destruct (co_hook s2) eqn:E; [done|congruence].
  - intros Hn. unfold websocket_status, service_status. cbn [fst].
    destruct (co_sock s2) eqn:E; [done|congruence].
Qed.

End RuntimeCommands.
