(* ===== verification/Startup.v ===== *)
(** * Starting the program

    [main.rs], [cli/runner.rs] and the service orchestrator of [lib.rs]: which
    services a desktop or a headless start brings up, and in what order. The
    window and the tray are in [Desktop]. *)

From Stdlib Require Import Ascii.
From S2P Require Import Prelude RustStr Json NetAddr NetBind RuntimeSettings.
From S2P Require Import ServiceConfigs RuntimeStore AppLog ServiceLifecycle EventServices.
From S2P Require Import WebhookRoutes InternalRoutes DatabaseConfig CommandLine ApiServer.
From S2P Require Import WebAssets WebProxy WebServer Console.

#[local] Open Scope string_scope.
#[local] Open Scope tunnara_scope.

(** ** Decisions *)

(** A switch of the desktop program, in any letter case; the program's own
    name counts as an argument. *)
(*| src-tauri/src/lib.rs 381-383 arg_present *)
Definition arg_present (argv : list string) (names : list string) : bool :=
  existsb (fun arg => existsb (fun name => eq_ignore_ascii_case arg name) names) argv.

Definition env_on (env : Env) (key : string) : bool := env_bool env key false.

(*| src-tauri/src/lib.rs 329-337 should_start_internal_api *)
Definition wants_internal_api (env : Env) (s : RuntimeSettings) : bool :=
  internal_api_auto_start s && negb (env_on env "TUNNARA_CONSOLE_API_DISABLED")
  && negb (env_on env "APP_API_DISABLED") && negb (env_on env "TUNNARA_CONSOLE_INTERNAL_API_DISABLED").

Definition web_allowed (env : Env) (s : RuntimeSettings) : bool :=
  local_web_enabled s && negb (env_on env "TUNNARA_CONSOLE_WEB_DISABLED")
  && negb (env_on env "APP_WEB_DISABLED").
Definition webhook_allowed (env : Env) (s : RuntimeSettings) : bool :=
  webhook_enabled s && negb (env_on env "TUNNARA_CONSOLE_WEBHOOK_DISABLED")
  && negb (env_on env "APP_WEBHOOK_DISABLED").
Definition websocket_allowed (env : Env) (s : RuntimeSettings) : bool :=
  websocket_enabled s && negb (env_on env "TUNNARA_CONSOLE_WEBSOCKET_DISABLED")
  && negb (env_on env "APP_WEBSOCKET_DISABLED").

(*| src-tauri/src/lib.rs 339-351 should_start_web_proxy *)
Definition wants_web_proxy (argv : list string) (env : Env) (s : RuntimeSettings) : bool :=
  web_allowed env s
  && (local_web_auto_start s || services_auto_start s
      || env_on env "TUNNARA_CONSOLE_SERVICES_AUTO_START"
      || arg_present argv (app web_proxy_flags services_flags)).

(*| src-tauri/src/lib.rs 353-365 should_auto_start_webhook_service *)
Definition wants_webhook (argv : list string) (env : Env) (s : RuntimeSettings) : bool :=
  webhook_allowed env s
  && (webhook_auto_start s || services_auto_start s
      || env_on env "TUNNARA_CONSOLE_SERVICES_AUTO_START"
      || arg_present argv (app webhook_flags services_flags)).

(*| src-tauri/src/lib.rs 367-379 should_auto_start_websocket_service *)
Definition wants_websocket (argv : list string) (env : Env) (s : RuntimeSettings) : bool :=
  websocket_allowed env s
  && (websocket_auto_start s || services_auto_start s
      || env_on env "TUNNARA_CONSOLE_SERVICES_AUTO_START"
      || arg_present argv (app websocket_flags services_flags)).

(** The same choices of a headless start. *)
(*| src-tauri/src/cli/runner.rs 66-69 start_requested_background_services *)
Definition headless_web (p : CliArgs) (env : Env) (s : RuntimeSettings) : bool :=
  web_allowed env s && (cli_start_web_proxy p || cli_start_services p || local_web_auto_start s).

(*| src-tauri/src/cli/runner.rs 73-83 start_requested_background_services *)
Definition headless_webhook (p : CliArgs) (env : Env) (s : RuntimeSettings) : bool :=
  webhook_allowed env s
  && (cli_start_webhook p || cli_start_services p || services_auto_start s || webhook_auto_start s
      || env_on env "TUNNARA_CONSOLE_WEBHOOK_AUTO_START"
      || env_on env "TUNNARA_CONSOLE_SERVICES_AUTO_START").

(*| src-tauri/src/cli/runner.rs 87-97 start_requested_background_services *)
Definition headless_websocket (p : CliArgs) (env : Env) (s : RuntimeSettings) : bool :=
  websocket_allowed env s
  && (cli_start_websocket p || cli_start_services p || services_auto_start s || websocket_auto_start s
      || env_on env "TUNNARA_CONSOLE_WEBSOCKET_AUTO_START"
      || env_on env "TUNNARA_CONSOLE_SERVICES_AUTO_START").

Section Startup.
Context `{BI : BuildInfo} {W : Type} `{NW : NetWorld W} `{SW : !ServerWorld W}.
Context `{OS : ConsoleOs W} `{LO : !LogOs W} `{AW : !ApiServerWorld W} `{WW : !WebServerWorld W}.
Context `{SPH : !Spawner W WebhookConfig} `{SPS : !Spawner W WebSocketConfig}.
Context `{AP : !AppWorld W} `{DD : DatabaseDrivers W}.

(** The stored settings, or the defaults of the environment. *)
Definition settings_or_default : St console RuntimeSettings :=
  loaded ← on_proc load_settings;
  env ← console_env;
  mret (match loaded with Ok payload => payload_settings payload | Err _ => settings_default env end).

Definition console_env_file (with_state : bool) : St console (result string string) :=
  on_proc (fun app => init_env_file (if with_state then Some app else None)).

(** ** The desktop program *)

(** A service's turn: its own load of the settings, the decision, the start. *)
Definition turn (wants : Env -> RuntimeSettings -> bool) (start : St console unit) :
    St console unit :=
  s ← settings_or_default;
  env ← console_env;
  if wants env s then start else mret ().

Definition ignoring {A} (c : St console A) : St console unit := _ ← c; mret ().

(*| src-tauri/src/lib.rs 179-188 start_runtime_services_background *)
Definition resolve_and_start_api : St console unit :=
  config ← on_proc resolve_internal_api_config;
  match config with
  | Ok config => ignoring (api_start config)
  | Err _ => mret ()
  end.

(*| src-tauri/src/lib.rs 175-206 start_runtime_services_background *)
Definition start_runtime_services (argv : list string) : St console unit :=
  _ ← turn wants_internal_api resolve_and_start_api;
  _ ← turn (wants_web_proxy argv) (ignoring web_start);
  _ ← turn (wants_webhook argv) (ignoring hook_start);
  turn (wants_websocket argv) (ignoring sock_start).

(** The set-up of the desktop program, up to the orchestrator. *)
(*| src-tauri/src/lib.rs 55-77 run *)
Definition desktop_setup (argv : list string) : St console (result string unit) :=
  _ ← console_env_file false;
  _ ← console_env_file true;
  _ ←? app_init;
  _ ← start_runtime_services argv;
  mret (Ok ()).

(** ** A headless run *)

(** A start whose error ends the run. *)
Definition or_fail {A} (wanted : bool) (start : St console (result string A)) :
    St console (result string unit) :=
  if wanted then (_ ←? start; mret (Ok ())) else mret (Ok ()).

(*| src-tauri/src/cli/runner.rs 61-102 start_requested_background_services *)
Definition start_requested_services (p : CliArgs) : St console (result string unit) :=
  s ← settings_or_default;
  env ← console_env;
  _ ←? or_fail (headless_web p env s) web_start;
  env ← console_env;
  _ ←? or_fail (headless_webhook p env s) hook_start;
  env ← console_env;
  or_fail (headless_websocket p env s) sock_start.

(** The headless server, over the environment and the world: it has no slot. *)
Definition run_api (c : InternalApiConfig) : St console (result string unit) :=
  on_api (fun app => run_with_config app c).

(** The lines printed by the two modes that only print. *)
(*| src-tauri/src/cli/runner.rs 39-52 run *)
Definition cli_report (c : DatabaseConfig) : St console (result string (list string)) :=
  app ← get_app;
  match state_db_path app, state_data_dir app with
  | Err e, _ | _, Err e => mret (Err e)
  | Ok db_path, Ok data_dir =>
      health ← on_os (db_report c db_path);
      mret (Ok ["Tunnara Console CLI"; "Versão: " ++ cargo_pkg_version;
        "Banco SQLite local: " ++ db_path; "Driver configurado: " ++ hr_driver health;
        "Destino: " ++ hr_target health;
        "Status banco: " ++ show_bool (hr_ok health) ++ " - " ++ hr_message health;
        "Dados: " ++ data_dir])
  end.

(*| src-tauri/src/cli/runner.rs 32-58 run *)
Definition run_mode (p : CliArgs) (db : DatabaseConfig) : St console (result string (list string)) :=
  match cli_mode p with
  | HeadlessApi | WebProxyMode =>
      _ ←? start_requested_services p;
      env ← console_env;
      _ ←? run_api (ia_with_host_port (internal_api_default env) (cli_host p) (cli_port p));
      mret (Ok [])
  | Cli => cli_report db
  | Worker => mret (Ok ["Worker inicializado. Nenhuma fila ativa configurada neste template."])
  | Desktop => mret (Ok [])
  end.

(*| src-tauri/src/cli/runner.rs 16-58 run *)
Definition cli_run (p : CliArgs) : St console (result string (list string)) :=
  _ ← console_env_file false;
  _ ←? match cli_data_dir p with Some dir => init_with_data_dir dir | None => app_init end;
  _ ← console_env_file true;
  env ← console_env;
  let db := from_env_with_driver env (cli_database_driver p) in
  app ← get_app;
  match state_db_path app with
  | Err e => mret (Err e)
  | Ok sqlite_path =>
      _ ←? (if is_external (dc_driver db) then on_os (db_migrate db sqlite_path) else mret (Ok ()));
      run_mode p db
  end.

(** The process: the desktop, or a headless run with its exit code. *)
(*| src-tauri/src/main.rs 3-13 main *)
Definition main (argv : list string) (env : Env) : St console N :=
  let p := cli_parse env (tail argv) in
  if should_run_without_tauri p then
    r ← cli_run p; mret (if is_ok r then 0 else 1)%N
  else _ ← desktop_setup argv; mret 0%N.

(** ** Lemmas *)

(** A variable that is set stays as it is through a load of the settings. *)
Section Variables.
Context (K V : string).

Definition var_set (p : Env * W) : Prop := fst p !! K = Some V.

Lemma os_var {A} (c : St W A) : stable var_set (os c).
Proof. intros p a p' H E. apply os_run in E as [_ E]. unfold var_set. by rewrite E. Qed.

Lemma set_if_unset_var env kv : env !! K = Some V -> set_if_unset env kv !! K = Some V.
Proof.
  unfold set_if_unset. intros H. destruct (env !! fst kv) eqn:E; [done|].
  rewrite lookup_insert_ne; [done|congruence].
Qed.

Lemma load_env_text_var raw env : env !! K = Some V -> load_env_text raw env !! K = Some V.
Proof.
  unfold load_env_text. revert env. induction (omap _ _) as [|kv l IH]; intros env H; [done|].
  cbn. by apply IH, set_if_unset_var.
Qed.

Lemma load_env_file_var path : stable var_set (load_env_file path).
Proof.
  unfold load_env_file. apply stable_bind; [apply os_var|]. intros [|]; [|apply stable_ret].
  apply stable_bind; [apply os_var|]. intros [text|e]; [|apply stable_ret].
  apply stable_bind; [|intros; apply stable_ret].
  intros p a p' H [= _ <-]. by apply load_env_text_var.
Qed.

Lemma init_env_file_var st : stable var_set (init_env_file st).
Proof.
  intros p. unfold init_env_file. destruct (env_file_path st p) as [path|e]; [|by intros a p' H [= _ <-]].
  revert p. apply stable_try.
  - apply stable_bind; [apply os_var|]. intros [|]; [apply stable_ret|].
    apply stable_try; [|intros; apply stable_bind; [apply os_var|intros; apply stable_ret]].
    unfold create_parent. destruct (path_parent path); [|apply stable_ret].
    apply stable_bind; [apply os_var|intros; apply stable_ret].
  - intros []. apply stable_try; [apply load_env_file_var|intros; apply stable_ret].
Qed.

Lemma get_env_var : stable var_set get_env.
Proof. intros p a p' H [= _ <-]. done. Qed.

Lemma load_settings_var st : stable var_set (load_settings st).
Proof.
  unfold load_settings. apply stable_try; [apply init_env_file_var|]. intros path.
  apply stable_bind; [apply get_env_var|]. intros env. apply stable_try.
  - unfold open_state_db. destruct (state_db_path st); [apply os_var|apply stable_ret].
  - intros conn. apply stable_bind; [apply os_var|]. intros [row|]; [|apply stable_ret].
    destruct (settings_of_row env row); [|apply stable_ret].
    apply stable_bind; [apply os_var|intros; apply stable_ret].
Qed.

Lemma resolve_api_var st : stable var_set (resolve_internal_api_config st).
Proof.
  apply stable_try; [apply load_settings_var|]. intros payload.
  apply stable_bind; [apply get_env_var|intros; apply stable_ret].
Qed.
Lemma resolve_webhook_var st : stable var_set (resolve_webhook_config st).
Proof. apply stable_try; [apply load_settings_var|intros; apply stable_ret]. Qed.
Lemma resolve_websocket_var st : stable var_set (resolve_websocket_config st).
Proof. apply stable_try; [apply load_settings_var|intros; apply stable_ret]. Qed.


(** *** The variable on the whole console *)

Definition env_set (s : console) : Prop := env_of_console s !! K = Some V.

(** The variable is set and a part of the console is as given. *)
Definition held {T} (f : console -> T) (h : T) (s : console) : Prop := env_set s /\ f s = h.

Lemma on_proc_held {A T} (f : console -> T) h (c : SharedState -> St (Env * W) A) :
  frames f (on_proc c) -> (forall app, stable var_set (c app)) -> stable (held f h) (on_proc c).
Proof.
  intros Hf Hc s a s' [He Hh] H. split; [|by rewrite (Hf _ _ _ H)].
  unfold on_proc in H. destruct (c (co_app s) (co_proc s)) as [b p] eqn:E. injection H as <- <-.
  by eapply (Hc (co_app s)).
Qed.

Lemma settings_or_default_held {T} (f : console -> T) h :
  (forall A (c : SharedState -> St (Env * W) A), frames f (on_proc c)) ->
  stable (held f h) settings_or_default.
Proof.
  intros Hf. apply stable_bind; [by apply on_proc_held, load_settings_var|]. intros loaded.
  apply stable_bind; [|intros; apply stable_ret]. by intros s a s' H [= _ <-].
Qed.

(** A service's turn: either its start keeps the property, or the variable
    forbids it. *)
Lemma turn_held {T} (f : console -> T) h wants start :
  (forall A (c : SharedState -> St (Env * W) A), frames f (on_proc c)) ->
  (stable (held f h) start \/ forall env st, env !! K = Some V -> wants env st = false) ->
  stable (held f h) (turn wants start).
Proof.
  intros Hf Hcase. unfold turn. apply stable_bind; [by apply settings_or_default_held|]. intros st.
  intros s a s' Hs H. run_bind H env s1 as E. injection E as <- <-. destruct Hcase as [Hstart|Hno].
  - destruct (wants _ st); [by eapply Hstart|by injection H as _ <-].
  - rewrite Hno in H by apply Hs. by injection H as _ <-.
Qed.

Lemma ignoring_stable {A} (I : console -> Prop) (c : St console A) : stable I c -> stable I (ignoring c).
Proof. intros H. apply stable_bind; [done|]. intros; apply stable_ret. Qed.

Lemma api_start_env c : K ∉ map fst (api_env c) -> stable env_set (api_start c).
Proof.
  intros HK s r s' He H. unfold api_start, on_api in H.
  destruct (api_start_background _ _ _) as [r1 [slot p]] eqn:E. injection H as <- <-.
  apply api_start_spec in E as [(e & _ & _ & [= -> ->])|[(h & _ & _ & [= -> ->])|(_ & _ & He' & _)]]; [done..|].
  unfold env_set, env_of_console, env_of in *. cbn [fst snd co_proc] in *. destruct He' as [-> | ->]; [done|].
  by rewrite foldl_insert_other.
Qed.

(** *** The variable in the web server's and the event services' starts *)

Definition web_var (s : web_state) : Prop := var_set (snd s).

Lemma web_proc_var {A} (c : St (Env * W) A) : stable var_set c -> stable web_var (web_proc c).
Proof. intros Hc s a s' H [_ E]%web_proc_run. by eapply Hc. Qed.
Lemma web_os_var {A} (c : St W A) : stable web_var (web_os c).
Proof. apply web_proc_var, os_var. Qed.
Lemma set_web_slot_var h : stable web_var (set_web_slot h).
Proof. by intros s a s' H [= _ <-]. Qed.
#[local] Hint Resolve web_os_var set_web_slot_var : frames.

Lemma web_status_var : stable web_var web_status.
Proof.
  intros s. unfold web_status. destruct (fst s); [by intros a s' H [= _ <-]|].
  destruct (web_os _ s) as [x s1] eqn:E. intros a s' H [= _ <-]. by eapply web_os_var.
Qed.

Lemma web_stop_var : stable web_var web_stop_background.
Proof.
  intros s. unfold web_stop_background. revert s.
  assert (forall h, stable web_var (_ ← set_web_slot None;
    _ ← match h with Some h => web_os (stop_web_handle h) | None => mret () end; web_status)) as H.
  { intros h. frame. apply web_status_var. }
  intros s. apply (H (fst s)).
Qed.

Lemma web_start_var st : stable web_var (web_start_background st).
Proof.
  assert (stable web_var (web_settings st)) as Hs.
  { unfold web_settings. apply stable_bind; [apply web_proc_var, load_settings_var|]. intros.
    apply stable_bind; [apply web_proc_var, get_env_var|intros; apply stable_ret]. }
  assert (forall s, stable web_var (web_bind_and_serve st s)) as Hb.
  { intros s. unfold web_bind_and_serve, web_serve_bound, web_proxy_state. frame.
    apply web_proc_var, resolve_api_var. }
  unfold web_start_background. apply stable_bind; [done|]. intros s. destruct (negb _); [apply stable_ret|].
  apply stable_bind; [by intros ? ? ? ? [= _ <-]|]. intros [h|]; [|apply Hb].
  destruct (web_already_running _ _ h); [apply stable_ret|].
  apply stable_bind; [apply web_stop_var|]. intros.
  apply stable_bind; [apply web_os_var|]. intros. apply Hb.
Qed.

Lemma web_start_env : stable env_set web_start.
Proof.
  intros s r s' He H. unfold web_start, on_web in H.
  destruct (web_start_background _ _) as [r1 [slot p]] eqn:E. injection H as <- <-.
  by apply (web_start_var (co_app s)) in E.
Qed.

Lemma hook_start_env : stable env_set hook_start.
Proof.
  intros s r s' He H. unfold hook_start, on_hook, webhook_start_background in H.
  destruct (resolve_webhook_config _ _) as [rc [env w]] eqn:E.
  apply (resolve_webhook_var (co_app s)) in E; [|by destruct (co_proc s) eqn:Ep; unfold env_set, env_of_console in *; rewrite Ep in *].
  destruct rc as [c|e]; [|by injection H as _ <-].
  destruct (start_background_with_config _ _ _) as [r1 [slot w1]]. by injection H as _ <-.
Qed.

Lemma sock_start_env : stable env_set sock_start.
Proof.
  intros s r s' He H. unfold sock_start, on_sock, websocket_start_background in H.
  destruct (resolve_websocket_config _ _) as [rc [env w]] eqn:E.
  apply (resolve_websocket_var (co_app s)) in E; [|by destruct (co_proc s) eqn:Ep; unfold env_set, env_of_console in *; rewrite Ep in *].
  destruct rc as [c|e]; [|by injection H as _ <-].
  destruct (websocket_start_background_with_config _ _ _) as [r1 [slot w1]]. by injection H as _ <-.
Qed.

(** An operation that keeps the variable and leaves a part alone. *)
Lemma held_intro {A T} (f : console -> T) h (c : St console A) :
  stable env_set c -> frames f c -> stable (held f h) c.
Proof. intros He Hf s a s' [H1 H2] E. split; [by eapply He|by rewrite (Hf _ _ _ E)]. Qed.

End Variables.

(** ** Properties *)

(** A variable that switches a service off, set to a true value. *)
Definition off (s : console) (keys : list string) : Prop :=
  exists K, K ∈ keys /\ env_on (env_of_console s) K = true.

Definition api_off : list string :=
  ["TUNNARA_CONSOLE_API_DISABLED"; "APP_API_DISABLED"; "TUNNARA_CONSOLE_INTERNAL_API_DISABLED"].
Definition web_off : list string := ["TUNNARA_CONSOLE_WEB_DISABLED"; "APP_WEB_DISABLED"].
Definition webhook_off : list string := ["TUNNARA_CONSOLE_WEBHOOK_DISABLED"; "APP_WEBHOOK_DISABLED"].
Definition websocket_off : list string := ["TUNNARA_CONSOLE_WEBSOCKET_DISABLED"; "APP_WEBSOCKET_DISABLED"].

(** The value behind a switch that is on: any environment with it has it on. *)
Lemma off_value s keys : off s keys ->
  exists K V, K ∈ keys /\ env_of_console s !! K = Some V /\
    forall env, env !! K = Some V -> env_on env K = true.
Proof.
  intros (K & HK & H). unfold env_on, env_bool in H.
  destruct (env_of_console s !! K) as [V|] eqn:E; [|done]. exists K, V. split_and!; [done..|].
  intros env He. unfold env_on, env_bool. by rewrite He.
Qed.

(** Every switch is none of the variables that a start of the API publishes,
    and it forbids its service. *)
Lemma switch_forbids K env s argv p :
  env_on env K = true ->
  (K ∈ api_off -> wants_internal_api env s = false) /\
  (K ∈ web_off -> wants_web_proxy argv env s = false /\ headless_web p env s = false) /\
  (K ∈ webhook_off -> wants_webhook argv env s = false /\ headless_webhook p env s = false) /\
  (K ∈ websocket_off -> wants_websocket argv env s = false /\ headless_websocket p env s = false).
Proof.
  intros H. unfold api_off, web_off, webhook_off, websocket_off, wants_internal_api, wants_web_proxy,
    headless_web, wants_webhook, headless_webhook, wants_websocket, headless_websocket,
    web_allowed, webhook_allowed, websocket_allowed.
  split_and!; intros HK; rewrite !elem_of_cons, elem_of_nil in HK;
    repeat (destruct HK as [-> | HK]; [by rewrite H, ?andb_false_r|]); done.
Qed.

Lemma switch_not_published K c :
  K ∈ api_off \/ K ∈ web_off \/ K ∈ webhook_off \/ K ∈ websocket_off -> K ∉ map fst (api_env c).
Proof.
  unfold api_off, web_off, webhook_off, websocket_off, api_env. cbn [map fst].
  rewrite !elem_of_cons, !elem_of_nil. intros H HK. destruct_or?; by simplify_eq.
Qed.

(** The start of the API at its turn keeps a switch. *)
Lemma resolve_and_start_env K V :
  (forall c, K ∉ map fst (api_env c)) -> stable (env_set K V) resolve_and_start_api.
Proof.
  intros HK. unfold resolve_and_start_api. apply stable_bind.
  - intros s a s' He H. unfold on_proc in H. destruct (resolve_internal_api_config _ _) as [r p] eqn:E.
    injection H as _ <-. by apply (resolve_api_var K V) in E.
  - intros [c|e]; [|apply stable_ret]. apply ignoring_stable, api_start_env, HK.
Qed.

Lemma ignoring_frames {A T} (f : console -> T) (c : St console A) : frames f c -> frames f (ignoring c).
Proof. intros H. apply frames_bind; [done|]. intros; apply frames_ret. Qed.

(** A whole start, for one service: its part [f] of the console stays as it is
    when its switch is off and the other services' starts leave it alone. *)
Lemma services_held {T} (f : console -> T) K V argv s u s' :
  (forall c, K ∉ map fst (api_env c)) ->
  (forall A (c : SharedState -> St (Env * W) A), frames f (on_proc c)) ->
  frames f resolve_and_start_api \/ (forall env st, env !! K = Some V -> wants_internal_api env st = false) ->
  frames f web_start \/ (forall env st, env !! K = Some V -> wants_web_proxy argv env st = false) ->
  frames f hook_start \/ (forall env st, env !! K = Some V -> wants_webhook argv env st = false) ->
  frames f sock_start \/ (forall env st, env !! K = Some V -> wants_websocket argv env st = false) ->
  env_of_console s !! K = Some V ->
  start_runtime_services argv s = (u, s') -> f s' = f s.
Proof.
  intros HK Hp Hapi Hweb Hhook Hsock Hs H.
  assert (stable (held K V f (f s)) (start_runtime_services argv)) as Hst.
  { unfold start_runtime_services.
    apply stable_bind; [|intros []; apply stable_bind; [|intros []; apply stable_bind; [|intros []]]];
      apply turn_held; try done.
    - destruct Hapi as [Hapi|]; [left|by right]. apply held_intro; [by apply resolve_and_start_env|done].
    - destruct Hweb as [Hw|]; [left|by right]. apply ignoring_stable, held_intro; [apply web_start_env|done].
    - destruct Hhook as [Hw|]; [left|by right]. apply ignoring_stable, held_intro; [apply hook_start_env|done].
    - destruct Hsock as [Hw|]; [left|by right]. apply ignoring_stable, held_intro; [apply sock_start_env|done]. }
  by apply (Hst s u s') in H as [_ H].
Qed.

(** The same for the services of a headless run. *)
Lemma headless_held {T} (f : console -> T) K V p s r s' :
  (forall A (c : SharedState -> St (Env * W) A), frames f (on_proc c)) ->
  frames f web_start \/ (forall env st, env !! K = Some V -> headless_web p env st = false) ->
  frames f hook_start \/ (forall env st, env !! K = Some V -> headless_webhook p env st = false) ->
  frames f sock_start \/ (forall env st, env !! K = Some V -> headless_websocket p env st = false) ->
  env_of_console s !! K = Some V ->
  start_requested_services p s = (r, s') -> f s' = f s.
Proof.
  intros Hp Hweb Hhook Hsock Hs H.
  assert (forall (wants : Env -> bool) A (start : St console (result string A))
    B (k : unit -> St console (result string B)),
    (stable (held K V f (f s)) start \/ forall env, env !! K = Some V -> wants env = false) ->
    (forall u, stable (held K V f (f s)) (k u)) ->
    stable (held K V f (f s)) (env ← console_env; try (or_fail (wants env) start) k)) as Hturn.
  { intros wants A start B k Hcase Hk s1 a s1' Hs1 E. run_bind E env s2 as E1. injection E1 as <- <-.
    revert E. apply stable_try; [|done|done]. unfold or_fail. destruct (wants _) eqn:Ew; [|apply stable_ret].
    destruct Hcase as [Hc|Hc]; [|rewrite Hc in Ew by apply Hs1; done].
    apply stable_try; [done|intros; apply stable_ret]. }
  assert (stable (held K V f (f s)) (start_requested_services p)) as Hst.
  { unfold start_requested_services. apply stable_bind; [by apply settings_or_default_held|]. intros st.
    apply (Hturn (fun env => headless_web p env st)).
    { destruct Hweb as [Hw|Hw]; [left; by apply held_intro; [apply web_start_env|]|right; auto]. }
    intros []. apply (Hturn (fun env => headless_webhook p env st)).
    { destruct Hhook as [Hw|Hw]; [left; by apply held_intro; [apply hook_start_env|]|right; auto]. }
    intros []. intros s1 a s1' Hs1 E. run_bind E env s2 as E1. injection E1 as <- <-.
    unfold or_fail in E. destruct (headless_websocket _ _ st) eqn:Ew; [|by injection E as _ <-].
    destruct Hsock as [Hw|Hw]; [|rewrite Hw in Ew by apply Hs1; done].
    revert E. apply stable_try; [apply held_intro; [apply sock_start_env|done]|intros; apply stable_ret|done]. }
  by apply (Hst s r s') in H as [_ H].
Qed.

(** The switches of the environment are final. When one of the variables
    that disable a service is on, neither the start of the desktop program nor a
    headless run fills (or empties) the slot of that service, whatever the
    stored settings, the ".env" file, the command line and the other services'
    starts do on the way; and no start changes the application context. *)
Theorem disabled_services_stay_off argv p s u s1 r s2 :
  start_runtime_services argv s = (u, s1) -> start_requested_services p s = (r, s2) ->
  (off s api_off -> co_api s1 = co_api s) /\
  (off s web_off -> co_web s1 = co_web s /\ co_web s2 = co_web s) /\
  (off s webhook_off -> co_hook s1 = co_hook s /\ co_hook s2 = co_hook s) /\
  (off s websocket_off -> co_sock s1 = co_sock s /\ co_sock s2 = co_sock s) /\
  co_api s2 = co_api s.
Proof.
  intros H1 H2.
  assert (forall K keys, K ∈ keys -> keys = api_off \/ keys = web_off \/ keys = webhook_off
    \/ keys = websocket_off -> forall c, K ∉ map fst (api_env c)) as Hpub.
  { intros K keys HK Hk c. apply switch_not_published. destruct_or?; subst; tauto. }
  split_and!; [intros (K & V & HK & HV & Hon)%off_value..|].
  - revert H1. apply (services_held co_api K V); try done; [by eapply Hpub; [|left]|intros; by frame_op|..];
      try (left; by frame_op). right. intros env st He%Hon. by apply (switch_forbids K env st [] p).
  - split; [revert H1; apply (services_held co_web K V)|revert H2; apply (headless_held co_web K V)];
      try done; try (by eapply Hpub; [|right; left]); try (intros; by frame_op);
      try (left; by frame_op); try (right; intros env st He%Hon; by apply (switch_forbids K env st argv p)).
    left. apply frames_bind; [frame_op|]. intros [c|]; [|apply frames_ret]. apply ignoring_frames. frame_op.
  - split; [revert H1; apply (services_held co_hook K V)|revert H2; apply (headless_held co_hook K V)];
      try done; try (by eapply Hpub; [|right; right; left]); try (intros; by frame_op);
      try (left; by frame_op); try (right; intros env st He%Hon; by apply (switch_forbids K env st argv p)).
    left. apply frames_bind; [frame_op|]. intros [c|]; [|apply frames_ret]. apply ignoring_frames. frame_op.
  - split; [revert H1; apply (services_held co_sock K V)|revert H2; apply (headless_held co_sock K V)];
      try done; try (by eapply Hpub; [|right; right; right]); try (intros; by frame_op);
      try (left; by frame_op); try (right; intros env st He%Hon; by apply (switch_forbids K env st argv p)).
    left. apply frames_bind; [frame_op|]. intros [c|]; [|apply frames_ret]. apply ignoring_frames. frame_op.
  - revert H2. assert (frames co_api (start_requested_services p)) as Hf; [|apply Hf].
    assert (frames co_api console_env) as Henv by (by intros ? ? ? [= _ <-]).
    assert (frames co_api settings_or_default) as Hset.
    { apply frames_bind; [frame_op|]. intros. apply frames_bind; [done|intros; apply frames_ret]. }
    assert (forall A b (c : St console (result string A)), frames co_api c -> frames co_api (or_fail b c)) as Hor.
    { intros A [|] c Hc; [|apply frames_ret]. apply frames_try; [done|intros; apply frames_ret]. }
    unfold start_requested_services. apply frames_bind; [done|]. intros st.
    apply frames_bind; [done|]. intros e1. apply frames_try; [apply Hor; frame_op|]. intros [].
    apply frames_bind; [done|]. intros e2. apply frames_try; [apply Hor; frame_op|]. intros [].
    apply frames_bind; [done|]. intros e3. apply Hor. frame_op.
Qed.

End Startup.
