(* ===== verification/Desktop.v ===== *)
(** * The desktop program

    [lib.rs] around the services of [Startup.v]: the main window, the tray icon
    with its menu, and what closing a window does; with the window commands and
    the printed document of [commands/runtime.rs]. What Tauri does with a window
    is a parameter; its laws are those the program relies on. *)

From Stdlib Require Import Ascii.
From S2P Require Import Prelude RustStr Json Security NetAddr NetBind RuntimeSettings EnvFile.
From S2P Require Import ServiceConfigs RuntimeStore AppLog ServiceLifecycle EventServices.
From S2P Require Import WebhookRoutes InternalRoutes DatabaseConfig CommandLine ApiServer.
From S2P Require Import WebAssets WebProxy WebServer Console RuntimeCommands Startup.

#[local] Open Scope string_scope.
#[local] Open Scope tunnara_scope.

(** ** Switches and texts *)

#[local] Abbreviation tray_key := "TUNNARA_CONSOLE_TRAY_ENABLED".

(*| src-tauri/src/lib.rs 320-322 is_tray_enabled *)
Definition is_tray_enabled (env : Env) : bool := env_bool env tray_key true.
(*| src-tauri/src/lib.rs 324-326 close_to_tray *)
Definition closes_to_tray (env : Env) : bool := env_bool env "TUNNARA_CONSOLE_TRAY_CLOSE_TO_TRAY" false.

(** A first variable that is blank hides the second one. *)
(*| src-tauri/src/lib.rs 300-306 runtime_app_name *)
Definition tray_tooltip (env : Env) : string :=
  unwrap_or "Tunnara Console" (opt_filter (fun v => negb (blank v))
    (env_first env "TUNNARA_CONSOLE_NAME" "APP_NAME")).

(** The items of the tray menu: identifier and text. *)
(*| src-tauri/src/lib.rs 212-226 setup_tray *)
Definition menu_items : list (string * string) :=
  [("restore", "Restaurar"); ("api_start", "Iniciar API interna");
   ("api_restart", "Reiniciar API interna"); ("api_stop", "Parar API interna");
   ("webhook_start", "Iniciar Webhooks"); ("websocket_start", "Iniciar WebSocket");
   ("quit", "Sair definitivamente")].

(** The document up to its first use of the title, its style, and its parts. *)
(*| src-tauri/src/commands/runtime.rs 309-314 build_print_document *)
Definition print_head : string := quoted "<!doctype html>
<html lang=`pt-BR`>
<head>
  <meta charset=`utf-8` />
  <meta name=`viewport` content=`width=device-width, initial-scale=1` />
  <title>".

(*| src-tauri/src/commands/runtime.rs 314-333 build_print_document *)
Definition print_style : string := quoted "</title>
  <style>
    :root { color-scheme: light only; }
    body { margin: 0; background: #eef2f7; color: #172033; font-family: Inter, Arial, sans-serif; }
    .shell { max-width: 980px; margin: 24px auto; background: #fff; border-radius: 16px; box-shadow: 0 18px 50px rgba(15,23,42,.14); overflow: hidden; }
    header { padding: 20px 28px; border-bottom: 1px solid #e2e8f0; display: flex; justify-content: space-between; gap: 16px; }
    h1 { margin: 0; font-size: 18px; }
    .meta { color: #64748b; font-size: 12px; }
    .content { padding: 28px; }
    .content table { width: 100%; border-collapse: collapse; }
    .content th, .content td { border-bottom: 1px solid #e5e7eb; padding: 8px 10px; text-align: left; }
    .actions { position: sticky; bottom: 0; display: flex; justify-content: flex-end; padding: 12px 28px; background: #f8fafc; border-top: 1px solid #e2e8f0; }
    button { border: 0; border-radius: 10px; padding: 10px 16px; background: #2F6FED; color: #fff; font-weight: 700; cursor: pointer; }
    .empty { padding: 48px; text-align: center; color: #64748b; border: 1px dashed #cbd5e1; border-radius: 14px; }
    @media print { body { background: #fff; } .shell { margin: 0; max-width: none; box-shadow: none; border-radius: 0; } .actions { display: none; } }
  </style>
</head>
<body>
  <section class=`shell`>
    <header>
      <div><h1>".

(*| src-tauri/src/commands/runtime.rs 334-337 build_print_document *)
Definition print_heading : string := quoted "</h1><div class=`meta`>Tunnara Console · Preview de impressão</div></div>
      <div class=`meta`>Gerado em <span id=`now`></span></div>
    </header>
    <div class=`content`>".

(*| src-tauri/src/commands/runtime.rs 337-342 build_print_document *)
Definition print_tail : string := quoted "</div>
    <div class=`actions`><button onclick=`window.print()`>Imprimir</button></div>
  </section>
  <script>document.getElementById('now').textContent = new Date().toLocaleString('pt-BR');</script>
</body>
</html>".

(*| src-tauri/src/commands/runtime.rs 302-344 build_print_document *)
Definition build_print_document (html title : string) : string :=
  print_head ++ title ++ print_style ++ title ++ print_heading ++ print_body html ++ print_tail.

(** ** Windows *)

(** A window is known by its label. *)
Class WindowSystem (W : Type) : Type := {
  get_webview_window : string -> St W bool;
  win_show : string -> St W (result string unit);
  win_hide : string -> St W (result string unit);
  win_unminimize : string -> St W (result string unit);
  win_set_focus : string -> St W (result string unit);
  win_maximize : string -> St W (result string unit);
  (** what Tauri does with a close request that nobody prevents *)
  win_destroy : string -> St W unit;
  (** a new window with its label, address and title *)
  win_open : string -> string -> string -> St W (result string unit);
  (** [url::Url::parse] *)
  url_parse : string -> result string string;
  (** the tray icon with its tooltip and menu *)
  build_tray : string -> list (string * string) -> St W (result string unit);
  app_exit : Z -> St W unit;
  timestamp_millis : St W Z;
}.

(** The windows that exist and those on the screen, as the program relies on
    them. *)
Class WindowLaws (W : Type) `{WS : WindowSystem W} : Type := {
  existing : W -> list string;
  on_screen : W -> string -> bool;
  get_webview_window_spec l w b w' : get_webview_window l w = (b, w') ->
    b = bool_decide (l ∈ existing w) /\ w' = w;
  win_show_spec l w r w' : win_show l w = (r, w') ->
    existing w' = existing w /\ (l ∈ existing w -> is_ok r = true -> on_screen w' l = true);
  win_hide_spec l w r w' : win_hide l w = (r, w') ->
    existing w' = existing w /\ (is_ok r = true -> on_screen w' l = false);
  win_unminimize_spec l w r w' : win_unminimize l w = (r, w') ->
    existing w' = existing w /\ on_screen w' = on_screen w;
  win_set_focus_spec l w r w' : win_set_focus l w = (r, w') ->
    existing w' = existing w /\ on_screen w' = on_screen w;
}.

(** The mouse as the tray reports it. *)
Inductive mouse_button := MouseLeft | MouseRight | MouseMiddle.
Inductive button_state := ButtonUp | ButtonDown.

Section Desktop.
Context `{BI : BuildInfo} {W : Type} `{NW : NetWorld W} `{SW : !ServerWorld W}.
Context `{OS : ConsoleOs W} `{LO : !LogOs W} `{AW : !ApiServerWorld W} `{WW : !WebServerWorld W}.
Context `{SPH : !Spawner W WebhookConfig} `{SPS : !Spawner W WebSocketConfig}.
Context `{AP : !AppWorld W} `{DD : DatabaseDrivers W} `{RW : !RuntimeWorld W} `{CR : Crypto} `{WS : WindowSystem W}.

Definition window (c : St W (result string unit)) : St console unit := ignoring (on_os c).

(** ** The set-up *)

(** The main window, when there is one. *)
Definition has_main : St console bool := on_os (get_webview_window "main").
Definition with_main (c : St console unit) : St console unit :=
  found ← has_main; if (found : bool) then c else mret ().

(*| src-tauri/src/lib.rs 62-65 run *)
Definition show_maximized : St console unit :=
  with_main (_ ← window (win_maximize "main"); window (win_set_focus "main")).

(*| src-tauri/src/lib.rs 208-298 setup_tray *)
Definition setup_tray : St console (result string unit) :=
  env ← console_env; on_os (build_tray (tray_tooltip env) menu_items).

(** The whole set-up; it tells whether there is a tray icon. *)
(*| src-tauri/src/lib.rs 42-77 run *)
Definition desktop_start (argv : list string) : St console (result string bool) :=
  _ ← console_env_file false;
  _ ← console_env_file true;
  _ ←? app_init;
  _ ← show_maximized;
  env ← console_env;
  let tray := is_tray_enabled env in
  _ ←? (if tray then setup_tray else mret (Ok ()));
  _ ← start_runtime_services argv;
  mret (Ok tray).

(** ** Events *)

(** A close request of any window, and whether the program prevents it. *)
(*| src-tauri/src/lib.rs 47-54 run *)
Definition on_close_requested (label : string) : St console bool :=
  env ← console_env;
  if is_tray_enabled env && closes_to_tray env
  then (_ ← window (win_hide label); mret true) else mret false.

Definition close_window (label : string) : St console unit :=
  prevented ← on_close_requested label;
  if (prevented : bool) then mret () else on_os (win_destroy label).

(*| src-tauri/src/lib.rs 238-242 setup_tray *)
Definition bring_back : St console unit :=
  with_main (_ ← window (win_show "main"); _ ← window (win_unminimize "main");
             window (win_set_focus "main")).

(*| src-tauri/src/lib.rs 231-244 setup_tray *)
Definition on_tray_icon_event (button : mouse_button) (state : button_state) : St console unit :=
  match button, state with MouseLeft, ButtonUp => bring_back | _, _ => mret () end.

(*| src-tauri/src/lib.rs 245-289 setup_tray *)
Definition on_menu_event (id : string) : St console unit :=
  if id =? "restore" then bring_back
  else if id =? "api_start" then resolve_and_start_api
  else if id =? "api_restart" then (_ ← api_stop; resolve_and_start_api)
  else if id =? "api_stop" then ignoring api_stop
  else if id =? "webhook_start" then ignoring hook_start
  else if id =? "websocket_start" then ignoring sock_start
  else if id =? "quit" then on_os (app_exit 0)
  else mret ().

(** ** Window commands *)

Record TrayStatus : Type := {
  ts_enabled : bool;
  ts_api : ApiRuntimeStatus;
  ts_main_window : string;
}.

(*| src-tauri/src/commands/runtime.rs 346-363 tray_status *)
Definition tray_status : St console (result string TrayStatus) :=
  env ← console_env;
  let enabled := is_tray_enabled env in
  status ← api_status_now;
  mret (Ok {| ts_enabled := enabled; ts_api := status;
              ts_main_window := if enabled then "managed" else "tray-disabled" |}).

(*| src-tauri/src/commands/runtime.rs 365-373 tray_restore_window *)
Definition tray_restore_window : St console (result string bool) :=
  found ← has_main;
  if (found : bool) then
    _ ←? on_os (win_show "main");
    _ ← window (win_unminimize "main");
    _ ← window (win_set_focus "main");
    mret (Ok true)
  else mret (Ok true).

(*| src-tauri/src/commands/runtime.rs 375-379 tray_exit_app *)
Definition tray_exit_app : St console (result string bool) :=
  _ ← on_os (app_exit 0); mret (Ok true).

(*| src-tauri/src/commands/runtime.rs 279-300 open_print_preview *)
Definition open_print_preview (html title : option string) : St console (result string bool) :=
  now ← on_os timestamp_millis;
  let label := "print-preview-" ++ show_Z now in
  let safe_title := unwrap_or "Pré-visualização de impressão" title in
  let document := build_print_document (unwrap_or "" html) safe_title in
  match url_parse ("data:text/html;base64," ++ base64_encode document) with
  | Err err => mret (Err ("Falha ao montar preview de impressão: " ++ err))
  | Ok url =>
      opened ← on_os (win_open label url safe_title);
      match opened with
      | Err err => mret (Err ("Falha ao abrir janela de impressão: " ++ err))
      | Ok _ => _ ← window (win_set_focus label); mret (Ok true)
      end
  end.

(** ** A run of the window *)

(** What the user does with the window and the tray, and the commands that act
    on windows, services and settings. *)
Inductive desktop_event :=
| ECloseRequested (label : string)
| ETrayClick (button : mouse_button) (state : button_state)
| EMenu (id : string)
| ERestoreCommand
| EExitCommand
| EPrint (html title : option string)
| EApiStart (host : option string) (port : option N)
| EApiStop
| EWebStart | EWebStop
| EWebhookStart | EWebhookStop
| EWebsocketStart | EWebsocketStop
| ESettingsLoad
| ESettingsSave (settings : RuntimeSettings).

Definition on_event (e : desktop_event) : St console unit :=
  match e with
  | ECloseRequested label => close_window label
  | ETrayClick b s => on_tray_icon_event b s
  | EMenu id => on_menu_event id
  | ERestoreCommand => ignoring tray_restore_window
  | EExitCommand => ignoring tray_exit_app
  | EPrint html title => ignoring (open_print_preview html title)
  | EApiStart host port => ignoring (internal_api_start host port)
  | EApiStop => ignoring api_stop
  | EWebStart => ignoring web_start
  | EWebStop => ignoring web_stop
  | EWebhookStart => ignoring hook_start
  | EWebhookStop => ignoring hook_stop
  | EWebsocketStart => ignoring sock_start
  | EWebsocketStop => ignoring sock_stop
  | ESettingsLoad => ignoring runtime_settings_load
  | ESettingsSave settings => ignoring (runtime_settings_save settings)
  end.

(** Events in the order they come. *)
Fixpoint on_events (es : list desktop_event) : St console unit :=
  match es with
  | [] => mret ()
  | e :: rest => _ ← on_event e; on_events rest
  end.

(** ** Lemmas *)

(** What a run of events keeps, from what each event keeps. *)
Lemma on_events_stable (I : console -> Prop) es :
  Forall (fun e => stable I (on_event e)) es -> stable I (on_events es).
Proof.
  induction 1 as [|e es He _ IH]; cbn [on_events]; [apply stable_ret|].
  apply stable_bind; [done|]. by intros [].
Qed.

(** *** A variable that is set, through every event *)

Section Variables.
Context (K V : string).
Context (HA : forall c, K ∉ map fst (api_env c)).
Context (HS : forall s env, env !! K = Some V -> apply_env_from_settings s env !! K = Some V).

#[local] Abbreviation kept := (stable (env_set K V)).

Lemma on_proc_env {A} (c : SharedState -> St (Env * W) A) :
  (forall app, stable (var_set K V) (c app)) -> kept (on_proc c).
Proof.
  intros Hc s a s' He H. unfold on_proc in H.
  destruct (c (co_app s) (co_proc s)) as [b p] eqn:E. injection H as <- <-. by eapply (Hc (co_app s)).
Qed.
Lemma on_os_env {A} (c : St W A) : kept (on_os c).
Proof. apply on_proc_env. intros. apply os_var. Qed.
Lemma console_env_env : kept console_env.
Proof. intros s a s' H [= _ <-]. done. Qed.

Lemma api_stop_env : kept api_stop.
Proof.
  intros s r s' He H. unfold api_stop, on_api in H.
  destruct (api_stop_background _) as [r1 [slot p]] eqn:E. injection H as <- <-.
  apply api_stop_empties in E as (_ & E & _). unfold env_set, env_of_console, env_of in *.
  cbn [fst snd co_proc] in *. by rewrite E.
Qed.
Lemma api_status_env : kept api_status_now.
Proof.
  intros s r s' He H. unfold api_status_now, on_api in H.
  destruct (api_server_status _) as [x [slot p]] eqn:E. injection H as _ <-.
  unfold api_server_status in E. cbn [fst] in E. destruct (co_api s) as [h|]; [by injection E as _ _ <-|].
  destruct (api_outside _ _) as [y s1] eqn:E1. injection E as _ ->.
  apply api_outside_run in E1 as (_ & E & _). unfold env_set, env_of_console, env_of in *.
  cbn [fst snd co_proc] in *. by rewrite E.
Qed.
Lemma on_web_env {A} (c : SharedState -> St web_state A) :
  (forall app, stable (web_var K V) (c app)) -> kept (on_web c).
Proof.
  intros Hc s r s' He H. unfold on_web in H. destruct (c _ _) as [r1 [slot p]] eqn:E.
  injection H as <- <-. by apply (Hc (co_app s)) in E.
Qed.
Lemma hook_stop_env : kept hook_stop.
Proof. intros s r s' He [= _ <-]. done. Qed.
Lemma sock_stop_env : kept sock_stop.
Proof. intros s r s' He [= _ <-]. done. Qed.
Lemma hook_status_env : kept hook_status_now.
Proof. intros s r s' He [= _ <-]. done. Qed.
Lemma sock_status_env : kept sock_status_now.
Proof. intros s r s' He [= _ <-]. done. Qed.

Lemma save_settings_var app settings : stable (var_set K V) (save_settings app settings).
Proof.
  unfold save_settings. destruct (validate_port_range _); [|apply stable_ret].
  apply stable_try; [apply init_env_file_var|]. intros path. apply stable_bind; [apply os_var|].
  intros built. destruct (has_duplicate_configured_ports _ _); [apply stable_ret|].
  assert (stable (var_set (W:=W) K V) (with_env (apply_env_from_settings (normalize_runtime_settings settings)))) as Hp.
  { intros p x p' H [= _ <-]. by apply HS. }
  pose proof (@os_var W K V) as Hos. unfold persist_settings, write_env_file, create_parent, open_state_db. frame.
Qed.

#[local] Hint Resolve on_os_env console_env_env api_stop_env api_status_env hook_stop_env
  sock_stop_env hook_status_env sock_status_env : frames.

Lemma load_settings_env : kept runtime_settings_load.
Proof. apply on_proc_env, load_settings_var. Qed.
Lemma console_env_file_env b : kept (console_env_file b).
Proof. apply on_proc_env. intros. apply init_env_file_var. Qed.
Lemma resolve_api_env : kept (on_proc resolve_internal_api_config).
Proof. apply on_proc_env, resolve_api_var. Qed.
Lemma save_env settings : kept (on_proc (fun app => save_settings app settings)).
Proof. apply on_proc_env. intros. apply save_settings_var. Qed.
Lemma web_stop_env : kept web_stop.
Proof. apply on_web_env. intros. apply web_stop_var. Qed.
Lemma web_status_env : kept web_status_now.
Proof. apply on_web_env. intros. apply web_status_var. Qed.
Lemma api_start_env' c : kept (api_start c).
Proof. by apply api_start_env. Qed.
Lemma start_api_env : kept resolve_and_start_api.
Proof. by apply resolve_and_start_env. Qed.
Lemma web_start_env' : kept web_start.
Proof. apply web_start_env. Qed.
Lemma hook_start_env' : kept hook_start.
Proof. apply hook_start_env. Qed.
Lemma sock_start_env' : kept sock_start.
Proof. apply sock_start_env. Qed.
#[local] Hint Resolve load_settings_env console_env_file_env resolve_api_env save_env web_stop_env
  web_status_env api_start_env' start_api_env web_start_env' hook_start_env' sock_start_env' : frames.

Lemma services_env argv : kept (start_runtime_services argv).
Proof. unfold start_runtime_services, turn, settings_or_default, ignoring. frame. Qed.

Lemma settings_save_env settings : kept (runtime_settings_save settings).
Proof. unfold runtime_settings_save, apply_saved, restart_api, reconcile. frame. Qed.

(** Every event leaves the variable as it is. *)
Lemma on_event_env e : kept (on_event e).
Proof.
  pose proof settings_save_env as Hsave.
  destruct e; cbn [on_event]; unfold ignoring, close_window, on_close_requested, on_tray_icon_event,
    on_menu_event, bring_back, with_main, has_main, window, tray_restore_window, tray_exit_app,
    open_print_preview, internal_api_start, ignoring; frame.
Qed.
End Variables.

(** The variable of the tray is none of those a start or a save publishes. *)
Lemma tray_key_not_published c : tray_key ∉ map fst (api_env c).
Proof. unfold api_env. cbn [map fst]. set_solver. Qed.
Lemma tray_key_not_applied V s env :
  env !! tray_key = Some V -> apply_env_from_settings s env !! tray_key = Some V.
Proof.
  intros H. unfold apply_env_from_settings, applied_pairs. cbn [foldl].
  by rewrite !lookup_insert_ne by discriminate.
Qed.

(** A tray that is switched off is so by a variable that is set. *)
Lemma tray_disabled_set env : is_tray_enabled env = false ->
  exists V, env !! tray_key = Some V /\ forall env', env' !! tray_key = Some V -> is_tray_enabled env' = false.
Proof.
  unfold is_tray_enabled, env_bool. destruct (env !! tray_key) as [V|]; [|done].
  intros H. exists V. split; [done|]. by intros env' ->.
Qed.

(** ** Windows *)

Definition world_of (s : console) : W := snd (co_proc s).

(** A step that acts on the world alone, and acts on it so. *)
Lemma on_os_world {A} (c : St W A) s a s' : on_os c s = (a, s') ->
  env_of_console s' = env_of_console s /\ c (world_of s) = (a, world_of s').
Proof.
  unfold on_os, on_proc. destruct (os c (co_proc s)) as [b p] eqn:E. intros [= <- <-].
  apply os_run in E as [H1 H2]. done.
Qed.

Lemma window_world c s u s' : window c s = (u, s') ->
  env_of_console s' = env_of_console s /\ exists r, c (world_of s) = (r, world_of s').
Proof.
  unfold window, ignoring. intros H. run_bind H r s1 as E. injection H as _ <-.
  apply on_os_world in E as [? ?]. eauto.
Qed.

Lemma close_step label s b s' : on_close_requested label s = (b, s') ->
  env_of_console s' = env_of_console s /\
  b = is_tray_enabled (env_of_console s) && closes_to_tray (env_of_console s) /\
  (b = false -> s' = s) /\
  (b = true -> exists r, win_hide label (world_of s) = (r, world_of s')).
Proof.
  intros H. unfold on_close_requested in H. run_bind H env s1 as E. injection E as <- <-.
  destruct (_ && _).
  - run_bind H u s1 as E. injection H as <- <-. apply window_world in E as [? ?]. split_and!; done.
  - injection H as <- <-. done.
Qed.

Section WithWindows.
Context `{WL : !WindowLaws W}.

Lemma close_hides label s s' : on_close_requested label s = (true, s') ->
  existing (world_of s') = existing (world_of s) /\ env_of_console s' = env_of_console s.
Proof.
  intros (He & _ & _ & Hr)%close_step. destruct (Hr eq_refl) as [r E].
  apply win_hide_spec in E as [? _]. done.
Qed.

Lemma has_main_spec s b s' : has_main s = (b, s') ->
  b = bool_decide ("main" ∈ existing (world_of s)) /\ world_of s' = world_of s.
Proof. intros [_ E]%on_os_world. by apply get_webview_window_spec in E. Qed.

(** Bringing the window back, when Tauri shows it. *)
Lemma shown_unminimized_focused s u1 s1 u2 s2 u3 s3 :
  window (win_show "main") s = (u1, s1) -> window (win_unminimize "main") s1 = (u2, s2) ->
  window (win_set_focus "main") s2 = (u3, s3) ->
  existing (world_of s3) = existing (world_of s) /\
  ("main" ∈ existing (world_of s) -> is_ok (fst (win_show "main" (world_of s))) = true ->
   on_screen (world_of s3) "main" = true).
Proof.
  intros (_ & r1 & E1)%window_world (_ & r2 & E2)%window_world (_ & r3 & E3)%window_world.
  pose proof E1 as Eok. apply win_show_spec in E1 as [H1 Hs]. apply win_unminimize_spec in E2 as [H2 V2].
  apply win_set_focus_spec in E3 as [H3 V3]. split; [congruence|]. intros Hin Hok. rewrite Eok in Hok.
  rewrite V3, V2. auto.
Qed.

Lemma bring_back_shows s u s' : bring_back s = (u, s') ->
  existing (world_of s') = existing (world_of s) /\
  ("main" ∈ existing (world_of s) -> is_ok (fst (win_show "main" (world_of s))) = true ->
   on_screen (world_of s') "main" = true).
Proof.
  intros H. unfold bring_back, with_main in H. run_bind H found s0 as E0.
  apply has_main_spec in E0 as [-> E0]. case_bool_decide as Hin.
  - run_bind H u1 s1 as E1. run_bind H u2 s2 as E2. rewrite <- E0.
    by eapply shown_unminimized_focused.
  - injection H as _ <-. by rewrite E0.
Qed.

Lemma restore_command_shows s r s' : tray_restore_window s = (r, s') ->
  "main" ∈ existing (world_of s) -> is_ok (fst (win_show "main" (world_of s))) = true ->
  r = Ok true /\ existing (world_of s') = existing (world_of s) /\ on_screen (world_of s') "main" = true.
Proof.
  intros H Hin Hok. unfold tray_restore_window in H. run_bind H found s0 as E0.
  apply has_main_spec in E0 as [-> E0]. rewrite bool_decide_eq_true_2 in H by done.
  unfold try in H. run_bind H shown s1 as E1.
  assert (window (win_show "main") s0 = ((), s1)) as E1'.
  { unfold window, ignoring, mbind, st_bind. by rewrite E1. }
  apply on_os_world in E1 as [_ E1]. rewrite E0 in E1. rewrite E1 in Hok. destruct shown as [[]|]; [|done].
  run_bind H u2 s2 as E2. run_bind H u3 s3 as E3. injection H as <- <-.
  destruct (shown_unminimized_focused s0 _ s1 _ s2 _ s3 E1' E2 E3) as [Hx Hv].
  rewrite E0 in Hx, Hv. split_and!; [done..|]. apply Hv; [done|]. by rewrite E1.
Qed.
End WithWindows.

(** ** Properties *)

(** C33. Without a tray icon the program never hides a window: after a
    set-up without a tray icon, and after any clicks, menu picks, commands and
    saves of the settings, a close request is left to the default and closes
    the window, even when the settings ask to close to the tray. *)
Theorem hidden_windows_have_tray argv es s s1 u s2 label :
  desktop_start argv s = (Ok false, s1) -> on_events es s1 = (u, s2) ->
  close_window label s2 = on_os (win_destroy label) s2.
Proof.
  intros Hd He.
  assert (exists V, env_of_console s1 !! tray_key = Some V /\
    forall env', env' !! tray_key = Some V -> is_tray_enabled env' = false) as (V & HV & Hoff).
  { unfold desktop_start in Hd. run_bind Hd x1 t1 as E1. run_bind Hd x2 t2 as E2.
    apply try_Ok in Hd as (x3 & t3 & _ & Hd). run_bind Hd x4 t4 as E4. run_bind Hd env t5 as E5.
    injection E5 as <- <-. apply try_Ok in Hd as (x6 & t6 & E6 & Hd). run_bind Hd x7 t7 as E7.
    injection Hd as Ht <-. destruct (tray_disabled_set _ Ht) as (V & HV & Hoff). exists V. split; [|done].
    rewrite Ht in E6. injection E6 as _ <-.
    revert E7. apply (services_env tray_key V); [apply tray_key_not_published|]. exact HV. }
  assert (env_of_console s2 !! tray_key = Some V) as H2.
  { eapply (on_events_stable (env_set tray_key V) es); [|exact HV|exact He].
    apply Forall_forall. intros e _. apply on_event_env; [apply tray_key_not_published|].
    intros. by apply tray_key_not_applied. }
  unfold close_window, on_close_requested, console_env, mbind, st_bind. rewrite (Hoff _ H2). done.
Qed.

(** C34. Closing to the tray and coming back. With both switches on, a
    close request of the main window is prevented, the window stays, and a left
    click on the icon, the item "restore" of its menu or the command
    [tray_restore_window] each put it back on the screen, provided Tauri shows
    it; under those switches no close request of any window, a print preview
    included, destroys it. *)
Theorem close_to_tray_returns `{WL : !WindowLaws W} labels s u s1 :
  is_tray_enabled (env_of_console s) = true -> closes_to_tray (env_of_console s) = true ->
  on_events (map ECloseRequested labels) s = (u, s1) ->
  existing (world_of s1) = existing (world_of s) /\
  ("main" ∈ existing (world_of s) -> is_ok (fst (win_show "main" (world_of s1))) = true ->
   forall e s2, e = ETrayClick MouseLeft ButtonUp \/ e = EMenu "restore" \/ e = ERestoreCommand ->
   on_event e s1 = (u, s2) ->
   existing (world_of s2) = existing (world_of s) /\ on_screen (world_of s2) "main" = true).
Proof.
  intros Ht Hc Hrun.
  assert (existing (world_of s1) = existing (world_of s)) as Hx.
  { revert s Ht Hc Hrun. induction labels as [|l labels IH]; intros s Ht Hc Hrun; cbn in Hrun.
    { by injection Hrun as _ <-. }
    run_bind Hrun x t as E. unfold close_window in E. run_bind E b t1 as E1.
    pose proof E1 as (_ & -> & _ & _)%close_step. rewrite Ht, Hc in E, E1. cbn in E, E1.
    injection E as _ <-. apply close_hides in E1 as [Hk He]. rewrite <- Hk.
    apply IH; [by rewrite He..|done]. }
  split; [done|]. intros Hin Hok e s2 He H. rewrite <- Hx in Hin |- *.
  destruct He as [-> | [-> | ->]]; cbn [on_event] in H.
  - by apply bring_back_shows in H as [-> Hv]; auto.
  - by apply bring_back_shows in H as [-> Hv]; auto.
  - unfold ignoring in H. run_bind H r t as E. injection H as _ <-.
    by apply restore_command_shows in E as (_ & ? & ?).
Qed.

(** The printed document holds the title twice and the body once, as they are:
    a title or a body that holds markup becomes markup of the page. *)
Lemma print_document_verbatim html title : exists a b c d,
  build_print_document html title = a ++ title ++ b ++ title ++ c ++ print_body html ++ d.
Proof. by exists print_head, print_style, print_heading, print_tail. Qed.

End Desktop.
