(* ===== verification/ConsoleExamples.v ===== *)
(** * The console: a concrete outside world

    Instances of the console's interfaces on computable data (a list of busy
    addresses, a file map, one settings row), and the theorems of the console
    files applied there. *)

From Stdlib Require Import Ascii.
From S2P Require Import Prelude RustStr Json NetAddr NetBind RuntimeSettings.
From S2P Require Import EnvFile ServiceConfigs RuntimeStore AppLog WebhookRoutes ServiceLifecycle.
From S2P Require Import WebSocketHub EventServices.

#[local] Open Scope string_scope.

(** ** The world *)

Record cworld : Type := {
  cw_busy : list SocketAddr;
  cw_slept : list N;
  cw_files : gmap string string;
  cw_row : option string;
}.

Definition world0 : cworld :=
  {| cw_busy := []; cw_slept := []; cw_files := ∅; cw_row := None |}.

Definition busy_error : io_error := {| io_kind := AddrInUse; io_message := "in use" |}.

#[export] Instance demo_net : NetWorld cworld := {|
  listener := SocketAddr;
  tcp_bind := fun a w =>
    if bool_decide (a ∈ cw_busy w) then (Err busy_error, w)
    else (Ok a, {| cw_busy := a :: cw_busy w; cw_slept := cw_slept w; cw_files := cw_files w;
                   cw_row := cw_row w |});
  drop_listener := fun a w =>
    ((), {| cw_busy := List.filter (fun b => negb (bool_decide (b = a))) (cw_busy w);
            cw_slept := cw_slept w; cw_files := cw_files w; cw_row := cw_row w |});
  thread_sleep_ms := fun ms w =>
    ((), {| cw_busy := cw_busy w; cw_slept := app (cw_slept w) [ms]; cw_files := cw_files w;
            cw_row := cw_row w |});
  udp_route_addr := fun w => (Some (IpV4 [192; 168; 0; 7]%N), w) |}.

Definition write_file (p c : string) (w : cworld) : cworld :=
  {| cw_busy := cw_busy w; cw_slept := cw_slept w; cw_files := <[p := c]> (cw_files w);
     cw_row := cw_row w |}.

#[export] Instance demo_os : ConsoleOs cworld := {|
  os_exists := fun p w => (bool_decide (is_Some (cw_files w !! p)), w);
  os_create_dir_all := fun _ w => (Ok (), w);
  os_write := fun p c w => (Ok (), write_file p c w);
  os_read_to_string := fun p w => (ok_or "missing" (cw_files w !! p), w);
  os_file := string;
  os_open_truncate := fun p w => (Ok p, write_file p "" w);
  os_write_all := fun p c w =>
    (Ok (), write_file p (unwrap_or "" (cw_files w !! p) ++ c) w);
  dirs_config_local_dir := fun _ => Some "/home/u/.config";
  os_current_dir := fun _ => Some "/";
  db_conn := unit;
  db_open := fun _ w => (Ok (), w);
  db_select_settings := fun _ w => (Ok (cw_row w), w);
  db_replace_settings := fun _ v _ w =>
    (Ok (), {| cw_busy := cw_busy w; cw_slept := cw_slept w; cw_files := cw_files w;
               cw_row := Some v |});
  utc_now_rfc3339 := fun w => ("2024-01-01T00:00:00+00:00", w);
  settings_to_json := fun _ => Ok "{}";
  settings_of_json := fun env _ => Ok (settings_default env) |}.

#[export] Instance demo_log : LogOs cworld := {|
  db_execute := fun _ _ _ w => (Ok (), w);
  os_open_append := fun p w => (Ok p, w);
  json_to_string := fun _ => "json" |}.

#[export] Instance demo_requests : HttpRequests := {|
  header_map := list (string * string);
  header_str := fun h n => snd <$> list_find (fun kv => eq_ignore_ascii_case (fst kv) n) h;
  header_list := fun h => h;
  serde_from_slice := fun _ => None |}.

#[export] Instance demo_server : ServerWorld cworld := {|
  server_thread := SocketAddr;
  set_nonblocking := fun _ w => (Ok (), w);
  shutdown_join := fun a w => drop_listener a w;
  http_get_text := fun _ w => (None, w);
  now_rfc3339 := utc_now_rfc3339;
  activity_count := fun _ => 0;
  socket_addr_text := fun _ => "addr" |}.

#[export] Instance demo_spawner C : Spawner cworld C := {|
  spawn_thread := fun _ _ l w => (Ok (l : SocketAddr), w) |}.

Definition demo_state : SharedState :=
  Some {| ctx_data_dir := "/data"; ctx_db_path := "/data/app.db" |}.
Definition demo_env : Env := <["HOME" := "/home/u"]> ∅.
Definition demo_proc : Env * cworld := (demo_env, world0).

(** ** Listeners *)

(** The wildcard address is busy, so the listener is on the LAN address. *)
Definition wildcard_busy : cworld :=
  {| cw_busy := [SocketAddrV4 [0; 0; 0; 0]%N 61003]; cw_slept := []; cw_files := ∅;
     cw_row := None |}.

Lemma bind_keeps_port_witness :
  exists p w', bind_fixed_service_listener "0.0.0.0" 61003 wildcard_busy = (Ok p, w') /\
    pl_port p = 61003%N /\ pl_bind_host p = "192.168.0.7".
Proof.
  eexists _, _. split; [vm_compute; reflexivity|]. split; [|vm_compute; reflexivity].
  refine (proj1 (bind_keeps_port "0.0.0.0" 61003 wildcard_busy _ _ _)).
  vm_compute. reflexivity.
Defined.

(** A network where every address is busy. *)
Definition busy_net : NetWorld cworld := {|
  listener := SocketAddr;
  tcp_bind := fun a w => (Err busy_error, w);
  drop_listener := fun a w => ((), w);
  thread_sleep_ms := @thread_sleep_ms _ demo_net;
  udp_route_addr := fun w => (None, w) |}.

Lemma busy_port_ten_attempts_witness :
  cw_slept (snd (bind_with_retry (NW := busy_net) (SocketAddrV4 [127; 0; 0; 1]%N 80) world0))
  = [180; 250; 320; 390; 460; 530; 600; 670; 740; 810]%N.
Proof.
  pose proof (busy_port_ten_attempts (NW := busy_net) (SocketAddrV4 [127; 0; 0; 1]%N 80)
    busy_error world0 (fun w => w)
    (fun ms w => {| cw_busy := cw_busy w; cw_slept := app (cw_slept w) [ms];
                    cw_files := cw_files w; cw_row := cw_row w |})) as H.
  rewrite H; [vm_compute; reflexivity|reflexivity|reflexivity|reflexivity].
Defined.

(** ** Settings *)

Definition demo_settings : RuntimeSettings := settings_default ∅.

Lemma normalize_runtime_settings_runnable_witness :
  ports_u16 demo_settings /\ runnable (normalize_runtime_settings demo_settings).
Proof.
  assert (ports_u16 demo_settings) as Hp by (repeat constructor; vm_compute; discriminate).
  split; [exact Hp|]. exact (proj1 (normalize_runtime_settings_runnable demo_settings Hp)).
Defined.

Lemma build_ports_conflicts_witness :
  snd (fst (build_ports demo_settings world0)) = [] /\
  NoDup (active_ports demo_settings (port_items demo_settings)).
Proof.
  assert (snd (fst (build_ports demo_settings world0)) = []) as Hw by (vm_compute; reflexivity).
  split; [exact Hw|]. destruct (build_ports demo_settings world0) as [[ports warns] w'] eqn:E.
  exact (proj1 (proj1 (build_ports_conflicts demo_settings world0 w' ports warns E)) Hw).
Defined.

Definition demo_normalized : RuntimeSettings := normalize_runtime_settings demo_settings.

Lemma env_file_roundtrip_witness :
  clean_settings demo_normalized = true /\
  load_env_text (env_content demo_normalized) demo_env !! "TUNNARA_CONSOLE_API_PORT" = Some "61001".
Proof.
  split; [vm_compute; reflexivity|].
  destruct (env_file_roundtrip demo_normalized demo_env) as [H _]; [vm_compute; reflexivity|].
  rewrite (H "TUNNARA_CONSOLE_API_PORT" "61001"); [vm_compute; reflexivity|].
  apply assoc_elem. vm_compute. reflexivity.
Defined.

Lemma env_file_restores_settings_witness :
  settings_default (load_env_text (env_content demo_normalized) ∅) = demo_normalized.
Proof.
  apply env_file_restores_settings; [vm_compute; reflexivity|vm_compute; reflexivity| | |].
  - repeat constructor; vm_compute; discriminate.
  - vm_compute. discriminate.
  - vm_compute. discriminate.
Defined.

Lemma service_path_shape_witness :
  normalize_service_path "/webhooks" " hooks/in/ " = "/hooks/in" /\
  last_byte (normalize_service_path "/webhooks" " hooks/in/ ") <> Some "/"%char.
Proof.
  split; [vm_compute; reflexivity|].
  refine (proj2 (proj2 (service_path_shape "/webhooks" " hooks/in/ " _ _)));
    [vm_compute; reflexivity|vm_compute; discriminate].
Defined.

(** ** Loading and saving *)

(** A run that computes to a success, by its flag only. *)
Lemma run_Ok {S E A} (r : result E A * S) :
  is_ok (fst r) = true -> exists a s, r = (Ok a, s).
Proof. destruct r as [[a|e] s]; [eauto|done]. Qed.

Lemma configured_base_url_discarded_witness :
  exists c p', resolve_internal_api_config demo_state demo_proc = (Ok c, p') /\
    ia_base_url c = "http://" ++ public_url_host (ia_host c) ++ ":" ++ show_N (ia_port c).
Proof.
  destruct (run_Ok (resolve_internal_api_config demo_state demo_proc)) as (c & p' & E);
    [vm_compute; reflexivity|].
  exists c, p'. split; [exact E|].
  destruct (configured_base_url_discarded demo_state demo_proc c p' E)
    as (payload & p1 & _ & _ & _ & Hu).
  exact Hu.
Defined.

(** The web server moved to the port of the API. *)
Definition conflicting : RuntimeSettings :=
  settings_default (<["TUNNARA_CONSOLE_WEB_PORT" := "61001"]> ∅).

Lemma save_conflict_refused_witness :
  exists p2, save_settings demo_state conflicting demo_proc = (Err port_conflict, p2).
Proof.
  destruct (run_Ok (init_env_file (Some demo_state) demo_proc)) as (path & p1 & E);
    [vm_compute; reflexivity|].
  destruct (save_conflict_refused demo_state conflicting demo_proc path p1)
    as (built & p2 & _ & _ & H); [|exact E|exists p2; exact H].
  intros Hn. apply (bool_decide_pack _) in Hn. vm_compute in Hn. exact Hn.
Defined.

Lemma save_settings_ok_witness :
  exists payload p', save_settings demo_state demo_settings demo_proc = (Ok payload, p') /\
    fst p' !! "TUNNARA_CONSOLE_WEB_PORT" = Some "61002".
Proof.
  destruct (run_Ok (save_settings demo_state demo_settings demo_proc)) as (payload & p' & E);
    [vm_compute; reflexivity|].
  exists payload, p'. split; [exact E|].
  destruct (save_settings_ok demo_state demo_settings demo_proc payload p' E) as (_ & _ & _ & H).
  apply H. apply assoc_elem. vm_compute. reflexivity.
Defined.

(** ** The event services *)

Definition demo_event (i : N) : WebhookEventRecord :=
  build_record i [] "POST" "/test" "test" "manual" "" "now".

Lemma event_log_refines_history_witness :
  wg_events (foldl (fun g r => push_event r g) webhook_globals_init [demo_event 1; demo_event 2])
  = [demo_event 1; demo_event 2].
Proof.
  destruct (event_log_refines_history webhook_globals_init [demo_event 1; demo_event 2] eq_refl)
    as [H _].
  rewrite H. vm_compute. reflexivity.
Defined.

Lemma webhook_routes_routable_witness : routable (webhook_router "/webhooks").
Proof.
  refine (proj2 (proj1 (webhook_routes_routable "/webhooks" _)) _);
    [right; vm_compute; reflexivity|discriminate].
Defined.

Definition enabled_webhook : WebhookConfig := {|
  wh_enabled := true; wh_host := "127.0.0.1"; wh_port := 61003; wh_base_path := "/webhooks";
  wh_token_required := true; wh_token_header := "X-Webhook-Token"; wh_token := "s3cret";
  wh_allow_lan := true; wh_allow_external := false |}.

Lemma start_background_cases_witness :
  exists st s', start_background_with_config ∅ enabled_webhook (None, world0) = (Ok st, s') /\
    started enabled_webhook (Ok st) s'.
Proof.
  destruct (run_Ok (start_background_with_config ∅ enabled_webhook (None, world0)))
    as (st & s' & E); [vm_compute; reflexivity|].
  exists st, s'. split; [exact E|].
  destruct (start_background_cases ∅ enabled_webhook (None, world0) (Ok st) s' E)
    as [(H & _)|[(_ & H & _)|(_ & _ & [(h & H & _)|(_ & H)])]];
    [discriminate H|vm_compute in H; discriminate H|discriminate H|exact H].
Defined.

Lemma lifecycle_invariant_witness :
  let s := foldl (fun s cmd => run_command ∅ cmd s) (None, world0) [Start enabled_webhook] in
  st_running (service_status ∅ s) = true /\ st_port (service_status ∅ s) <> 0%N.
Proof.
  cbv zeta.
  destruct (lifecycle_invariant ∅ [Start enabled_webhook] world0) as [H _].
  assert (st_running (service_status ∅ (foldl (fun s cmd => run_command ∅ cmd s) (None, world0)
    [Start enabled_webhook])) = true) as Hr by (vm_compute; reflexivity).
  split; [exact Hr|]. exact (H Hr).
Defined.

#[export] Instance demo_channels : Channels := {| sender := bool |}.

(** A channel is open when its sender is [true]. *)
#[export] Instance demo_sockets : @SocketWorld cworld demo_channels := {|
  channel_send := fun (s : @sender demo_channels) _ w => ((s : bool), w);
  hash_order := map_to_list;
  clock_rfc3339 := fun w => ("now", w);
  socket_send_text := fun _ w => ((), w);
  value_to_string := fun _ => "json" |}.
#[export] Instance demo_sockets_laws : SocketWorldLaws cworld.
Proof. split. reflexivity. Qed.

Definition demo_client (id : string) (open : bool) : WebSocketClient :=
  {| cl_info := {| ci_id := id; ci_connected_at := "t"; ci_user_agent := None |};
     cl_sender := (open : @sender demo_channels) |}.
Definition two_clients : gmap string WebSocketClient :=
  <["a" := demo_client "a" true]> (<["b" := demo_client "b" false]> ∅).

Lemma broadcast_reaches_live_witness :
  exists clients' w', broadcast_text "hi" (two_clients, world0) = (1, (clients', w')) /\
    clients' !! "a" = Some (demo_client "a" true).
Proof.
  destruct (broadcast_text "hi" (two_clients, world0)) as [n [clients' w']] eqn:E.
  exists clients', w'.
  destruct (broadcast_reaches_live "hi" two_clients world0 n clients' w' E) as (_ & Hn & H).
  split; [f_equal; vm_compute in E; injection E as <- _ _; reflexivity|].
  refine (proj2 (H (fun s : bool => s) _ "a" (demo_client "a" true)) _); [reflexivity|].
  vm_compute. split; reflexivity.
Defined.

Definition token_socket : WebSocketConfig := {|
  ws_enabled := true; ws_host := "127.0.0.1"; ws_port := 61004; ws_path := "/ws";
  ws_token_required := true; ws_token_query := "token"; ws_token_header := "X-WebSocket-Token";
  ws_token := "t0ken"; ws_allow_lan := true; ws_allow_external := false;
  ws_heartbeat_seconds := 30 |}.

Definition no_headers : @header_map demo_requests := [].
Definition open_channel : @sender demo_channels := true.

Lemma handle_socket_cleans_up_witness :
  exists s', ws_handler token_socket no_headers (<["token" := "t0ken"]> ∅) "c1" open_channel
      [TextFrame "hello"; CloseFrame] (two_clients, world0) = (None, s') /\
    fst s' !! "c1" = None.
Proof.
  destruct (ws_handler token_socket no_headers (<["token" := "t0ken"]> ∅) "c1" open_channel
      [TextFrame "hello"; CloseFrame] (two_clients, world0)) as [r s'] eqn:E.
  exists s'. pose proof (handle_socket_cleans_up token_socket no_headers (<["token" := "t0ken"]> ∅) "c1"
    open_channel [TextFrame "hello"; CloseFrame] (two_clients, world0) r s' E) as H.
  vm_compute in H. destruct H as (-> & H & _). split; [reflexivity|exact H].
Defined.
