(* ===== verification/AccountExamples.v ===== *)
(** * Concrete runs of the account commands and of the internal API

    The world of [ConsoleExamples] with a fixed clock and a toy cryptography
    that keeps the laws of [CryptoLaws]; every theorem with hypotheses is
    applied in it. *)

From Stdlib Require Import Ascii.
From S2P Require Import Prelude RustStr Utf8 Security Json NetAddr NetBind RuntimeSettings.
From S2P Require Import ServiceConfigs RuntimeStore AppLog Accounts Auth Support WebAssets.
From S2P Require Import WebhookRoutes InternalRoutes ConsoleExamples.

#[local] Open Scope string_scope.

(** ** A toy cryptography *)

Definition hex_value (c : ascii) : N :=
  if is_ascii_digit c then digit_val c else byte_of c - 87.
Fixpoint hex_decode (s : string) : result string string :=
  match s with
  | "" => Ok ""
  | String a (String b r) =>
      (String (ascii_of_N (16 * hex_value a + hex_value b))) <$> hex_decode r
  | _ => Err "odd length"
  end.

Definition all_bytes : list ascii := map (fun i => ascii_of_N (N.of_nat i)) (seq 0 256).

Lemma byte_cases (P : ascii -> bool) : forallb P all_bytes = true -> forall a, P a = true.
Proof.
  intros H a. rewrite forallb_forall in H. apply H. unfold all_bytes. apply in_map_iff.
  exists (N.to_nat (byte_of a)). unfold byte_of.
  rewrite N2Nat.id, ascii_N_embedding. split; [done|].
  apply in_seq. pose proof (N_ascii_bounded a). lia.
Qed.

Definition hex_ok (a : ascii) : bool :=
  let h := hex_digit (N.shiftr (byte_of a) 4) in
  let l := hex_digit (N.land (byte_of a) 15) in
  Ascii.eqb (ascii_of_N (16 * hex_value h + hex_value l)) a
  && in_range 0 127 h && in_range 0 127 l && negb (ws1 h) && negb (in_range 194 227 h).

Lemma hex_all a : hex_ok a = true.
Proof. revert a. apply byte_cases. vm_compute. reflexivity. Qed.

Lemma hex_decode_text s : hex_decode (hex_text s) = Ok s.
Proof.
  induction s as [|a s IH]; [done|]. cbn [hex_text hex_decode]. rewrite IH. cbn.
  pose proof (hex_all a) as H. unfold hex_ok in H. rewrite !andb_true_iff in H.
  destruct H as [[[[H _] _] _] _]. apply Ascii.eqb_eq in H. by rewrite H.
Qed.

Lemma hex_text_ascii s : forall_bytes (in_range 0 127) (hex_text s) = true.
Proof.
  induction s as [|a s IH]; [done|]. cbn [hex_text forall_bytes].
  pose proof (hex_all a) as H. unfold hex_ok in H. rewrite !andb_true_iff in H.
  destruct H as [[[[_ H1] H2] _] _]. by rewrite H1, H2, IH.
Qed.

Lemma hex_text_not_blank s : blank (hex_text s) = true -> s = "".
Proof.
  destruct s as [|a s]; [done|]. cbn [hex_text]. pose proof (hex_all a) as H.
  unfold hex_ok in H. rewrite !andb_true_iff, !negb_true_iff in H.
  destruct H as [[[[_ _] _] Hw] Hr]. unfold blank. rewrite trim_start_fix; [done|].
  set (h := hex_digit _) in *. unfold in_range in Hr.
  assert (forall n, (194 <= n <= 227)%N -> in_range n n h = false) as Hn.
  { intros n Hn. unfold in_range. apply andb_false_iff in Hr as [Hr|Hr]; apply N.leb_gt in Hr;
      apply andb_false_iff; [left|right]; apply N.leb_gt; lia. }
  unfold ws_head. rewrite Hw. unfold ws2, ws3. rewrite !Hn by lia. cbn [andb orb].
  by repeat case_match.
Qed.

#[export] Instance demo_crypto : Crypto := {|
  sha256 := fun _ => "0123456789abcdefghijklmnopqrstuv";
  hmac_sha1 := fun _ _ => Ok (replicate 20 7%N);
  base64_encode := hex_text; base64_decode := hex_decode;
  base32_encode := hex_text; base32_decode := hex_decode;
  argon2_hash := fun p _ => Ok p;
  password_hash := string;
  parse_password_hash := fun h => Ok h;
  argon2_verify := String.eqb |}.

#[export] Instance demo_crypto_laws : CryptoLaws.
Proof.
  split.
  - done.
  - intros k m. exists (replicate 20 7%N). split_and!; [done|done|].
    by repeat constructor.
  - apply hex_decode_text.
  - apply hex_text_not_blank.
  - apply hex_text_ascii.
  - apply hex_decode_text.
  - intros p salt h [= <-]. exists p. split; [done|apply String.eqb_refl].
Qed.

#[export] Instance demo_random : Randomness cworld := {|
  rng_salt := fun w => ("salt", w);
  rng_alphanumeric := fun w => ("a"%char, w);
  rng_bytes := fun n w => ("bytes", w);
  utc_timestamp := fun w => (3000%Z, w) |}.

#[export] Instance demo_statements : Statements cworld := {| sql_fault := fun w => (None, w) |}.

#[export] Instance demo_auth : AuthWorld cworld := {|
  instant := Z;
  utc_now := fun w => (100%Z, w);
  plus_days := fun t n => (t + Z.of_N n)%Z;
  plus_minutes := fun t n => (t + Z.of_N n)%Z;
  to_rfc3339 := show_Z;
  uuid_v4 := fun w => ("uuid", w);
  unicode_lowercase := to_ascii_lowercase |}.

(** ** Security *)

Lemma decrypt_encrypt_witness : decrypt_text "host:user" (encrypt_text "host:user" "segredo") = Ok "segredo".
Proof. apply (decrypt_encrypt "host:user" "segredo"). vm_compute. reflexivity. Defined.

Lemma verify_totp_code_spec_witness :
  fst (verify_totp_code (base32_encode "k") "901 063" world0) = Ok true.
Proof.
  rewrite (verify_totp_code_spec (base32_encode "k") "901 063" world0). vm_compute. reflexivity.
Defined.

Lemma current_totp_accepted_witness :
  verify_totp_code (base32_encode "k") (six_digit_text 901063) world0 = (Ok true, world0).
Proof.
  apply (current_totp_accepted "k" (base32_encode "k") world0 world0 3000 901063);
    vm_compute; reflexivity.
Defined.

(** ** Accounts *)

Definition demo_user : Usuario := {|
  u_id := 1; u_nome := "Admin"; u_login := "Admin"; u_email := None; u_telefone := None;
  u_cargo := None; u_observacoes := None; u_photo_url := None; u_senha_hash := "s3nha1"; u_administrador := 1;
  u_master_user := 1; u_senha_provisoria := 0; u_ativo := 1; u_ultimo_login_em := None;
  u_created_at := "t"; u_updated_at := "t" |}.
Definition demo_session : UserSession := {|
  us_usuario_id := 1; us_session_token := "tok"; us_created_at := "100"; us_expires_at := "200";
  us_last_activity_at := "100" |}.
Definition demo_guard : AdminGuard := {|
  ag_support_secret_hash := Some "sup";
  ag_totp_secret_encrypted := Some (encrypt_text (machine_key ∅) (base32_encode "k"));
  ag_totp_enabled := 1; ag_recovery_codes_encrypted := None; ag_licensing_protected := 1;
  ag_white_label_protected := 1; ag_created_at := "t"; ag_updated_at := "t";
  ag_last_rotated_at := None |}.
Definition demo_accounts : Accounts := {|
  acc_users := [demo_user]; acc_sessions := [demo_session]; acc_guard := Some demo_guard;
  acc_unlocks := []; acc_profiles := []; acc_profile_perms := []; acc_user_profiles := [];
  acc_companies := []; acc_user_companies := []; acc_settings := []; acc_licenses := []; acc_config := [];
  acc_seq := {| sq_users := 1; sq_profiles := 0; sq_companies := 0; sq_licenses := 0 |} |}.
Definition demo_db : db (W := cworld) := (demo_accounts, world0).

Lemma session_accepted_iff_witness :
  fst (require_session_by_token " tok " demo_db)
  = Ok {| si_user_id := 1; si_master_user := true |}.
Proof.
  apply (session_accepted_iff " tok " demo_db).
  - apply NoDup_singleton.
  - apply NoDup_singleton.
  - intros w. reflexivity.
  - split; [vm_compute; discriminate|]. exists demo_session, demo_user.
    split_and!; try (vm_compute; reflexivity); [left|left|vm_compute; discriminate].
Defined.

Lemma auth_login_sound_witness : exists resp s',
  auth_login demo_state "ADMIN" "s3nha1" demo_db = (Ok resp, s') /\ logged_in demo_user resp (fst s').
Proof.
  destruct (run_Ok (auth_login demo_state "ADMIN" "s3nha1" demo_db)) as (resp & s' & E);
    [vm_compute; reflexivity|].
  exists resp, s'. split; [exact E|].
  destruct (auth_login_sound demo_state "ADMIN" "s3nha1" demo_db (Ok resp) s' E)
    as [(_ & H)|(u & Hu & _ & _ & H)].
  - exfalso. destruct (H resp eq_refl) as (H1 & _). revert E H1. vm_compute.
    intros [= <- _]. discriminate.
  - assert (u = demo_user) as -> by (vm_compute in Hu; injection Hu as <-; reflexivity).
    apply H. reflexivity.
Defined.

Lemma logout_ends_session_witness : exists s',
  auth_logout demo_state "tok" demo_db = (Ok true, s') /\
  is_ok (fst (require_session_by_token "tok" s')) = false.
Proof.
  destruct (run_Ok (auth_logout demo_state "tok" demo_db)) as (b & s' & E); [vm_compute; reflexivity|].
  assert (b = true) as -> by (revert E; vm_compute; by intros [= <- _]).
  exists s'. split; [exact E|].
  apply (logout_ends_session demo_state "tok" demo_db s' s' E); reflexivity.
Defined.

Lemma change_password_effect_witness : exists s' u',
  auth_change_password demo_state "tok" "s3nha1" " nova-senha" demo_db = (Ok true, s') /\
  u' ∈ acc_users (fst s') /\ verify_password "nova-senha" (u_senha_hash u') = Ok true /\
  verify_password " nova-senha" (u_senha_hash u') = Ok false.
Proof.
  destruct (run_Ok (auth_change_password demo_state "tok" "s3nha1" " nova-senha" demo_db))
    as (b & s' & E); [vm_compute; reflexivity|].
  assert (b = true) as -> by (revert E; vm_compute; by intros [= <- _]).
  destruct (change_password_effect demo_state "tok" "s3nha1" " nova-senha" demo_db s' E)
    as (ses & u & Hs & _ & _ & _ & _ & H).
  { intros _ salt h parsed [= <-] [= <-]. vm_compute. reflexivity. }
  assert (exists u', u' ∈ acc_users (fst s') /\ u_id u' = 1%Z) as (u' & Hin & Hid).
  { revert E. vm_compute. intros [= <-]. eexists. split; [left|reflexivity]. }
  exists s', u'. split; [exact E|]. split; [exact Hin|].
  apply list_elem_of_singleton in Hs as ->.
  destruct (H u' Hin Hid) as [H1 H2]. split; [exact H1|]. apply H2. vm_compute. discriminate.
Defined.

Lemma accounts_invariant_witness :
  accounts_ok (fst (foldl (fun s cmd => run_command demo_state ∅ cmd s) demo_db
    [Login "admin" "s3nha1"; Unlock "uuid" "s3nha1" "sup" (Some "901063") None])).
Proof.
  apply (accounts_invariant demo_state ∅ _ demo_db).
  split_and!; [apply NoDup_singleton|apply NoDup_singleton|apply NoDup_nil_2].
Defined.

Definition demo_unlock : St (db (W := cworld)) (result string Unlocked) :=
  support_guard_unlock demo_state ∅ "tok" "s3nha1" "sup" (Some "901063") (Some "licensing").

Lemma unlock_sound_witness : exists un s', demo_unlock demo_db = (Ok un, s') /\
  verify_password "sup" "sup" = Ok true.
Proof.
  destruct (run_Ok (demo_unlock demo_db)) as (un & s' & E); [vm_compute; reflexivity|].
  exists un, s'. split; [exact E|].
  destruct (unlock_sound demo_state ∅ _ _ _ _ _ demo_db un s' E)
    as (id & g & u & _ & Hg & _ & _ & H & _).
  injection Hg as <-. exact H.
Defined.


Lemma provision_stores_secrets_witness : exists pv s' g,
  support_guard_provision demo_state ∅ "tok" (Some true) demo_db = (Ok pv, s') /\
  acc_guard (fst s') = Some g /\ ag_totp_enabled g = 0%Z.
Proof.
  destruct (run_Ok (support_guard_provision demo_state ∅ "tok" (Some true) demo_db))
    as (pv & s' & E); [vm_compute; reflexivity|].
  destruct (provision_stores_secrets demo_state ∅ "tok" (Some true) demo_db pv s' E)
    as (id & g & _ & _ & Hg & H0 & _).
  exists pv, s', g. split; [exact E|]. split; [exact Hg|exact H0].
Defined.

(** ** The web interface's files *)

#[export] Instance demo_assets : AssetFiles cworld := {|
  fs_canonicalize := fun p w => (Some p, w);
  fs_is_file := fun p w => (true, w);
  fs_read_text := fun p w => (Some "<html></html>", w);
  fs_read := fun p w => (Some p, w);
  env_current_dir := fun _ => Some "/app";
  env_current_exe := fun _ => Some "/app/bin/console";
  cargo_manifest_dir := "/src" |}.

Lemma asset_served_inside_witness : exists r s' names,
  asset_response ∅ "assets\x/./app.js" "" (None, world0) = (r, s') /\
  normalize_asset_path "assets\x/./app.js" = Some (below "" names) /\ Forall plain names.
Proof.
  set (run := asset_response ∅ "assets\x/./app.js" "" (None, world0)).
  destruct run as [r s'] eqn:E. exists r, s'.
  assert (dist_dir ∅ (None, world0) = (Some "/app/dist", (Some (Some "/app/dist"), world0))) as Hd
    by (vm_compute; reflexivity).
  destruct (asset_served_inside ∅ "assets\x/./app.js" "" (None, world0) _ s' _ r Hd E)
    as [(s1 & H)|[(H & _)|(names & p & root & w1 & w2 & w3 & bytes & Hn & Hp & _)]].
  - exfalso. revert E. vm_compute. intros [= <- <-]. revert H.
    destruct s1 as [[[d|]|] w]; vm_compute; discriminate.
  - exfalso. revert H. vm_compute. discriminate.
  - exists names. split; [reflexivity|]. split; [exact Hn|exact Hp].
Defined.

(** ** The internal API *)

#[export] Instance demo_build : BuildInfo := {|
  cargo_pkg_version := "1.0.0"; build_hash := None; build_app_env := None;
  target_windows := false; target_linux := true; feature_mysql := false;
  feature_postgres := false |}.
#[export] Instance demo_api : ApiWorld cworld := {|
  header_name_ok := fun s => negb (is_empty s); db_last_logs := fun _ w => (Ok [], w) |}.

Definition guarded_config (docs : string) : InternalApiConfig :=
  let d := internal_api_default ∅ in {|
    ia_enabled := true; ia_auto_start := false; ia_host := "0.0.0.0"; ia_port := 61001;
    ia_base_url := ia_base_url d; ia_timeout_ms := ia_timeout_ms d; ia_log_mode := ia_log_mode d;
    ia_open_scalar_after_start := false; ia_restart_on_config_change := false;
    ia_expose_docs := true;
    ia_docs := {| docs_enabled := true; docs_path := docs; docs_public_url := None |};
    ia_security := {|
      sec_bind_host := "0.0.0.0"; sec_allow_public_network := true; sec_require_token := true;
      sec_token_header := "X-App-Token"; sec_token := Some "s3cret"; sec_cors_enabled := false;
      sec_docs_public := false; sec_docs_public_local := true |} |}.

Definition demo_api_state : InternalApiState := {|
  is_db_path := "/data/app.db"; is_data_dir := "/data"; is_started_at := "t"; is_host := "0.0.0.0";
  is_port := 61001; is_config := guarded_config "/docs" |}.

Definition guess : @request demo_requests :=
  @Build_request demo_requests RPost "/api/command" (Some "token=guess") [].

Lemma internal_api_access_witness : exists status body,
  serve ∅ demo_api_state (fun _ w => (JsonReply 200 Null, w))
    guess world0 = (Some (JsonReply status body), world0) /\
  status ∈ [503; 500; 401]%N.
Proof.
  destruct (internal_api_access ∅ demo_api_state (fun _ w => (JsonReply 200 Null, w))
    guess world0 eq_refl) as (status & body & H & _ & Hs).
  exists status, body. split; [exact H|exact Hs].
Defined.

Lemma internal_routes_routable_witness :
  routable (map fst (router (guarded_config "/docs"))) /\
  ~ routable (map fst (router (guarded_config "/health"))).
Proof.
  split.
  - apply (internal_routes_routable (guarded_config "/docs") eq_refl eq_refl).
    apply (bool_decide_unpack _). vm_compute. exact I.
  - intros H. apply (internal_routes_routable (guarded_config "/health") eq_refl eq_refl) in H.
    apply H. cbn. right. left.
Defined.
