(* ===== verification/AccessExamples.v ===== *)
(** * Concrete runs of the access commands

    The world of [AccountExamples] with one master, one profile and one
    company: every theorem on the access commands with hypotheses is applied
    in it, and the one way to lose the last master is shown to be real. *)

From S2P Require Import Prelude RustStr Json Payload Security NetAddr NetBind RuntimeSettings.
From S2P Require Import ServiceConfigs RuntimeStore AppLog Accounts AccessTables Auth Access.
From S2P Require Import AccessRules AccessSaves ConsoleExamples AccountExamples.

#[local] Open Scope string_scope.

Definition demo_profile : Perfil := {|
  p_id := 1; p_nome := "Operador"; p_descricao := None; p_perfil_master := 0; p_ativo := 1;
  p_created_at := "t"; p_updated_at := "t" |}.

Definition demo_company : Empresa := {|
  e_id := 1; e_nome := "Loja"; e_nome_fantasia := None; e_documento := Some "52998224725";
  e_inscricao_estadual := None; e_inscricao_municipal := None; e_telefone := None; e_email := None;
  e_responsavel_nome := None; e_responsavel_telefone := None; e_cep := None; e_endereco := None;
  e_numero := None; e_complemento := None; e_bairro := None; e_cidade := None; e_estado := None;
  e_observacoes := None; e_ativo := 1; e_created_at := "t"; e_updated_at := "t" |}.

Definition access_tables : Accounts :=
  with_seq {| sq_users := 1; sq_profiles := 1; sq_companies := 1; sq_licenses := 0 |}
    (with_companies (fun _ => [demo_company])
       (with_profile_perms (fun _ => [(1%Z, "dashboard:view")])
          (with_profiles (fun _ => [demo_profile]) demo_accounts))).
Definition access_db : db (W := cworld) := (access_tables, world0).

Definition new_user_payload : members :=
  [("nome", String_ "Ana"); ("login", String_ " ANA "); ("senha", String_ "segredo");
   ("profile_ids", Array [Number (PosInt 1)]); ("empresa_ids", String_ "1, x")].

(** The master's own form with the mark unticked, everything else in order. *)
Definition demotion_payload : members :=
  [("id", Number (PosInt 1)); ("nome", String_ "Admin"); ("login", String_ "admin");
   ("master_user", Bool false); ("profile_ids", Array [Number (PosInt 1)]);
   ("empresa_ids", Array [Number (PosInt 1)])].

Lemma access_tables_ok : typed access_tables.
Proof.
  assert (forall (A : Type) (x : A), NoDup [x]) as Hn by (intros; apply NoDup_singleton).
  split; cbn; try (apply Hn); repeat constructor; cbn;
    try (apply (bool_decide_unpack _); vm_compute; exact I); try apply not_elem_of_nil;
    try (by left); by right.
Qed.

Lemma access_tables_typed_witness :
  typed (fst (foldl (fun s cmd => run_access demo_state cmd s) access_db
    [UserSave "tok" new_user_payload; UserDelete "tok" 2])).
Proof. apply (access_tables_typed demo_state _ access_db). exact access_tables_ok. Defined.

(** Deleting keeps a master; the demotion of oneself, which the commands
    accept, leaves none. *)
Lemma master_survives_witness :
  (exists a, master_alive a (fst (run_access demo_state (UserDelete "tok" 1) access_db))) /\
  existsb (fun u => (u_master_user u =? 1)%Z)
    (acc_users (fst (run_access demo_state (UserSave "tok" demotion_payload) access_db))) = false.
Proof.
  split; [|vm_compute; reflexivity].
  destruct (master_survives demo_state (UserDelete "tok" 1) access_db) as [H|H].
  - exact access_tables_ok.
  - exists 1%Z, demo_user. split; [left|]. split; [reflexivity|]. split; reflexivity.
  - exact H.
  - exfalso. destruct H as (token & payload & a & H & _). discriminate.
Defined.

Definition rename_payload : members :=
  [("id", String_ "1"); ("nome", String_ "Ana"); ("login", String_ " ANA ");
   ("master_user", String_ "Sim"); ("empresa_ids", String_ "1, x")].


Definition profile_payload : members :=
  [("nome", String_ "Leitor"); ("permission_keys", String_ "logs:view,dashboard:view,logs:view")].

Lemma profile_save_permissions_witness : exists m s' i,
  profile_save demo_state "tok" profile_payload access_db = (Ok m, s') /\
  map snd (List.filter (fun r => (fst r =? i)%Z) (acc_profile_perms (fst s')))
  = ["dashboard:view"; "logs:view"].
Proof.
  destruct (run_Ok (profile_save demo_state "tok" profile_payload access_db)) as (m & s' & E);
    [vm_compute; reflexivity|].
  destruct (profile_save_permissions demo_state "tok" profile_payload access_db m s' E)
    as (a & i & _ & _ & _ & _ & Hp).
  exists m, s', i. split; [exact E|]. rewrite Hp. vm_compute. reflexivity.
Defined.

Lemma login_policy_bounds_witness : exists m s',
  user_policy_save demo_state "tok" [("login_min_length", String_ " 8 ")] access_db = (Ok m, s') /\
  load_login_min_length (fst s', world0) = (Ok 8%Z, (fst s', world0)).
Proof.
  destruct (run_Ok (user_policy_save demo_state "tok" [("login_min_length", String_ " 8 ")] access_db))
    as (m & s' & E); [vm_compute; reflexivity|].
  exists m, s'. split; [exact E|].
  destruct (proj2 (login_policy_bounds demo_state) _ _ _ _ _ E) as (a & v & _ & [= <-] & _ & _ & H).
  apply (H world0). reflexivity.
Defined.
