(* ===== verification/MigrationExamples.v ===== *)
(** * Concrete starts of the console

    The world of [AccountExamples]: a new file, one with accounts, and one with
    two logins that differ by case. *)

From S2P Require Import Prelude RustStr Json Security NetAddr NetBind RuntimeSettings.
From S2P Require Import ServiceConfigs RuntimeStore AppLog Accounts AccessTables Auth InternalRoutes.
From S2P Require Import Entities Schemas SchemaRules Migrations MigrationRules MigrationStart MigrationSettles.
From S2P Require Import ConsoleExamples AccountExamples AccessExamples.

#[local] Open Scope string_scope.

Definition no_rows : Accounts := {|
  acc_users := []; acc_sessions := []; acc_guard := None; acc_unlocks := []; acc_profiles := [];
  acc_profile_perms := []; acc_user_profiles := []; acc_companies := []; acc_user_companies := [];
  acc_settings := []; acc_licenses := []; acc_config := [];
  acc_seq := {| sq_users := 0; sq_profiles := 0; sq_companies := 0; sq_licenses := 0 |} |}.
Definition no_store : Store := {|
  sto_tables := []; sto_indexes := []; sto_departamentos := {| rows_of := []; rows_seq := 0 |};
  sto_funcoes := {| rows_of := []; rows_seq := 0 |}; sto_centros := {| rows_of := []; rows_seq := 0 |} |}.

Definition new_file : mstate (W := cworld) := ((no_rows, world0), no_store).
Definition with_accounts (t : Accounts) : mstate (W := cworld) := ((t, world0), no_store).

(** Two users the table allows, and no migration does. *)
Definition twins : Accounts :=
  with_users (fun l => l ++ [set_login_phone " admin" None demo_user])%list access_tables.

(** A new file gets one company, one profile and one account, that nobody can
    use; the tables and the indexes are all there. *)
Example new_file_start :
  let '(r, s) := migrate "app.db" new_file in
  r = Ok () /\
  map (fun u => (u_login u, u_ativo u, u_master_user u)) (acc_users (accounts_of s)) = [("legacy-disabled", 0, 0)%Z] /\
  map e_nome (acc_companies (accounts_of s)) = ["Empresa Demonstração"] /\
  length (acc_profile_perms (accounts_of s)) = 17 /\
  sto_tables (snd s) = sqlite_tables /\ sto_indexes (snd s) = sqlite_indexes.
Proof. vm_compute. repeat split; reflexivity. Qed.

(** A database of an earlier version gets the columns it lacks. *)
Definition old_store : Store := with_tables [
  table "empresas" [auto_id; required "nome" Text_; col "documento" Text_] []] no_store.
Example old_file_start :
  let s := snd (migrate "app.db" ((access_tables, world0), old_store)) in
  map (fun t => length (t_columns t)) (List.filter (fun t => String.eqb (t_name t) "empresas") (sto_tables (snd s))) = [12]
  /\ map u_login (acc_users (accounts_of s)) = ["admin"; "legacy-disabled"].
Proof. vm_compute. split; reflexivity. Qed.


Lemma fits_any (s : mstate (W := cworld)) :
  sto_tables (snd s) = [] -> columns_fit (snd s).
Proof. intros E. unfold columns_fit. rewrite E. apply Forall_forall. intros [n c] _. by left. Qed.

Lemma twins_room : room twins. Proof. repeat split; vm_compute; reflexivity. Qed.
Lemma access_room : room access_tables. Proof. repeat split; vm_compute; reflexivity. Qed.
Lemma twins_indexable : indexable twins. Proof. unfold indexable. repeat constructor. Qed.
Lemma access_indexable : indexable access_tables. Proof. unfold indexable. repeat constructor. Qed.
Lemma no_store_room : store_room no_store. Proof. repeat split. Qed.


Lemma migration_settles_witness :
  let s1 := snd (migrate "app.db" new_file) in
  snd (snd (migrate "app.db" s1)) = snd s1 /\
  identities (accounts_of (snd (migrate "app.db" s1))) = identities (accounts_of s1).
Proof.
  cbv zeta. destruct (migrate "app.db" new_file) as [[[]|e] s1] eqn:E.
  - cbn [snd]. destruct (migrate "app.db" s1) as [r s2] eqn:E2.
    exact (migration_settles "app.db" new_file s1 "app.db" r s2 E E2).
  - exfalso. pose proof (f_equal (fun p => is_ok (fst p)) E) as H. revert H. vm_compute. discriminate.
Defined.

