(* ===== verification/CompanyExamples.v ===== *)
(** * Concrete runs of the company commands

    The tables of [AccessExamples] with a public service that always answers;
    the theorems on companies and on the look-up of a CNPJ are applied in it. *)

From stdpp Require Import gmap.
From S2P Require Import Prelude RustStr Json Payload Security NetAddr NetBind RuntimeSettings.
From S2P Require Import ServiceConfigs RuntimeStore AppLog Accounts AccessTables Auth Access.
From S2P Require Import AccessRules Companies CompanyRules CompanyLookup LookupRules.
From S2P Require Import ConsoleExamples AccountExamples AccessExamples.

#[local] Open Scope string_scope.

#[export] Instance demo_upper : UnicodeUpper := {| unicode_uppercase := to_uppercase |}.

#[export] Instance demo_cnpj : CnpjWorld cworld := {|
  http_get := fun _ w => (Replied 200 (Ok "body"), w);
  json_from_str := fun _ => Ok (Object [("razao_social", String_ "ACME");
    ("estabelecimento", Object [("inscricoes_estaduais", Array [
      Object [("inscricao_estadual", String_ "111"); ("estado", Object [("sigla", String_ "SP")])]])])]) |}.

Lemma check_digits_unique_witness :
  is_valid_cpf "529.982.247-25" = true /\ is_valid_cnpj "11.222.333/0001-81" = true /\
  only_digits "529.982.247-25" = only_digits "52998224725".
Proof.
  split; [vm_compute; reflexivity|]. split; [vm_compute; reflexivity|].
  apply (proj1 (check_digits_unique "529.982.247-25" "52998224725")); vm_compute; reflexivity.
Defined.

Definition company_payload : members :=
  [("nome", String_ "Filial"); ("documento", String_ "11.222.333/0001-81"); ("estado", String_ "sp")].

Lemma company_documents_unique_witness : exists m s',
  company_save demo_state company_payload access_db = (Ok m, s') /\
  companies_ok (fst (foldl (fun s cmd => run_company demo_state cmd s) access_db
    [CompanySave company_payload; CompanySave company_payload; CompanyDelete 1])).
Proof.
  destruct (run_Ok (company_save demo_state company_payload access_db)) as (m & s' & E);
    [vm_compute; reflexivity|].
  exists m, s'. split; [exact E|].
  apply (proj1 (company_documents_unique demo_state _ access_db
    (conj (NoDup_singleton 1%Z) (NoDup_singleton "52998224725")))).
Defined.

Definition no_lookups : LookupRuntime := {| lr_providers := ∅; lr_cache := ∅ |}.

(** One request opens the window, two come at its end and three right after
    it: the theorem's bound holds, the limit of three does not. *)
Definition burst : list rate_event :=
  map (fun t => Turn "receita_ws" t 3) [0; 59; 59; 59; 60; 60; 60; 60]%Z.


Definition demo_lookup : St (lookup (W := cworld)) (result string members) :=
  company_lookup_cnpj demo_state "11.222.333/0001-81" (Some "sp").

(** The first answer is a service's, the second is the first one again, for
    another state. *)
Lemma lookup_answers_witness : exists m s1 m' s2,
  demo_lookup (access_db, no_lookups) = (Ok m, s1) /\
  company_lookup_cnpj demo_state "11222333000181" (Some "RJ") s1 = (Ok m', s2) /\
  obj_get "cache_hit" m = Some (Bool false) /\ m' = from_cache m.
Proof.
  destruct (run_Ok (demo_lookup (access_db, no_lookups))) as (m & s1 & E); [vm_compute; reflexivity|].
  destruct (run_Ok (company_lookup_cnpj demo_state "11222333000181" (Some "RJ") s1)) as (m' & s2 & E').
  { change s1 with (snd (Ok (E := string) m, s1)). rewrite <- E. vm_compute. reflexivity. }
  exists m, s1, m', s2. split; [exact E|]. split; [exact E'|].
  destruct (lookup_answers demo_state "11.222.333/0001-81" (Some "sp") (access_db, no_lookups) m s1 E) as (_ & now & w & w' & Hn & _ & Hfresh).
  destruct Hfresh as (p & body & payload & ttl & _ & _ & Hm & Httl & Hc).
  { intros (hit & Hhit & _). discriminate. }
  injection Hn as <- _.
  destruct (lookup_answers demo_state _ _ _ _ _ E') as (_ & now' & w2 & w2' & Hn' & Hhit & _).
  injection Hn' as <- _. change (only_digits "11222333000181") with (only_digits "11.222.333/0001-81") in Hhit.
  rewrite Hc in Hhit. split.
  - change m with (match fst (Ok (E := string) m, s1) with Ok x => x | Err _ => m end).
    rewrite <- E. vm_compute. reflexivity.
  - apply Hhit. cbn [lc_expires_at]. lia.
Defined.
