(* ===== verification/LicensingExamples.v ===== *)
(** * Concrete runs of the licensing commands

    The tables of [AccessExamples], where the master unlocks the licensing
    scope, saves the settings and starts a trial. *)

From stdpp Require Import gmap.
From S2P Require Import Prelude RustStr Json Payload LicenseModels LicenseClient LicenseDevice.
From S2P Require Import LicenseRegistration LicenseService LicenseExamples.
From S2P Require Import Security NetAddr NetBind RuntimeSettings ServiceConfigs RuntimeStore.
From S2P Require Import AppLog Accounts AccessTables Auth Access AccessRules Companies CompanyRules.
From S2P Require Import Support InternalRoutes Licensing LicensingRules.
From S2P Require Import ConsoleExamples AccountExamples AccessExamples CompanyExamples.

#[local] Open Scope string_scope.

(** The only text that is printed stands for the settings saved here. *)
Definition license_payload : members := [("licensing_disabled", String_ "Sim"); ("extra", Null)].
Definition saved_license : members := obj_extend (default_license_settings ∅ demo_host) license_payload.

#[export] Instance license_json : JsonText := {| json_of_text := fun _ => Some (Object saved_license) |}.
#[export] Instance license_clock : SqlClock cworld := {| sql_now := fun w => ("now", w) |}.

Definition unlocked_db : db (W := cworld) :=
  snd (support_guard_unlock demo_state ∅ "tok" "s3nha1" "sup" (Some "901063") (Some "licensing") access_db).

Lemma protected_settings_hidden_witness : exists m s',
  licensing_load_settings demo_state ∅ demo_host "tok" (Some "other") unlocked_db = (Ok m, s') /\
  obj_get "service_url" m = Some MASK.
Proof.
  destruct (run_Ok (licensing_load_settings demo_state ∅ demo_host "tok" (Some "other") unlocked_db))
    as (m & s' & E); [vm_compute; reflexivity|].
  exists m, s'. split; [exact E|].
  destruct (protected_settings_hidden demo_state ∅ demo_host "tok" (Some "other") unlocked_db m s'
    "service_url" E) as [H|(id & t & Ht & _ & (w & ul & Hul & Hl))]; [left|exact H|].
  exfalso. injection Ht as <-. vm_compute in Hul. apply list_elem_of_singleton in Hul as ->.
  revert Hl. unfold live_unlock. destruct (_ =? _)%Z; vm_compute; discriminate.
Defined.

Definition save_license : St (db (W := cworld)) (result string members) :=
  licensing_save_settings demo_state ∅ demo_host "tok" "uuid" license_payload.

Lemma settings_change_unlocked_witness : exists s',
  save_license unlocked_db = (Ok saved_license, s') /\
  exists id, unlocked (W := cworld) (fst unlocked_db) id "uuid" "licensing".
Proof.
  destruct (run_Ok (save_license unlocked_db)) as (m & s' & E); [vm_compute; reflexivity|].
  destruct (settings_change_unlocked demo_state ∅ demo_host "tok" "uuid" license_payload unlocked_db (Ok m) s' E)
    as ((id & _ & Hu) & Hr).
  - revert E. vm_compute. intros [= _ <-]. discriminate.
  - exists s'. split; [rewrite E; f_equal; exact (Hr eq_refl)|exists id; exact Hu].
Defined.

Lemma saved_settings_loaded_witness : exists s' m s3,
  save_license unlocked_db = (Ok saved_license, s') /\
  load_settings_from_db ∅ demo_host s' = (Ok m, s3) /\
  obj_get "licensing_disabled" m = Some (String_ "Sim").
Proof.
  destruct (run_Ok (save_license unlocked_db)) as (st & s' & E); [vm_compute; reflexivity|].
  assert (st = saved_license) as -> by (revert E; vm_compute; intros [= <- _]; reflexivity).
  destruct (run_Ok (load_settings_from_db ∅ demo_host s')) as (m & s3 & E3);
    [revert E; vm_compute; intros [= <-]; reflexivity|].
  exists s', m, s3. split; [exact E|]. split; [exact E3|].
  assert (json_of_text (json_to_string (Object saved_license)) = Some (Object saved_license)) as Hj
    by reflexivity.
  rewrite (saved_settings_loaded demo_state ∅ demo_host "tok" "uuid" license_payload unlocked_db
    saved_license s' s' m s3 "licensing_disabled" Hj E eq_refl E3).
  vm_compute. reflexivity.
Defined.

(** Two hosts that share nothing: the same key. *)
Definition other_host : HostInfo := {|
  host_target := Linux; host_hostname := Some "srv"; host_env := fun _ => Some "x";
  host_read_file := fun _ => Some "id-9"; host_consts_os := "linux"; host_consts_arch := "arm64";
  host_current_exe := None; host_net_entries := Some ["eth0"] |}.

Lemma device_key_everywhere_witness : exists i j,
  prepare_input demo_host demo_rhost config_default (build_check_input saved_license "123" "Loja" None) = Ok i /\
  prepare_input other_host demo_rhost config_default (build_check_input saved_license "123" "Loja" None) = Ok j /\
  in_device_key i = in_device_key j /\ in_machine_guid i <> in_machine_guid j.
Proof.
  eexists _, _. split; [vm_compute; reflexivity|]. split; [vm_compute; reflexivity|].
  split; [|vm_compute; discriminate].
  etransitivity; [|symmetry].
  - eapply (device_key_everywhere demo_host demo_rhost config_default saved_license "123" "Loja" None);
      [vm_compute; discriminate|vm_compute; reflexivity].
  - eapply (device_key_everywhere other_host demo_rhost config_default saved_license "123" "Loja" None);
      [vm_compute; discriminate|vm_compute; reflexivity].
Defined.

Definition trial : St (db (W := cworld)) (result string members) :=
  licensing_start_trial demo_state ∅ "tok" None.


Lemma licenses_consistent_witness :
  licenses_ok (fst (foldl (fun s cmd => run_license demo_state ∅ demo_host cmd s) access_db
    [StartTrial "tok" None; Company (CompanyDelete 1); StartTrial "tok" None])).
Proof.
  apply (licenses_consistent demo_state ∅ demo_host _ access_db).
  split_and!; [apply NoDup_nil_2|apply NoDup_nil_2|apply Forall_nil_2].
Defined.
