(* ===== verification/EntityExamples.v ===== *)
(** * Concrete runs of the generic records

    A database that lists the texts it was sent and holds the rows inserted,
    numbered from 1; every connection is new, so [last_insert_rowid()] read as a
    statement is 0. The theorems of [EntityRules] are applied in it. *)

From Stdlib Require Import Ascii.
From S2P Require Import Prelude RustStr Json NetAddr NetBind RuntimeSettings Security.
From S2P Require Import ServiceConfigs RuntimeStore AppLog DatabaseConfig Providers.
From S2P Require Import Entities EntityRules AccountExamples.

#[local] Open Scope string_scope.

Record eworld : Type := { ew_rows : list (list sql_value); ew_sent : list string }.

Definition send (sql : string) (w : eworld) : eworld :=
  {| ew_rows := ew_rows w; ew_sent := (ew_sent w ++ [sql])%list |}.
Definition add_row (row : list sql_value) (w : eworld) : eworld :=
  {| ew_rows := (ew_rows w ++ [row])%list; ew_sent := ew_sent w |}.

#[export] Instance entity_os : ConsoleOs eworld := {|
  os_exists := fun _ w => (true, w);
  os_create_dir_all := fun _ w => (Ok (), w);
  os_write := fun _ _ w => (Ok (), w);
  os_read_to_string := fun _ w => (Ok "", w);
  os_file := unit;
  os_open_truncate := fun _ w => (Ok (), w);
  os_write_all := fun _ _ w => (Ok (), w);
  dirs_config_local_dir := fun _ => None;
  os_current_dir := fun _ => None;
  db_conn := unit;
  db_open := fun _ w => (Ok (), w);
  db_select_settings := fun _ w => (Ok None, w);
  db_replace_settings := fun _ _ _ w => (Ok (), w);
  utc_now_rfc3339 := fun w => ("2024-01-01T00:00:00+00:00", w);
  settings_to_json := fun _ => Ok "{}";
  settings_of_json := fun env _ => Ok (settings_default env) |}.

#[export] Instance entity_log : LogOs eworld := {|
  db_execute := fun _ _ _ w => (Ok (), w);
  os_open_append := fun _ w => (Ok (), w);
  json_to_string := fun _ => "json" |}.

Definition starts (prefix sql : string) : bool := String.prefix prefix sql.

#[export] Instance entity_sql : SqlDb eworld := {|
  sql_execute := fun _ sql params w =>
    (Ok 1%N, if starts "INSERT INTO departamentos" sql then add_row params (send sql w) else send sql w);
  sql_query := fun _ sql _ w => (Ok (map (fun _ => []) (ew_rows w)), send sql w);
  sql_query_row := fun _ sql params w =>
    (Ok match params with
        | [] => Some [("id", json_i64 0)]
        | SqlInt (Z.pos n) :: _ =>
            _ ← ew_rows w !! Nat.pred (Pos.to_nat n); Some [("id", json_i64 (Z.pos n))]
        | _ => None
        end, send sql w);
  sql_last_insert_rowid := fun _ w => (Z.of_nat (length (ew_rows w)), w) |}.

#[export] Instance entity_combo : SqlCombo eworld := {|
  sql_combo := fun _ sql w => (Ok [], send sql w) |}.

#[export] Instance entity_random : Randomness eworld := {|
  rng_salt := fun w => ("salt", w);
  rng_alphanumeric := fun w => ("a"%char, w);
  rng_bytes := fun n w => (String.concat "" (repeat "b" n), w);
  utc_timestamp := fun w => (0%Z, w) |}.

#[export] Instance entity_drivers : DatabaseDrivers eworld := {|
  sqlite_conn := unit;
  sqlite_connect := fun _ w => (Ok (), w);
  sqlite_health := fun _ w => (Ok true, w);
  sqlite_migrate := fun _ w => (Ok (), w);
  mysql_health := fun _ w => (Err "mysql-db", w);
  mysql_migrate := fun _ w => (Err "mysql-db", w);
  postgres_health := fun _ w => (Err "postgres-db", w);
  postgres_migrate := fun _ w => (Err "postgres-db", w) |}.

#[export] Instance entity_external : ExternalDrivers eworld := {|
  mysql_db := false;
  postgres_db := false;
  my_conn := unit;
  my_pool := fun _ w => (Ok (), w);
  my_get_conn := fun _ w => (Ok (), w);
  my_exec := fun _ _ _ w => (Ok 0%N, w);
  my_rows := fun _ _ _ w => (Ok [], w);
  my_query_drop := fun _ _ w => (Ok (), w);
  pg_client := unit;
  pg_connect := fun _ w => (Ok (), w);
  pg_execute := fun _ _ _ w => (Ok 0%N, w);
  pg_rows := fun _ _ _ w => (Ok [], w);
  pg_simple_query := fun _ _ w => (Ok (), w);
  pg_batch_execute := fun _ _ w => (Ok (), w) |}.

#[export] Instance entity_fresh : FreshRowid.
Proof.
  split.
  - intros path w conn w1 row w2 _ [= <- _]. reflexivity.
  - intros d conn w row w1 [=].
Qed.

Definition entity_state : SharedState :=
  Some {| ctx_data_dir := "/data"; ctx_db_path := "/data/app.db" |}.
Definition empty_db : eworld := {| ew_rows := []; ew_sent := [] |}.

(** ** The theorems applied *)

Definition only_known (w : eworld) : Prop :=
  Forall (fun sql => sql ∈ provider_texts Sqlite \/ sql ∈ local_texts \/ sql ∈ combo_texts) (ew_sent w).

Lemma only_known_send sql w :
  sql ∈ provider_texts Sqlite \/ sql ∈ local_texts \/ sql ∈ combo_texts ->
  only_known w -> only_known (send sql w).
Proof. intros H Hw. apply Forall_app. by split; [|apply Forall_singleton]. Qed.

Lemma known_provider : provider_keeps (SqliteProvider "/data/app.db") only_known.
Proof.
  intros sql params H.
  split_and!; intros w a w' Hw E; injection E as _ <-; try destruct (starts _ _);
    by apply only_known_send; [left|].
Qed.

Lemma known_local : local_keeps only_known.
Proof.
  intros conn. split_and!; [|intros sql H w a w' Hw [= _ <-]|by intros w a w' Hw [= _ <-]|].
  - intros sql params H. split_and!; intros w a w' Hw E; injection E as _ <-;
      try destruct (starts _ _); apply only_known_send; tauto.
  - apply only_known_send; tauto.
  - intros. split; by intros w a w' Hw [= _ <-].
Qed.

(** A search that tries to end the statement. *)
Definition hostile : string := "x') OR 1=1; DROP TABLE usuarios; --".


Lemma entity_list_agrees_witness :
  ok (fst (entity_list entity_state "funcoes" " chefe " empty_db)) = Some [] /\
  ok (fst (entity_provider_list entity_state ∅ "funcoes" " chefe " empty_db)) = Some [].
Proof.
  assert (driver_from_str (current_provider_driver ∅) = Sqlite) as Hd by reflexivity.
  pose proof (entity_list_agrees entity_state ∅ "funcoes" " chefe " empty_db Hd) as H.
  destruct (entity_list entity_state "funcoes" " chefe " empty_db) as [a w1] eqn:E1.
  destruct (entity_provider_list entity_state ∅ "funcoes" " chefe " empty_db) as [b w2].
  destruct H as [_ H]. cbn [fst]. rewrite <- H.
  assert (ok a = Some []) as Ha by (change a with (fst (a, w1)); rewrite <- E1; vm_compute; reflexivity).
  exact (conj Ha Ha).
Defined.

Definition new_department : members := [("descricao", String_ "Compras"); ("ativo", Bool true)].

