(* ===== verification/AppExamples.v ===== *)
(** * Concrete runs of the commands over HTTP

    The database of [EntityExamples], which lists the texts it was sent, together
    with the tables of [AccountExamples]. Every table has the columns id, nome,
    senha_hash and updated_at. *)

From Stdlib Require Import Ascii.
From S2P Require Import Prelude RustStr Json NetAddr NetBind RuntimeSettings Security.
From S2P Require Import ServiceConfigs RuntimeStore AppLog Accounts Auth InternalRoutes.
From S2P Require Import DatabaseConfig Providers Entities EntityRules DbWorld AppTables AppCommands.
From S2P Require Import AppDispatch AppRules AppTexts ConsoleExamples AccountExamples EntityExamples.

#[local] Open Scope string_scope.

#[export] Instance web_statements : Statements eworld := {| sql_fault := fun w => (None, w) |}.

#[export] Instance web_auth : AuthWorld eworld := {|
  instant := Z;
  utc_now := fun w => (100%Z, w);
  plus_days := fun t n => (t + Z.of_N n)%Z;
  plus_minutes := fun t n => (t + Z.of_N n)%Z;
  to_rfc3339 := show_Z;
  uuid_v4 := fun w => ("uuid", w);
  unicode_lowercase := to_ascii_lowercase |}.

#[export] Instance web_json : JsonText := {| json_of_text := fun _ => None |}.

Definition web_db : Type := db (W := eworld).
Definition sent {A} (sql : string) (a : A) : St web_db A := fun s => (a, (fst s, send sql (snd s))).

#[export] Instance web_sql : SqlDb web_db := {|
  sql_execute := fun _ sql _ => sent sql (Ok 1%N);
  sql_query := fun _ sql _ => sent sql (Ok []);
  sql_query_row := fun _ sql params =>
    sent sql (Ok match params with SqlInt id :: _ => Some [("id", json_i64 id)] | _ => None end);
  sql_last_insert_rowid := fun _ s => (1%Z, s) |}.

Definition web_columns : list string := ["id"; "nome"; "senha_hash"; "updated_at"].
#[export] Instance web_names : SqlNames web_db := {|
  sql_names := fun _ _ s => (Ok web_columns, s) |}.

#[export] Instance web_drivers : DatabaseDrivers web_db := {|
  sqlite_conn := unit;
  sqlite_connect := fun _ w => (Ok (), w);
  sqlite_health := fun _ w => (Ok true, w);
  sqlite_migrate := fun _ w => (Ok (), w);
  mysql_health := fun _ w => (Err "mysql-db", w);
  mysql_migrate := fun _ w => (Err "mysql-db", w);
  postgres_health := fun _ w => (Err "postgres-db", w);
  postgres_migrate := fun _ w => (Err "postgres-db", w) |}.

#[export] Instance web_external : ExternalDrivers web_db := {|
  mysql_db := false;
  postgres_db := false;
  my_conn := unit;
  my_pool := fun _ w => (Ok (), w);
  my_get_conn := fun _ w => (Ok (), w);
  my_exec := fun _ _ _ w => (Ok 0%N, w);
  my_rows := fun _ _ _ w => (Ok [], w);
  my_query_drop := fun _ _ w => (Ok (), w);
  pg_client := unit;
  pg_connect := fun _ w => (Ok (), w);
  pg_execute := fun _ _ _ w => (Ok 0%N, w);
  pg_rows := fun _ _ _ w => (Ok [], w);
  pg_simple_query := fun _ _ w => (Ok (), w);
  pg_batch_execute := fun _ _ w => (Ok (), w) |}.

#[export] Instance web_services : NativeServices web_db := {|
  web_server_status := fun w => (None, w);
  webhook_service_status := fun w => (Ok (false, Null), w);
  webhook_service_stop := fun w => (Ok Null, w);
  webhook_events := fun w => ([], w);
  webhook_clear := fun w => ((), w);
  websocket_service_status := fun w => (Ok (false, Null), w);
  websocket_service_stop := fun w => (Ok Null, w);
  websocket_clients := fun w => ([], w);
  websocket_broadcast := fun _ w => (0%N, w) |}.

Definition web_state : web_db := (demo_accounts, empty_db).

(** ** The theorems applied *)

Lemma quote_ident_read_back_witness :
  read_ident (quote_ident (dquote ++ "; DROP") ++ " = ?1") = Some (dquote ++ "; DROP", " = ?1").
Proof. apply (quote_ident_read_back (dquote ++ "; DROP") " = ?1"). intros r. discriminate. Defined.


Lemma user_save_default_password_witness : exists p s',
  user_payload [("id", String_ "1"); ("nome", String_ "Ana")] web_state = (Ok p, s') /\
  record_id p = Some 1%Z /\
  exists hash, obj_get "senha_hash" p = Some (String_ hash) /\ verify_password "123456" hash = Ok true.
Proof.
  destruct (run_Ok (user_payload [("id", String_ "1"); ("nome", String_ "Ana")] web_state))
    as (p & s' & E); [vm_compute; reflexivity|].
  exists p, s'. split; [exact E|].
  destruct (user_save_default_password [("id", String_ "1"); ("nome", String_ "Ana")] "1"
    web_state p s' (or_intror eq_refl) eq_refl E)
    as (Hid & hash & Hh & Hv & _).
  split; [rewrite Hid; vm_compute; reflexivity|]. exists hash. split; [exact Hh|exact Hv].
Defined.

Lemma unlisted_commands_witness :
  (exists message, execute_command ∅ demo_api_state "centro_custos_list" [] web_state = (Err message, web_state)) /\
  is_ok (fst (execute_command ∅ demo_api_state "clientes_list" [] web_state)) = true.
Proof.
  split; [|vm_compute; reflexivity].
  refine (proj2 (proj2 (unlisted_commands ∅ demo_api_state "centro_custos" "_list" [] web_state _ _)) _).
  - apply (bool_decide_unpack _). vm_compute. exact I.
  - apply (bool_decide_unpack _). vm_compute. exact I.
  - vm_compute. reflexivity.
Defined.

Definition web_known (t c : string) : Prop := c ∈ web_columns.
Definition only_web (w : eworld) : Prop :=
  Forall (fun sql => web_text web_known sql \/ sql ∈ provider_texts Sqlite) (ew_sent w).

Lemma only_web_sent {A} sql (a : A) :
  web_text web_known sql \/ sql ∈ provider_texts Sqlite -> stable (world_only only_web) (sent sql a).
Proof.
  intros H s b s' Hs [= _ <-]. unfold world_only, only_web in *. cbn.
  apply Forall_app. by split; [|apply Forall_singleton].
Qed.

Lemma web_session_keeps : web_keeps ∅ demo_api_state only_web web_known.
Proof.
  assert (forall A (a : A), stable (world_only only_web) (fun s : web_db => (a, s))) as H0
    by (intros A a s b s' Hs [= _ <-]; exact Hs).
  assert (forall A (a : A), stable only_web (fun s : eworld => (a, s))) as H1
    by (intros A a s b s' Hs [= _ <-]; exact Hs).
  split; try (intros; try apply only_web_sent; auto; fail).
  - intros conn t _. exact (H0 _ (Ok web_columns)).
  - intros conn t s cols s' _ E. assert (cols = web_columns) as -> by (cbn in E; congruence).
    apply Forall_forall. intros c Hc. exact Hc.
  - intros conn. exact (H0 _ 1%Z).
  - intros p Hp sql params Hsql.
    assert (Ok (E := string) (SqliteProvider (W := web_db) "/data/app.db") = Ok p) as E by exact Hp.
    injection E as <-.
    split_and!; intros s a s' Hs H; injection H as _ <-;
      (refine (only_web_sent sql () _ s _ _ Hs eq_refl); by right).
  - intros conn dir input. unfold write_app_log.
    repeat first [apply stable_bind; [apply stable_lift, H1|intros] | apply stable_ret | case_match].
  - exact (H1 _ None).
  - intros path. exact (H1 _ (Ok ())).
  - exact (H1 _ 100%Z).
  - exact (H1 _ _).
  - exact (H1 _ "uuid").
  - exact (H1 _ "salt").
  - exact (H0 _ None).
  - split_and!; exact (H0 _ _).
  - split_and!; intros; exact (H0 _ _).
Qed.

