(* ===== verification/ServerExamples.v ===== *)
(** * The servers and the desktop on the concrete world

    The theorems of the files of the internal API, the web server, the process and
    the desktop program applied to the world of [ConsoleExamples], with one window
    kept in its file map. *)

From Stdlib Require Import Ascii.
From S2P Require Import Prelude RustStr Json NetAddr NetBind RuntimeSettings.
From S2P Require Import ServiceConfigs RuntimeStore AppLog WebhookRoutes InternalRoutes ServiceLifecycle.
From S2P Require Import DatabaseConfig CommandLine EventServices ApiServer WebAssets WebProxy WebServer.
From S2P Require Import Security EnvFile Console RuntimeCommands Startup Desktop ConsoleExamples AccountExamples.

#[local] Open Scope string_scope.

(** ** The internal API *)

#[export] Instance demo_api_server : ApiServerWorld cworld := {|
  spawn_api := fun _ l w => (Ok (l : SocketAddr), w);
  serve_api := fun _ _ w => (Ok (), w);
  http_get_json := fun _ w => (None, w);
  web_server_url := fun w => (None, w) |}.

Definition demo_api_config : InternalApiConfig :=
  ia_from_runtime_settings ∅ (settings_default ∅).

Lemma api_start_cases_witness :
  exists st s', api_start_background demo_state demo_api_config (None, demo_proc) = (Ok st, s') /\
    as_port st = 61001%N /\ api_server_status s' = (st, s').
Proof.
  destruct (run_Ok (api_start_background demo_state demo_api_config (None, demo_proc)))
    as (st & s' & E); [vm_compute; reflexivity|].
  exists st, s'. split; [exact E|].
  assert (slot_of (snd (api_start_background demo_state demo_api_config (None, demo_proc))) <> None)
    as Hn by (vm_compute; discriminate).
  rewrite E in Hn. cbn [snd] in Hn.
  destruct (api_start_cases demo_state demo_api_config (None, demo_proc) (Ok st) s' E)
    as [(e & H & _)|[(h & H & _)|(_ & Hst & _ & H)]];
    [vm_compute in H; discriminate H|discriminate H|].
  split; [|exact (H st Hn eq_refl)].
  unfold api_started in Hst. destruct (slot_of s') as [h|]; [|destruct (Hn eq_refl)].
  destruct Hst as (Hr & _ & _ & Hp & _). injection Hr as ->. exact Hp.
Defined.

(** ** The web server *)

#[export] Instance demo_proxy : ProxyWorld cworld := {|
  body_stream := string;
  to_bytes := fun b _ w => (Ok b, w);
  method_from_bytes := fun _ => Ok ();
  send_upstream := fun rq w =>
    (Ok {| up_status := 200; up_content_type := Some "text/plain"; up_body := Ok (ur_url rq) |}, w);
  header_value_ok := fun _ => true;
  build_response := fun r => Ok r |}.

#[export] Instance demo_web_server : WebServerWorld cworld := {|
  spawn_web := fun _ _ _ l _ _ w => (Ok (l : SocketAddr), w);
  abandon_thread := fun _ w => ((), w);
  probe_client := unit;
  build_probe_client := fun w => (Some (), w);
  probe_get := fun _ _ w => (None, w);
  build_http_client := fun w => (Ok (), w);
  serde_from_str := fun _ => None |}.

Definition token_settings : RuntimeSettings :=
  settings_default (<["TUNNARA_CONSOLE_API_TOKEN" := " t0ken "]> ∅).
Definition token_proxy : WebProxyState := {|
  ps_api_base_url := "http://127.0.0.1:61001/"; ps_api_token_header := internal_api_token_header token_settings;
  ps_api_token := internal_api_token token_settings;
  ps_command_state := {| is_db_path := "/data/app.db"; is_data_dir := "/data"; is_started_at := "now";
    is_host := "127.0.0.1"; is_port := 61001; is_config := ia_from_runtime_settings ∅ token_settings |} |}.
Definition client_headers : @header_map demo_requests :=
  [("Accept", "text/html"); ("Authorization", "Bearer x")].
Definition forwarded : request := {|
  rq_method := RGet; rq_path := "/logs"; rq_query := None;
  rq_headers := (upstream_headers token_proxy client_headers : @header_map demo_requests) |}.

Lemma proxy_passes_guard_witness :
  upstream_headers token_proxy client_headers = [("accept", "text/html"); ("X-App-Token", "t0ken")] /\
  token_guard (ia_from_runtime_settings ∅ token_settings) forwarded (mret (HtmlReply "ok")) world0
  = (HtmlReply "ok", world0).
Proof.
  assert (upstream_headers token_proxy client_headers
    = [("accept", "text/html"); ("X-App-Token", "t0ken")]) as Hu by (vm_compute; reflexivity).
  split; [exact Hu|].
  destruct (proxy_passes_guard ∅ token_settings token_proxy client_headers forwarded
    (fun _ _ _ => mret (Ok Null)) {| cr_command := "x"; cr_args := [] |} world0) as (_ & H & _).
  - reflexivity.
  - reflexivity.
  - vm_compute. reflexivity.
  - vm_compute. reflexivity.
  - vm_compute. reflexivity.
  - vm_compute. reflexivity.
  - intros n v. rewrite Hu. intros Hin.
    apply elem_of_cons in Hin as [Hin|Hin]; [injection Hin as -> ->; vm_compute; reflexivity|].
    apply list_elem_of_singleton in Hin. injection Hin as -> ->. vm_compute. reflexivity.
  - rewrite H. reflexivity.
Defined.

Lemma web_start_cases_witness :
  exists status st', web_start_background demo_state (None, demo_proc) = (Ok status, st') /\
    wst_running status = true /\ wst_port status = 61002%N.
Proof.
  destruct (run_Ok (web_start_background demo_state (None, demo_proc))) as (status & st' & E);
    [vm_compute; reflexivity|].
  exists status, st'. split; [exact E|].
  assert (local_web_enabled (fst (web_settings demo_state (None, demo_proc))) = true
    /\ local_web_port (fst (web_settings demo_state (None, demo_proc))) = 61002%N) as [Hen Hport]
    by (vm_compute; split; reflexivity).
  assert (fst (snd (web_start_background demo_state (None, demo_proc))) <> None) as Hn
    by (vm_compute; discriminate).
  rewrite E in Hn.
  destruct (web_start_cases demo_state (None, demo_proc) (Ok status) st' E)
    as (s & st1 & Es & _ & [(Hd & _)|[(_ & _ & h & Hh & _)|(_ & Hst & _)]]).
  - rewrite Es in Hen. cbn in Hen. rewrite Hen in Hd. discriminate Hd.
  - discriminate Hh.
  - unfold web_started in Hst. cbn in Hn. destruct (fst st') as [h|]; [|destruct (Hn eq_refl)].
    destruct Hst as (Hr & Hp & _). injection Hr as ->. split; [reflexivity|].
    rewrite Es in Hport. cbn in Hport. rewrite <- Hport. exact Hp.
Defined.

(** ** The process *)

#[export] Instance demo_app : AppWorld cworld := {|
  dirs_data_local_dir := fun _ => Some "/home/u/.local/share";
  bootstrap_of_json := fun _ => Ok None;
  json_pretty := fun _ => Ok "{}" |}.

#[export] Instance demo_drivers : DatabaseDrivers cworld := {|
  sqlite_conn := unit;
  sqlite_connect := fun _ w => (Ok (), w);
  sqlite_health := fun _ w => (Ok true, w);
  sqlite_migrate := fun _ w => (Ok (), w);
  mysql_health := fun _ w => (Err "mysql-db", w);
  mysql_migrate := fun _ w => (Err "mysql-db", w);
  postgres_health := fun _ w => (Err "postgres-db", w);
  postgres_migrate := fun _ w => (Err "postgres-db", w) |}.

(** A console before its start, with the web server switched off. *)
Definition demo_console : console (W := cworld) := {|
  co_app := demo_state; co_api := None; co_web := None; co_hook := None; co_sock := None;
  co_proc := (<["APP_WEB_DISABLED" := " Yes "]> demo_env, world0) |}.

Lemma cli_spellings_witness :
  cli_port (cli_parse ∅ ["--webhook"; "--port=8080"; "--websocket"]) = 8080%N /\
  cli_parse ∅ ["--webhook"; "--port=8080"; "--websocket"]
  = cli_parse ∅ ["--webhook"; "--port"; "8080"; "--websocket"].
Proof.
  split; [vm_compute; reflexivity|].
  refine (proj1 (cli_spellings ∅ ["--webhook"] "--port" set_port "8080" ["--websocket"] _ _)).
  - right. right. left.
  - apply (bool_decide_unpack _). vm_compute. exact I.
Defined.

Lemma init_with_data_dir_spec_witness :
  exists s', init_with_data_dir "/new" demo_console = (Ok (), s') /\
    state_db_path (co_app s') = Ok "/new/app.db".
Proof.
  destruct (run_Ok (init_with_data_dir "/new" demo_console)) as ([] & s' & E);
    [vm_compute; reflexivity|].
  exists s'. split; [exact E|].
  destruct (init_with_data_dir_spec "/new" demo_console (Ok ()) s' E) as (_ & _ & _ & H & _).
  exact H.
Defined.

Lemma disabled_services_stay_off_witness :
  co_web (snd (start_runtime_services ["tunnara"; "--start-services"] demo_console)) = None /\
  co_web (snd (start_requested_services (cli_parse ∅ ["--start-services"]) demo_console)) = None.
Proof.
  destruct (start_runtime_services ["tunnara"; "--start-services"] demo_console) as [u s1] eqn:E1.
  destruct (start_requested_services (cli_parse ∅ ["--start-services"]) demo_console) as [r s2] eqn:E2.
  destruct (disabled_services_stay_off _ _ _ u s1 r s2 E1 E2) as (_ & H & _).
  apply H. exists "APP_WEB_DISABLED". split; [right; left|vm_compute; reflexivity].
Defined.

(** ** Saving the settings while a webhook service runs *)

#[export] Instance demo_runtime : RuntimeWorld cworld := {|
  db_api_logs := fun _ w => (Ok [], w);
  build_timeout_client := fun _ w => (Ok (), w);
  http_get_reply := fun _ _ w => (Err "refused", w) |}.

Definition running_hook : RuntimeHandle (W := cworld) := {|
  rh_bind_host := "127.0.0.1"; rh_public_host := "127.0.0.1"; rh_port := 61003; rh_path := "/webhooks";
  rh_started_at := "t"; rh_thread := Some (SocketAddrV4 [127; 0; 0; 1]%N 61003); rh_loopback := None |}.
Definition hook_console : console (W := cworld) := {|
  co_app := demo_state; co_api := None; co_web := None; co_hook := Some running_hook; co_sock := None;
  co_proc := demo_proc |}.

Lemma settings_save_effect_witness :
  exists saved s', runtime_settings_save demo_settings hook_console = (Ok saved, s') /\ co_hook s' = None.
Proof.
  destruct (run_Ok (runtime_settings_save demo_settings hook_console)) as (saved & s' & E);
    [vm_compute; reflexivity|].
  exists saved, s'. split; [exact E|].
  destruct (settings_save_effect demo_settings hook_console (Ok saved) s' E) as (_ & _ & _ & H & _).
  apply H.
  assert (match fst (runtime_settings_save demo_settings hook_console) with
          | Ok sv => runs_by_itself (webhook_auto_start (ss_settings sv)) (webhook_enabled (ss_settings sv))
          | Err _ => true
          end = false) as Hr by (vm_compute; reflexivity).
  rewrite E in Hr. exact Hr.
Defined.

(** ** The desktop program *)

(** The main window is the entry "window" of the file map. *)
Definition windows (w : cworld) : list string :=
  match cw_files w !! "window" with Some _ => ["main"] | None => [] end.
Definition put_window (state l : string) (w : cworld) : result string unit * cworld :=
  if bool_decide (l ∈ windows w) then (Ok (), write_file "window" state w) else (Err "no window", w).

#[export] Instance demo_windows : WindowSystem cworld := {|
  get_webview_window := fun l w => (bool_decide (l ∈ windows w), w);
  win_show := put_window "visible";
  win_hide := put_window "hidden";
  win_unminimize := fun _ w => (Ok (), w);
  win_set_focus := fun _ w => (Ok (), w);
  win_maximize := fun _ w => (Ok (), w);
  win_destroy := fun l w => ((), if bool_decide (l ∈ windows w)
    then {| cw_busy := cw_busy w; cw_slept := cw_slept w; cw_files := delete "window" (cw_files w);
            cw_row := cw_row w |} else w);
  win_open := fun _ _ _ w => (Err "no second window", w);
  url_parse := fun s => Ok s;
  build_tray := fun _ _ w => (Ok (), w);
  app_exit := fun _ w => ((), w);
  timestamp_millis := fun w => (1700000000000%Z, w) |}.

Definition visible (w : cworld) (l : string) : bool :=
  bool_decide (l = "main" /\ cw_files w !! "window" = Some "visible").

Lemma put_window_spec state l w r w' : put_window state l w = (r, w') ->
  windows w' = windows w /\
  (r = Ok () -> l = "main" /\ cw_files w' !! "window" = Some state) /\ (l ∈ windows w -> r = Ok ()).
Proof.
  unfold put_window. case_bool_decide as Hin; intros [= <- <-]; [|split_and!; done].
  unfold windows in *. cbn. rewrite lookup_insert_eq. destruct (cw_files w !! "window"); [|by apply not_elem_of_nil in Hin].
  split_and!; [done| |done]. intros _. split; [by apply list_elem_of_singleton in Hin|done].
Qed.

#[export] Instance demo_window_laws : WindowLaws cworld.
Proof.
  refine {| existing := windows; on_screen := visible |}.
  - by intros l w b w' [= <- <-].
  - intros l w r w' (H1 & H2 & H3)%put_window_spec. split; [done|]. intros Hin _.
    apply bool_decide_eq_true. by apply H2, H3.
  - intros l w r w' (H1 & H2 & _)%put_window_spec. split; [done|]. intros Hr.
    apply bool_decide_eq_false. intros [_ Hv]. destruct r as [[]|]; [|done].
    destruct (H2 eq_refl) as [_ H]. rewrite H in Hv. discriminate Hv.
  - by intros l w r w' [= _ <-].
  - by intros l w r w' [= _ <-].
Defined.

Definition window_world0 : cworld := write_file "window" "visible" world0.
Definition desktop_console (pairs : list (string * string)) : console (W := cworld) := {|
  co_app := demo_state; co_api := None; co_web := None; co_hook := None; co_sock := None;
  co_proc := (foldl (fun env '(k, v) => <[k := v]> env) demo_env pairs, window_world0) |}.

(** The tray is off and closing to the tray is on: a close destroys the window. *)
Definition trayless : console (W := cworld) := desktop_console
  [("TUNNARA_CONSOLE_TRAY_ENABLED", "no"); ("TUNNARA_CONSOLE_TRAY_CLOSE_TO_TRAY", "true");
   ("TUNNARA_CONSOLE_API_DISABLED", "1"); ("APP_WEB_DISABLED", "1")].
Definition some_events : list desktop_event :=
  [EMenu "restore"; ESettingsSave demo_settings; ETrayClick MouseLeft ButtonUp].

Lemma hidden_windows_have_tray_witness :
  exists s1 s2, desktop_start ["tunnara"] trayless = (Ok false, s1) /\ on_events some_events s1 = ((), s2) /\
    existing (world_of s2) = ["main"] /\ existing (world_of (snd (close_window "main" s2))) = [].
Proof.
  destruct (desktop_start ["tunnara"] trayless) as [r s1] eqn:E1.
  assert (r = Ok false) as -> by (transitivity (fst (desktop_start ["tunnara"] trayless));
    [by rewrite E1|vm_compute; reflexivity]).
  destruct (on_events some_events s1) as [[] s2] eqn:E2. exists s1, s2.
  assert (s2 = snd (on_events some_events (snd (desktop_start ["tunnara"] trayless)))) as Hs
    by (rewrite E1; cbn [snd]; rewrite E2; reflexivity).
  split_and!; [reflexivity|exact E2|rewrite Hs; vm_compute; reflexivity|].
  rewrite (hidden_windows_have_tray ["tunnara"] some_events trayless s1 () s2 "main" E1 E2).
  rewrite Hs. vm_compute. reflexivity.
Defined.

(** Both on: the window is hidden twice and comes back. *)
Definition traying : console (W := cworld) := desktop_console
  [("TUNNARA_CONSOLE_TRAY_CLOSE_TO_TRAY", " TRUE ")].

Lemma close_to_tray_returns_witness :
  let s1 := snd (on_events (map ECloseRequested ["main"; "print-preview-1"; "main"]) traying) in
  existing (world_of s1) = ["main"] /\ on_screen (world_of s1) "main" = false /\
  on_screen (world_of (snd (on_event (EMenu "restore") s1))) "main" = true.
Proof.
  cbv zeta. destruct (on_events (map ECloseRequested ["main"; "print-preview-1"; "main"]) traying)
    as [[] t] eqn:E.
  cbn [snd].
  destruct (close_to_tray_returns ["main"; "print-preview-1"; "main"] traying () t) as [Hx Hback];
    [vm_compute; reflexivity|vm_compute; reflexivity|exact E|].
  assert (t = snd (on_events (map ECloseRequested ["main"; "print-preview-1"; "main"]) traying)) as Ht
    by (rewrite E; reflexivity).
  split_and!; [rewrite Hx; vm_compute; reflexivity|rewrite Ht; vm_compute; reflexivity|].
  destruct (on_event (EMenu "restore") t) as [[] s2] eqn:E2. cbn [snd].
  refine (proj2 (Hback _ _ (EMenu "restore") s2 _ E2)).
  - apply (bool_decide_unpack _). vm_compute. exact I.
  - rewrite Ht. vm_compute. reflexivity.
  - right. left. reflexivity.
Defined.
