(* ===== verification/IntegrationExamples.v ===== *)
(** * Integrations and the data directory on the concrete world

    The theorems of [Integrations] and [AppInfo] applied to the world of
    [ConsoleExamples]. *)

From Stdlib Require Import Ascii.
From S2P Require Import Prelude RustStr Utf8 Json Payload NetAddr NetBind RuntimeSettings Security.
From S2P Require Import ServiceConfigs RuntimeStore AppLog Accounts AccessTables AccessRules Providers Auth.
From S2P Require Import ConsoleExamples AccountExamples Console AppInfo ServerExamples.
From S2P Require Import Integrations.

#[local] Open Scope string_scope.

(** ** Services *)

#[export] Instance header_json : JsonText :=
  {| json_of_text := fun _ => Some (Object [("X-Key", String_ "k"); ("X-Count", Bool true)]) |}.

(** A service answers 204 unless the address is "down". *)
#[export] Instance demo_http : HttpSend cworld := {|
  http_send := fun rq w => (if rq_url rq =? "down" then Err "refused" else Ok 204%N, w);
  http_client := fun _ w => (Ok (), w);
  http_elapsed := fun w => (12%Z, w) |}.

Definition no_services : Integrations :=
  {| it_configs := []; it_configs_seq := 0; it_logs := []; it_logs_seq := 0 |}.
Definition saved_payload : members :=
  [("nome", String_ " ERP "); ("base_url", String_ "https://erp.example"); ("token", String_ "t0k");
   ("metodo_padrao", String_ "post"); ("headers", Object [("X-Key", String_ "k")])].
Definition istart : istate (W := cworld) := (no_services, world0).
Definition one_service : istate (W := cworld) := snd (integration_save ∅ demo_state saved_payload istart).

Lemma integrations_consistent_witness :
  consistent (fst (fold_left (fun s c => run_integration ∅ demo_state c s)
    [Save saved_payload; Test_ 1; Save saved_payload; Delete 1; List_; Test_ 2; Logs None] istart)) /\
  map il_integration_id (it_logs (fst (fold_left (fun s c => run_integration ∅ demo_state c s)
    [Save saved_payload; Test_ 1; Save saved_payload; Delete 1; List_; Test_ 2; Logs None] istart)))
  = [None; Some 2%Z].
Proof.
  split; [|vm_compute; reflexivity]. apply (integrations_consistent ∅ demo_state).
  split; [apply NoDup_nil_2|apply NoDup_nil_2|]. intros l id H. by apply not_elem_of_nil in H.
Defined.

(** The same service with another token. *)
Definition other_token : Integrations :=
  with_integrations (map (fun c => {|
    ic_id := ic_id c; ic_nome := ic_nome c; ic_tipo := ic_tipo c; ic_base_url := ic_base_url c;
    ic_metodo_padrao := ic_metodo_padrao c; ic_headers_json := ic_headers_json c;
    ic_token_encrypted := Some "other"; ic_ambiente := ic_ambiente c; ic_status := ic_status c;
    ic_timeout_seconds := ic_timeout_seconds c; ic_retry_attempts := ic_retry_attempts c;
    ic_ultimo_erro := ic_ultimo_erro c; ic_ultima_execucao_em := ic_ultima_execucao_em c;
    ic_ativo := ic_ativo c; ic_created_at := ic_created_at c; ic_updated_at := ic_updated_at c |}))
    (fst one_service).

Lemma tokens_not_listed_witness :
  map ic_token_encrypted (it_configs other_token) <> map ic_token_encrypted (it_configs (fst one_service)) /\
  fst (integration_list demo_state (fst one_service, world0)) = fst (integration_list demo_state (other_token, world0)).
Proof.
  split; [vm_compute; discriminate|].
  refine (proj1 (tokens_not_listed demo_state (fst one_service) other_token world0 None _)).
  vm_compute. reflexivity.
Defined.


Lemma integration_test_effect_witness : exists answer s',
  integration_test ∅ demo_state 1 one_service = (Ok answer, s') /\
  exists row now, it_configs (fst s')
    = it_configs (mark_integration 1 (call_result (Ok 204%N)) now (fst one_service)) /\ ic_id row = 1%Z.
Proof.
  destruct (run_Ok (integration_test ∅ demo_state 1 one_service)) as (answer & s' & E);
    [vm_compute; reflexivity|].
  exists answer, s'. split; [exact E|].
  destruct (integration_test_effect ∅ demo_state 1 one_service answer s' E)
    as (row & w1 & response & w2 & d & now & log & Hrow & Hs & _ & Hc & _).
  exists row, now. vm_compute in Hrow. injection Hrow as <-. cbn in Hs. injection Hs as <- _.
  split; [exact Hc|reflexivity].
Defined.

(** ** The data directory *)

#[export] Instance demo_tree : FileTree cworld := {|
  fs_copy := fun a b w => match cw_files w !! a with
                          | Some c => (Ok (), write_file b c w)
                          | None => (Err "missing", w)
                          end;
  fs_read_dir := fun _ w => (Ok [], w);
  fs_is_file := fun p w => (bool_decide (is_Some (cw_files w !! p)), w) |}.

Definition with_database : console (W := cworld) := {|
  co_app := demo_state; co_api := None; co_web := None; co_hook := None; co_sock := None;
  co_proc := (demo_env, write_file "/data/app.db" "rows" world0) |}.

