(* ===== verification/TunnelExamples.v ===== *)
(** * The tunnel: concrete runs

    A codec that numbers the envelopes, a world that counts identifiers, and short
    schedules of the bridge, to which the theorems are applied. *)

From Stdlib Require Import Ascii.
From stdpp Require Import countable.
From S2P Require Import Prelude RustStr Json NetAddr Tunnel Quic BridgeStreams.

#[local] Open Scope string_scope.

(** ** Numbering the envelopes *)

#[export] Instance protocol_eq_dec : EqDecision TunnelProtocol.
Proof. solve_decision. Defined.
#[export] Instance tunnel_eq_dec : EqDecision TunnelDefinition.
Proof. solve_decision. Defined.
#[export] Instance message_eq_dec : EqDecision ControlMessage.
Proof. solve_decision. Defined.
#[export] Instance envelope_eq_dec : EqDecision ControlEnvelope.
Proof. solve_decision. Defined.

#[export] Instance protocol_countable : Countable TunnelProtocol.
Proof.
  refine (inj_countable'
    (fun p => match p with Http => 0 | Https => 1 | Tcp => 2 | Udp => 3 | PrivateNetwork => 4 end%N)
    (fun n => match n with 0 => Http | 1 => Https | 2 => Tcp | 3 => Udp | _ => PrivateNetwork end%N)
    _).
  by intros [].
Defined.

#[export] Instance tunnel_countable : Countable TunnelDefinition.
Proof.
  refine (inj_countable'
    (fun t => (tun_id t, tun_name t, tun_protocol t, tun_target_host t, tun_target_port t,
               tun_public_hostname t, tun_public_port t))
    (fun '(i, n, p, h, o, ph, pp) => Build_TunnelDefinition i n p h o ph pp) _).
  by intros [].
Defined.

#[export] Instance message_countable : Countable ControlMessage.
Proof.
  refine (inj_countable'
    (fun m => match m with
      | Hello a v => inl (inl (inl (a, v)))
      | Heartbeat a s => inl (inl (inr (a, s)))
      | ConfigureTunnel t => inl (inr (inl t))
      | CloseTunnel t r => inl (inr (inr (t, r)))
      | Ack m => inr (inl m)
      | ErrorMessage c m => inr (inr (c, m))
      end)
    (fun s => match s with
      | inl (inl (inl (a, v))) => Hello a v
      | inl (inl (inr (a, s))) => Heartbeat a s
      | inl (inr (inl t)) => ConfigureTunnel t
      | inl (inr (inr (t, r))) => CloseTunnel t r
      | inr (inl m) => Ack m
      | inr (inr (c, m)) => ErrorMessage c m
      end) _).
  by intros [].
Defined.

#[export] Instance envelope_countable : Countable ControlEnvelope.
Proof.
  refine (inj_countable' (fun e => (env_id e, env_correlation_id e, env_message e))
    (fun '(i, c, m) => Build_ControlEnvelope i c m) _).
  by intros [].
Defined.

#[export] Instance demo_serde : Serde := {|
  envelope_of_json := fun text =>
    match n ← dec_from 0 text; decode (N.succ_pos n) with
    | Some e => Ok e
    | None => Err "invalid"
    end;
  envelope_to_json := fun e => Ok (show_N (Pos.pred_N (encode e)));
  json_text := fun _ => "error" |}.

#[export] Instance demo_serde_laws : SerdeLaws.
Proof.
  split. intros e text [= <-]. cbn. rewrite dec_from_show. cbn.
  assert (forall p, N.succ_pos (Pos.pred_N p) = p) as Hp
    by (intros [p|p|]; cbn; [done|apply Pos.succ_pred_double|done]).
  by rewrite Hp, decode_encode.
Qed.

#[export] Instance demo_tunnel : TunnelWorld N := {|
  uuid_new_v4 := fun n => (n, (n + 1)%N);
  uuid_text := show_N;
  ws_send := fun _ n => (true, n) |}.

Definition beat : ControlEnvelope :=
  {| env_id := 9; env_correlation_id := None; env_message := Heartbeat 3 1 |}.

Lemma coordinator_answers_in_order_witness :
  exists sent n, control_socket [Ok (Text (show_N (Pos.pred_N (encode beat)))); Ok Other;
      Ok (Text "x"); Ok Close; Ok (Text "late")] 40%N = (sent, n) /\
    Forall2 answers [show_N (Pos.pred_N (encode beat)); "x"] sent.
Proof.
  set (incoming := [Ok (Text (show_N (Pos.pred_N (encode beat)))); Ok Other; Ok (Text "x"); Ok Close;
                    Ok (Text "late")]).
  destruct (control_socket incoming 40%N) as [sent n] eqn:E. exists sent, n. split; [done|].
  assert (forall e, is_ok (envelope_to_json e) = true) as Ht by reflexivity.
  destruct (coordinator_answers_in_order incoming 40%N n sent Ht E) as [H Hl].
  assert (forall p (w : N), fst (ws_send p w) = true) as Hs by reflexivity.
  rewrite (Hl Hs) in H. exact H.
Defined.

(** ** Carried connections and the server's tasks *)

(** A request of two bytes and an empty answer, the answer's end first. *)
Definition arrived : list ProxyAction :=
  [Arrive TcpToQuic ["a"; "b"]%char; EndSource QuicToTcp; Read_ TcpToQuic 1; EndSource TcpToQuic].
Definition own_steps : list ProxyAction :=
  [Finish QuicToTcp; Write_ TcpToQuic 1; Read_ TcpToQuic 1; Write_ TcpToQuic 1; Finish TcpToQuic].

Lemma proxy_delivers_in_order_witness :
  exists p, runs proxy_step connected (arrived ++ take 2 own_steps)%list = Some p /\
    sink (direction TcpToQuic p) = ["a"]%char /\
    exists rest, ["a"; "b"]%char = (sink (direction TcpToQuic p) ++ rest)%list.
Proof.
  destruct (runs proxy_step connected (arrived ++ take 2 own_steps)%list) as [p|] eqn:E;
    [|vm_compute in E; discriminate E].
  exists p. split; [reflexivity|]. split; [vm_compute in E; injection E as <-; reflexivity|].
  destruct (proxy_delivers_in_order _ p E) as [H _]. destruct (H TcpToQuic) as (rest & Hr & _).
  exists rest. exact Hr.
Defined.

Lemma proxy_completes_witness :
  exists p p', runs proxy_step connected arrived = Some p /\ runs proxy_step p own_steps = Some p' /\
    5 <= proxy_work p /\ forall s, sink (direction s p') = arrivals s arrived.
Proof.
  destruct (runs proxy_step connected arrived) as [p|] eqn:E; [|vm_compute in E; discriminate E].
  destruct (runs proxy_step p own_steps) as [p'|] eqn:E'.
  2: { exfalso. vm_compute in E. injection E as <-. vm_compute in E'. discriminate E'. }
  exists p, p'. split_and!; [reflexivity|exact E'|..].
  all: destruct (proxy_completes arrived p own_steps p' E) as (Hl & _ & Hd & _);
    [vm_compute in E; injection E as <-; reflexivity
    |intros []; [right; right; right; left|right; left]
    |repeat constructor|exact E'|].
  - exact Hl.
  - apply Hd. vm_compute in E. injection E as <-. vm_compute in E'. injection E' as <-. reflexivity.
Defined.

(** Two streams; one fails while the connection lives, the other after its end. *)
Definition before_end : list ServeAction := [AcceptBi; AcceptBi; Join 1 (StreamError "lost")].
Definition after_end : list ServeAction := [Join 0 (StreamError "late"); Return_].


Lemma accept_in_order_witness :
  exists s, runs server_accept accepting [Incoming; Incoming; Take_; Incoming; Handshake false; Take_] = Some s /\
    seq 0 3 = (map fst (ac_done s) ++ opt_list (ac_handshake s) ++ ac_queue s)%list.
Proof.
  destruct (runs server_accept accepting [Incoming; Incoming; Take_; Incoming; Handshake false; Take_]) as [s|] eqn:E;
    [|vm_compute in E; discriminate E].
  exists s. split; [reflexivity|]. pose proof (accept_in_order _ s E) as H.
  vm_compute in E. injection E as <-. exact H.
Defined.
